(* ===== verification/_CoqProject ===== *)
-Q . S2P
Prelude.v
CString.v
CStringSpec.v
StringTheorems.v
Word.v
Pmm.v
PmmSpec.v
Spinlock.v
Slab.v
SlabSpec.v
Vmm.v
VmmSpec.v
VmmSpace.v
VmmKernel.v
VmmMaps.v
VmmDestroy.v
VmmRun.v
VmmDemo.v
VmmTheorems.v
MmTheorems.v
Desc.v
DescSpec.v
DescTheorems.v
Acpi.v
Kbd.v
DevTheorems.v
Isr.v
Args.v
Proc.v
ProcSpec.v
ProcTheorems.v
Trap.v
TrapTheorems.v
FsState.v
Ramfs.v
RamfsDir.v
RamfsOps.v
RamfsInv.v
RamfsSpec.v
RamfsUnlink.v
RamfsLookup.v
RamfsFile.v
Vfs.v
VfsRefs.v
VfsPath.v
VfsOps.v
VfsLinks.v
VfsSpec.v
RamfsReach.v
VfsMount.v
Demo.v
RamfsTheorems.v
VfsTheorems.v
Initramfs.v
InitramfsSpec.v
InitramfsTheorems.v
Exec.v
Fixes.v
ExecSpec.v
ExecRun.v
ExecEnter.v
ExecDemo.v
ExecTheorems.v
Selftest.v
SelftestTheorems.v
Boot.v
BootTheorems.v
