(* ===== verification/Prelude.v ===== *)
(** * Franklin: a verification development of the franklin kernel

    franklin is a small x86-64 kernel in C.  This development models its
    memory managers (kernel/pmm.c, kernel/slab.c, kernel/vmm.c), its lock
    (kernel/spinlock.c), its string routines (kernel/string.c), its processes
    (kernel/proc.c, kernel/switch.asm) with [exec] and its loader, the
    descriptor tables of the processor (kernel/gdt.c, kernel/idt.c), the way of
    an interrupt (kernel/isr.asm, kernel/interrupt.c, kernel/syscall.c), the
    timers and the local APIC (kernel/time.c, kernel/apic.c, kernel/io.c), the
    tables of the firmware (kernel/acpi.c), the keyboard (kernel/kbd.c,
    kernel/pic.c), its file systems: the virtual file system (fs/vfs.c), the ram
    file system below it (fs/ramfs/ramfs.c) and the archive that fills it
    (fs/ramfs/initramfs.c), and the start that puts them together
    (kernel/kernel.c, kernel/cpu.c).

    ** How code is modelled

    A function of the kernel is a function on an explicit state, in the monad
    [K] below: it returns a result and a state, stops in [panic], never
    returns ([Hang]), or leaves defined behaviour ([Fault]: NULL, freed or
    wild pointers, accesses outside an object, the wrong member of a union).
    Machine integers are [Z] with the wrap-around written out ([u8], [u16],
    [u32], [u64], [i32]).  A loop that is not structural takes fuel and ends
    in [Hang] without it; the theorems say how much is enough, or that the
    loop returns for every larger amount.

    ** The parts

    - CString.v, CStringSpec.v, StringTheorems.v: string.c over byte memory, a
      finite map from addresses in which a missing byte is 0.  The module
      [StrVal] has the same functions on string values; the file systems use
      those, and [strcmp_equality] ties the two together.
    - Word.v: little-endian words in byte memory.
    - Pmm.v, PmmSpec.v: the page allocator.  [taken] is the abstract view of
      the bitmap, one boolean per page; bitmap.h reads it by bytes and mmu.h by
      64-bit words, and [bitmap_views_agree] says they are one bitmap.  The
      memory map of the boot loader is an argument of [initbmap].
    - Slab.v, SlabSpec.v: the kernel allocator, on the same byte memory, with
      [struct slab] and [struct block] at the offsets the compiler gives them.
      Its lists are the [slab_list] and [linked_blocks] of the specification.
    - Spinlock.v: the operations as programs of atomic accesses to the lock
      word, and a machine of CPUs whose steps are the accesses of the same
      programs, in any interleaving.
    - Vmm.v: page tables and address spaces, on the byte memory of the
      allocators.  VmmSpec.v: the invariant [tables_ok], by which the pages in
      use as tables form a forest, and [mappage2]; VmmSpace.v: the abstract
      view [space], from virtual addresses to entries, and what mapping does to
      it; VmmKernel.v, VmmMaps.v, VmmDestroy.v: the kernel's map, new address
      spaces, and their destruction; VmmRun.v: allocations of several pages,
      with the reserve [tail] that makes them succeed; VmmDemo.v, VmmTheorems.v: states and
      properties.
    - Desc.v, DescSpec.v, DescTheorems.v: the interrupt and the global
      descriptor table, and what the processor reads from them: [gate_at] and
      [base_at] put a descriptor's pieces together.
    - Acpi.v, Kbd.v, DevTheorems.v: the walks over the tables of the firmware;
      the keyboard, its controller and the interrupt controller behind ports,
      where a device is a function of the history of the ports.  The abstract
      keyboard of DevTheorems.v has two bits, shift and caps lock.
    - Isr.v: isr.asm on the registers and the stack, from the delivery of an
      interrupt to [iretq], around any function [trap]; Trap.v, TrapTheorems.v:
      [trap] and its handlers, both together on one machine ([interrupted]),
      [sleep] with any interrupts during the wait, and the local APIC, whose
      registers are a history of accesses.
    - Args.v: [copyargs], which builds the stack of a new program.
    - Proc.v, ProcSpec.v, ProcTheorems.v: the process table, the scheduler and
      the switch of stacks.  The processor is part of the state: [switc] is the
      assembly routine, instruction by instruction, and a thread that is
      resumed is a processor whose instruction pointer is where the thread
      called [switc].
    - FsState.v: the objects of the file systems.  Every C structure is a
      record, every kind of object a finite map from addresses, so that
      aliasing, freeing and dangling pointers are what they are in C.
      [kalloc] and [kfree] are idealised there: a fresh object, never NULL; a
      freed object is no longer in its map, so that a use of it is a [Fault].
      The classes [vnodeops] and [vfsops] are the operation tables of vfs.h.
    - Ramfs.v: ramfs.c, function by function, and its instances of the tables.
      RamfsDir.v, RamfsOps.v, RamfsInv.v: the chains of entries and of nodes,
      and what the small operations do to them.  RamfsSpec.v: the invariant
      [ramfs_ok] and the abstract view [abs], which maps every directory to
      its list of names and nodes; RamfsUnlink.v, RamfsLookup.v, RamfsFile.v
      have the functional specifications of the other operations.
      RamfsReach.v: the calls as a step relation, and that every reachable
      state satisfies the invariant.
    - Vfs.v: vfs.c, over any instance of the tables.  VfsRefs.v: references
      and locks, with the invariant [vfs_inv K L s], where [K] are the vnodes
      whose lock is held; VfsPath.v: path lookup and its specification [walk];
      VfsOps.v, VfsLinks.v: the calls.  VfsSpec.v: trees as the abstract state, a step
      relation on trees, the refinement of every allowed call, and sessions of
      calls.  VfsMount.v: mounting the root establishes the invariant.
    - Initramfs.v, InitramfsSpec.v, InitramfsTheorems.v: the loop over the
      archive in byte memory, whose files go through the calls of Vfs.v.
    - Exec.v, ExecSpec.v, ExecRun.v, ExecEnter.v, ExecDemo.v, ExecTheorems.v:
      [loadelf] and [exec], on one state of file systems, processes and memory;
      [image] is a valid ELF file, [loaded] a segment in an address space,
      [prepared] what [exec] has built when it goes on to the task state
      segment, [entered] what it leaves.  Fixes.v: which parts of the state
      operations leave alone, as rules for a hint database.
    - Selftest.v, SelftestTheorems.v: [test_slab], [ramfs_t] and [printdir].
    - Boot.v, BootTheorems.v: the states of all components as one [machine],
      [kmain], the threads and [cpu] on it, and an abstract interrupt controller.
    - Demo.v: states the theorems are applied to.
    - MmTheorems.v, RamfsTheorems.v, VfsTheorems.v, StringTheorems.v: the
      properties, each with an application to a concrete state.

    ** What the theorems show

    The refinement of the VFS: create, mkdir, open, close, write, read, link
    and unlink (of a file that keeps another name), in any order, on paths of
    plain components that meet no symbolic link, return without panic, deadlock or access to freed memory and do what a step on
    trees says.  Every state the ramfs reaches has intact directories, link
    counts that are the numbers of names, live nodes and free locks.  The page
    allocator returns the lowest free run and gives back what it took; the
    lock excludes.  Mapping a page is "insert if absent" on the address space;
    the kernel's map is what the segments say, every new address space has its
    upper half, and destroying one frees exactly its tables and pages.  A new
    process starts at its entry, a switch of stacks resumes where the thread
    left off, and the timer runs the next runnable process.  Every file of the
    boot archive can be opened and read after [initramfs]; the keyboard shows
    the byte of each key pressed.  Objects of the ramfs keep their types.  A valid ELF file is
    in the new address space, byte for byte, with the permissions its header
    asks for, and [exec] ends in user mode at its entry point, on a mapped stack
    with its arguments.  An interrupt whose handler leaves the saved registers alone is
    invisible to what it interrupts; the interrupt table, the two controllers,
    isr.asm and [trap] lead the timer and the keyboard to their handlers and back.

    Other theorems state behaviour that is surely not meant: the lookup by
    prefix, the use of a freed node by [ramfs_inactive], the self-deadlock on
    ".." in the root, the error of [vfs_symlink], the blocks [kfree] does not
    find, the page a large allocation loses, the slab whose last block leaves
    its page, the [trylock] that takes nothing, the scheduler
    that finds the interrupted process first, the process slot given out
    twice, the task state segment without a byte of its address, the [exec]
    that waits for the lock of its own thread, the [sleep] that never returns
    once a key is pressed, the program that [exec] starts with that lock held, the zeros a program does not
    find after its data, the freed memory that [kmain] reads in its own test,
    the pages [cpu] does not give back.

    ** Bounds and fuel

    [palloc] takes the number of restarts of its scan: the number of a page at
    which a free run starts is enough.  [kalloc] and [kfree] take the length of
    the list of slabs.  [grow] takes 65 tests of the size: after 64
    doublings it is 0 modulo 2^64, and stays so.  The path
    walk takes the length of the path.  [fuel] of [namei] and of crossing
    mount points counts symbolic links and mounts; one is enough where the
    theorems exclude both.  [map_segment] and [map_low] take the number of
    pages of the range and one more; the search of the scheduler takes two
    rounds.  [sleep] takes a test of the counter for every unit of fuel: enough
    tests to see as many interrupts as it waits for.

    The theorems on the file systems assume that fresh memory reads as zero
    ([rk_zero] of [ramfs_ok]), as it does until memory is used again; the
    definitions do not, [fs_ram] is what an allocation finds.

    ** Not modelled

    The terminal behind [print]: the console is the list of what was shown.
    kernel/limine.h, the header of the boot loader, but for the memory map: what
    the boot loader provides is a parameter.  The instructions cli, sti, hlt and
    ltr (but for [cli_hlt] in [trap]), the error code that the processor pushes
    for some exceptions, and the effect of CR3 ([switchvm] stores it): the code runs on the
    direct map that every address space shares.  fs/ramfs/ramfs_subr.c, unused copies of two functions.  elf.h,
    which is not in the repository: its layout is a parameter of Exec.v.  An
    interrupt runs between two steps of the code it interrupts only in Isr.v and
    in [sleep]; elsewhere a call runs to its end, and a lock that is held when
    it is acquired is a [Hang]. *)

From stdpp Require Export base tactics numbers list gmap strings.
From Stdlib Require Export ZArith Lia.

#[export] Set Default Goal Selector "!".

Declare Scope kernel_scope.
Delimit Scope kernel_scope with kernel.

(** ** Outcomes of a run *)

(** What goes wrong when the kernel leaves defined behaviour. *)
Inductive fault :=
  | NullDeref          (* a NULL pointer is dereferenced *)
  | DanglingPtr        (* the pointer names no live object: wild, or freed *)
  | Uninitialised      (* a local variable is read before it is written *)
  | OutOfBounds        (* an access outside the object the pointer came from *)
  | WrongUnionMember   (* a union member other than the stored one is used *)
  | Overflow           (* a signed computation leaves the range of its type *)
  | BadCall.           (* a function is called through a type that is not its own *)

#[export] Instance fault_eq_dec : EqDecision fault.
Proof. solve_decision. Defined.

(** A run returns, stops in [panic] (kernel/panic.c: print, then [cli; hlt]),
    spins forever, or leaves defined behaviour. *)
Inductive outcome (A : Type) :=
  | Ok (a : A)
  | Panic (msg : string)
  | Hang
  | Fault (f : fault).
Arguments Ok {A} _.
Arguments Panic {A} _.
Arguments Hang {A}.
Arguments Fault {A} _.

(** ** The state and outcome monad *)

(** A kernel function over a state [S]: explicit state passing with the
    outcomes above. *)
Definition K (S A : Type) : Type := S → outcome (A * S).

#[export] Instance K_ret S : MRet (K S) := λ A a s, Ok (a, s).

#[export] Instance K_bind S : MBind (K S) := λ A B k m s,
  match m s with
  | Ok (a, s') => k a s'
  | Panic msg => Panic msg
  | Hang => Hang
  | Fault f => Fault f
  end.

Definition get {S} : K S S := λ s, Ok (s, s).
Definition modify {S} (f : S → S) : K S unit := λ s, Ok (tt, f s).
Definition panic {S A} (msg : string) : K S A := λ _, Panic msg.
Definition hang {S A} : K S A := λ _, Hang.
Definition fail {S A} (f : fault) : K S A := λ _, Fault f.

(** Run [m] when [b] holds. *)
Definition when {S} (b : bool) (m : K S unit) : K S unit :=
  if b then m else mret tt.

Lemma bind_ok {S A B} (m : K S A) (k : A → K S B) s a s' :
  m s = Ok (a, s') → (m ≫= k) s = k a s'.
Proof. intros H. unfold mbind, K_bind. by rewrite H. Qed.

Lemma bind_fault {S A B} (m : K S A) (k : A → K S B) s f :
  m s = Fault f → (m ≫= k) s = Fault f.
Proof. intros H. unfold mbind, K_bind. by rewrite H. Qed.

Lemma bind_hang {S A B} (m : K S A) (k : A → K S B) s :
  m s = Hang → (m ≫= k) s = Hang.
Proof. intros H. unfold mbind, K_bind. by rewrite H. Qed.

Lemma bind_assoc {S A B C} (m : K S A) (k : A → K S B) (k' : B → K S C) s :
  ((m ≫= k) ≫= k') s = (m ≫= λ a, k a ≫= k') s.
Proof. unfold mbind, K_bind. by destruct (m s) as [[a s']| | |]. Qed.

Lemma bind_ext {S A B} (m m' : K S A) (k k' : A → K S B) s :
  m s = m' s → (∀ a s', k a s' = k' a s') → (m ≫= k) s = (m' ≫= k') s.
Proof. intros Hm Hk. unfold mbind, K_bind. rewrite Hm. by destruct (m' s) as [[a s']| | |]. Qed.

Lemma bind_modify {S B} (f : S → S) (k : unit → K S B) s : (modify f ≫= k) s = k tt (f s).
Proof. done. Qed.

Lemma bind_get {S B} (k : S → K S B) s : (get ≫= k) s = k s s.
Proof. done. Qed.

Lemma bind_inv {S A B} (m : K S A) (k : A → K S B) s r :
  (m ≫= k) s = Ok r → ∃ a s', m s = Ok (a, s') ∧ k a s' = Ok r.
Proof.
  unfold mbind, K_bind. destruct (m s) as [[a s']| | |]; naive_solver.
Qed.

(** [for (i = start; i < start + k; ++i) body] *)
Fixpoint for_from {S} (k : nat) (i : Z) (body : Z → K S unit) : K S unit :=
  match k with
  | O => mret tt
  | S k => body i;; for_from k (i + 1)%Z body
  end.

(** A loop whose body preserves [I] and returns, returns. *)
Lemma for_from_ok {S} (I : Z → S → Prop) k i body s :
  (∀ j s, (i ≤ j < i + Z.of_nat k)%Z → I j s → ∃ s', body j s = Ok (tt, s') ∧ I (j + 1)%Z s') →
  I i s → ∃ s', for_from k i body s = Ok (tt, s') ∧ I (i + Z.of_nat k)%Z s'.
Proof.
  revert i s. induction k as [|k IH]; intros i s Hb Hi; cbn [for_from].
  - exists s. split; [done|]. by rewrite Z.add_0_r.
  - destruct (Hb i s) as (s1 & E1 & H1); [lia|done|].
    destruct (IH (i + 1)%Z s1) as (s2 & E2 & H2); [intros j s0 Hj; apply Hb; lia|done|].
    exists s2. split; [by rewrite (bind_ok _ _ _ _ _ E1)|].
    by replace (i + Z.of_nat (Datatypes.S k))%Z with (i + 1 + Z.of_nat k)%Z by lia.
Qed.

(** ** Machine integers *)

(** C's unsigned types are [Z] reduced modulo their width; a signed value
    obtained by conversion is the representative of least magnitude. *)
Definition u8 (z : Z) : Z := z `mod` 2 ^ 8.
Definition u16 (z : Z) : Z := z `mod` 2 ^ 16.
Definition u32 (z : Z) : Z := z `mod` 2 ^ 32.
Definition u64 (z : Z) : Z := z `mod` 2 ^ 64.
Definition i8 (z : Z) : Z := (z + 2 ^ 7) `mod` 2 ^ 8 - 2 ^ 7.
Definition i32 (z : Z) : Z := (z + 2 ^ 31) `mod` 2 ^ 32 - 2 ^ 31.

Notation "a +w b" := (u64 (a + b)) (at level 50, left associativity) : kernel_scope.
Notation "a -w b" := (u64 (a - b)) (at level 50, left associativity) : kernel_scope.

Lemma u64_small z : (0 ≤ z < 2 ^ 64)%Z → u64 z = z.
Proof. apply Z.mod_small. Qed.

Lemma u64_range z : (0 ≤ u64 z < 2 ^ 64)%Z.
Proof. by apply Z.mod_pos_bound. Qed.

Lemma u32_small z : (0 ≤ z < 2 ^ 32)%Z → u32 z = z.
Proof. apply Z.mod_small. Qed.

Lemma u8_small z : (0 ≤ z < 2 ^ 8)%Z → u8 z = z.
Proof. apply Z.mod_small. Qed.

Lemma u8_range z : (0 ≤ u8 z < 2 ^ 8)%Z.
Proof. by apply Z.mod_pos_bound. Qed.

Lemma i32_small z : (- 2 ^ 31 ≤ z < 2 ^ 31)%Z → i32 z = z.
Proof. intros H. unfold i32. rewrite Z.mod_small; lia. Qed.

Lemma u64_add_l a b : u64 (u64 a + b) = u64 (a + b).
Proof. apply Zplus_mod_idemp_l. Qed.

(** Closes a goal about 64-bit arithmetic that does not wrap. *)
Ltac nowrap := repeat rewrite u64_small; try lia.

(** ** Errors *)

(** The errno values the file system returns, negated, as C does. *)
Definition ENOENT : Z := 2.
Definition EBUSY : Z := 16.
Definition EEXIST : Z := 17.
Definition ENOTDIR : Z := 20.
Definition EISDIR : Z := 21.
Definition EINVAL : Z := 22.
Definition ENOTEMPTY : Z := 39.

(** ** Pointers *)

(** Object addresses. *)
Abbreviation ptr := Z (only parsing).
Definition NULL : ptr := 0%Z.
