(* ===== verification/CString.v ===== *)
(** * kernel/string.c

    The memory and string routines over byte-addressed memory, and the view of
    C strings as values that the file system is written with.  [Mem] is the
    memory, [Str] translates the routines of kernel/string.c, [StrVal] has
    their counterparts on string values, and the lemmas relate the two. *)

From S2P Require Import Prelude.
From Stdlib Require Import Ascii.

Local Open Scope Z_scope.

(** ** Byte memory *)

Module Mem.

(** Bytes by address; an address that is not in the map holds 0. *)
Abbreviation mem := (gmap Z Z).

Definition rd8 (m : mem) (a : Z) : Z := u8 (default 0 (m !! a)).
Definition wr8 (m : mem) (a v : Z) : mem := <[a := u8 v]> m.

Lemma u8_u8 v : u8 (u8 v) = u8 v.
Proof. apply Z.mod_mod. done. Qed.

Lemma rd8_range m a : 0 ≤ rd8 m a < 2 ^ 8.
Proof. apply u8_range. Qed.

Lemma rd8_wr8 m a v b : rd8 (wr8 m a v) b = if decide (a = b) then u8 v else rd8 m b.
Proof. unfold rd8, wr8. rewrite lookup_insert. case_decide; [apply u8_u8|done]. Qed.

Lemma rd8_wr8_eq m a v : rd8 (wr8 m a v) a = u8 v.
Proof. rewrite rd8_wr8. by case_decide. Qed.

Lemma rd8_wr8_ne m a v b : a ≠ b → rd8 (wr8 m a v) b = rd8 m b.
Proof. intros. rewrite rd8_wr8. by case_decide. Qed.

End Mem.
Export Mem.

(** ** The routines *)

Module Str.

(** [for (i = 0; i < n; ++i) d[i] = s[i];] from iteration [i] on *)
Fixpoint copy_loop (k : nat) (i d s : Z) (m : mem) : mem :=
  match k with
  | O => m
  | S k => copy_loop k (i + 1) d s (wr8 m (d + i) (rd8 m (s + i)))
  end.

Definition memcpy (dest src n : Z) (m : mem) : mem := copy_loop (Z.to_nat n) 0 dest src m.

Fixpoint set_loop (k : nat) (i s c : Z) (m : mem) : mem :=
  match k with
  | O => m
  | S k => set_loop k (i + 1) s c (wr8 m (s + i) c)
  end.

Definition memset (s c n : Z) (m : mem) : mem := set_loop (Z.to_nat n) 0 s c m.

Definition memzero (p n : Z) (m : mem) : mem := memset p 0 n m.

(** [while (++n && s[n]) ;] *)
Fixpoint strlen_loop (fuel : nat) (n s : Z) (m : mem) : outcome Z :=
  match fuel with
  | O => Hang
  | S fuel =>
      let n := u64 (n + 1) in
      if decide (n = 0) then Ok 0
      else if decide (rd8 m (s + n) = 0) then Ok n
      else strlen_loop fuel n s m
  end.

(** Only the [size m] bytes of the map can be nonzero: one more iteration
    than that always finds the end. *)
Definition strlen (s : ptr) (m : mem) : outcome Z := strlen_loop (S (size m)) 0 s m.

(** Bytes [i .. i + k - 1] of both strings agree. *)
Fixpoint same_loop (k : nat) (i s s2 : Z) (m : mem) : bool :=
  match k with
  | O => true
  | S k => if decide (rd8 m (s + i) = rd8 m (s2 + i)) then same_loop k (i + 1) s s2 m else false
  end.

Definition strcmp (s s2 : ptr) (m : mem) : outcome Z :=
  match strlen s m, strlen s2 m with
  | Ok len, Ok len2 =>
      if decide (len ≠ len2) then Ok (-1)
      else if same_loop (Z.to_nat len) 0 s s2 m then Ok 0 else Ok (-1)
  | _, _ => Hang
  end.

Definition strncmp (s s2 : ptr) (n : Z) (m : mem) : Z :=
  if same_loop (Z.to_nat n) 0 s s2 m then 0 else -1.

(** [do { if ( *s == c) return s; } while ( *s++); return s - 1;]  A [char] is signed. *)
Fixpoint strchr_loop (fuel : nat) (s c : Z) (m : mem) : outcome ptr :=
  match fuel with
  | O => Hang
  | S fuel =>
      if decide (i8 (rd8 m s) = c) then Ok s
      else if decide (rd8 m s = 0) then Ok s
      else strchr_loop fuel (s + 1) c m
  end.

Definition strchr (s : ptr) (c : Z) (m : mem) : outcome ptr :=
  strchr_loop (S (size m)) s c m.

Definition strcpy (s s2 : ptr) (m : mem) : outcome mem :=
  match strlen s2 m with
  | Ok i => Ok (wr8 (copy_loop (Z.to_nat i) 0 s s2 m) (s + i) 0)
  | _ => Hang
  end.

(** [ka] stands for [kalloc] of kernel/slab.c. *)
Definition strldup (ka : Z → K mem ptr) (s : ptr) (len : Z) : K mem ptr :=
  ss ← ka (u64 (len + 1));
  modify (λ m, wr8 (copy_loop (Z.to_nat len) 0 ss s m) (ss + len) 0);;
  mret ss.

Definition strdup (ka : Z → K mem ptr) (s : ptr) : K mem ptr := λ m,
  match strlen s m with
  | Ok len => strldup ka s len m
  | _ => Hang
  end.

(** [itoa]: [arr] is filled with the digits, least significant first, and
    written to [s] in the opposite order.  A 32-bit [x] has at most ten
    digits.  C's [%] and [/] truncate. *)
Fixpoint itoa_digits (fuel : nat) (x : Z) : list Z :=
  match fuel with
  | O => []
  | S fuel => let r := Z.rem x 10 in
      let x' := Z.quot x 10 in
      r :: (if decide (x' = 0) then [] else itoa_digits fuel x')
  end.

Fixpoint write_list (a : Z) (l : list Z) (m : mem) : mem :=
  match l with
  | [] => m
  | b :: l => write_list (a + 1) l (wr8 m a b)
  end.

Definition itoa (x : Z) (s : ptr) (m : mem) : mem :=
  write_list s (map (λ d, d + 48) (rev (itoa_digits 10 x))) m.

End Str.

(** ** Strings as values *)

Module StrVal.

(** A [char *] whose bytes are not written while it is in use is the string
    that starts there, up to its terminator.  [strlen] starts its scan at
    index 1, so on the empty string it leaves the object. *)
Definition cstrlen {S} (s : string) : K S nat :=
  match s with
  | EmptyString => fail OutOfBounds
  | _ => mret (String.length s)
  end.

Definition cstrcmp {S} (s s2 : string) : K S Z :=
  cstrlen s;; cstrlen s2;; mret (if decide (s = s2) then 0 else -1).

(** The comparison does not stop at a terminator. *)
Fixpoint cstrncmp {S} (s s2 : string) (n : nat) : K S Z :=
  match n with
  | O => mret 0
  | S n =>
      match s, s2 with
      | String a s, String b s2 => if decide (a = b) then cstrncmp s s2 n else mret (-1)
      | EmptyString, EmptyString => if decide (n = O) then mret 0 else fail OutOfBounds
      | _, _ => mret (-1)
      end
  end.

Definition cstrldup {S} (s : string) (len : nat) : K S string :=
  if decide (len ≤ String.length s)%nat then mret (String.substring 0 len s) else fail OutOfBounds.

Definition cstrdup {S} (s : string) : K S string := cstrlen s;; mret s.

End StrVal.
