(* ===== verification/CStringSpec.v ===== *)
(** * What the routines of kernel/string.c compute

    The copy and fill loops, [strlen] with its termination and its wrong
    answer on the empty string, [strcmp], [strcpy] and [itoa].  [cstr] relates
    byte memory to the string values the file system is written with: on
    nonempty strings the routines and the functions of [StrVal] agree. *)

From S2P Require Import Prelude CString.
From Stdlib Require Import Ascii.

Local Open Scope Z_scope.

(** ** Copying and filling *)

Lemma copy_loop_spec k i d s m a :
  (∀ j j', 0 ≤ j < i + Z.of_nat k → i ≤ j' < j → s + j ≠ d + j') → 0 ≤ i →
  rd8 (Str.copy_loop k i d s m) a =
    if decide (d + i ≤ a < d + i + Z.of_nat k) then rd8 m (s + (a - d)) else rd8 m a.
Proof.
  revert i m. induction k as [|k IH]; intros i m Hdis Hi; simpl.
  - rewrite decide_False by lia. done.
  - rewrite IH; [|intros j j' ??; apply Hdis; lia|lia].
    destruct (decide (d + (i + 1) ≤ a < d + (i + 1) + Z.of_nat k)).
    + rewrite decide_True by lia. rewrite rd8_wr8_ne; [done|].
      intros E. apply (Hdis (a - d) i); lia.
    + destruct (decide (a = d + i)) as [->|].
      * rewrite decide_True, rd8_wr8_eq by lia. unfold rd8 at 1. rewrite u8_u8. unfold rd8. do 3 f_equal. lia.
      * rewrite decide_False, rd8_wr8_ne by lia. done.
Qed.

(** [memcpy] copies when no byte of the source is overwritten before it is
    read: the areas are disjoint, or the destination is the lower one. *)
Lemma memcpy_spec d s n m a :
  0 ≤ n → (d + n ≤ s ∨ s + n ≤ d ∨ d ≤ s) →
  rd8 (Str.memcpy d s n m) a =
    if decide (d ≤ a < d + n) then rd8 m (s + (a - d)) else rd8 m a.
Proof.
  intros Hn Hd. unfold Str.memcpy. rewrite copy_loop_spec; [|intros j j' ??; lia|lia].
  rewrite Z2Nat.id, Z.add_0_r by done. done.
Qed.

Lemma set_loop_spec k i s c m a :
  rd8 (Str.set_loop k i s c m) a =
    if decide (s + i ≤ a < s + i + Z.of_nat k) then u8 c else rd8 m a.
Proof.
  revert i m. induction k as [|k IH]; intros i m; simpl.
  - rewrite decide_False by lia. done.
  - rewrite IH. destruct (decide (s + (i + 1) ≤ a < s + (i + 1) + Z.of_nat k)).
    + by rewrite decide_True by lia.
    + destruct (decide (a = s + i)) as [->|].
      * by rewrite decide_True, rd8_wr8_eq by lia.
      * by rewrite decide_False, rd8_wr8_ne by lia.
Qed.

Lemma memset_spec s c n m a :
  0 ≤ n → rd8 (Str.memset s c n m) a = if decide (s ≤ a < s + n) then u8 c else rd8 m a.
Proof.
  intros Hn. unfold Str.memset. rewrite set_loop_spec, Z2Nat.id, Z.add_0_r by done. done.
Qed.

(** ** [strlen] *)

(** Nonzero bytes at consecutive addresses are all in the map. *)
Lemma nonzero_run (k : nat) s m :
  (∀ i, 1 ≤ i ≤ Z.of_nat k → rd8 m (s + i) ≠ 0) → (k ≤ size m)%nat.
Proof.
  intros H. set (l := (λ i, s + Z.of_nat i) <$> seq 1 k).
  assert (NoDup l) as ND by (apply NoDup_fmap_2; [intros ???; lia|apply NoDup_seq]).
  rewrite <-size_dom. replace k with (length l) by (unfold l; by rewrite length_fmap, length_seq).
  rewrite <-(size_list_to_set (C := gset Z) l) by done. apply subseteq_size.
  intros a Ha%elem_of_list_to_set. unfold l in Ha. apply list_elem_of_fmap in Ha as (i & -> & Hi).
  apply elem_of_seq in Hi. apply elem_of_dom. specialize (H (Z.of_nat i) ltac:(lia)).
  unfold rd8 in H. destruct (m !! (s + Z.of_nat i)); [by eexists|done].
Qed.

Lemma strlen_loop_find fuel n k s m :
  0 ≤ n → 0 < k → n + k < 2 ^ 64 → (∀ i, n < i < n + k → rd8 m (s + i) ≠ 0) →
  rd8 m (s + (n + k)) = 0 → k ≤ Z.of_nat fuel → Str.strlen_loop fuel n s m = Ok (n + k).
Proof.
  revert n k. induction fuel as [|fuel IH]; intros n k Hn Hk Hb Hnz Hz Hf; [lia|]. simpl.
  rewrite u64_small by lia. rewrite decide_False by lia.
  destruct (decide (k = 1)) as [->|].
  - by rewrite decide_True.
  - rewrite decide_False by (apply Hnz; lia). rewrite (IH (n + 1) (k - 1)); try lia.
    + f_equal. lia.
    + intros i Hi. apply Hnz. lia.
    + rewrite <-Hz. f_equal. lia.
Qed.

(** The first zero byte after the first byte is what [strlen] finds. *)
Lemma strlen_find k s m :
  0 < k < 2 ^ 64 → (∀ i, 1 ≤ i < k → rd8 m (s + i) ≠ 0) → rd8 m (s + k) = 0 →
  Str.strlen s m = Ok k.
Proof.
  intros Hk Hnz Hz. unfold Str.strlen. rewrite (strlen_loop_find _ 0 k); try lia; [f_equal; lia|..].
  - intros i Hi. apply Hnz. lia.
  - by rewrite Z.add_0_l.
  - assert (Z.to_nat (k - 1) ≤ size m)%nat; [|lia].
    apply (nonzero_run _ s). intros i Hi. apply Hnz. lia.
Qed.

Lemma strlen_loop_total fuel n s m :
  0 ≤ n → n + Z.of_nat fuel < 2 ^ 64 →
  (∃ i, n < i ≤ n + Z.of_nat fuel ∧ rd8 m (s + i) = 0) →
  ∃ r, Str.strlen_loop fuel n s m = Ok r ∧ n < r ∧ rd8 m (s + r) = 0 ∧
    ∀ i, n < i < r → rd8 m (s + i) ≠ 0.
Proof.
  revert n. induction fuel as [|fuel IH]; intros n Hn Hb (i & Hi & Hz); [lia|]. simpl.
  rewrite u64_small by lia. rewrite decide_False by lia.
  destruct (decide (rd8 m (s + (n + 1)) = 0)) as [E|E].
  - exists (n + 1). split_and!; [done|lia|done|]. intros. lia.
  - destruct (IH (n + 1)) as (r & Er & Hr & Hrz & Hmin); [lia|lia| |].
    + exists i. split; [|done]. assert (i ≠ n + 1) by congruence. lia.
    + exists r. split_and!; [done|lia|done|]. intros j Hj.
      destruct (decide (j = n + 1)) as [->|]; [done|]. apply Hmin. lia.
Qed.

(** [strlen] always returns, with an index at least 1: the terminator it
    finds is never the first byte. *)
Lemma strlen_returns s m :
  Z.of_nat (size m) + 1 < 2 ^ 64 →
  ∃ r, Str.strlen s m = Ok r ∧ 1 ≤ r ∧ rd8 m (s + r) = 0 ∧ ∀ i, 1 ≤ i < r → rd8 m (s + i) ≠ 0.
Proof.
  intros Hs. unfold Str.strlen. destruct (strlen_loop_total (S (size m)) 0 s m) as (r & E & Hr & Hz & Hmin);
    [lia|lia| |].
  - destruct (decide (Exists (λ i, rd8 m (s + Z.of_nat i) = 0) (seq 1 (S (size m))))) as [He|Hne].
    + apply Exists_exists in He as (i & Hi%elem_of_seq & Hz). exists (Z.of_nat i). split; [lia|done].
    + exfalso. apply not_Exists_Forall in Hne; [|apply _].
      assert (S (size m) ≤ size m)%nat; [|lia]. apply (nonzero_run _ s). intros i Hi.
      rewrite Forall_forall in Hne.
      assert (rd8 m (s + Z.of_nat (Z.to_nat i)) ≠ 0) as Hz by (apply (Hne (Z.to_nat i)), elem_of_seq; lia).
      by rewrite Z2Nat.id in Hz by lia.
  - exists r. split_and!; [done|lia|done|]. intros i Hi. apply Hmin. lia.
Qed.

(** ** Memory that holds a string *)

Definition byte_of (c : ascii) : Z := Z.of_nat (nat_of_ascii c).

(** The string [str] and its terminator are at address [s]. *)
Fixpoint cstr (m : mem) (s : Z) (str : string) : Prop :=
  match str with
  | EmptyString => rd8 m s = 0
  | String c str => c ≠ Ascii.zero ∧ rd8 m s = byte_of c ∧ cstr m (s + 1) str
  end.

Lemma byte_of_zero c : byte_of c = 0 → c = Ascii.zero.
Proof. unfold byte_of. intros E. rewrite <-(ascii_nat_embedding c). by replace (nat_of_ascii c) with 0%nat by lia. Qed.

Lemma byte_of_inj c c' : byte_of c = byte_of c' → c = c'.
Proof.
  unfold byte_of. intros E. rewrite <-(ascii_nat_embedding c), <-(ascii_nat_embedding c').
  f_equal. lia.
Qed.

Lemma byte_of_range c : 0 ≤ byte_of c < 2 ^ 8.
Proof. unfold byte_of. pose proof (nat_ascii_bounded c). lia. Qed.

Lemma cstr_nonzero m s str i :
  cstr m s str → 0 ≤ i < Z.of_nat (String.length str) → rd8 m (s + i) ≠ 0.
Proof.
  revert s i. induction str as [|c str IH]; simpl; intros s i; [lia|]. intros (Hc & Hb & Hs) Hi.
  destruct (decide (i = 0)) as [->|].
  - rewrite Z.add_0_r, Hb. by intros ?%byte_of_zero.
  - replace (s + i) with (s + 1 + (i - 1)) by lia. apply IH; [done|lia].
Qed.

Lemma cstr_end m s str : cstr m s str → rd8 m (s + Z.of_nat (String.length str)) = 0.
Proof.
  revert s. induction str as [|c str IH]; intros s.
  - simpl. by rewrite Z.add_0_r.
  - intros (_ & _ & Hs). apply IH in Hs. rewrite <-Hs. f_equal. simpl. lia.
Qed.

(** On a nonempty string [strlen] is the length. *)
Lemma strlen_cstr m s str :
  cstr m s str → str ≠ EmptyString → Z.of_nat (String.length str) < 2 ^ 64 →
  Str.strlen s m = Ok (Z.of_nat (String.length str)).
Proof.
  intros Hs Hne Hl. apply strlen_find.
  - destruct str; [done|]. simpl in *. lia.
  - intros i Hi. eapply cstr_nonzero; [done|lia].
  - by apply cstr_end.
Qed.

(** On the empty string it is not. *)
Lemma strlen_empty m s r : Str.strlen s m = Ok r → Z.of_nat (size m) + 1 < 2 ^ 64 → cstr m s EmptyString → r ≠ 0.
Proof. intros E Hs _. destruct (strlen_returns s m Hs) as (r' & E' & ? & _). assert (r = r') as -> by congruence. lia. Qed.

(** ** Comparing *)

Lemma same_loop_shift k i s s2 m :
  Str.same_loop k i s s2 m = Str.same_loop k 0 (s + i) (s2 + i) m.
Proof.
  revert i s s2. induction k as [|k IH]; intros i s s2; simpl; [done|].
  rewrite !Z.add_0_r. case_decide; [|done]. rewrite (IH (i + 1)), (IH 1). f_equal; lia.
Qed.

Lemma same_loop_cstr m s s2 str str2 :
  cstr m s str → cstr m s2 str2 → String.length str = String.length str2 →
  Str.same_loop (String.length str) 0 s s2 m = bool_decide (str = str2).
Proof.
  revert s s2 str2. induction str as [|c str IH]; intros s s2 [|c2 str2]; simpl; try done.
  intros (_ & Hb & Hs) (_ & Hb2 & Hs2) El. rewrite !Z.add_0_r, Hb, Hb2.
  destruct (decide (byte_of c = byte_of c2)) as [E|E].
  - apply byte_of_inj in E as ->. rewrite same_loop_shift, (IH _ _ str2) by (done || lia).
    apply bool_decide_ext. naive_solver.
  - symmetry. apply bool_decide_eq_false. intros [= -> ->]. done.
Qed.

(** On nonempty strings [strcmp] is the [cstrcmp] the file system is written
    with. *)
Lemma strcmp_cstr {S} m s s2 str str2 (st : S) :
  cstr m s str → cstr m s2 str2 → str ≠ EmptyString → str2 ≠ EmptyString →
  Z.of_nat (String.length str) < 2 ^ 64 → Z.of_nat (String.length str2) < 2 ^ 64 →
  ∃ z, Str.strcmp s s2 m = Ok z ∧ StrVal.cstrcmp str str2 st = Ok (z, st) ∧ (z = 0 ↔ str = str2).
Proof.
  intros Hs Hs2 Hne Hne2 Hl Hl2. exists (if decide (str = str2) then 0 else -1). split_and!.
  - unfold Str.strcmp. rewrite (strlen_cstr m s str), (strlen_cstr m s2 str2) by done.
    case_decide as El.
    + rewrite decide_False; [done|]. intros ->. done.
    + rewrite Nat2Z.id, (same_loop_cstr m s s2 str str2) by (done || lia).
      case_decide; [by rewrite bool_decide_true|by rewrite bool_decide_false].
  - by destruct str, str2.
  - case_decide; naive_solver.
Qed.

(** ** [strcpy] *)

Lemma cstr_copy m m' s s2 str :
  cstr m s2 str → (∀ i, 0 ≤ i ≤ Z.of_nat (String.length str) → rd8 m' (s + i) = rd8 m (s2 + i)) →
  cstr m' s str.
Proof.
  revert s s2. induction str as [|c str IH]; intros s s2; cbn [cstr String.length].
  - intros Hz Hi. specialize (Hi 0). rewrite !Z.add_0_r in Hi. rewrite Hi by lia. done.
  - intros (Hc & Hb & Hs) Hi. split_and!; [done| |].
    + specialize (Hi 0). rewrite !Z.add_0_r in Hi. by rewrite Hi by lia.
    + apply (IH _ (s2 + 1)); [done|]. intros i Hi'. rewrite <-!Z.add_assoc. apply Hi. lia.
Qed.

(** [strcpy] of a nonempty string to a place that does not overlap it. *)
Definition slen (s : string) : Z := Z.of_nat (String.length s).

Lemma cstr_same m m' p s : cstr m p s → (∀ a, p ≤ a ≤ p + slen s → rd8 m' a = rd8 m a) → cstr m' p s.
Proof. intros Hs Hm. apply (cstr_copy m m' p p s Hs). intros i Hi. apply Hm. unfold slen. lia. Qed.

Lemma strcpy_spec m s s2 str :
  let len := Z.of_nat (String.length str) in
  cstr m s2 str → str ≠ EmptyString → len < 2 ^ 64 → (s + len < s2 ∨ s2 + len < s) →
  ∃ m', Str.strcpy s s2 m = Ok m' ∧ cstr m' s str ∧ cstr m' s2 str ∧
    ∀ a, ¬ (s ≤ a ≤ s + len) → rd8 m' a = rd8 m a.
Proof.
  intros len Hs Hne Hl Hd. unfold Str.strcpy. rewrite (strlen_cstr m s2 str) by done. fold len.
  set (m' := wr8 _ _ _).
  assert (∀ a, ¬ (s ≤ a ≤ s + len) → rd8 m' a = rd8 m a) as Hout.
  { intros a Ha. unfold m'. rewrite rd8_wr8_ne by lia.
    rewrite copy_loop_spec; [|intros j j' ??; lia|lia]. by rewrite decide_False by lia. }
  exists m'. split_and!; [done| | |done].
  - apply (cstr_copy m m' s s2 str Hs). intros i Hi. unfold m'. rewrite rd8_wr8.
    destruct (decide (s + len = s + i)) as [E|E].
    + replace i with len by lia. unfold len. by rewrite (cstr_end m s2 str).
    + rewrite copy_loop_spec; [|intros j j' ??; lia|lia]. rewrite decide_True by lia.
      f_equal. lia.
  - apply (cstr_copy m m' s2 s2 str Hs). intros i Hi. apply Hout. lia.
Qed.

(** ** [itoa] *)

(** The value of a list of digits, most significant first. *)
Definition digits_value (ds : list Z) : Z := fold_left (λ v d, v * 10 + d) ds 0.

Lemma digits_value_app ds d : digits_value (ds ++ [d]) = digits_value ds * 10 + d.
Proof. unfold digits_value. by rewrite fold_left_app. Qed.

Lemma itoa_digits_spec fuel x :
  0 ≤ x < 10 ^ Z.of_nat fuel → (0 < fuel)%nat →
  let ds := Str.itoa_digits fuel x in
  (1 ≤ length ds ≤ fuel)%nat ∧ Forall (λ d, 0 ≤ d < 10) ds ∧ digits_value (rev ds) = x.
Proof.
  revert x. induction fuel as [|fuel IH]; intros x Hx Hf; [lia|]. cbn [Str.itoa_digits].
  assert (Z.rem x 10 = x mod 10) as -> by (apply Z.rem_mod_nonneg; lia).
  assert (Z.quot x 10 = x / 10) as -> by (apply Z.quot_div_nonneg; lia).
  pose proof (Z.mod_pos_bound x 10). pose proof (Z.div_mod x 10).
  destruct (decide (x / 10 = 0)) as [E|E]; cbv zeta.
  - simpl. split_and!; [lia|lia|repeat constructor; lia|]. unfold digits_value. simpl. lia.
  - assert (0 ≤ x / 10 < 10 ^ Z.of_nat fuel) as Hq.
    { rewrite Nat2Z.inj_succ, Z.pow_succ_r in Hx by lia. split; [apply Z.div_pos; lia|].
      apply Z.div_lt_upper_bound; lia. }
    assert (0 < fuel)%nat as Hf' by (destruct fuel; [simpl in Hq; lia|lia]).
    destruct (IH _ Hq Hf') as (Hlen & Hall & Hv). cbn [length rev]. split_and!; [lia|lia| |].
    + constructor; [lia|done].
    + rewrite digits_value_app, Hv. lia.
Qed.

Lemma write_list_spec a l m b :
  rd8 (Str.write_list a l m) b =
    if decide (a ≤ b < a + Z.of_nat (length l)) then u8 (default 0 (l !! Z.to_nat (b - a))) else rd8 m b.
Proof.
  revert a m. induction l as [|v l IH]; intros a m; simpl.
  - by rewrite decide_False by lia.
  - rewrite IH. destruct (decide (a + 1 ≤ b < a + 1 + Z.of_nat (length l))).
    + rewrite decide_True by lia. f_equal. f_equal.
      replace (Z.to_nat (b - a)) with (S (Z.to_nat (b - (a + 1)))) by lia. done.
    + destruct (decide (b = a)) as [->|].
      * rewrite decide_True, rd8_wr8_eq by lia. by rewrite Z.sub_diag.
      * by rewrite decide_False, rd8_wr8_ne by lia.
Qed.

(** [itoa] of a nonnegative [int] writes its decimal digits and nothing else:
    no terminator follows them. *)
Lemma itoa_spec x s m :
  0 ≤ x < 2 ^ 31 →
  ∃ ds, (1 ≤ length ds ≤ 10)%nat ∧ Forall (λ d, 0 ≤ d < 10) ds ∧ digits_value ds = x ∧
    ∀ a, rd8 (Str.itoa x s m) a =
      if decide (s ≤ a < s + Z.of_nat (length ds)) then 48 + default 0 (ds !! Z.to_nat (a - s)) else rd8 m a.
Proof.
  intros Hx. destruct (itoa_digits_spec 10 x) as (Hlen & Hall & Hv); [simpl; lia|lia|].
  set (ds := rev (Str.itoa_digits 10 x)) in *. apply Forall_rev in Hall. fold ds in Hall.
  assert (length ds = length (Str.itoa_digits 10 x)) as El by (unfold ds; by rewrite length_rev).
  exists ds. rewrite El. split_and!; [lia|lia|done|done|].
  intros a. unfold Str.itoa. fold ds. rewrite write_list_spec, length_map, El.
  destruct (decide _) as [Ha|]; [|done].
  change (map (λ d, d + 48) ds) with ((λ d : Z, d + 48) <$> ds). rewrite list_lookup_fmap.
  destruct (ds !! Z.to_nat (a - s)) as [d|] eqn:Ed.
  - simpl. assert (0 ≤ d < 10) by (by eapply (Forall_lookup_1 _ _ _ _ Hall Ed)).
    rewrite u8_small by lia. lia.
  - apply lookup_ge_None_1 in Ed. lia.
Qed.
