(* ===== verification/StringTheorems.v ===== *)
(** * Properties of kernel/string.c *)

From S2P Require Import Prelude CString CStringSpec.

Local Open Scope Z_scope.

(** The string "ab" at address 10. *)
Definition ab_mem : mem := {[ 10 := 97; 11 := 98 ]}.

Lemma ab_mem_cstr : cstr ab_mem 10 "ab".
Proof. repeat split; try done. Qed.

(** [strlen] always returns; on a nonempty string it is the length, on the
    empty string it is not 0, since it looks at the second byte first. *)
Theorem strlen_value m s :
  Z.of_nat (size m) + 1 < 2 ^ 64 →
  (∃ r, Str.strlen s m = Ok r) ∧
  (∀ str, cstr m s str → str ≠ EmptyString → Z.of_nat (String.length str) < 2 ^ 64 →
     Str.strlen s m = Ok (Z.of_nat (String.length str))) ∧
  (cstr m s EmptyString → Str.strlen s m ≠ Ok 0).
Proof.
  intros Hm. split_and!.
  - destruct (strlen_returns s m Hm) as (r & E & _). by exists r.
  - intros str Hs Hn Hl. by apply strlen_cstr.
  - intros Hs E. by eapply (strlen_empty m s 0).
Qed.

Lemma strlen_value_witness : Str.strlen 10 ab_mem = Ok 2 ∧ Str.strlen 12 ab_mem ≠ Ok 0.
Proof.
  split.
  - destruct (strlen_value ab_mem 10) as (_ & H & _); [vm_compute; done|].
    apply (H "ab"%string); [apply ab_mem_cstr|done|simpl; lia].
  - destruct (strlen_value ab_mem 12) as (_ & _ & H); [vm_compute; done|]. by apply H.
Defined.

(** On nonempty strings in memory [strcmp] returns, and returns 0 exactly
    for equal strings; it is the comparison of values the file system model
    uses. *)
Theorem strcmp_equality {S} m s s2 str str2 (st : S) :
  cstr m s str → cstr m s2 str2 → str ≠ EmptyString → str2 ≠ EmptyString →
  Z.of_nat (String.length str) < 2 ^ 64 → Z.of_nat (String.length str2) < 2 ^ 64 →
  ∃ z, Str.strcmp s s2 m = Ok z ∧ StrVal.cstrcmp str str2 st = Ok (z, st) ∧ (z = 0 ↔ str = str2).
Proof. apply strcmp_cstr. Qed.

Lemma strcmp_equality_witness : ∃ z, Str.strcmp 10 11 ab_mem = Ok z ∧ z ≠ 0.
Proof.
  destruct (strcmp_equality ab_mem 10 11 "ab" "b" tt) as (z & E & _ & Hz);
    [apply ab_mem_cstr|repeat split; done|done|done|simpl; lia|simpl; lia|].
  exists z. split; [exact E|]. intros Z0. by apply Hz in Z0.
Defined.

(** [strcpy] of a nonempty string to a place that does not overlap it
    makes a copy, leaves the source, and touches nothing else. *)
Theorem strcpy_copies m s s2 str :
  let len := Z.of_nat (String.length str) in
  cstr m s2 str → str ≠ EmptyString → len < 2 ^ 64 → (s + len < s2 ∨ s2 + len < s) →
  ∃ m', Str.strcpy s s2 m = Ok m' ∧ cstr m' s str ∧ cstr m' s2 str ∧
    ∀ a, ¬ (s ≤ a ≤ s + len) → rd8 m' a = rd8 m a.
Proof. apply strcpy_spec. Qed.

Lemma strcpy_copies_witness : ∃ m', Str.strcpy 20 10 ab_mem = Ok m' ∧ cstr m' 20 "ab".
Proof.
  destruct (strcpy_copies ab_mem 20 10 "ab") as (m' & E & H & _);
    [apply ab_mem_cstr|done|simpl; lia|simpl; lia|]. by exists m'.
Defined.

(** [itoa] of a nonnegative number writes its decimal digits, at most ten,
    and nothing else: the byte after them is what it was, no terminator. *)
Theorem itoa_writes_digits x s m :
  0 ≤ x < 2 ^ 31 →
  ∃ ds, (1 ≤ length ds ≤ 10)%nat ∧ Forall (λ d, 0 ≤ d < 10) ds ∧ digits_value ds = x ∧
    ∀ a, rd8 (Str.itoa x s m) a =
      if decide (s ≤ a < s + Z.of_nat (length ds)) then 48 + default 0 (ds !! Z.to_nat (a - s)) else rd8 m a.
Proof. apply itoa_spec. Qed.

Lemma itoa_writes_digits_witness : ∃ ds, digits_value ds = 2026 ∧ (1 ≤ length ds ≤ 10)%nat.
Proof. destruct (itoa_writes_digits 2026 0 ∅) as (ds & H1 & _ & H2 & _); [lia|by exists ds]. Defined.

(** [memcpy] copies when the areas are disjoint or the destination is the
    lower one, [memset] fills, and neither touches anything else. *)
Theorem memcpy_memset_bytes d s n c m a :
  0 ≤ n → (d + n ≤ s ∨ s + n ≤ d ∨ d ≤ s) →
  rd8 (Str.memcpy d s n m) a = (if decide (d ≤ a < d + n) then rd8 m (s + (a - d)) else rd8 m a) ∧
  rd8 (Str.memset d c n m) a = (if decide (d ≤ a < d + n) then u8 c else rd8 m a).
Proof. intros Hn Ho. split; [by apply memcpy_spec|by apply memset_spec]. Qed.

Lemma memcpy_memset_bytes_witness : rd8 (Str.memcpy 9 10 2 ab_mem) 10 = 98.
Proof. destruct (memcpy_memset_bytes 9 10 2 0 ab_mem 10) as [H _]; [lia|lia|rewrite H; vm_compute; done]. Defined.
