(* ===== verification/Word.v ===== *)
(** * Words in byte memory

    Little-endian loads and stores of [k] bytes, as the compiler emits them
    for a pointer to [uint32_t] or [uint64_t], and the bits of a loaded word. *)

From S2P Require Import Prelude CString.

Local Open Scope Z_scope.

Fixpoint rdn (k : nat) (m : mem) (a : Z) : Z :=
  match k with
  | O => 0
  | S k => Z.lor (rd8 m a) (Z.shiftl (rdn k m (a + 1)) 8)
  end.

Fixpoint wrn (k : nat) (m : mem) (a v : Z) : mem :=
  match k with
  | O => m
  | S k => wrn k (wr8 m a v) (a + 1) (Z.shiftr v 8)
  end.

Definition rd64 (m : mem) (a : Z) : Z := rdn 8 m a.
Definition wr64 (m : mem) (a v : Z) : mem := wrn 8 m a v.

Lemma small_testbit b i : 0 ≤ b < 2 ^ 8 → 8 ≤ i → Z.testbit b i = false.
Proof. intros Hb Hi. apply Z.bits_above_log2; [lia|]. destruct (decide (b = 0)) as [->|]; [simpl; lia|].
  apply Z.log2_lt_pow2; [lia|]. assert (2 ^ 8 ≤ 2 ^ i) by (apply Z.pow_le_mono_r; lia). lia. Qed.

(** Bit [i] of a word is bit [i mod 8] of byte [i / 8]. *)
Lemma rdn_testbit k m a i :
  0 ≤ i < 8 * Z.of_nat k → Z.testbit (rdn k m a) i = Z.testbit (rd8 m (a + i / 8)) (i mod 8).
Proof.
  revert a i. induction k as [|k IH]; intros a i Hi; [lia|]. cbn [rdn].
  rewrite Z.lor_spec, Z.shiftl_spec by lia. destruct (decide (i < 8)) as [Hlt|Hge].
  - rewrite Z.testbit_neg_r with (n := i - 8) by lia.
    rewrite Z.div_small, Z.mod_small, Z.add_0_r, orb_false_r by lia. done.
  - rewrite (small_testbit (rd8 m a)) by (apply rd8_range || lia). rewrite orb_false_l, IH by lia.
    replace i with (i - 8 + 1 * 8) at 3 4 by lia. rewrite Z.div_add, Z.mod_add by lia.
    do 2 f_equal. lia.
Qed.

Lemma rdn_high k m a i : 8 * Z.of_nat k ≤ i → Z.testbit (rdn k m a) i = false.
Proof.
  revert a i. induction k as [|k IH]; intros a i Hi; [apply Z.testbit_0_l|]. cbn [rdn].
  rewrite Z.lor_spec, Z.shiftl_spec by lia.
  rewrite (small_testbit (rd8 m a)) by (apply rd8_range || lia). apply IH. lia.
Qed.

Lemma rd8_wrn k m a v b :
  rd8 (wrn k m a v) b =
    if decide (a ≤ b < a + Z.of_nat k) then u8 (Z.shiftr v (8 * (b - a))) else rd8 m b.
Proof.
  revert m a v. induction k as [|k IH]; intros m a v; cbn [wrn].
  - by rewrite decide_False by lia.
  - rewrite IH. destruct (decide (a + 1 ≤ b < a + 1 + Z.of_nat k)).
    + rewrite decide_True, Z.shiftr_shiftr by lia. do 2 f_equal. lia.
    + destruct (decide (b = a)) as [->|].
      * rewrite decide_True, rd8_wr8_eq, Z.sub_diag by lia. by rewrite Z.shiftr_0_r.
      * by rewrite decide_False, rd8_wr8_ne by lia.
Qed.

Lemma rdn_wrn_eq k m a v : rdn k (wrn k m a v) a = v `mod` 2 ^ (8 * Z.of_nat k).
Proof.
  apply Z.bits_inj'. intros i Hi. destruct (decide (i < 8 * Z.of_nat k)).
  - rewrite rdn_testbit, rd8_wrn by lia.
    pose proof (Z.div_pos i 8). pose proof (Z.div_lt_upper_bound i 8 (Z.of_nat k)).
    pose proof (Z.mod_pos_bound i 8). pose proof (Z.div_mod i 8).
    rewrite decide_True by lia. unfold u8. rewrite !Z.mod_pow2_bits_low, Z.shiftr_spec by lia.
    f_equal. lia.
  - rewrite rdn_high, Z.mod_pow2_bits_high by lia. done.
Qed.

Lemma rdn_wrn_ne k k' m a v b :
  b + Z.of_nat k ≤ a ∨ a + Z.of_nat k' ≤ b → rdn k (wrn k' m a v) b = rdn k m b.
Proof.
  revert b. induction k as [|k IH]; intros b Hb; [done|]. cbn [rdn].
  rewrite rd8_wrn, decide_False, IH by lia. done.
Qed.

Lemma rdn_ext k m m' a : (∀ j, a ≤ j < a + Z.of_nat k → rd8 m' j = rd8 m j) → rdn k m' a = rdn k m a.
Proof.
  revert a. induction k as [|k IH]; intros a H; [done|]. cbn [rdn].
  rewrite H, IH by (try (intros; apply H); lia). done.
Qed.

Lemma rd64_wr64_eq m a v : rd64 (wr64 m a v) a = u64 v.
Proof. apply rdn_wrn_eq. Qed.

Lemma rd64_wr64_ne m a v b : b + 8 ≤ a ∨ a + 8 ≤ b → rd64 (wr64 m a v) b = rd64 m b.
Proof. intros. apply rdn_wrn_ne. simpl. lia. Qed.

Lemma rd8_wr64_ne m a v b : ¬ (a ≤ b < a + 8) → rd8 (wr64 m a v) b = rd8 m b.
Proof. intros. unfold wr64. by rewrite rd8_wrn, decide_False by (simpl; lia). Qed.

Lemma rd64_range m a : 0 ≤ rd64 m a < 2 ^ 64.
Proof.
  replace (rd64 m a) with (u64 (rd64 m a)); [apply u64_range|]. unfold u64.
  apply Z.bits_inj'. intros i Hi. destruct (decide (i < 64)).
  - by rewrite Z.mod_pow2_bits_low by lia.
  - rewrite Z.mod_pow2_bits_high by lia. symmetry. apply rdn_high. simpl. lia.
Qed.

(** ** Arrays of words *)

Fixpoint words (m : mem) (a : Z) (n : nat) : list Z :=
  match n with O => [] | S n => rd64 m a :: words m (a + 8) n end.

Lemma words_ext m m' a n : (∀ b, a ≤ b < a + 8 * Z.of_nat n → rd8 m' b = rd8 m b) → words m' a n = words m a n.
Proof.
  revert a. induction n as [|n IH]; intros a H; [done|]. cbn [words]. f_equal; [|apply IH; intros b Hb; apply H; lia].
  apply rdn_ext. intros b Hb. apply H. simpl in Hb. lia.
Qed.

Lemma words_app m a n k : words m a (n + k) = words m a n ++ words m (a + 8 * Z.of_nat n) k.
Proof.
  revert a. induction n as [|n IH]; intros a; cbn [words Nat.add app]; [f_equal; lia|].
  rewrite IH. do 3 f_equal. lia.
Qed.
