(* ===== verification/Pmm.v ===== *)
(** * include/franklin/bitmap.h and kernel/pmm.c: the physical page allocator

    One bit per page frame, 1 for taken.  [bitmap.h] addresses the bitmap by
    bytes; [isfree] and [togglepage] of include/franklin/mmu.h by 64-bit
    words.  The bitmap lies in the byte memory of [CString]; addresses are
    64-bit. *)

From S2P Require Import Prelude CString Word.

Local Open Scope Z_scope.

Definition PGSIZE : Z := 4096.

(** The memory and the globals of kernel/pmm.c: [bitmap], [spinlock], [g]. *)
Record pmm := Pmm { pm_mem : mem; pm_bitmap : ptr; pm_lock : Z; pm_g : Z }.

Definition set_pm_mem (m : mem) (s : pmm) : pmm := Pmm m (pm_bitmap s) (pm_lock s) (pm_g s).
Definition set_pm_lock (l : Z) (s : pmm) : pmm := Pmm (pm_mem s) (pm_bitmap s) l (pm_g s).
Definition set_pm_g (g : Z) (s : pmm) : pmm := Pmm (pm_mem s) (pm_bitmap s) (pm_lock s) g.

(** ** Bits *)

Definition bitmap_test (bitmap : ptr) (bit : Z) (m : mem) : bool :=
  bool_decide (Z.land (rd8 m (bitmap + bit / 8)) (Z.shiftl 1 (bit mod 8)) ≠ 0).

Definition bitmap_set (bitmap : ptr) (bit : Z) (m : mem) : mem :=
  wr8 m (bitmap + bit / 8) (Z.lor (rd8 m (bitmap + bit / 8)) (Z.shiftl 1 (bit mod 8))).

Definition bitmap_reset (bitmap : ptr) (bit : Z) (m : mem) : mem :=
  wr8 m (bitmap + bit / 8) (Z.land (rd8 m (bitmap + bit / 8)) (Z.lnot (Z.shiftl 1 (bit mod 8)))).

(** The page of [isfree] and [togglepage] is a [uint32_t]. *)
Definition isfree (bitmap : ptr) (page : Z) (m : mem) : bool :=
  let page := u32 page in
  bool_decide (Z.land (rd64 m (bitmap + 8 * (page / 64))) (Z.shiftl 1 (page mod 64)) = 0).

Definition togglepage (bitmap : ptr) (page : Z) (m : mem) : mem :=
  let page := u32 page in
  wr64 m (bitmap + 8 * (page / 64))
    (Z.lxor (rd64 m (bitmap + 8 * (page / 64))) (Z.shiftl 1 (page mod 64))).

(** ** Allocation *)

(** [for (i = p; i < p + pages; ++i) if (bitmap_test (bitmap, i)) ...] *)
Fixpoint any_taken (k : nat) (bitmap i : Z) (m : mem) : bool :=
  match k with
  | O => false
  | S k => if bitmap_test bitmap i m then true else any_taken k bitmap (i + 1) m
  end.

(** [scanbitmap: ... p++; goto scanbitmap;] *)
Fixpoint scanbitmap (fuel : nat) (pages p : Z) (bitmap : ptr) (m : mem) : outcome Z :=
  match fuel with
  | O => Hang
  | S fuel =>
      if any_taken (Z.to_nat (u64 (p + pages) - p)) bitmap p m
      then scanbitmap fuel pages (u64 (p + 1)) bitmap m
      else Ok p
  end.

Fixpoint mark_loop (k : nat) (bitmap i : Z) (m : mem) : mem :=
  match k with
  | O => m
  | S k => mark_loop k bitmap (i + 1) (bitmap_set bitmap i m)
  end.

(** [fuel] bounds the number of restarts of the scan. *)
Definition palloc (fuel : nat) (pages : Z) : K pmm ptr := λ s,
  match scanbitmap fuel pages 0 (pm_bitmap s) (pm_mem s) with
  | Ok p =>
      let s := if decide (u64 (p * PGSIZE) = 0x2ca000) then set_pm_g 10 s else s in
      let s := set_pm_mem (mark_loop (Z.to_nat (u64 (p + pages) - p)) (pm_bitmap s) p (pm_mem s)) s in
      let s := if decide (u64 (p * PGSIZE) = 0x2d4000) then set_pm_g 10 s else s in
      Ok (u64 (p * PGSIZE), s)
  | _ => Hang
  end.

Fixpoint freepg_loop (k : nat) (i : Z) (s : pmm) : pmm :=
  match k with
  | O => s
  | S k =>
      let s := if bitmap_test (pm_bitmap s) i (pm_mem s) then s else set_pm_g 69 s in
      freepg_loop k (i + 1) (set_pm_mem (bitmap_reset (pm_bitmap s) i (pm_mem s)) s)
  end.

(** The length is a [uint32_t]. *)
Definition freepg (addr length : Z) : K pmm unit := λ s,
  let page := addr / PGSIZE in
  let length := u32 length in
  Ok (tt, freepg_loop (Z.to_nat (u64 (page + length) - page)) page s).

(** The page numbers of [pallocaddr] are 32-bit. *)
Fixpoint pallocaddr_loop (k : nat) (i : Z) : K pmm unit :=
  match k with
  | O => mret tt
  | S k =>
      s ← get;
      if isfree (pm_bitmap s) i (pm_mem s) then
        modify (λ s, set_pm_mem (togglepage (pm_bitmap s) i (pm_mem s)) s);;
        pallocaddr_loop k (i + 1)
      else panic "panic: pallocaddr, page is not free"
  end.

Definition pallocaddr (size paddr : Z) : K pmm ptr :=
  let pfn := u32 (paddr / PGSIZE) in
  s ← get;
  (if decide (pm_lock s = 0) then modify (set_pm_lock 1) else hang);;
  pallocaddr_loop (Z.to_nat (u32 (pfn + size) - pfn)) pfn;;
  modify (set_pm_lock 0);;
  mret paddr.

(** ** Initialisation *)

(** [struct limine_memmap_entry] of the boot loader; [type] 0 is usable. *)
Record memmap_entry := Entry { me_base : Z; me_length : Z; me_type : Z }.

Fixpoint highest_addr (es : list memmap_entry) (h : Z) : Z :=
  match es with
  | [] => h
  | e :: es => highest_addr es
      (if decide (me_type e ≠ 0) then h
       else if decide (h < u64 (me_base e + me_length e)) then u64 (me_base e + me_length e) else h)
  end.

(** The first usable area that is long enough holds the bitmap and loses that
    many bytes. *)
Fixpoint place_bitmap (P2V : Z → Z) (bitmap_size : Z) (es : list memmap_entry) :
    option (Z * list memmap_entry) :=
  match es with
  | [] => None
  | e :: es =>
      if decide (me_type e = 0 ∧ bitmap_size ≤ me_length e) then
        Some (P2V (me_base e),
              Entry (u64 (me_base e + bitmap_size)) (me_length e - bitmap_size) (me_type e) :: es)
      else '(b, es) ← place_bitmap P2V bitmap_size es; Some (b, e :: es)
  end.

(** [for (j = 0; j < entry->length; j += PGSIZE) bitmap_reset (...)] *)
Fixpoint reset_loop (k : nat) (j base : Z) (bitmap : ptr) (m : mem) : mem :=
  match k with
  | O => m
  | S k => reset_loop k (j + PGSIZE) base bitmap (bitmap_reset bitmap (u64 (base + j) / PGSIZE) m)
  end.

Definition free_entry (bitmap : ptr) (m : mem) (e : memmap_entry) : mem :=
  if decide (me_type e ≠ 0) then m
  else reset_loop (Z.to_nat ((me_length e + PGSIZE - 1) / PGSIZE)) 0 (me_base e) bitmap m.

(** The map as [initbmap] leaves it is returned with the new state. *)
Definition initbmap (P2V : Z → Z) (es : list memmap_entry) : K pmm (list memmap_entry) := λ s,
  let bitmap_size := highest_addr es 0 / PGSIZE / 8 in
  let '(s, es) :=
    match place_bitmap P2V bitmap_size es with
    | Some (b, es) => (Pmm (Str.memset b 0xff bitmap_size (pm_mem s)) b (pm_lock s) (pm_g s), es)
    | None => (s, es)
    end in
  Ok (es, set_pm_mem (foldl (free_entry (pm_bitmap s)) (pm_mem s) es) s).

(** ** What the bits are *)

Definition taken (bitmap : ptr) (m : mem) (page : Z) : bool :=
  Z.testbit (rd8 m (bitmap + page / 8)) (page mod 8).

Lemma bit_testbit i j : 0 ≤ i → Z.testbit (Z.shiftl 1 i) j = bool_decide (i = j).
Proof.
  intros Hi. rewrite Z.shiftl_1_l, Z.pow2_bits_eqb by done.
  destruct (Z.eqb_spec i j); symmetry; [by apply bool_decide_eq_true|by apply bool_decide_eq_false].
Qed.

Lemma land_bit v i : 0 ≤ i → bool_decide (Z.land v (Z.shiftl 1 i) ≠ 0) = Z.testbit v i.
Proof.
  intros Hi. destruct (Z.testbit v i) eqn:E.
  - apply bool_decide_eq_true. intros E0. assert (Z.testbit (Z.land v (Z.shiftl 1 i)) i = false) as Ef
      by (rewrite E0; apply Z.testbit_0_l).
    rewrite Z.land_spec, E, bit_testbit, bool_decide_true in Ef by done. done.
  - apply bool_decide_eq_false. intros []. apply Z.bits_inj'. intros j Hj.
    rewrite Z.land_spec, bit_testbit, Z.testbit_0_l by done.
    destruct (bool_decide_reflect (i = j)) as [<-|]; [by rewrite E|by rewrite andb_false_r].
Qed.

Lemma bitmap_test_spec b i m : 0 ≤ i → bitmap_test b i m = taken b m i.
Proof. intros Hi. apply land_bit. pose proof (Z.mod_pos_bound i 8). lia. Qed.

(** A page number as word and bit, and as byte and bit. *)
Lemma page_split i : 0 ≤ i →
  8 * (i / 64) + i mod 64 / 8 = i / 8 ∧ i mod 64 mod 8 = i mod 8.
Proof.
  intros Hi. pose proof (Z.div_mod i 64). pose proof (Z.mod_pos_bound i 64).
  replace i with (i mod 64 + (8 * (i / 64)) * 8) at 3 5 by lia.
  rewrite Z.div_add, Z.mod_add by lia. split; [lia|done].
Qed.

(** The 64-bit view of mmu.h and the byte view of bitmap.h are one bitmap. *)
Lemma isfree_spec b page m : isfree b page m = negb (taken b m (u32 page)).
Proof.
  unfold isfree. assert (0 ≤ u32 page) as Hi by (by apply Z.mod_pos_bound).
  generalize dependent (u32 page). intros i Hi. cbv zeta. pose proof (Z.mod_pos_bound i 64).
  destruct (page_split i Hi) as [E1 E2].
  transitivity (negb (bool_decide (Z.land (rd64 m (b + 8 * (i / 64))) (Z.shiftl 1 (i mod 64)) ≠ 0))).
  - rewrite bool_decide_not. by rewrite negb_involutive.
  - rewrite land_bit by lia. unfold rd64. rewrite rdn_testbit by (simpl; lia). unfold taken.
    rewrite E2. by replace (b + 8 * (i / 64) + i mod 64 / 8) with (b + i / 8) by lia.
Qed.

Lemma same_bit i j : 0 ≤ i → 0 ≤ j → i / 8 = j / 8 → i mod 8 = j mod 8 ↔ i = j.
Proof. intros. pose proof (Z.div_mod i 8). pose proof (Z.div_mod j 8). split; [lia|congruence]. Qed.

(** Writing one byte of the bitmap. *)
Lemma taken_wr8 b i j v m : 
  taken b (wr8 m (b + i / 8) v) j = if decide (i / 8 = j / 8) then Z.testbit v (j mod 8) else taken b m j.
Proof.
  unfold taken. rewrite rd8_wr8. pose proof (Z.mod_pos_bound j 8). case_decide.
  - rewrite decide_True by lia. unfold u8. by rewrite Z.mod_pow2_bits_low by lia.
  - by rewrite decide_False by lia.
Qed.

Lemma taken_set b i j m :
  0 ≤ i → 0 ≤ j → taken b (bitmap_set b i m) j = bool_decide (i = j) || taken b m j.
Proof.
  intros Hi Hj. unfold bitmap_set. rewrite taken_wr8. pose proof (Z.mod_pos_bound i 8).
  destruct (decide (i / 8 = j / 8)) as [E|E].
  - rewrite Z.lor_spec, bit_testbit, E, orb_comm by lia.
    rewrite (bool_decide_ext _ _ (same_bit i j Hi Hj E)). done.
  - rewrite bool_decide_false; [done|]. by intros ->.
Qed.

Lemma taken_reset b i j m :
  0 ≤ i → 0 ≤ j → taken b (bitmap_reset b i m) j = negb (bool_decide (i = j)) && taken b m j.
Proof.
  intros Hi Hj. unfold bitmap_reset. rewrite taken_wr8. pose proof (Z.mod_pos_bound i 8).
  pose proof (Z.mod_pos_bound j 8). destruct (decide (i / 8 = j / 8)) as [E|E].
  - rewrite Z.land_spec, Z.lnot_spec, bit_testbit, E, andb_comm by lia.
    rewrite (bool_decide_ext _ _ (same_bit i j Hi Hj E)). done.
  - rewrite bool_decide_false; [done|]. by intros ->.
Qed.

Lemma taken_toggle b page j m :
  0 ≤ j → taken b (togglepage b page m) j = xorb (bool_decide (u32 page = j)) (taken b m j).
Proof.
  intros Hj. unfold togglepage. assert (0 ≤ u32 page) as Hi by (by apply Z.mod_pos_bound).
  generalize dependent (u32 page). intros i Hi. cbv zeta. destruct (page_split i Hi) as [E1 E2].
  destruct (page_split j Hj) as [F1 F2]. pose proof (Z.mod_pos_bound i 64). pose proof (Z.mod_pos_bound j 64).
  assert (∀ m, taken b m j = Z.testbit (rd64 m (b + 8 * (j / 64))) (j mod 64)) as Hw.
  { intros m'. unfold taken, rd64. rewrite rdn_testbit, F2 by (simpl; lia).
    by replace (b + 8 * (j / 64) + j mod 64 / 8) with (b + j / 8) by lia. }
  rewrite !Hw. destruct (decide (i / 64 = j / 64)) as [E|E].
  - rewrite E, rd64_wr64_eq. unfold u64. rewrite Z.mod_pow2_bits_low, Z.lxor_spec, bit_testbit, xorb_comm by lia.
    do 2 f_equal. apply bool_decide_ext. pose proof (Z.div_mod i 64). pose proof (Z.div_mod j 64).
    split; [lia|congruence].
  - rewrite rd64_wr64_ne, bool_decide_false by (by intros -> || lia). by destruct (Z.testbit _ _).
Qed.
