(* ===== verification/PmmSpec.v ===== *)
(** * The physical page allocator: what each call does to the bits

    [palloc] terminates when there is room, returns the lowest run of free
    pages and takes exactly those; [freepg] undoes it; [pallocaddr] takes the
    pages it is asked for or panics; [initbmap] frees exactly the usable
    memory that is left after the bitmap was placed. *)

From S2P Require Import Prelude CString CStringSpec Word Pmm.

Local Open Scope Z_scope.

Definition free_run (s : pmm) (p n : Z) : Prop :=
  ∀ j, p ≤ j < p + n → taken (pm_bitmap s) (pm_mem s) j = false.

Definition in_run (p n j : Z) : bool := bool_decide (p ≤ j < p + n).

Lemma any_taken_spec k b i m :
  0 ≤ i → any_taken k b i m = false ↔ ∀ j, i ≤ j < i + Z.of_nat k → taken b m j = false.
Proof.
  revert i. induction k as [|k IH]; intros i Hi; cbn [any_taken].
  - split; [lia|done].
  - rewrite bitmap_test_spec by done. destruct (taken b m i) eqn:E.
    + split; [done|]. intros Hj. rewrite (Hj i) in E by lia. done.
    + rewrite IH by lia. split; intros Hj j Hr.
      * destruct (decide (j = i)) as [->|]; [done|]. apply Hj. lia.
      * apply Hj. lia.
Qed.

Lemma any_taken_true k b i m :
  0 ≤ i → any_taken k b i m = true → ∃ q, i ≤ q < i + Z.of_nat k ∧ taken b m q = true.
Proof.
  revert i. induction k as [|k IH]; intros i Hi E; cbn [any_taken] in E; [done|].
  rewrite bitmap_test_spec in E by done. destruct (taken b m i) eqn:Et; [exists i; split; [lia|done]|].
  destruct (IH (i + 1) ltac:(lia) E) as (q & Hq & ?). exists q. split; [lia|done].
Qed.

Lemma scan_step fuel n p b m :
  0 ≤ p → 0 ≤ n → p + n < 2 ^ 64 →
  scanbitmap (S fuel) n p b m =
    if any_taken (Z.to_nat n) b p m then scanbitmap fuel n (p + 1) b m else Ok p.
Proof.
  intros. cbn [scanbitmap]. rewrite u64_small by lia.
  replace (p + n - p) with n by lia. destruct (any_taken _ _ _ _) eqn:E; [|done].
  destruct (decide (n = 0)) as [->|]; [done|]. by rewrite u64_small by lia.
Qed.

Lemma scan_ok fuel s n p q :
  0 ≤ p ≤ q → 0 ≤ n → q + n < 2 ^ 64 → free_run s q n → q - p < Z.of_nat fuel →
  ∃ p0, scanbitmap fuel n p (pm_bitmap s) (pm_mem s) = Ok p0 ∧ p ≤ p0 ≤ q ∧ free_run s p0 n ∧
    ∀ p', p ≤ p' < p0 → ¬ free_run s p' n.
Proof.
  revert p. induction fuel as [|fuel IH]; intros p Hp Hn Hq Hrun Hf; [lia|].
  rewrite scan_step by lia. destruct (any_taken _ _ _ _) eqn:E.
  - assert (¬ free_run s p n) as Hnot.
    { intros Hr. assert (any_taken (Z.to_nat n) (pm_bitmap s) p (pm_mem s) = false); [|congruence].
      apply any_taken_spec; [lia|]. intros j Hj. apply Hr. lia. }
    assert (p ≠ q) by (intros ->; done).
    destruct (IH (p + 1)) as (p0 & Ep & Hp0 & Hr0 & Hmin); [lia..|done|lia|].
    exists p0. split_and!; [done|lia|lia|done|]. intros p' Hp'.
    destruct (decide (p' = p)) as [->|]; [done|]. apply Hmin. lia.
  - exists p. split_and!; [done|lia|lia| |lia]. rewrite any_taken_spec in E by lia.
    intros j Hj. apply E. lia.
Qed.

Lemma mark_loop_taken k b i m j :
  0 ≤ i → 0 ≤ j → taken b (mark_loop k b i m) j = in_run i (Z.of_nat k) j || taken b m j.
Proof.
  unfold in_run. revert i m. induction k as [|k IH]; intros i m Hi Hj; cbn [mark_loop].
  - rewrite bool_decide_false by lia. done.
  - rewrite IH, taken_set, orb_assoc by lia. f_equal.
    destruct (decide (i = j)) as [->|].
    + rewrite (bool_decide_true (j = j)), orb_true_r, bool_decide_true by lia. done.
    + rewrite (bool_decide_false (i = j)), orb_false_r by done. apply bool_decide_ext. lia.
Qed.

Lemma set_pm_g_same g s :
  pm_mem (set_pm_g g s) = pm_mem s ∧ pm_bitmap (set_pm_g g s) = pm_bitmap s ∧
  pm_lock (set_pm_g g s) = pm_lock s.
Proof. done. Qed.

(** Memory outside the bits of the first [n] pages is the same. *)
Definition outside (b n a : Z) : Prop := ∀ j, 0 ≤ j < n → a ≠ b + j / 8.

Definition same_outside (b n : Z) (m m' : mem) : Prop :=
  ∀ a, outside b n a → rd8 m' a = rd8 m a.

Lemma mark_loop_outside k b i n m : 0 ≤ i → i + Z.of_nat k ≤ n → same_outside b n m (mark_loop k b i m).
Proof.
  intros Hi Hn a Ha. revert i m Hi Hn. induction k as [|k IH]; intros i m Hi Hn; cbn [mark_loop]; [done|].
  rewrite IH by lia. apply rd8_wr8_ne. apply not_eq_sym, Ha. lia.
Qed.

Lemma freepg_loop_outside k i n s :
  0 ≤ i → i + Z.of_nat k ≤ n → same_outside (pm_bitmap s) n (pm_mem s) (pm_mem (freepg_loop k i s)).
Proof.
  intros Hi Hn a Ha. revert i s Ha Hi Hn. induction k as [|k IH]; intros i s Ha Hi Hn; cbn [freepg_loop]; [done|].
  destruct (bitmap_test _ _ _); rewrite IH by (try exact Ha; lia); simpl;
    apply rd8_wr8_ne, not_eq_sym, Ha; lia.
Qed.

(** The lowest run of [n] free pages is taken; nothing else changes. *)
Lemma palloc_full fuel s n q :
  0 ≤ n → 0 ≤ q → (q + n) * PGSIZE < 2 ^ 64 → free_run s q n → q < Z.of_nat fuel →
  ∃ p s', palloc fuel n s = Ok (p * PGSIZE, s') ∧ 0 ≤ p ≤ q ∧ free_run s p n ∧
    (∀ p', 0 ≤ p' < p → ¬ free_run s p' n) ∧ pm_bitmap s' = pm_bitmap s ∧ pm_lock s' = pm_lock s ∧
    (∀ j, 0 ≤ j → taken (pm_bitmap s') (pm_mem s') j = in_run p n j || taken (pm_bitmap s) (pm_mem s) j) ∧
    same_outside (pm_bitmap s) (q + n) (pm_mem s) (pm_mem s').
Proof.
  unfold PGSIZE. intros Hn Hq Hb Hrun Hf.
  destruct (scan_ok fuel s n 0 q) as (p & E & Hp & Hr & Hmin); [lia..|done|lia|].
  unfold palloc. rewrite E. unfold PGSIZE. rewrite !u64_small by lia.
  replace (Z.to_nat (p + n - p)) with (Z.to_nat n) by lia.
  eexists p, _. split; [done|]. split; [done|]. split; [done|]. split; [done|].
  assert (same_outside (pm_bitmap s) (q + n) (pm_mem s) (mark_loop (Z.to_nat n) (pm_bitmap s) p (pm_mem s)))
    by (apply mark_loop_outside; lia).
  repeat case_decide; simpl; (split; [done|]); (split; [done|]); (split; [|done]); intros j Hj;
    rewrite mark_loop_taken, Z2Nat.id by lia; done.
Qed.

Lemma palloc_ok fuel s n q :
  0 ≤ n → 0 ≤ q → (q + n) * PGSIZE < 2 ^ 64 → free_run s q n → q < Z.of_nat fuel →
  ∃ p s', palloc fuel n s = Ok (p * PGSIZE, s') ∧ 0 ≤ p ≤ q ∧ free_run s p n ∧
    (∀ p', 0 ≤ p' < p → ¬ free_run s p' n) ∧ pm_bitmap s' = pm_bitmap s ∧ pm_lock s' = pm_lock s ∧
    ∀ j, 0 ≤ j → taken (pm_bitmap s') (pm_mem s') j = in_run p n j || taken (pm_bitmap s) (pm_mem s) j.
Proof.
  intros. destruct (palloc_full fuel s n q) as (p & s' & ? & ? & ? & ? & ? & ? & ? & _); [done..|].
  exists p, s'. done.
Qed.

Lemma freepg_loop_spec k i s :
  0 ≤ i → let s' := freepg_loop k i s in
  pm_bitmap s' = pm_bitmap s ∧ pm_lock s' = pm_lock s ∧
  ∀ j, 0 ≤ j → taken (pm_bitmap s') (pm_mem s') j =
    negb (in_run i (Z.of_nat k) j) && taken (pm_bitmap s) (pm_mem s) j.
Proof.
  unfold in_run. revert i s. induction k as [|k IH]; intros i s Hi; cbn [freepg_loop].
  - split_and!; [done..|]. intros j Hj. rewrite bool_decide_false by lia. done.
  - set (s1 := if bitmap_test _ _ _ then s else _).
    assert (pm_mem s1 = pm_mem s ∧ pm_bitmap s1 = pm_bitmap s ∧ pm_lock s1 = pm_lock s) as (Em & Eb & El)
      by (unfold s1; by destruct (bitmap_test _ _ _)).
    destruct (IH (i + 1) (set_pm_mem (bitmap_reset (pm_bitmap s1) i (pm_mem s1)) s1)) as (Hb & Hl & Ht); [lia|].
    simpl in Hb, Hl. split_and!; [congruence..|]. intros j Hj. rewrite Ht by lia. simpl.
    rewrite Em, Eb, taken_reset, andb_assoc by lia. f_equal.
    rewrite <-negb_orb. f_equal. destruct (decide (i = j)) as [->|].
    + rewrite (bool_decide_true (j = j)), orb_true_r, bool_decide_true by lia. done.
    + rewrite (bool_decide_false (i = j)), orb_false_r by done. apply bool_decide_ext. lia.
Qed.

Lemma freepg_ok s p n :
  0 ≤ p → 0 ≤ n < 2 ^ 32 → (p + n) * PGSIZE < 2 ^ 64 →
  ∃ s', freepg (p * PGSIZE) n s = Ok (tt, s') ∧ pm_bitmap s' = pm_bitmap s ∧ pm_lock s' = pm_lock s ∧
    ∀ j, 0 ≤ j → taken (pm_bitmap s') (pm_mem s') j = negb (in_run p n j) && taken (pm_bitmap s) (pm_mem s) j.
Proof.
  unfold PGSIZE. intros Hp Hn Hb. unfold freepg, PGSIZE. rewrite Z.div_mul, u32_small, u64_small by lia.
  destruct (freepg_loop_spec (Z.to_nat (p + n - p)) p s Hp) as (? & ? & Ht).
  eexists. split; [done|]. split_and!; [done..|]. intros j Hj. rewrite Ht by done.
  by rewrite Z2Nat.id, Z.add_simpl_l by lia.
Qed.

Lemma bool_extend i k j : in_run (i + 1) (Z.of_nat k) j || bool_decide (i = j) = in_run i (Z.of_nat (S k)) j.
Proof.
  unfold in_run. destruct (decide (i = j)) as [->|].
  - rewrite (bool_decide_true (j = j)), orb_true_r, bool_decide_true by lia. done.
  - rewrite (bool_decide_false (i = j)), orb_false_r by done. apply bool_decide_ext. lia.
Qed.

(** ** [pallocaddr] *)

Lemma pallocaddr_loop_ok k i s :
  0 ≤ i → i + Z.of_nat k ≤ 2 ^ 32 → free_run s i (Z.of_nat k) →
  ∃ s', pallocaddr_loop k i s = Ok (tt, s') ∧ pm_bitmap s' = pm_bitmap s ∧ pm_lock s' = pm_lock s ∧
    ∀ j, 0 ≤ j → taken (pm_bitmap s') (pm_mem s') j = in_run i (Z.of_nat k) j || taken (pm_bitmap s) (pm_mem s) j.
Proof.
  revert i s. induction k as [|k IH]; intros i s Hi Hb Hr; cbn [pallocaddr_loop].
  - exists s. split_and!; try done. intros j Hj. unfold in_run. by rewrite bool_decide_false by lia.
  - rewrite (bind_ok get _ s s s eq_refl), isfree_spec, u32_small, (Hr i) by lia. simpl.
    rewrite (bind_ok (modify _) _ s tt _ eq_refl).
    set (s1 := set_pm_mem _ s).
    destruct (IH (i + 1) s1) as (s' & E & Hbm & Hl & Ht); [lia|lia| |].
    { intros j Hj. unfold s1. simpl. rewrite taken_toggle, u32_small, bool_decide_false, (Hr j) by lia. done. }
    exists s'. split_and!; [done|by rewrite Hbm|by rewrite Hl|]. intros j Hj. rewrite Ht by done.
    unfold s1. simpl. rewrite taken_toggle, u32_small, <-bool_extend by lia.
    destruct (decide (i = j)) as [->|].
    + rewrite (bool_decide_true (j = j)), (Hr j) by lia. by destruct (in_run _ _ _).
    + rewrite (bool_decide_false (i = j)) by done. by rewrite orb_false_r, xorb_false_l.
Qed.

Lemma pallocaddr_loop_panic k i s q :
  0 ≤ i → i + Z.of_nat k ≤ 2 ^ 32 → i ≤ q < i + Z.of_nat k → taken (pm_bitmap s) (pm_mem s) q = true →
  pallocaddr_loop k i s = Panic "panic: pallocaddr, page is not free".
Proof.
  revert i s. induction k as [|k IH]; intros i s Hi Hb Hq Ht; cbn [pallocaddr_loop]; [lia|].
  rewrite (bind_ok get _ s s s eq_refl), isfree_spec, u32_small by lia.
  destruct (taken (pm_bitmap s) (pm_mem s) i) eqn:E; [done|]. simpl.
  rewrite (bind_ok (modify _) _ s tt _ eq_refl).
  assert (q ≠ i) by congruence. apply IH; [lia|lia|lia|]. simpl.
  rewrite taken_toggle, u32_small, Ht, bool_decide_false by lia. done.
Qed.

(** Exactly the requested pages are taken, and the lock is released. *)
Lemma pallocaddr_ok s size p :
  0 ≤ p → 0 ≤ size → p + size < 2 ^ 32 → pm_lock s = 0 → free_run s p size →
  ∃ s', pallocaddr size (p * PGSIZE) s = Ok (p * PGSIZE, s') ∧ pm_bitmap s' = pm_bitmap s ∧ pm_lock s' = 0 ∧
    ∀ j, 0 ≤ j → taken (pm_bitmap s') (pm_mem s') j = in_run p size j || taken (pm_bitmap s) (pm_mem s) j.
Proof.
  intros Hp Hs Hb Hl Hr. unfold pallocaddr, PGSIZE. rewrite Z.div_mul by lia.
  unfold u32. rewrite (Z.mod_small p), (Z.mod_small (p + size)) by lia. rewrite (bind_ok get _ s s s eq_refl), decide_True by done.
  rewrite (bind_ok (modify _) _ s tt _ eq_refl). rewrite Z.add_simpl_l.
  destruct (pallocaddr_loop_ok (Z.to_nat size) p (set_pm_lock 1 s)) as (s' & E & Hbm & _ & Ht); [done|lia| |].
  { intros j Hj. apply Hr. lia. }
  rewrite (bind_ok _ _ _ _ _ E). eexists. split; [done|]. split_and!; [done..|].
  intros j Hj. simpl. rewrite Ht, Z2Nat.id by done. done.
Qed.

Lemma pallocaddr_panic s size p q :
  0 ≤ p → p + size < 2 ^ 32 → pm_lock s = 0 → p ≤ q < p + size →
  taken (pm_bitmap s) (pm_mem s) q = true →
  pallocaddr size (p * PGSIZE) s = Panic "panic: pallocaddr, page is not free".
Proof.
  intros Hp Hb Hl Hq Ht. unfold pallocaddr, PGSIZE. rewrite Z.div_mul by lia.
  unfold u32. rewrite (Z.mod_small p), (Z.mod_small (p + size)) by lia. rewrite (bind_ok get _ s s s eq_refl), decide_True by done.
  rewrite (bind_ok (modify _) _ s tt _ eq_refl), Z.add_simpl_l.
  unfold mbind, K_bind. rewrite (pallocaddr_loop_panic _ _ _ q); [done|done|lia|lia|done].
Qed.

(** ** [initbmap] *)

(** The page holds memory of a usable area. *)
Definition covers (e : memmap_entry) (j : Z) : bool :=
  bool_decide (me_type e = 0) &&
  in_run (me_base e / PGSIZE) ((me_length e + PGSIZE - 1) / PGSIZE) j.

Definition entry_ok (e : memmap_entry) : Prop :=
  0 ≤ me_base e ∧ 0 ≤ me_length e ∧ me_base e + me_length e < 2 ^ 63.

Lemma reset_loop_taken k j0 base b m j :
  0 ≤ base → 0 ≤ j0 → base + j0 + Z.of_nat k * PGSIZE < 2 ^ 64 → 0 ≤ j →
  taken b (reset_loop k j0 base b m) j =
    negb (in_run ((base + j0) / PGSIZE) (Z.of_nat k) j) && taken b m j.
Proof.
  unfold PGSIZE. revert j0 m. induction k as [|k IH]; intros j0 m Hb Hj0 Hlt Hj; cbn [reset_loop].
  - unfold in_run. by rewrite bool_decide_false by lia.
  - unfold PGSIZE. rewrite u64_small by lia. rewrite IH by lia.
    replace ((base + (j0 + 4096)) / 4096) with ((base + j0) / 4096 + 1)
      by (rewrite <-Z.div_add by lia; f_equal; lia).
    pose proof (Z.div_pos (base + j0) 4096).
    rewrite taken_reset, andb_assoc, <-negb_orb, bool_extend by lia. done.
Qed.

Lemma free_entry_taken b m e j :
  entry_ok e → 0 ≤ j → taken b (free_entry b m e) j = negb (covers e j) && taken b m j.
Proof.
  intros (Hb & Hl & Hs) Hj. unfold free_entry, covers. destruct (decide (me_type e ≠ 0)) as [Ht|Ht].
  - by rewrite bool_decide_false by done.
  - rewrite bool_decide_true by (destruct (decide (me_type e = 0)); naive_solver).
    unfold PGSIZE in *. pose proof (Z.div_pos (me_length e + 4096 - 1) 4096).
    pose proof (Z.mul_div_le (me_length e + 4096 - 1) 4096).
    rewrite reset_loop_taken; unfold PGSIZE; [|lia..]. rewrite Z.add_0_r, Z2Nat.id by lia. done.
Qed.

Lemma free_entries_taken b es m j :
  Forall entry_ok es → 0 ≤ j →
  taken b (foldl (free_entry b) m es) j = negb (existsb (λ e, covers e j) es) && taken b m j.
Proof.
  intros Hes Hj. revert m. induction Hes as [|e es He Hes IH]; intros m; simpl; [done|].
  rewrite IH, free_entry_taken, negb_orb by done. rewrite andb_assoc. f_equal. apply andb_comm.
Qed.

Lemma place_bitmap_ok P2V size es b es' :
  0 ≤ size → Forall entry_ok es → place_bitmap P2V size es = Some (b, es') →
  Forall entry_ok es' ∧ ∃ es1 e es2, es = es1 ++ e :: es2 ∧ me_type e = 0 ∧ size ≤ me_length e ∧
    b = P2V (me_base e) ∧ es' = es1 ++ Entry (me_base e + size) (me_length e - size) (me_type e) :: es2.
Proof.
  intros Hs. revert b es'. induction es as [|e es IH]; intros b es' Hes; cbn [place_bitmap]; [done|].
  apply Forall_cons in Hes as [(Hb & Hl & Hsum) Hes]. destruct (decide _) as [[Ht Hlen]|].
  - intros [= <- <-]. rewrite u64_small by lia. split.
    + constructor; [|done]. unfold entry_ok. simpl. lia.
    + by exists [], e, es.
  - destruct (place_bitmap P2V size es) as [[b0 es0]|] eqn:E; [|done]. simpl. intros [= <- <-].
    destruct (IH _ _ Hes eq_refl) as (Hok & es1 & e' & es2 & -> & ? & ? & ? & ->). split.
    + by constructor.
    + by exists (e :: es1), e', es2.
Qed.

(** The pages within the bitmap are free exactly when they hold usable memory
    that the bitmap did not take away. *)
Lemma initbmap_ok P2V es s b es' :
  let size := highest_addr es 0 / PGSIZE / 8 in
  Forall entry_ok es → 0 ≤ size → place_bitmap P2V size es = Some (b, es') →
  ∃ s', initbmap P2V es s = Ok (es', s') ∧ pm_bitmap s' = b ∧ pm_lock s' = pm_lock s ∧
    ∀ j, 0 ≤ j < 8 * size → taken b (pm_mem s') j = negb (existsb (λ e, covers e j) es').
Proof.
  intros size Hes Hs Hp. destruct (place_bitmap_ok _ _ _ _ _ Hs Hes Hp) as [Hok _].
  unfold initbmap. fold size. rewrite Hp. eexists. split; [done|]. split_and!; [done..|].
  intros j Hj. simpl. rewrite free_entries_taken by (done || lia).
  assert (taken b (Str.memset b 255 size (pm_mem s)) j = true) as ->; [|by rewrite andb_true_r].
  unfold taken. pose proof (Z.div_pos j 8). pose proof (Z.div_lt_upper_bound j 8 size).
  pose proof (Z.mod_pos_bound j 8). rewrite memset_spec, decide_True by lia.
  change (u8 255) with (Z.ones 8). by rewrite Z.ones_spec_low by lia.
Qed.

(** The memory that holds the bitmap itself is not all taken: unless its size
    is a multiple of the page size, its last page is free. *)
Lemma initbmap_frees_bitmap P2V es1 e es2 s size :
  let es := es1 ++ e :: es2 in
  size = highest_addr es 0 / PGSIZE / 8 → Forall entry_ok es →
  place_bitmap P2V size es = Some (P2V (me_base e),
    es1 ++ Entry (me_base e + size) (me_length e - size) (me_type e) :: es2) →
  me_type e = 0 → me_base e mod PGSIZE = 0 → size mod PGSIZE ≠ 0 → 0 < size < me_length e →
  (me_base e + size) / PGSIZE < 8 * size →
  ∃ s' es', initbmap P2V es s = Ok (es', s') ∧
    taken (pm_bitmap s') (pm_mem s') ((me_base e + size - 1) / PGSIZE) = false.
Proof.
  intros es -> Hes Hp Ht Hal Hmod Hs Hlt.
  destruct (initbmap_ok P2V es s _ _ Hes ltac:(lia) Hp) as (s' & E & Hb & _ & Hj).
  exists s'. eexists. split; [exact E|]. rewrite Hb. set (size := highest_addr es 0 / PGSIZE / 8) in *.
  apply Forall_app in Hes as [_ Hes]. apply Forall_cons in Hes as [(? & ? & ?) _].
  assert ((me_base e + size - 1) / PGSIZE = (me_base e + size) / PGSIZE) as ->.
  { unfold PGSIZE in *. pose proof (Z.div_mod (me_base e) 4096). pose proof (Z.div_mod size 4096).
    pose proof (Z.mod_pos_bound size 4096). 
    symmetry. apply (Z.div_unique _ _ _ (size mod 4096 - 1)); [lia|].
    replace ((me_base e + size) / 4096) with (me_base e / 4096 + size / 4096); [lia|].
    apply (Z.div_unique _ _ _ (size mod 4096)); lia. }
  rewrite Hj.
  - apply negb_false_iff, existsb_exists. exists (Entry (me_base e + size) (me_length e - size) (me_type e)).
    split; [apply in_or_app; right; by left|]. unfold covers, in_run. simpl.
    rewrite !bool_decide_true; [done| |done]. unfold PGSIZE.
    assert (0 < (me_length e - size + 4096 - 1) / 4096); [|lia]. apply Z.div_str_pos. lia.
  - split; [apply Z.div_pos; unfold PGSIZE; lia|done].
Qed.
