(* ===== verification/Spinlock.v ===== *)
(** * kernel/spinlock.c

    The operations are programs on the lock word: their atomic accesses, in
    order.  One CPU alone runs a program to its end; several CPUs that use one
    lock are a step relation whose steps are the accesses of the same programs.
    The CPUs that only call [acquire] and [release] exclude each other.
    [trylock] copies the lock word and takes nothing: a caller that goes on
    when it returns nonzero, as [vfs_close] of fs/vfs.c does, breaks the
    exclusion. *)

From S2P Require Import Prelude.

Local Open Scope Z_scope.

(** ** Programs on the lock word *)

(** What follows an access may depend on the value it read. [Stuck]: the fuel
    of a loop is used up. *)
Inductive prog (A : Type) : Type :=
  | Ret (a : A)
  | Stuck
  | Exchange (v : Z) (k : Z → prog A)
  | Store (v : Z) (k : prog A)
  | Load (k : Z → prog A).

Arguments Ret {A} a.
Arguments Stuck {A}.
Arguments Exchange {A} v k.
Arguments Store {A} v k.
Arguments Load {A} k.

#[export] Instance prog_ret : MRet prog := @Ret.
#[export] Instance prog_bind : MBind prog := λ A B f, fix go p :=
  match p with
  | Ret a => f a
  | Stuck => Stuck
  | Exchange v k => Exchange v (λ x, go (k x))
  | Store v k => Store v (go k)
  | Load k => Load (λ x, go (k x))
  end.

(** The next access of a program, and what it leaves in the lock word. *)
Definition access {A} (l : Z) (p : prog A) : option (prog A * Z) :=
  match p with
  | Ret _ | Stuck => None
  | Exchange v k => Some (k l, v)
  | Store v k => Some (k, v)
  | Load k => Some (k l, l)
  end.

(** One CPU alone. *)
Fixpoint run {A} (p : prog A) : K Z A := λ l,
  match p with
  | Ret a => Ok (a, l)
  | Stuck => Hang
  | Exchange v k => run (k l) v
  | Store v k => run k v
  | Load k => run (k l) l
  end.

(** ** The operations *)

Definition atomic_exchange (v : Z) : prog Z := Exchange v Ret.

(** [while (atomic_exchange (lock, 1)) ;] *)
Fixpoint acquire (fuel : nat) : prog unit :=
  match fuel with
  | O => Stuck
  | S fuel => old ← atomic_exchange 1; if decide (old ≠ 0) then acquire fuel else mret tt
  end.

Definition release : prog unit := Store 0 (mret tt).

(** The value of the lock word; nothing is written. *)
Definition trylock : prog Z := Load (λ v, mret v).

Definition init_lock : prog unit := Store 0 (mret tt).

Definition init_and_acquire (fuel : nat) : prog unit := init_lock;; acquire fuel.

(** A free lock is taken at once, a taken one never. *)
Lemma acquire_free fuel : run (acquire (S fuel)) 0 = Ok (tt, 1).
Proof. done. Qed.

Lemma acquire_taken fuel l : l ≠ 0 → run (acquire fuel) l = Hang.
Proof.
  revert l. induction fuel as [|fuel IH]; intros l Hl; [done|]. simpl. rewrite decide_True by done. by apply IH.
Qed.

Lemma init_and_acquire_ok fuel l : run (init_and_acquire (S fuel)) l = Ok (tt, 1).
Proof. done. Qed.

(** ** Several CPUs *)

(** Where a CPU is: not using the lock, with a program left to run before it is
    between [acquire] and [release], between them, or with the rest of
    [release] to run. *)
Inductive pc := Outside | Entering (p : prog unit) | Inside | Leaving (p : prog unit).

Record machine := Machine { mc_lock : Z; mc_cpus : gmap nat pc }.

(** What [vfs_close] does: [if (!trylock (lock)) acquire (lock);] *)
Definition try_acquire (fuel : nat) : prog unit := v ← trylock; if decide (v = 0) then acquire fuel else mret tt.

(** The CPU's next step; [retry] says whether callers of [trylock] that go on
    without the lock are allowed. *)
Inductive step (retry : bool) : machine → machine → Prop :=
  | step_call l cpus c fuel :
      cpus !! c = Some Outside → step retry (Machine l cpus) (Machine l (<[c := Entering (acquire fuel)]> cpus))
  | step_try l cpus c fuel :
      retry = true → cpus !! c = Some Outside →
      step retry (Machine l cpus) (Machine l (<[c := Entering (try_acquire fuel)]> cpus))
  | step_enter l cpus c p p' l' :
      cpus !! c = Some (Entering p) → access l p = Some (p', l') →
      step retry (Machine l cpus) (Machine l' (<[c := Entering p']> cpus))
  | step_entered l cpus c :
      cpus !! c = Some (Entering (Ret tt)) → step retry (Machine l cpus) (Machine l (<[c := Inside]> cpus))
  | step_call_release l cpus c :
      cpus !! c = Some Inside → step retry (Machine l cpus) (Machine l (<[c := Leaving release]> cpus))
  | step_leave l cpus c p p' l' :
      cpus !! c = Some (Leaving p) → access l p = Some (p', l') →
      step retry (Machine l cpus) (Machine l' (<[c := Leaving p']> cpus))
  | step_left l cpus c :
      cpus !! c = Some (Leaving (Ret tt)) → step retry (Machine l cpus) (Machine l (<[c := Outside]> cpus)).

Inductive reachable (retry : bool) (n : nat) : machine → Prop :=
  | reach_start : reachable retry n (Machine 0 (gset_to_gmap Outside (set_seq 0 n)))
  | reach_step m m' : reachable retry n m → step retry m m' → reachable retry n m'.

(** The CPU has the lock: [acquire] is done, [release] is not. *)
Definition holds (q : pc) : bool :=
  match q with
  | Entering (Ret _) | Inside | Leaving (Exchange _ _ | Store _ _ | Load _) => true
  | _ => false
  end.

(** Exactly one CPU has the lock while its word is 1, none while it is 0. *)
Definition exclusive (m : machine) : Prop :=
  (mc_lock m = 0 ∧ ∀ c q, mc_cpus m !! c = Some q → holds q = false) ∨
  (mc_lock m = 1 ∧ ∃ c, (∃ q, mc_cpus m !! c = Some q ∧ holds q = true) ∧
     ∀ c' q, mc_cpus m !! c' = Some q → holds q = true → c' = c).

(** What is left of the programs. *)
Definition running (q : pc) : Prop :=
  match q with
  | Entering p => p = Ret tt ∨ ∃ fuel, p = acquire fuel
  | Leaving p => p = Ret tt ∨ p = release
  | _ => True
  end.

Lemma holds_acquire fuel : holds (Entering (acquire fuel)) = false.
Proof. by destruct fuel. Qed.

(** One CPU moves on, with or without the lock. *)
Lemma exclusive_same l cpus c q q' :
  cpus !! c = Some q → holds q' = holds q → exclusive (Machine l cpus) → exclusive (Machine l (<[c := q']> cpus)).
Proof.
  intros Hc Hh [[Hl Hno]|[Hl (c0 & (q0 & Hq0 & Ht) & Hu)]]; simpl in *.
  - left. split; [done|]. simpl. intros c' r [[<- <-]|[_ Hr]]%lookup_insert_Some; [rewrite Hh|]; by eapply Hno.
  - right. split; [done|]. exists c0. split.
    + destruct (decide (c = c0)) as [->|Hne].
      * exists q'. simpl. rewrite lookup_insert_eq. split; [done|]. congruence.
      * exists q0. simpl. by rewrite lookup_insert_ne.
    + simpl. intros c' r [[<- <-]|[_ Hr]]%lookup_insert_Some Hr'; [eapply Hu; [done|congruence]|by eapply Hu].
Qed.

(** The exchange that reads 0. *)
Lemma exclusive_take cpus c q q' :
  cpus !! c = Some q → holds q' = true → exclusive (Machine 0 cpus) → exclusive (Machine 1 (<[c := q']> cpus)).
Proof.
  intros Hc Hh [[_ Hno]|[[=] _]]. right. split; [done|]. exists c. simpl. split.
  - exists q'. by rewrite lookup_insert_eq.
  - intros c' r [[<- _]|[_ Hr]]%lookup_insert_Some Ht; [done|]. apply Hno in Hr. congruence.
Qed.

(** The store of the CPU that has the lock. *)
Lemma exclusive_drop l cpus c q q' :
  cpus !! c = Some q → holds q = true → holds q' = false → exclusive (Machine l cpus) → exclusive (Machine 0 (<[c := q']> cpus)).
Proof.
  intros Hc Hh Hh' [[_ Hno]|[_ (c0 & _ & Hu)]]; simpl in *; [apply Hno in Hc; congruence|].
  left. split; [done|]. simpl. intros c' r [[<- <-]|[Hne Hr]]%lookup_insert_Some; [done|].
  destruct (holds r) eqn:Er; [|done]. by rewrite (Hu c' r Hr Er), (Hu c q Hc Hh) in Hne.
Qed.

Definition invariant (m : machine) : Prop := exclusive m ∧ map_Forall (λ _, running) (mc_cpus m).

Lemma step_invariant m m' : step false m m' → invariant m → invariant m'.
Proof.
  intros Hs [He Hr]. destruct Hs as [l cpus c fuel Hc| |l cpus c p p' l' Hc Ha|l cpus c Hc|l cpus c Hc|l cpus c p p' l' Hc Ha|l cpus c Hc];
    try done; pose proof (Hr _ _ Hc) as Hq; simpl in Hr, Hq.
  - split; [eapply exclusive_same; [done|apply holds_acquire|done]|].
    apply map_Forall_insert_2; [right; by exists fuel|done].
  - destruct Hq as [-> |[fuel ->]]; [done|]. destruct fuel as [|fuel]; [done|]. injection Ha as <- <-.
    fold (acquire fuel) in *. destruct (decide (l ≠ 0)) as [Hl|Hl].
    + assert (l = 1) as -> by (destruct He as [[??]|[??]]; simpl in *; lia).
      split; [eapply exclusive_same; [done|by rewrite !holds_acquire|done]|].
      apply map_Forall_insert_2; [right; by exists fuel|done].
    + assert (l = 0) as -> by lia. split; [by eapply exclusive_take|]. apply map_Forall_insert_2; [by left|done].
  - split; [by eapply exclusive_same|]. by apply map_Forall_insert_2.
  - split; [by eapply exclusive_same|]. apply map_Forall_insert_2; [by right|done].
  - destruct Hq as [-> | ->]; [done|]. injection Ha as <- <-.
    split; [by eapply exclusive_drop|]. apply map_Forall_insert_2; [by left|done].
  - split; [by eapply exclusive_same|]. by apply map_Forall_insert_2.
Qed.

Lemma reachable_invariant n m : reachable false n m → invariant m.
Proof.
  induction 1 as [|m m' _ IH Hs]; [|by eapply step_invariant].
  assert (∀ c q, (gset_to_gmap Outside (set_seq 0 n) : gmap nat pc) !! c = Some q → q = Outside) as Ho.
  { intros c q [_ <-]%lookup_gset_to_gmap_Some. done. }
  split; [left; split; [done|]; simpl; by intros c q ->%Ho|]. simpl. by intros c q ->%Ho.
Qed.

(** Two CPUs inside at the same time. *)
Definition both_inside (m : machine) : Prop :=
  ∃ c c', c ≠ c' ∧ mc_cpus m !! c = Some Inside ∧ mc_cpus m !! c' = Some Inside.

Lemma exclusive_inside m : exclusive m → ¬ both_inside m.
Proof.
  intros He (c & c' & Hne & Hc & Hc'). destruct He as [[_ Hno]|[_ (c0 & _ & Hu)]]; [by apply Hno in Hc|].
  apply Hne. by rewrite (Hu _ _ Hc eq_refl), (Hu _ _ Hc' eq_refl).
Qed.

(** A spinning CPU that finds the lock free has it after its next access. *)
Lemma spinning_enters m c fuel :
  mc_lock m = 0 → mc_cpus m !! c = Some (Entering (acquire (S fuel))) →
  ∃ m', step false m m' ∧ mc_lock m' = 1 ∧ mc_cpus m' !! c = Some (Entering (Ret tt)).
Proof.
  destruct m as [l cpus]. simpl. intros -> Hc. eexists. split; [by eapply (step_enter _ _ _ c)|].
  split; [done|]. simpl. by rewrite lookup_insert_eq.
Qed.

(** ** Two CPUs *)

Definition start2 : machine := Machine 0 (gset_to_gmap Outside (set_seq 0 2)).

(** CPU 0 has the lock, CPU 1 has tried once. *)
Definition contended : machine := Machine 1 {[ 0%nat := Inside; 1%nat := Entering (acquire 3) ]}.

Lemma contended_reachable : reachable false 2 contended.
Proof.
  assert (contended = Machine 1 (<[1%nat := Entering (acquire 3)]> (<[1%nat := Entering (acquire 4)]>
    (<[0%nat := Inside]> (<[0%nat := Entering (Ret tt)]> (<[0%nat := Entering (acquire 9)]> (mc_cpus start2))))))) as ->
    by (vm_compute; reflexivity).
  eapply reach_step; [eapply reach_step; [eapply reach_step; [eapply reach_step; [eapply reach_step; [apply reach_start|]|]|]|]|].
  - apply (step_call _ _ _ 0%nat 9). done.
  - by apply (step_enter _ 0 _ 0%nat (acquire 9) (Ret tt) 1).
  - by apply (step_entered _ _ _ 0%nat).
  - by apply (step_call _ _ _ 1%nat 4).
  - by apply (step_enter _ 1 _ 1%nat (acquire 4) (acquire 3) 1).
Qed.

Lemma trylock_breaks : ∃ m, reachable true 2 m ∧ both_inside m.
Proof.
  eexists. split.
  - eapply reach_step; [eapply reach_step; [eapply reach_step; [eapply reach_step; [eapply reach_step; [eapply reach_step; [apply reach_start|]|]|]|]|]|].
    + by apply (step_call _ _ _ 0%nat 9).
    + by apply (step_enter _ 0 _ 0%nat (acquire 9) (Ret tt) 1).
    + by apply (step_entered _ _ _ 0%nat).
    + by apply (step_try _ _ _ 1%nat 9).
    + by apply (step_enter _ 1 _ 1%nat (try_acquire 9) (Ret tt) 1).
    + by apply (step_entered _ _ _ 1%nat).
  - by exists 0%nat, 1%nat.
Qed.
