(* ===== verification/Slab.v ===== *)
(** * kernel/slab.c and include/franklin/list.h: the kernel allocator

    Slabs and blocks are kept in byte memory at the offsets the compiler gives
    [struct slab] and [struct block]; the list macros of list.h become the
    loads and stores they expand to.  A slab is one page: the structure at its
    start, then the blocks. *)

From S2P Require Import Prelude CString Word Pmm.

Local Open Scope Z_scope.

(** [V2P] and [P2V] of kernel/vmm.c. *)
Definition HHDM_OFFSET : Z := 0xffff800000000000.
Definition V2P (v : Z) : Z := u64 (v - HHDM_OFFSET).
Definition P2V (p : Z) : Z := u64 (p + HHDM_OFFSET).

(** The page allocator and the globals of kernel/slab.c: [slabber], and the
    static counter of [newslab]. *)
Record mm := Mm { mm_pmm : pmm; mm_slabs : ptr; mm_lock : Z; mm_id : Z }.

Abbreviation M := (K mm).

Definition set_mm_pmm (p : pmm) (s : mm) : mm := Mm p (mm_slabs s) (mm_lock s) (mm_id s).
Definition set_mm_slabs (a : ptr) (s : mm) : mm := Mm (mm_pmm s) a (mm_lock s) (mm_id s).
Definition set_mm_lock (l : Z) (s : mm) : mm := Mm (mm_pmm s) (mm_slabs s) l (mm_id s).
Definition set_mm_id (i : Z) (s : mm) : mm := Mm (mm_pmm s) (mm_slabs s) (mm_lock s) i.

Definition mm_mem (s : mm) : mem := pm_mem (mm_pmm s).

Definition load64 (a : ptr) : M Z := λ s, Ok (rd64 (mm_mem s) a, s).
Definition store64 (a : ptr) (v : Z) : M unit :=
  modify (λ s, set_mm_pmm (set_pm_mem (wr64 (mm_mem s) a v) (mm_pmm s)) s).

(** A call of the page allocator. *)
Definition in_pmm {A} (f : K pmm A) : M A := λ s,
  match f (mm_pmm s) with
  | Ok (a, p) => Ok (a, set_mm_pmm p s)
  | Panic msg => Panic msg
  | Hang => Hang
  | Fault e => Fault e
  end.

(** ** [struct slab] and [struct block] *)

Definition slab_next (slab : ptr) : ptr := slab.
Definition slab_size (slab : ptr) : ptr := slab + 8.
Definition slab_refcount (slab : ptr) : ptr := slab + 16.
Definition slab_id (slab : ptr) : ptr := slab + 24.
Definition slab_freelist (slab : ptr) : ptr := slab + 32.
Definition sizeof_slab : Z := 40.

Definition block_next (block : ptr) : ptr := block.

(** A 32-bit store, for [slab->id]. *)
Definition store32 (a : ptr) (v : Z) : M unit :=
  modify (λ s, set_mm_pmm (set_pm_mem (wrn 4 (mm_mem s) a v) (mm_pmm s)) s).

Definition acquire_slabber : M unit :=
  s ← get; if decide (mm_lock s = 0) then modify (set_mm_lock 1) else hang.
Definition release_slabber : M unit := modify (set_mm_lock 0).

(** [roundup]: the 32-bit operations. *)
Definition roundup (n : Z) : Z :=
  let n := u32 (n - 1) in
  let n := Z.lor n (Z.shiftr n 1) in
  let n := Z.lor n (Z.shiftr n 2) in
  let n := Z.lor n (Z.shiftr n 4) in
  let n := Z.lor n (Z.shiftr n 8) in
  let n := Z.lor n (Z.shiftr n 16) in
  u32 (n + 1).

(** The size of the blocks that serve an allocation: lines 100 to 103. *)
Definition block_size (size : Z) : Z := roundup (u32 (if decide (size < 8) then 8 else size)).

Definition DIV_ROUNDUP (n d : Z) : Z := u64 (n + d - 1) / d.

Section slab.
(** [pf] bounds the scan of [palloc], [fuel] the walks of the slab list. *)
Context (pf fuel : nat).

Definition kalloclarge (size : Z) : M ptr :=
  let pagecount := DIV_ROUNDUP size PGSIZE in
  metadata ← in_pmm (palloc pf (u64 (pagecount + 1)));
  if decide (metadata = NULL) then mret NULL else
  let metadata := P2V metadata in
  store64 metadata pagecount;;
  mret (u64 (metadata + PGSIZE)).

Definition kfreelarge (p : ptr) : M unit :=
  let metadata := u64 (p - PGSIZE) in
  pagecount ← load64 metadata;
  in_pmm (freepg (V2P metadata) pagecount).

(** The loop of [newslab]: [SLIST_INSERT_AFTER (start, block, blocks)] moves
    [block] to the block it has just linked. *)
Fixpoint link_blocks (k : nat) (slab block size : Z) : M unit :=
  match k with
  | O => hang
  | S k =>
      if decide (block + size < slab + PGSIZE) then
        store64 (block_next block) (block + size);;
        link_blocks k slab (block + size) size
      else mret tt
  end.

(** [newslab] once it has its page. *)
Definition init_slab (slab : ptr) (size : Z) : M ptr :=
  let block := slab + sizeof_slab in
  store64 (slab_size slab) size;;
  store64 (slab_refcount slab) 0;;
  s ← get; store32 (slab_id slab) (mm_id s);; modify (set_mm_id (mm_id s + 1));;
  store64 (slab_freelist slab) block;;
  link_blocks (Z.to_nat PGSIZE) slab block size;;
  s ← get; store64 (slab_next slab) (mm_slabs s);; modify (set_mm_slabs slab);;
  mret slab.

Definition newslab (size : Z) : M ptr :=
  page ← in_pmm (palloc pf 1); init_slab (P2V page) size.

Definition allocblock (slab : ptr) : M ptr :=
  r ← load64 (slab_refcount slab); store64 (slab_refcount slab) (r + 1);;
  block ← load64 (slab_freelist slab);
  next ← load64 (block_next block);
  store64 (slab_freelist slab) next;;
  mret block.

(** [while (current->next != item) current = current->next;] *)
Fixpoint find_prev (k : nat) (current item : ptr) : M ptr :=
  match k with
  | O => hang
  | S k => next ← load64 (slab_next current);
           if decide (next = item) then mret current else find_prev k next item
  end.

Definition freeslab (slab : ptr) : M unit :=
  s ← get;
  (if decide (slab = mm_slabs s) then
     next ← load64 (slab_next slab); modify (set_mm_slabs next)
   else
     current ← find_prev fuel (mm_slabs s) slab;
     next ← load64 (slab_next current); next2 ← load64 (slab_next next);
     store64 (slab_next current) next2);;
  in_pmm (freepg (V2P slab) 1).

(** The first slab of the size that has a free block; NULL if there is none. *)
Fixpoint find_slab (k : nat) (slab size : ptr) : M ptr :=
  match k with
  | O => hang
  | S k =>
      if decide (slab = NULL) then mret NULL else
      sz ← load64 (slab_size slab);
      first ← load64 (slab_freelist slab);
      if decide (sz = size ∧ first ≠ NULL) then mret slab else
      next ← load64 (slab_next slab); find_slab k next size
  end.

Definition kalloc (size : Z) : M ptr :=
  if decide (size > PGSIZE) then kalloclarge size else
  let size := block_size size in
  acquire_slabber;;
  s ← get;
  slab ← find_slab fuel (mm_slabs s) size;
  slab ← (if decide (slab = NULL) then newslab size else mret slab);
  block ← allocblock slab;
  release_slabber;;
  mret block.

(** The loop of [kfree]. *)
Fixpoint kfree_loop (k : nat) (slab p : ptr) : M unit :=
  match k with
  | O => hang
  | S k =>
      if decide (slab = NULL) then mret tt else
      let startaddr := u64 (slab - (PGSIZE - sizeof_slab)) in
      if decide (p < startaddr ∨ slab ≤ p) then
        next ← load64 (slab_next slab); kfree_loop k next p
      else
        r ← load64 (slab_refcount slab);
        if decide (r = 0) then panic "kfree, double free" else
        store64 (slab_refcount slab) (r - 1);;
        r ← load64 (slab_refcount slab);
        if decide (r = 0) then freeslab slab
        else
          first ← load64 (slab_freelist slab);
          store64 (block_next p) first;;
          store64 (slab_freelist slab) p
  end.

Definition kfree (p : ptr) : M unit :=
  if decide (p = NULL) then mret tt
  else if decide (Z.land p 0xfff = 0) then kfreelarge p
  else
    acquire_slabber;;
    s ← get; kfree_loop fuel (mm_slabs s) p;;
    release_slabber.

End slab.
