(* ===== verification/SlabSpec.v ===== *)
(** * The kernel allocator: rounding, new slabs, freeing

    [roundup] is the next power of two; a new slab's free list runs through
    the page, and past its end for every size but 8; [kfree] of a block does
    not find the slab the block came from; a large allocation gives back one
    page less than it took. *)

From S2P Require Import Prelude CString CStringSpec Word Pmm PmmSpec Slab.

Local Open Scope Z_scope.

(** ** [roundup] *)

(** [x | x >> 1 | ... ] with all shifts below [2 ^ k]. *)
Definition smeared (x y k : Z) : Prop :=
  ∀ i, 0 ≤ i → Z.testbit y i = true ↔ ∃ d, 0 ≤ d < k ∧ Z.testbit x (i + d) = true.

Lemma smeared_step x y k : 0 < k → smeared x y k → smeared x (Z.lor y (Z.shiftr y k)) (k + k).
Proof.
  intros Hk H i Hi. rewrite Z.lor_spec, Z.shiftr_spec, orb_true_iff, (H i Hi), (H (i + k)) by lia. split.
  - intros [(d & Hd & E)|(d & Hd & E)]; [exists d|exists (k + d)]; (split; [lia|]);
      rewrite <-E; f_equal; lia.
  - intros (d & Hd & E). destruct (decide (d < k)); [left; exists d; split; [lia|done]|].
    right. exists (d - k). split; [lia|]. rewrite <-E. f_equal. lia.
Qed.

Lemma smeared_ones x y k :
  0 < x → x < 2 ^ k → 0 < k → 0 ≤ y → smeared x y k → y = Z.ones (Z.succ (Z.log2 x)).
Proof.
  intros Hx Hlt Hk Hy H. pose proof (Z.log2_spec x Hx) as Hlog. pose proof (Z.log2_nonneg x) as Hl0.
  assert (Z.log2 x < k) as Hlk by (by apply Z.log2_lt_pow2).
  apply Z.bits_inj'. intros i Hi. rewrite Z.testbit_ones_nonneg by lia. apply eq_bool_prop_intro.
  rewrite !Is_true_true, (H i Hi), Z.ltb_lt. split.
  - intros (d & Hd & E). destruct (decide (i + d ≤ Z.log2 x)); [lia|].
    rewrite Z.bits_above_log2 in E by lia. done.
  - intros Hs. exists (Z.log2 x - i). split; [lia|].
    replace (i + (Z.log2 x - i)) with (Z.log2 x) by lia. by apply Z.bit_log2.
Qed.

(** [roundup] is the least power of two that is at least [n]. *)
Lemma roundup_spec n :
  1 ≤ n ≤ 2 ^ 31 → ∃ k, 0 ≤ k ≤ 31 ∧ roundup n = 2 ^ k ∧ n ≤ 2 ^ k ∧ (1 < n → 2 ^ k < 2 * n).
Proof.
  intros Hn. unfold roundup. assert (u32 (n - 1) = n - 1) as -> by (apply Z.mod_small; lia).
  destruct (decide (n = 1)) as [->|Hne]; [exists 0; split_and!; try done; lia|].
  set (x := n - 1). cbv zeta.
  assert (smeared x x 1) as H0.
  { intros i Hi. split; [intros E; exists 0; rewrite Z.add_0_r; split; [lia|done]|].
    intros (d & Hd & E). replace d with 0 in E by lia. by rewrite Z.add_0_r in E. }
  pose proof (smeared_step x _ 1 ltac:(lia) H0) as H1.
  pose proof (smeared_step x _ 2 ltac:(lia) H1) as H2.
  pose proof (smeared_step x _ 4 ltac:(lia) H2) as H3.
  pose proof (smeared_step x _ 8 ltac:(lia) H3) as H4.
  pose proof (smeared_step x _ 16 ltac:(lia) H4) as H5.
  assert (∀ y k, 0 ≤ y → 0 ≤ Z.lor y (Z.shiftr y k)) as Hpos.
  { intros y k Hy. apply Z.lor_nonneg. split; [done|]. by apply Z.shiftr_nonneg. }
  assert (0 < x ∧ x < 2 ^ 32) as [Hx0 Hx32] by (unfold x; lia).
  pose proof (λ c, smeared_ones x _ 32 Hx0 Hx32 eq_refl c H5) as ->; [|do 5 apply Hpos; lia].
  pose proof (Z.log2_spec x ltac:(unfold x; lia)) as Hlog. pose proof (Z.log2_nonneg x) as Hl0.
  assert (Z.log2 x < 31) as Hl31 by (apply Z.log2_lt_pow2; unfold x; lia).
  exists (Z.succ (Z.log2 x)). rewrite Z.ones_equiv. unfold u32.
  assert (2 ^ Z.succ (Z.log2 x) ≤ 2 ^ 31) by (apply Z.pow_le_mono_r; lia).
  assert (0 < 2 ^ Z.succ (Z.log2 x)) by (apply Z.pow_pos_nonneg; lia).
  rewrite Z.mod_small by lia. rewrite Z.pow_succ_r in * by lia. unfold x in *. split_and!; lia.
Qed.

(** ** Running the accesses *)

Lemma load64_ok a s : load64 a s = Ok (rd64 (mm_mem s) a, s).
Proof. done. Qed.

Definition with_mem (m : mem) (s : mm) : mm := set_mm_pmm (set_pm_mem m (mm_pmm s)) s.

Lemma store64_ok a v s : store64 a v s = Ok (tt, with_mem (wr64 (mm_mem s) a v) s).
Proof. done. Qed.

(** ** The free list of a new slab *)

(** The [n] next pointers of the list that starts at [block]; the one of the
    last block is not among them. *)
Definition linked_blocks (m : mem) (block size : Z) (n : nat) : Prop :=
  ∀ i, (i < n)%nat → rd64 m (block + Z.of_nat i * size) = block + Z.of_nat (S i) * size.

Lemma link_blocks_ok k slab block size s n :
  8 ≤ size → (n < k)%nat → 0 ≤ block →
  (∀ i, (i < n)%nat → block + Z.of_nat (S i) * size < slab + PGSIZE) →
  slab + PGSIZE ≤ block + Z.of_nat (S n) * size → slab + PGSIZE < 2 ^ 64 →
  ∃ m, link_blocks k slab block size s = Ok (tt, with_mem m s) ∧ linked_blocks m block size n ∧
    ∀ a, (∀ i, (i < n)%nat → ¬ (block + Z.of_nat i * size ≤ a < block + Z.of_nat i * size + 8)) →
      rd8 m a = rd8 (mm_mem s) a.
Proof.
  intros Hsz. revert k block s. induction n as [|n IH]; intros [|k] block s Hk Hb Hin Hend Hlt;
    [lia|..|lia|]; cbn [link_blocks].
  - rewrite decide_False by lia. exists (mm_mem s). split_and!; [by destruct s as [[] ? ? ?]| |done].
    intros i Hi. lia.
  - pose proof (Hin 0%nat ltac:(lia)). rewrite decide_True by lia.
    rewrite (bind_ok _ _ _ _ _ (store64_ok _ _ _)). set (s1 := with_mem _ s).
    destruct (IH k (block + size) s1) as (m & E & Hlink & Hout); try lia.
    { intros i Hi. specialize (Hin (S i) ltac:(lia)). lia. }
    exists m. split_and!.
    + rewrite E. done.
    + intros [|i] Hi.
      * rewrite Z.mul_0_l, Z.add_0_r. 
        assert (rd64 m block = rd64 (mm_mem s1) block) as ->.
        { apply rdn_ext. intros j Hj. apply Hout. intros i Hi'. nia. }
        unfold s1, mm_mem. simpl. unfold block_next. rewrite rd64_wr64_eq, u64_small by lia. lia.
      * replace (block + Z.of_nat (S i) * size) with (block + size + Z.of_nat i * size) by lia.
        rewrite Hlink by lia. lia.
    + intros a Ha. rewrite Hout.
      * unfold s1, mm_mem. simpl. apply rd8_wr64_ne. specialize (Ha 0%nat ltac:(lia)). unfold block_next. lia.
      * intros i Hi. specialize (Ha (S i) ltac:(lia)). lia.
Qed.

(** How many blocks the loop links after the first. *)
Definition block_count (size : Z) : Z := (PGSIZE - sizeof_slab + size - 1) / size - 1.

(** The last block of a slab of 16-byte or larger blocks does not fit the
    page. *)
Lemma last_block_overruns k slab :
  4 ≤ k ≤ 12 →
  let size := 2 ^ k in let last := slab + sizeof_slab + block_count size * size in
  last < slab + PGSIZE < last + size.
Proof.
  intros Hk. unfold block_count, PGSIZE, sizeof_slab. cbv zeta.
  assert (k = 4 ∨ k = 5 ∨ k = 6 ∨ k = 7 ∨ k = 8 ∨ k = 9 ∨ k = 10 ∨ k = 11 ∨ k = 12) as Hcases by lia.
  destruct_or! Hcases; subst k;
    match goal with |- context [2 ^ ?k] => let v := eval vm_compute in (2 ^ k) in change (2 ^ k) with v end;
    match goal with |- context [?e / ?d] => let v := eval vm_compute in (e / d) in change (e / d) with v end; lia.
Qed.

Lemma block_count_spec size :
  0 < size ≤ PGSIZE → 0 ≤ block_count size ∧ block_count size * size < PGSIZE - sizeof_slab ∧
    PGSIZE - sizeof_slab ≤ (block_count size + 1) * size.
Proof.
  unfold block_count, PGSIZE, sizeof_slab. intros Hs.
  pose proof (Z.mul_div_le (4096 - 40 + size - 1) size ltac:(lia)).
  pose proof (Z.mod_pos_bound (4096 - 40 + size - 1) size ltac:(lia)).
  pose proof (Z.div_mod (4096 - 40 + size - 1) size ltac:(lia)).
  set (c := (4096 - 40 + size - 1) / size) in *.
  assert (1 ≤ c) by (apply Z.div_le_lower_bound; lia). lia.
Qed.

(** A slab of [size]-byte blocks at [slab], as [newslab] leaves it. *)
Definition slab_ready (m : mem) (slab size next : Z) : Prop :=
  rd64 m (slab_next slab) = next ∧ rd64 m (slab_size slab) = size ∧ rd64 m (slab_refcount slab) = 0 ∧
  rd64 m (slab_freelist slab) = slab + sizeof_slab ∧
  linked_blocks m (slab + sizeof_slab) size (Z.to_nat (block_count size)).

Lemma init_slab_ok s slab size :
  8 ≤ size ≤ PGSIZE → 0 ≤ slab → slab + PGSIZE < 2 ^ 64 →
  ∃ s', init_slab slab size s = Ok (slab, s') ∧ mm_slabs s' = slab ∧ mm_lock s' = mm_lock s ∧
    mm_id s' = mm_id s + 1 ∧ slab_ready (mm_mem s') slab size (u64 (mm_slabs s)) ∧
    pm_bitmap (mm_pmm s') = pm_bitmap (mm_pmm s) ∧
    ∀ a, ¬ (slab ≤ a < slab + PGSIZE) → rd8 (mm_mem s') a = rd8 (mm_mem s) a.
Proof.
  intros Hsz Hslab Htop. pose proof (block_count_spec size ltac:(lia)) as (Hc0 & Hc1 & Hc2).
  unfold PGSIZE, sizeof_slab in Hc1, Hc2, Htop.
  unfold init_slab, sizeof_slab. do 2 rewrite (bind_ok _ _ _ _ _ (store64_ok _ _ _)).
  rewrite (bind_ok get _ _ _ _ eq_refl).
  rewrite (bind_ok (store32 _ _) _ _ tt _ eq_refl), (bind_ok (modify _) _ _ tt _ eq_refl).
  rewrite (bind_ok _ _ _ _ _ (store64_ok _ _ _)).
  set (s1 := with_mem _ _).
  destruct (link_blocks_ok (Z.to_nat PGSIZE) slab (slab + 40) size s1 (Z.to_nat (block_count size)))
    as (m & E & Hlink & Hout); unfold PGSIZE;
    try (assert (block_count size * 8 ≤ block_count size * size) by nia; lia).
  { intros i Hi. assert (Z.of_nat (S i) * size ≤ block_count size * size) by nia. lia. }
  rewrite (bind_ok _ _ _ _ _ E), (bind_ok get _ _ _ _ eq_refl).
  rewrite (bind_ok _ _ _ _ _ (store64_ok _ _ _)), (bind_ok (modify _) _ _ tt _ eq_refl).
  assert (mm_mem s1 = wr64 (wrn 4 (wr64 (wr64 (mm_mem s) (slab + 8) size) (slab + 16) 0)
    (slab + 24) (mm_id s)) (slab + 32) (slab + 40)) as Hm1 by reflexivity.
  eexists. split; [reflexivity|]. split; [reflexivity|]. split; [reflexivity|]. split; [reflexivity|].
  split; [|split; [reflexivity|]].
  2:{ intros a Ha. unfold PGSIZE in *. transitivity (rd8 m a); [apply rd8_wr64_ne; unfold slab_next; lia|]. rewrite Hout by (intros i Hi; assert (Z.of_nat (S i) * size ≤ block_count size * size) by nia; lia).
      rewrite Hm1, rd8_wr64_ne, rd8_wrn, decide_False, !rd8_wr64_ne by lia. done. }
  assert (∀ a, slab + 8 ≤ a → a + 8 ≤ slab + 40 → rd64 m a = rd64 (mm_mem s1) a) as Hhead.
  { intros a H1 H2. apply rdn_ext. intros j Hj. apply Hout. intros i Hi. nia. }
  assert (mm_slabs s1 = mm_slabs s) as Hs1 by reflexivity.
  generalize dependent s1. intros s1 E Hout Hm1 Hhead Hsl.
  unfold slab_ready, slab_next, slab_size, slab_refcount, slab_freelist, sizeof_slab.
  change (mm_mem _) with (wr64 m slab (mm_slabs s1)). rewrite Hsl. split_and!.
  - apply rd64_wr64_eq.
  - rewrite rd64_wr64_ne, Hhead, Hm1, rd64_wr64_ne by lia. unfold rd64 at 1. rewrite rdn_wrn_ne by lia.
    etrans; [|apply (u64_small size); unfold PGSIZE in *; lia].
    rewrite <-(rd64_wr64_eq (mm_mem s) (slab + 8) size).
    apply rd64_wr64_ne. lia.
  - rewrite rd64_wr64_ne, Hhead, Hm1, rd64_wr64_ne by lia. unfold rd64 at 1. rewrite rdn_wrn_ne by lia.
    apply rd64_wr64_eq.
  - rewrite rd64_wr64_ne, Hhead, Hm1, rd64_wr64_eq by lia. apply u64_small. lia.
  - intros i Hi. rewrite rd64_wr64_ne by nia. by apply Hlink.
Qed.

(** Page [p] is taken, below [q], and nothing outside of the page and of the
    bits of the first [q + 1] pages is written: the memory first changes in the
    bitmap, then in the page. *)
Definition page_taken (s s' : mm) (q p : Z) : Prop :=
  let b := pm_bitmap (mm_pmm s) in
  pm_bitmap (mm_pmm s') = b ∧ ∃ m,
    (∀ j, 0 ≤ j → taken b m j = bool_decide (j = p) || taken b (mm_mem s) j) ∧
    same_outside b (q + 1) (mm_mem s) m ∧
    ∀ a, ¬ (HHDM_OFFSET + p * PGSIZE ≤ a < HHDM_OFFSET + p * PGSIZE + PGSIZE) → rd8 (mm_mem s') a = rd8 m a.

(** [newslab]: a free page is taken and becomes the new head of the slab
    list; its free list starts after the structure and runs through the page. *)
Lemma newslab_ok pf s size q :
  8 ≤ size ≤ PGSIZE → 0 ≤ q < 2 ^ 34 → free_run (mm_pmm s) q 1 → q < Z.of_nat pf →
  ∃ p s', let slab := HHDM_OFFSET + p * PGSIZE in
    newslab pf size s = Ok (slab, s') ∧ 0 ≤ p ≤ q ∧ free_run (mm_pmm s) p 1 ∧
    mm_slabs s' = slab ∧ mm_lock s' = mm_lock s ∧
    slab_ready (mm_mem s') slab size (u64 (mm_slabs s)) ∧ page_taken s s' q p.
Proof.
  intros Hsz Hq Hrun Hf.
  destruct (palloc_full pf (mm_pmm s) 1 q) as (p & p1 & E1 & Hp & Hrp & _ & Hbm & _ & Ht & Ho); [lia|lia|unfold PGSIZE; lia|done|done|].
  destruct (init_slab_ok (set_mm_pmm p1 s) (HHDM_OFFSET + p * PGSIZE) size) as (s' & E & Hs & Hl & _ & Hr & Hb' & Ho');
    [done|unfold HHDM_OFFSET, PGSIZE; lia..|].
  assert (page_taken s s' q p) as Hpt.
  { split; [rewrite Hb'; exact Hbm|]. exists (pm_mem p1). split; [|split; [done|exact Ho']].
    intros j Hj. rewrite Hbm in Ht. rewrite Ht by done. unfold in_run. f_equal. apply bool_decide_ext. lia. }
  exists p, s'. cbv zeta. split_and!; try done; try lia. unfold newslab.
  rewrite (bind_ok (in_pmm (palloc pf 1)) _ s (p * PGSIZE) (set_mm_pmm p1 s))
    by (unfold in_pmm; by rewrite E1).
  assert (P2V (p * PGSIZE) = HHDM_OFFSET + p * PGSIZE) as ->; [|done].
  unfold P2V, HHDM_OFFSET, PGSIZE. rewrite u64_small by lia. lia.
Qed.

(** ** Allocating from a slab *)

(** The slab list from [a], through the [next] fields. *)
Inductive slab_list (m : mem) : ptr → list ptr → Prop :=
  | slab_nil : slab_list m NULL []
  | slab_cons a L : a ≠ NULL → slab_list m (rd64 m (slab_next a)) L → slab_list m a (a :: L).

(** The slab [kalloc] is looking for. *)
Definition slab_fits (m : mem) (size slab : Z) : bool :=
  bool_decide (rd64 m (slab_size slab) = size ∧ rd64 m (slab_freelist slab) ≠ NULL).

Lemma find_slab_ok k s a L size :
  slab_list (mm_mem s) a L → (length L < k)%nat →
  find_slab k a size s = Ok (default NULL (head (filter (slab_fits (mm_mem s) size) L)), s).
Proof.
  intros H. revert k. induction H as [|a L Ha H IH]; intros [|k] Hk; simpl in Hk; try lia.
  - done.
  - cbn [find_slab]. rewrite decide_False by done.
    rewrite !(bind_ok (load64 _) _ _ _ _ (load64_ok _ _)).
    rewrite filter_cons.
    destruct (decide (rd64 (mm_mem s) (slab_size a) = size ∧ rd64 (mm_mem s) (slab_freelist a) ≠ NULL)) as [Hd|Hd].
    + rewrite decide_True by (by apply bool_decide_pack). done.
    + rewrite decide_False by (by intros ?%bool_decide_unpack).
      rewrite (bind_ok (load64 _) _ _ _ _ (load64_ok _ _)). apply IH. lia.
Qed.

(** What the list and the search read of a slab is its header. *)
Definition headers_same (m m' : mem) (L : list ptr) : Prop :=
  Forall (λ x, ∀ b, x ≤ b < x + sizeof_slab → rd8 m' b = rd8 m b) L.

Lemma header_word m m' x o : (∀ b, x ≤ b < x + sizeof_slab → rd8 m' b = rd8 m b) → 0 ≤ o ≤ 32 → rd64 m' (x + o) = rd64 m (x + o).
Proof. intros H Ho. apply rdn_ext. intros j Hj. apply H. unfold sizeof_slab. lia. Qed.

Lemma slab_list_same m m' a L : headers_same m m' L → slab_list m a L → slab_list m' a L.
Proof.
  intros Hs H. induction H as [|a L Ha H IH]; [constructor|]. apply Forall_cons in Hs as [Hs HL]. constructor; [done|].
  unfold slab_next. rewrite <-(Z.add_0_r a), (header_word m) by (done || lia). rewrite Z.add_0_r. by apply IH.
Qed.

Lemma slab_fits_same m m' size x :
  (∀ b, x ≤ b < x + sizeof_slab → rd8 m' b = rd8 m b) → slab_fits m' size x = slab_fits m size x.
Proof. intros H. unfold slab_fits, slab_size, slab_freelist. by rewrite !(header_word m m' x _ H) by lia. Qed.

Lemma fitting_same m m' size L : headers_same m m' L → filter (slab_fits m' size) L = filter (slab_fits m size) L.
Proof.
  induction 1 as [|x L Hx _ IH]; [done|]. rewrite !filter_cons, (slab_fits_same m m') by done. by rewrite IH.
Qed.

(** The head block leaves the free list, and the slab counts it. *)
Lemma allocblock_ok s slab b :
  rd64 (mm_mem s) (slab_freelist slab) = b → (b + 8 ≤ slab ∨ slab + sizeof_slab ≤ b) →
  ∃ m, allocblock slab s = Ok (b, with_mem m s) ∧
    rd64 m (slab_freelist slab) = rd64 (mm_mem s) (block_next b) ∧
    rd64 m (slab_refcount slab) = u64 (rd64 (mm_mem s) (slab_refcount slab) + 1) ∧
    ∀ a, ¬ (slab + 16 ≤ a < slab + 24) → ¬ (slab + 32 ≤ a < slab + 40) → rd8 m a = rd8 (mm_mem s) a.
Proof.
  unfold slab_freelist, slab_refcount, block_next, sizeof_slab. intros Hb Hout.
  set (m1 := wr64 (mm_mem s) (slab + 16) (rd64 (mm_mem s) (slab + 16) + 1)).
  set (m2 := wr64 m1 (slab + 32) (rd64 (mm_mem s) b)).
  exists m2. split.
  { assert (rd64 m1 (slab + 32) = b) as Hf by (unfold m1; rewrite rd64_wr64_ne by lia; done).
    assert (rd64 m1 b = rd64 (mm_mem s) b) as Hn by (unfold m1; apply rd64_wr64_ne; lia).
    unfold allocblock. rewrite (bind_ok (load64 _) _ _ _ _ (load64_ok _ _)).
    rewrite (bind_ok (store64 _ _) _ s tt (with_mem m1 s) eq_refl).
    rewrite (bind_ok (load64 _) _ _ b (with_mem m1 s)) by (by rewrite <-Hf).
    rewrite (bind_ok (load64 _) _ _ (rd64 (mm_mem s) b) (with_mem m1 s)) by (by rewrite <-Hn). done. }
  unfold m2, m1. split_and!.
  - rewrite rd64_wr64_eq. apply u64_small, rd64_range.
  - rewrite rd64_wr64_ne by lia. apply rd64_wr64_eq.
  - intros a H1 H2. rewrite !rd8_wr64_ne by lia. done.
Qed.

(** ** [kalloc] *)

Lemma set_lock_twice a s : set_mm_lock 0 (set_mm_lock a s) = set_mm_lock 0 s.
Proof. done. Qed.

Lemma acquire_slabber_ok s : mm_lock s = 0 → acquire_slabber s = Ok (tt, set_mm_lock 1 s).
Proof. intros Hl. unfold acquire_slabber. rewrite (bind_ok get _ _ _ _ eq_refl), decide_True by done. done. Qed.

Lemma block_size_spec size :
  0 ≤ size ≤ PGSIZE → ∃ k, 3 ≤ k ≤ 12 ∧ block_size size = 2 ^ k ∧ size ≤ 2 ^ k ∧ (8 < size → 2 ^ k < 2 * size).
Proof.
  unfold PGSIZE, block_size. intros Hs.
  assert (∃ n, (if decide (size < 8) then 8 else size) = n ∧ 8 ≤ n ≤ 4096 ∧ size ≤ n ∧ (8 < size → n = size))
    as (n & -> & Hn & Hle & Hgt) by (destruct (decide (size < 8)); eexists; split_and!; try done; lia).
  unfold u32. rewrite Z.mod_small by lia.
  destruct (roundup_spec n ltac:(lia)) as (k & Hk & E & H1 & H2). exists k. rewrite E.
  assert (3 ≤ k) by (destruct (decide (k < 3)); [|lia]; assert (2 ^ k < 2 ^ 3) by (apply Z.pow_lt_mono_r; lia); lia).
  assert (k ≤ 12).
  { destruct (decide (12 < k)); [|lia]. assert (2 ^ 13 ≤ 2 ^ k) by (apply Z.pow_le_mono_r; lia). lia. }
  split_and!; try done; [lia|]. intros Hg. rewrite (Hgt Hg) in H2. apply H2. lia.
Qed.

(** Some slab of the list has a free block: the first such slab hands out the
    head of its free list. *)
Lemma kalloc_hit pf fuel s L size slab b :
  0 ≤ size ≤ PGSIZE → mm_lock s = 0 → slab_list (mm_mem s) (mm_slabs s) L → (length L < fuel)%nat →
  head (filter (slab_fits (mm_mem s) (block_size size)) L) = Some slab → slab ≠ NULL →
  rd64 (mm_mem s) (slab_freelist slab) = b → (b + 8 ≤ slab ∨ slab + sizeof_slab ≤ b) →
  ∃ m, kalloc pf fuel size s = Ok (b, with_mem m s) ∧
    rd64 m (slab_freelist slab) = rd64 (mm_mem s) (block_next b) ∧
    rd64 m (slab_refcount slab) = u64 (rd64 (mm_mem s) (slab_refcount slab) + 1) ∧
    ∀ a, ¬ (slab + 16 ≤ a < slab + 24) → ¬ (slab + 32 ≤ a < slab + 40) → rd8 m a = rd8 (mm_mem s) a.
Proof.
  intros Hs Hl HL Hf Hh Hn Hb Hout. unfold kalloc. rewrite decide_False by lia. cbv zeta.
  rewrite (bind_ok _ _ _ _ _ (acquire_slabber_ok s Hl)), (bind_ok get _ _ _ _ eq_refl).
  rewrite (bind_ok _ _ _ _ _ (find_slab_ok fuel (set_mm_lock 1 s) _ L _ HL Hf)).
  change (mm_mem (set_mm_lock 1 s)) with (mm_mem s). rewrite Hh. simpl default.
  rewrite decide_False, (bind_ok (mret slab) _ _ _ _ eq_refl) by done.
  destruct (allocblock_ok (set_mm_lock 1 s) slab b Hb Hout) as (m & E & H).
  exists m. split; [|done]. rewrite (bind_ok _ _ _ _ _ E), (bind_ok release_slabber _ _ _ _ eq_refl).
  destruct s. simpl in Hl. by subst.
Qed.

(** The bitmap of the first [bound] pages is not in one of them that is free. *)
Definition bitmap_apart (s : pmm) (bound : Z) : Prop :=
  ∀ p j, 0 ≤ p < bound → taken (pm_bitmap s) (pm_mem s) p = false → 0 ≤ j < bound →
    ¬ (P2V (p * PGSIZE) ≤ pm_bitmap s + j / 8 < P2V (p * PGSIZE) + PGSIZE).

Lemma taken_same b m m' j : rd8 m' (b + j / 8) = rd8 m (b + j / 8) → taken b m' j = taken b m j.
Proof. intros H. unfold taken. by rewrite H. Qed.

Lemma P2V_page p : 0 ≤ p < 2 ^ 35 → P2V (p * PGSIZE) = HHDM_OFFSET + p * PGSIZE.
Proof. intros. unfold P2V, HHDM_OFFSET, PGSIZE. rewrite u64_small by lia. lia. Qed.

Lemma V2P_page p : 0 ≤ p < 2 ^ 35 → V2P (HHDM_OFFSET + p * PGSIZE) = p * PGSIZE.
Proof. intros. unfold V2P, HHDM_OFFSET, PGSIZE. rewrite u64_small by lia. lia. Qed.

(** The page is taken, where the bitmap is in no free page. *)
Lemma page_taken_bits s s' q p bound :
  page_taken s s' q p → bitmap_apart (mm_pmm s) bound → free_run (mm_pmm s) p 1 → 0 ≤ p ≤ q → q < bound < 2 ^ 35 →
  ∀ j, 0 ≤ j < bound → taken (pm_bitmap (mm_pmm s')) (mm_mem s') j =
    bool_decide (j = p) || taken (pm_bitmap (mm_pmm s)) (mm_mem s) j.
Proof.
  intros (Hb & m & Ht & _ & Ho) Hap Hf Hp Hq j Hj. rewrite <-Ht, Hb by lia. apply taken_same, Ho.
  pose proof (Hap p j ltac:(lia) ltac:(apply Hf; lia) Hj) as Ha. by rewrite P2V_page in Ha by lia.
Qed.

(** The header of a slab is in no free page and not among the bits, both of the
    first [n] pages. *)
Definition header_apart (s : mm) (n : Z) (slab : ptr) : Prop :=
  ∀ a, slab ≤ a < slab + sizeof_slab → outside (pm_bitmap (mm_pmm s)) n a ∧
    ∀ p, 0 ≤ p < n → taken (pm_bitmap (mm_pmm s)) (mm_mem s) p = false →
      ¬ (HHDM_OFFSET + p * PGSIZE ≤ a < HHDM_OFFSET + p * PGSIZE + PGSIZE).

Lemma page_taken_headers s s' q p L :
  page_taken s s' q p → 0 ≤ p ≤ q → Forall (header_apart s (q + 1)) L → free_run (mm_pmm s) p 1 →
  headers_same (mm_mem s) (mm_mem s') L.
Proof.
  intros (_ & m & _ & Ho & Hp) Hpq HL Hf. eapply Forall_impl; [exact HL|]. intros x Hx a Ha.
  destruct (Hx a Ha) as [Hout Hfree]. rewrite Hp; [by apply Ho|]. apply Hfree; [lia|]. apply Hf. lia.
Qed.

(** Otherwise a page is taken, made the head of the list, and its first block
    is handed out. *)
Lemma kalloc_new pf fuel s L size q :
  0 ≤ size ≤ PGSIZE → mm_lock s = 0 → slab_list (mm_mem s) (mm_slabs s) L → (length L < fuel)%nat →
  filter (slab_fits (mm_mem s) (block_size size)) L = [] →
  0 ≤ q < 2 ^ 34 → free_run (mm_pmm s) q 1 → q < Z.of_nat pf →
  ∃ p s', let slab := HHDM_OFFSET + p * PGSIZE in
    kalloc pf fuel size s = Ok (slab + sizeof_slab, s') ∧ 0 ≤ p ≤ q ∧ free_run (mm_pmm s) p 1 ∧
    mm_lock s' = 0 ∧ mm_slabs s' = slab ∧ rd64 (mm_mem s') (slab_refcount slab) = 1 ∧
    rd64 (mm_mem s') (slab_size slab) = block_size size ∧ rd64 (mm_mem s') (slab_next slab) = u64 (mm_slabs s) ∧
    page_taken s s' q p ∧
    (block_size size < PGSIZE - sizeof_slab →
     rd64 (mm_mem s') (slab_freelist slab) = slab + sizeof_slab + block_size size).
Proof.
  intros Hs Hl HL Hf Hh Hq Hrun Hp. destruct (block_size_spec size Hs) as (k & Hk & Ek & _).
  assert (8 ≤ block_size size ≤ PGSIZE).
  { rewrite Ek. unfold PGSIZE. split; [apply (Z.pow_le_mono_r 2 3 k)|apply (Z.pow_le_mono_r 2 k 12)]; lia. }
  destruct (newslab_ok pf (set_mm_lock 1 s) (block_size size) q) as (p & s1 & E1 & Hpq & Hr & Hs1 & Hl1 & Hready & Hb & m & Hm1 & Hm2 & Hm3);
    [done..|]. exists p. cbv zeta. set (slab := HHDM_OFFSET + p * PGSIZE) in *.
  destruct Hready as (Hnx & Hsz & Hrc & Hfl & Hlink).
  destruct (allocblock_ok s1 slab (slab + sizeof_slab) Hfl ltac:(lia)) as (m2 & E2 & H1 & H2 & Hout).
  exists (set_mm_lock 0 (with_mem m2 s1)). change (mm_mem (set_mm_lock 0 (with_mem m2 s1))) with m2.
  split; [|split_and!; try done; try lia].
  - unfold kalloc. rewrite decide_False by lia. cbv zeta.
    rewrite (bind_ok _ _ _ _ _ (acquire_slabber_ok s Hl)), (bind_ok get _ _ _ _ eq_refl).
    rewrite (bind_ok _ _ _ _ _ (find_slab_ok fuel (set_mm_lock 1 s) _ L _ HL Hf)).
    change (mm_mem (set_mm_lock 1 s)) with (mm_mem s). rewrite Hh. simpl default.
    rewrite decide_True, (bind_ok _ _ _ _ _ E1), (bind_ok _ _ _ _ _ E2) by done. done.
  - by rewrite H2, Hrc.
  - rewrite <-Hsz. apply rdn_ext. intros j Hj. apply Hout; unfold slab_size in *; lia.
  - etrans; [|exact Hnx]. apply rdn_ext. intros j Hj. apply Hout; unfold slab_next in *; lia.
  - split; [exact Hb|]. exists m. split; [exact Hm1|split; [exact Hm2|]]. intros x Hx. fold slab in Hx, Hm3.
    rewrite <-Hm3 by done. apply Hout; unfold PGSIZE in Hx; lia.
  - intros Hlt. rewrite H1. unfold block_next.
    destruct (block_count_spec (block_size size) ltac:(lia)) as (_ & _ & Hc).
    assert (0 < block_count (block_size size)) by nia.
    specialize (Hlink 0%nat ltac:(lia)). rewrite Z.mul_0_l, Z.add_0_r in Hlink. rewrite Hlink. lia.
Qed.

(** ** [kfree] *)

(** The page a pointer lies in. *)
Definition page_of (p : Z) : Z := p - p mod PGSIZE.

Lemma kfree_skip f fuel s a L p :
  slab_list (mm_mem s) a L → (length L < fuel)%nat →
  Forall (λ slab, p < u64 (slab - (PGSIZE - sizeof_slab)) ∨ slab ≤ p) L →
  kfree_loop f fuel a p s = Ok (tt, s).
Proof.
  intros H. revert fuel. induction H as [|a L Ha H IH]; intros [|fuel] Hf Hout; simpl in Hf; try lia.
  - done.
  - cbn [kfree_loop]. apply Forall_cons in Hout as [Ho Hout].
    rewrite decide_False, decide_True by done.
    rewrite (bind_ok (load64 _) _ _ _ _ (load64_ok _ _)). apply IH; [lia|done].
Qed.

Lemma land_page p : 0 ≤ p → Z.land p 0xfff = p mod PGSIZE.
Proof. intros. change 0xfff with (Z.ones 12). by rewrite Z.land_ones. Qed.

(** A block is looked for in the page before each slab: when no slab lies
    right after the block's page, nothing is freed. *)
Lemma kfree_nothing fuel s L p :
  mm_lock s = 0 → slab_list (mm_mem s) (mm_slabs s) L → (length L < fuel)%nat →
  0 ≤ p < 2 ^ 64 → p mod PGSIZE ≠ 0 →
  Forall (λ slab, slab mod PGSIZE = 0 ∧ PGSIZE ≤ slab < 2 ^ 64) L →
  page_of p + PGSIZE ∉ L →
  kfree fuel p s = Ok (tt, s).
Proof.
  unfold page_of. intros Hl HL Hf Hp Hmod Hal Hnot. unfold kfree, NULL. rewrite land_page by lia.
  rewrite decide_False by (intros ->; done). rewrite decide_False by done.
  rewrite (bind_ok _ _ _ _ _ (acquire_slabber_ok s Hl)), (bind_ok get _ _ _ _ eq_refl).
  rewrite (bind_ok (kfree_loop _ _ _ _) _ _ tt (set_mm_lock 1 s)).
  - unfold release_slabber, modify. destruct s; simpl in *. by subst.
  - apply (kfree_skip fuel fuel (set_mm_lock 1 s) _ L); [done..|].
    apply Forall_forall. intros slab Hin. rewrite Forall_forall in Hal. destruct (Hal _ Hin) as [Ha Hr].
    unfold PGSIZE, sizeof_slab in *. rewrite u64_small by lia.
    destruct (decide (p < slab - 4056)); [lia|]. destruct (decide (slab ≤ p)); [lia|].
    exfalso. apply Hnot. replace (p - p mod 4096 + 4096) with slab; [done|]. Z.div_mod_to_equations. lia.
Qed.

(** A slab in the page after the block's, with other blocks in use, counts
    one block less and gets the block of its neighbour as its first free
    block. *)
Lemma kfree_neighbour fuel s L p slab :
  mm_lock s = 0 → mm_slabs s = slab → slab ≠ NULL → (0 < fuel)%nat →
  slab = page_of p + PGSIZE → slab_list (mm_mem s) slab L → sizeof_slab ≤ p mod PGSIZE → 
  p + 8 ≤ slab → 0 ≤ p → slab + PGSIZE < 2 ^ 64 → 2 ≤ rd64 (mm_mem s) (slab_refcount slab) →
  ∃ s', kfree fuel p s = Ok (tt, s') ∧ mm_lock s' = 0 ∧ mm_slabs s' = slab ∧
    rd64 (mm_mem s') (slab_freelist slab) = p ∧
    rd64 (mm_mem s') (block_next p) = rd64 (mm_mem s) (slab_freelist slab) ∧
    rd64 (mm_mem s') (slab_refcount slab) = rd64 (mm_mem s) (slab_refcount slab) - 1.
Proof.
  unfold page_of, sizeof_slab. intros Hl Hs Hn Hf Hslab HL Hblk Hend Hp0 Htop Hrc.
  pose proof (rd64_range (mm_mem s) (slab_refcount slab)) as Hrange.
  unfold slab_refcount, slab_freelist, block_next in *. unfold kfree, NULL. rewrite land_page by lia.
  rewrite decide_False by (intros ->; done). rewrite decide_False by lia.
  rewrite (bind_ok _ _ _ _ _ (acquire_slabber_ok s Hl)), (bind_ok get _ _ _ _ eq_refl).
  destruct fuel as [|fuel]; [lia|]. cbn [kfree_loop].
  change (mm_slabs (set_mm_lock 1 s)) with (mm_slabs s). rewrite Hs, decide_False by done. cbv zeta.
  pose proof (Z.mod_le p PGSIZE Hp0 ltac:(done)).
  rewrite decide_False by (unfold sizeof_slab, PGSIZE in *; rewrite u64_small by lia; lia).
  set (n := rd64 (mm_mem s) (slab + 16)) in *. set (s1 := set_mm_lock 1 s).
  set (m1 := wr64 (mm_mem s) (slab + 16) (n - 1)).
  set (m2 := wr64 m1 p (rd64 (mm_mem s) (slab + 32))). set (m3 := wr64 m2 (slab + 32) p).
  assert (rd64 m1 (slab + 16) = n - 1) as Hrd by (unfold m1; rewrite rd64_wr64_eq; apply u64_small; lia).
  assert (rd64 m1 (slab + 32) = rd64 (mm_mem s) (slab + 32)) as Hfl by (apply rd64_wr64_ne; lia).
  exists (set_mm_lock 0 (with_mem m3 s)). change (mm_mem (set_mm_lock 0 _)) with m3. split; [|split_and!; try done].
  - rewrite (bind_ok _ _ _ tt (with_mem m3 s1)); [done|].
    rewrite (bind_ok (load64 _) _ s1 n s1 eq_refl), decide_False by lia.
    rewrite (bind_ok (store64 _ _) _ s1 tt (with_mem m1 s1) eq_refl).
    rewrite (bind_ok (load64 _) _ _ (n - 1) (with_mem m1 s1)), decide_False by (lia || by rewrite <-Hrd).
    rewrite (bind_ok (load64 _) _ _ (rd64 (mm_mem s) (slab + 32)) (with_mem m1 s1)) by (by rewrite <-Hfl). done.
  - unfold m3. rewrite rd64_wr64_eq. apply u64_small. lia.
  - unfold m3, m2. rewrite rd64_wr64_ne, rd64_wr64_eq by lia. apply u64_small, rd64_range.
  - unfold m3, m2. rewrite !rd64_wr64_ne by lia. done.
Qed.

(** ** Large allocations *)

(** The pages of a large allocation, without the one for its metadata. *)
Definition large_pages (size : Z) : Z := DIV_ROUNDUP size PGSIZE.

Lemma large_pages_spec size :
  PGSIZE < size < 2 ^ 42 → 1 < large_pages size < 2 ^ 31 ∧ (large_pages size - 1) * PGSIZE < size ≤ large_pages size * PGSIZE.
Proof.
  unfold large_pages, DIV_ROUNDUP, PGSIZE. intros Hs. rewrite u64_small by lia.
  pose proof (Z.div_mod (size + 4096 - 1) 4096 ltac:(done)).
  pose proof (Z.mod_pos_bound (size + 4096 - 1) 4096 ltac:(done)).
  set (d := (size + 4096 - 1) / 4096) in *. lia.
Qed.

(** The lowest run of pages that holds the metadata page and the memory is
    taken; the result is the page after the metadata. *)
Lemma kalloclarge_ok pf s size q bound :
  PGSIZE < size < 2 ^ 42 → 0 ≤ q < 2 ^ 33 → q < Z.of_nat pf →
  free_run (mm_pmm s) q (large_pages size + 1) →
  taken (pm_bitmap (mm_pmm s)) (mm_mem s) 0 = true →
  bitmap_apart (mm_pmm s) bound → q + large_pages size < bound < 2 ^ 35 →
  ∃ p s', kalloc pf 0 size s = Ok (HHDM_OFFSET + (p + 1) * PGSIZE, s') ∧ 1 ≤ p ≤ q ∧
    free_run (mm_pmm s) p (large_pages size + 1) ∧
    rd64 (mm_mem s') (HHDM_OFFSET + p * PGSIZE) = large_pages size ∧
    pm_bitmap (mm_pmm s') = pm_bitmap (mm_pmm s) ∧
    ∀ j, 0 ≤ j < bound → taken (pm_bitmap (mm_pmm s')) (mm_mem s') j =
      in_run p (large_pages size + 1) j || taken (pm_bitmap (mm_pmm s)) (mm_mem s) j.
Proof.
  intros Hs Hq Hf Hrun H0 Hap Hbd. pose proof (large_pages_spec size Hs) as [Hpc _].
  destruct (palloc_ok pf (mm_pmm s) (large_pages size + 1) q) as (p & s1 & E & Hp & Hr & _ & Hb & _ & Ht);
    [lia|lia|unfold PGSIZE; lia|done..|].
  assert (p ≠ 0) as Hp0. { intros ->. pose proof (Hr 0 ltac:(lia)) as H1. unfold mm_mem in H0. congruence. }
  exists p, (with_mem (wr64 (pm_mem s1) (HHDM_OFFSET + p * PGSIZE) (large_pages size)) (set_mm_pmm s1 s)).
  split; [|split_and!; try done; try lia].
  - unfold kalloc. rewrite decide_True by lia. unfold kalloclarge. fold (large_pages size). rewrite u64_small by lia.
    cbv zeta. rewrite (bind_ok (in_pmm _) _ s (p * PGSIZE) (set_mm_pmm s1 s)) by (unfold in_pmm; by rewrite E).
    rewrite decide_False by (unfold NULL, PGSIZE; lia). rewrite P2V_page by lia.
    rewrite (bind_ok _ _ _ _ _ (store64_ok _ _ _)). unfold mret, K_ret.
    rewrite u64_small by (unfold HHDM_OFFSET, PGSIZE; lia). f_equal. f_equal. lia.
  - unfold mm_mem. simpl. rewrite rd64_wr64_eq. apply u64_small. lia.
  - intros j Hj. unfold mm_mem in *. simpl in *. rewrite <-(Ht j) by lia. rewrite Hb. apply taken_same, rd8_wr64_ne.
    pose proof (Hap p j ltac:(lia) ltac:(apply Hr; lia) Hj) as Ha. rewrite P2V_page in Ha by lia.
    unfold PGSIZE in *. lia.
Qed.

(** Freeing a large allocation gives back its pages but the last. *)
Lemma kfreelarge_leaks pf s size q bound :
  PGSIZE < size < 2 ^ 42 → 0 ≤ q < 2 ^ 33 → q < Z.of_nat pf →
  free_run (mm_pmm s) q (large_pages size + 1) →
  taken (pm_bitmap (mm_pmm s)) (mm_mem s) 0 = true →
  bitmap_apart (mm_pmm s) bound → q + large_pages size < bound < 2 ^ 35 →
  ∃ p a s' s'', kalloc pf 0 size s = Ok (a, s') ∧ kfree 0 a s' = Ok (tt, s'') ∧
    free_run (mm_pmm s) p (large_pages size + 1) ∧
    ∀ j, 0 ≤ j < bound → taken (pm_bitmap (mm_pmm s'')) (mm_mem s'') j =
      bool_decide (j = p + large_pages size) || taken (pm_bitmap (mm_pmm s)) (mm_mem s) j.
Proof.
  intros Hs Hq Hf Hrun H0 Hap Hbd. pose proof (large_pages_spec size Hs) as [Hpc _].
  destruct (kalloclarge_ok pf s size q bound) as (p & s1 & E & Hp & Hr & Hn & Hb & Ht); [done..|].
  destruct (freepg_ok (mm_pmm s1) p (large_pages size)) as (p2 & E2 & Hb2 & _ & Ht2);
    [lia|lia|unfold PGSIZE; lia|].
  exists p. eexists _, _, (set_mm_pmm p2 s1). split; [exact E|]. split; [|split; [done|]].
  - unfold kfree, NULL. rewrite decide_False by (unfold HHDM_OFFSET, PGSIZE; lia).
    rewrite land_page by (unfold HHDM_OFFSET, PGSIZE; lia).
    rewrite decide_True.
    2:{ rewrite Z.mod_add by done. done. }
    unfold kfreelarge. rewrite u64_small by (unfold HHDM_OFFSET, PGSIZE; lia).
    replace (HHDM_OFFSET + (p + 1) * PGSIZE - PGSIZE) with (HHDM_OFFSET + p * PGSIZE) by lia.
    rewrite (bind_ok (load64 _) _ s1 (large_pages size) s1) by (by rewrite load64_ok, Hn).
    rewrite V2P_page by lia. unfold in_pmm. by rewrite E2.
  - intros j Hj. unfold mm_mem in *. simpl. rewrite Ht2, Ht by lia. unfold in_run.
    destruct (decide (j = p + large_pages size)) as [->|Hne].
    + rewrite (bool_decide_false (p ≤ _ < _)) by lia. rewrite !bool_decide_true by lia. done.
    + rewrite (bool_decide_false (j = _)) by done. destruct (decide (p ≤ j < p + large_pages size)).
      * rewrite !bool_decide_true by lia. simpl. symmetry. apply Hr. lia.
      * rewrite !bool_decide_false by lia. done.
Qed.
