(* ===== verification/Vmm.v ===== *)
(** * kernel/vmm.c, kernel/mm/vm.h and kernel/vm/vm.c: page tables

    The four levels of tables lie in the byte memory of the allocators: a
    table at the physical address [t] is read and written at [P2V t], an
    entry is a 64-bit word.  The symbols of the linker script and the answer
    of the boot loader are an argument of [init_vm]. *)

From S2P Require Import Prelude CString Word Pmm Slab.

Local Open Scope Z_scope.

Definition PTE_PRESENT : Z := 1.
Definition PTE_RW : Z := 2.
Definition PTE_USER : Z := 4.
Definition PTE_NX : Z := Z.shiftl 1 63.

Definition PTE_ADDR_MASK : Z := 0x000ffffffffff000.
Definition PTE_GET_ADDR (value : Z) : Z := Z.land value PTE_ADDR_MASK.

(** [struct vm_map] and [struct vm_map_entry]. *)
Definition map_top_level (map : ptr) : ptr := map.
Definition map_entries (map : ptr) : ptr := map + 8.
Definition sizeof_vm_map : Z := 16.

Definition entry_next (entry : ptr) : ptr := entry.
Definition entry_start (entry : ptr) : ptr := entry + 8.
Definition entry_end (entry : ptr) : ptr := entry + 16.
Definition sizeof_vm_map_entry : Z := 40.

(** [memset], called from this file. *)
Definition fill (s c n : Z) : M unit :=
  modify (λ st, set_mm_pmm (set_pm_mem (Str.memset s c n (mm_mem st)) (mm_pmm st)) st).

Section vmm.
(** [pf] bounds the scan of [palloc], [fuel] the walks of the slab list. *)
Context (pf fuel : nat).

Definition get_next_level (top_level idx : Z) (alloc : bool) : M ptr :=
  if decide (top_level = NULL) then fail NullDeref else
  e ← load64 (top_level + 8 * idx);
  if decide (Z.land e PTE_PRESENT ≠ 0) then mret (P2V (PTE_GET_ADDR e)) else
  if negb alloc then mret NULL else
  entry ← in_pmm (palloc pf 1);
  fill (P2V entry) 0 PGSIZE;;
  store64 (top_level + 8 * idx) (Z.lor (Z.lor (Z.lor entry PTE_PRESENT) PTE_RW) PTE_USER);;
  mret (P2V entry).

(** The address of the entry of [vaddr] in the last table. *)
Definition va2pte (top_level vaddr : Z) (alloc : bool) : M ptr :=
  let pml4 := top_level in
  let idx := Z.land (Z.shiftr vaddr 39) 0x1ff in
  pml3 ← get_next_level pml4 idx alloc;
  let idx := Z.land (Z.shiftr vaddr 30) 0x1ff in
  pml2 ← get_next_level pml3 idx alloc;
  let idx := Z.land (Z.shiftr vaddr 21) 0x1ff in
  pml1 ← get_next_level pml2 idx alloc;
  let idx := Z.land (Z.shiftr vaddr 12) 0x1ff in
  mret (pml1 + 8 * idx).

Definition mappage2 (top_level vaddr paddr flags : Z) : M Z :=
  pte ← va2pte top_level vaddr true;
  e ← load64 pte;
  if decide (Z.land e PTE_PRESENT ≠ 0) then mret (- EINVAL) else
  store64 pte (Z.lor paddr flags);;
  mret 0.

(** The result of [mappage2] is dropped. *)
Definition mappages (top_level vaddr paddr size flags : Z) : M Z :=
  let pagecount := size / PGSIZE in
  for_from (Z.to_nat pagecount) 0 (λ i,
    mappage2 top_level (u64 (vaddr + i * PGSIZE)) (u64 (paddr + i * PGSIZE)) flags;; mret tt);;
  mret 0.

Fixpoint destroy_level (level : nat) (pml start : Z) (count : nat) : M unit :=
  match level with
  | O => in_pmm (freepg (V2P pml) 1)
  | S level =>
      for_from count start (λ i,
        nextlevel ← get_next_level pml i false;
        if decide (nextlevel = NULL) then mret tt
        else destroy_level level nextlevel 0 512);;
      in_pmm (freepg (V2P pml) 1)
  end.

Definition destroyvm (vmap : ptr) : M unit :=
  top_level ← load64 (map_top_level vmap);
  destroy_level 4 top_level 0 256.

(** ** The kernel's map *)

(** The allocators and the global [kernel_vm_map]. *)
Record vmm := Vmm { vmm_mm : mm; kernel_vm_map : ptr }.

Definition in_mm {A} (f : M A) : K vmm A := λ s,
  match f (vmm_mm s) with
  | Ok (a, p) => Ok (a, Vmm p (kernel_vm_map s))
  | Panic msg => Panic msg
  | Hang => Hang
  | Fault e => Fault e
  end.

(** The segments of linker.ld and the answer to [kaddr_request]. *)
Record image := Image {
  text_start_addr : Z; text_end_addr : Z;
  rodata_start_addr : Z; rodata_end_addr : Z;
  data_start_addr : Z; data_end_addr : Z;
  virtual_base : Z; physical_base : Z }.

Definition ALIGN_DOWN (n d : Z) : Z := n / d * d.
Definition ALIGN_UP (n d : Z) : Z := u64 (DIV_ROUNDUP n d * d).

(** The loop that maps one segment of the kernel. *)
Fixpoint map_segment (k : nat) (kaddr : image) (top_level vaddr last flags : Z) : M unit :=
  match k with
  | O => hang
  | S k =>
      if decide (vaddr < last) then
        mappage2 top_level vaddr (u64 (vaddr - virtual_base kaddr + physical_base kaddr)) flags;;
        map_segment k kaddr top_level (u64 (vaddr + PGSIZE)) last flags
      else mret tt
  end.

(** The loop over the lower half and its copy at [HHDM_OFFSET]. *)
Fixpoint map_low (k : nat) (top_level vaddr : Z) : M unit :=
  match k with
  | O => hang
  | S k =>
      if decide (vaddr < 0x100000000 / 2) then
        mappage2 top_level vaddr vaddr (Z.lor (Z.lor PTE_PRESENT PTE_RW) PTE_USER);;
        mappage2 top_level (u64 (vaddr + HHDM_OFFSET)) vaddr
          (Z.lor (Z.lor (Z.lor PTE_PRESENT PTE_NX) PTE_RW) PTE_USER);;
        map_low k top_level (u64 (vaddr + PGSIZE))
      else mret tt
  end.

(** What [init_vm] enters in the new table, segment by segment; [k] bounds the
    number of pages of a loop. *)
Definition map_kernel (k : nat) (kaddr : image) (top_level : ptr) : M unit :=
  for_from 256 256 (λ i, get_next_level top_level i true;; mret tt);;
  map_segment k kaddr top_level (ALIGN_DOWN (text_start_addr kaddr) PGSIZE)
    (ALIGN_UP (text_end_addr kaddr) PGSIZE) (Z.lor PTE_PRESENT PTE_USER);;
  map_segment k kaddr top_level (ALIGN_DOWN (rodata_start_addr kaddr) PGSIZE)
    (ALIGN_UP (rodata_end_addr kaddr) PGSIZE) (Z.lor (Z.lor PTE_PRESENT PTE_NX) PTE_USER);;
  map_segment k kaddr top_level (ALIGN_DOWN (data_start_addr kaddr) PGSIZE)
    (ALIGN_UP (data_end_addr kaddr) PGSIZE) (Z.lor (Z.lor (Z.lor PTE_PRESENT PTE_NX) PTE_RW) PTE_USER);;
  map_low k top_level 0x1000.

Definition init_vm (k : nat) (kaddr : image) : K vmm unit :=
  map ← in_mm (kalloc pf fuel sizeof_vm_map);
  modify (λ s, Vmm (vmm_mm s) map);;
  page ← in_mm (in_pmm (palloc pf 1));
  let top_level := P2V page in
  in_mm (store64 (map_top_level map) top_level);;
  in_mm (fill top_level 0 PGSIZE);;
  in_mm (map_kernel k kaddr top_level).

Definition newvm_map : K vmm ptr :=
  vmap ← in_mm (kalloc pf fuel sizeof_vm_map);
  page ← in_mm (in_pmm (palloc pf 1));
  in_mm (store64 (map_top_level vmap) (P2V page));;
  for_from 256 256 (λ i,
    s ← get;
    ktop ← in_mm (load64 (map_top_level (kernel_vm_map s)));
    e ← in_mm (load64 (ktop + 8 * i));
    top ← in_mm (load64 (map_top_level vmap));
    in_mm (store64 (top + 8 * i) e));;
  mret vmap.

(** [vm_alloc] of kernel/vm/vm.c. *)
Definition vm_alloc (map vaddr size : Z) : M unit :=
  entry ← kalloc pf fuel sizeof_vm_map_entry;
  store64 (entry_start entry) vaddr;;
  store64 (entry_end entry) (u64 (vaddr + size));;
  first ← load64 (map_entries map);
  store64 (entry_next entry) first;;
  store64 (map_entries map) entry.

End vmm.
