(* ===== verification/VmmSpec.v ===== *)
(** * Page tables: what the calls do to the address space

    [pte_at m t ix] is the entry that the processor finds in memory [m] when
    it follows the indices [ix] from the table at the physical address [t].
    [tables_ok s N L] is the invariant: every table is a taken page below
    page [N], outside the bitmap of the page allocator, and [L] labels it with
    the indices that lead to it, so that no table is reached in two ways from
    one root; several roots may share tables. *)

From S2P Require Import Prelude CString CStringSpec Word Pmm PmmSpec Slab SlabSpec Vmm.

Local Open Scope Z_scope.

(** ** Entries *)

Definition present (e : Z) : bool := Z.testbit e 0.

Lemma present_spec e : Z.land e PTE_PRESENT ≠ 0 ↔ present e = true.
Proof.
  unfold present. rewrite <-land_bit by done. change (Z.shiftl 1 0) with PTE_PRESENT. by rewrite bool_decide_eq_true.
Qed.

Lemma PTE_GET_ADDR_spec v : PTE_GET_ADDR v = v / 2 ^ 12 mod 2 ^ 40 * 2 ^ 12.
Proof.
  rewrite <-Z.land_ones, <-Z.shiftl_mul_pow2, <-Z.shiftr_div_pow2, Z.shiftl_land by done. unfold PTE_GET_ADDR.
  change PTE_ADDR_MASK with (Z.shiftl (Z.ones 40) 12). apply Z.bits_inj'. intros i Hi.
  rewrite !Z.land_spec, !Z.shiftl_spec by done. destruct (decide (i < 12)).
  - rewrite (Z.testbit_neg_r _ (i - 12)), !andb_false_r by lia. done.
  - rewrite Z.shiftr_spec by lia. do 2 f_equal. lia.
Qed.

Lemma PTE_GET_ADDR_u64 v : PTE_GET_ADDR (u64 v) = PTE_GET_ADDR v.
Proof.
  unfold PTE_GET_ADDR, u64. rewrite <-Z.land_ones, <-Z.land_assoc by done. f_equal.
Qed.

Lemma present_u64 v : present (u64 v) = present v.
Proof. unfold present, u64. by rewrite Z.mod_pow2_bits_low. Qed.

(** A page of the first [N]. *)
Definition page (N t : Z) : Prop := t mod PGSIZE = 0 ∧ 0 ≤ t < N * PGSIZE.

Lemma page_number N t : page N t → t = t / PGSIZE * PGSIZE ∧ 0 ≤ t / PGSIZE < N.
Proof. unfold page, PGSIZE. intros [Hm Hr]. pose proof (Z.div_mod t 4096). lia. Qed.

(** Flags outside the address bits do not change the address. *)
Lemma PTE_GET_ADDR_flags N t f :
  page N t → N ≤ 2 ^ 40 → PTE_GET_ADDR f = 0 → PTE_GET_ADDR (Z.lor t f) = t.
Proof.
  intros Hp HN Hf. destruct (page_number N t Hp) as [Et Hr]. unfold PTE_GET_ADDR in *.
  rewrite Z.land_lor_distr_l, Hf, Z.lor_0_r. change (Z.land t PTE_ADDR_MASK) with (PTE_GET_ADDR t).
  rewrite PTE_GET_ADDR_spec. change (2 ^ 12) with PGSIZE. rewrite Z.mod_small by lia. done.
Qed.

Lemma table_entry N t :
  page N t → N ≤ 2 ^ 40 →
  let e := u64 (Z.lor (Z.lor (Z.lor t PTE_PRESENT) PTE_RW) PTE_USER) in
  PTE_GET_ADDR e = t ∧ present e = true.
Proof.
  intros Hp HN. cbv zeta. rewrite PTE_GET_ADDR_u64, present_u64, <-!Z.lor_assoc. split.
  - by apply (PTE_GET_ADDR_flags N).
  - unfold present. rewrite Z.lor_spec. by rewrite orb_comm.
Qed.

(** ** Walks *)

Definition entry (m : mem) (t i : Z) : Z := rd64 m (P2V t + 8 * i).

(** The page that the indices lead to. *)
Fixpoint goes (m : mem) (t : Z) (ix : list Z) : option Z :=
  match ix with
  | [] => Some t
  | i :: ix => if present (entry m t i) then goes m (PTE_GET_ADDR (entry m t i)) ix else None
  end.

(** The last entry on the way. *)
Fixpoint pte_at (m : mem) (t : Z) (ix : list Z) : option Z :=
  match ix with
  | [] => None
  | i :: ix =>
      if present (entry m t i) then
        match ix with [] => Some (entry m t i) | _ => pte_at m (PTE_GET_ADDR (entry m t i)) ix end
      else None
  end.

Definition index (level va : Z) : Z := Z.land (Z.shiftr va (12 + 9 * level)) 0x1ff.
Definition indices (va : Z) : list Z := [index 3 va; index 2 va; index 1 va; index 0 va].

(** The number of the page of a virtual address: its bits 12 to 47. *)
Definition vpn (va : Z) : Z := va / PGSIZE mod 2 ^ 36.

Definition in_range (i : Z) : Prop := 0 ≤ i < 512.

Lemma index_spec level va : 0 ≤ level → index level va = va / PGSIZE / 512 ^ level mod 512.
Proof.
  intros Hl. unfold index. change 0x1ff with (Z.ones 9). rewrite Z.land_ones, Z.shiftr_div_pow2 by lia.
  rewrite Z.pow_add_r, Z.pow_mul_r by lia. change (2 ^ 12) with PGSIZE. change (2 ^ 9) with 512.
  assert (0 < 512 ^ level) by (apply Z.pow_pos_nonneg; lia). rewrite Z.div_div by (unfold PGSIZE; lia). done.
Qed.

Lemma index_range level va : 0 ≤ level → in_range (index level va).
Proof. intros. rewrite index_spec by done. by apply Z.mod_pos_bound. Qed.

Lemma vpn_indices va :
  vpn va = index 0 va + 512 * (index 1 va + 512 * (index 2 va + 512 * index 3 va)).
Proof.
  rewrite !index_spec by done. unfold vpn. set (w := va / PGSIZE). change (512 ^ 0) with 1. rewrite Z.div_1_r.
  change (2 ^ 36) with (512 * (512 * (512 * 512))). rewrite !Z.rem_mul_r by done.
  rewrite !Z.div_div by done. done.
Qed.

Lemma indices_inj va va' : indices va = indices va' ↔ vpn va = vpn va'.
Proof.
  rewrite !vpn_indices. unfold indices.
  pose proof (index_range 0 va ltac:(done)). pose proof (index_range 1 va ltac:(done)).
  pose proof (index_range 2 va ltac:(done)). pose proof (index_range 3 va ltac:(done)).
  pose proof (index_range 0 va' ltac:(done)). pose proof (index_range 1 va' ltac:(done)).
  pose proof (index_range 2 va' ltac:(done)). pose proof (index_range 3 va' ltac:(done)).
  unfold in_range in *. split; [intros [= -> -> -> ->]; done|intros E].
  assert (index 3 va = index 3 va' ∧ index 2 va = index 2 va' ∧ index 1 va = index 1 va' ∧ index 0 va = index 0 va')
    as (-> & -> & -> & ->) by lia. done.
Qed.

Lemma indices_range va : Forall in_range (indices va).
Proof. unfold indices. repeat constructor; by apply index_range. Qed.

(** ** The invariant *)

Abbreviation tk s j := (taken (pm_bitmap (mm_pmm s)) (mm_mem s) j).
Abbreviation bits s := (pm_bitmap (mm_pmm s)).

Definition window (t a : Z) : Prop := P2V t ≤ a < P2V t + PGSIZE.

Record tables_ok (s : mm) (N : Z) (L : gmap Z (list Z)) : Prop := {
  to_bound : 0 ≤ N ≤ 2 ^ 35;
  to_apart : bitmap_apart (mm_pmm s) N;
  to_page t l : L !! t = Some l → page N t ∧ tk s (t / PGSIZE) = true;
  to_sep t l a : L !! t = Some l → window t a → outside (bits s) N a;
  to_len t l : L !! t = Some l → (length l ≤ 3)%nat;
  to_next t l i : L !! t = Some l → (length l < 3)%nat → in_range i →
    present (entry (mm_mem s) t i) = true → L !! PTE_GET_ADDR (entry (mm_mem s) t i) = Some (l ++ [i]) }.

(** [k] pages are free. *)
Definition room (s : mm) (N : Z) (k : nat) : Prop :=
  ∃ F : gset Z, (k ≤ size F)%nat ∧ ∀ q, q ∈ F → 0 ≤ q < N ∧ tk s q = false.

Lemma P2V_small N t : page N t → N ≤ 2 ^ 35 → P2V t = HHDM_OFFSET + t.
Proof. intros [E Hr] HN. unfold PGSIZE in *. unfold P2V, HHDM_OFFSET. rewrite u64_small by lia. lia. Qed.

Lemma pages_apart N t t' : page N t → page N t' → t ≠ t' → t + PGSIZE ≤ t' ∨ t' + PGSIZE ≤ t.
Proof.
  unfold page, PGSIZE. intros [Em ?] [Em' ?] Hne.
  pose proof (Z.div_mod t 4096). pose proof (Z.div_mod t' 4096). lia.
Qed.

(** Two entries are the same word or do not overlap. *)
Lemma entry_write N m t i t' i' v :
  page N t → page N t' → N ≤ 2 ^ 35 → in_range i → in_range i' →
  entry (wr64 m (P2V t + 8 * i) v) t' i' = if decide (t' = t ∧ i' = i) then u64 v else entry m t' i'.
Proof.
  unfold in_range, entry. intros Hp Hp' HN Hi Hi'. case_decide as H.
  - destruct H as [-> ->]. apply rd64_wr64_eq.
  - apply rd64_wr64_ne. rewrite (P2V_small N t), (P2V_small N t') by done.
    destruct (decide (t' = t)) as [->|Hne]; [assert (i ≠ i') by (intros ->; by apply H); lia|].
    destruct (pages_apart N t t' Hp Hp' ltac:(done)); unfold PGSIZE in *; lia.
Qed.

Lemma window_entry t i j : in_range i → 0 ≤ j < 8 → window t (P2V t + 8 * i + j).
Proof. unfold window, in_range, PGSIZE. lia. Qed.

Lemma entry_ext m m' t i :
  in_range i → (∀ a, window t a → rd8 m' a = rd8 m a) → entry m' t i = entry m t i.
Proof.
  intros Hi H. apply rdn_ext. intros a Ha. apply H. unfold window, in_range, PGSIZE in *. simpl in Ha. lia.
Qed.

Lemma rdn_zero k m a : (∀ j, a ≤ j < a + Z.of_nat k → rd8 m j = 0) → rdn k m a = 0.
Proof.
  revert a. induction k as [|k IH]; intros a H; [done|]. cbn [rdn]. rewrite H, IH by (try (intros; apply H); lia). done.
Qed.

Lemma window_disjoint N t t' a : page N t → page N t' → N ≤ 2 ^ 35 → window t a → window t' a → t = t'.
Proof.
  unfold window. intros Hp Hp' HN. rewrite (P2V_small N t), (P2V_small N t') by done. intros H H'.
  destruct (decide (t = t')); [done|]. destruct (pages_apart N t t' Hp Hp' ltac:(done)); lia.
Qed.

(** ** Steps *)

(** The tables of [L] grow to those of [L']: new tables are on pages that
    were free, entries that are present stay, and so does the memory of every
    taken page that is not a table. *)
Record extends (s s' : mm) (N : Z) (L L' : gmap Z (list Z)) : Prop := {
  ex_bits : bits s' = bits s;
  ex_sub : L ⊆ L';
  ex_new t l : L' !! t = Some l → L !! t = None → page N t ∧ tk s (t / PGSIZE) = false;
  ex_taken j : 0 ≤ j < N → tk s j = true → tk s' j = true;
  ex_entry t l i : L !! t = Some l → in_range i → present (entry (mm_mem s) t i) = true →
    entry (mm_mem s') t i = entry (mm_mem s) t i;
  ex_keep a : outside (bits s) N a → (∀ t, page N t → window t a → tk s (t / PGSIZE) = true ∧ L !! t = None) →
    rd8 (mm_mem s') a = rd8 (mm_mem s) a;
  ex_globals : mm_slabs s' = mm_slabs s ∧ mm_lock s' = mm_lock s ∧ mm_id s' = mm_id s }.

Lemma extends_refl s N L : extends s s N L L.
Proof. constructor; try done. intros t l H H'. congruence. Qed.

Lemma extends_trans s1 s2 s3 N L1 L2 L3 :
  extends s1 s2 N L1 L2 → extends s2 s3 N L2 L3 → extends s1 s3 N L1 L3.
Proof.
  intros H12 H23. constructor.
  - rewrite (ex_bits _ _ _ _ _ H23). apply H12.
  - etrans; [apply H12|apply H23].
  - intros t l H3 H1. destruct (L2 !! t) as [l2|] eqn:H2; [by apply (ex_new _ _ _ _ _ H12 t l2)|].
    destruct (ex_new _ _ _ _ _ H23 t l H3 H2) as [Hp Hf]. split; [done|]. apply not_true_is_false. intros E.
    pose proof (ex_taken _ _ _ _ _ H12 _ (proj2 (page_number _ _ Hp)) E). congruence.
  - intros j Hj H. apply H23; [done|]. by apply H12.
  - intros t l i Ht Hi Hp. rewrite <-(ex_entry _ _ _ _ _ H12 t l i) by done.
    apply (ex_entry _ _ _ _ _ H23 t l); [by apply (lookup_weaken _ _ _ _ Ht), H12|done|].
    by rewrite (ex_entry _ _ _ _ _ H12 t l i).
  - intros a Ha H. rewrite <-(ex_keep _ _ _ _ _ H12 a) by done.
    apply (ex_keep _ _ _ _ _ H23); [by rewrite (ex_bits _ _ _ _ _ H12)|].
    intros t Ht Hw. destruct (H t Ht Hw) as [Ht1 Hn]. split.
    + apply H12; [by apply page_number|done].
    + destruct (L2 !! t) as [l|] eqn:E; [|done]. destruct (ex_new _ _ _ _ _ H12 t l E Hn). congruence.
  - destruct (ex_globals _ _ _ _ _ H12) as (E1 & E2 & E3). destruct (ex_globals _ _ _ _ _ H23) as (-> & -> & ->). done.
Qed.

(** A state with the same tables, where at most some more pages are taken. *)
Lemma tables_ok_keep s s' N L :
  tables_ok s N L → bits s' = bits s → (∀ j, 0 ≤ j < N → tk s j = true → tk s' j = true) →
  (∀ t l a, L !! t = Some l → window t a → rd8 (mm_mem s') a = rd8 (mm_mem s) a) → tables_ok s' N L.
Proof.
  intros Hok Hb Ht Hm. pose proof (to_bound _ _ _ Hok).
  assert (∀ t l i, L !! t = Some l → in_range i → entry (mm_mem s') t i = entry (mm_mem s) t i) as He
    by (intros t l i Hl Hi; apply entry_ext; [done|]; intros a; by apply (Hm t l)).
  constructor; [done|..].
  - intros p j Hp Hfree. change (pm_bitmap (mm_pmm s')) with (bits s'). rewrite Hb. apply (to_apart _ _ _ Hok); [done|].
    apply not_true_is_false. intros E. pose proof (Ht p Hp E) as E'. unfold mm_mem in E'. congruence.
  - intros t l Hl. destruct (to_page _ _ _ Hok t l Hl) as [Hp Hk]. split; [done|]. apply Ht; [|done]. by apply page_number.
  - intros t l a Hl Hw. rewrite Hb. by apply (to_sep _ _ _ Hok t l).
  - apply Hok.
  - intros t l i Hl Hlen Hi. rewrite (He t l i) by done. by apply Hok.
Qed.

Lemma room_weaken s N k k' : (k' ≤ k)%nat → room s N k → room s N k'.
Proof. intros Hk (F & Hs & HF). exists F. split; [lia|done]. Qed.

Lemma room_same s s' N k : (∀ j, 0 ≤ j < N → tk s' j = tk s j) → room s N k → room s' N k.
Proof. intros Ht (F & Hs & HF). exists F. split; [done|]. intros q Hq. destruct (HF q Hq). by rewrite Ht. Qed.

(** What mapping asks of the allocator, as an interface: [R s N k] promises that
    [k] more single pages can be taken, the lowest free one each time. *)
Class Reserve (R : mm → Z → nat → Prop) := {
  res_weaken s N k k' : (k' ≤ k)%nat → R s N k → R s N k';
  res_same s s' N k : (∀ j, 0 ≤ j < N → tk s' j = tk s j) → R s N k → R s' N k;
  res_free s N k : R s N (S k) → ∃ q, 0 ≤ q < N ∧ tk s q = false;
  res_take s s' N k p : R s N (S k) → 0 ≤ p < N → (∀ q, 0 ≤ q < p → tk s q = true) →
    (∀ j, 0 ≤ j < N → tk s' j = bool_decide (j = p) || tk s j) → R s' N k }.

#[export] Instance room_reserve : Reserve room.
Proof.
  constructor.
  - apply room_weaken.
  - apply room_same.
  - intros s N k (F & HF & HFq). destruct (decide (F = ∅)) as [->|Hne]; [rewrite size_empty in HF; lia|].
    destruct (set_choose_L F Hne) as [q Hq]. exists q. by apply HFq.
  - intros s s' N k p (F & HF & HFq) Hp _ Ht. exists (F ∖ {[p]}). split.
    + pose proof (size_union_alt {[p]} F) as Hs. rewrite size_singleton in Hs.
      assert (size F ≤ size ({[p]} ∪ F))%nat by (apply subseteq_size; set_solver). lia.
    + intros q Hq. apply elem_of_difference in Hq as [Hin Hnin]. destruct (HFq q Hin) as [Hr Hf].
      split; [done|]. rewrite Ht, Hf, orb_false_r by done. apply bool_decide_eq_false. intros ->. set_solver.
Qed.

Lemma window_outside s N L t a :
  tables_ok s N L → page N t → tk s (t / PGSIZE) = false → window t a → outside (bits s) N a.
Proof.
  intros Hok Hp Hf Hw j Hj ->. destruct (page_number N t Hp) as [Et Hr].
  apply (to_apart _ _ _ Hok _ j Hr Hf Hj). rewrite <-Et. exact Hw.
Qed.

Lemma tables_not_free s N L t l : tables_ok s N L → L !! t = Some l → tk s (t / PGSIZE) ≠ false.
Proof. intros Hok Hl. destruct (to_page _ _ _ Hok t l Hl). congruence. Qed.

(** One page from the page allocator. *)
Lemma palloc_page `{HR : Reserve R} pf s N L k :
  tables_ok s N L → R s N (S k) → N ≤ Z.of_nat pf →
  ∃ t s', in_pmm (palloc pf 1) s = Ok (t, s') ∧ page N t ∧ tk s (t / PGSIZE) = false ∧ L !! t = None ∧
    tk s' (t / PGSIZE) = true ∧ same_outside (bits s) N (mm_mem s) (mm_mem s') ∧
    extends s s' N L L ∧ tables_ok s' N L ∧ R s' N k.
Proof.
  intros Hok Hres Hpf. pose proof (to_bound _ _ _ Hok) as HN. destruct (res_free _ _ _ Hres) as (q & Hqr & Hqf).
  destruct (palloc_full pf (mm_pmm s) 1 q) as (p & s1 & E & Hp & Hrun & Hmin & Hb & _ & Ht & Hout);
    [lia|lia|unfold PGSIZE; lia| |lia|].
  { intros j Hj. by replace j with q by lia. }
  assert (p * PGSIZE / PGSIZE = p) as Ep by (apply Z.div_mul; done).
  assert (same_outside (bits s) N (mm_mem s) (pm_mem s1)) as Hout'.
  { intros a Ha. apply Hout. intros j Hj. apply Ha. lia. }
  assert (page N (p * PGSIZE)) as Hpage by (unfold page; rewrite Z.mod_mul by done; unfold PGSIZE; lia).
  assert (L !! (p * PGSIZE) = None) as Hnone.
  { destruct (L !! _) as [l|] eqn:El; [|done]. destruct (tables_not_free _ _ _ _ _ Hok El). rewrite Ep. apply Hrun. lia. }
  assert (tables_ok (set_mm_pmm s1 s) N L) as Hok1.
  { apply (tables_ok_keep s); [done..| |].
    - intros j Hj H. unfold mm_mem in *. simpl. rewrite Ht, H by lia. apply orb_true_r.
    - intros t l a Hl Hw. apply Hout'. by apply (to_sep _ _ _ Hok t l). }
  exists (p * PGSIZE), (set_mm_pmm s1 s). rewrite Ep. split_and!; try done.
  - unfold in_pmm. by rewrite E.
  - apply Hrun. lia.
  - unfold mm_mem. simpl. rewrite Ht by lia. unfold in_run. by rewrite bool_decide_true by lia.
  - constructor; try done.
    + intros t l Hl Hn. congruence.
    + intros j Hj H. unfold mm_mem in *. simpl. rewrite Ht, H by lia. apply orb_true_r.
    + intros t l i Hl Hi _. apply entry_ext; [done|]. intros a Hw. apply Hout'. by apply (to_sep _ _ _ Hok t l).
    + intros a Ha _. by apply Hout'.
  - apply (res_take s _ N k p Hres); [lia| |].
    + intros j Hj. destruct (tk s j) eqn:Ej; [done|]. destruct (Hmin j Hj). intros j' Hj'. by replace j' with j by lia.
    + intros j Hj. unfold mm_mem in *. simpl. rewrite Ht by lia. f_equal. unfold in_run. apply bool_decide_ext. lia.
Qed.

(** A new table [t'], entered in [t] at index [i]. *)
Definition new_table (m : mem) (t i t' : Z) : mem :=
  wr64 (Str.memset (P2V t') 0 PGSIZE m) (P2V t + 8 * i) (Z.lor (Z.lor (Z.lor t' PTE_PRESENT) PTE_RW) PTE_USER).

Lemma new_table_outside m t i t' a :
  in_range i → ¬ window t' a → ¬ window t a → rd8 (new_table m t i t') a = rd8 m a.
Proof.
  intros Hi Hw' Hw. unfold new_table. unfold window, in_range, PGSIZE in *.
  rewrite rd8_wr64_ne by lia. rewrite memset_spec by done. by rewrite decide_False.
Qed.

Lemma new_table_entry N m t i t' u j :
  page N t → page N t' → page N u → N ≤ 2 ^ 35 → t ≠ t' → in_range i → in_range j →
  entry (new_table m t i t') u j =
    if decide (u = t') then 0 else if decide (u = t ∧ j = i) then u64 (Z.lor (Z.lor (Z.lor t' PTE_PRESENT) PTE_RW) PTE_USER)
    else entry m u j.
Proof.
  intros Hp Hp' Hu HN Hne Hi Hj. unfold new_table. rewrite (entry_write N) by done.
  destruct (decide (u = t')) as [->|Hu'].
  - rewrite decide_False by naive_solver. apply rdn_zero. intros a Ha. rewrite memset_spec by done.
    rewrite decide_True; [done|]. unfold in_range, PGSIZE in *. simpl in Ha. lia.
  - case_decide as H; [done|].
    apply entry_ext; [done|]. intros a Hw. rewrite memset_spec by done. rewrite decide_False; [done|].
      intros Hw'. by apply Hu', (window_disjoint N u t' a).
Qed.

(** What the new table does to the invariant and to the walks. *)
Section add_table.
Context (s s1 : mm) (N : Z) (L : gmap Z (list Z)) (t i t' : Z) (l : list Z).
Hypothesis (Hok : tables_ok s N L) (Hok1 : tables_ok s1 N L) (Hex : extends s s1 N L L).
Hypothesis (Hl : L !! t = Some l) (Hlen : (length l < 3)%nat) (Hi : in_range i).
Hypothesis (Hnp : present (entry (mm_mem s) t i) = false).
Hypothesis (Hp' : page N t') (Hfree : tk s (t' / PGSIZE) = false) (Hk1 : tk s1 (t' / PGSIZE) = true).
Hypothesis (Hsame : same_outside (bits s) N (mm_mem s) (mm_mem s1)).

Let s2 : mm := with_mem (new_table (mm_mem s1) t i t') s1.
Let L' : gmap Z (list Z) := <[t' := l ++ [i]]> L.

Lemma add_bound : N ≤ 2 ^ 35.
Proof. apply (to_bound _ _ _ Hok). Qed.

Lemma add_new : L !! t' = None.
Proof.
  destruct (L !! t') as [l'|] eqn:E; [|done]. by destruct (tables_not_free _ _ _ _ _ Hok E).
Qed.

Lemma add_ne : t ≠ t'.
Proof. intros ->. pose proof add_new. congruence. Qed.

(** Entries of the old tables before the allocation and after the call. *)
Lemma add_entry u l0 j :
  L !! u = Some l0 → in_range j →
  entry (mm_mem s2) u j =
    if decide (u = t ∧ j = i) then u64 (Z.lor (Z.lor (Z.lor t' PTE_PRESENT) PTE_RW) PTE_USER) else entry (mm_mem s) u j.
Proof.
  intros Hu Hj. unfold s2. change (mm_mem (with_mem ?m _)) with m.
  destruct (to_page _ _ _ Hok u l0 Hu) as [Hpu _]. destruct (to_page _ _ _ Hok t l Hl) as [Hpt _].
  rewrite (new_table_entry N) by (done || apply add_bound || apply add_ne).
  rewrite decide_False by (intros ->; pose proof add_new; congruence).
  case_decide; [done|]. apply entry_ext; [done|]. intros a Hw. apply Hsame. by apply (to_sep _ _ _ Hok u l0).
Qed.

Lemma add_zero j : in_range j → entry (mm_mem s2) t' j = 0.
Proof.
  intros Hj. unfold s2. change (mm_mem (with_mem ?m _)) with m. destruct (to_page _ _ _ Hok t l Hl) as [Hpt _].
  rewrite (new_table_entry N) by (done || apply add_bound || apply add_ne). by rewrite decide_True.
Qed.

Lemma add_tk j : 0 ≤ j < N → tk s2 j = tk s1 j.
Proof.
  intros Hj. apply taken_same. unfold s2. change (mm_mem (with_mem ?m _)) with m.
  change (pm_bitmap (mm_pmm (with_mem ?m s1))) with (bits s1). apply new_table_outside; [done|..]; intros Hw.
  - apply (window_outside _ _ _ _ _ Hok Hp' Hfree Hw j Hj). by rewrite (ex_bits _ _ _ _ _ Hex).
  - by apply (to_sep _ _ _ Hok1 t l _ Hl Hw j Hj).
Qed.

Lemma add_extends : extends s s2 N L L'.
Proof.
  constructor.
  - apply (ex_bits _ _ _ _ _ Hex).
  - apply insert_subseteq, add_new.
  - intros u l0 Hu Hn. unfold L' in Hu. rewrite lookup_insert in Hu. case_decide as E; [by subst u|congruence].
  - intros j Hj H. rewrite add_tk by done. by apply Hex.
  - intros u l0 j Hu Hj Hpr. rewrite (add_entry u l0 j) by done. case_decide as E; [|done].
    destruct E as [-> ->]. congruence.
  - intros a Ha H. unfold s2. change (mm_mem (with_mem ?m _)) with m. rewrite new_table_outside; [by apply Hsame|done|..].
    + intros Hw. destruct (H t' Hp' Hw). congruence.
    + intros Hw. destruct (to_page _ _ _ Hok t l Hl) as [Hpt _]. destruct (H t Hpt Hw). congruence.
  - apply Hex.
Qed.

Lemma add_ok : tables_ok s2 N L'.
Proof.
  pose proof add_bound as HN. destruct (table_entry N t' Hp' ltac:(lia)) as [Ea Epr].
  assert (∀ u l0, L' !! u = Some l0 → (u = t' ∧ l0 = l ++ [i]) ∨ (u ≠ t' ∧ L !! u = Some l0)) as HL'.
  { intros u l0. unfold L'. rewrite lookup_insert. case_decide; naive_solver. }
  constructor.
  - apply Hok.
  - intros p j Hp Hf. apply (to_apart _ _ _ Hok1 p j Hp). change (tk s1 p = false). rewrite <-add_tk by done. exact Hf.
  - intros u l0 Hu. destruct (HL' u l0 Hu) as [[-> ->]|[Hne Hu']].
    + split; [done|]. rewrite add_tk; [done|]. by apply page_number.
    + destruct (to_page _ _ _ Hok1 u l0 Hu') as [Hpu Hku]. split; [done|]. rewrite add_tk; [done|]. by apply page_number.
  - intros u l0 a Hu Hw. change (bits s2) with (bits s1). destruct (HL' u l0 Hu) as [[-> ->]|[Hne Hu']].
    + rewrite (ex_bits _ _ _ _ _ Hex). by apply (window_outside _ _ _ _ _ Hok Hp' Hfree).
    + by apply (to_sep _ _ _ Hok1 u l0).
  - intros u l0 Hu. destruct (HL' u l0 Hu) as [[-> ->]|[Hne Hu']]; [rewrite length_app; simpl; lia|by apply (to_len _ _ _ Hok u)].
  - intros u l0 j Hu Hl0 Hj. destruct (HL' u l0 Hu) as [[-> ->]|[Hne Hu']]; [by rewrite add_zero|].
    rewrite (add_entry u l0 j) by done. case_decide as E.
    + destruct E as [-> ->]. rewrite Ea. intros _. unfold L'. rewrite lookup_insert, decide_True by done. congruence.
    + intros Hpr. pose proof (to_next _ _ _ Hok u l0 j Hu' Hl0 Hj Hpr) as Hn. unfold L'. rewrite lookup_insert_ne; [done|].
      intros Et. rewrite <-Et, add_new in Hn. done.
Qed.

(** No walk to a last entry changes. *)
Lemma add_walk u l0 ix :
  L !! u = Some l0 → length (l0 ++ ix) = 4%nat → Forall in_range ix → pte_at (mm_mem s2) u ix = pte_at (mm_mem s) u ix.
Proof.
  pose proof add_bound as HN. destruct (table_entry N t' Hp' ltac:(lia)) as [Ea Epr].
  revert u l0. induction ix as [|j ix IH]; intros u l0 Hu Hlen' Hr; [done|].
  apply Forall_cons in Hr as [Hj Hr]. cbn [pte_at]. rewrite (add_entry u l0 j) by done. case_decide as E.
  - destruct E as [-> ->]. rewrite Hnp, Epr, Ea. simplify_eq. rewrite length_app in Hlen'. simpl in Hlen'.
    destruct ix as [|j' ix]; [simpl in Hlen'; lia|]. cbn [pte_at]. apply Forall_cons in Hr as [Hj' _]. by rewrite add_zero.
  - destruct (present (entry (mm_mem s) u j)) eqn:Epr'; [|done]. destruct ix as [|j' ix]; [done|].
    rewrite length_app in Hlen'. simpl in Hlen'.
    apply (IH _ (l0 ++ [j])); [|rewrite !length_app; simpl; lia|done]. apply (to_next _ _ _ Hok u l0 j); [done|lia|done..].
Qed.
End add_table.

(** ** [get_next_level] and [mappage2] *)

Lemma fill_ok a c n s : fill a c n s = Ok (tt, with_mem (Str.memset a c n (mm_mem s)) s).
Proof. done. Qed.

Lemma mm_mem_with m s : mm_mem (with_mem m s) = m.
Proof. done. Qed.

Lemma with_mem_with m m' s : with_mem m (with_mem m' s) = with_mem m s.
Proof. done. Qed.

(** The walks to last entries that [P] selects are those of before. *)
Definition same_walks (s s' : mm) (L : gmap Z (list Z)) (P : list Z → Prop) : Prop :=
  ∀ u l ix, L !! u = Some l → length (l ++ ix) = 4%nat → Forall in_range ix → P (l ++ ix) →
    pte_at (mm_mem s') u ix = pte_at (mm_mem s) u ix.

Lemma same_walks_trans s1 s2 s3 L1 L2 P :
  L1 ⊆ L2 → same_walks s1 s2 L1 P → same_walks s2 s3 L2 P → same_walks s1 s3 L1 P.
Proof.
  intros Hs H12 H23 u l ix Hu Hl Hr HP. transitivity (pte_at (mm_mem s2) u ix); [|by apply (H12 u l)].
  apply (H23 u l); [by apply (lookup_weaken _ _ _ _ Hu)|done..].
Qed.

Lemma same_walks_refl s L P : same_walks s s L P.
Proof. done. Qed.

Lemma table_not_null s N L t l : tables_ok s N L → L !! t = Some l → P2V t ≠ NULL.
Proof.
  intros Hok Hl. destruct (to_page _ _ _ Hok t l Hl) as [Hp _]. destruct (to_bound _ _ _ Hok).
  rewrite (P2V_small N) by done. destruct Hp as [_ Hr]. unfold NULL, HHDM_OFFSET. lia.
Qed.

(** A table that is there is returned without a change; with [alloc] unset a
    missing one is NULL. *)
Lemma get_next_level_present pf s t i alloc :
  P2V t ≠ NULL → present (entry (mm_mem s) t i) = true →
  get_next_level pf (P2V t) i alloc s = Ok (P2V (PTE_GET_ADDR (entry (mm_mem s) t i)), s).
Proof.
  intros Hn Hpr. unfold get_next_level. rewrite decide_False by done. rewrite (bind_ok _ _ _ _ _ (load64_ok _ _)).
  fold (entry (mm_mem s) t i). rewrite decide_True; [done|]. by apply present_spec.
Qed.

Lemma get_next_level_absent pf s t i :
  P2V t ≠ NULL → present (entry (mm_mem s) t i) = false → get_next_level pf (P2V t) i false s = Ok (NULL, s).
Proof.
  intros Hn Hpr. unfold get_next_level. rewrite decide_False by done. rewrite (bind_ok _ _ _ _ _ (load64_ok _ _)).
  fold (entry (mm_mem s) t i). rewrite decide_False; [done|]. rewrite present_spec. congruence.
Qed.

Lemma get_next_level_ok `{HR : Reserve R} pf s N L t l i k :
  tables_ok s N L → L !! t = Some l → (length l < 3)%nat → in_range i → R s N (S k) → N ≤ Z.of_nat pf →
  ∃ t' s' L', get_next_level pf (P2V t) i true s = Ok (P2V t', s') ∧ tables_ok s' N L' ∧ extends s s' N L L' ∧
    L' !! t' = Some (l ++ [i]) ∧ present (entry (mm_mem s') t i) = true ∧ PTE_GET_ADDR (entry (mm_mem s') t i) = t' ∧
    same_walks s s' L (λ _, True) ∧ R s' N k.
Proof.
  intros Hok Hl Hlen Hi Hroom Hpf. pose proof (table_not_null _ _ _ _ _ Hok Hl) as Hn.
  destruct (present (entry (mm_mem s) t i)) eqn:Hpr.
  - exists (PTE_GET_ADDR (entry (mm_mem s) t i)), s, L. split_and!; try done.
    + by apply get_next_level_present.
    + apply extends_refl.
    + by apply (to_next _ _ _ Hok).
    + apply (res_weaken _ _ (S k)); [lia|done].
  - destruct (palloc_page pf s N L k Hok Hroom Hpf) as (t' & s1 & E & Hp' & Hf & Hnone & Hk1 & Hsame & Hex & Hok1 & Hroom1).
    destruct (table_entry N t' Hp' ltac:(pose proof (to_bound _ _ _ Hok); lia)) as [Ea Epr].
    assert (entry (mm_mem (with_mem (new_table (mm_mem s1) t i t') s1)) t i =
      u64 (Z.lor (Z.lor (Z.lor t' PTE_PRESENT) PTE_RW) PTE_USER)) as Hent.
    { rewrite (add_entry s s1 N L t i t' l Hok Hl Hi Hpr Hp' Hf Hsame t l i Hl Hi). by rewrite decide_True. }
    exists t', (with_mem (new_table (mm_mem s1) t i t') s1), (<[t' := l ++ [i]]> L). rewrite Hent. split_and!.
    + unfold get_next_level. rewrite decide_False by done. rewrite (bind_ok _ _ _ _ _ (load64_ok _ _)).
      fold (entry (mm_mem s) t i). rewrite decide_False by (rewrite present_spec; congruence). change (negb true) with false. cbv iota.
      rewrite (bind_ok _ _ _ _ _ E), (bind_ok _ _ _ _ _ (fill_ok _ _ _ _)), (bind_ok _ _ _ _ _ (store64_ok _ _ _)).
      rewrite mm_mem_with, with_mem_with. unfold new_table, mret, K_ret. reflexivity.
    + by apply (add_ok s).
    + by apply (add_extends s s1 N L t i t' l).
    + rewrite lookup_insert. by rewrite decide_True.
    + exact Epr.
    + exact Ea.
    + intros u l0 ix Hu Hl0 Hr _. by apply (add_walk s s1 N L t i t' l) with (l0 := l0).
    + apply (res_same s1); [|done]. intros j Hj. by apply (add_tk s s1 N L t i t' l).
Qed.

(** Writing a last entry. *)
Section set_leaf.
Context (s : mm) (N : Z) (L : gmap Z (list Z)) (t i : Z) (l : list Z) (v : Z).
Hypothesis (Hok : tables_ok s N L) (Hl : L !! t = Some l) (Hlen : length l = 3%nat) (Hi : in_range i).
Hypothesis (Hnp : present (entry (mm_mem s) t i) = false).

Let s' : mm := with_mem (wr64 (mm_mem s) (P2V t + 8 * i) v) s.

Lemma leaf_outside a : ¬ window t a → rd8 (mm_mem s') a = rd8 (mm_mem s) a.
Proof. intros Hw. apply rd8_wr64_ne. unfold window, in_range, PGSIZE in *. lia. Qed.

Lemma leaf_entry u l0 j :
  L !! u = Some l0 → in_range j →
  entry (mm_mem s') u j = if decide (u = t ∧ j = i) then u64 v else entry (mm_mem s) u j.
Proof.
  intros Hu Hj. destruct (to_page _ _ _ Hok u l0 Hu) as [Hpu _]. destruct (to_page _ _ _ Hok t l Hl) as [Hpt _].
  apply (entry_write N); try done. apply (to_bound _ _ _ Hok).
Qed.

Lemma leaf_tk j : 0 ≤ j < N → tk s' j = tk s j.
Proof.
  intros Hj. apply taken_same. apply leaf_outside. intros Hw. by apply (to_sep _ _ _ Hok t l _ Hl Hw j Hj).
Qed.

Lemma leaf_ok : tables_ok s' N L.
Proof.
  constructor.
  - apply Hok.
  - intros p j Hp Hf. apply (to_apart _ _ _ Hok p j Hp). change (tk s p = false). rewrite <-leaf_tk by done. exact Hf.
  - intros u l0 Hu. destruct (to_page _ _ _ Hok u l0 Hu) as [Hpu Hku]. split; [done|]. rewrite leaf_tk; [done|]. by apply page_number.
  - apply Hok.
  - apply Hok.
  - intros u l0 j Hu Hl0 Hj. rewrite (leaf_entry u l0 j) by done. rewrite decide_False; [by apply Hok|].
    intros [-> ->]. rewrite Hl in Hu. injection Hu as <-. lia.
Qed.

Lemma leaf_extends : extends s s' N L L.
Proof.
  constructor; [done|done| | | | |done].
  - intros u l0 Hu Hn. congruence.
  - intros j Hj H. by rewrite leaf_tk.
  - intros u l0 j Hu Hj Hpr. rewrite (leaf_entry u l0 j) by done. rewrite decide_False; [done|].
    intros [-> ->]. congruence.
  - intros a Ha H. apply leaf_outside. intros Hw. destruct (to_page _ _ _ Hok t l Hl) as [Hpt _].
    destruct (H t Hpt Hw). congruence.
Qed.

Lemma leaf_walks : same_walks s s' L (λ ix, ix ≠ l ++ [i]).
Proof.
  intros u l0 ix. revert u l0. induction ix as [|j ix IH]; intros u l0 Hu Hlen' Hr Hne; [done|].
  apply Forall_cons in Hr as [Hj Hr]. cbn [pte_at]. rewrite (leaf_entry u l0 j) by done. case_decide as E.
  - destruct E as [-> ->]. rewrite Hl in Hu. injection Hu as <-. rewrite length_app in Hlen'. simpl in Hlen'.
    destruct ix; [done|simpl in Hlen'; lia].
  - destruct (present (entry (mm_mem s) u j)) eqn:Epr; [|done]. destruct ix as [|j' ix]; [done|].
    rewrite length_app in Hlen'. simpl in Hlen'.
    apply (IH _ (l0 ++ [j])); [|rewrite !length_app; simpl; lia|done|by rewrite <-app_assoc].
    apply (to_next _ _ _ Hok u l0 j); [done|lia|done..].
Qed.

Lemma leaf_pte : pte_at (mm_mem s') t [i] = if present v then Some (u64 v) else None.
Proof. cbn [pte_at]. rewrite (leaf_entry t l i) by done. rewrite decide_True by done. by rewrite present_u64. Qed.
End set_leaf.

(** The four indices of an address, as [va2pte] computes them. *)
Lemma va2pte_unfold pf top va alloc :
  va2pte pf top va alloc =
    (pml3 ← get_next_level pf top (index 3 va) alloc;
     pml2 ← get_next_level pf pml3 (index 2 va) alloc;
     pml1 ← get_next_level pf pml2 (index 1 va) alloc;
     mret (pml1 + 8 * index 0 va)).
Proof. done. Qed.

Lemma pte_at_step m t i j ix :
  present (entry m t i) = true → pte_at m t (i :: j :: ix) = pte_at m (PTE_GET_ADDR (entry m t i)) (j :: ix).
Proof. intros H. cbn [pte_at]. by rewrite H. Qed.

(** The entry that a table has on the way stays on the way. *)
Lemma step_kept s s' N L L' t l i t' :
  extends s s' N L L' → L !! t = Some l → in_range i → present (entry (mm_mem s) t i) = true →
  PTE_GET_ADDR (entry (mm_mem s) t i) = t' →
  present (entry (mm_mem s') t i) = true ∧ PTE_GET_ADDR (entry (mm_mem s') t i) = t'.
Proof. intros Hex Hl Hi Hpr Ha. by rewrite (ex_entry _ _ _ _ _ Hex t l i). Qed.

Lemma va2pte_ok `{HR : Reserve R} pf s N L r va k :
  tables_ok s N L → L !! r = Some [] → R s N (3 + k)%nat → N ≤ Z.of_nat pf →
  ∃ t s' L', va2pte pf (P2V r) va true s = Ok (P2V t + 8 * index 0 va, s') ∧ tables_ok s' N L' ∧
    extends s s' N L L' ∧ L' !! t = Some [index 3 va; index 2 va; index 1 va] ∧
    same_walks s s' L (λ _, True) ∧ R s' N k ∧
    ∀ s'' L'', extends s' s'' N L' L'' → pte_at (mm_mem s'') r (indices va) = pte_at (mm_mem s'') t [index 0 va].
Proof.
  intros Hok Hr Hroom Hpf.
  destruct (get_next_level_ok pf s N L r [] (index 3 va) (2 + k)) as (t3 & s3 & L3 & E3 & Hok3 & Hex3 & Ht3 & Hp3 & Ha3 & Hw3 & Hr3);
    [done|done|simpl; lia|by apply index_range|done|done|].
  destruct (get_next_level_ok pf s3 N L3 t3 [index 3 va] (index 2 va) (1 + k))
    as (t2 & s2 & L2 & E2 & Hok2 & Hex2 & Ht2 & Hp2 & Ha2 & Hw2 & Hr2); [done|done|simpl; lia|by apply index_range|done|done|].
  destruct (get_next_level_ok pf s2 N L2 t2 [index 3 va; index 2 va] (index 1 va) k)
    as (t1 & s1 & L1 & E1 & Hok1 & Hex1 & Ht1 & Hp1 & Ha1 & Hw1 & Hr1); [done|done|simpl; lia|by apply index_range|done|done|].
  pose proof (extends_trans _ _ _ _ _ _ _ Hex2 Hex1) as Hex21.
  pose proof (extends_trans _ _ _ _ _ _ _ Hex3 Hex21) as Hex.
  exists t1, s1, L1. split; [|split; [exact Hok1|split; [exact Hex|split; [exact Ht1|split; [|split; [exact Hr1|]]]]]].
  - rewrite va2pte_unfold, (bind_ok _ _ _ _ _ E3), (bind_ok _ _ _ _ _ E2), (bind_ok _ _ _ _ _ E1). reflexivity.
  - apply (same_walks_trans _ s3 _ _ L3); [apply Hex3|done|]. by apply (same_walks_trans _ s2 _ _ L2); [apply Hex2|..].
  - intros s'' L'' Hex''.
    assert (L3 !! r = Some []) as Hr3' by (apply (lookup_weaken _ _ _ _ Hr), Hex3).
    assert (L2 !! t3 = Some [index 3 va]) as Ht3' by (apply (lookup_weaken _ _ _ _ Ht3), Hex2).
    pose proof (extends_trans _ _ _ _ _ _ _ Hex21 Hex'') as X3. pose proof (extends_trans _ _ _ _ _ _ _ Hex1 Hex'') as X2.
    destruct (step_kept _ _ _ _ _ r [] (index 3 va) t3 X3) as [P3 A3]; [done|by apply index_range|done..|].
    destruct (step_kept _ _ _ _ _ t3 [index 3 va] (index 2 va) t2 X2) as [P2 A2]; [done|by apply index_range|done..|].
    destruct (step_kept _ _ _ _ _ t2 [index 3 va; index 2 va] (index 1 va) t1 Hex'') as [P1 A1];
      [apply (lookup_weaken _ _ _ _ Ht2), Hex1|by apply index_range|done..|].
    unfold indices. rewrite (pte_at_step _ r) by done. rewrite A3, (pte_at_step _ t3) by done.
    rewrite A2, (pte_at_step _ t2) by done. by rewrite A1.
Qed.

(** An address that is mapped: the walk changes nothing. *)
Lemma va2pte_mapped pf s N L r va alloc e :
  tables_ok s N L → L !! r = Some [] → pte_at (mm_mem s) r (indices va) = Some e →
  ∃ t, va2pte pf (P2V r) va alloc s = Ok (P2V t + 8 * index 0 va, s) ∧ pte_at (mm_mem s) t [index 0 va] = Some e.
Proof.
  intros Hok Hr Hpte. unfold indices in Hpte.
  assert (∀ t l i j ix, L !! t = Some l → (length l < 3)%nat → in_range i → pte_at (mm_mem s) t (i :: j :: ix) = Some e →
    ∃ t', L !! t' = Some (l ++ [i]) ∧ get_next_level pf (P2V t) i alloc s = Ok (P2V t', s) ∧
      pte_at (mm_mem s) t' (j :: ix) = Some e) as Hstep.
  { intros t l i j ix Hl Hlen Hi He. destruct (present (entry (mm_mem s) t i)) eqn:Hp.
    - rewrite pte_at_step in He by done. exists (PTE_GET_ADDR (entry (mm_mem s) t i)). split; [by apply Hok|].
      split; [|done]. apply get_next_level_present; [by apply (table_not_null s N L t l)|done].
    - cbn [pte_at] in He. by rewrite Hp in He. }
  destruct (Hstep r [] (index 3 va) (index 2 va) [index 1 va; index 0 va]) as (t3 & H3 & E3 & P3);
    [done|simpl; lia|by apply index_range|done|].
  destruct (Hstep t3 [index 3 va] (index 2 va) (index 1 va) [index 0 va]) as (t2 & H2 & E2 & P2);
    [done|simpl; lia|by apply index_range|done|].
  destruct (Hstep t2 [index 3 va; index 2 va] (index 1 va) (index 0 va) []) as (t1 & H1 & E1 & P1);
    [done|simpl; lia|by apply index_range|done|].
  exists t1. split; [|done].
  rewrite va2pte_unfold, (bind_ok _ _ _ _ _ E3), (bind_ok _ _ _ _ _ E2), (bind_ok _ _ _ _ _ E1). reflexivity.
Qed.

Lemma pte_at_one m t i : pte_at m t [i] = if present (entry m t i) then Some (entry m t i) else None.
Proof. done. Qed.

(** The abstract address space: the entry of every virtual address. *)
Definition space (s : mm) (r va : Z) : option Z := pte_at (mm_mem s) r (indices va).

Lemma mappage2_mapped pf s N L r va pa flags e :
  tables_ok s N L → L !! r = Some [] → space s r va = Some e →
  mappage2 pf (P2V r) va pa flags s = Ok (- EINVAL, s).
Proof.
  intros Hok Hr He. destruct (va2pte_mapped pf s N L r va true e Hok Hr He) as (t & E & Hp).
  rewrite pte_at_one in Hp. destruct (present _) eqn:Hpr; [|done].
  unfold mappage2. rewrite (bind_ok _ _ _ _ _ E), (bind_ok _ _ _ _ _ (load64_ok _ _)). fold (entry (mm_mem s) t (index 0 va)).
  rewrite decide_True by (by apply present_spec). reflexivity.
Qed.

(** An address that is not mapped gets the entry, and no other address of
    any root changes. *)
Lemma mappage2_ok `{HR : Reserve R} pf s N L r va pa flags k :
  tables_ok s N L → L !! r = Some [] → R s N (3 + k)%nat → N ≤ Z.of_nat pf → space s r va = None →
  present (Z.lor pa flags) = true →
  ∃ s' L', mappage2 pf (P2V r) va pa flags s = Ok (0, s') ∧ tables_ok s' N L' ∧ extends s s' N L L' ∧ R s' N k ∧
    same_walks s s' L (λ ix, ix ≠ indices va) ∧ space s' r va = Some (u64 (Z.lor pa flags)).
Proof.
  intros Hok Hr Hroom Hpf Hnone Hpres.
  destruct (va2pte_ok pf s N L r va k Hok Hr Hroom Hpf) as (t & s1 & L1 & E & Hok1 & Hex1 & Ht & Hw1 & Hr1 & Hpte).
  assert (in_range (index 0 va)) as Hi by (by apply index_range).
  assert (present (entry (mm_mem s1) t (index 0 va)) = false) as Hnp.
  { apply not_true_is_false. intros Hp. pose proof (Hpte s1 L1 (extends_refl _ _ _)) as Hp1.
    rewrite pte_at_one, Hp in Hp1. unfold space in Hnone. rewrite <-(Hw1 r [] (indices va)) in Hnone; [congruence|done|done| |done].
    apply indices_range. }
  pose proof (leaf_extends s1 N L1 t (index 0 va) _ (Z.lor pa flags) Hok1 Ht eq_refl Hi Hnp) as Hex2.
  exists (with_mem (wr64 (mm_mem s1) (P2V t + 8 * index 0 va) (Z.lor pa flags)) s1), L1.
  split; [|split; [|split; [|split; [|split]]]].
  - unfold mappage2. rewrite (bind_ok _ _ _ _ _ E), (bind_ok _ _ _ _ _ (load64_ok _ _)).
    fold (entry (mm_mem s1) t (index 0 va)). rewrite decide_False by (rewrite present_spec; congruence).
    rewrite (bind_ok _ _ _ _ _ (store64_ok _ _ _)). reflexivity.
  - by apply (leaf_ok s1 N L1 t _ [index 3 va; index 2 va; index 1 va]).
  - by apply (extends_trans _ s1 _ _ _ L1).
  - apply (res_same s1); [|done]. intros j Hj. by apply (leaf_tk s1 N L1 t _ [index 3 va; index 2 va; index 1 va]).
  - apply (same_walks_trans _ s1 _ _ L1); [apply Hex1|by intros u l0 ix ????; apply (Hw1 u l0)|].
    by apply (leaf_walks s1 N L1 t _ [index 3 va; index 2 va; index 1 va]).
  - unfold space. rewrite (Hpte _ _ Hex2).
    rewrite (leaf_pte s1 N L1 t (index 0 va) [index 3 va; index 2 va; index 1 va]) by done. by rewrite Hpres.
Qed.

(** The other addresses of the same root. *)
Lemma same_walks_space s s' L r va va' :
  L !! r = Some [] → same_walks s s' L (λ ix, ix ≠ indices va) → vpn va' ≠ vpn va → space s' r va' = space s r va'.
Proof.
  intros Hr Hw Hne. apply (Hw r []); [done|done|apply indices_range|]. simpl. rewrite indices_inj. done.
Qed.
