(* ===== verification/VmmSpace.v ===== *)
(** * Address spaces: sequences of mappings

    The loops of kernel/vmm.c run [mappage2] for a list of requests.  The
    first request for a page wins, and a page that is already mapped keeps its
    entry: [map_all_ok].  [mappages] and the loops of [init_vm] are instances. *)

From S2P Require Import Prelude CString CStringSpec Word Pmm PmmSpec Slab SlabSpec Vmm VmmSpec.

Local Open Scope Z_scope.

Record request := Request { rq_va : Z; rq_pa : Z; rq_flags : Z }.

Definition rq_entry (q : request) : Z := u64 (Z.lor (rq_pa q) (rq_flags q)).

Fixpoint map_all (pf : nat) (top : Z) (qs : list request) : M unit :=
  match qs with
  | [] => mret tt
  | q :: qs => mappage2 pf top (rq_va q) (rq_pa q) (rq_flags q);; map_all pf top qs
  end.

Fixpoint find_req (va : Z) (qs : list request) : option Z :=
  match qs with
  | [] => None
  | q :: qs => if decide (vpn va = vpn (rq_va q)) then Some (rq_entry q) else find_req va qs
  end.

Definition first_of (o o' : option Z) : option Z := match o with Some e => Some e | None => o' end.

Lemma map_all_app pf top qs qs' s :
  map_all pf top (qs ++ qs') s = (map_all pf top qs;; map_all pf top qs') s.
Proof.
  revert s. induction qs as [|q qs IH]; intros s; [done|]. cbn [map_all app]. rewrite bind_assoc.
  unfold mbind, K_bind in *. destruct (mappage2 _ _ _ _ _ s) as [[r s']| | |]; [apply IH|done..].
Qed.

Lemma find_req_app va qs qs' : find_req va (qs ++ qs') = first_of (find_req va qs) (find_req va qs').
Proof. induction qs as [|q qs IH]; [done|]. simpl. by case_decide. Qed.

Lemma find_req_none va qs : Forall (λ q, vpn va ≠ vpn (rq_va q)) qs → find_req va qs = None.
Proof. induction 1 as [|q qs Hq _ IH]; [done|]. simpl. by rewrite decide_False. Qed.

Lemma space_vpn s r va va' : vpn va = vpn va' → space s r va = space s r va'.
Proof. intros E. unfold space. by rewrite (proj2 (indices_inj va va') E). Qed.

Definition untouched (qs : list request) (ix : list Z) : Prop := Forall (λ q, ix ≠ indices (rq_va q)) qs.

Lemma present_lor pa flags : present flags = true → present (Z.lor pa flags) = true.
Proof. unfold present. intros H. by rewrite Z.lor_spec, H, orb_true_r. Qed.

Lemma map_all_ok `{HR : Reserve R} pf N r qs s L k :
  tables_ok s N L → L !! r = Some [] → R s N (3 * length qs + k)%nat → N ≤ Z.of_nat pf →
  Forall (λ q, present (rq_flags q) = true) qs →
  ∃ s' L', map_all pf (P2V r) qs s = Ok (tt, s') ∧ tables_ok s' N L' ∧ extends s s' N L L' ∧ R s' N k ∧
    same_walks s s' L (untouched qs) ∧ ∀ va, space s' r va = first_of (space s r va) (find_req va qs).
Proof.
  intros Hok Hr Hroom Hpf Hfl. revert s L Hok Hr Hroom. induction Hfl as [|q qs Hq _ IH]; intros s L Hok Hr Hroom.
  { exists s, L. split; [done|]. split; [done|]. split; [apply extends_refl|]. split; [done|]. split; [done|].
    intros va. unfold first_of. simpl. by destruct (space s r va). }
  cbn [map_all]. destruct (space s r (rq_va q)) as [e|] eqn:He.
  - destruct (IH s L Hok Hr) as (s' & L' & E & Hok' & Hex & Hroom' & Hw & Hsp).
    { apply (res_weaken _ _ (3 * length (q :: qs) + k)); [simpl; lia|done]. }
    exists s', L'. split; [|split; [done|split; [done|split; [done|split]]]].
    + by rewrite (bind_ok _ _ _ _ _ (mappage2_mapped _ _ _ _ _ _ _ _ _ Hok Hr He)).
    + intros u l ix Hu Hl Hix Hun. apply (Hw u l); [done..|]. by apply Forall_cons in Hun as [_ ?].
    + intros va. rewrite Hsp. simpl. case_decide as Hv; [|done]. by rewrite (space_vpn s r va (rq_va q)), He.
  - destruct (mappage2_ok pf s N L r (rq_va q) (rq_pa q) (rq_flags q) (3 * length qs + k))
      as (s1 & L1 & E1 & Hok1 & Hex1 & Hroom1 & Hw1 & Hsp1); [done|done| |done|done|by apply present_lor|].
    { apply (res_weaken _ _ (3 * length (q :: qs) + k)); [simpl; lia|done]. }
    assert (L1 !! r = Some []) as Hr1 by (apply (lookup_weaken _ _ _ _ Hr), Hex1).
    destruct (IH s1 L1 Hok1 Hr1 Hroom1) as (s' & L' & E & Hok' & Hex & Hroom' & Hw & Hsp).
    exists s', L'. split; [|split; [done|split; [by apply (extends_trans _ s1 _ _ _ L1)|split; [done|split]]]].
    + by rewrite (bind_ok _ _ _ _ _ E1).
    + apply (same_walks_trans _ s1 _ _ L1); [apply Hex1| |].
      * intros u l ix Hu Hl Hix Hun. apply (Hw1 u l); [done..|]. by apply Forall_cons in Hun as [? _].
      * intros u l ix Hu Hl Hix Hun. apply (Hw u l); [done..|]. by apply Forall_cons in Hun as [_ ?].
    + intros va. rewrite Hsp. simpl. case_decide as Hv.
      * by rewrite (space_vpn s1 r va (rq_va q)), (space_vpn s r va (rq_va q)), Hsp1, He.
      * by rewrite (same_walks_space s s1 L r (rq_va q) va).
Qed.

(** ** [mappages] *)

(** Requests for [n] pages in a row. *)
Definition run_reqs (n : nat) (va pa flags : Z) : list request :=
  (λ i, Request (u64 (va + i * PGSIZE)) (u64 (pa + i * PGSIZE)) flags) <$> seqZ 0 (Z.of_nat n).

Lemma for_map_all pf top (f : Z → request) k i s :
  for_from k i (λ i, mappage2 pf top (rq_va (f i)) (rq_pa (f i)) (rq_flags (f i));; mret tt) s =
  map_all pf top (f <$> seqZ i (Z.of_nat k)) s.
Proof.
  revert i s. induction k as [|k IH]; intros i s; [done|]. rewrite seqZ_cons by lia. cbn [for_from fmap list_fmap map_all].
  rewrite bind_assoc. unfold mbind, K_bind. destruct (mappage2 _ _ _ _ _ s) as [[r s']| | |]; [|done..].
  unfold mret, K_ret. rewrite IH. do 3 f_equal; lia.
Qed.

Lemma mappages_all pf top va pa size flags s :
  mappages pf top va pa size flags s =
    (map_all pf top (run_reqs (Z.to_nat (size / PGSIZE)) va pa flags);; mret 0) s.
Proof.
  unfold mappages, run_reqs. cbv zeta. unfold mbind, K_bind.
  pose proof (for_map_all pf top (λ i, Request (u64 (va + i * PGSIZE)) (u64 (pa + i * PGSIZE)) flags)
    (Z.to_nat (size / PGSIZE)) 0 s) as H. simpl in H. rewrite <-H. done.
Qed.

Lemma vpn_u64 x : vpn (u64 x) = vpn x.
Proof.
  unfold vpn, u64, PGSIZE. change (2 ^ 64) with (4096 * 2 ^ 52).
  pose proof (Z.rem_mul_r x 4096 (2 ^ 52)). rewrite H by done.
  rewrite Z.mul_comm, Z.div_add by done. rewrite (Z.div_small (x mod 4096)) by (by apply Z.mod_pos_bound).
  change (2 ^ 52) with (2 ^ 36 * 2 ^ 16). rewrite (Z.rem_mul_r (x / 4096)) by done.
  rewrite Z.add_0_l, Z.mul_comm, Z.mod_add by done. by rewrite Z.mod_mod.
Qed.

Lemma vpn_add x i : vpn (x + i * PGSIZE) = (vpn x + i) mod 2 ^ 36.
Proof. unfold vpn. rewrite Z.div_add by done. by rewrite Zplus_mod_idemp_l. Qed.

Lemma vpn_range x : 0 ≤ vpn x < 2 ^ 36.
Proof. by apply Z.mod_pos_bound. Qed.

Lemma mod_inj v m i j : 0 ≤ i < m → 0 ≤ j < m → (v + i) mod m = (v + j) mod m → j = i.
Proof.
  intros Hi Hj E. pose proof (Z.div_mod (v + i) m ltac:(lia)). pose proof (Z.div_mod (v + j) m ltac:(lia)).
  assert ((v + i) / m = (v + j) / m ∨ (v + i) / m < (v + j) / m ∨ (v + j) / m < (v + i) / m) by lia.
  rewrite E in *. nia.
Qed.

(** The request that a page of the run finds. *)
Lemma run_reqs_hit n va pa flags i va' :
  0 ≤ i < Z.of_nat n → Z.of_nat n ≤ 2 ^ 36 → vpn va' = vpn (va + i * PGSIZE) →
  find_req va' (run_reqs n va pa flags) = Some (u64 (Z.lor (u64 (pa + i * PGSIZE)) flags)).
Proof.
  intros Hi Hn Hv. unfold run_reqs.
  assert (∀ j k, 0 ≤ j ≤ i → i < j + Z.of_nat k → j + Z.of_nat k ≤ 2 ^ 36 →
    find_req va' ((λ i, Request (u64 (va + i * PGSIZE)) (u64 (pa + i * PGSIZE)) flags) <$> seqZ j (Z.of_nat k)) =
    Some (u64 (Z.lor (u64 (pa + i * PGSIZE)) flags))) as H.
  { intros j k. revert j. induction k as [|k IH]; intros j Hj Hk Hm; [lia|]. rewrite seqZ_cons by lia.
    cbn [fmap list_fmap find_req rq_va]. rewrite vpn_u64, Hv, !vpn_add. case_decide as E.
    - replace j with i; [done|]. pose proof (vpn_range va). apply (mod_inj (vpn va) (2 ^ 36)); [lia..|done].
    - replace (Z.pred (Z.of_nat (S k))) with (Z.of_nat k) by lia. apply IH; [|lia..].
      destruct (decide (j = i)) as [->|]; [done|]. lia. }
  apply (H 0 n); lia.
Qed.

Lemma run_reqs_miss n va pa flags va' :
  (∀ i, 0 ≤ i < Z.of_nat n → vpn va' ≠ vpn (va + i * PGSIZE)) → find_req va' (run_reqs n va pa flags) = None.
Proof.
  intros H. apply find_req_none. unfold run_reqs. apply Forall_fmap, Forall_forall. intros i Hi.
  apply elem_of_seqZ in Hi. simpl. rewrite vpn_u64. apply H. lia.
Qed.

Lemma run_reqs_length n va pa flags : length (run_reqs n va pa flags) = n.
Proof. unfold run_reqs. rewrite length_fmap, length_seqZ. lia. Qed.

Lemma run_reqs_flags n va pa flags :
  present flags = true → Forall (λ q, present (rq_flags q) = true) (run_reqs n va pa flags).
Proof. intros H. unfold run_reqs. apply Forall_fmap, Forall_forall. by intros i _. Qed.

(** [mappages] maps what is not mapped, and says nothing about the rest. *)
Lemma mappages_ok `{HR : Reserve R} pf N r va pa size flags s L k :
  tables_ok s N L → L !! r = Some [] → R s N (3 * Z.to_nat (size / PGSIZE)%Z + k)%nat → N ≤ Z.of_nat pf →
  present flags = true → 0 ≤ size / PGSIZE ≤ 2 ^ 36 →
  ∃ s' L', mappages pf (P2V r) va pa size flags s = Ok (0, s') ∧ tables_ok s' N L' ∧ extends s s' N L L' ∧ R s' N k ∧
    (∀ i, 0 ≤ i < size / PGSIZE → space s' r (va + i * PGSIZE) =
      first_of (space s r (va + i * PGSIZE)) (Some (u64 (Z.lor (u64 (pa + i * PGSIZE)) flags)))) ∧
    ∀ va', (∀ i, 0 ≤ i < size / PGSIZE → vpn va' ≠ vpn (va + i * PGSIZE)) → space s' r va' = space s r va'.
Proof.
  intros Hok Hr Hroom Hpf Hfl Hsz.
  destruct (map_all_ok pf N r (run_reqs (Z.to_nat (size / PGSIZE)) va pa flags) s L k)
    as (s' & L' & E & Hok' & Hex & Hroom' & Hw & Hsp);
    [done|done|by rewrite run_reqs_length|done|by apply run_reqs_flags|].
  exists s', L'. split; [|split; [done|split; [done|split; [done|split]]]].
  - rewrite mappages_all. by rewrite (bind_ok _ _ _ _ _ E).
  - intros i Hi. rewrite Hsp. by rewrite (run_reqs_hit _ _ _ _ i) by (done || lia).
  - intros va' Hv. rewrite Hsp, run_reqs_miss; [by destruct (space s r va')|]. intros i Hi. apply Hv. lia.
Qed.
