(* ===== verification/VmmKernel.v ===== *)
(** * The kernel's address space

    [kernel_space] is the map that [init_vm] is meant to build: the segments
    of the kernel, the first 2 GiB at their own addresses and again at
    [HHDM_OFFSET].  [map_kernel_ok] says that it builds exactly that. *)

From S2P Require Import Prelude CString CStringSpec Word Pmm PmmSpec Slab SlabSpec Vmm VmmSpec VmmSpace.

Local Open Scope Z_scope.

(** ** Segments *)

Lemma run_reqs_S n va pa flags :
  run_reqs (S n) va pa flags = Request (u64 va) (u64 pa) flags :: run_reqs n (va + PGSIZE) (pa + PGSIZE) flags.
Proof.
  unfold run_reqs. rewrite seqZ_cons by lia. cbn [fmap list_fmap]. rewrite !Z.mul_0_l, !Z.add_0_r. f_equal.
  replace (Z.succ 0) with (1 + 0) by done. rewrite <-fmap_add_seqZ, <-list_fmap_compose.
  replace (Z.pred (Z.of_nat (S n))) with (Z.of_nat n) by lia.
  apply list_fmap_ext. intros i j _. simpl. do 2 f_equal; lia.
Qed.

(** The page number of an address of the upper half, without the wrap of [vpn]. *)
Definition upper_page (va : Z) : Z := vpn va + (2 ^ 52 - 2 ^ 36).

Lemma vpn_upper p : 2 ^ 52 - 2 ^ 35 ≤ p < 2 ^ 52 → vpn (p * PGSIZE) = p - (2 ^ 52 - 2 ^ 36).
Proof. intros Hp. unfold vpn. rewrite Z.div_mul by done. symmetry. apply (Z.mod_unique _ _ (2 ^ 16 - 1)); lia. Qed.

Lemma vpn_lower p : 0 ≤ p < 2 ^ 36 → vpn (p * PGSIZE) = p.
Proof. intros Hp. unfold vpn. rewrite Z.div_mul by done. by apply Z.mod_small. Qed.

Lemma map_segment_all pf n k kaddr top p flags s :
  0 ≤ p → p + Z.of_nat n < 2 ^ 52 → (n < k)%nat →
  map_segment pf k kaddr top (p * PGSIZE) ((p + Z.of_nat n) * PGSIZE) flags s =
  map_all pf top (run_reqs n (p * PGSIZE) (p * PGSIZE - virtual_base kaddr + physical_base kaddr) flags) s.
Proof.
  revert k p s. induction n as [|n IH]; intros k p s Hp Hm Hk; (destruct k as [|k]; [lia|]); cbn [map_segment].
  - rewrite decide_False by lia. done.
  - rewrite decide_True by (unfold PGSIZE; lia). rewrite run_reqs_S. cbn [map_all rq_va rq_pa rq_flags].
    rewrite (u64_small (p * PGSIZE)), (u64_small (p * PGSIZE + PGSIZE)) by (unfold PGSIZE; lia).
    unfold mbind, K_bind. destruct (mappage2 _ _ _ _ _ s) as [[r s']| | |]; [|done..].
    replace (p * PGSIZE + PGSIZE) with ((p + 1) * PGSIZE) by lia.
    replace (p + Z.of_nat (S n)) with (p + 1 + Z.of_nat n) by lia.
    rewrite IH by lia. do 2 f_equal. lia.
Qed.

Definition segment_space (kaddr : image) (p n flags va : Z) : option Z :=
  if decide (p ≤ upper_page va < p + n) then
    Some (u64 (Z.lor (u64 (upper_page va * PGSIZE - virtual_base kaddr + physical_base kaddr)) flags))
  else None.

Lemma segment_find kaddr n p flags va :
  2 ^ 52 - 2 ^ 35 ≤ p → p + Z.of_nat n < 2 ^ 52 →
  find_req va (run_reqs n (p * PGSIZE) (p * PGSIZE - virtual_base kaddr + physical_base kaddr) flags) =
  segment_space kaddr p (Z.of_nat n) flags va.
Proof.
  intros Hp Hn. unfold segment_space, upper_page. case_decide as H.
  - rewrite (run_reqs_hit _ _ _ _ (vpn va + (2 ^ 52 - 2 ^ 36) - p)); [|lia..|].
    + do 4 f_equal. lia.
    + rewrite <-Z.mul_add_distr_r, vpn_upper by lia. lia.
  - apply run_reqs_miss. intros i Hi. rewrite <-Z.mul_add_distr_r, vpn_upper by lia. lia.
Qed.

(** ** The lower half *)

Definition low_flags : Z := Z.lor (Z.lor PTE_PRESENT PTE_RW) PTE_USER.
Definition hhdm_flags : Z := Z.lor (Z.lor (Z.lor PTE_PRESENT PTE_NX) PTE_RW) PTE_USER.

Fixpoint low_reqs (n : nat) (p : Z) : list request :=
  match n with
  | O => []
  | S n => Request (p * PGSIZE) (p * PGSIZE) low_flags ::
           Request (u64 (p * PGSIZE + HHDM_OFFSET)) (p * PGSIZE) hhdm_flags :: low_reqs n (p + 1)
  end.

Lemma map_low_all pf n k top p s :
  0 ≤ p → p + Z.of_nat n = 0x80000 → (n < k)%nat →
  map_low pf k top (p * PGSIZE) s = map_all pf top (low_reqs n p) s.
Proof.
  revert k p s. induction n as [|n IH]; intros k p s Hp Hm Hk; (destruct k as [|k]; [lia|]); cbn [map_low].
  - rewrite decide_False; [done|]. change (0x100000000 / 2) with (0x80000 * PGSIZE). unfold PGSIZE. lia.
  - rewrite decide_True by (change (0x100000000 / 2) with (0x80000 * PGSIZE); unfold PGSIZE; lia).
    cbn [low_reqs map_all rq_va rq_pa rq_flags].
    rewrite (u64_small (p * PGSIZE + PGSIZE)) by (unfold PGSIZE; lia).
    unfold mbind, K_bind. fold low_flags hhdm_flags. destruct (mappage2 _ _ _ _ _ s) as [[r s']| | |]; [|done..].
    destruct (mappage2 _ _ _ _ _ s') as [[r' s'']| | |]; [|done..].
    replace (p * PGSIZE + PGSIZE) with ((p + 1) * PGSIZE) by lia. rewrite IH by lia. done.
Qed.

Definition low_space (p n va : Z) : option Z :=
  if decide (p ≤ vpn va < p + n) then Some (u64 (Z.lor (vpn va * PGSIZE) low_flags))
  else if decide (p + 2 ^ 35 ≤ vpn va < p + 2 ^ 35 + n) then Some (u64 (Z.lor ((vpn va - 2 ^ 35) * PGSIZE) hhdm_flags))
  else None.

Lemma vpn_hhdm p : 0 ≤ p < 2 ^ 35 → vpn (p * PGSIZE + HHDM_OFFSET) = p + 2 ^ 35.
Proof.
  intros Hp. change HHDM_OFFSET with ((2 ^ 52 - 2 ^ 35) * PGSIZE). rewrite <-Z.mul_add_distr_r, vpn_upper by lia. lia.
Qed.

Lemma low_find n p va :
  0 ≤ p → p + Z.of_nat n ≤ 2 ^ 35 → find_req va (low_reqs n p) = low_space p (Z.of_nat n) va.
Proof.
  revert p. induction n as [|n IH]; intros p Hp Hn.
  - unfold low_space. rewrite !decide_False by lia. done.
  - cbn [low_reqs find_req rq_va]. rewrite vpn_u64, vpn_hhdm, vpn_lower, IH by lia. unfold low_space, rq_entry.
    cbn [rq_pa rq_flags]. repeat case_decide; try lia; try done; do 4 f_equal; lia.
Qed.

Lemma low_reqs_length n p : length (low_reqs n p) = (2 * n)%nat.
Proof. revert p. induction n as [|n IH]; intros p; [done|]. simpl. rewrite IH. lia. Qed.

Lemma low_reqs_flags n p : Forall (λ q, present (rq_flags q) = true) (low_reqs n p).
Proof. revert p. induction n as [|n IH]; intros p; simpl; [done|]. repeat (constructor; [done|]). apply IH. Qed.

(** ** The tables of the upper half *)

Lemma upper_tables_ok pf s N L r k :
  tables_ok s N L → L !! r = Some [] → room s N (256 + k) → N ≤ Z.of_nat pf →
  ∃ s' L', for_from 256 256 (λ i, get_next_level pf (P2V r) i true;; mret tt) s = Ok (tt, s') ∧
    tables_ok s' N L' ∧ extends s s' N L L' ∧ room s' N k ∧ same_walks s s' L (λ _, True) ∧
    ∀ i, 256 ≤ i < 512 → present (entry (mm_mem s') r i) = true.
Proof.
  intros Hok Hr Hroom Hpf.
  destruct (for_from_ok (λ i s', ∃ L', tables_ok s' N L' ∧ extends s s' N L L' ∧
      room s' N (Z.to_nat (512 - i) + k) ∧ same_walks s s' L (λ _, True) ∧
      ∀ j, 256 ≤ j < i → present (entry (mm_mem s') r j) = true)
    256 256 (λ i, get_next_level pf (P2V r) i true;; mret tt) s) as (s' & E & L' & H1 & H2 & H3 & H4 & H5).
  - intros j s1 Hj (L1 & Hok1 & Hex1 & Hroom1 & Hw1 & Hpr).
    assert (L1 !! r = Some []) as Hr1 by (apply (lookup_weaken _ _ _ _ Hr), Hex1).
    destruct (get_next_level_ok pf s1 N L1 r [] j (Z.to_nat (512 - (j + 1)) + k))
      as (t & s2 & L2 & E2 & Hok2 & Hex2 & _ & Hp & _ & Hw2 & Hroom2);
      [done|done|simpl; lia|unfold in_range; lia| |done|].
    { apply (room_weaken _ _ (Z.to_nat (512 - j) + k)); [lia|done]. }
    exists s2. split; [by rewrite (bind_ok _ _ _ _ _ E2)|]. exists L2.
    split; [done|split; [by apply (extends_trans _ s1 _ _ _ L1)|split; [done|split]]].
    + apply (same_walks_trans _ s1 _ _ L1); [apply Hex1|done..].
    + intros j' Hj'. destruct (decide (j' = j)) as [->|]; [done|].
      rewrite (ex_entry _ _ _ _ _ Hex2 r []); [apply Hpr; lia|done|unfold in_range; lia|apply Hpr; lia].
  - exists L. split; [done|split; [apply extends_refl|split; [done|split; [done|]]]]. intros j Hj. lia.
  - exists s', L'. split; [exact E|]. split; [done|split; [done|split; [done|split; [done|]]]]. intros i Hi. apply H5. lia.
Qed.

(** ** The whole map *)

Definition text_flags : Z := Z.lor PTE_PRESENT PTE_USER.
Definition rodata_flags : Z := Z.lor (Z.lor PTE_PRESENT PTE_NX) PTE_USER.
Definition data_flags : Z := Z.lor (Z.lor (Z.lor PTE_PRESENT PTE_NX) PTE_RW) PTE_USER.

Definition first_page (start : Z) : Z := start / PGSIZE.
Definition end_page (last : Z) : Z := (last + PGSIZE - 1) / PGSIZE.
Definition page_count (start last : Z) : Z := end_page last - first_page start.

(** A segment of the image lies in the upper half. *)
Definition segment_ok (start last : Z) : Prop := HHDM_OFFSET ≤ start ≤ last ∧ last + PGSIZE < 2 ^ 64.

Record image_ok (kaddr : image) : Prop := {
  io_text : segment_ok (text_start_addr kaddr) (text_end_addr kaddr);
  io_rodata : segment_ok (rodata_start_addr kaddr) (rodata_end_addr kaddr);
  io_data : segment_ok (data_start_addr kaddr) (data_end_addr kaddr) }.

Definition image_space (kaddr : image) (start last flags va : Z) : option Z :=
  segment_space kaddr (first_page start) (page_count start last) flags va.

Definition kernel_space (kaddr : image) (va : Z) : option Z :=
  first_of (image_space kaddr (text_start_addr kaddr) (text_end_addr kaddr) text_flags va)
  (first_of (image_space kaddr (rodata_start_addr kaddr) (rodata_end_addr kaddr) rodata_flags va)
  (first_of (image_space kaddr (data_start_addr kaddr) (data_end_addr kaddr) data_flags va)
  (low_space 1 0x7ffff va))).

(** The pages it enters. *)
Definition kernel_pages (kaddr : image) : nat :=
  Z.to_nat (page_count (text_start_addr kaddr) (text_end_addr kaddr)) +
  Z.to_nat (page_count (rodata_start_addr kaddr) (rodata_end_addr kaddr)) +
  Z.to_nat (page_count (data_start_addr kaddr) (data_end_addr kaddr)) + 2 * Z.to_nat 0x7ffff.

Lemma segment_pages start last :
  segment_ok start last →
  2 ^ 52 - 2 ^ 35 ≤ first_page start ∧ 0 ≤ page_count start last ∧ end_page last < 2 ^ 52.
Proof.
  unfold segment_ok, page_count, first_page, end_page, HHDM_OFFSET, PGSIZE. intros [Hs Hl].
  assert (2 ^ 52 - 2 ^ 35 ≤ start / 4096) by (apply Z.div_le_lower_bound; lia).
  assert (start / 4096 ≤ (last + 4096 - 1) / 4096) by (apply Z.div_le_mono; lia).
  assert ((last + 4096 - 1) / 4096 < 2 ^ 52) by (apply Z.div_lt_upper_bound; lia). lia.
Qed.

Definition image_reqs (kaddr : image) (start last flags : Z) : list request :=
  run_reqs (Z.to_nat (page_count start last)) (first_page start * PGSIZE)
    (first_page start * PGSIZE - virtual_base kaddr + physical_base kaddr) flags.

Lemma segment_run pf k kaddr top start last flags s :
  segment_ok start last → page_count start last < Z.of_nat k →
  map_segment pf k kaddr top (ALIGN_DOWN start PGSIZE) (ALIGN_UP last PGSIZE) flags s =
  map_all pf top (image_reqs kaddr start last flags) s.
Proof.
  intros Hs Hk. destruct (segment_pages start last Hs) as (H1 & H2 & H3). pose proof (proj2 Hs). pose proof (proj1 Hs).
  unfold ALIGN_DOWN. fold (first_page start).
  replace (ALIGN_UP last PGSIZE) with ((first_page start + Z.of_nat (Z.to_nat (page_count start last))) * PGSIZE).
  - apply map_segment_all; unfold page_count in *; lia.
  - rewrite Z2Nat.id by done. unfold ALIGN_UP, DIV_ROUNDUP. unfold HHDM_OFFSET, PGSIZE in *. rewrite (u64_small (last + 4096 - 1)) by lia.
    change ((last + 4096 - 1) / 4096) with (end_page last).
    pose proof (Z.div_pos (last + 4096 - 1) 4096 ltac:(lia) ltac:(done)). change ((last + 4096 - 1) / 4096) with (end_page last) in *.
    rewrite u64_small by lia. unfold page_count. f_equal. lia.
Qed.

Lemma image_find kaddr start last flags va :
  segment_ok start last → find_req va (image_reqs kaddr start last flags) = image_space kaddr start last flags va.
Proof.
  intros Hs. destruct (segment_pages start last Hs) as (H1 & H2 & H3). unfold image_reqs, image_space.
  rewrite segment_find by (unfold page_count in *; lia). by rewrite Z2Nat.id.
Qed.

Definition kernel_reqs (kaddr : image) : list request :=
  image_reqs kaddr (text_start_addr kaddr) (text_end_addr kaddr) text_flags ++
  image_reqs kaddr (rodata_start_addr kaddr) (rodata_end_addr kaddr) rodata_flags ++
  image_reqs kaddr (data_start_addr kaddr) (data_end_addr kaddr) data_flags ++
  low_reqs (Z.to_nat 0x7ffff) 1.

Lemma kernel_reqs_find kaddr va : image_ok kaddr → find_req va (kernel_reqs kaddr) = kernel_space kaddr va.
Proof.
  intros [Ht Hr Hd]. unfold kernel_reqs, kernel_space. rewrite !find_req_app, !image_find by done.
  rewrite low_find by lia. by rewrite Z2Nat.id.
Qed.

Lemma kernel_reqs_length kaddr : length (kernel_reqs kaddr) = kernel_pages kaddr.
Proof. unfold kernel_reqs, kernel_pages, image_reqs. rewrite !length_app, !run_reqs_length, low_reqs_length. lia. Qed.

Lemma kernel_reqs_flags kaddr : Forall (λ q, present (rq_flags q) = true) (kernel_reqs kaddr).
Proof. unfold kernel_reqs. rewrite !Forall_app. split_and!; by apply run_reqs_flags || apply low_reqs_flags. Qed.

Lemma map_kernel_unfold pf k kaddr top s :
  image_ok kaddr → (kernel_pages kaddr < k)%nat →
  map_kernel pf k kaddr top s =
    (for_from 256 256 (λ i, get_next_level pf top i true;; mret tt);; map_all pf top (kernel_reqs kaddr)) s.
Proof.
  intros [Ht Hr Hd] Hk. unfold kernel_pages in Hk. unfold map_kernel, kernel_reqs. fold text_flags rodata_flags data_flags.
  apply bind_ext; [done|]; intros _ s0. rewrite map_all_app. apply bind_ext; [apply segment_run; (done || lia)|]; intros _ s1.
  rewrite map_all_app. apply bind_ext; [apply segment_run; (done || lia)|]; intros _ s2.
  rewrite map_all_app. apply bind_ext; [apply segment_run; (done || lia)|]; intros _ s3.
  change 0x1000 with (1 * PGSIZE). apply map_low_all; lia.
Qed.

Lemma map_kernel_ok pf k kaddr N r s L n :
  tables_ok s N L → L !! r = Some [] → room s N (256 + (3 * kernel_pages kaddr + n)) → N ≤ Z.of_nat pf →
  image_ok kaddr → (kernel_pages kaddr < k)%nat → (∀ va, space s r va = None) →
  ∃ s' L', map_kernel pf k kaddr (P2V r) s = Ok (tt, s') ∧ tables_ok s' N L' ∧ extends s s' N L L' ∧ room s' N n ∧
    (∀ i, 256 ≤ i < 512 → present (entry (mm_mem s') r i) = true) ∧ ∀ va, space s' r va = kernel_space kaddr va.
Proof.
  intros Hok Hr Hroom Hpf Him Hk Hempty.
  destruct (upper_tables_ok pf s N L r _ Hok Hr Hroom Hpf) as (s1 & L1 & E1 & Hok1 & Hex1 & Hroom1 & Hw1 & Hp1).
  assert (L1 !! r = Some []) as Hr1 by (apply (lookup_weaken _ _ _ _ Hr), Hex1).
  rewrite <-kernel_reqs_length in Hroom1.
  destruct (map_all_ok pf N r (kernel_reqs kaddr) s1 L1 n) as (s2 & L2 & E2 & Hok2 & Hex2 & Hroom2 & Hw2 & Hsp2);
    [done..|apply kernel_reqs_flags|].
  exists s2, L2. split; [|split; [done|split; [by apply (extends_trans _ s1 _ _ _ L1)|split; [done|split]]]].
  - rewrite map_kernel_unfold by done. by rewrite (bind_ok _ _ _ _ _ E1).
  - intros i Hi. rewrite (ex_entry _ _ _ _ _ Hex2 r []); [by apply Hp1|done|unfold in_range; lia|by apply Hp1].
  - intros va. rewrite Hsp2, kernel_reqs_find by done.
    replace (space s1 r va) with (@None Z); [done|]. symmetry. rewrite <-(Hempty va). unfold space.
    apply (Hw1 r []); [done|done|apply indices_range|done].
Qed.

(** ** Translation *)

(** The physical address the processor finds. *)
Definition translate (s : mm) (r va : Z) : option Z :=
  e ← space s r va; Some (PTE_GET_ADDR e + va mod PGSIZE).

(** The entry of a page, read as an address. *)
Lemma entry_addr p flags :
  0 ≤ p < 2 ^ 40 → PTE_GET_ADDR flags = 0 → PTE_GET_ADDR (u64 (Z.lor (p * PGSIZE) flags)) = p * PGSIZE.
Proof.
  intros Hp Hf. rewrite PTE_GET_ADDR_u64. apply (PTE_GET_ADDR_flags (2 ^ 40)); [|done|done].
  unfold page. rewrite Z.mod_mul by done. unfold PGSIZE. lia.
Qed.

Lemma page_offset va : va = va / PGSIZE * PGSIZE + va mod PGSIZE.
Proof. pose proof (Z.div_mod va PGSIZE ltac:(done)). lia. Qed.

Lemma vpn_page va : vpn va = vpn (va / PGSIZE * PGSIZE).
Proof. unfold vpn. by rewrite Z.div_mul. Qed.

Lemma low_page va : 0x1000 ≤ va < 2 ^ 31 → 1 ≤ va / PGSIZE < 0x80000.
Proof.
  intros H. unfold PGSIZE. assert (1 ≤ va / 4096) by (apply Z.div_le_lower_bound; lia).
  assert (va / 4096 < 0x80000) by (apply Z.div_lt_upper_bound; lia). lia.
Qed.

(** The lower addresses in the kernel's space. *)
Lemma kernel_space_low kaddr va :
  image_ok kaddr → 0x1000 ≤ va < 2 ^ 31 → kernel_space kaddr va = Some (u64 (Z.lor (va / PGSIZE * PGSIZE) low_flags)).
Proof.
  intros [Ht Hr Hd] Hva. pose proof (low_page va Hva) as Hp.
  assert (vpn va = va / PGSIZE) as Hv by (rewrite vpn_page; apply vpn_lower; lia).
  assert (∀ start last flags, segment_ok start last → image_space kaddr start last flags va = None) as Hi.
  { intros start last flags Hs. destruct (segment_pages start last Hs) as (H1 & H2 & H3).
    unfold image_space, segment_space, upper_page. rewrite Hv, decide_False; [done|]. lia. }
  unfold kernel_space. rewrite !Hi by done. unfold low_space. rewrite Hv, decide_True by lia. done.
Qed.

(** Their copies, where the image leaves them alone. *)
Lemma kernel_space_hhdm kaddr va :
  image_ok kaddr → (∀ start, start ∈ [text_start_addr kaddr; rodata_start_addr kaddr; data_start_addr kaddr] →
    HHDM_OFFSET + 2 ^ 31 ≤ start) → 0x1000 ≤ va < 2 ^ 31 →
  kernel_space kaddr (HHDM_OFFSET + va) = Some (u64 (Z.lor (va / PGSIZE * PGSIZE) hhdm_flags)).
Proof.
  intros [Ht Hr Hd] Hst Hva. pose proof (low_page va Hva) as Hp.
  assert (vpn (HHDM_OFFSET + va) = va / PGSIZE + 2 ^ 35) as Hv.
  { rewrite vpn_page. rewrite Z.add_comm. change HHDM_OFFSET with ((2 ^ 52 - 2 ^ 35) * PGSIZE). rewrite Z.div_add by done.
    rewrite vpn_upper by lia. lia. }
  assert (∀ start last flags, HHDM_OFFSET + 2 ^ 31 ≤ start → segment_ok start last →
    image_space kaddr start last flags (HHDM_OFFSET + va) = None) as Hi.
  { intros start last flags Hs0 Hs. destruct (segment_pages start last Hs) as (H1 & H2 & H3).
    assert (2 ^ 52 - 2 ^ 35 + 0x80000 ≤ first_page start).
    { unfold first_page, PGSIZE. apply Z.div_le_lower_bound; [lia|]. unfold HHDM_OFFSET in Hs0. lia. }
    unfold image_space, segment_space, upper_page. rewrite Hv, decide_False; [done|]. lia. }
  unfold kernel_space. rewrite !Hi by (done || (apply Hst; set_solver)).
  unfold low_space. rewrite Hv, decide_False, decide_True by lia. by rewrite Z.add_simpl_r.
Qed.

(** The pages of the text: readable for everybody, and not writable. *)
Lemma kernel_space_text kaddr va :
  image_ok kaddr → text_start_addr kaddr ≤ va < text_end_addr kaddr →
  virtual_base kaddr mod PGSIZE = 0 → physical_base kaddr mod PGSIZE = 0 →
  let pa := va - virtual_base kaddr + physical_base kaddr in 0 ≤ pa < 2 ^ 52 →
  kernel_space kaddr va = Some (u64 (Z.lor (pa / PGSIZE * PGSIZE) text_flags)).
Proof.
  intros [Ht Hr Hd] Hva Hvb Hpb pa Hpa. destruct (segment_pages _ _ Ht) as (H1 & H2 & H3).
  assert (text_start_addr kaddr / PGSIZE ≤ va / PGSIZE) as Hlo by (apply Z.div_le_mono; [done|lia]).
  assert (va / PGSIZE < end_page (text_end_addr kaddr)) as Hhi.
  { unfold end_page, PGSIZE in *. pose proof (Z.div_mod va 4096 ltac:(done)). pose proof (Z.mod_pos_bound va 4096 ltac:(done)).
    apply Z.le_succ_l. apply Z.div_le_lower_bound; lia. }
  assert (upper_page va = va / PGSIZE) as Hup.
  { unfold upper_page. rewrite vpn_page, vpn_upper; [lia|]. unfold first_page in H1. lia. }
  unfold kernel_space, image_space, segment_space. rewrite Hup, decide_True by (unfold page_count, first_page in *; lia).
  simpl. do 3 f_equal.
  pose proof (Z.div_mod (virtual_base kaddr) PGSIZE ltac:(done)) as Dv. pose proof (Z.div_mod (physical_base kaddr) PGSIZE ltac:(done)) as Dp.
  assert (pa = va + (physical_base kaddr / PGSIZE - virtual_base kaddr / PGSIZE) * PGSIZE) as Epa by (unfold pa; lia).
  rewrite Epa, Z.div_add by done. rewrite Z.mul_add_distr_r. rewrite u64_small.
  - lia.
  - pose proof (page_offset va). pose proof (Z.mod_pos_bound va PGSIZE ltac:(done)). unfold PGSIZE in *. nia.
Qed.
