(* ===== verification/VmmMaps.v ===== *)
(** * Maps: [init_vm], [newvm_map] and what they share

    [init_vm] allocates the kernel's map and builds [kernel_space] in it.
    [newvm_map] copies the entries of the upper half, so that both roots lead
    to the same tables there, and every later step keeps it. *)

From S2P Require Import Prelude CString CStringSpec Word Pmm PmmSpec Slab SlabSpec Vmm VmmSpec VmmSpace VmmKernel.

Local Open Scope Z_scope.

(** The [n] bytes at [a] are in no free page, no table and not in the bitmap. *)
Definition private (s : mm) (N : Z) (L : gmap Z (list Z)) (a n : Z) : Prop :=
  ∀ b, a ≤ b < a + n → outside (bits s) N b ∧ ∀ t, page N t → window t b → tk s (t / PGSIZE) = true ∧ L !! t = None.

Lemma private_extends s s' N L L' a n :
  private s N L a n → extends s s' N L L' → private s' N L' a n.
Proof.
  intros Hp Hex b Hb. destruct (Hp b Hb) as [Ho Hw]. split; [by rewrite (ex_bits _ _ _ _ _ Hex)|].
  intros t Ht Hwt. destruct (Hw t Ht Hwt) as [Hk Hn]. split.
  - apply Hex; [by apply page_number|done].
  - destruct (L' !! t) as [l|] eqn:E; [|done]. destruct (ex_new _ _ _ _ _ Hex t l E Hn). congruence.
Qed.

Lemma private_kept s s' N L L' a :
  private s N L a 8 → extends s s' N L L' → rd64 (mm_mem s') a = rd64 (mm_mem s) a.
Proof. intros Hp Hex. apply rdn_ext. intros b Hb. simpl in Hb. destruct (Hp b ltac:(lia)). by apply Hex. Qed.

Lemma private_same s s' N L a n :
  bits s' = bits s → (∀ j, 0 ≤ j < N → tk s' j = tk s j) → private s N L a n → private s' N L a n.
Proof.
  intros Hb Ht Hp b Hbr. destruct (Hp b Hbr) as [Ho Hw]. split; [by rewrite Hb|]. intros t Hpt Hwt.
  rewrite Ht by (by apply page_number). by apply Hw.
Qed.

(** Writing memory that holds no table. *)
Lemma write_keeps s N L m :
  tables_ok s N L → (∀ a, (∃ j, 0 ≤ j < N ∧ a = bits s + j / 8) ∨ (∃ t l, L !! t = Some l ∧ window t a) →
    rd8 m a = rd8 (mm_mem s) a) →
  tables_ok (with_mem m s) N L ∧ ∀ j, 0 ≤ j < N → tk (with_mem m s) j = tk s j.
Proof.
  intros Hok Hm.
  assert (∀ j, 0 ≤ j < N → tk (with_mem m s) j = tk s j) as Ht by (intros j Hj; apply taken_same, Hm; left; by exists j).
  split; [|done]. apply (tables_ok_keep s); [done|done| |].
  - intros j Hj H. by rewrite Ht.
  - intros t l a Hl Hw. apply Hm. right. by exists t, l.
Qed.

Lemma store_private s N L a v :
  tables_ok s N L → private s N L a 8 →
  let s' := with_mem (wr64 (mm_mem s) a v) s in
  tables_ok s' N L ∧ (∀ j, 0 ≤ j < N → tk s' j = tk s j) ∧ rd64 (mm_mem s') a = u64 v.
Proof.
  intros Hok Hp. cbv zeta.
  destruct (write_keeps s N L (wr64 (mm_mem s) a v) Hok) as [Hok' Ht].
  { intros b Hb. apply rd8_wr64_ne. intros Hr. destruct (Hp b ltac:(lia)) as [Ho Hw].
    destruct Hb as [(j & Hj & ->)|(t & l & Hl & Hwt)]; [by apply (Ho j Hj)|].
    destruct (Hw t) as [_ Hn]; [by apply (to_page _ _ _ Hok t l)|done|congruence]. }
  split; [done|split; [done|]]. apply rd64_wr64_eq.
Qed.

(** A page that becomes the root of a map. *)
Section add_root.
Context (s : mm) (N : Z) (L : gmap Z (list Z)) (r : Z) (m : mem).
Hypothesis (Hok : tables_ok s N L) (Hp : page N r) (Hk : tk s (r / PGSIZE) = true) (Hnew : L !! r = None).
Hypothesis (Hout : ∀ a, window r a → outside (bits s) N a).
Hypothesis (Hm : ∀ a, ¬ window r a → rd8 m a = rd8 (mm_mem s) a).
Hypothesis (Hents : ∀ i, in_range i → present (entry m r i) = true → L !! PTE_GET_ADDR (entry m r i) = Some [i]).

Let s' : mm := with_mem m s.

Lemma root_entry u l i : L !! u = Some l → in_range i → entry m u i = entry (mm_mem s) u i.
Proof.
  intros Hu Hi. apply entry_ext; [done|]. intros a Hw. apply Hm. intros Hw'.
  destruct (to_page _ _ _ Hok u l Hu) as [Hpu _].
  assert (u = r) as -> by (apply (window_disjoint N u r a); try done; apply (to_bound _ _ _ Hok)). congruence.
Qed.

Lemma root_keeps : tables_ok s' N L ∧ ∀ j, 0 ≤ j < N → tk s' j = tk s j.
Proof.
  apply write_keeps; [done|]. intros a Ha. apply Hm. intros Hw.
  destruct Ha as [(j & Hj & ->)|(t & l & Hl & Hwt)]; [by apply (Hout _ Hw j Hj)|].
  destruct (to_page _ _ _ Hok t l Hl) as [Hpt _].
  assert (t = r) as -> by (apply (window_disjoint N t r a); try done; apply (to_bound _ _ _ Hok)). congruence.
Qed.

Lemma root_ok : tables_ok s' N (<[r := []]> L).
Proof.
  destruct root_keeps as [Hok' Ht].
  assert (∀ u l, <[r := []]> L !! u = Some l → (u = r ∧ l = []) ∨ (u ≠ r ∧ L !! u = Some l)) as HL.
  { intros u l. rewrite lookup_insert. case_decide; naive_solver. }
  assert (∀ u i, L !! u = Some [i] → <[r := []]> L !! u = Some [i]) as Hup.
  { intros u i Hu. rewrite lookup_insert_ne; [done|]. intros <-. congruence. }
  constructor.
  - apply Hok.
  - apply Hok'.
  - intros u l Hu. destruct (HL u l Hu) as [[-> ->]|[_ Hu']]; [|by apply (to_page _ _ _ Hok' u l)].
    split; [done|]. rewrite Ht; [done|]. by apply page_number.
  - intros u l a Hu Hw. destruct (HL u l Hu) as [[-> ->]|[_ Hu']]; [by apply Hout|by apply (to_sep _ _ _ Hok' u l)].
  - intros u l Hu. destruct (HL u l Hu) as [[-> ->]|[_ Hu']]; [simpl; lia|by apply (to_len _ _ _ Hok' u)].
  - intros u l i Hu Hl Hi Hpr. destruct (HL u l Hu) as [[-> ->]|[Hne Hu']]; [by apply Hup, Hents|].
    pose proof (to_next _ _ _ Hok' u l i Hu' Hl Hi Hpr) as Hn. rewrite lookup_insert_ne; [done|].
    intros E. rewrite <-E in Hn. congruence.
Qed.

Lemma root_walks : same_walks s s' L (λ _, True).
Proof.
  intros u l ix. revert u l. induction ix as [|i ix IH]; intros u l Hu Hlen Hr HT; [done|].
  apply Forall_cons in Hr as [Hi Hr]. cbn [pte_at]. change (mm_mem s') with m. rewrite (root_entry u l i) by done.
  destruct (present (entry (mm_mem s) u i)) eqn:Epr; [|done]. destruct ix as [|j ix]; [done|].
  rewrite length_app in Hlen. simpl in Hlen.
  apply (IH _ (l ++ [i])); [|rewrite !length_app; simpl; lia|done|done].
  apply (to_next _ _ _ Hok u l i); [done|lia|done..].
Qed.

Lemma root_private a n : private s N L a n → (∀ b, a ≤ b < a + n → ¬ window r b) → private s' N (<[r := []]> L) a n.
Proof.
  intros Hpr Hnw b Hb. destruct (Hpr b Hb) as [Ho Hw]. split; [done|]. intros t Ht Hwt. destruct (Hw t Ht Hwt) as [Hkt Hn].
  split.
  - rewrite (proj2 root_keeps); [done|]. by apply page_number.
  - rewrite lookup_insert_ne; [done|]. intros <-. by apply (Hnw b).
Qed.
End add_root.

Lemma in_mm_ok {A} (f : M A) s a p : f (vmm_mm s) = Ok (a, p) → in_mm f s = Ok (a, Vmm p (kernel_vm_map s)).
Proof. intros E. unfold in_mm. by rewrite E. Qed.

Lemma empty_space s r : (∀ i, in_range i → present (entry (mm_mem s) r i) = false) → ∀ va, space s r va = None.
Proof.
  intros H va. unfold space, indices. cbn [pte_at]. by rewrite H by (by apply index_range).
Qed.

(** [init_vm] builds the kernel's address space in a new map. *)
Lemma init_vm_ok pf fuel k kaddr N s map s0 n :
  kalloc pf fuel sizeof_vm_map (vmm_mm s) = Ok (map, s0) →
  tables_ok s0 N ∅ → private s0 N ∅ map 8 → room s0 N (1 + (256 + (3 * kernel_pages kaddr + n))) → N ≤ Z.of_nat pf →
  image_ok kaddr → (kernel_pages kaddr < k)%nat →
  ∃ r s' L, init_vm pf fuel k kaddr s = Ok (tt, s') ∧ kernel_vm_map s' = map ∧
    rd64 (mm_mem (vmm_mm s')) (map_top_level map) = P2V r ∧
    tables_ok (vmm_mm s') N L ∧ L !! r = Some [] ∧ room (vmm_mm s') N n ∧ private (vmm_mm s') N L map 8 ∧
    (∀ i, 256 ≤ i < 512 → present (entry (mm_mem (vmm_mm s')) r i) = true) ∧
    ∀ va, space (vmm_mm s') r va = kernel_space kaddr va.
Proof.
  intros E0 Hok0 Hpriv Hroom Hpf Him Hk.
  destruct (palloc_page pf s0 N ∅ _ Hok0 Hroom Hpf) as (r & s1 & E1 & Hp & Hf & _ & Hk1 & Hsame & Hex & Hok1 & Hroom1).
  pose proof (private_extends _ _ _ _ _ _ _ Hpriv Hex) as Hpriv1.
  assert (∀ b, map ≤ b < map + 8 → ¬ window r b) as Hnr.
  { intros b Hb Hw. destruct (Hpriv b Hb) as [_ Hb']. destruct (Hb' r Hp Hw). congruence. }
  destruct (store_private s1 N ∅ map (P2V r) Hok1 Hpriv1) as (Hok2 & Ht2 & Hrd).
  set (s2 := with_mem (wr64 (mm_mem s1) map (P2V r)) s1) in *.
  set (m3 := Str.memset (P2V r) 0 PGSIZE (mm_mem s2)).
  assert (∀ a, rd8 m3 a = if decide (window r a) then 0 else rd8 (mm_mem s2) a) as Hm3.
  { intros a. unfold m3. rewrite memset_spec by done. done. }
  assert (∀ i, in_range i → entry m3 r i = 0) as Hzero.
  { intros i Hi. apply rdn_zero. intros a Ha. rewrite Hm3. rewrite decide_True; [done|]. simpl in Ha.
    unfold window, in_range, PGSIZE in *. lia. }
  assert (tk s2 (r / PGSIZE) = true) as Hk2 by (rewrite Ht2; [done|by apply page_number]).
  assert (∀ a, window r a → outside (bits s2) N a) as Hout2.
  { intros a Hw. change (bits s2) with (bits s1). rewrite (ex_bits _ _ _ _ _ Hex). by apply (window_outside s0 N ∅ r). }
  assert (∀ a, ¬ window r a → rd8 m3 a = rd8 (mm_mem s2) a) as Hm3' by (intros a Hw; rewrite Hm3; by rewrite decide_False).
  assert (∀ i, in_range i → present (entry m3 r i) = true → (∅ : gmap Z (list Z)) !! PTE_GET_ADDR (entry m3 r i) = Some [i]) as Hents
    by (intros i Hi; by rewrite Hzero).
  pose proof (root_ok s2 N ∅ r m3 Hok2 Hp Hk2 eq_refl Hout2 Hm3' Hents) as Hok3.
  assert (private s2 N ∅ map 8) as Hpriv2.
  { intros b Hb. destruct (Hpriv1 b Hb) as [Ho Hw]. split; [done|]. intros t Ht Hwt.
    destruct (Hw t Ht Hwt). split; [|done]. rewrite Ht2; [done|]. by apply page_number. }
  pose proof (root_private s2 N ∅ r m3 Hok2 Hp eq_refl Hout2 Hm3' map 8 Hpriv2 Hnr) as Hpriv3.
  set (s3 := with_mem m3 s2) in *.
  destruct (map_kernel_ok pf k kaddr N r s3 {[r := []]} n) as (s4 & L4 & E4 & Hok4 & Hex4 & Hroom4 & Hup4 & Hsp4);
    [done|by apply lookup_singleton_eq| |done..| |].
  { apply (room_same s1); [|done]. intros j Hj. rewrite <-Ht2 by done.
    by apply (root_keeps s2 N ∅ r m3 Hok2 Hp eq_refl Hout2 Hm3'). }
  { apply empty_space. intros i Hi. change (mm_mem s3) with m3. by rewrite Hzero. }
  exists r, (Vmm s4 map), L4. split_and!; try done.
  - unfold init_vm. rewrite (bind_ok _ _ _ _ _ (in_mm_ok _ _ _ _ E0)).
    rewrite (bind_ok (modify (λ s, Vmm (vmm_mm s) map)) _ (Vmm s0 (kernel_vm_map s)) tt (Vmm s0 map) eq_refl).
    rewrite (bind_ok _ _ _ _ _ (in_mm_ok (in_pmm (palloc pf 1)) (Vmm s0 map) r s1 E1)). cbv zeta.
    rewrite (bind_ok _ _ _ _ _ (in_mm_ok (store64 _ _) (Vmm s1 map) tt s2 (store64_ok _ _ _))).
    rewrite (bind_ok _ _ _ _ _ (in_mm_ok (fill _ _ _) (Vmm s2 map) tt s3 (fill_ok _ _ _ _))).
    exact (in_mm_ok _ (Vmm s3 map) tt s4 E4).
  - simpl. unfold map_top_level. rewrite (private_kept s3 s4 N {[r := []]} L4 map Hpriv3 Hex4).
    transitivity (rd64 (mm_mem s2) map).
    + apply rdn_ext. intros b Hb. simpl in Hb. apply Hm3'. apply Hnr. lia.
    + rewrite Hrd. apply u64_small. rewrite (P2V_small N) by (done || apply (to_bound _ _ _ Hok0)).
      destruct Hp as [_ Hp]. pose proof (to_bound _ _ _ Hok0). unfold HHDM_OFFSET, PGSIZE in *. lia.
  - apply (lookup_weaken {[r := []]}); [by apply lookup_singleton_eq|apply Hex4].
  - by apply (private_extends s3 _ _ {[r := []]}).
Qed.

(** ** [newvm_map] *)

(** The loop that copies the upper half of the kernel's root [kr] to [r]. *)
Lemma copy_upper_ok N s kr r vmap kmap :
  page N kr → page N r → N ≤ 2 ^ 35 → kr ≠ r →
  rd64 (mm_mem s) kmap = P2V kr → rd64 (mm_mem s) vmap = P2V r →
  (∀ b, kmap ≤ b < kmap + 8 → ¬ window r b) → (∀ b, vmap ≤ b < vmap + 8 → ¬ window r b) →
  ∃ m, for_from 256 256 (λ i,
      st ← get; ktop ← in_mm (load64 (map_top_level (kernel_vm_map st)));
      e ← in_mm (load64 (ktop + 8 * i)); top ← in_mm (load64 (map_top_level vmap));
      in_mm (store64 (top + 8 * i) e)) (Vmm s kmap) = Ok (tt, Vmm (with_mem m s) kmap) ∧
    (∀ a, ¬ window r a → rd8 m a = rd8 (mm_mem s) a) ∧
    ∀ j, in_range j → entry m r j = if decide (256 ≤ j) then entry (mm_mem s) kr j else entry (mm_mem s) r j.
Proof.
  intros Hkr Hr HN Hne Hk Hv Hkw Hvw.
  destruct (for_from_ok (λ i st, ∃ m, st = Vmm (with_mem m s) kmap ∧ (∀ a, ¬ window r a → rd8 m a = rd8 (mm_mem s) a) ∧
      ∀ j, in_range j → entry m r j = if decide (256 ≤ j < i) then entry (mm_mem s) kr j else entry (mm_mem s) r j)
    256 256 (λ i, st ← get; ktop ← in_mm (load64 (map_top_level (kernel_vm_map st)));
      e ← in_mm (load64 (ktop + 8 * i)); top ← in_mm (load64 (map_top_level vmap));
      in_mm (store64 (top + 8 * i) e)) (Vmm s kmap)) as (s' & E & m & -> & Hm & Hj).
  - intros i st Hi (m & -> & Hm & Hj).
    assert (∀ a, (∀ b, a ≤ b < a + 8 → ¬ window r b) → rd64 m a = rd64 (mm_mem s) a) as Hrd.
    { intros a Ha. apply rdn_ext. intros b Hb. apply Hm, Ha. simpl in Hb. lia. }
    assert (in_range i) as Hir by (unfold in_range; lia).
    assert (entry m kr i = entry (mm_mem s) kr i) as Hent.
    { apply entry_ext; [done|]. intros a Hw. apply Hm. intros Hw'. by apply Hne, (window_disjoint N kr r a). }
    eexists. split.
    + rewrite (bind_ok get _ _ _ _ eq_refl). simpl kernel_vm_map. unfold map_top_level.
      rewrite (bind_ok _ _ _ _ _ (in_mm_ok (load64 kmap) (Vmm (with_mem m s) kmap) _ _ (load64_ok _ _))); cbn [vmm_mm kernel_vm_map]; rewrite mm_mem_with, (Hrd kmap Hkw), Hk.
      rewrite (bind_ok _ _ _ _ _ (in_mm_ok (load64 _) (Vmm (with_mem m s) kmap) _ _ (load64_ok _ _))); cbn [vmm_mm kernel_vm_map]; rewrite mm_mem_with. fold (entry m kr i).
      rewrite (bind_ok _ _ _ _ _ (in_mm_ok (load64 vmap) (Vmm (with_mem m s) kmap) _ _ (load64_ok _ _))); cbn [vmm_mm kernel_vm_map]; rewrite mm_mem_with, (Hrd vmap Hvw), Hv.
      exact (in_mm_ok (store64 _ _) (Vmm (with_mem m s) kmap) tt _ (store64_ok _ _ _)).
    + exists (wr64 m (P2V r + 8 * i) (entry m kr i)). simpl. rewrite mm_mem_with, with_mem_with. split; [done|]. split.
      * intros a Hw. rewrite rd8_wr64_ne; [by apply Hm|]. unfold window, in_range, PGSIZE in *. lia.
      * intros j Hjr. rewrite (entry_write N) by done. rewrite Hent. case_decide as E1.
        -- destruct E1 as [_ ->]. rewrite decide_True by lia. apply u64_small, rd64_range.
        -- rewrite Hj by done. repeat case_decide; try lia; done.
  - exists (mm_mem s). split; [by destruct s as [[] ???]|]. split; [done|]. intros j _. rewrite decide_False by lia. done.
  - exists m. split; [exact E|]. split; [done|]. intros j Hjr. rewrite Hj by done. unfold in_range in Hjr.
    repeat case_decide; try lia; done.
Qed.

(** What a caller of [newvm_map] gets from [kalloc]. *)
Record newvm_ready (s : vmm) (N : Z) (L : gmap Z (list Z)) (kr vmap : Z) (s0 : mm) : Prop := {
  nr_ok : tables_ok s0 N L;
  nr_root : L !! kr = Some [];
  nr_kernel : rd64 (mm_mem s0) (map_top_level (kernel_vm_map s)) = P2V kr;
  nr_kpriv : private s0 N L (kernel_vm_map s) 8;
  nr_vpriv : private s0 N L vmap 8;
  nr_apart : kernel_vm_map s + 8 ≤ vmap ∨ vmap + 8 ≤ kernel_vm_map s }.

(** The new root has the kernel's entries in the upper half; in the lower
    half it has what was in the page before. *)
Lemma newvm_map_ok `{HR : Reserve R} pf fuel N L s kr vmap s0 n :
  kalloc pf fuel sizeof_vm_map (vmm_mm s) = Ok (vmap, s0) → newvm_ready s N L kr vmap s0 →
  R s0 N (S n) → N ≤ Z.of_nat pf →
  ∃ r s', newvm_map pf fuel s = Ok (vmap, Vmm s' (kernel_vm_map s)) ∧ rd64 (mm_mem s') (map_top_level vmap) = P2V r ∧
    page N r ∧ tk s0 (r / PGSIZE) = false ∧ tk s' (r / PGSIZE) = true ∧ L !! r = None ∧
    (∀ j, in_range j → entry (mm_mem s') r j = if decide (256 ≤ j) then entry (mm_mem s0) kr j else entry (mm_mem s0) r j) ∧
    (∀ u l j, L !! u = Some l → in_range j → entry (mm_mem s') u j = entry (mm_mem s0) u j) ∧ R s' N n ∧
    ((∀ j, 0 ≤ j < 256 → present (entry (mm_mem s0) r j) = false) → tables_ok s' N (<[r := []]> L)) ∧
    ∀ a c, private s0 N L a c → private s' N (<[r := []]> L) a c ∧
      ∀ b, a ≤ b < a + c → ¬ (vmap ≤ b < vmap + 8) → rd8 (mm_mem s') b = rd8 (mm_mem s0) b.
Proof.
  intros E0 [Hok0 Hkr Hkm Hkp Hvp Hap] Hroom Hpf. pose proof (to_bound _ _ _ Hok0) as HN.
  destruct (palloc_page pf s0 N L _ Hok0 Hroom Hpf) as (r & s1 & E1 & Hp & Hf & Hnone & Hk1 & Hsame & Hex & Hok1 & Hroom1).
  pose proof (private_extends _ _ _ _ _ _ _ Hvp Hex) as Hvp1.
  assert (∀ a, private s0 N L a 8 → ∀ b, a ≤ b < a + 8 → ¬ window r b) as Hnr.
  { intros a Ha b Hb Hw. destruct (Ha b Hb) as [_ Hb']. destruct (Hb' r Hp Hw). congruence. }
  destruct (store_private s1 N L vmap (P2V r) Hok1 Hvp1) as (Hok2 & Ht2 & Hrd).
  set (s2 := with_mem (wr64 (mm_mem s1) vmap (P2V r)) s1) in *.
  destruct (to_page _ _ _ Hok0 kr [] Hkr) as [Hpk _].
  assert (kr ≠ r) as Hne by (intros ->; congruence).
  assert (rd64 (mm_mem s2) vmap = P2V r) as Hv2.
  { rewrite Hrd. apply u64_small. rewrite (P2V_small N) by (done || lia). destruct Hp as [_ Hp]. unfold HHDM_OFFSET, PGSIZE in *. lia. }
  assert (∀ a, ¬ (vmap ≤ a < vmap + 8) → outside (bits s0) N a → rd8 (mm_mem s2) a = rd8 (mm_mem s0) a) as H20.
  { intros a Ha Ho. unfold s2. rewrite mm_mem_with, rd8_wr64_ne by done. by apply Hsame. }
  assert (rd64 (mm_mem s2) (kernel_vm_map s) = P2V kr) as Hk2.
  { rewrite <-Hkm. unfold map_top_level in *. apply rdn_ext. intros b Hb. simpl in Hb. apply H20; [lia|]. apply (Hkp b). lia. }
  assert (∀ u j, page N u → in_range j → (∀ a, window u a → outside (bits s0) N a) → (∀ b, vmap ≤ b < vmap + 8 → ¬ window u b) →
    entry (mm_mem s2) u j = entry (mm_mem s0) u j) as Hent.
  { intros u j Hu Hj Ho Hw. apply entry_ext; [done|]. intros a Ha. apply H20; [|by apply Ho]. intros Hv. by apply (Hw a). }
  assert (∀ u l j, L !! u = Some l → in_range j → entry (mm_mem s2) u j = entry (mm_mem s0) u j) as HentL.
  { intros u l j Hu Hj. destruct (to_page _ _ _ Hok0 u l Hu) as [Hpu _]. apply Hent; [done|done|intros a; by apply (to_sep _ _ _ Hok0 u l)|].
    intros b Hb Hw. destruct (Hvp b Hb) as [_ Hb']. destruct (Hb' u Hpu Hw). congruence. }
  destruct (copy_upper_ok N s2 kr r vmap (kernel_vm_map s)) as (m & Ecopy & Hm & Hj);
    [done|done|lia|done|done|done|by apply Hnr|by apply Hnr|].
  assert (tk s2 (r / PGSIZE) = true) as Hkr2 by (rewrite Ht2; [done|by apply page_number]).
  assert (∀ a, window r a → outside (bits s2) N a) as Hout2.
  { intros a Hw. change (bits s2) with (bits s1). rewrite (ex_bits _ _ _ _ _ Hex). by apply (window_outside s0 N L r). }
  destruct (root_keeps s2 N L r m Hok2 Hp Hnone Hout2 Hm) as [_ Ht3].
  assert (∀ j, in_range j → entry m r j = if decide (256 ≤ j) then entry (mm_mem s0) kr j else entry (mm_mem s0) r j) as Hjr.
  { intros j Hir. rewrite Hj by done. case_decide; [by apply (HentL kr [])|].
    apply Hent; [done|done| |by apply Hnr]. intros a Hw. by apply (window_outside s0 N L r). }
  exists r, (with_mem m s2). split; [|split; [|split; [exact Hp|split; [exact Hf|split; [|split; [exact Hnone|split; [exact Hjr|split; [|split; [|split]]]]]]]]].
  - unfold newvm_map. rewrite (bind_ok _ _ _ _ _ (in_mm_ok _ _ _ _ E0)).
    rewrite (bind_ok _ _ _ _ _ (in_mm_ok (in_pmm (palloc pf 1)) (Vmm s0 (kernel_vm_map s)) r s1 E1)).
    rewrite (bind_ok _ _ _ _ _ (in_mm_ok (store64 _ _) (Vmm s1 (kernel_vm_map s)) tt s2 (store64_ok _ _ _))).
    rewrite (bind_ok _ _ _ _ _ Ecopy). reflexivity.
  - rewrite mm_mem_with, <-Hv2. apply rdn_ext. intros b Hb. simpl in Hb. apply Hm, (Hnr vmap Hvp). lia.
  - rewrite Ht3; [done|]. by apply page_number.
  - intros u l j Hu Hir. rewrite mm_mem_with. rewrite (root_entry s2 N L r m Hok2 Hp Hnone Hm u l j Hu Hir). by apply (HentL u l).
  - apply (res_same s1); [|done]. intros j Hjj. by rewrite Ht3, Ht2.
  - intros Hlow. apply (root_ok s2 N L r m Hok2 Hp Hkr2 Hnone Hout2 Hm).
    intros i Hir Hpr. rewrite Hjr in * by done. case_decide.
    + apply (to_next _ _ _ Hok0 kr [] i); [done|simpl; lia|done..].
    + rewrite Hlow in Hpr; [done|]. unfold in_range in Hir. lia.
  - intros a c Hac. assert (∀ b, a ≤ b < a + c → ¬ window r b) as Hnw.
    { intros b Hb Hw. destruct (Hac b Hb) as [_ Hb']. destruct (Hb' r Hp Hw). congruence. }
    split.
    + apply root_private; [done|done|done|done|done| |done]. apply (private_same s1); [done|done|by eapply private_extends].
    + intros b Hb Hv. rewrite mm_mem_with, Hm by (by apply Hnw). apply H20; [done|]. by apply (Hac b).
Qed.

(** ** Sharing *)

Definition upper_half (va : Z) : Prop := 2 ^ 35 ≤ vpn va.

Lemma upper_index va : upper_half va ↔ 256 ≤ index 3 va.
Proof.
  unfold upper_half. rewrite vpn_indices.
  pose proof (index_range 0 va ltac:(done)). pose proof (index_range 1 va ltac:(done)).
  pose proof (index_range 2 va ltac:(done)). pose proof (index_range 3 va ltac:(done)). unfold in_range in *. lia.
Qed.

(** ** [vm_alloc] *)

(** The list of entries at [a]: their addresses, and their bounds. *)
Fixpoint entry_list (m : mem) (a : ptr) (es : list (ptr * (Z * Z))) : Prop :=
  match es with
  | [] => a = NULL
  | (b, (lo, hi)) :: es => a = b ∧ b ≠ NULL ∧ rd64 m (entry_start b) = lo ∧ rd64 m (entry_end b) = hi ∧
                           entry_list m (rd64 m (entry_next b)) es
  end.

(** The bytes of [a .. a + n) and of [b .. b + k) are different. *)
Definition apart (a n b k : Z) : Prop := a + n ≤ b ∨ b + k ≤ a.

Lemma entry_list_ext m m' a es :
  Forall (λ e, ∀ x, e.1 ≤ x < e.1 + sizeof_vm_map_entry → rd8 m' x = rd8 m x) es → entry_list m a es → entry_list m' a es.
Proof.
  intros Hs. revert a. induction Hs as [|[b [lo hi]] es He _ IH]; intros a; [done|]. cbn [entry_list]. simpl in He.
  assert (∀ o, 0 ≤ o ≤ 32 → rd64 m' (b + o) = rd64 m (b + o)) as Hw.
  { intros o Ho. apply rdn_ext. intros x Hx. simpl in Hx. apply He. unfold sizeof_vm_map_entry. lia. }
  unfold entry_start, entry_end, entry_next in *. rewrite !Hw by lia.
  pose proof (Hw 0 ltac:(lia)) as H0. rewrite Z.add_0_r in H0. rewrite H0.
  intros (-> & ? & ? & ? & H). split_and!; try done. by apply IH.
Qed.

(** A new entry is put in front of the list of the map. *)
Lemma vm_alloc_ok pf fuel map vaddr size s entry s0 es :
  kalloc pf fuel sizeof_vm_map_entry s = Ok (entry, s0) → entry ≠ NULL →
  0 ≤ vaddr < 2 ^ 64 → 0 ≤ entry < 2 ^ 64 → apart entry sizeof_vm_map_entry (map_entries map) 8 →
  entry_list (mm_mem s0) (rd64 (mm_mem s0) (map_entries map)) es →
  Forall (λ e, apart entry sizeof_vm_map_entry e.1 sizeof_vm_map_entry ∧ apart (map_entries map) 8 e.1 sizeof_vm_map_entry) es →
  ∃ s', vm_alloc pf fuel map vaddr size s = Ok (tt, s') ∧
    entry_list (mm_mem s') (rd64 (mm_mem s') (map_entries map)) ((entry, (vaddr, u64 (vaddr + size))) :: es).
Proof.
  intros E Hn Hv He Hap Hlist Hes. unfold apart, sizeof_vm_map_entry in *. set (first := rd64 (mm_mem s0) (map_entries map)) in *.
  set (m1 := wr64 (mm_mem s0) (entry_start entry) vaddr). set (m2 := wr64 m1 (entry_end entry) (u64 (vaddr + size))).
  set (m3 := wr64 m2 (entry_next entry) first). set (m4 := wr64 m3 (map_entries map) entry).
  assert (rd64 m2 (map_entries map) = first) as Hf.
  { unfold m2, m1, entry_start, entry_end. rewrite !rd64_wr64_ne by lia. done. }
  exists (with_mem m4 s0). split.
  - unfold vm_alloc. rewrite (bind_ok _ _ _ _ _ E), (bind_ok _ _ _ _ _ (store64_ok _ _ _)).
    rewrite (bind_ok _ _ _ _ _ (store64_ok _ _ _)), mm_mem_with, with_mem_with. fold m1 m2.
    rewrite (bind_ok _ _ _ _ _ (load64_ok _ _)), mm_mem_with, Hf.
    rewrite (bind_ok _ _ _ _ _ (store64_ok _ _ _)), mm_mem_with, with_mem_with. fold m3.
    rewrite store64_ok, mm_mem_with, with_mem_with. done.
  - rewrite mm_mem_with. cbn [entry_list].
    assert (rd64 m4 (map_entries map) = entry) as -> by (unfold m4; rewrite rd64_wr64_eq; by apply u64_small).
    assert (∀ o v, 0 ≤ o ≤ 32 → rd64 m3 (entry + o) = v → rd64 m4 (entry + o) = v) as H4
      by (intros o v Ho <-; unfold m4; rewrite rd64_wr64_ne by lia; done).
    split; [done|split; [done|]]. unfold entry_start, entry_end, entry_next in *. split; [|split].
    + apply H4; [lia|]. unfold m3, m2. rewrite !rd64_wr64_ne by lia. unfold m1. rewrite rd64_wr64_eq. by apply u64_small.
    + apply H4; [lia|]. unfold m3. rewrite rd64_wr64_ne by lia. unfold m2. rewrite rd64_wr64_eq. apply u64_small, u64_range.
    + rewrite <-(Z.add_0_r entry). rewrite (H4 0 first) by (lia || (rewrite Z.add_0_r; unfold m3; rewrite rd64_wr64_eq; apply u64_small, rd64_range)).
      apply (entry_list_ext (mm_mem s0)); [|done]. apply (Forall_impl _ _ _ Hes). intros [b [lo hi]] [H1 H2] x Hx. simpl in *.
      unfold sizeof_vm_map_entry in Hx. unfold m4, m3, m2, m1, entry_start, entry_end, entry_next.
      rewrite !rd8_wr64_ne by lia. done.
Qed.

(** Tables whose entries did not change lead where they led. *)
Lemma same_entries_walks s s' N L :
  tables_ok s N L → (∀ u l j, L !! u = Some l → in_range j → entry (mm_mem s') u j = entry (mm_mem s) u j) →
  same_walks s s' L (λ _, True).
Proof.
  intros Hok He u l ix. revert u l. induction ix as [|i ix IH]; intros u l Hu Hlen Hr HT; [done|].
  apply Forall_cons in Hr as [Hi Hr]. cbn [pte_at]. rewrite (He u l i) by done.
  destruct (present (entry (mm_mem s) u i)) eqn:Epr; [|done]. destruct ix as [|j ix]; [done|].
  rewrite length_app in Hlen. simpl in Hlen.
  apply (IH _ (l ++ [i])); [|rewrite !length_app; simpl; lia|done|done].
  apply (to_next _ _ _ Hok u l i); [done|lia|done..].
Qed.

(** A root with the entry of another one has its pages. *)
Lemma same_entry_space s s' N L kr r va :
  tables_ok s N L → L !! kr = Some [] → same_walks s s' L (λ _, True) →
  entry (mm_mem s') r (index 3 va) = entry (mm_mem s) kr (index 3 va) → space s' r va = space s kr va.
Proof.
  intros Hok Hkr Hw He. unfold space, indices. pose proof (index_range 3 va ltac:(done)) as Hi.
  destruct (present (entry (mm_mem s) kr (index 3 va))) eqn:Hp.
  - rewrite (pte_at_step _ r), (pte_at_step _ kr) by congruence. rewrite He.
    pose proof (indices_range va) as HF. apply Forall_cons in HF as [_ HF].
    apply (Hw _ [index 3 va]); [|done|exact HF|done].
    apply (to_next _ _ _ Hok kr []); [done|simpl; lia|done..].
  - cbn [pte_at]. by rewrite He, Hp.
Qed.

(** Two roots with one present entry agree for good on its pages. *)
Lemma same_entry_later s s' N L L' r r' va :
  L !! r = Some [] → L !! r' = Some [] → extends s s' N L L' →
  entry (mm_mem s) r' (index 3 va) = entry (mm_mem s) r (index 3 va) →
  present (entry (mm_mem s) r (index 3 va)) = true → space s' r' va = space s' r va.
Proof.
  intros Hr Hr' Hex He Hp. pose proof (index_range 3 va ltac:(done)) as Hi.
  assert (entry (mm_mem s') r (index 3 va) = entry (mm_mem s) r (index 3 va)) as E by (by apply (ex_entry _ _ _ _ _ Hex r [])).
  assert (entry (mm_mem s') r' (index 3 va) = entry (mm_mem s) r' (index 3 va)) as E'
    by (apply (ex_entry _ _ _ _ _ Hex r' []); congruence).
  unfold space, indices. rewrite (pte_at_step _ r'), (pte_at_step _ r) by congruence. congruence.
Qed.
