(* ===== verification/VmmDestroy.v ===== *)
(** * [destroyvm]: the pages it gives back

    [destroy_level] walks the tables depth first and frees every page it
    meets: the tables, and below the last table the mapped pages themselves.
    [freed] is the set of their numbers. *)

From S2P Require Import Prelude CString CStringSpec Word Pmm PmmSpec Slab SlabSpec Vmm VmmSpec.

Local Open Scope Z_scope.

(** [s'] is [s] with the pages of [G] free. *)
Record frees (s s' : mm) (N : Z) (G : Z → Prop) : Prop := {
  fr_bits : bits s' = bits s;
  fr_out : same_outside (bits s) N (mm_mem s) (mm_mem s');
  fr_taken j : 0 ≤ j → tk s' j = true ↔ tk s j = true ∧ ¬ G j;
  fr_globals : mm_slabs s' = mm_slabs s ∧ mm_lock s' = mm_lock s ∧ mm_id s' = mm_id s }.

Lemma frees_ext s s' N G G' : (∀ j, 0 ≤ j → G j ↔ G' j) → frees s s' N G → frees s s' N G'.
Proof. intros HG [H1 H2 H3 H4]. constructor; [done|done| |done]. intros j Hj. by rewrite H3, HG. Qed.

Lemma frees_nothing s N : frees s s N (λ _, False).
Proof. constructor; [done|done| |done]. intros j _. tauto. Qed.

(** One call of [freepg]. *)
Lemma frees_page s s' N G t :
  frees s s' N G → page N t → N ≤ 2 ^ 35 →
  ∃ s'', in_pmm (freepg (V2P (P2V t)) 1) s' = Ok (tt, s'') ∧ frees s s'' N (λ j, G j ∨ j = t / PGSIZE).
Proof.
  intros [Hb Ho Ht Hg] Hp HN. destruct (page_number N t Hp) as [Et Hr].
  destruct (freepg_ok (mm_pmm s') (t / PGSIZE) 1) as (p & E & Hb' & _ & Ht'); [lia..|unfold PGSIZE in *; lia|].
  exists (set_mm_pmm p s'). split.
  - unfold in_pmm. rewrite (P2V_small N) by done. rewrite Et at 1. rewrite V2P_page by lia. by rewrite E.
  - constructor.
    + change (bits (set_mm_pmm p s')) with (pm_bitmap p). congruence.
    + intros a Ha. rewrite <-Ho by done. change (mm_mem (set_mm_pmm p s')) with (pm_mem p).
      unfold freepg in E. cbv zeta in E. rewrite (u32_small 1) in E by done. replace p with (freepg_loop (Z.to_nat (u64 (t / PGSIZE * PGSIZE / PGSIZE + 1) - t / PGSIZE * PGSIZE / PGSIZE))
        (t / PGSIZE * PGSIZE / PGSIZE) (mm_pmm s')) by congruence.
      rewrite Z.div_mul, u64_small by (unfold PGSIZE in *; lia). apply (freepg_loop_outside _ _ N); [lia|lia|].
      change (pm_bitmap (mm_pmm s')) with (bits s'). by rewrite Hb.
    + intros j Hj. change (tk (set_mm_pmm p s') j) with (taken (pm_bitmap p) (pm_mem p) j).
      rewrite Ht' by done. change (taken (pm_bitmap (mm_pmm s')) (pm_mem (mm_pmm s')) j) with (tk s' j).
      rewrite andb_true_iff, negb_true_iff, Ht by done. unfold in_run. rewrite bool_decide_eq_false. split; [|intros (H1 & H2); split; [|split; [done|]]].
      * intros (H1 & H2 & H3). split; [done|]. intros [?|?]; [done|]. lia.
      * intros H. apply H2. right. lia.
      * intros H. apply H2. by left.
    + done.
Qed.

(** The paths a call of [destroy_level] follows. *)
Definition selected (level : nat) (start count : Z) (ix : list Z) : Prop :=
  (length ix ≤ level)%nat ∧ Forall in_range ix ∧ match ix with [] => True | i :: _ => start ≤ i < start + count end.

(** The numbers of the pages they lead to. *)
Definition freed (m : mem) (t : Z) (level : nat) (start count j : Z) : Prop :=
  ∃ ix p, selected level start count ix ∧ goes m t ix = Some p ∧ j = p / PGSIZE.

Lemma freed_zero m t start count j : freed m t 0 start count j ↔ j = t / PGSIZE.
Proof.
  split.
  - intros (ix & p & (Hl & _) & Hg & ->). destruct ix; [|simpl in Hl; lia]. by injection Hg as ->.
  - intros ->. exists [], t. split; [|done]. split; [simpl; lia|done].
Qed.

(** The pages below one entry. *)
Definition freed_below (m : mem) (t : Z) (level : nat) (i j : Z) : Prop :=
  present (entry m t i) = true ∧ freed m (PTE_GET_ADDR (entry m t i)) level 0 512 j.

Lemma freed_step m t level start count j :
  0 ≤ start → start + count ≤ 512 →
  freed m t (S level) start count j ↔ (∃ i, start ≤ i < start + count ∧ freed_below m t level i j) ∨ j = t / PGSIZE.
Proof.
  intros Hs Hc. split.
  - intros (ix & p & (Hl & Hr & Hh) & Hg & ->). destruct ix as [|i ix]; [right; by injection Hg as ->|]. left.
    apply Forall_cons in Hr as [Hi Hr]. exists i. split; [done|]. cbn [goes] in Hg. unfold freed_below.
    destruct (present (entry m t i)); [|done]. split; [done|]. exists ix, p. split; [|done].
    split; [simpl in Hl; lia|split; [done|]]. destruct ix as [|i' ix]; [done|]. apply Forall_cons in Hr as [Hi' _]. exact Hi'.
  - intros [(i & Hi & Hp & (ix & p & (Hl & Hr & Hh) & Hg & ->))| ->].
    + exists (i :: ix), p. split; [|split; [cbn [goes]; by rewrite Hp|done]].
      split; [simpl; lia|split; [|done]]. constructor; [unfold in_range; lia|done].
    + exists [], t. split; [|done]. split; [simpl; lia|done].
Qed.

Section destroy.
Context (pf : nat) (s : mm) (N : Z) (L : gmap Z (list Z)).
Hypothesis (Hok : tables_ok s N L).

(** The bits of the bitmap are all that changes: the tables are read as they were. *)
Lemma frees_entry s' G t l i :
  frees s s' N G → L !! t = Some l → in_range i → entry (mm_mem s') t i = entry (mm_mem s) t i.
Proof. intros Hf Hl Hi. apply entry_ext; [done|]. intros a Hw. apply Hf. by apply (to_sep _ _ _ Hok t l). Qed.

Lemma destroy_level_ok level t l start count s' G :
  frees s s' N G → page N t → (level ≠ O → L !! t = Some l ∧ (length l + level ≤ 4)%nat) →
  0 ≤ start → start + Z.of_nat count ≤ 512 →
  (∀ ix p, selected level start (Z.of_nat count) ix → goes (mm_mem s) t ix = Some p → page N p) →
  ∃ s'', destroy_level pf level (P2V t) start count s' = Ok (tt, s'') ∧
    frees s s'' N (λ j, G j ∨ freed (mm_mem s) t level start (Z.of_nat count) j).
Proof.
  pose proof (to_bound _ _ _ Hok) as HN. revert t l start count s' G.
  induction level as [|level IH]; intros t l start count s' G Hf Hp Hl Hs Hc Hpages.
  { destruct (frees_page s s' N G t Hf Hp ltac:(lia)) as (s'' & E & Hf'). exists s''. split; [exact E|].
    apply (frees_ext _ _ _ _ _ (λ j _, or_iff_compat_l _ (iff_sym (freed_zero _ _ _ _ _))) Hf'). }
  destruct (Hl ltac:(done)) as [Hlt Hlen]. pose proof (table_not_null _ _ _ _ _ Hok Hlt) as Hnn. cbn [destroy_level].
  destruct (for_from_ok (λ i si, frees s si N (λ j, G j ∨ ∃ i', start ≤ i' < i ∧ freed_below (mm_mem s) t level i' j))
    count start (λ i, nextlevel ← get_next_level pf (P2V t) i false;
        if decide (nextlevel = NULL) then mret tt else destroy_level pf level nextlevel 0 512) s') as (s1 & E1 & Hf1).
  - intros i si Hi Hfi. assert (in_range i) as Hir by (unfold in_range; lia).
    pose proof (frees_entry si _ t l i Hfi Hlt Hir) as He.
    destruct (present (entry (mm_mem s) t i)) eqn:Hpr.
    + assert (page N (PTE_GET_ADDR (entry (mm_mem s) t i))) as Hpn.
      { apply (Hpages [i]); [|cbn [goes]; by rewrite Hpr]. split; [simpl; lia|split; [by apply Forall_singleton|done]]. }
      destruct (IH (PTE_GET_ADDR (entry (mm_mem s) t i)) (l ++ [i]) 0 512%nat si _ Hfi Hpn) as (s2 & E2 & Hf2); [|lia|lia| |].
      { intros Hz. rewrite length_app. simpl. split; [|lia]. apply (to_next _ _ _ Hok t l i); [done|lia|done..]. }
      { intros ix p (Hl1 & Hr1 & _) Hg. apply (Hpages (i :: ix)); [|cbn [goes]; by rewrite Hpr].
        split; [simpl; lia|split; [by constructor|done]]. }
      exists s2. split.
      * rewrite (bind_ok _ _ _ _ _ (get_next_level_present pf si t i false Hnn ltac:(by rewrite He))), He.
        rewrite decide_False; [exact E2|]. rewrite (P2V_small N) by (done || lia). destruct Hpn. unfold NULL, HHDM_OFFSET. lia.
      * refine (frees_ext _ _ _ _ _ _ Hf2). intros j _. rewrite Logic.or_assoc. apply or_iff_compat_l. split.
        -- intros [(i' & Hi' & Hb)|Hb]; [exists i'; split; [lia|done]|exists i; split; [lia|done]].
        -- intros (i' & Hi' & Hb). destruct (decide (i' = i)) as [->|]; [right; apply Hb|left; exists i'; split; [lia|done]].
    + exists si. split; [by rewrite (bind_ok _ _ _ _ _ (get_next_level_absent pf si t i Hnn ltac:(by rewrite He)))|].
      refine (frees_ext _ _ _ _ _ _ Hfi). intros j _. apply or_iff_compat_l. split.
      * intros (i' & Hi' & Hb). exists i'. split; [lia|done].
      * intros (i' & Hi' & Hb). exists i'. split; [|done]. destruct (decide (i' = i)) as [->|]; [|lia].
        destruct Hb as [Hb _]. congruence.
  - refine (frees_ext _ _ _ _ _ _ Hf). intros j _. split; [by left|]. intros [?|(i' & Hi' & _)]; [done|lia].
  - destruct (frees_page s s1 N _ t Hf1 Hp ltac:(lia)) as (s2 & E2 & Hf2). exists s2. split.
    + by rewrite (bind_ok _ _ _ _ _ E1).
    + refine (frees_ext _ _ _ _ _ _ Hf2). intros j _. rewrite Logic.or_assoc. apply or_iff_compat_l.
      by rewrite (freed_step (mm_mem s) t level start (Z.of_nat count) j Hs Hc).
Qed.

(** [destroyvm] gives back the root, the tables of the lower half and every
    page mapped there, and nothing else. *)
Lemma destroyvm_ok vmap r :
  rd64 (mm_mem s) (map_top_level vmap) = P2V r → L !! r = Some [] →
  (∀ ix p, selected 4 0 256 ix → goes (mm_mem s) r ix = Some p → page N p) →
  ∃ s', destroyvm pf vmap s = Ok (tt, s') ∧ frees s s' N (freed (mm_mem s) r 4 0 256).
Proof.
  intros Hv Hr Hpages. unfold destroyvm. rewrite (bind_ok _ _ _ _ _ (load64_ok _ _)), Hv.
  destruct (destroy_level_ok 4 r [] 0 256%nat s _ (frees_nothing s N)) as (s' & E & Hf);
    [by apply (to_page _ _ _ Hok r [])|simpl; intros _; split; [done|lia]|lia|lia|done|].
  exists s'. split; [exact E|]. refine (frees_ext _ _ _ _ _ _ Hf). intros j _. tauto.
Qed.
End destroy.

(** ** The pages, computed *)

(** The pages a call of [destroy_level] meets, in memory [m]. *)
Fixpoint reached (m : mem) (level : nat) (t start : Z) (count : nat) : list Z :=
  match level with
  | O => [t]
  | S level =>
      flat_map (λ i, if present (entry m t i) then reached m level (PTE_GET_ADDR (entry m t i)) 0 512 else [])
        (seqZ start (Z.of_nat count)) ++ [t]
  end.

Lemma reached_spec m level t start count p :
  0 ≤ start → start + Z.of_nat count ≤ 512 →
  p ∈ reached m level t start count ↔ ∃ ix, selected level start (Z.of_nat count) ix ∧ goes m t ix = Some p.
Proof.
  revert t start count. induction level as [|level IH]; intros t start count Hs Hc; cbn [reached].
  - rewrite list_elem_of_singleton. split.
    + intros ->. exists []. split; [|done]. split; [simpl; lia|done].
    + intros (ix & (Hl & _) & Hg). destruct ix; [|simpl in Hl; lia]. by injection Hg as ->.
  - rewrite elem_of_app, list_elem_of_singleton, list_elem_of_In, in_flat_map. setoid_rewrite <-list_elem_of_In. split.
    + intros [(i & Hi & Hp)| ->].
      * apply elem_of_seqZ in Hi. destruct (present (entry m t i)) eqn:Hpr; [|by apply not_elem_of_nil in Hp].
        apply IH in Hp as (ix & (Hl & Hr & _) & Hg); [|lia|lia]. exists (i :: ix). cbn [goes]. rewrite Hpr.
        split; [|done]. split; [simpl; lia|split; [|done]]. constructor; [unfold in_range; lia|done].
      * exists []. split; [|done]. split; [simpl; lia|done].
    + intros (ix & (Hl & Hr & Hh) & Hg). destruct ix as [|i ix]; [right; by injection Hg|]. left.
      apply Forall_cons in Hr as [Hi Hr]. exists i. split; [apply elem_of_seqZ; done|]. cbn [goes] in Hg.
      destruct (present (entry m t i)); [|done]. apply IH; [lia|lia|]. exists ix. split; [|done].
      split; [simpl in Hl; lia|split; [done|]]. destruct ix as [|i' ix]; [done|]. apply Forall_cons in Hr as [Hi' _]. exact Hi'.
Qed.

Lemma freed_reached m level t start count j :
  0 ≤ start → start + Z.of_nat count ≤ 512 →
  freed m t level start (Z.of_nat count) j ↔ j ∈ (λ p, p / PGSIZE) <$> reached m level t start count.
Proof.
  intros Hs Hc. rewrite list_elem_of_fmap. unfold freed. split.
  - intros (ix & p & Hsel & Hg & ->). exists p. split; [done|]. apply reached_spec; [done|done|]. by exists ix.
  - intros (p & -> & Hp). apply reached_spec in Hp as (ix & ? & ?); [|done..]. by exists ix, p.
Qed.
