(* ===== verification/VmmRun.v ===== *)
(** * Runs of pages: what loading a program needs of the allocators

    [tail] is the reserve for allocations of several pages: the pages from
    some page on are free.  A run of pages that was taken is private memory:
    writing it changes no table and no address space. *)

From S2P Require Import Prelude CString CStringSpec Word Pmm PmmSpec Slab SlabSpec Vmm VmmSpec VmmSpace VmmKernel VmmMaps.

Local Open Scope Z_scope.

(** At least [k] pages at the end of the [N] pages are free. *)
Definition tail (s : mm) (N : Z) (k : nat) : Prop :=
  ∃ a, 0 ≤ a ∧ a + Z.of_nat k ≤ N ∧ ∀ q, a ≤ q < N → tk s q = false.

#[export] Instance tail_reserve : Reserve tail.
Proof.
  constructor.
  - intros s N k k' Hk (a & H0 & Ha & Hq). exists a. split; [done|split; [lia|done]].
  - intros s s' N k Ht (a & H0 & Ha & Hq). exists a. split; [done|split; [done|]]. intros q Hqr. rewrite Ht by lia. by apply Hq.
  - intros s N k (a & H0 & Ha & Hq). exists a. split; [lia|]. apply Hq. lia.
  - intros s s' N k p (a & H0 & Ha & Hq) Hp Hlow Ht. exists (a + 1). split; [lia|split; [lia|]]. intros q Hqr.
    assert (p ≤ a).
    { destruct (decide (p ≤ a)); [done|]. pose proof (Hq a ltac:(lia)) as E. by rewrite Hlow in E by lia. }
    rewrite Ht, Hq, bool_decide_eq_false_2 by lia. done.
Qed.

(** Tables whose bytes did not change. *)
Lemma same_tables_space s s' N L r va :
  tables_ok s N L → (∀ t l b, L !! t = Some l → window t b → rd8 (mm_mem s') b = rd8 (mm_mem s) b) →
  L !! r = Some [] → space s' r va = space s r va.
Proof.
  intros Hok Hwin Hr.
  assert (∀ u l j, L !! u = Some l → in_range j → entry (mm_mem s') u j = entry (mm_mem s) u j) as He
    by (intros u l j Hl Hj; apply entry_ext; [done|]; intros b; by apply (Hwin u l)).
  by apply ((same_entries_walks s s' N L Hok He) r [] (indices va) Hr eq_refl (indices_range va)).
Qed.

(** A run of [n] pages from the allocator: fresh, taken and private. *)
Lemma palloc_run pf s N L n k :
  tables_ok s N L → tail s N (Z.to_nat n + k) → 0 < n → N ≤ Z.of_nat pf →
  ∃ q s', in_pmm (palloc pf n) s = Ok (q * PGSIZE, s') ∧ 0 ≤ q ∧ q + n ≤ N ∧ (∀ j, q ≤ j < q + n → tk s j = false) ∧
    (∀ j, q ≤ j < q + n → tk s' j = true ∧ L !! (j * PGSIZE) = None) ∧ extends s s' N L L ∧ tables_ok s' N L ∧ tail s' N k ∧
    ∀ r va, L !! r = Some [] → space s' r va = space s r va.
Proof.
  intros Hok (a & H0 & Ha & Hfree) Hn Hpf. pose proof (to_bound _ _ _ Hok) as HN.
  destruct (palloc_full pf (mm_pmm s) n a) as (q & s1 & E & Hq & Hrun & Hmin & Hb & _ & Ht & Hout);
    [lia|lia|unfold PGSIZE; lia|intros j Hj; apply Hfree; lia|lia|].
  assert (same_outside (bits s) N (mm_mem s) (pm_mem s1)) as Hout'.
  { intros b Hb'. apply Hout. intros j Hj. apply Hb'. lia. }
  set (s' := set_mm_pmm s1 s).
  assert (∀ j, 0 ≤ j → tk s' j = in_run q n j || tk s j) as Htk by (intros j Hj; unfold s', mm_mem; simpl; by apply Ht).
  assert (∀ j, 0 ≤ j < N → tk s j = true → tk s' j = true) as Hkeep by (intros j Hj H; rewrite Htk, H by lia; apply orb_true_r).
  assert (∀ t l b, L !! t = Some l → window t b → rd8 (mm_mem s') b = rd8 (mm_mem s) b) as Hwin
    by (intros t l b Hl Hw; apply Hout'; by apply (to_sep _ _ _ Hok t l)).
  exists q, s'. split; [unfold in_pmm; by rewrite E|]. split; [lia|split; [lia|split; [exact Hrun|]]].
  split; [|split; [|split; [|split]]].
  - intros j Hj. split.
    + rewrite Htk by lia. unfold in_run. by rewrite bool_decide_eq_true_2 by lia.
    + destruct (L !! _) as [l|] eqn:El; [|done]. destruct (tables_not_free _ _ _ _ _ Hok El).
      rewrite Z.div_mul by done. by apply Hrun.
  - constructor; try done.
    + intros t l Hl Hno. congruence.
    + intros t l i Hl Hi _. apply entry_ext; [done|]. intros b. by apply (Hwin t l).
    + intros b Hb' _. by apply Hout'.
  - by apply (tables_ok_keep s).
  - exists (a + n). split; [lia|split; [lia|]]. intros j Hj. rewrite Htk, Hfree by lia. unfold in_run.
    by rewrite bool_decide_eq_false_2 by lia.
  - intros r va Hr. by apply (same_tables_space s s' N L).
Qed.

(** The page of a byte of the run, in the direct map. *)
Lemma run_page N q n b :
  N ≤ 2 ^ 35 → 0 ≤ q → q + n ≤ N → P2V (q * PGSIZE) ≤ b < P2V (q * PGSIZE) + n * PGSIZE →
  ∃ j, q ≤ j < q + n ∧ page N (j * PGSIZE) ∧ window (j * PGSIZE) b.
Proof.
  intros HN Hq Hn Hbr. assert (0 < n) as Hn0 by (unfold PGSIZE in Hbr; lia).
  assert (∀ j, q ≤ j < q + n → page N (j * PGSIZE)) as Hpage.
  { intros j Hj. unfold page. rewrite Z.mod_mul by done. unfold PGSIZE. lia. }
  assert (∀ j, q ≤ j < q + n → P2V (j * PGSIZE) = HHDM_OFFSET + j * PGSIZE) as HP by (intros j Hj; apply (P2V_small N); [by apply Hpage|lia]).
  set (j := (b - HHDM_OFFSET) / PGSIZE). rewrite HP in Hbr by lia.
  assert (b = HHDM_OFFSET + j * PGSIZE + (b - HHDM_OFFSET) mod PGSIZE) as Ebj
    by (unfold j; pose proof (Z.div_mod (b - HHDM_OFFSET) PGSIZE ltac:(done)); lia).
  pose proof (Z.mod_pos_bound (b - HHDM_OFFSET) PGSIZE ltac:(done)) as Hm.
  assert (q ≤ j < q + n) as Hj.
  { unfold j. split; [apply Z.div_le_lower_bound; [done|]; lia|apply Z.div_lt_upper_bound; [done|]; lia]. }
  exists j. split; [done|split; [by apply Hpage|]]. unfold window. rewrite HP by done. lia.
Qed.

(** The pages of the run, seen through the direct map, are private. *)
Lemma run_private s s' N L q n :
  tables_ok s N L → bits s' = bits s → 0 ≤ q → q + n ≤ N → (∀ j, q ≤ j < q + n → tk s j = false) →
  (∀ j, q ≤ j < q + n → tk s' j = true ∧ L !! (j * PGSIZE) = None) → private s' N L (P2V (q * PGSIZE)) (n * PGSIZE).
Proof.
  intros Hok Hb Hq Hn Hfree Htk b Hbr. pose proof (to_bound _ _ _ Hok) as HN.
  destruct (run_page N q n b ltac:(lia) Hq Hn Hbr) as (j & Hj & Hp & Hw). split.
  - rewrite Hb. apply (window_outside s N L (j * PGSIZE)); [done|done|rewrite Z.div_mul by done; by apply Hfree|done].
  - intros t Ht Hwt. assert (t = j * PGSIZE) as -> by (apply (window_disjoint N _ _ b); try done; lia).
    rewrite Z.div_mul by done. by apply Htk.
Qed.

(** Writing private memory. *)
Lemma write_private s N L m a n :
  tables_ok s N L → private s N L a n → (∀ b, ¬ (a ≤ b < a + n) → rd8 m b = rd8 (mm_mem s) b) →
  tables_ok (with_mem m s) N L ∧ (∀ j, 0 ≤ j < N → tk (with_mem m s) j = tk s j) ∧
  ∀ r va, L !! r = Some [] → space (with_mem m s) r va = space s r va.
Proof.
  intros Hok Hp Hm.
  assert (∀ t l b, L !! t = Some l → window t b → rd8 m b = rd8 (mm_mem s) b) as Hwin.
  { intros t l b Hl Hw. apply Hm. intros Hb. destruct (Hp b Hb) as [_ Hpt].
    destruct (Hpt t) as [_ Hn]; [by apply (to_page _ _ _ Hok t l)|done|congruence]. }
  destruct (write_keeps s N L m Hok) as [Hok' Htk].
  { intros b [(j & Hj & ->)|(t & l & Hl & Hw)]; [|by apply (Hwin t l)]. apply Hm. intros Hb. by destruct (Hp _ Hb) as [Ho _], (Ho j Hj). }
  split; [done|split; [done|]]. intros r va Hr. by apply (same_tables_space s (with_mem m s) N L).
Qed.

(** Private memory and a run of free pages do not meet. *)
Lemma private_run_apart s N L a c q n b :
  private s N L a c → N ≤ 2 ^ 35 → 0 ≤ q → q + n ≤ N → (∀ j, q ≤ j < q + n → tk s j = false) →
  a ≤ b < a + c → ¬ (P2V (q * PGSIZE) ≤ b < P2V (q * PGSIZE) + n * PGSIZE).
Proof.
  intros Hp HN Hq Hn Hfree Hb Hr. destruct (run_page N q n b HN Hq Hn Hr) as (j & Hj & Hpj & Hw).
  destruct (Hp b Hb) as [_ Hpt]. destruct (Hpt _ Hpj Hw) as [Ht _]. rewrite Z.div_mul, Hfree in Ht by done. done.
Qed.

(** A run of pages that is mapped from [va] on, where nothing was mapped. *)
Lemma map_run_ok pf N r s L va n flags k :
  tables_ok s N L → L !! r = Some [] → tail s N (4 * Z.to_nat n + k) → 0 < n ≤ 2 ^ 36 → N ≤ Z.of_nat pf → present flags = true →
  (∀ i, 0 ≤ i < n → space s r (va + i * PGSIZE) = None) →
  ∃ q s1 s2 L2, in_pmm (palloc pf n) s = Ok (q * PGSIZE, s1) ∧ extends s s1 N L L ∧
    mappages pf (P2V r) va (q * PGSIZE) (n * PGSIZE) flags s1 = Ok (0, s2) ∧
    0 ≤ q ∧ q + n ≤ N ∧ (∀ j, q ≤ j < q + n → tk s j = false) ∧
    tables_ok s2 N L2 ∧ extends s1 s2 N L L2 ∧ tail s2 N k ∧ private s2 N L2 (P2V (q * PGSIZE)) (n * PGSIZE) ∧
    (∀ i, 0 ≤ i < n → space s2 r (va + i * PGSIZE) = Some (u64 (Z.lor ((q + i) * PGSIZE) flags))) ∧
    ∀ va', (∀ i, 0 ≤ i < n → vpn va' ≠ vpn (va + i * PGSIZE)) → space s2 r va' = space s r va'.
Proof.
  intros Hok Hr Htail Hn Hpf Hfl Hnone. pose proof (to_bound _ _ _ Hok) as HN.
  destruct (palloc_run pf s N L n (3 * Z.to_nat n + k) Hok) as
    (q & s1 & E1 & Hq & Hqn & Hfree & Htk & Hex1 & Hok1 & Htail1 & Hsp1); [|lia|done|].
  { by replace (Z.to_nat n + (3 * Z.to_nat n + k))%nat with (4 * Z.to_nat n + k)%nat by lia. }
  assert (n * PGSIZE / PGSIZE = n) as En by (by apply Z.div_mul).
  destruct (mappages_ok (R := tail) pf N r va (q * PGSIZE) (n * PGSIZE) flags s1 L k)
    as (s2 & L2 & E2 & Hok2 & Hex2 & Htail2 & Hin & Hout); try (rewrite ?En; done || lia).
  rewrite En in Hin, Hout.
  assert (private s1 N L (P2V (q * PGSIZE)) (n * PGSIZE)) as Hrun1 by (apply (run_private s); try done; apply Hex1).
  exists q, s1, s2, L2. do 9 (split; [done|]). split; [by eapply private_extends|]. split.
  - intros i Hi. rewrite Hin, Hsp1, Hnone by done. cbn [first_of].
    rewrite (u64_small (q * PGSIZE + i * PGSIZE)) by (unfold PGSIZE in *; lia). do 3 f_equal. lia.
  - intros va' Hoff. by rewrite Hout, Hsp1.
Qed.
