(* ===== verification/VmmDemo.v ===== *)
(** * States for the theorems on page tables

    [vm0] has 64 pages, the bitmap outside of them, and a root on page 0;
    [vm1] maps a page of the upper half in it, [vm2] one of the lower half
    too.  [boot] is a large empty memory for [init_vm]. *)

From S2P Require Import Prelude CString CStringSpec Word Pmm PmmSpec Slab SlabSpec Vmm VmmSpec VmmSpace VmmKernel VmmMaps VmmDestroy.

Local Open Scope Z_scope.

(** The state a run leaves, and how to check its result by evaluation. *)
Definition state_of {A} (o : outcome (A * mm)) (d : mm) : mm := match o with Ok (_, s) => s | _ => d end.

Definition returns (o : outcome (Z * mm)) (x : Z) : bool := match o with Ok (a, _) => bool_decide (a = x) | _ => false end.

Lemma returns_ok o x d : returns o x = true → o = Ok (x, state_of o d).
Proof. destruct o as [[a s]| | |]; simpl; try done. intros H. apply bool_decide_eq_true in H. by subst. Qed.

Lemma room_run s N a b k :
  0 ≤ a → b ≤ N → (k ≤ Z.to_nat (b - a))%nat → (∀ q, a ≤ q < b → tk s q = false) → room s N k.
Proof.
  intros Ha Hb Hk Ht. exists (list_to_set (seqZ a (b - a))). split.
  - rewrite size_list_to_set by apply NoDup_seqZ. rewrite length_seqZ. lia.
  - intros q Hq. apply elem_of_list_to_set, elem_of_seqZ in Hq. split; [lia|]. apply Ht. lia.
Qed.

(** Memory with nothing but some low bytes: the tables are empty. *)
Lemma low_memory_entry (m : mem) t i :
  map_Forall (λ a _, a < HHDM_OFFSET) m → page 64 t → in_range i → entry m t i = 0.
Proof.
  intros Hm Hp Hi. apply rdn_zero. intros a Ha. unfold rd8. destruct (m !! a) as [v|] eqn:E; [|done].
  pose proof (Hm a v E) as Hlt. simpl in Hlt, Ha. rewrite (P2V_small 64) in Ha by done.
  unfold page, PGSIZE, in_range in *. lia.
Qed.

Definition vm0 : mm := Mm (Pmm (wr64 {[0x1000 := 1]} 0x2000 (P2V 0)) 0x1000 0 0) NULL 0 0.
Definition L0 : gmap Z (list Z) := {[0 := []]}.

Lemma vm0_low : bool_decide (map_Forall (λ a _, a < HHDM_OFFSET) (mm_mem vm0)) = true.
Proof. vm_compute. reflexivity. Qed.

Lemma vm0_taken : forallb (λ j, eqb (tk vm0 j) (j =? 0)) (seqZ 0 64) = true.
Proof. vm_compute. reflexivity. Qed.

Lemma tk_checked s f n j : forallb (λ j, eqb (tk s j) (f j)) (seqZ 0 n) = true → 0 ≤ j < n → tk s j = f j.
Proof.
  intros H Hj. rewrite forallb_forall in H. apply eqb_prop, H, list_elem_of_In, elem_of_seqZ. lia.
Qed.

Lemma high_window t a b : page 64 t → b < HHDM_OFFSET → window t a → a ≠ b.
Proof. unfold window. intros Hp Hb Hw ->. rewrite (P2V_small 64) in Hw by done. destruct Hp. lia. Qed.

Lemma L0_inv t l : L0 !! t = Some l → t = 0 ∧ l = [].
Proof. unfold L0. rewrite lookup_singleton_Some. naive_solver. Qed.

Lemma vm0_ok : tables_ok vm0 64 L0.
Proof.
  constructor.
  - done.
  - intros p j Hp _ Hj Hw. refine (high_window (p * PGSIZE) _ _ _ _ Hw eq_refl).
    + unfold page. rewrite Z.mod_mul by done. unfold PGSIZE. lia.
    + simpl. assert (j / 8 < 64) by (apply Z.div_lt_upper_bound; lia). unfold HHDM_OFFSET. lia.
  - intros t l Ht. apply L0_inv in Ht as [-> ->]. split; [split; [done|]; unfold PGSIZE; lia|].
    apply (tk_checked vm0 _ _ 0 vm0_taken). lia.
  - intros t l a Ht Hw j Hj. apply L0_inv in Ht as [-> ->]. apply (high_window 0); [split; [done|]; unfold PGSIZE; lia| |done].
    simpl. assert (j / 8 < 64) by (apply Z.div_lt_upper_bound; lia). unfold HHDM_OFFSET. lia.
  - intros t l Ht. apply L0_inv in Ht as [-> ->]. simpl. lia.
  - intros t l i Ht _ Hi. apply L0_inv in Ht as [-> ->]. rewrite low_memory_entry; [done| |split; [done|]; unfold PGSIZE; lia|done].
    apply (proj1 (bool_decide_eq_true _) vm0_low).
Qed.

Lemma vm0_space va : space vm0 0 va = None.
Proof.
  apply empty_space. intros i Hi. rewrite low_memory_entry; [done| |split; [done|]; unfold PGSIZE; lia|done].
  apply (proj1 (bool_decide_eq_true _) vm0_low).
Qed.

Lemma vm0_room : room vm0 64 63.
Proof.
  apply (room_run _ _ 1 64); [lia|lia|lia|]. intros q Hq. rewrite (tk_checked vm0 _ _ q vm0_taken) by lia. lia.
Qed.

(** A page of the upper half, then one of the lower half. *)
Definition vm1 : mm := state_of (mappage2 64 (P2V 0) (HHDM_OFFSET + 0x5000) 0x5000 7 vm0) vm0.
Definition vm2 : mm := state_of (mappage2 64 (P2V 0) 0x400000 0x9000 7 vm1) vm1.

Lemma vm1_made : ∃ L1, tables_ok vm1 64 L1 ∧ extends vm0 vm1 64 L0 L1 ∧ room vm1 64 60 ∧
  space vm1 0 (HHDM_OFFSET + 0x5000) = Some 0x5007 ∧ ∀ va, vpn va ≠ vpn (HHDM_OFFSET + 0x5000) → space vm1 0 va = None.
Proof.
  destruct (mappage2_ok 64 vm0 64 L0 0 (HHDM_OFFSET + 0x5000) 0x5000 7 60 vm0_ok)
    as (s & L & E & Hok & Hex & Hr & Hw & Hsp);
    [by apply lookup_singleton_eq|exact vm0_room|lia|apply vm0_space|done|].
  assert (vm1 = s) as -> by (unfold vm1; by rewrite E).
  exists L. split; [exact Hok|split; [exact Hex|split; [exact Hr|split; [exact Hsp|]]]].
  intros va Hva. rewrite (same_walks_space vm0 s L0 0 (HHDM_OFFSET + 0x5000) va); [apply vm0_space|by apply lookup_singleton_eq|done..].
Qed.

Lemma vm1_root L1 : extends vm0 vm1 64 L0 L1 → L1 !! 0 = Some [].
Proof. intros Hex. apply (lookup_weaken L0); [by apply lookup_singleton_eq|apply Hex]. Qed.

Lemma vm2_made : ∃ L2, tables_ok vm2 64 L2 ∧ L2 !! 0 = Some [] ∧ room vm2 64 57 ∧ space vm2 0 0x400000 = Some 0x9007.
Proof.
  destruct vm1_made as (L1 & Hok1 & Hex1 & Hr1 & _ & Hno).
  destruct (mappage2_ok 64 vm1 64 L1 0 0x400000 0x9000 7 57 Hok1 (vm1_root L1 Hex1))
    as (s & L & E & Hok & Hex & Hr & Hw & Hsp); [exact Hr1|lia|by apply Hno|done|].
  assert (vm2 = s) as -> by (unfold vm2; by rewrite E).
  exists L. split; [exact Hok|split; [|split; [exact Hr|exact Hsp]]].
  apply (lookup_weaken L1); [by apply vm1_root|apply Hex].
Qed.

(** ** A state for [newvm_map] *)

(** [kernel_vm_map] lies at 0x2000; [kalloc] takes page 4 for its slab. *)
Definition vmap1 : Z := HHDM_OFFSET + 0x4000 + 40.
Definition s1 : mm := state_of (kalloc 64 8 sizeof_vm_map vm1) vm1.

Lemma s1_made : kalloc 64 8 sizeof_vm_map vm1 = Ok (vmap1, s1).
Proof. apply returns_ok. vm_compute. reflexivity. Qed.

Lemma vm1_taken : forallb (λ j, eqb (tk vm1 j) (j <? 4)) (seqZ 0 64) = true.
Proof. vm_compute. reflexivity. Qed.

Lemma s1_taken : forallb (λ j, eqb (tk s1 j) (j <? 5)) (seqZ 0 64) = true.
Proof. vm_compute. reflexivity. Qed.

(** A program that writes nothing below [lo]. *)
Definition spares (lo : Z) {A} (f : M A) : Prop :=
  ∀ s x s' a, f s = Ok (x, s') → a < lo → rd8 (mm_mem s') a = rd8 (mm_mem s) a.

Section spares.
Context (lo : Z).

Lemma spares_bind {A B} (f : M A) (k : A → M B) : spares lo f → (∀ x, spares lo (k x)) → spares lo (f ≫= k).
Proof.
  intros Hf Hk s x s' a E Ha. apply bind_inv in E as (y & s1 & E1 & E2).
  by rewrite (Hk _ _ _ _ _ E2 Ha), (Hf _ _ _ _ E1 Ha).
Qed.

Lemma spares_same {A} (f : M A) : (∀ s x s', f s = Ok (x, s') → mm_mem s' = mm_mem s) → spares lo f.
Proof. intros H s x s' a E _. by rewrite (H _ _ _ E). Qed.

Lemma spares_store64 b v : lo ≤ b → spares lo (store64 b v).
Proof. intros Hb s x s' a E Ha. injection E as _ <-. apply rd8_wr64_ne. lia. Qed.

Lemma spares_store32 b v : lo ≤ b → spares lo (store32 b v).
Proof. intros Hb s x s' a E Ha. injection E as _ <-. change (rd8 (wrn 4 (mm_mem s) b v) a = rd8 (mm_mem s) a). rewrite rd8_wrn. by rewrite decide_False by lia. Qed.

Lemma spares_link_blocks k slab block size : lo ≤ block → 0 ≤ size → spares lo (link_blocks k slab block size).
Proof.
  intros Hb Hs. revert block Hb. induction k as [|k IH]; intros block Hb; [by intros s x s' a|]. cbn [link_blocks].
  case_decide; [|by apply spares_same; intros s x s' [= _ <-]].
  apply spares_bind; [by apply spares_store64|]. intros _. apply IH. lia.
Qed.
End spares.

Ltac spares :=
  repeat first
    [ apply spares_link_blocks; [unfold sizeof_slab; lia|lia]
    | apply spares_store64; unfold slab_next, slab_size, slab_refcount, slab_id, slab_freelist; lia
    | apply spares_store32; unfold slab_id; lia
    | apply spares_bind; [|intros ?]
    | apply spares_same; intros ? ? ? [= _ <-]; reflexivity ].

Lemma init_slab_returns slab size s x s' : init_slab slab size s = Ok (x, s') → x = slab.
Proof.
  unfold init_slab. intros E. repeat (apply bind_inv in E as (? & ? & _ & E)). by injection E as <- _.
Qed.

Lemma vm1_lock : mm_lock vm1 = 0.
Proof. vm_compute. reflexivity. Qed.

Lemma vm1_slabs : mm_slabs vm1 = NULL.
Proof. vm_compute. reflexivity. Qed.

Lemma spares_slab slab size : 0 ≤ size → spares slab (init_slab slab size) ∧ spares slab (allocblock slab).
Proof. intros Hs. split; [unfold init_slab|unfold allocblock]; spares. Qed.

(** The first [kalloc] writes to its page, once it has one. *)
Lemma kalloc_spares pf fuel size s q t x s' a :
  mm_lock s = 0 → mm_slabs s = NULL → size ≤ PGSIZE → 0 ≤ block_size size →
  palloc pf 1 (mm_pmm s) = Ok (q, t) → kalloc pf (S fuel) size s = Ok (x, s') → a < P2V q →
  rd8 (mm_mem s') a = rd8 (pm_mem t) a.
Proof.
  intros Hl Hn Hsz Hbs Ep Ek Ha. unfold kalloc in Ek. rewrite decide_False in Ek by lia. cbv zeta in Ek.
  rewrite (bind_ok _ _ _ _ _ (acquire_slabber_ok s Hl)), bind_get in Ek.
  change (mm_slabs (set_mm_lock 1 s)) with (mm_slabs s) in Ek. rewrite Hn in Ek.
  rewrite (bind_ok (find_slab (S fuel) NULL (block_size size)) _ _ NULL (set_mm_lock 1 s) eq_refl), decide_True in Ek by done.
  apply bind_inv in Ek as (slab & t1 & En & Ek). unfold newslab in En. apply bind_inv in En as (q' & t2 & Eq & En).
  unfold in_pmm in Eq. change (mm_pmm (set_mm_lock 1 s)) with (mm_pmm s) in Eq. rewrite Ep in Eq. injection Eq as <- <-.
  destruct (spares_slab (P2V q) (block_size size)) as [Hi Hb]; [done|].
  assert (slab = P2V q) as -> by (by apply init_slab_returns in En).
  apply bind_inv in Ek as (b & t3 & Ea & Ek). apply bind_inv in Ek as ([] & t4 & Er & Ek). injection Ek as _ <-. injection Er as <-.
  change (mm_mem (set_mm_lock 0 t3)) with (mm_mem t3). by rewrite (Hb _ _ _ _ Ea), (Hi _ _ _ _ En).
Qed.

(** [kalloc] left the tables alone: they lie below its page, which is page 4. *)
Lemma s1_same a : HHDM_OFFSET ≤ a < HHDM_OFFSET + 0x4000 → rd8 (mm_mem s1) a = rd8 (mm_mem vm1) a.
Proof.
  intros Ha. assert (∀ j, 0 ≤ j < 64 → tk vm1 j = (j <? 4)) as Ht by (intros j Hj; by apply (tk_checked vm1 _ 64 j vm1_taken)).
  destruct (palloc_full 64 (mm_pmm vm1) 1 4) as (p & t & E & Hp & Hr & _ & _ & _ & _ & Ho); [lia|lia|by vm_compute| |lia|].
  { intros j Hj. assert (j = 4) as -> by lia. by apply (Ht 4). }
  assert (p = 4) as ->. { destruct (decide (p = 4)) as [|Hne]; [done|]. assert (tk vm1 p = false) as Hf by (apply (Hr p); lia). rewrite Ht in Hf by lia. lia. }
  rewrite (kalloc_spares 64 7 sizeof_vm_map vm1 (4 * PGSIZE) t vmap1 s1 a vm1_lock vm1_slabs); [|done|by vm_compute|exact E|exact s1_made|].
  2: { rewrite P2V_page by lia. unfold PGSIZE. lia. }
  apply Ho. assert (pm_bitmap (mm_pmm vm1) = 0x1000) as -> by (by vm_compute). intros j Hj. unfold HHDM_OFFSET in Ha.
  assert (j / 8 < 5) by (apply Z.div_lt_upper_bound; lia). lia.
Qed.

Lemma s1_bits : bits s1 = 0x1000.
Proof. vm_compute. reflexivity. Qed.

Lemma vm1_bits : bits vm1 = 0x1000.
Proof. vm_compute. reflexivity. Qed.

Lemma s1_kernel : rd64 (mm_mem s1) 0x2000 = P2V 0.
Proof. vm_compute. reflexivity. Qed.

Lemma table_pages L1 t l : tables_ok vm1 64 L1 → L1 !! t = Some l → page 64 t ∧ t / PGSIZE < 4.
Proof.
  intros Hok Ht. destruct (to_page _ _ _ Hok t l Ht) as [Hp Hk]. split; [done|].
  rewrite (tk_checked vm1 _ _ _ vm1_taken) in Hk by (by apply page_number). lia.
Qed.

Lemma s1_ok L1 : tables_ok vm1 64 L1 → tables_ok s1 64 L1.
Proof.
  intros Hok. apply (tables_ok_keep vm1); [done|by rewrite s1_bits, vm1_bits| |].
  - intros j Hj. rewrite (tk_checked vm1 _ _ j vm1_taken), (tk_checked s1 _ _ j s1_taken) by done. lia.
  - intros t l a Ht Hw. destruct (table_pages L1 t l Hok Ht) as [Hp Hlt]. apply s1_same.
    destruct (page_number 64 t Hp) as [Et Hr]. unfold window in Hw. rewrite (P2V_small 64) in Hw by done.
    unfold PGSIZE in *. lia.
Qed.

Lemma outside_bits b : ¬ (0x1000 ≤ b < 0x1008) → outside 0x1000 64 b.
Proof. intros Hb j Hj ->. apply Hb. pose proof (Z.div_pos j 8). assert (j / 8 < 8) by (apply Z.div_lt_upper_bound; lia). lia. Qed.

Lemma s1_ready L1 kr : tables_ok vm1 64 L1 → L1 !! kr = Some [] → kr = 0 → newvm_ready (Vmm vm1 0x2000) 64 L1 kr vmap1 s1.
Proof.
  intros Hok Hr ->. constructor; [by apply s1_ok|done|exact s1_kernel| | |].
  - intros b Hb. simpl in Hb. rewrite s1_bits. split; [apply outside_bits; lia|]. intros t Hp Hw.
    destruct (high_window t b b Hp); [unfold HHDM_OFFSET; lia|done|done].
  - intros b Hb. rewrite s1_bits. unfold vmap1, HHDM_OFFSET in Hb. split; [apply outside_bits; lia|]. intros t Hp Hw.
    assert (t = 0x4000) as ->.
    { apply (window_disjoint 64 t 0x4000 b); [done|split; [done|]; unfold PGSIZE; lia|done|done|].
      unfold window, P2V. rewrite u64_small by (unfold HHDM_OFFSET; lia). unfold HHDM_OFFSET, PGSIZE. lia. }
    split; [apply (tk_checked s1 _ _ 4 s1_taken); lia|].
    destruct (L1 !! 0x4000) as [l|] eqn:E; [|done]. destruct (table_pages L1 _ l Hok E) as [_ Hlt].
    change (0x4000 / PGSIZE) with 4 in Hlt. lia.
  - simpl. unfold vmap1, HHDM_OFFSET. lia.
Qed.

Lemma s1_room : room s1 64 1.
Proof. apply (room_run _ _ 5 64); [lia|lia|lia|]. intros q Hq. rewrite (tk_checked s1 _ _ q s1_taken) by lia. lia. Qed.

(** ** A state for [init_vm] *)

(** A bitmap for 2^22 pages, all free but page 0, and an image of three segments. *)
Definition boot : vmm := Vmm (Mm (Pmm {[0x1000 := 1]} 0x1000 0 0) NULL 0 0) NULL.
Definition boot_pages : nat := Z.to_nat (2 ^ 22).
Definition boot_image : image :=
  Image 0xffffffff80000000 0xffffffff80004800 0xffffffff80005000 0xffffffff80006100
        0xffffffff80007000 0xffffffff80009000 0xffffffff80000000 0x200000.

Definition boot_map : Z := HHDM_OFFSET + 0x1000 + 40.
Definition boot1 : mm := state_of (kalloc boot_pages 8 sizeof_vm_map (vmm_mm boot)) (vmm_mm boot).

Lemma boot_made : kalloc boot_pages 8 sizeof_vm_map (vmm_mm boot) = Ok (boot_map, boot1).
Proof. apply returns_ok. vm_compute. reflexivity. Qed.

Lemma boot1_bits : bits boot1 = 0x1000.
Proof. vm_compute. reflexivity. Qed.

(** Page 0 and the page of the slab are taken; above the bitmap there is only the slab. *)
Lemma boot1_low :
  bool_decide (map_Forall (λ a v, (a = 0x1000 ∧ v = 3) ∨ HHDM_OFFSET ≤ a) (mm_mem boot1)) = true.
Proof. vm_compute. reflexivity. Qed.

Lemma boot1_first : rd8 (mm_mem boot1) 0x1000 = 3.
Proof. vm_compute. reflexivity. Qed.

Lemma boot1_taken j : 0 ≤ j < 2 ^ 22 → tk boot1 j = bool_decide (j < 2).
Proof.
  intros Hj. unfold taken. rewrite boot1_bits. destruct (decide (j / 8 = 0)) as [E|E].
  - rewrite E. change (0x1000 + 0) with 0x1000. rewrite boot1_first.
    assert (j < 8) by (pose proof (Z.div_mod j 8); pose proof (Z.mod_pos_bound j 8); lia).
    rewrite Z.mod_small by lia. assert (j = 0 ∨ j = 1 ∨ j = 2 ∨ j = 3 ∨ j = 4 ∨ j = 5 ∨ j = 6 ∨ j = 7) as Hc by lia.
    naive_solver.
  - rewrite bool_decide_false by (intros H; apply E, Z.div_small; lia).
    pose proof (Z.div_pos j 8 ltac:(lia) ltac:(done)). assert (j / 8 < 2 ^ 22) by (apply Z.div_lt_upper_bound; lia).
    unfold rd8. destruct (mm_mem boot1 !! (0x1000 + j / 8)) as [v|] eqn:Ev; [|apply Z.testbit_0_l].
    destruct (proj1 (bool_decide_eq_true _) boot1_low _ _ Ev) as [[? _]|Hh]; [lia|]. unfold HHDM_OFFSET in Hh. lia.
Qed.

Lemma boot_window t b : page (2 ^ 22) t → b < HHDM_OFFSET → ¬ window t b.
Proof. unfold window. intros Hp Hb Hw. rewrite (P2V_small (2 ^ 22)) in Hw by done. destruct Hp. lia. Qed.

Lemma boot_bits_low j : 0 ≤ j < 2 ^ 22 → 0x1000 + j / 8 < HHDM_OFFSET.
Proof. intros Hj. assert (j / 8 < 2 ^ 22) by (apply Z.div_lt_upper_bound; lia). unfold HHDM_OFFSET. lia. Qed.

Lemma boot1_ok : tables_ok boot1 (2 ^ 22) ∅.
Proof.
  split.
  - lia.
  - intros p j Hp _ Hj. change (pm_bitmap (mm_pmm boot1)) with (bits boot1). rewrite boot1_bits.
    apply (boot_window (p * PGSIZE)); [|by apply boot_bits_low].
    unfold page. rewrite Z.mod_mul by done. unfold PGSIZE. lia.
  - intros t l H. destruct (lookup_empty_Some _ _ H).
  - intros t l a H. destruct (lookup_empty_Some _ _ H).
  - intros t l H. destruct (lookup_empty_Some _ _ H).
  - intros t l i H. destruct (lookup_empty_Some _ _ H).
Qed.

Lemma boot1_private : private boot1 (2 ^ 22) ∅ boot_map 8.
Proof.
  intros b Hb. unfold boot_map in Hb. split.
  - rewrite boot1_bits. intros j Hj ->. pose proof (boot_bits_low j Hj). lia.
  - intros t Hp Hw. assert (t = 0x1000) as ->.
    { apply (window_disjoint (2 ^ 22) t 0x1000 b); [done|split; [done|]; unfold PGSIZE; lia|done|done|].
      unfold window, P2V, PGSIZE. rewrite u64_small by (unfold HHDM_OFFSET; lia). lia. }
    split; [|done]. by apply (boot1_taken 1).
Qed.

Lemma boot_segments :
  page_count (text_start_addr boot_image) (text_end_addr boot_image) = 5 ∧
  page_count (rodata_start_addr boot_image) (rodata_end_addr boot_image) = 2 ∧
  page_count (data_start_addr boot_image) (data_end_addr boot_image) = 2.
Proof. vm_compute. split; [|split]; reflexivity. Qed.

Lemma boot_kernel_pages : kernel_pages boot_image = Z.to_nat 1048583.
Proof. unfold kernel_pages. destruct boot_segments as (-> & -> & ->). lia. Qed.

Lemma boot1_room : room boot1 (2 ^ 22) (1 + (256 + (3 * kernel_pages boot_image + 0))).
Proof.
  apply (room_run _ _ 2 (2 ^ 22)); [lia|lia|rewrite boot_kernel_pages; lia|].
  intros q Hq. rewrite boot1_taken by lia. by apply bool_decide_eq_false; lia.
Qed.

Lemma boot_image_ok : image_ok boot_image.
Proof. constructor; unfold segment_ok, HHDM_OFFSET, PGSIZE; simpl; lia. Qed.

Lemma boot_starts start :
  start ∈ [text_start_addr boot_image; rodata_start_addr boot_image; data_start_addr boot_image] →
  HHDM_OFFSET + 2 ^ 31 ≤ start.
Proof. rewrite !elem_of_cons, elem_of_nil. unfold HHDM_OFFSET. simpl. lia. Qed.

(** ** A state for [destroyvm] *)

(** [vm2] with the address of its root at 0x2000, as its map. *)
Lemma vm2_map : rd64 (mm_mem vm2) 0x2000 = P2V 0.
Proof. vm_compute. reflexivity. Qed.

Lemma vm2_reached : reached (mm_mem vm2) 4 0 0 256 = [0x9000; 0x6000; 0x5000; 0x4000; 0].
Proof. vm_compute. reflexivity. Qed.

(** ** A state for [vm_alloc] *)

(** An empty map at 0x3000; [kalloc] takes page 1 for its slab. *)
Definition entry0 : Z := HHDM_OFFSET + 0x1000 + 40.
Definition s2 : mm := state_of (kalloc 64 8 sizeof_vm_map_entry vm0) vm0.

Lemma s2_made : kalloc 64 8 sizeof_vm_map_entry vm0 = Ok (entry0, s2).
Proof. apply returns_ok. vm_compute. reflexivity. Qed.

Lemma s2_entries : rd64 (mm_mem s2) (map_entries 0x3000) = NULL.
Proof. vm_compute. reflexivity. Qed.
