(* ===== verification/VmmTheorems.v ===== *)
(** * Page tables: the properties

    The address space of a root is the function [space] from virtual
    addresses to entries; [translate] is the physical address. *)

From S2P Require Import Prelude CString CStringSpec Word Pmm PmmSpec Slab SlabSpec Vmm VmmSpec VmmSpace VmmKernel VmmMaps VmmDestroy VmmDemo.

Local Open Scope Z_scope.

(** C2: mappage2 on intact tables, with three free pages, returns; it refines
    "insert if absent" on the address space: an unmapped page gets paddr and
    flags and the result is 0, a mapped page keeps its entry and the result is
    -EINVAL, and no other page of this or any other root changes. *)
Theorem mappage2_refines pf s N L r va pa flags k :
  tables_ok s N L → L !! r = Some [] → room s N (3 + k) → N ≤ Z.of_nat pf → present flags = true →
  ∃ s' L', mappage2 pf (P2V r) va pa flags s = Ok (match space s r va with Some _ => - EINVAL | None => 0 end, s') ∧
    tables_ok s' N L' ∧ L ⊆ L' ∧ room s' N k ∧
    (∀ va', vpn va' = vpn va → space s' r va' = first_of (space s r va) (Some (u64 (Z.lor pa flags)))) ∧
    ∀ r' va', L !! r' = Some [] → vpn va' ≠ vpn va → space s' r' va' = space s r' va'.
Proof.
  intros Hok Hr Hroom Hpf Hfl. destruct (space s r va) as [e|] eqn:He.
  - exists s, L. split; [by apply (mappage2_mapped _ _ N L _ _ _ _ e)|]. split; [done|split; [done|split; [|split]]].
    + apply (room_weaken _ _ (3 + k)); [lia|done].
    + intros va' Hv. by rewrite (space_vpn s r va' va).
    + done.
  - destruct (mappage2_ok pf s N L r va pa flags k) as (s' & L' & E & Hok' & Hex & Hroom' & Hw & Hsp);
      [done..|by apply present_lor|].
    exists s', L'. split; [exact E|split; [done|split; [apply Hex|split; [done|split]]]].
    + intros va' Hv. by rewrite (space_vpn s' r va' va).
    + intros r' va' Hr' Hv. by apply (same_walks_space s s' L r' va).
Qed.

Theorem mappage2_refines_witness :
  present 7 = true ∧ ∃ s' L', mappage2 64 (P2V 0) 0x400000 0x9000 7 vm0 = Ok (0, s') ∧ tables_ok s' 64 L' ∧
    space s' 0 0x400abc = Some 0x9007.
Proof.
  split; [reflexivity|].
  destruct (mappage2_refines 64 vm0 64 L0 0 0x400000 0x9000 7 60 vm0_ok) as (s' & L' & E & Hok & _ & _ & Hsp & _);
    [reflexivity|exact vm0_room|lia|reflexivity|].
  rewrite vm0_space in E, Hsp. exists s', L'. split; [exact E|split; [exact Hok|]].
  rewrite (Hsp 0x400abc) by reflexivity. reflexivity.
Defined.

(** C25: on a range of which no page is mapped mappages returns 0, and every page of the
    range is translated to the physical range, byte for byte; pages outside of the range keep
    their entries. *)
Theorem mappages_translate pf N r p q n flags s L k :
  tables_ok s N L → L !! r = Some [] → room s N (3 * Z.to_nat n + k) → N ≤ Z.of_nat pf →
  present flags = true → PTE_GET_ADDR flags = 0 → 0 ≤ n ≤ 2 ^ 36 → 0 ≤ q → q + n ≤ 2 ^ 40 →
  (∀ i, 0 ≤ i < n → space s r ((p + i) * PGSIZE) = None) →
  ∃ s' L', mappages pf (P2V r) (p * PGSIZE) (q * PGSIZE) (n * PGSIZE) flags s = Ok (0, s') ∧
    tables_ok s' N L' ∧ L ⊆ L' ∧ room s' N k ∧
    (∀ x, 0 ≤ x < n * PGSIZE → translate s' r (p * PGSIZE + x) = Some (q * PGSIZE + x)) ∧
    ∀ va, (∀ i, 0 ≤ i < n → vpn va ≠ vpn ((p + i) * PGSIZE)) → space s' r va = space s r va.
Proof.
  intros Hok Hr Hroom Hpf Hfl Hfa Hn Hq Hqn Hnone.
  assert (n * PGSIZE / PGSIZE = n) as En by (by apply Z.div_mul).
  destruct (mappages_ok pf N r (p * PGSIZE) (q * PGSIZE) (n * PGSIZE) flags s L k)
    as (s' & L' & E & Hok' & Hex & Hroom' & Hin & Hout); rewrite ?En; try done.
  rewrite En in Hin, Hout. exists s', L'. split; [exact E|split; [done|split; [apply Hex|split; [done|split]]]].
  - intros x Hx. assert (0 ≤ x / PGSIZE < n) as Hi by (split; [apply Z.div_pos; [lia|done]|apply Z.div_lt_upper_bound; [done|lia]]).
    unfold translate. rewrite (space_vpn s' r _ (p * PGSIZE + x / PGSIZE * PGSIZE)).
    2:{ unfold vpn. rewrite <-Z.mul_add_distr_r, Z.div_mul, (Z.add_comm _ x), Z.div_add by done. f_equal. lia. }
    rewrite Hin, <-Z.mul_add_distr_r, Hnone by done. cbn [first_of mbind option_bind].
    rewrite <-Z.mul_add_distr_r, (u64_small ((q + x / PGSIZE) * PGSIZE)) by (unfold PGSIZE in *; lia).
    rewrite entry_addr by (done || lia). rewrite Z.add_comm, (Z.add_comm (p * PGSIZE)), Z.mod_add by done.
    f_equal. pose proof (page_offset x). lia.
  - intros va Hva. apply Hout. intros i Hi. rewrite <-Z.mul_add_distr_r. by apply Hva.
Qed.

Theorem mappages_translate_witness :
  ∃ s' L', mappages 64 (P2V 0) (0x401 * PGSIZE) (0x20 * PGSIZE) (5 * PGSIZE) 7 vm0 = Ok (0, s') ∧ tables_ok s' 64 L' ∧
    translate s' 0 0x403fff = Some 0x22fff.
Proof.
  destruct (mappages_translate 64 64 0 0x401 0x20 5 7 vm0 L0 48 vm0_ok) as (s' & L' & E & Hok & _ & _ & Ht & _);
    [reflexivity|exact vm0_room|lia|reflexivity|reflexivity|lia|lia|lia|intros i _; apply vm0_space|].
  exists s', L'. split; [exact E|split; [exact Hok|]]. apply (Ht 0x2fff). unfold PGSIZE. lia.
Defined.

(** C7: init_vm returns and builds exactly the kernel's address space: the
    first 2 GiB but page 0 at their own addresses and again at HHDM_OFFSET, the
    text of the kernel at its physical place and not writable, and every
    table of the upper half present; kernel_vm_map holds the root. The statement asks for three
    free pages for every page of the map, some 3 * 2^20 in all, which is more than the tables take. *)
Theorem init_vm_builds pf fuel k kaddr N s map s0 n :
  kalloc pf fuel sizeof_vm_map (vmm_mm s) = Ok (map, s0) →
  tables_ok s0 N ∅ → private s0 N ∅ map 8 → room s0 N (1 + (256 + (3 * kernel_pages kaddr + n))) → N ≤ Z.of_nat pf →
  image_ok kaddr → (kernel_pages kaddr < k)%nat →
  ∃ r s' L, init_vm pf fuel k kaddr s = Ok (tt, s') ∧
    rd64 (mm_mem (vmm_mm s')) (map_top_level (kernel_vm_map s')) = P2V r ∧
    tables_ok (vmm_mm s') N L ∧ L !! r = Some [] ∧
    (∀ i, 256 ≤ i < 512 → present (entry (mm_mem (vmm_mm s')) r i) = true) ∧
    (∀ va, space (vmm_mm s') r va = kernel_space kaddr va) ∧
    (∀ va, 0x1000 ≤ va < 2 ^ 31 → translate (vmm_mm s') r va = Some va) ∧
    ((∀ start, start ∈ [text_start_addr kaddr; rodata_start_addr kaddr; data_start_addr kaddr] → HHDM_OFFSET + 2 ^ 31 ≤ start) →
     ∀ va, 0x1000 ≤ va < 2 ^ 31 → translate (vmm_mm s') r (HHDM_OFFSET + va) = Some va) ∧
    (virtual_base kaddr mod PGSIZE = 0 → physical_base kaddr mod PGSIZE = 0 →
     ∀ va, text_start_addr kaddr ≤ va < text_end_addr kaddr →
       let pa := va - virtual_base kaddr + physical_base kaddr in 0 ≤ pa < 2 ^ 52 →
       translate (vmm_mm s') r va = Some pa ∧ ∃ e, space (vmm_mm s') r va = Some e ∧ Z.testbit e 1 = false).
Proof.
  intros E Hok Hp Hroom Hpf Him Hk.
  destruct (init_vm_ok pf fuel k kaddr N s map s0 n E Hok Hp Hroom Hpf Him Hk)
    as (r & s' & L & Ei & Em & Hrd & Hok' & Hr & _ & _ & Hup & Hsp).
  assert (∀ p flags va, space (vmm_mm s') r va = Some (u64 (Z.lor (p * PGSIZE) flags)) → 0 ≤ p < 2 ^ 40 → PTE_GET_ADDR flags = 0 →
    translate (vmm_mm s') r va = Some (p * PGSIZE + va mod PGSIZE)) as Htr.
  { intros p flags va H Hp' Hf. unfold translate. rewrite H. cbn [mbind option_bind]. by rewrite entry_addr. }
  exists r, s', L. rewrite Em. split; [exact Ei|split; [exact Hrd|split; [exact Hok'|split; [exact Hr|split; [exact Hup|split; [exact Hsp|]]]]]].
  split; [|split].
  - intros va Hva. pose proof (low_page va Hva). rewrite (Htr (va / PGSIZE) low_flags); [by rewrite <-page_offset| |lia|done].
    rewrite Hsp. by apply kernel_space_low.
  - intros Hst va Hva. pose proof (low_page va Hva). rewrite (Htr (va / PGSIZE) hhdm_flags); [| |lia|done].
    + rewrite (Z.add_comm HHDM_OFFSET va). change HHDM_OFFSET with ((2 ^ 52 - 2 ^ 35) * PGSIZE). rewrite Z.mod_add by done.
      by rewrite <-page_offset.
    + rewrite Hsp. by apply kernel_space_hhdm.
  - intros Hvb Hpb va Hva pa Hpa. assert (space (vmm_mm s') r va = Some (u64 (Z.lor (pa / PGSIZE * PGSIZE) text_flags))) as Hs
      by (rewrite Hsp; by apply kernel_space_text).
    assert (0 ≤ pa / PGSIZE < 2 ^ 40) as Hpp by (split; [apply Z.div_pos; [lia|done]|apply Z.div_lt_upper_bound; [done|unfold PGSIZE; lia]]).
    split.
    + rewrite (Htr _ _ _ Hs Hpp eq_refl). rewrite (page_offset pa) at 2. do 2 f_equal.
      unfold pa. apply Z.mod_divide in Hvb as [a ->]; [|done]. apply Z.mod_divide in Hpb as [b ->]; [|done].
      replace (va - a * PGSIZE + b * PGSIZE) with (va + (b - a) * PGSIZE) by lia. by rewrite Z.mod_add.
    + eexists. split; [exact Hs|]. unfold u64. rewrite Z.mod_pow2_bits_low, Z.lor_spec by done.
      change PGSIZE with (2 ^ 12). rewrite Z.mul_pow2_bits_low by done. reflexivity.
Qed.

Theorem init_vm_builds_witness :
  ∃ r s', init_vm boot_pages 8 (S (kernel_pages boot_image)) boot_image boot = Ok (tt, s') ∧
    translate (vmm_mm s') r 0x7fffffff = Some 0x7fffffff ∧ translate (vmm_mm s') r 0xffff8000000b8000 = Some 0xb8000 ∧
    translate (vmm_mm s') r 0xffffffff80001234 = Some 0x201234.
Proof.
  destruct (init_vm_builds boot_pages 8 (S (kernel_pages boot_image)) boot_image (2 ^ 22) boot boot_map boot1 0
    boot_made boot1_ok boot1_private boot1_room) as (r & s' & L & E & _ & _ & _ & _ & _ & Hlow & Hhigh & Htext);
    [unfold boot_pages; lia|exact boot_image_ok|lia|].
  exists r, s'. split; [exact E|split; [apply Hlow; lia|split]].
  - assert (0xffff8000000b8000 = HHDM_OFFSET + 0xb8000) as Ea by reflexivity. rewrite Ea. apply (Hhigh boot_starts). lia.
  - assert (0xffffffff80001234 - virtual_base boot_image + physical_base boot_image = 0x201234) as Ea by reflexivity.
    specialize (Htext eq_refl eq_refl 0xffffffff80001234). cbv zeta in Htext. rewrite Ea in Htext.
    apply Htext; [simpl; lia|lia].
Defined.

(** C26: newvm_map copies the upper half of the kernel's root: the new map has the
    kernel's pages there, and as long as both exist a page that is mapped below a
    present entry of one is mapped in the other.  The page of the new root is not
    cleared: the lower half is empty only if the page was. *)
Theorem newvm_map_shares pf fuel N L s kr vmap s0 n :
  kalloc pf fuel sizeof_vm_map (vmm_mm s) = Ok (vmap, s0) → newvm_ready s N L kr vmap s0 →
  room s0 N (1 + n) → N ≤ Z.of_nat pf →
  ∃ r s', newvm_map pf fuel s = Ok (vmap, Vmm s' (kernel_vm_map s)) ∧ rd64 (mm_mem s') (map_top_level vmap) = P2V r ∧
    page N r ∧ tk s0 (r / PGSIZE) = false ∧ tk s' (r / PGSIZE) = true ∧
    (∀ va, upper_half va → space s' r va = space s0 kr va) ∧ (∀ va, space s' kr va = space s0 kr va) ∧
    (∀ j, 0 ≤ j < 256 → entry (mm_mem s') r j = entry (mm_mem s0) r j) ∧
    ((∀ j, 0 ≤ j < 256 → present (entry (mm_mem s0) r j) = false) →
      tables_ok s' N (<[r := []]> L) ∧ (∀ va, ¬ upper_half va → space s' r va = None) ∧
      ∀ s'' L'' va, extends s' s'' N (<[r := []]> L) L'' → upper_half va →
        present (entry (mm_mem s0) kr (index 3 va)) = true → space s'' r va = space s'' kr va).
Proof.
  intros E Hrd Hroom Hpf. pose proof (nr_ok _ _ _ _ _ _ Hrd) as Hok. pose proof (nr_root _ _ _ _ _ _ Hrd) as Hkr.
  destruct (newvm_map_ok pf fuel N L s kr vmap s0 n E Hrd Hroom Hpf)
    as (r & s' & Er & Hv & Hp & Hf & Hk & Hnone & Hents & Hsame & _ & Hclean & _).
  pose proof (same_entries_walks s0 s' N L Hok Hsame) as Hw.
  assert (∀ va, upper_half va → entry (mm_mem s') r (index 3 va) = entry (mm_mem s0) kr (index 3 va)) as Hup.
  { intros va Hva. rewrite upper_index in Hva. rewrite Hents by (by apply index_range). by rewrite decide_True. }
  assert (∀ va, in_range (index 3 va)) as Hr3 by (intros va; by apply index_range).
  exists r, s'. split; [exact Er|split; [exact Hv|split; [exact Hp|split; [exact Hf|split; [exact Hk|split; [|split; [|split]]]]]]].
  - intros va Hva. apply (same_entry_space _ _ N L); [exact Hok|exact Hkr|exact Hw|by apply Hup].
  - intros va. apply (same_entry_space _ _ N L); [exact Hok|exact Hkr|exact Hw|by apply (Hsame kr [])].
  - intros j Hj. rewrite Hents by (unfold in_range; lia). by rewrite decide_False by lia.
  - intros Hlow. split; [by apply Hclean|split].
    + intros va Hva. rewrite upper_index in Hva. specialize (Hr3 va). unfold in_range in Hr3.
      unfold space, indices. cbn [pte_at]. rewrite Hents, decide_False by (done || lia). by rewrite Hlow by lia.
    + intros s'' L'' va Hex Hva Hpr. pose proof (Hsame kr [] _ Hkr (Hr3 va)) as Hkk.
      apply (same_entry_later s' s'' N (<[r := []]> L) L'');
        [rewrite lookup_insert_ne by congruence; exact Hkr|by rewrite lookup_insert, decide_True|exact Hex| |].
      * rewrite Hkk. by apply Hup.
      * by rewrite Hkk.
Qed.

Theorem newvm_map_shares_witness :
  ∃ r s', newvm_map 64 8 (Vmm vm1 0x2000) = Ok (vmap1, Vmm s' 0x2000) ∧ rd64 (mm_mem s') vmap1 = P2V r ∧
    space s' r (HHDM_OFFSET + 0x5000) = space s1 0 (HHDM_OFFSET + 0x5000).
Proof.
  destruct vm1_made as (L1 & Hok & Hex & _).
  destruct (newvm_map_shares 64 8 64 L1 (Vmm vm1 0x2000) 0 vmap1 s1 0 s1_made (s1_ready L1 0 Hok (vm1_root L1 Hex) eq_refl) s1_room)
    as (r & s' & E & Hv & _ & _ & _ & Hup & _); [lia|].
  exists r, s'. split; [exact E|split; [exact Hv|]]. apply Hup. unfold upper_half. vm_compute. discriminate.
Defined.

(** C14: destroyvm returns; the pages it meets below the first 256 entries of the
    root, the tables as well as the pages that are mapped, and the root
    itself are free after it, every other page is as it was, and the
    tables are still readable. *)
Theorem destroyvm_frees pf s N L vmap r :
  tables_ok s N L → rd64 (mm_mem s) (map_top_level vmap) = P2V r → L !! r = Some [] →
  Forall (page N) (reached (mm_mem s) 4 r 0 256) →
  ∃ s', destroyvm pf vmap s = Ok (tt, s') ∧
    (∀ j, 0 ≤ j → tk s' j = true ↔ tk s j = true ∧ j ∉ (λ p, p / PGSIZE) <$> reached (mm_mem s) 4 r 0 256) ∧
    ∀ t l i, L !! t = Some l → in_range i → entry (mm_mem s') t i = entry (mm_mem s) t i.
Proof.
  intros Hok Hv Hr Hpages. rewrite Forall_forall in Hpages.
  destruct (destroyvm_ok pf s N L Hok vmap r Hv Hr) as (s' & E & Hf).
  { intros ix p Hsel Hg. apply Hpages. apply (reached_spec _ 4 r 0 256); [lia|lia|]. by exists ix. }
  exists s'. split; [exact E|split].
  - intros j Hj. rewrite (fr_taken _ _ _ _ Hf j Hj). by rewrite (freed_reached _ 4 r 0 256) by lia.
  - intros t l i Ht Hi. by apply (frees_entry s N L Hok s' _ t l i Hf).
Qed.

Theorem destroyvm_frees_witness :
  ∃ s', destroyvm 64 0x2000 vm2 = Ok (tt, s') ∧ tk s' 4 = false ∧ tk s' 0 = false.
Proof.
  destruct vm2_made as (L2 & Hok & Hr & _ & _).
  destruct (destroyvm_frees 64 vm2 64 L2 0x2000 0 Hok vm2_map Hr) as (s' & E & Ht & _).
  { rewrite vm2_reached. repeat (apply Forall_cons_2; [split; [reflexivity|unfold PGSIZE; lia]|]). apply Forall_nil_2. }
  rewrite vm2_reached in Ht. exists s'. split; [exact E|].
  split; apply not_true_is_false; intros H; apply Ht in H; [|lia| |lia]; destruct H as [_ H]; apply H;
    apply list_elem_of_In; simpl; tauto.
Defined.

(** vm_alloc puts a new entry with the bounds [vaddr, vaddr + size) in front of the
    entries of the map; the others keep their bounds and their order. *)
Theorem vm_alloc_pushes pf fuel map vaddr size s entry s0 es :
  kalloc pf fuel sizeof_vm_map_entry s = Ok (entry, s0) → entry ≠ NULL →
  0 ≤ vaddr < 2 ^ 64 → 0 ≤ entry < 2 ^ 64 → apart entry sizeof_vm_map_entry (map_entries map) 8 →
  entry_list (mm_mem s0) (rd64 (mm_mem s0) (map_entries map)) es →
  Forall (λ e, apart entry sizeof_vm_map_entry e.1 sizeof_vm_map_entry ∧ apart (map_entries map) 8 e.1 sizeof_vm_map_entry) es →
  ∃ s', vm_alloc pf fuel map vaddr size s = Ok (tt, s') ∧
    entry_list (mm_mem s') (rd64 (mm_mem s') (map_entries map)) ((entry, (vaddr, u64 (vaddr + size))) :: es).
Proof. apply vm_alloc_ok. Qed.

Theorem vm_alloc_pushes_witness :
  ∃ s', vm_alloc 64 8 0x3000 0x400000 0x5000 vm0 = Ok (tt, s') ∧
    entry_list (mm_mem s') (rd64 (mm_mem s') (map_entries 0x3000)) [(entry0, (0x400000, 0x405000))].
Proof.
  apply (vm_alloc_pushes 64 8 0x3000 0x400000 0x5000 vm0 entry0 s2 [] s2_made);
    [discriminate|lia|unfold entry0, HHDM_OFFSET; lia|right; unfold map_entries, entry0, HHDM_OFFSET; lia|exact s2_entries|by constructor].
Defined.
