(* ===== verification/MmTheorems.v ===== *)
(** * Properties of the memory managers and the lock

    The page allocator (kernel/pmm.c, include/franklin/bitmap.h,
    include/franklin/mmu.h), the kernel allocator (kernel/slab.c) and the
    spinlock (kernel/spinlock.c). *)

From S2P Require Import Prelude CString CStringSpec Word Pmm PmmSpec Spinlock Slab SlabSpec.

Local Open Scope Z_scope.

(** ** States for the witnesses *)

(** All pages free, the bitmap at 0. *)
Definition free_pmm : pmm := Pmm ∅ 0 0 0.

Lemma free_pmm_run p n : free_run free_pmm p n.
Proof. intros j _. unfold taken, rd8. simpl. rewrite lookup_empty. by rewrite Z.testbit_0_l. Qed.

(** Page 0 is taken and holds the bitmap; all others are free. *)
Definition some_pmm : pmm := Pmm {[ HHDM_OFFSET := 1 ]} HHDM_OFFSET 0 0.

Lemma some_pmm_taken j : 0 ≤ j → taken (pm_bitmap some_pmm) (pm_mem some_pmm) j = bool_decide (j = 0).
Proof.
  intros Hj. unfold taken, rd8. simpl. destruct (decide (j / 8 = 0)) as [E|E].
  - rewrite E, Z.add_0_r, lookup_singleton_eq. simpl. change (u8 1) with (Z.shiftl 1 0).
    rewrite bit_testbit by done. apply bool_decide_ext. Z.div_mod_to_equations. lia.
  - rewrite lookup_singleton_ne by lia. simpl. rewrite Z.testbit_0_l. symmetry.
    apply bool_decide_eq_false. by intros ->.
Qed.

Lemma some_pmm_run p n : 1 ≤ p → free_run some_pmm p n.
Proof.
  intros Hp j Hj. rewrite some_pmm_taken by lia. apply bool_decide_eq_false. lia.
Qed.

(** No slab yet. *)
Definition some_mm : mm := Mm some_pmm NULL 0 0.

(** Pages 0 and 1 are taken, one slab of 16-byte blocks is in page 1, with two blocks on its free list. *)
Definition slab_mm : mm :=
  let a := HHDM_OFFSET + PGSIZE in
  let m := wr64 (wr64 (wr64 {[ HHDM_OFFSET := 3 ]} (slab_size a) 16) (slab_freelist a) (a + 40))
             (block_next (a + 40)) (a + 56) in
  Mm (set_pm_mem (wr64 m (slab_refcount a) 3) some_pmm) a 0 0.

Lemma slab_mm_list : slab_list (mm_mem slab_mm) (mm_slabs slab_mm) [HHDM_OFFSET + PGSIZE].
Proof.
  apply slab_cons; [done|].
  match goal with |- slab_list _ ?a _ => assert (a = NULL) as -> by (vm_compute; done) end.
  apply slab_nil.
Qed.

(** ** The page allocator *)

(** C12: [palloc] returns the lowest run of free pages of the size asked for,
    takes those pages and no other, and [freepg] of the result restores which
    pages are taken, for fewer than 2^32 pages, which is what its [uint32_t]
    length can say. *)
Theorem palloc_freepg fuel s n q :
  0 ≤ n < 2 ^ 32 → 0 ≤ q → (q + n) * PGSIZE < 2 ^ 64 → free_run s q n → q < Z.of_nat fuel →
  ∃ p s1 s2, palloc fuel n s = Ok (p * PGSIZE, s1) ∧ 0 ≤ p ≤ q ∧ free_run s p n ∧
    (∀ p', 0 ≤ p' < p → ¬ free_run s p' n) ∧
    (∀ j, 0 ≤ j → taken (pm_bitmap s1) (pm_mem s1) j =
       in_run p n j || taken (pm_bitmap s) (pm_mem s) j) ∧
    freepg (p * PGSIZE) n s1 = Ok (tt, s2) ∧
    ∀ j, 0 ≤ j → taken (pm_bitmap s2) (pm_mem s2) j = taken (pm_bitmap s) (pm_mem s) j.
Proof.
  intros Hn Hq Hb Hrun Hf.
  destruct (palloc_ok fuel s n q (proj1 Hn) Hq Hb Hrun Hf) as (p & s1 & E1 & Hp & Hr & Hmin & Hbm & _ & Ht1).
  destruct (freepg_ok s1 p n) as (s2 & E2 & Hbm2 & _ & Ht2); [lia|lia|unfold PGSIZE in *; lia|].
  exists p, s1, s2. split_and!; try done; try lia. intros j Hj. rewrite Ht2, Ht1 by done.
  unfold in_run. case_bool_decide; [|done]. simpl. symmetry. by apply Hr.
Qed.

Lemma palloc_freepg_witness : ∃ p s1 s2,
  palloc 10 3 some_pmm = Ok (p * PGSIZE, s1) ∧ 0 ≤ p ≤ 2 ∧ free_run some_pmm p 3 ∧
    (∀ p', 0 ≤ p' < p → ¬ free_run some_pmm p' 3) ∧
    (∀ j, 0 ≤ j → taken (pm_bitmap s1) (pm_mem s1) j =
       in_run p 3 j || taken (pm_bitmap some_pmm) (pm_mem some_pmm) j) ∧
    freepg (p * PGSIZE) 3 s1 = Ok (tt, s2) ∧
    ∀ j, 0 ≤ j → taken (pm_bitmap s2) (pm_mem s2) j = taken (pm_bitmap some_pmm) (pm_mem some_pmm) j.
Proof. apply (palloc_freepg 10 some_pmm 3 2); [lia|lia|done|by apply some_pmm_run|lia]. Defined.

(** [pallocaddr] takes exactly the requested pages when all of them are
    free, with the lock released; when one of them is taken it panics. *)
Theorem pallocaddr_exact s size p :
  0 ≤ p → 0 ≤ size → p + size < 2 ^ 32 → pm_lock s = 0 →
  (free_run s p size → ∃ s', pallocaddr size (p * PGSIZE) s = Ok (p * PGSIZE, s') ∧ pm_lock s' = 0 ∧
    ∀ j, 0 ≤ j → taken (pm_bitmap s') (pm_mem s') j = in_run p size j || taken (pm_bitmap s) (pm_mem s) j) ∧
  (¬ free_run s p size → pallocaddr size (p * PGSIZE) s = Panic "panic: pallocaddr, page is not free").
Proof.
  intros Hp Hs Hb Hl. split.
  - intros Hr. destruct (pallocaddr_ok s size p) as (s' & E & _ & Hl' & Ht); eauto.
  - intros Hn. destruct (any_taken (Z.to_nat size) (pm_bitmap s) p (pm_mem s)) eqn:E.
    + destruct (any_taken_true _ _ _ _ Hp E) as (q & Hq & Ht). apply (pallocaddr_panic s size p q); try done. lia.
    + exfalso. apply Hn. intros j Hj. rewrite any_taken_spec in E by done. apply E. lia.
Qed.

Lemma pallocaddr_exact_witness :
  (∃ s', pallocaddr 2 (1 * PGSIZE) some_pmm = Ok (1 * PGSIZE, s')) ∧
  pallocaddr 2 (0 * PGSIZE) some_pmm = Panic "panic: pallocaddr, page is not free".
Proof.
  destruct (pallocaddr_exact some_pmm 2 1) as [H1 _]; [lia..|done|].
  destruct (pallocaddr_exact some_pmm 2 0) as [_ H2]; [lia..|done|]. split.
  - destruct H1 as (s' & E & _); [by apply some_pmm_run|]. by exists s'.
  - apply H2. intros H. specialize (H 0 ltac:(lia)). rewrite some_pmm_taken in H by done. done.
Defined.

(** C35: after [initbmap] a page within the bitmap is free exactly when it holds
    usable memory of the map that is left when the bitmap was placed. *)
Theorem initbmap_free_pages P2V es s b es' j :
  let size := highest_addr es 0 / PGSIZE / 8 in
  Forall entry_ok es → place_bitmap P2V size es = Some (b, es') → 0 ≤ j < 8 * size →
  ∃ s', initbmap P2V es s = Ok (es', s') ∧ pm_bitmap s' = b ∧
    (taken b (pm_mem s') j = false ↔ ∃ e, e ∈ es' ∧ me_type e = 0 ∧
       me_base e / PGSIZE ≤ j < me_base e / PGSIZE + (me_length e + PGSIZE - 1) / PGSIZE).
Proof.
  intros size Hes Hp Hj. destruct (initbmap_ok P2V es s b es') as (s' & E & Hb & _ & Ht); [done|lia|done|].
  exists s'. split_and!; [done..|]. rewrite Ht by done. rewrite negb_false_iff, existsb_exists.
  split; [intros (e & Hin & He)|intros (e & Hin & He)]; exists e.
  - apply list_elem_of_In in Hin. split; [done|]. unfold covers, in_run in He.
    apply andb_prop in He as [H1%bool_decide_eq_true H2%bool_decide_eq_true]. done.
  - destruct He as (H1 & H2). split; [by apply list_elem_of_In|].
    unfold covers, in_run. apply andb_true_intro. by rewrite !bool_decide_eq_true.
Qed.

(** A map with 8 MiB of usable memory from 1 MiB and a reserved area above. *)
Definition some_map : list memmap_entry :=
  [Entry 0 0x100000 1; Entry 0x100000 0x800000 0; Entry 0x900000 0x1000 2].

Lemma initbmap_free_pages_witness :
  ∃ s' es', initbmap Slab.P2V some_map free_pmm = Ok (es', s') ∧
    taken (pm_bitmap s') (pm_mem s') 300 = false.
Proof.
  destruct (initbmap_free_pages Slab.P2V some_map free_pmm (HHDM_OFFSET + 0x100000)
    [Entry 0 0x100000 1; Entry 0x100120 0x7ffee0 0; Entry 0x900000 0x1000 2] 300)
    as (s' & E & Hb & Ht).
  - repeat constructor; simpl; lia.
  - vm_compute. reflexivity.
  - vm_compute. done.
  - eexists s', _. split; [exact E|]. rewrite Hb. apply Ht.
    exists (Entry 0x100120 0x7ffee0 0). split; [set_solver|]. vm_compute. split; [done|]. split; done.
Defined.

(** C36: the two views of the bitmap agree: setting or resetting a bit by the
    bytes of bitmap.h changes that bit and no other; the test and the toggle of
    mmu.h, by 64-bit words, are about the bit whose number is the page modulo
    2^32, since their page is a [uint32_t]: below 2^32, the same bit. *)
Theorem bitmap_views_agree b i m :
  0 ≤ i →
  isfree b i m = negb (bitmap_test b (i mod 2 ^ 32) m) ∧
  ∀ j, 0 ≤ j →
    bitmap_test b j (bitmap_set b i m) = bool_decide (i = j) || bitmap_test b j m ∧
    bitmap_test b j (bitmap_reset b i m) = negb (bool_decide (i = j)) && bitmap_test b j m ∧
    bitmap_test b j (togglepage b i m) = xorb (bool_decide (i mod 2 ^ 32 = j)) (bitmap_test b j m).
Proof.
  intros Hi. change (i mod 2 ^ 32) with (u32 i). assert (0 ≤ u32 i) by (by apply Z.mod_pos_bound).
  rewrite isfree_spec, bitmap_test_spec by done. split; [done|]. intros j Hj.
  rewrite !bitmap_test_spec by done. by rewrite taken_set, taken_reset, taken_toggle by done.
Qed.

Lemma bitmap_views_agree_witness :
  isfree 0 69 (togglepage 0 (2 ^ 32 + 69) ∅) = false ∧ bitmap_test 0 69 (togglepage 0 (2 ^ 32 + 69) ∅) = true.
Proof.
  destruct (bitmap_views_agree 0 69 (togglepage 0 (2 ^ 32 + 69) ∅)) as [H _]; [lia|].
  destruct (bitmap_views_agree 0 (2 ^ 32 + 69) ∅) as [_ H']; [lia|]. destruct (H' 69) as (_ & _ & H69); [lia|].
  split; [rewrite H|]; exact (eq_trans (f_equal _ H69) eq_refl) || exact H69.
Defined.

(** The last page of the memory that holds the bitmap is left free when the
    bitmap's size is not a multiple of the page size: [initbmap] moves the base
    of the area by the size in bytes, and the partial page counts as usable. *)
Theorem initbmap_gives_bitmap_away P2V es1 e es2 s size :
  let es := es1 ++ e :: es2 in
  size = highest_addr es 0 / PGSIZE / 8 → Forall entry_ok es →
  place_bitmap P2V size es = Some (P2V (me_base e),
    es1 ++ Entry (me_base e + size) (me_length e - size) (me_type e) :: es2) →
  me_type e = 0 → me_base e mod PGSIZE = 0 → size mod PGSIZE ≠ 0 → 0 < size < me_length e →
  (me_base e + size) / PGSIZE < 8 * size →
  ∃ s' es', initbmap P2V es s = Ok (es', s') ∧
    taken (pm_bitmap s') (pm_mem s') ((me_base e + size - 1) / PGSIZE) = false.
Proof. apply initbmap_frees_bitmap. Qed.

Lemma initbmap_gives_bitmap_away_witness : ∃ s' es', initbmap Slab.P2V some_map free_pmm = Ok (es', s') ∧
  taken (pm_bitmap s') (pm_mem s') ((0x100000 + 288 - 1) / PGSIZE) = false.
Proof.
  destruct (initbmap_gives_bitmap_away Slab.P2V [Entry 0 0x100000 1] (Entry 0x100000 0x800000 0)
    [Entry 0x900000 0x1000 2] free_pmm 288) as (s' & es' & E & Ht);
    [vm_compute; done|repeat constructor; simpl; lia|vm_compute; done|done|done|done|simpl; lia|done|].
  exists s', es'. split; [exact E|exact Ht].
Defined.

(** ** The kernel allocator *)

(** [roundup] is the next power of two. *)
Theorem roundup_next_power n :
  1 ≤ n ≤ 2 ^ 31 → ∃ k, 0 ≤ k ≤ 31 ∧ roundup n = 2 ^ k ∧ n ≤ 2 ^ k ∧ ∀ k', 0 ≤ k' → n ≤ 2 ^ k' → k ≤ k'.
Proof.
  intros Hn. destruct (roundup_spec n Hn) as (k & Hk & E & Hle & Hlt). exists k. split_and!; try done; try lia.
  intros k' Hk' Hn'. destruct (decide (n = 1)) as [->|].
  - destruct (decide (k = 0)) as [->|]; [done|]. exfalso.
    assert (roundup 1 = 1) as E1 by done. rewrite E1 in E.
    assert (2 ^ 1 ≤ 2 ^ k) by (apply Z.pow_le_mono_r; lia). lia.
  - destruct (decide (k ≤ k')); [done|]. exfalso. specialize (Hlt ltac:(lia)).
    assert (2 ^ (k' + 1) ≤ 2 ^ k) as H1 by (apply Z.pow_le_mono_r; lia).
    rewrite Z.pow_add_r in H1 by lia. lia.
Qed.

Lemma roundup_next_power_witness :
  ∃ k, 0 ≤ k ≤ 31 ∧ roundup 33 = 2 ^ k ∧ 33 ≤ 2 ^ k ∧ ∀ k', 0 ≤ k' → 33 ≤ 2 ^ k' → k ≤ k'.
Proof. apply roundup_next_power. lia. Defined.

(** With a free block of the rounded size in some slab, [kalloc] returns
    the head of the free list of the first such slab, which loses it and
    counts one more block in use; the list of slabs does not change. *)
Theorem kalloc_from_slab pf fuel s L size slab b :
  0 ≤ size ≤ PGSIZE → mm_lock s = 0 → slab_list (mm_mem s) (mm_slabs s) L → (length L < fuel)%nat →
  head (filter (slab_fits (mm_mem s) (block_size size)) L) = Some slab → slab ≠ NULL →
  rd64 (mm_mem s) (slab_freelist slab) = b → (b + 8 ≤ slab ∨ slab + sizeof_slab ≤ b) →
  ∃ s', kalloc pf fuel size s = Ok (b, s') ∧ mm_lock s' = 0 ∧ mm_slabs s' = mm_slabs s ∧
    rd64 (mm_mem s') (slab_freelist slab) = rd64 (mm_mem s) (block_next b) ∧
    rd64 (mm_mem s') (slab_refcount slab) = u64 (rd64 (mm_mem s) (slab_refcount slab) + 1).
Proof.
  intros Hs Hl HL Hf Hh Hn Hb Ho. destruct (kalloc_hit pf fuel s L size slab b) as (m & E & H1 & H2 & _); try done.
  by exists (with_mem m s).
Qed.

Lemma kalloc_from_slab_witness :
  ∃ s', kalloc 0 2 10 slab_mm = Ok (HHDM_OFFSET + PGSIZE + 40, s') ∧
    rd64 (mm_mem s') (slab_refcount (HHDM_OFFSET + PGSIZE)) = 4.
Proof.
  destruct (kalloc_from_slab 0 2 slab_mm [HHDM_OFFSET + PGSIZE] 10 (HHDM_OFFSET + PGSIZE)
    (HHDM_OFFSET + PGSIZE + 40)) as (s' & E & _ & _ & _ & Hr);
    [done|done|apply slab_mm_list|simpl; lia|vm_compute; done|done|vm_compute; done|unfold sizeof_slab; lia|].
  exists s'. split; [exact E|]. rewrite Hr. vm_compute. done.
Defined.

(** C40: with no free block of the rounded size, [kalloc] takes one free page and
    no other, makes it the head of the slab list, before the slabs that were there
    and that it leaves as they are, and returns its first block, in use once; when
    the page has room for two blocks the second is the next to go. *)
Theorem kalloc_new_slab pf fuel s L size q bound :
  0 ≤ size ≤ PGSIZE → mm_lock s = 0 → slab_list (mm_mem s) (mm_slabs s) L → (length L < fuel)%nat →
  filter (slab_fits (mm_mem s) (block_size size)) L = [] →
  0 ≤ q < 2 ^ 34 → free_run (mm_pmm s) q 1 → q < Z.of_nat pf →
  bitmap_apart (mm_pmm s) bound → q < bound < 2 ^ 35 → Forall (header_apart s (q + 1)) L → 0 ≤ mm_slabs s < 2 ^ 64 →
  ∃ p s', let slab := HHDM_OFFSET + p * PGSIZE in
    kalloc pf fuel size s = Ok (slab + sizeof_slab, s') ∧ 0 ≤ p ≤ q ∧ free_run (mm_pmm s) p 1 ∧
    (∀ j, 0 ≤ j < bound → taken (pm_bitmap (mm_pmm s')) (mm_mem s') j =
       bool_decide (j = p) || taken (pm_bitmap (mm_pmm s)) (mm_mem s) j) ∧
    mm_lock s' = 0 ∧ mm_slabs s' = slab ∧ slab_list (mm_mem s') slab (slab :: L) ∧
    (∀ sz, filter (slab_fits (mm_mem s') sz) L = filter (slab_fits (mm_mem s) sz) L) ∧
    rd64 (mm_mem s') (slab_refcount slab) = 1 ∧ rd64 (mm_mem s') (slab_size slab) = block_size size ∧
    (block_size size < PGSIZE - sizeof_slab →
     rd64 (mm_mem s') (slab_freelist slab) = slab + sizeof_slab + block_size size).
Proof.
  intros Hs Hl HL Hf Hno Hq Hrun Hp Hap Hbd Hh Hsl.
  destruct (kalloc_new pf fuel s L size q Hs Hl HL Hf Hno Hq Hrun Hp)
    as (p & s' & E & Hpq & Hr & Hl' & Hsl' & Hrc & Hsz & Hnx & Hpt & Hfl).
  pose proof (page_taken_headers s s' q p L Hpt Hpq Hh Hr) as Hsame.
  exists p, s'. cbv zeta. split_and!; try done; try lia.
  - by apply (page_taken_bits s s' q p bound).
  - constructor; [unfold HHDM_OFFSET, PGSIZE, NULL; lia|]. rewrite Hnx, u64_small by done.
    by apply (slab_list_same (mm_mem s)).
  - intros sz. by apply fitting_same.
Qed.

Lemma slab_mm_apart bound : bound ≤ 2 ^ 15 → bitmap_apart (mm_pmm slab_mm) bound.
Proof.
  intros Hb p j Hp Ht Hj. destruct (decide (p = 0)) as [->|Hp0]; [by vm_compute in Ht|].
  rewrite P2V_page by lia. unfold slab_mm, some_pmm, PGSIZE. simpl. Z.div_mod_to_equations. lia.
Qed.

Lemma kalloc_new_slab_witness :
  ∃ p s', kalloc 5 2 100 slab_mm = Ok (HHDM_OFFSET + p * PGSIZE + sizeof_slab, s') ∧ 0 ≤ p ≤ 2 ∧
    slab_list (mm_mem s') (HHDM_OFFSET + p * PGSIZE) [HHDM_OFFSET + p * PGSIZE; HHDM_OFFSET + PGSIZE].
Proof.
  assert (filter (slab_fits (mm_mem slab_mm) (block_size 100)) [HHDM_OFFSET + PGSIZE] = []) as Hf
    by (vm_compute; reflexivity).
  assert (free_run (mm_pmm slab_mm) 2 1) as Hr by (intros j Hj; replace j with 2 by lia; vm_compute; reflexivity).
  destruct (kalloc_new_slab 5 2 slab_mm [HHDM_OFFSET + PGSIZE] 100 2 100 ltac:(done) eq_refl slab_mm_list
    ltac:(simpl; lia) Hf ltac:(lia) Hr ltac:(lia) ltac:(by apply slab_mm_apart) ltac:(done)) as (p & s' & E & Hp & _ & _ & _ & _ & HL & _).
  - apply Forall_singleton. intros a Ha. unfold sizeof_slab, PGSIZE in *. split.
    + intros j Hj. change (pm_bitmap (mm_pmm slab_mm)) with HHDM_OFFSET. Z.div_mod_to_equations. lia.
    + intros p Hp Ht. destruct (decide (p = 1)) as [->|]; [by vm_compute in Ht|lia].
  - unfold slab_mm, HHDM_OFFSET, PGSIZE. simpl. lia.
  - exists p, s'. split; [exact E|split; [exact Hp|exact HL]].
Defined.

(** [kfree] looks for a block in the page before each slab, not in the
    slab's own: a block of a slab is not freed unless the next page holds a
    slab too.  Nothing changes, the block stays in use. *)
Theorem kfree_keeps_block fuel s L p :
  mm_lock s = 0 → slab_list (mm_mem s) (mm_slabs s) L → (length L < fuel)%nat →
  0 ≤ p < 2 ^ 64 → p mod PGSIZE ≠ 0 →
  Forall (λ slab, slab mod PGSIZE = 0 ∧ PGSIZE ≤ slab < 2 ^ 64) L →
  page_of p + PGSIZE ∉ L →
  kfree fuel p s = Ok (tt, s).
Proof. apply kfree_nothing. Qed.

Lemma kfree_keeps_block_witness : kfree 2 (HHDM_OFFSET + PGSIZE + 40) slab_mm = Ok (tt, slab_mm).
Proof.
  apply (kfree_keeps_block 2 slab_mm [HHDM_OFFSET + PGSIZE]);
    [done|apply slab_mm_list|simpl; lia|done|done| |].
  - repeat constructor; done.
  - intros Hin%list_elem_of_singleton. done.
Defined.

(** When the next page does hold a slab with other blocks in use, [kfree]
    takes the count off that slab and puts the block on its free list: the
    next allocation of that slab's size returns memory of another slab. *)
Theorem kfree_wrong_slab fuel s L p slab :
  mm_lock s = 0 → mm_slabs s = slab → slab ≠ NULL → (0 < fuel)%nat →
  slab = page_of p + PGSIZE → slab_list (mm_mem s) slab L → sizeof_slab ≤ p mod PGSIZE →
  p + 8 ≤ slab → 0 ≤ p → slab + PGSIZE < 2 ^ 64 → 2 ≤ rd64 (mm_mem s) (slab_refcount slab) →
  ∃ s', kfree fuel p s = Ok (tt, s') ∧ mm_lock s' = 0 ∧ mm_slabs s' = slab ∧
    rd64 (mm_mem s') (slab_freelist slab) = p ∧
    rd64 (mm_mem s') (block_next p) = rd64 (mm_mem s) (slab_freelist slab) ∧
    rd64 (mm_mem s') (slab_refcount slab) = rd64 (mm_mem s) (slab_refcount slab) - 1.
Proof. apply kfree_neighbour. Qed.

Lemma kfree_wrong_slab_witness : ∃ s',
  kfree 2 (HHDM_OFFSET + 40) slab_mm = Ok (tt, s') ∧
  rd64 (mm_mem s') (slab_freelist (HHDM_OFFSET + PGSIZE)) = HHDM_OFFSET + 40.
Proof.
  destruct (kfree_wrong_slab 2 slab_mm [HHDM_OFFSET + PGSIZE] (HHDM_OFFSET + 40) (HHDM_OFFSET + PGSIZE))
    as (s' & E & _ & _ & Hf & _);
    [done|done|done|lia|vm_compute; done|apply slab_mm_list|vm_compute; done|vm_compute; done|
     vm_compute; done|vm_compute; done|vm_compute; done|].
  exists s'. split; [exact E|exact Hf].
Defined.

(** Freeing a large allocation gives back its pages but the last one: the
    page for the metadata was counted when the pages were taken and is not
    when they are freed. *)
Theorem kfreelarge_leaks_page pf s size q bound :
  PGSIZE < size < 2 ^ 42 → 0 ≤ q < 2 ^ 33 → q < Z.of_nat pf →
  free_run (mm_pmm s) q (large_pages size + 1) →
  taken (pm_bitmap (mm_pmm s)) (mm_mem s) 0 = true →
  bitmap_apart (mm_pmm s) bound → q + large_pages size < bound < 2 ^ 35 →
  ∃ p a s' s'', kalloc pf 0 size s = Ok (a, s') ∧ kfree 0 a s' = Ok (tt, s'') ∧
    free_run (mm_pmm s) p (large_pages size + 1) ∧
    ∀ j, 0 ≤ j < bound → taken (pm_bitmap (mm_pmm s'')) (mm_mem s'') j =
      bool_decide (j = p + large_pages size) || taken (pm_bitmap (mm_pmm s)) (mm_mem s) j.
Proof. apply kfreelarge_leaks. Qed.

Lemma kfreelarge_leaks_page_witness : ∃ p a s' s'',
  kalloc 3 0 5000 some_mm = Ok (a, s') ∧ kfree 0 a s' = Ok (tt, s'') ∧
  ∀ j, 0 ≤ j < 100 → taken (pm_bitmap (mm_pmm s'')) (mm_mem s'') j =
    bool_decide (j = p + 2) || taken (pm_bitmap some_pmm) (pm_mem some_pmm) j.
Proof.
  destruct (kfreelarge_leaks_page 3 some_mm 5000 1 100) as (p & a & s' & s'' & E1 & E2 & _ & Ht);
    [done|done|lia|apply some_pmm_run; lia|vm_compute; done| |vm_compute; done|by exists p, a, s', s''].
  intros p j Hp Ht Hj. change (mm_pmm some_mm) with some_pmm in *. rewrite some_pmm_taken in Ht by lia.
  apply bool_decide_eq_false in Ht. rewrite P2V_page by lia. unfold some_pmm, PGSIZE. simpl.
  Z.div_mod_to_equations. lia.
Defined.

(** For blocks of 16 bytes or more, the last block a new slab links does
    not fit the slab's page. *)
Theorem slab_last_block_overruns pf s k q :
  4 ≤ k ≤ 12 → 0 ≤ q < 2 ^ 34 → free_run (mm_pmm s) q 1 → q < Z.of_nat pf →
  ∃ slab s' i, newslab pf (2 ^ k) s = Ok (slab, s') ∧
    linked_blocks (mm_mem s') (slab + sizeof_slab) (2 ^ k) i ∧
    let last := slab + sizeof_slab + Z.of_nat i * 2 ^ k in last < slab + PGSIZE < last + 2 ^ k.
Proof.
  intros Hk Hq Hr Hf. assert (8 ≤ 2 ^ k ≤ PGSIZE) as Hsz.
  { split; [apply (Z.pow_le_mono_r 2 3)|apply (Z.pow_le_mono_r 2 k 12)]; lia. }
  destruct (newslab_ok pf s (2 ^ k) q) as (p & s' & E & _ & _ & _ & _ & (_ & _ & _ & _ & Hl) & _); [done..|].
  exists (HHDM_OFFSET + p * PGSIZE), s', (Z.to_nat (block_count (2 ^ k))). split_and!; [done..|].
  pose proof (block_count_spec (2 ^ k) ltac:(lia)) as (Hc & _). rewrite Z2Nat.id by done.
  by apply last_block_overruns.
Qed.

Lemma slab_last_block_overruns_witness : ∃ slab s' i, newslab 3 64 some_mm = Ok (slab, s') ∧
  let last := slab + sizeof_slab + Z.of_nat i * 64 in last < slab + PGSIZE < last + 64.
Proof.
  destruct (slab_last_block_overruns 3 some_mm 6 1) as (slab & s' & i & E & _ & H);
    [lia|lia|apply some_pmm_run; lia|lia|]. exists slab, s', i. split; [exact E|exact H].
Defined.

(** ** The lock *)

(** C13: whatever CPUs call [acquire] and [release], in any interleaving of the
    accesses of their code, at most one of them is between the two: one CPU has
    the lock, from the exchange in [acquire] that read 0 to the store in
    [release], exactly while the lock word is 1.  A CPU in the loop of [acquire]
    has the lock with its next access, if that finds the word 0. *)
Theorem lock_excludes n m :
  reachable false n m → exclusive m ∧ ¬ both_inside m ∧
  ∀ c fuel, mc_lock m = 0 → mc_cpus m !! c = Some (Entering (acquire (S fuel))) →
    ∃ m', step false m m' ∧ mc_lock m' = 1 ∧ mc_cpus m' !! c = Some (Entering (Ret tt)).
Proof.
  intros H. destruct (reachable_invariant n m H) as [He _].
  split; [done|]. split; [by apply exclusive_inside|]. intros c fuel. apply spinning_enters.
Qed.

Lemma lock_excludes_witness : exclusive contended ∧ ¬ both_inside contended.
Proof. destruct (lock_excludes 2 contended contended_reachable) as (H & H' & _). split; [exact H|exact H']. Defined.

(** With callers of [trylock] that go on when it returns nonzero, as
    [vfs_close] does, two CPUs can be inside at once. *)
Theorem trylock_breaks_exclusion : ∃ m, reachable true 2 m ∧ both_inside m.
Proof. apply trylock_breaks. Qed.
