(* ===== verification/Desc.v ===== *)
(** * kernel/idt.c, kernel/gdt.c and their headers: the descriptor tables

    The tables lie in byte memory, with the fields at the offsets of the
    packed structures.  The registers GDTR and IDTR of the CPU are part of the
    state: [lgdt], [sgdt] and [lidt] copy them. *)

From S2P Require Import Prelude CString Word Pmm Slab.

Local Open Scope Z_scope.

Definition put16 (m : mem) (a v : Z) : mem := wrn 2 m a v.
Definition put32 (m : mem) (a v : Z) : mem := wrn 4 m a v.

(** ** The interrupt descriptor table *)

Definition IDT_MAX_DESC : Z := 256.
Definition sizeof_idt_entry : Z := 16.

(** Fields of [idt_entry]. *)
Definition isr_low (desc : ptr) : ptr := desc.
Definition selector (desc : ptr) : ptr := desc + 2.
Definition ist (desc : ptr) : ptr := desc + 4.
Definition attributes (desc : ptr) : ptr := desc + 5.
Definition isr_mid (desc : ptr) : ptr := desc + 6.
Definition isr_high (desc : ptr) : ptr := desc + 8.
Definition zero (desc : ptr) : ptr := desc + 12.

(** Memory, [idtr], and the register IDTR: limit and base. *)
Record idts := Idts { id_mem : mem; id_idtr : Z * Z; id_cpu : Z * Z }.

Section idt.
(** Where [idt] and the handlers of isr.asm are. *)
Context (idt : ptr) (isr_table : Z → Z).

Definition set_idt_entry (vector isr flags : Z) : K idts unit :=
  modify (λ s,
    let desc := idt + sizeof_idt_entry * vector in
    let m := put16 (id_mem s) (isr_low desc) isr in
    let m := put16 m (selector desc) (Z.shiftl 0x5 3) in
    let m := wr8 m (ist desc) 0 in
    let m := wr8 m (attributes desc) flags in
    let m := put16 m (isr_mid desc) (Z.shiftr isr 16) in
    let m := put32 m (isr_high desc) (Z.shiftr isr 32) in
    let m := put32 m (zero desc) 0 in
    Idts m (id_idtr s) (id_cpu s)).

Definition new_irq (vector isr : Z) : K idts unit := set_idt_entry vector isr 0x8E.

Definition load_idt : K idts unit := modify (λ s, Idts (id_mem s) (id_idtr s) (id_idtr s)).

Definition init_idt : K idts unit :=
  modify (λ s, Idts (id_mem s) (u16 (sizeof_idt_entry * IDT_MAX_DESC - 1), idt) (id_cpu s));;
  for_from 32 0 (λ vector, set_idt_entry vector (isr_table vector) 0x8E);;
  load_idt.

(** The gates that [init_interrupt] of kernel/interrupt.c sets. *)
Definition init_gates (isr_kbd isr_apic_timer isr_timer spurious isr_syscall : Z) : K idts unit :=
  new_irq 33 isr_kbd;; new_irq 34 isr_apic_timer;; new_irq 32 isr_timer;;
  new_irq 255 spurious;; new_irq 69 isr_syscall;;
  set_idt_entry 69 isr_syscall 0xEE.

End idt.

(** ** The global descriptor table *)

(** [struct gdtdesc]; the two nibbles of byte 6 are separate fields. *)
Record gdtdesc := Gdtdesc {
  segment_limit : Z; base_addr0 : Z; base_addr1 : Z; base_addr2' : Z; attributes_1 : Z;
  segment_limit2 : Z; attributes_2 : Z; base_addr2 : Z }.

(** [struct tssdesc] *)
Record tssdesc := Tssdesc { td_desc : gdtdesc; base_high : Z }.

(** Stores of the structures. *)
Definition put_gdtdesc (m : mem) (a : ptr) (d : gdtdesc) : mem :=
  let m := put16 m a (segment_limit d) in
  let m := wr8 m (a + 2) (base_addr0 d) in
  let m := wr8 m (a + 3) (base_addr1 d) in
  let m := wr8 m (a + 4) (base_addr2' d) in
  let m := wr8 m (a + 5) (attributes_1 d) in
  let m := wr8 m (a + 6) (segment_limit2 d mod 16 + 16 * (attributes_2 d mod 16)) in
  wr8 m (a + 7) (base_addr2 d).

Definition put_tssdesc (m : mem) (a : ptr) (d : tssdesc) : mem :=
  put32 (put_gdtdesc m a (td_desc d)) (a + 8) (base_high d).

(** The page allocator and memory, the globals [gdt], [gdt_index], [tr] and
    [gdtr], and the register GDTR: limit and base. *)
Record gdts := Gdts { gd_mm : mm; gd_gdt : ptr; gdt_index : Z; tr : Z; gdtr : Z * Z; gd_cpu : Z * Z }.

Definition set_gd_mm (v : mm) (s : gdts) : gdts := Gdts v (gd_gdt s) (gdt_index s) (tr s) (gdtr s) (gd_cpu s).
Definition set_gd_gdt (v : ptr) (s : gdts) : gdts := Gdts (gd_mm s) v (gdt_index s) (tr s) (gdtr s) (gd_cpu s).
Definition set_gdt_index (v : Z) (s : gdts) : gdts := Gdts (gd_mm s) (gd_gdt s) v (tr s) (gdtr s) (gd_cpu s).
Definition set_tr (v : Z) (s : gdts) : gdts := Gdts (gd_mm s) (gd_gdt s) (gdt_index s) v (gdtr s) (gd_cpu s).
Definition set_gdtr (v : Z * Z) (s : gdts) : gdts := Gdts (gd_mm s) (gd_gdt s) (gdt_index s) (tr s) v (gd_cpu s).

Definition gd_mem (s : gdts) : mem := mm_mem (gd_mm s).

Definition on_mem (f : mem → mem) : K gdts unit :=
  modify (λ s, set_gd_mm (set_mm_pmm (set_pm_mem (f (gd_mem s)) (mm_pmm (gd_mm s))) (gd_mm s)) s).

Definition in_gmm {A} (f : M A) : K gdts A := λ s,
  match f (gd_mm s) with
  | Ok (a, m) => Ok (a, set_gd_mm m s)
  | Panic msg => Panic msg
  | Hang => Hang
  | Fault e => Fault e
  end.

Section gdt.
(** [pf] bounds the scan of [palloc]; [tss_local] is where the local variable
    [tss] of [alloc_tss] lies on the stack. *)
Context (pf : nat) (tss_local : Z).

Definition load_gdt : K gdts unit :=
  modify (λ s, Gdts (gd_mm s) (gd_gdt s) (gdt_index s) (tr s) (gdtr s) (gdtr s)).

Definition alloc_tss : K gdts tssdesc :=
  page ← in_gmm (in_pmm (palloc pf 1));
  let rsp0 := P2V page in
  on_mem (λ m, wr64 (put32 m tss_local 0) (tss_local + 4) rsp0);;
  mret (Tssdesc
    (Gdtdesc 0x67 (u8 tss_local) (u8 (Z.shiftr tss_local 8)) (u8 (Z.shiftr tss_local 16)) (Z.lor 9 (Z.shiftl 1 7)) 0 0 0)
    (u32 (Z.shiftr tss_local 32))).

Definition init_tss : K gdts Z :=
  modify (λ s, set_gdt_index (u8 (gdt_index s + 1)) s);;
  s ← get;
  let tss_p := gd_gdt s + 8 * gdt_index s in
  d ← alloc_tss;
  on_mem (λ m, put_tssdesc m tss_p d);;
  s ← get; mret (u16 (Z.shiftl (gdt_index s) 3)).

(** [gdt[++gdt_index] = d] *)
Definition append_desc (d : gdtdesc) : K gdts unit :=
  modify (λ s, set_gdt_index (u8 (gdt_index s + 1)) s);;
  s ← get; on_mem (λ m, put_gdtdesc m (gd_gdt s + 8 * gdt_index s) d).

Definition init_gdt : K gdts unit :=
  page ← in_gmm (in_pmm (palloc pf 1));
  modify (set_gd_gdt (P2V page));;
  on_mem (Str.memset (P2V page) 0 PGSIZE);;
  modify (λ s, set_gdtr (gd_cpu s) s);;
  s ← get;
  on_mem (Str.memcpy (gd_gdt s) (snd (gdtr s)) (fst (gdtr s)));;
  modify (λ s, set_gdt_index (u8 (fst (gdtr s) / 8)) s);;
  append_desc (Gdtdesc 0 0 0 0 (Z.lor (Z.lor (Z.lor 2 (Z.shiftl 3 5)) (Z.shiftl 1 7)) (Z.shiftl 1 4)) 0 0 0);;
  append_desc (Gdtdesc 0 0 0 0 (Z.lor (Z.lor (Z.lor 8 (Z.shiftl 3 5)) (Z.shiftl 1 7)) (Z.shiftl 1 4)) 0 (Z.shiftl 1 1) 0);;
  modify (λ s, set_gdtr (PGSIZE, gd_gdt s) s);;
  load_gdt;;
  t ← init_tss;
  modify (set_tr t).

(** Without the instruction [ltr] at its end. *)
Definition load_tss (tss : ptr) : K gdts unit :=
  s ← get;
  let tssdesc := gd_gdt s + 8 * 9 in
  on_mem (λ m,
    let m := put16 m tssdesc 0x67 in
    let m := wr8 m (tssdesc + 2) (u8 tss) in
    let m := wr8 m (tssdesc + 3) (u8 (Z.shiftr tss 8)) in
    let m := wr8 m (tssdesc + 4) (u8 (Z.shiftr tss 16)) in
    let m := wr8 m (tssdesc + 5) (Z.lor 9 (Z.shiftl 1 7)) in
    let m := wr8 m (tssdesc + 6) 0 in
    put32 m (tssdesc + 8) (u32 (Z.shiftr tss 32))).

End gdt.
