(* ===== verification/DescSpec.v ===== *)
(** * The descriptor tables: what the processor reads

    [gate_at] and [base_at] put the pieces of a descriptor together, as the
    processor does. *)

From S2P Require Import Prelude CString CStringSpec Word Pmm PmmSpec Slab SlabSpec Vmm VmmSpec VmmMaps Desc.

Local Open Scope Z_scope.

(** ** Reading *)

Record gate := Gate { g_offset : Z; g_selector : Z; g_ist : Z; g_attributes : Z; g_zero : Z }.

Definition gate_at (m : mem) (idt vector : Z) : gate :=
  let d := idt + sizeof_idt_entry * vector in
  Gate (rdn 2 m (isr_low d) + 2 ^ 16 * rdn 2 m (isr_mid d) + 2 ^ 32 * rdn 4 m (isr_high d))
    (rdn 2 m (selector d)) (rdn 1 m (ist d)) (rdn 1 m (attributes d)) (rdn 4 m (zero d)).

(** The 64-bit base of a system descriptor. *)
Definition base_at (m : mem) (d : Z) : Z :=
  rdn 1 m (d + 2) + 2 ^ 8 * rdn 1 m (d + 3) + 2 ^ 16 * rdn 1 m (d + 4) + 2 ^ 24 * rdn 1 m (d + 7) + 2 ^ 32 * rdn 4 m (d + 8).

Lemma wr8_wrn m a v : wr8 m a v = wrn 1 m a v.
Proof. done. Qed.

Lemma rdn_one m a : rdn 1 m a = rd8 m a.
Proof. cbn [rdn]. by rewrite Z.shiftl_0_l, Z.lor_0_r. Qed.

(** Reads of a field after writes of fields. *)
Ltac fields := repeat (rewrite rdn_wrn_eq || rewrite rdn_wrn_ne by (simpl; lia)).

Lemma split_address a : 0 ≤ a < 2 ^ 64 →
  a mod 2 ^ 16 + 2 ^ 16 * (Z.shiftr a 16 mod 2 ^ 16) + 2 ^ 32 * (Z.shiftr a 32 mod 2 ^ 32) = a.
Proof.
  intros Ha. rewrite !Z.shiftr_div_pow2 by done. rewrite <-(Z.mod_small a (2 ^ 64)) at 4 by done.
  change (2 ^ 64) with (2 ^ 16 * (2 ^ 16 * 2 ^ 32)). rewrite !Z.rem_mul_r by done.
  rewrite Z.div_div by done. change (2 ^ 16 * 2 ^ 16) with (2 ^ 32). lia.
Qed.

(** ** The interrupt descriptor table *)

Definition idt_write (m : mem) (d isr flags : Z) : mem :=
  wrn 4 (wrn 4 (wrn 2 (wrn 1 (wrn 1 (wrn 2 (wrn 2 m (isr_low d) isr) (selector d) 0x28) (ist d) 0) (attributes d) flags)
    (isr_mid d) (Z.shiftr isr 16)) (isr_high d) (Z.shiftr isr 32)) (zero d) 0.

Lemma set_idt_entry_run idt v isr flags s :
  set_idt_entry idt v isr flags s =
    Ok (tt, Idts (idt_write (id_mem s) (idt + sizeof_idt_entry * v) isr flags) (id_idtr s) (id_cpu s)).
Proof. done. Qed.

Lemma idt_write_gate m idt v isr flags :
  0 ≤ isr < 2 ^ 64 → gate_at (idt_write m (idt + sizeof_idt_entry * v) isr flags) idt v = Gate isr 0x28 0 (u8 flags) 0.
Proof.
  intros Hi. unfold gate_at, idt_write. set (d := idt + sizeof_idt_entry * v).
  unfold isr_low, selector, ist, attributes, isr_mid, isr_high, zero. fields. simpl (8 * Z.of_nat _).
  rewrite split_address by done. reflexivity.
Qed.

Lemma idt_write_outside m d isr flags a : ¬ (d ≤ a < d + 16) → rd8 (idt_write m d isr flags) a = rd8 m a.
Proof.
  intros Ha. unfold idt_write, isr_low, selector, ist, attributes, isr_mid, isr_high, zero.
  rewrite !rd8_wrn. rewrite !decide_False by (simpl; lia). done.
Qed.

(** Only the 256 entries of the table change. *)
Definition only_table (idt : ptr) (m m' : mem) : Prop := ∀ a, ¬ (idt ≤ a < idt + 4096) → rd8 m' a = rd8 m a.

Lemma idt_write_only m0 m idt v isr flags :
  0 ≤ v < 256 → only_table idt m0 m → only_table idt m0 (idt_write m (idt + sizeof_idt_entry * v) isr flags).
Proof. intros Hv H a Ha. rewrite idt_write_outside by (unfold sizeof_idt_entry; lia). by apply H. Qed.

Lemma gate_ext m m' idt v :
  (∀ a, idt + 16 * v ≤ a < idt + 16 * v + 16 → rd8 m' a = rd8 m a) → gate_at m' idt v = gate_at m idt v.
Proof.
  intros H. unfold gate_at, isr_low, selector, ist, attributes, isr_mid, isr_high, zero, sizeof_idt_entry.
  rewrite !(rdn_ext _ m m') by (intros a Ha; apply H; simpl in Ha; lia). done.
Qed.

(** One entry changes, the others do not. *)
Lemma set_idt_entry_gate idt v isr flags s w :
  0 ≤ isr < 2 ^ 64 →
  gate_at (idt_write (id_mem s) (idt + sizeof_idt_entry * v) isr flags) idt w =
    if decide (w = v) then Gate isr 0x28 0 (u8 flags) 0 else gate_at (id_mem s) idt w.
Proof.
  intros Hi. case_decide as E; [subst w; by apply idt_write_gate|]. apply gate_ext. intros a Ha.
  apply idt_write_outside. unfold sizeof_idt_entry. lia.
Qed.

Lemma init_idt_ok idt isr_table s :
  (∀ v, 0 ≤ v < 32 → 0 ≤ isr_table v < 2 ^ 64) →
  ∃ m, init_idt idt isr_table s = Ok (tt, Idts m (4095, idt) (4095, idt)) ∧
    (∀ w, gate_at m idt w = if decide (0 ≤ w < 32) then Gate (isr_table w) 0x28 0 0x8E 0 else gate_at (id_mem s) idt w) ∧
    only_table idt (id_mem s) m.
Proof.
  intros Hisr. set (s0 := Idts (id_mem s) (4095, idt) (id_cpu s)).
  destruct (for_from_ok (λ i st, ∃ m, st = Idts m (4095, idt) (id_cpu s) ∧
      (∀ w, gate_at m idt w = if decide (0 ≤ w < i) then Gate (isr_table w) 0x28 0 0x8E 0 else gate_at (id_mem s) idt w) ∧
      only_table idt (id_mem s) m)
    32 0 (λ vector, set_idt_entry idt vector (isr_table vector) 0x8E) s0) as (s1 & E & m & -> & Hm & Ho).
  - intros j st Hj (m & -> & Hm & Ho). rewrite set_idt_entry_run. eexists. split; [done|]. eexists. split; [done|].
    split; [|apply idt_write_only; [lia|done]]. intros w. rewrite (set_idt_entry_gate idt j (isr_table j) 0x8E (Idts m (4095, idt) (id_cpu s)) w) by (apply Hisr; lia). simpl id_mem. rewrite Hm.
    change (u8 0x8E) with 0x8E. repeat case_decide; subst; try lia; done.
  - exists (id_mem s). split; [done|]. split; [intros w; by rewrite decide_False by lia|done].
  - exists m. split; [|split; [intros w; apply Hm|done]].
    unfold init_idt. rewrite (bind_ok (modify _) _ s tt s0) by done. rewrite (bind_ok _ _ _ _ _ E). done.
Qed.

(** The handlers of the gates that [init_interrupt] sets. *)
Definition irq_gate (kbd apic timer spur sys : Z) (w : Z) : option (Z * Z) :=
  if decide (w = 69) then Some (sys, 0xEE) else if decide (w = 255) then Some (spur, 0x8E) else
  if decide (w = 32) then Some (timer, 0x8E) else if decide (w = 34) then Some (apic, 0x8E) else
  if decide (w = 33) then Some (kbd, 0x8E) else None.

(** The handler and the attributes of a vector after the set-up of the interrupts. *)
Definition handler_of (isr_table : Z → Z) (kbd apic timer spur sys w : Z) : option (Z * Z) :=
  match irq_gate kbd apic timer spur sys w with
  | Some h => Some h
  | None => if decide (0 ≤ w < 32) then Some (isr_table w, 0x8E) else None
  end.

Lemma init_gates_ok idt kbd apic timer spur sys s :
  Forall (λ a, 0 ≤ a < 2 ^ 64) [kbd; apic; timer; spur; sys] →
  ∃ m, init_gates idt kbd apic timer spur sys s = Ok (tt, Idts m (id_idtr s) (id_cpu s)) ∧
    (∀ w, gate_at m idt w = match irq_gate kbd apic timer spur sys w with
                            | Some (isr, flags) => Gate isr 0x28 0 flags 0
                            | None => gate_at (id_mem s) idt w
                            end) ∧
    only_table idt (id_mem s) m.
Proof.
  intros Hw. repeat (apply Forall_cons in Hw as [? Hw]). eexists. split; [reflexivity|].
  split; [|repeat (apply idt_write_only; [lia|]); done]. intros w.
  set (m1 := idt_write (id_mem s) (idt + sizeof_idt_entry * 33) kbd 0x8E).
  set (m2 := idt_write m1 (idt + sizeof_idt_entry * 34) apic 0x8E). set (m3 := idt_write m2 (idt + sizeof_idt_entry * 32) timer 0x8E).
  set (m4 := idt_write m3 (idt + sizeof_idt_entry * 255) spur 0x8E). set (m5 := idt_write m4 (idt + sizeof_idt_entry * 69) sys 0x8E).
  change (gate_at (idt_write m5 (idt + sizeof_idt_entry * 69) sys 0xEE) idt w = match irq_gate kbd apic timer spur sys w with
    | Some (isr, flags) => Gate isr 0x28 0 flags 0 | None => gate_at (id_mem s) idt w end).
  assert (∀ m v isr flags, 0 ≤ isr < 2 ^ 64 → gate_at (idt_write m (idt + sizeof_idt_entry * v) isr flags) idt w =
    if decide (w = v) then Gate isr 0x28 0 (u8 flags) 0 else gate_at m idt w) as Hg
    by (intros m v isr flags Hi; by apply (set_idt_entry_gate idt v isr flags (Idts m (0, 0) (0, 0)))).
  unfold m5, m4, m3, m2, m1, irq_gate. rewrite !Hg by done. change (u8 0x8E) with 0x8E. change (u8 0xEE) with 0xEE.
  repeat case_decide; try lia; done.
Qed.

(** ** The task state segment *)

(** An address without its bits 24 to 31. *)
Definition without_byte3 (a : Z) : Z := a - 2 ^ 24 * (a / 2 ^ 24 mod 2 ^ 8).

Lemma split_base a : 0 ≤ a < 2 ^ 64 →
  a mod 2 ^ 8 + 2 ^ 8 * (Z.shiftr a 8 mod 2 ^ 8) + 2 ^ 16 * (Z.shiftr a 16 mod 2 ^ 8) + 2 ^ 32 * (Z.shiftr a 32 mod 2 ^ 32) = without_byte3 a.
Proof.
  intros Ha. unfold without_byte3. rewrite !Z.shiftr_div_pow2 by done.
  assert (∀ x k, 0 < k → x / k = 2 ^ 8 * (x / (k * 2 ^ 8)) + x / k mod 2 ^ 8) as Hstep
    by (intros x k Hk; rewrite <-Z.div_div by lia; apply Z.div_mod; done).
  pose proof (Z.div_mod a (2 ^ 8) ltac:(done)). pose proof (Hstep a (2 ^ 8) ltac:(done)) as H1.
  pose proof (Hstep a (2 ^ 16) ltac:(done)) as H2. pose proof (Hstep a (2 ^ 24) ltac:(done)) as H3.
  change (2 ^ 8 * 2 ^ 8) with (2 ^ 16) in H1. change (2 ^ 16 * 2 ^ 8) with (2 ^ 24) in H2. change (2 ^ 24 * 2 ^ 8) with (2 ^ 32) in H3.
  rewrite (Z.mod_small (a / 2 ^ 32)) by (split; [apply Z.div_pos; lia|apply Z.div_lt_upper_bound; lia]). lia.
Qed.

Definition tss_write (m : mem) (d tss : Z) : mem :=
  wrn 4 (wrn 1 (wrn 1 (wrn 1 (wrn 1 (wrn 1 (wrn 2 m d 0x67) (d + 2) (u8 tss)) (d + 3) (u8 (Z.shiftr tss 8)))
    (d + 4) (u8 (Z.shiftr tss 16))) (d + 5) 0x89) (d + 6) 0) (d + 8) (u32 (Z.shiftr tss 32)).

Lemma tss_write_base m d tss :
  0 ≤ tss < 2 ^ 64 → base_at (tss_write m d tss) d = without_byte3 tss + 2 ^ 24 * rd8 m (d + 7).
Proof.
  intros Ht. rewrite <-split_base by done. unfold base_at, tss_write. fields.
  change (8 * Z.of_nat 1) with 8. change (8 * Z.of_nat 4) with 32. unfold u8, u32. rewrite !Z.mod_mod by done. rewrite rdn_one. lia.
Qed.

Lemma tss_write_outside m d tss a : ¬ (d ≤ a < d + 12) → rd8 (tss_write m d tss) a = rd8 m a.
Proof. intros Ha. unfold tss_write. rewrite !rd8_wrn. rewrite !decide_False by (simpl; lia). done. Qed.

Definition gwith (m : mem) (s : gdts) : gdts := set_gd_mm (with_mem m (gd_mm s)) s.

Lemma on_mem_ok f s : on_mem f s = Ok (tt, gwith (f (gd_mem s)) s).
Proof. done. Qed.

Lemma load_tss_run tss s : load_tss tss s = Ok (tt, gwith (tss_write (gd_mem s) (gd_gdt s + 8 * 9) tss) s).
Proof. done. Qed.

(** ** [init_gdt] *)

Lemma put_gdtdesc_wrn m a d :
  put_gdtdesc m a d = wrn 1 (wrn 1 (wrn 1 (wrn 1 (wrn 1 (wrn 1 (wrn 2 m a (segment_limit d)) (a + 2) (base_addr0 d))
    (a + 3) (base_addr1 d)) (a + 4) (base_addr2' d)) (a + 5) (attributes_1 d))
    (a + 6) (segment_limit2 d mod 16 + 16 * (attributes_2 d mod 16))) (a + 7) (base_addr2 d).
Proof. done. Qed.

Lemma put_gdtdesc_outside m a d b : ¬ (a ≤ b < a + 8) → rd8 (put_gdtdesc m a d) b = rd8 m b.
Proof. intros Hb. rewrite put_gdtdesc_wrn, !rd8_wrn. rewrite !decide_False by (simpl; lia). done. Qed.

Lemma put_gdtdesc_access m a d :
  rd8 (put_gdtdesc m a d) (a + 5) = u8 (attributes_1 d) ∧
  rd8 (put_gdtdesc m a d) (a + 6) = u8 (segment_limit2 d mod 16 + 16 * (attributes_2 d mod 16)).
Proof. rewrite put_gdtdesc_wrn, <-!rdn_one. split; fields; done. Qed.

Definition user_data : gdtdesc := Gdtdesc 0 0 0 0 0xF2 0 0 0.
Definition user_code : gdtdesc := Gdtdesc 0 0 0 0 0xF8 0 2 0.
Definition local_tss (a : Z) : tssdesc :=
  Tssdesc (Gdtdesc 0x67 (u8 a) (u8 (Z.shiftr a 8)) (u8 (Z.shiftr a 16)) 0x89 0 0 0) (u32 (Z.shiftr a 32)).

Lemma local_tss_base m d a : 0 ≤ a < 2 ^ 64 → base_at (put_tssdesc m d (local_tss a)) d = without_byte3 a.
Proof.
  intros Ha. rewrite <-split_base by done. unfold base_at, put_tssdesc, put32. rewrite put_gdtdesc_wrn. fields.
  change (8 * Z.of_nat 1) with 8. change (8 * Z.of_nat 4) with 32. cbn [td_desc local_tss base_addr0 base_addr1 base_addr2' base_addr2 base_high].
  unfold u8, u32. rewrite (Z.mod_small 0) by done. rewrite !Z.mod_mod by done. lia.
Qed.

Lemma put_tssdesc_outside m a d b : ¬ (a ≤ b < a + 12) → rd8 (put_tssdesc m a d) b = rd8 m b.
Proof.
  intros Hb. unfold put_tssdesc, put32. rewrite rd8_wrn, decide_False by (simpl; lia). apply put_gdtdesc_outside. lia.
Qed.

(** The table after [init_gdt] copied the old one and added the user's segments. *)
Definition gdt_copy (m : mem) (g size addr : Z) : mem := Str.memcpy g addr size (Str.memset g 0 PGSIZE m).
Definition gdt_user (m : mem) (g size addr : Z) : mem :=
  put_gdtdesc (put_gdtdesc (gdt_copy m g size addr) (g + 8 * 7) user_data) (g + 8 * 8) user_code.

Lemma gdt_copy_byte m g size addr a :
  0 ≤ size ≤ PGSIZE → (addr + size ≤ g ∨ g + PGSIZE ≤ addr) →
  rd8 (gdt_copy m g size addr) a =
    if decide (g ≤ a < g + size) then rd8 m (addr + (a - g)) else if decide (g ≤ a < g + PGSIZE) then 0 else rd8 m a.
Proof.
  unfold PGSIZE. intros Hs Hd. unfold gdt_copy. rewrite memcpy_spec by lia. case_decide.
  - rewrite memset_spec by done. by rewrite decide_False by (unfold PGSIZE; lia).
  - rewrite memset_spec by done. unfold PGSIZE. by case_decide.
Qed.

Lemma gdt_user_outside m g size addr a :
  0 ≤ size ≤ PGSIZE → (addr + size ≤ g ∨ g + PGSIZE ≤ addr) → ¬ (g ≤ a < g + PGSIZE) → rd8 (gdt_user m g size addr) a = rd8 m a.
Proof.
  intros Hs Hd Ha. unfold gdt_user. unfold PGSIZE in *. rewrite !put_gdtdesc_outside by lia.
  rewrite gdt_copy_byte by (unfold PGSIZE; lia). unfold PGSIZE. by rewrite !decide_False by lia.
Qed.

Lemma in_gmm_ok {A} (f : M A) s a m : f (gd_mm s) = Ok (a, m) → in_gmm f s = Ok (a, set_gd_mm m s).
Proof. intros E. unfold in_gmm. by rewrite E. Qed.

Lemma append_desc_run d s :
  append_desc d s = Ok (tt, gwith (put_gdtdesc (gd_mem s) (gd_gdt s + 8 * u8 (gdt_index s + 1)) d) (set_gdt_index (u8 (gdt_index s + 1)) s)).
Proof. done. Qed.

Ltac gsimpl := unfold gwith, set_gd_mm, gd_mem, set_gdt_index; cbn [gd_mm gd_gdt gdt_index tr gdtr gd_cpu].

(** The table of the boot loader has seven entries; its limit is 55. *)
Lemma init_gdt_user pf tss s t m1 addr :
  in_pmm (palloc pf 1) (gd_mm s) = Ok (t, m1) → gd_cpu s = (55, addr) →
  let g := P2V t in
  init_gdt pf tss s =
    (x ← init_tss pf tss; modify (set_tr x))
      (Gdts (with_mem (gdt_user (mm_mem m1) g 55 addr) m1) g 8 (tr s) (PGSIZE, g) (PGSIZE, g)).
Proof.
  intros E Hcpu g. unfold init_gdt. rewrite (bind_ok _ _ _ _ _ (in_gmm_ok _ _ _ _ E)). fold g.
  destruct s as [mm0 g0 i0 t0 r0 c0]. simpl in Hcpu. subst c0.
  change (set_gd_mm m1 (Gdts mm0 g0 i0 t0 r0 (55, addr))) with (Gdts m1 g0 i0 t0 r0 (55, addr)).
  rewrite (bind_ok (modify (set_gd_gdt g)) _ (Gdts m1 g0 i0 t0 r0 (55, addr)) tt (Gdts m1 g i0 t0 r0 (55, addr)) eq_refl).
  rewrite (bind_ok _ _ _ _ _ (on_mem_ok _ _)). gsimpl. set (m2 := with_mem _ m1).
  rewrite (bind_ok (modify (λ s, set_gdtr (gd_cpu s) s)) _ (Gdts m2 g i0 t0 r0 (55, addr)) tt (Gdts m2 g i0 t0 (55, addr) (55, addr)) eq_refl).
  rewrite (bind_ok get _ _ _ _ eq_refl). cbn [gdtr gd_gdt fst snd].
  rewrite (bind_ok _ _ _ _ _ (on_mem_ok _ _)). gsimpl.
  unfold m2. rewrite mm_mem_with, with_mem_with. set (m3 := with_mem _ m1).
  rewrite (bind_ok (modify (λ s, set_gdt_index (u8 (fst (gdtr s) / 8)) s)) _ (Gdts m3 g i0 t0 (55, addr) (55, addr)) tt
    (Gdts m3 g 6 t0 (55, addr) (55, addr)) eq_refl).
  rewrite (bind_ok _ _ _ _ _ (append_desc_run _ _)). gsimpl. change (u8 (6 + 1)) with 7.
  rewrite (bind_ok _ _ _ _ _ (append_desc_run _ _)). gsimpl. change (u8 (7 + 1)) with 8.
  unfold m3. rewrite !mm_mem_with, !with_mem_with.
  match goal with |- context [Gdts ?m g 8 _ _ _] => set (m4 := m) end.
  rewrite (bind_ok (modify (λ s, set_gdtr (PGSIZE, gd_gdt s) s)) _ (Gdts m4 g 8 t0 (55, addr) (55, addr)) tt
    (Gdts m4 g 8 t0 (PGSIZE, g) (55, addr)) eq_refl).
  rewrite (bind_ok load_gdt _ (Gdts m4 g 8 t0 (PGSIZE, g) (55, addr)) tt (Gdts m4 g 8 t0 (PGSIZE, g) (PGSIZE, g)) eq_refl).
  unfold m4, gdt_user, gdt_copy.
  replace (Z.lor (Z.lor (Z.lor 2 (Z.shiftl 3 5)) (Z.shiftl 1 7)) (Z.shiftl 1 4)) with 0xF2 by (by vm_compute).
  replace (Z.lor (Z.lor (Z.lor 8 (Z.shiftl 3 5)) (Z.shiftl 1 7)) (Z.shiftl 1 4)) with 0xF8 by (by vm_compute).
  replace (Z.shiftl 1 1) with 2 by (by vm_compute). done.
Qed.

Lemma init_tss_run pf tss s t m1 :
  in_pmm (palloc pf 1) (gd_mm s) = Ok (t, m1) → gdt_index s = 8 →
  init_tss pf tss s =
    Ok (72, Gdts (with_mem (put_tssdesc (wr64 (put32 (mm_mem m1) tss 0) (tss + 4) (P2V t)) (gd_gdt s + 8 * 9) (local_tss tss)) m1)
      (gd_gdt s) 9 (tr s) (gdtr s) (gd_cpu s)).
Proof.
  intros E Hi. destruct s as [mm0 g i0 t0 r0 c0]. simpl in Hi. subst i0. unfold init_tss.
  rewrite (bind_ok (modify (λ s, set_gdt_index (u8 (gdt_index s + 1)) s)) _ (Gdts mm0 g 8 t0 r0 c0) tt (Gdts mm0 g 9 t0 r0 c0) eq_refl).
  rewrite (bind_ok get _ _ _ _ eq_refl). cbn [gd_gdt gdt_index].
  erewrite bind_ok.
  2:{ unfold alloc_tss. rewrite (bind_ok _ _ _ _ _ (in_gmm_ok (in_pmm (palloc pf 1)) (Gdts mm0 g 9 t0 r0 c0) t m1 E)).
      cbv zeta. rewrite (bind_ok _ _ _ _ _ (on_mem_ok _ _)). reflexivity. }
  rewrite (bind_ok _ _ _ _ _ (on_mem_ok _ _)). rewrite (bind_ok get _ _ _ _ eq_refl).
  unfold mret, K_ret, gwith, set_gd_mm, gd_mem. cbn [gd_mm gd_gdt gdt_index tr gdtr gd_cpu].
  rewrite !mm_mem_with, !with_mem_with. reflexivity.
Qed.

(** What [init_gdt] leaves at [g]: the old entries, the user's segments with the
    selectors 0x3b and 0x43, and the task state segment. *)
Record gdt_ready (m0 m : mem) (g addr tss : Z) : Prop := {
  gr_old a : 0 ≤ a < 55 → rd8 m (g + a) = rd8 m0 (addr + a);
  gr_last : rd8 m (g + 55) = 0;
  gr_data : rd8 m (g + 8 * 7 + 5) = 0xF2 ∧ rd8 m (g + 8 * 7 + 6) = 0;
  gr_code : rd8 m (g + 8 * 8 + 5) = 0xF8 ∧ rd8 m (g + 8 * 8 + 6) = 0x20;
  gr_tss : base_at m (g + 8 * 9) = without_byte3 tss }.

Lemma init_gdt_ok pf tss s N addr k :
  tables_ok (gd_mm s) N ∅ → room (gd_mm s) N (S (S k)) → N ≤ Z.of_nat pf → gd_cpu s = (55, addr) →
  private (gd_mm s) N ∅ addr 55 → private (gd_mm s) N ∅ tss 12 → 0 ≤ tss < 2 ^ 64 - 12 →
  ∃ t s', init_gdt pf tss s = Ok (tt, s') ∧ page N t ∧ tk (gd_mm s) (t / PGSIZE) = false ∧
    gd_gdt s' = P2V t ∧ gd_cpu s' = (PGSIZE, P2V t) ∧ gdt_index s' = 9 ∧ tr s' = 72 ∧
    gdt_ready (gd_mem s) (gd_mem s') (P2V t) addr tss.
Proof.
  intros Hok Hroom Hpf Hcpu Haddr Htss Ht64. pose proof (to_bound _ _ _ Hok) as HN.
  destruct (palloc_page pf (gd_mm s) N ∅ _ Hok Hroom Hpf) as (t & m1 & E1 & Hp & Hf & _ & _ & Hsame & Hex & Hok1 & Hroom1).
  set (g := P2V t). set (m2 := with_mem (gdt_user (mm_mem m1) g 55 addr) m1).
  assert (∀ a n, 0 < n → private (gd_mm s) N ∅ a n → a + n ≤ g ∨ g + PGSIZE ≤ a) as Hnr.
  { intros a n Hn Ha. destruct (decide (a + n ≤ g ∨ g + PGSIZE ≤ a)) as [|Hd]; [done|exfalso].
    assert (∃ b, a ≤ b < a + n ∧ window t b) as (b & Hb & Hw).
    { exists (Z.max a g). unfold window. fold g. unfold PGSIZE in *. lia. }
    destruct (Ha b Hb) as [_ H]. destruct (H t Hp Hw). congruence. }
  pose proof (Hnr addr 55 ltac:(lia) Haddr) as Hda. pose proof (Hnr tss 12 ltac:(lia) Htss) as Hdt.
  assert (∀ a, window t a → outside (bits (gd_mm s)) N a) as Hwin by (intros a; by apply (window_outside _ N ∅)).
  destruct (write_keeps m1 N ∅ (gdt_user (mm_mem m1) g 55 addr) Hok1) as [Hok2 Ht2].
  { intros a [(j & Hj & ->)|(u & l & Hu & _)]; [|by apply lookup_empty_Some in Hu].
    rewrite (ex_bits _ _ _ _ _ Hex). apply gdt_user_outside; [unfold PGSIZE; lia|lia|]. intros Hw. by apply (Hwin _ Hw j Hj). }
  assert (room m2 N (S k)) as Hroom2 by (by apply (room_same m1)).
  destruct (palloc_page pf m2 N ∅ k Hok2 Hroom2 Hpf) as (t2 & m3 & E2 & _ & _ & _ & _ & Hsame2 & _).
  eexists t, _. split.
  { rewrite (init_gdt_user pf tss s t m1 addr E1 Hcpu). fold g m2. rewrite (bind_ok _ _ _ _ _ (init_tss_run pf tss (Gdts m2 g 8 (tr s) (PGSIZE, g) (PGSIZE, g)) t2 m3 E2 eq_refl)).
    reflexivity. }
  split; [done|split; [done|split; [done|split; [done|split; [done|split; [done|]]]]]]. fold g.
  unfold gd_mem at 2. cbn [gd_mm set_tr gd_gdt]. rewrite mm_mem_with.
  set (m4 := wr64 (put32 (mm_mem m3) tss 0) (tss + 4) (P2V t2)).
  assert (∀ a, g ≤ a < g + 72 → rd8 (put_tssdesc m4 (g + 8 * 9) (local_tss tss)) a = rd8 (gdt_user (mm_mem m1) g 55 addr) a) as H4.
  { intros a Ha. rewrite put_tssdesc_outside by lia. unfold m4, put32. unfold PGSIZE in Hdt.
    rewrite rd8_wr64_ne, rd8_wrn, decide_False by (simpl; lia).
    rewrite Hsame2; [by unfold m2; rewrite mm_mem_with|]. change (bits m2) with (bits m1). rewrite (ex_bits _ _ _ _ _ Hex).
    apply Hwin. unfold window. fold g. unfold PGSIZE. lia. }
  assert (∀ a, g ≤ a < g + 56 → rd8 (gdt_user (mm_mem m1) g 55 addr) a =
    if decide (a < g + 55) then rd8 (mm_mem m1) (addr + (a - g)) else 0) as H5.
  { intros a Ha. unfold gdt_user. rewrite !put_gdtdesc_outside by lia. rewrite gdt_copy_byte by (unfold PGSIZE in *; lia).
    unfold PGSIZE. repeat case_decide; try lia; done. }
  constructor.
  - intros a Ha. rewrite H4, H5, decide_True by lia. replace (addr + (g + a - g)) with (addr + a) by lia. apply Hsame.
    apply (Haddr (addr + a)). lia.
  - rewrite H4, H5, decide_False by lia. done.
  - rewrite !H4 by lia. unfold gdt_user. rewrite !(put_gdtdesc_outside _ (g + 8 * 8)) by lia. apply put_gdtdesc_access.
  - rewrite !H4 by lia. apply put_gdtdesc_access.
  - apply local_tss_base. lia.
Qed.
