(* ===== verification/DescTheorems.v ===== *)
(** * The descriptor tables: the properties

    What the processor finds in the interrupt table after the set-up of
    main, and in the descriptor table and the task state descriptor. *)

From S2P Require Import Prelude CString CStringSpec Word Pmm PmmSpec Slab SlabSpec Vmm VmmSpec VmmMaps VmmDemo Desc DescSpec.

Local Open Scope Z_scope.

(** Init_idt and the calls of new_irq and set_idt_entry in init_interrupt
    leave for every vector the 64-bit address of its handler, split over three
    fields, with the kernel's code selector: the 32 exceptions, timer, keyboard,
    APIC timer and spurious vector as kernel gates, the system call as a gate of
    ring 3; every other gate is unchanged and IDTR holds limit 4095. *)
Theorem idt_handlers idt isr_table kbd apic timer spur sys s :
  (∀ v, 0 ≤ v < 32 → 0 ≤ isr_table v < 2 ^ 64) → Forall (λ a, 0 ≤ a < 2 ^ 64) [kbd; apic; timer; spur; sys] →
  ∃ m, (init_idt idt isr_table;; init_gates idt kbd apic timer spur sys) s = Ok (tt, Idts m (4095, idt) (4095, idt)) ∧
    ∀ w, gate_at m idt w = match handler_of isr_table kbd apic timer spur sys w with
                           | Some (isr, flags) => Gate isr 0x28 0 flags 0
                           | None => gate_at (id_mem s) idt w
                           end.
Proof.
  intros Ht Hg. destruct (init_idt_ok idt isr_table s Ht) as (m1 & E1 & H1 & _).
  destruct (init_gates_ok idt kbd apic timer spur sys (Idts m1 (4095, idt) (4095, idt)) Hg) as (m2 & E2 & H2 & _).
  exists m2. split; [rewrite (bind_ok _ _ _ _ _ E1); exact E2|]. intros w. rewrite H2. simpl id_mem. rewrite H1.
  unfold handler_of. destruct (irq_gate _ _ _ _ _ w) as [[isr flags]|]; [done|]. by case_decide.
Qed.

Theorem idt_handlers_witness :
  ∃ m, (init_idt 0x10000 (λ v, 0xffffffff80001000 + 16 * v);;
        init_gates 0x10000 0xffffffff80002000 0xffffffff80002010 0xffffffff80002020 0xffffffff80002030 0xffffffff80002040)
         (Idts ∅ (0, 0) (0, 0)) = Ok (tt, Idts m (4095, 0x10000) (4095, 0x10000)) ∧
    gate_at m 0x10000 14 = Gate 0xffffffff800010e0 0x28 0 0x8E 0 ∧ gate_at m 0x10000 69 = Gate 0xffffffff80002040 0x28 0 0xEE 0.
Proof.
  destruct (idt_handlers 0x10000 (λ v, 0xffffffff80001000 + 16 * v) 0xffffffff80002000 0xffffffff80002010 0xffffffff80002020
    0xffffffff80002030 0xffffffff80002040 (Idts ∅ (0, 0) (0, 0))) as (m & E & H).
  - intros v Hv. lia.
  - repeat constructor; lia.
  - exists m. split; [exact E|]. split; rewrite H; reflexivity.
Defined.

(** C33: with two free pages, init_gdt leaves GDTR at a fresh page that holds the
    entries of the boot loader, the user's data and code segments with their
    selectors 0x3b and 0x43, and the task state segment with the selector 72;
    but the base of that segment lacks bits 24 to 31 of the address, which
    lies, moreover, on the stack of alloc_tss. *)
Theorem init_gdt_tables pf tss s N addr k :
  tables_ok (gd_mm s) N ∅ → room (gd_mm s) N (S (S k)) → N ≤ Z.of_nat pf → gd_cpu s = (55, addr) →
  private (gd_mm s) N ∅ addr 55 → private (gd_mm s) N ∅ tss 12 → 0 ≤ tss < 2 ^ 64 - 12 →
  ∃ t s', init_gdt pf tss s = Ok (tt, s') ∧ page N t ∧ tk (gd_mm s) (t / PGSIZE) = false ∧
    gd_gdt s' = P2V t ∧ gd_cpu s' = (PGSIZE, P2V t) ∧ gdt_index s' = 9 ∧ tr s' = 72 ∧
    gdt_ready (gd_mem s) (gd_mem s') (P2V t) addr tss.
Proof. apply init_gdt_ok. Qed.

Definition gd0 : gdts := Gdts vm0 0 0 0 (0, 0) (55, 0x3000).

Lemma low_private a n : 0x2100 ≤ a → 0 ≤ n → a + n ≤ 0x100000 → private vm0 64 ∅ a n.
Proof.
  intros Ha Hn Han b Hb. split.
  - intros j Hj. simpl. assert (j / 8 < 64) by (apply Z.div_lt_upper_bound; lia). assert (bits vm0 = 0x1000) by reflexivity. lia.
  - intros t Hp Hw. destruct (high_window t b b Hp); [unfold HHDM_OFFSET; lia|done|done].
Qed.

Lemma vm0_ok_empty : tables_ok vm0 64 ∅.
Proof. destruct vm0_ok. constructor; try done; intros t l *; by rewrite lookup_empty. Qed.

Theorem init_gdt_tables_witness :
  gd_cpu gd0 = (55, 0x3000) ∧
  ∃ t s', init_gdt 64 0xabcd1234 gd0 = Ok (tt, s') ∧ gd_cpu s' = (PGSIZE, P2V t) ∧ tr s' = 72 ∧
    base_at (gd_mem s') (P2V t + 72) = 0xcd1234.
Proof.
  split; [reflexivity|].
  destruct (init_gdt_tables 64 0xabcd1234 gd0 64 0x3000 61 vm0_ok_empty vm0_room) as (t & s' & E & _ & _ & _ & Hc & _ & Ht & Hr);
    [lia|reflexivity|apply low_private; lia| |lia|].
  - intros b Hb. split.
    + intros j Hj. assert (bits (gd_mm gd0) = 0x1000) as -> by reflexivity.
      assert (j / 8 < 64) by (apply Z.div_lt_upper_bound; lia). lia.
    + intros u Hp Hw. destruct (high_window u b b Hp); [unfold HHDM_OFFSET; lia|done|done].
  - exists t, s'. split; [exact E|split; [exact Hc|split; [exact Ht|]]].
    refine (eq_trans (gr_tss _ _ _ _ _ Hr) _). reflexivity.
Defined.

(** load_tss writes the address of the task state segment into entry 9
    without its bits 24 to 31: the processor finds the byte that was there
    before, and every other entry is unchanged. *)
Theorem load_tss_base tss s :
  0 ≤ tss < 2 ^ 64 →
  let d := gd_gdt s + 8 * 9 in
  ∃ s', load_tss tss s = Ok (tt, s') ∧
    base_at (gd_mem s') d = without_byte3 tss + 2 ^ 24 * rd8 (gd_mem s) (d + 7) ∧
    rdn 2 (gd_mem s') d = 0x67 ∧ rdn 1 (gd_mem s') (d + 5) = 0x89 ∧
    ∀ a, ¬ (d ≤ a < d + 12) → rd8 (gd_mem s') a = rd8 (gd_mem s) a.
Proof.
  intros Ht d. eexists. split; [apply load_tss_run|]. unfold gwith, gd_mem, set_gd_mm. cbn [gd_mm]. rewrite mm_mem_with. fold d.
  split; [by apply tss_write_base|]. split; [|split].
  - unfold tss_write. fields. reflexivity.
  - unfold tss_write. fields. reflexivity.
  - intros a Ha. by apply tss_write_outside.
Qed.

Theorem load_tss_base_witness :
  0 ≤ 0xabcd1234 < 2 ^ 64 ∧ ∃ s', load_tss 0xabcd1234 gd0 = Ok (tt, s') ∧ base_at (gd_mem s') 72 = 0xcd1234.
Proof.
  split; [split; [done|reflexivity]|]. destruct (load_tss_base 0xabcd1234 gd0) as (s' & E & Hb & _); [split; [done|reflexivity]|].
  exists s'. split; [exact E|]. refine (eq_trans Hb _). reflexivity.
Defined.
