(* ===== verification/Acpi.v ===== *)
(** * kernel/acpi.c, include/franklin/acpi.h, walk_madt of kernel/apic.c: firmware tables

    The tables lie in byte memory where the firmware put them; fields are at
    the offsets of the packed structures. *)

From S2P Require Import Prelude CString Word Pmm Slab.

Local Open Scope Z_scope.

Definition MADT_CODE : Z := 0x43495041.
Definition FADT_CODE : Z := 0x50434146.

(** [RSDP], [defaultheader], [RSDT], [MADT] and [FADT]. *)
Definition rsdtaddr (rsdp : ptr) : ptr := rsdp + 16.
Definition h_signature (hdr : ptr) : ptr := hdr.
Definition h_length (hdr : ptr) : ptr := hdr + 4.
Definition RSDT_entry (rsdt : ptr) (i : Z) : ptr := rsdt + 36 + 4 * i.
Definition MADT_entry (madt : ptr) (i : Z) : ptr := madt + 44 + i.
Definition IAPC_BOOT_ARCH (fadt : ptr) : ptr := fadt + 108.

(** The value of the global [rsdt]; the loop of the function only reads. *)
Definition init_acpi (rsdp : ptr) (m : mem) : ptr := u64 (rdn 4 m (rsdtaddr rsdp) + HHDM_OFFSET).

(** The loop has no bound. *)
Fixpoint get_acpi_sdt_loop (fuel : nat) (rsdt signature i : Z) (m : mem) : outcome ptr :=
  match fuel with
  | O => Hang
  | S fuel =>
      let hdr := u64 (rdn 4 m (RSDT_entry rsdt i) + HHDM_OFFSET) in
      if decide (rdn 4 m (h_signature hdr) = signature)
      then Ok (u64 (rdn 4 m (RSDT_entry rsdt i) + HHDM_OFFSET))
      else get_acpi_sdt_loop fuel rsdt signature (i + 1) m
  end.

Definition get_acpi_sdt (fuel : nat) (rsdt signature : Z) (m : mem) : outcome ptr :=
  get_acpi_sdt_loop fuel rsdt signature 0 m.

(** [check_ps2] of kernel/kbd.c. *)
Definition check_ps2 (fuel : nat) (rsdt : ptr) (m : mem) : outcome Z :=
  match get_acpi_sdt fuel rsdt FADT_CODE m with
  | Ok fadt => Ok (u8 (Z.land (rdn 2 m (IAPC_BOOT_ARCH fadt)) (Z.shiftl 1 1)))
  | Panic msg => Panic msg
  | Hang => Hang
  | Fault f => Fault f
  end.

(** The size of the local array [lapicId]. *)
Definition LAPICS : Z := 100.

(** The loop of [walk_madt]: [x] is the next free place of [lapicId], which is
    never read, [nmi] the global [NMI_LINT]. *)
Fixpoint walk_madt_loop (fuel : nat) (madt i x nmi : Z) (m : mem) : outcome Z :=
  match fuel with
  | O => Hang
  | S fuel =>
      if decide (i < rdn 4 m (h_length madt)) then
        let type := rd8 m (MADT_entry madt i) in
        if decide (type = 0 ∧ LAPICS ≤ x) then Fault OutOfBounds else
        let x := if decide (type = 0) then u8 (x + 1) else x in
        let nmi := if decide (type = 4) then rd8 m (MADT_entry madt (u32 (i + 5))) else nmi in
        walk_madt_loop fuel madt (u32 (i + rd8 m (MADT_entry madt (u32 (i + 1))))) x nmi m
      else Ok nmi
  end.

Definition walk_madt (fuel : nat) (madt nmi : Z) (m : mem) : outcome Z := walk_madt_loop fuel madt 0 1 nmi m.

(** ** What they find *)

(** The address of the [k]-th table. *)
Definition table (m : mem) (rsdt k : Z) : ptr := u64 (rdn 4 m (RSDT_entry rsdt k) + HHDM_OFFSET).

Definition is_table (m : mem) (rsdt signature k : Z) : Prop := rdn 4 m (h_signature (table m rsdt k)) = signature.

Lemma get_acpi_sdt_loop_first fuel rsdt signature i (k : nat) m :
  is_table m rsdt signature (i + Z.of_nat k) → (∀ j, i ≤ j < i + Z.of_nat k → ¬ is_table m rsdt signature j) →
  (k < fuel)%nat → get_acpi_sdt_loop fuel rsdt signature i m = Ok (table m rsdt (i + Z.of_nat k)).
Proof.
  revert i k. induction fuel as [|fuel IH]; intros i k Hk Hno Hf; [lia|]. cbn [get_acpi_sdt_loop]. cbv zeta.
  fold (table m rsdt i). destruct k as [|k].
  - replace (i + Z.of_nat 0) with i in * by lia. by rewrite decide_True.
  - rewrite decide_False by (apply Hno; lia). replace (i + Z.of_nat (S k)) with (i + 1 + Z.of_nat k) in * by lia.
    apply IH; [done| |lia]. intros j Hj. apply Hno. lia.
Qed.

Lemma get_acpi_sdt_loop_none fuel rsdt signature i m :
  (∀ j, i ≤ j → ¬ is_table m rsdt signature j) → get_acpi_sdt_loop fuel rsdt signature i m = Hang.
Proof.
  revert i. induction fuel as [|fuel IH]; intros i Hno; [done|]. cbn [get_acpi_sdt_loop]. cbv zeta.
  fold (table m rsdt i). rewrite decide_False by (apply Hno; lia). apply IH. intros j Hj. apply Hno. lia.
Qed.

(** An entry of the MADT: type, length and, for type 4, the pin. *)
Record madt_entry := Entry { e_type : Z; e_length : Z; e_pin : Z }.

(** The entries [es] lie one after the other from offset [i] to offset [last]. *)
Fixpoint entries_at (m : mem) (madt i last : Z) (es : list madt_entry) : Prop :=
  match es with
  | [] => i = last
  | e :: es => rd8 m (MADT_entry madt i) = e_type e ∧ rd8 m (MADT_entry madt (i + 1)) = e_length e ∧
      rd8 m (MADT_entry madt (i + 5)) = e_pin e ∧ 0 < e_length e ∧ entries_at m madt (i + e_length e) last es
  end.

Definition lapics (es : list madt_entry) : Z := Z.of_nat (length (filter (λ e, e_type e = 0) es)).

(** The pin of the last entry of type 4. *)
Definition nmi_pin (nmi : Z) (es : list madt_entry) : Z :=
  fold_left (λ nmi e, if decide (e_type e = 4) then e_pin e else nmi) es nmi.

Lemma entries_at_le m madt i last es : entries_at m madt i last es → i ≤ last.
Proof.
  revert i. induction es as [|e es IH]; intros i; cbn [entries_at]; [lia|].
  intros (_ & _ & _ & Hl & H). specialize (IH _ H). lia.
Qed.

Lemma lapics_cons e es : lapics (e :: es) = (if decide (e_type e = 0) then 1 else 0) + lapics es.
Proof. unfold lapics. rewrite filter_cons. case_decide; cbn [length]; lia. Qed.

(** The walk over some entries. *)
Lemma walk_entries m madt last es fuel i x nmi :
  entries_at m madt i last es → 0 ≤ i → last ≤ rdn 4 m (h_length madt) → last < 2 ^ 32 - 5 → 1 ≤ x → x + lapics es ≤ LAPICS →
  walk_madt_loop (length es + fuel) madt i x nmi m = walk_madt_loop fuel madt last (x + lapics es) (nmi_pin nmi es) m.
Proof.
  revert i x nmi. induction es as [|e es IH]; intros i x nmi; cbn [entries_at length].
  { intros -> _ _ _ _ _. unfold lapics. simpl. by rewrite Z.add_0_r. }
  intros (Et & El & Ep & Hl & Hes) Hi Hlen H32 Hx Hn. pose proof (entries_at_le _ _ _ _ _ Hes) as Hle.
  rewrite lapics_cons in Hn. assert (0 ≤ lapics es) by (unfold lapics; lia). unfold LAPICS in *.
  cbn [Nat.add walk_madt_loop]. rewrite (decide_True (P := i < _)) by lia. cbv zeta. unfold u32.
  rewrite (Z.mod_small (i + 5)), (Z.mod_small (i + 1)) by lia. rewrite Et, El, Ep, (Z.mod_small (i + e_length e)) by lia.
  rewrite decide_False by (case_decide; unfold LAPICS; lia). rewrite IH; try done; try lia.
  - f_equal. rewrite lapics_cons. case_decide; [rewrite u8_small by lia|]; lia.
  - case_decide; [rewrite u8_small by lia|]; lia.
  - case_decide; [rewrite u8_small by lia|]; lia.
Qed.

(** Zero bytes: each is taken for a CPU, and the walk does not move. *)
Lemma walk_zero m madt i fuel x nmi :
  rd8 m (MADT_entry madt i) = 0 → rd8 m (MADT_entry madt (i + 1)) = 0 → 0 ≤ i < rdn 4 m (h_length madt) → i < 2 ^ 32 - 5 →
  1 ≤ x ≤ LAPICS → LAPICS - x < Z.of_nat fuel → walk_madt_loop fuel madt i x nmi m = Fault OutOfBounds.
Proof.
  intros E0 E1 Hi H32. revert x. unfold LAPICS. induction fuel as [|fuel IH]; intros x Hx Hf; [lia|].
  cbn [walk_madt_loop]. rewrite (decide_True (P := i < _)) by lia. cbv zeta. unfold u32. rewrite (Z.mod_small (i + 1)) by lia.
  rewrite E0, E1, Z.add_0_r, (Z.mod_small i) by lia. destruct (decide (x = 100)) as [->|Hne].
  - by rewrite decide_True.
  - rewrite decide_False by (unfold LAPICS; lia). rewrite (decide_True (P := 0 = 0)) by done. rewrite (decide_False (P := 0 = 4)) by done.
    rewrite u8_small by lia. apply IH; lia.
Qed.
