(* ===== verification/Kbd.v ===== *)
(** * kernel/kbd.c, kernel/pic.c, init_pit of kernel/time.c, print of kernel/kernel.c: devices behind ports

    The state is the history of the ports and of the console, newest event
    first.  A device is a parameter: [dev log port] is what it answers to a read
    of [port] after the history [log]. *)

From S2P Require Import Prelude CString Word Acpi.

Local Open Scope Z_scope.

Inductive event := In (port v : Z) | Out (port v : Z) | Shown (bytes : list Z).

(** The history, [spinlock] of 69.h, and the static variables of kbd.c. *)
Record kbd := Kbd { k_log : list event; k_spinlock : Z; key_release : Z; k_flags : Z }.

Definition emit (e : event) (s : kbd) : kbd := Kbd (e :: k_log s) (k_spinlock s) (key_release s) (k_flags s).
Definition set_spinlock (v : Z) (s : kbd) : kbd := Kbd (k_log s) v (key_release s) (k_flags s).
Definition set_key_release (v : Z) (s : kbd) : kbd := Kbd (k_log s) (k_spinlock s) v (k_flags s).
Definition set_k_flags (v : Z) (s : kbd) : kbd := Kbd (k_log s) (k_spinlock s) (key_release s) v.

(** [kbd_us]: 91 initialisers, and zeros up to its 127 bytes. *)
Definition kbd_us : list Z :=
  [0;  0;  0;   0;   0;   0;   0;   0;  0;  0;  0;   0;   0;   9;   0;  0;
   0;  0;  0;   0;   0;   113; 49;  0;  0;  0;  122; 115; 97;  119; 50; 0;
   0;  99; 120; 100; 101; 52;  51;  0;  0;  32; 118; 102; 116; 114; 53; 0;
   0;  110; 98; 104; 103; 121; 54;  0;  0;  0;  109; 106; 117; 55;  56; 0;
   0;  44; 107; 105; 111; 48;  57;  0;  0;  46; 47;  108; 59;  112; 45; 0;
   0;  0;  0;   0;   91;  61;  0;   0;  0;  0;  10] ++ replicate 36 0.

Lemma kbd_us_length : length kbd_us = 127%nat.
Proof. reflexivity. Qed.

Section ports.
(** The devices; the bytes that follow [kbd_us] in memory, which every code
    from 127 on reads. *)
Context (dev : list event → Z → Z) (beyond : Z → Z).

Definition out (port v : Z) : K kbd unit := modify (emit (Out port (u8 v))).
Definition inb (port : Z) : K kbd Z := λ s,
  let v := u8 (dev (k_log s) port) in Ok (v, emit (In port v) s).

(** [print] of kernel.c: the bytes that [strlen] counts go to the console. *)
Definition print (s : ptr) (m : mem) : K kbd unit :=
  st ← get; (if decide (k_spinlock st = 0) then modify (set_spinlock 1) else hang);;
  (λ st, match Str.strlen s m with
         | Ok n => Ok (tt, emit (Shown ((λ i, rd8 m (s + i)) <$> seqZ 0 n)) st)
         | _ => Hang
         end);;
  modify (set_spinlock 0).

(** [ch] points to two bytes, here at address 1. *)
Definition print_char (ch : Z * Z) (flags : Z) : K kbd unit :=
  let c := if decide (Z.land flags 1 ≠ 0 ∨ Z.land flags 2 ≠ 0) then u8 (fst ch - 32) else fst ch in
  print 1 (wr8 (wr8 ∅ 1 c) 2 (snd ch)).

Definition kbd_us_at (keycode : Z) : Z := match kbd_us !! Z.to_nat keycode with Some c => c | None => u8 (beyond keycode) end.

Definition kbd_press : K kbd unit :=
  keycode ← inb 0x60;
  let character := (kbd_us_at keycode, 0) in
  when (bool_decide (keycode = 0xF0)) (modify (set_key_release 1));;
  when (bool_decide (keycode = 0x12)) (modify (λ s, set_k_flags (Z.lxor (k_flags s) 2) s));;
  s ← get;
  when (bool_decide (key_release s = 0))
    (if decide (keycode = 0x58) then modify (λ s, set_k_flags (Z.lxor (k_flags s) 1) s)
     else when (bool_decide (keycode ≠ 0x12)) (print_char character (k_flags s)));;
  s ← get;
  when (bool_decide (keycode ≠ 0xF0 ∧ key_release s ≠ 0)) (modify (set_key_release 0));;
  out 0x20 0x20.

(** ** The controller of the keyboard *)

Definition setconfb (config : Z) : K kbd unit := out 0x64 0x60;; inb 0x64;; out 0x60 config.
Definition getconfb : K kbd Z := out 0x64 0x20;; inb 0x64;; inb 0x60.
Definition getscancode : K kbd Z := out 0x60 0xF0;; inb 0x60;; out 0x60 0;; inb 0x60;; inb 0x60.
Definition gettype : K kbd Z := out 0x60 0xF5;; inb 0x60;; out 0x60 0xF2;; inb 0x60;; inb 0x60.
Definition disdev : K kbd unit := out 0x64 0xAD;; out 0x64 0xA7.

Definition testps2port (port : Z) : K kbd unit :=
  (if decide (port = 1) then out 0x64 0xAB else out 0x64 0xA9);;
  inb 0x64;; buffer ← inb 0x60;
  if decide (buffer ≠ 0) then panic "ERROR: testps2port" else mret tt.

Definition testps2control : K kbd unit :=
  out 0x64 0xAA;; inb 0x64;; buffer ← inb 0x60;
  if decide (buffer ≠ 0x55) then panic "ERROR: testps2control" else mret tt.

(** [rsdt] and [m]: the table and the memory for [check_ps2]. *)
Definition init_kbd (fuel : nat) (rsdt : ptr) (m : mem) : K kbd unit :=
  b ← (λ s, match check_ps2 fuel rsdt m with
            | Ok b => Ok (b, s) | Panic msg => Panic msg | Hang => Hang | Fault f => Fault f end);
  if decide (b = 0) then mret tt else
  disdev;;
  inb 0x60;;
  config ← getconfb;
  setconfb (Z.land config 0x3C);;
  gettype;;
  getscancode;;
  config ← getconfb;
  setconfb (Z.lor config 3);;
  out 0x60 0xF4;;
  out 0x64 0xAE.

(** ** The interrupt controller and the timer *)

Definition PIC1_COMMAND : Z := 0x20.
Definition PIC1_DATA : Z := 0x21.
Definition PIC2_COMMAND : Z := 0xA0.
Definition PIC2_DATA : Z := 0xA1.
Definition ICW1 : Z := 0x10.

Definition unmask_irq (irq : Z) : K kbd unit :=
  imr ← inb 0x21;
  out 0x21 (Z.lxor imr (Z.shiftl 1 irq)).

Definition pic_remap (offset : Z) : K kbd unit :=
  mask ← inb PIC1_DATA;
  mask2 ← inb PIC2_DATA;
  out PIC1_COMMAND (Z.lor ICW1 1);; out PIC2_COMMAND (Z.lor ICW1 1);;
  out PIC1_DATA offset;; out PIC2_DATA offset;;
  out PIC1_DATA 4;; out PIC2_DATA 2;;
  out PIC1_DATA 1;; out PIC2_DATA 1;;
  out PIC1_DATA mask;; out PIC2_DATA mask2.

(** [hz] is not 0. *)
Definition init_pit (hz : Z) : K kbd unit :=
  let divisor := Z.quot 1193180 hz in
  out 0x43 0x34;;
  out 0x40 (Z.land divisor 0xFF);;
  out 0x40 (Z.shiftr divisor 8).

End ports.
