(* ===== verification/DevTheorems.v ===== *)
(** * Firmware tables, the keyboard and the interrupt controller: the properties

    The abstract keyboard knows whether shift is held and whether caps lock
    is on; its steps are the key presses and releases of a keyboard that does
    not repeat shift. *)

From S2P Require Import Prelude CString CStringSpec Word Pmm Slab Acpi Kbd.

Local Open Scope Z_scope.

(** ** The abstract keyboard *)

Record keys := Keys { shift : bool; caps : bool }.
Inductive key_event := Press (k : Z) | Release (k : Z).

Definition codes (e : key_event) : list Z := match e with Press k => [k] | Release k => [0xF0; k] end.

Definition SHIFT : Z := 0x12.
Definition CAPS : Z := 0x58.
Definition code_ok (k : Z) : Prop := 0 ≤ k < 2 ^ 8 ∧ k ≠ 0xF0.

Section keyboard.
Context (beyond : Z → Z).

(** The character of a key. *)
Definition shown (st : keys) (k : Z) : Z :=
  if shift st || caps st then u8 (kbd_us_at beyond k - 32) else kbd_us_at beyond k.

Inductive kstep : keys → key_event → list Z → keys → Prop :=
  | press_shift c : kstep (Keys false c) (Press SHIFT) [] (Keys true c)
  | release_shift c : kstep (Keys true c) (Release SHIFT) [] (Keys false c)
  | press_caps h c : kstep (Keys h c) (Press CAPS) [] (Keys h (negb c))
  | press_key st k : code_ok k → k ≠ SHIFT → k ≠ CAPS → kstep st (Press k) [shown st k] st
  | release_key st k : code_ok k → k ≠ SHIFT → kstep st (Release k) [] st.

Inductive ksteps : keys → list key_event → list Z → keys → Prop :=
  | ksteps_nil st : ksteps st [] [] st
  | ksteps_cons st e o st1 es os st2 :
      kstep st e o st1 → ksteps st1 es os st2 → ksteps st (e :: es) (o ++ os) st2.

(** One interrupt for each code that the keyboard sends. *)
Fixpoint interrupts (cs : list Z) : K kbd unit :=
  match cs with
  | [] => mret tt
  | c :: cs => kbd_press (λ _ _, c) beyond;; interrupts cs
  end.

(** What the console has shown, oldest first. *)
Fixpoint text (log : list event) : list Z :=
  match log with
  | [] => []
  | Shown bs :: log => text log ++ bs
  | _ :: log => text log
  end.

Definition flags_of (st : keys) : Z := (if shift st then 2 else 0) + (if caps st then 1 else 0).

Definition represents (st : keys) (s : kbd) : Prop := k_spinlock s = 0 ∧ key_release s = 0 ∧ k_flags s = flags_of st.

(** The log of an interrupt: the code, what is shown, the end of the interrupt. *)
Definition handled (c : Z) (bs : list Z) (log : list event) : list event :=
  Out 0x20 0x20 :: (if bs is [] then [] else [Shown bs]) ++ In 0x60 c :: log.

Lemma text_handled c bs log : text (handled c bs log) = text log ++ bs.
Proof. destruct bs; simpl; [by rewrite app_nil_r|done]. Qed.

Lemma kbd_us_at_range k : 0 ≤ kbd_us_at beyond k < 2 ^ 8.
Proof.
  unfold kbd_us_at. destruct (kbd_us !! Z.to_nat k) as [c|] eqn:E; [|apply u8_range].
  assert (Forall (λ c, 0 ≤ c < 2 ^ 8) kbd_us) as Hf.
  { apply (bool_decide_unpack _). vm_compute. done. }
  by apply (Forall_lookup_1 _ _ _ _ Hf E).
Qed.

(** The string of one character has length 1, also when the character is 0. *)
Lemma print_char_run c flags log rel fl :
  0 ≤ c < 2 ^ 8 →
  print_char (c, 0) flags (Kbd log 0 rel fl) =
    Ok (tt, Kbd (Shown [if decide (Z.land flags 1 ≠ 0 ∨ Z.land flags 2 ≠ 0) then u8 (c - 32) else c] :: log) 0 rel fl).
Proof.
  intros Hc. unfold print_char. cbn [fst snd].
  set (v := if decide _ then _ else _). assert (0 ≤ v < 2 ^ 8) as Hv by (unfold v; case_decide; [apply u8_range|done]).
  unfold print. rewrite (bind_ok get _ _ _ _ eq_refl). cbn [k_spinlock]. rewrite decide_True by done.
  rewrite (bind_ok (modify (set_spinlock 1)) _ (Kbd log 0 rel fl) tt (Kbd log 1 rel fl) eq_refl).
  assert (Str.strlen 1 (wr8 (wr8 ∅ 1 v) 2 0) = Ok 1) as E.
  { unfold Str.strlen. cbn [Str.strlen_loop]. change (u64 (0 + 1)) with 1. rewrite decide_False by done.
    rewrite decide_True; [done|]. by rewrite rd8_wr8_eq. }
  unfold mbind, K_bind. rewrite E. cbn [modify emit set_spinlock k_log k_spinlock key_release k_flags].
  change (seqZ 0 1) with [0]. cbn [fmap list_fmap]. change (1 + 0) with 1.
  rewrite rd8_wr8_ne, rd8_wr8_eq, u8_small by done. done.
Qed.

Lemma bind_mret {S A B} (a : A) (k : A → K S B) s : (mret a ≫= k) s = k a s.
Proof. done. Qed.

(** One interrupt, for each kind of code. *)
Lemma press_prefix log rel fl :
  kbd_press (λ _ _, 0xF0) beyond (Kbd log 0 rel fl) = Ok (tt, Kbd (handled 0xF0 [] log) 0 1 fl).
Proof. reflexivity. Qed.

Lemma press_shift_run log fl :
  kbd_press (λ _ _, SHIFT) beyond (Kbd log 0 0 fl) = Ok (tt, Kbd (handled SHIFT [] log) 0 0 (Z.lxor fl 2)).
Proof. reflexivity. Qed.

Lemma press_caps_run log fl :
  kbd_press (λ _ _, CAPS) beyond (Kbd log 0 0 fl) = Ok (tt, Kbd (handled CAPS [] log) 0 0 (Z.lxor fl 1)).
Proof. reflexivity. Qed.

Lemma press_released c log fl :
  code_ok c →
  kbd_press (λ _ _, c) beyond (Kbd log 0 1 fl) =
    Ok (tt, Kbd (handled c [] log) 0 0 (if decide (c = SHIFT) then Z.lxor fl 2 else fl)).
Proof.
  intros [Hc Hn]. unfold kbd_press, inb, SHIFT. unfold mbind at 1, K_bind at 1. rewrite (u8_small c) by done. cbv zeta.
  rewrite (bool_decide_eq_false_2 (c = 0xF0)) by done. destruct (decide (c = 0x12)) as [->|E].
  - reflexivity.
  - rewrite (bool_decide_eq_false_2 (c = 0x12)) by done. cbn [when]. rewrite !bind_mret, (bind_ok get _ _ _ _ eq_refl).
    cbn [emit key_release]. rewrite (bool_decide_eq_false_2 (1 = 0)) by done. cbn [when].
    rewrite bind_mret, (bind_ok get _ _ _ _ eq_refl). cbn [emit key_release]. by rewrite bool_decide_eq_true_2.
Qed.

Lemma press_char_run c log fl :
  code_ok c → c ≠ SHIFT → c ≠ CAPS →
  kbd_press (λ _ _, c) beyond (Kbd log 0 0 fl) =
    Ok (tt, Kbd (handled c [if decide (Z.land fl 1 ≠ 0 ∨ Z.land fl 2 ≠ 0) then u8 (kbd_us_at beyond c - 32) else kbd_us_at beyond c] log) 0 0 fl).
Proof.
  intros [Hc Hn] Hs Hk. unfold SHIFT, CAPS in *. unfold kbd_press, inb. unfold mbind at 1, K_bind at 1. rewrite (u8_small c) by done. cbv zeta.
  rewrite (bool_decide_eq_false_2 (c = 0xF0)), (bool_decide_eq_false_2 (c = 0x12)) by done.
  cbn [when]. rewrite !bind_mret, (bind_ok get _ _ _ _ eq_refl). cbn [emit key_release k_flags k_spinlock k_log].
  rewrite bool_decide_eq_true_2 by done. cbn [when]. rewrite decide_False by done. rewrite bool_decide_eq_true_2 by done. cbn [when].
  change (emit (In 0x60 c) (Kbd log 0 0 fl)) with (Kbd (In 0x60 c :: log) 0 0 fl).
  rewrite (bind_ok _ _ _ _ _ (print_char_run _ _ _ _ _ (kbd_us_at_range c))).
  rewrite (bind_ok get _ _ _ _ eq_refl). cbn [key_release]. by rewrite bool_decide_eq_false_2 by (intros []; done).
Qed.

(** ** Runs *)

Lemma shown_flags st k :
  (if decide (Z.land (flags_of st) 1 ≠ 0 ∨ Z.land (flags_of st) 2 ≠ 0) then u8 (kbd_us_at beyond k - 32) else kbd_us_at beyond k) = shown st k.
Proof. unfold shown. destruct st as [[] []]; reflexivity. Qed.

Lemma kstep_run st e o st1 s :
  kstep st e o st1 → represents st s →
  ∃ s1, interrupts (codes e) s = Ok (tt, s1) ∧ represents st1 s1 ∧ text (k_log s1) = text (k_log s) ++ o.
Proof.
  intros Hk (Hs & Hr & Hf). destruct s as [log sp rel fl]. simpl in Hs, Hr, Hf. subst sp rel fl.
  destruct Hk as [c|c|h c|st k Hk H1 H2|st k Hk H1]; cbn [codes interrupts].
  - rewrite (bind_ok _ _ _ _ _ (press_shift_run _ _)). eexists. split; [reflexivity|].
    split; [by destruct c|]. cbn [k_log]. by rewrite text_handled.
  - rewrite (bind_ok _ _ _ _ _ (press_prefix _ _ _)). rewrite (bind_ok _ _ _ _ _ (press_released SHIFT _ _ ltac:(done))).
    eexists. split; [reflexivity|]. split; [by destruct c|]. cbn [k_log]. by rewrite !text_handled, !app_nil_r.
  - rewrite (bind_ok _ _ _ _ _ (press_caps_run _ _)). eexists. split; [reflexivity|].
    split; [by destruct h, c|]. cbn [k_log]. by rewrite text_handled.
  - rewrite (bind_ok _ _ _ _ _ (press_char_run k _ _ Hk H1 H2)). eexists. split; [reflexivity|].
    split; [done|]. cbn [k_log]. by rewrite text_handled, shown_flags.
  - rewrite (bind_ok _ _ _ _ _ (press_prefix _ _ _)). rewrite (bind_ok _ _ _ _ _ (press_released k _ _ Hk)).
    rewrite decide_False by done. eexists. split; [reflexivity|]. split; [done|]. cbn [k_log]. by rewrite !text_handled, !app_nil_r.
Qed.

Lemma interrupts_app cs cs' s s1 : interrupts cs s = Ok (tt, s1) → interrupts (cs ++ cs') s = interrupts cs' s1.
Proof.
  revert s. induction cs as [|c cs IH]; intros s; [by intros [= ->]|]. cbn [interrupts app].
  intros E. apply bind_inv in E as ([] & s2 & E1 & E2). rewrite (bind_ok _ _ _ _ _ E1). by apply IH.
Qed.

(** C23: the keyboard interrupts for any sequence of key presses and releases, in
    which a held shift is not pressed again, return and do what the abstract keyboard
    says: the press of a key that is neither shift nor caps lock shows one byte, the entry
    of kbd_us, less 32 modulo 256 while shift is held or caps lock is on, and so a byte 0
    or 224 for a key whose entry is 0, and for a code from 127 on what lies behind the
    table; shift, caps lock and releases show nothing. *)
Theorem kbd_refines st es os st' s :
  ksteps st es os st' → represents st s →
  ∃ s', interrupts (concat (codes <$> es)) s = Ok (tt, s') ∧ represents st' s' ∧ text (k_log s') = text (k_log s) ++ os.
Proof.
  intros Hk. revert s. induction Hk as [st|st e o st1 es os st2 He _ IH]; intros s Hr.
  - exists s. split; [done|]. split; [done|]. by rewrite app_nil_r.
  - destruct (kstep_run st e o st1 s He Hr) as (s1 & E1 & Hr1 & T1). destruct (IH s1 Hr1) as (s2 & E2 & Hr2 & T2).
    exists s2. split; [|split; [done|by rewrite T2, T1, app_assoc]].
    cbn [fmap list_fmap concat]. by rewrite (interrupts_app _ _ _ _ E1).
Qed.

End keyboard.

(** Shift and q, then q and F1, which has no character: "Qq" and a byte 0. *)
Theorem kbd_refines_witness :
  ∃ s', interrupts (λ _, 7) [0x12; 0x15; 0xF0; 0x15; 0xF0; 0x12; 0x15; 0x05] (Kbd [] 0 0 0) = Ok (tt, s') ∧
    text (k_log s') = [81; 113; 0].
Proof.
  destruct (kbd_refines (λ _, 7) (Keys false false) [Press SHIFT; Press 0x15; Release 0x15; Release SHIFT; Press 0x15; Press 0x05]
    [81; 113; 0] (Keys false false) (Kbd [] 0 0 0)) as (s' & E & _ & T).
  - apply (ksteps_cons _ _ _ [] (Keys true false)); [constructor|]. apply (ksteps_cons _ _ _ [81] (Keys true false) _ [113; 0]).
    { by apply (press_key _ (Keys true false) 0x15). }
    apply (ksteps_cons _ _ _ [] (Keys true false)); [by constructor|]. apply (ksteps_cons _ _ _ [] (Keys false false)); [constructor|].
    apply (ksteps_cons _ _ _ [113] (Keys false false) _ [0]); [by apply (press_key _ (Keys false false) 0x15)|].
    apply (ksteps_cons _ _ _ [0] (Keys false false) _ []); [by apply (press_key _ (Keys false false) 0x05)|constructor].
  - done.
  - exists s'. split; [exact E|exact T].
Defined.

(** A second press of shift while it is held, which keyboards send by themselves,
    ends it. *)
Theorem kbd_shift_repeats beyond log :
  ∃ log', interrupts beyond [SHIFT; SHIFT] (Kbd log 0 0 0) = Ok (tt, Kbd log' 0 0 0).
Proof. eexists. reflexivity. Qed.

(** A key that is pressed while [print] runs: the interrupt waits for ever for the
    lock that the code it interrupted holds. *)
Theorem kbd_press_deadlocks beyond c s :
  code_ok c → c ≠ SHIFT → c ≠ CAPS → k_spinlock s = 1 → key_release s = 0 → kbd_press (λ _ _, c) beyond s = Hang.
Proof.
  intros [Hc Hn] Hs Hk Hl Hr. destruct s as [log sp rel fl]. simpl in Hl, Hr. subst sp rel. unfold SHIFT, CAPS in *.
  unfold kbd_press, inb. unfold mbind at 1, K_bind at 1. rewrite (u8_small c) by done. cbv zeta.
  rewrite (bool_decide_eq_false_2 (c = 0xF0)), (bool_decide_eq_false_2 (c = 0x12)) by done.
  cbn [when]. rewrite !bind_mret, (bind_ok get _ _ _ _ eq_refl). cbn [emit key_release k_flags k_spinlock k_log].
  rewrite bool_decide_eq_true_2 by done. cbn [when]. rewrite decide_False by done. rewrite bool_decide_eq_true_2 by done. cbn [when].
  reflexivity.
Qed.

Theorem kbd_press_deadlocks_witness : kbd_press (λ _ _, 0x15) (λ _, 0) (Kbd [] 1 0 0) = Hang.
Proof. by apply kbd_press_deadlocks. Defined.

(** ** Firmware tables *)

(** C37: walk_madt over entries that lie one after the other up to the length of
    the table returns the pin of the last NMI entry. But the length counts the 44 bytes
    before the entries: for a table of the firmware the entries end earlier, and
    if zeros follow them, they are taken for CPUs of length 0 until the array
    lapicId is overrun. *)
Theorem madt_walk madt last es nmi m :
  entries_at m madt 0 last es → lapics es < LAPICS → last ≤ rdn 4 m (h_length madt) → last < 2 ^ 32 - 5 →
  (last = rdn 4 m (h_length madt) → ∀ fuel, (length es < fuel)%nat → walk_madt fuel madt nmi m = Ok (nmi_pin nmi es)) ∧
  (last < rdn 4 m (h_length madt) → rd8 m (MADT_entry madt last) = 0 → rd8 m (MADT_entry madt (last + 1)) = 0 →
    ∀ fuel, (length es + 100 ≤ fuel)%nat → walk_madt fuel madt nmi m = Fault OutOfBounds).
Proof.
  intros Hes Hn Hle H32. pose proof (entries_at_le _ _ _ _ _ Hes) as H0. assert (0 ≤ lapics es) by (unfold lapics; lia).
  unfold LAPICS in Hn. split.
  - intros El fuel Hf. replace fuel with (length es + S (fuel - length es - 1))%nat by lia. unfold walk_madt.
    rewrite (walk_entries m madt last) by (done || unfold LAPICS; lia). cbn [walk_madt_loop]. by rewrite decide_False by lia.
  - intros Hl E0 E1 fuel Hf. replace fuel with (length es + (fuel - length es))%nat by lia. unfold walk_madt.
    rewrite (walk_entries m madt last) by (done || unfold LAPICS; lia). apply walk_zero; unfold LAPICS; done || lia.
Qed.

(** A table of one CPU entry: 8 bytes of entries, 52 of table. *)
Definition madt_mem : mem := wr8 (wr8 ∅ 0x1004 52) (0x1000 + 45) 8.

Theorem madt_walk_witness : walk_madt 101 0x1000 0 madt_mem = Fault OutOfBounds.
Proof.
  destruct (madt_walk 0x1000 8 [Entry 0 8 0] 0 madt_mem) as [_ H].
  - repeat split; reflexivity.
  - reflexivity.
  - apply (bool_decide_unpack _). vm_compute. done.
  - reflexivity.
  - apply H; [reflexivity|reflexivity|reflexivity|simpl; lia].
Defined.

(** get_acpi_sdt returns the first table of the RSDT with the signature; the
    number of tables is not looked at, so that a signature that is nowhere in memory
    is searched for ever. *)
Theorem acpi_first_table rsdt signature (k : nat) m :
  (is_table m rsdt signature (Z.of_nat k) → (∀ j, 0 ≤ j < Z.of_nat k → ¬ is_table m rsdt signature j) →
    ∀ fuel, (k < fuel)%nat → get_acpi_sdt fuel rsdt signature m = Ok (table m rsdt (Z.of_nat k))) ∧
  ((∀ j, 0 ≤ j → ¬ is_table m rsdt signature j) → ∀ fuel, get_acpi_sdt fuel rsdt signature m = Hang).
Proof.
  split.
  - intros Hk Hno fuel Hf. unfold get_acpi_sdt. by rewrite (get_acpi_sdt_loop_first fuel rsdt signature 0 k).
  - intros Hno fuel. by apply get_acpi_sdt_loop_none.
Qed.

(** An RSDT at 0x1000 with an unknown table and a FADT at 0x2000 and 0x3000. *)
Definition acpi_mem : mem :=
  wrn 2 (wrn 4 (wrn 4 (wrn 4 (wrn 4 ∅ 0x1024 0x2000) 0x1028 0x3000) (HHDM_OFFSET + 0x2000) 0x54455048)
    (HHDM_OFFSET + 0x3000) FADT_CODE) (HHDM_OFFSET + 0x3000 + 108) 2.

Theorem acpi_first_table_witness : get_acpi_sdt 2 0x1000 FADT_CODE acpi_mem = Ok (HHDM_OFFSET + 0x3000).
Proof.
  destruct (acpi_first_table 0x1000 FADT_CODE 1 acpi_mem) as [H _]. rewrite H; [reflexivity|reflexivity| |lia].
  intros j Hj E. assert (j = 0) as -> by lia. vm_compute in E. discriminate.
Defined.

(** ** The keyboard controller *)

(** After the command 0x60 the next byte written to the data port is the configuration. *)
Fixpoint takes_config (log : list event) : bool :=
  match log with
  | In 0x64 _ :: log => takes_config log
  | Out 0x64 0x60 :: _ => true
  | _ => false
  end.

(** A command that disables or enables a port, on the configuration byte: bit 4
    disables the first port, bit 5 the second. *)
Definition port_command (cmd c : Z) : Z :=
  if decide (cmd = 0xAD) then Z.lor c 0x10
  else if decide (cmd = 0xAE) then Z.ldiff c 0x10
  else if decide (cmd = 0xA7) then Z.lor c 0x20
  else if decide (cmd = 0xA8) then Z.ldiff c 0x20
  else c.

(** The configuration byte of the controller after a history, [c0] at first. *)
Fixpoint config_of (c0 : Z) (log : list event) : Z :=
  match log with
  | [] => c0
  | Out p v :: log =>
      if decide (p = 0x64) then port_command v (config_of c0 log)
      else if decide (p = 0x60) then (if takes_config log then v else config_of c0 log)
      else config_of c0 log
  | _ :: log => config_of c0 log
  end.

Section controller.
Context (dev : list event → Z → Z) (c0 : Z).
Context (Hdev : ∀ st log, dev (In 0x64 st :: Out 0x64 0x20 :: log) 0x60 = config_of c0 log).

Lemma out_run p v log sp rel fl : out p v (Kbd log sp rel fl) = Ok (tt, Kbd (Out p (u8 v) :: log) sp rel fl).
Proof. done. Qed.

Lemma inb_run p log sp rel fl :
  inb dev p (Kbd log sp rel fl) = Ok (u8 (dev log p), Kbd (In p (u8 (dev log p)) :: log) sp rel fl).
Proof. done. Qed.

Lemma getconfb_run log sp rel fl :
  0 ≤ config_of c0 log < 2 ^ 8 →
  ∃ log', getconfb dev (Kbd log sp rel fl) = Ok (config_of c0 log, Kbd log' sp rel fl) ∧ config_of c0 log' = config_of c0 log.
Proof.
  intros Hc. unfold getconfb. rewrite (bind_ok _ _ _ _ _ (out_run _ _ _ _ _ _)), (bind_ok _ _ _ _ _ (inb_run _ _ _ _ _)).
  change (u8 0x20) with 0x20. rewrite inb_run, Hdev. rewrite u8_small by done. by eexists.
Qed.

Lemma setconfb_run c log sp rel fl :
  0 ≤ c < 2 ^ 8 →
  ∃ log', setconfb dev c (Kbd log sp rel fl) = Ok (tt, Kbd log' sp rel fl) ∧ config_of c0 log' = c ∧ takes_config log' = false.
Proof.
  intros Hc. unfold setconfb. rewrite (bind_ok _ _ _ _ _ (out_run _ _ _ _ _ _)), (bind_ok _ _ _ _ _ (inb_run _ _ _ _ _)).
  rewrite out_run, (u8_small c) by done. by eexists.
Qed.

Lemma byte_of_bits z : (∀ n, 8 ≤ n → Z.testbit z n = false) → z = u8 z.
Proof.
  intros H. apply Z.bits_inj'. intros n Hn. unfold u8. destruct (Z.lt_ge_cases n 8) as [Hlt|Hge].
  - by rewrite Z.mod_pow2_bits_low.
  - by rewrite Z.mod_pow2_bits_high, H.
Qed.

Lemma byte_range z : (∀ n, 8 ≤ n → Z.testbit z n = false) → 0 ≤ z < 2 ^ 8.
Proof. intros H. rewrite (byte_of_bits z H). apply u8_range. Qed.

Lemma lor_range a b : 0 ≤ a < 2 ^ 8 → 0 ≤ b < 2 ^ 8 → 0 ≤ Z.lor a b < 2 ^ 8.
Proof. intros Ha Hb. apply byte_range. intros n Hn. by rewrite Z.lor_spec, !(small_testbit _ n). Qed.

Lemma land_range a b : 0 ≤ a < 2 ^ 8 → 0 ≤ b < 2 ^ 8 → 0 ≤ Z.land a b < 2 ^ 8.
Proof. intros Ha Hb. apply byte_range. intros n Hn. by rewrite Z.land_spec, !(small_testbit _ n). Qed.

(** What the two writes and the three commands make of the byte. *)
Lemma config_result c :
  Z.ldiff (Z.lor (Z.land (Z.lor (Z.lor c 0x10) 0x20) 0x3C) 3) 0x10 = Z.lor (Z.land c 0x0C) 0x23.
Proof.
  apply Z.bits_inj'. intros n Hn. rewrite Z.ldiff_spec, !Z.lor_spec, !Z.land_spec, !Z.lor_spec.
  destruct (Z.lt_ge_cases n 8) as [Hlt|Hge]; [|].
  2:{ rewrite (small_testbit 0x3C n), (small_testbit 0x0C n), (small_testbit 3 n), (small_testbit 0x23 n) by lia. by rewrite !andb_false_r. }
 
  destruct (Z.testbit c n); assert (n = 0 ∨ n = 1 ∨ n = 2 ∨ n = 3 ∨ n = 4 ∨ n = 5 ∨ n = 6 ∨ n = 7) as Hc by lia;
    by destruct Hc as [->|[->|[->|[->|[->|[->|[->| ->]]]]]]].
Qed.

(** C39: on a controller whose configuration byte is what was written to it last, with
    the commands 0xAD, 0xAE, 0xA7 and 0xA8 setting and clearing the bits that disable a
    port, init_kbd leaves translation (bit 6) off, both interrupts (bits 0 and 1)
    on, the first port enabled (bit 4 clear), bits 2 and 3 as they were, and
    the second port disabled (bit 5 set): it disables both ports, keeps
    their bits in both writes of the byte, and enables the first one only. *)
Theorem init_kbd_config fuel rsdt m b s :
  check_ps2 fuel rsdt m = Ok b → b ≠ 0 → 0 ≤ config_of c0 (k_log s) < 2 ^ 8 →
  ∃ s', init_kbd dev fuel rsdt m s = Ok (tt, s') ∧
    config_of c0 (k_log s') = Z.lor (Z.land (config_of c0 (k_log s)) 0x0C) 0x23.
Proof.
  intros Hb Hb0 Hc. unfold init_kbd. unfold mbind at 1, K_bind at 1. rewrite Hb, decide_False by done.
  destruct s as [log sp rel fl]. cbn [k_log] in Hc |- *. rewrite <-config_result. set (c := config_of c0 log) in *.
  set (c1 := Z.lor (Z.lor c 0x10) 0x20). set (c2 := Z.land c1 0x3C). set (c3 := Z.lor c2 3).
  assert (0 ≤ c1 < 2 ^ 8) as R1 by (by repeat apply lor_range).
  assert (0 ≤ c2 < 2 ^ 8) as R2 by (by apply land_range). assert (0 ≤ c3 < 2 ^ 8) as R3 by (by apply lor_range).
  assert (∃ log1, disdev (Kbd log sp rel fl) = Ok (tt, Kbd log1 sp rel fl) ∧ config_of c0 log1 = c1) as (log1 & E1 & H1) by (by eexists).
  rewrite (bind_ok _ _ _ _ _ E1), (bind_ok _ _ _ _ _ (inb_run _ _ _ _ _)).
  set (log2 := In 0x60 _ :: log1). assert (config_of c0 log2 = c1) as H2 by done. clearbody log2.
  destruct (getconfb_run log2 sp rel fl ltac:(by rewrite H2)) as (log3 & E3 & _). rewrite (bind_ok _ _ _ _ _ E3), H2.
  destruct (setconfb_run c2 log3 sp rel fl R2) as (log4 & E4 & H4 & T4). rewrite (bind_ok _ _ _ _ _ E4).
  assert (∃ a log5, (gettype dev;; getscancode dev) (Kbd log4 sp rel fl) = Ok (a, Kbd log5 sp rel fl) ∧
    config_of c0 log5 = c2) as (a & log5 & E5 & H5).
  { do 2 eexists. split; [reflexivity|]. cbn. by rewrite T4. } rewrite <-bind_assoc, (bind_ok _ _ _ _ _ E5).
  destruct (getconfb_run log5 sp rel fl ltac:(by rewrite H5)) as (log6 & E6 & _). rewrite (bind_ok _ _ _ _ _ E6), H5.
  destruct (setconfb_run c3 log6 sp rel fl R3) as (log7 & E7 & H7 & T7). rewrite (bind_ok _ _ _ _ _ E7), <-H7. eexists. split; [reflexivity|].
  cbn [k_log config_of]. change (u8 0x60) with 0x60. cbn. by rewrite T7.
Qed.

End controller.

Definition controller (log : list event) (port : Z) : Z :=
  match log with
  | In 0x64 _ :: Out 0x64 0x20 :: log => if decide (port = 0x60) then config_of 0x47 log else 0
  | _ => 0
  end.

Theorem init_kbd_config_witness :
  check_ps2 2 0x1000 acpi_mem = Ok 2 ∧
  ∃ s', init_kbd controller 2 0x1000 acpi_mem (Kbd [] 0 0 0) = Ok (tt, s') ∧ config_of 0x47 (k_log s') = 0x27.
Proof.
  assert (check_ps2 2 0x1000 acpi_mem = Ok 2) as E by (vm_compute; reflexivity). split; [exact E|].
  destruct (init_kbd_config controller 0x47) with (fuel := 2%nat) (rsdt := 0x1000) (m := acpi_mem) (b := 2) (s := Kbd [] 0 0 0) as (s' & E' & H);
    [reflexivity|exact E|discriminate|simpl; lia|].
  exists s'. split; [exact E'|]. refine (eq_trans H _). vm_compute. reflexivity.
Defined.
