(* ===== verification/Isr.v ===== *)
(** * kernel/isr.asm: the way into [trap] and back

    The processor delivers an interrupt on a stack, [irq_stub] adds the vector,
    [alltraps] the registers: together they are the [struct regs] of
    include/franklin/switch.h.  [trap] is a parameter, a step on the machine. *)

From S2P Require Import Prelude CString CStringSpec Word.

Local Open Scope Z_scope.

(** The registers that the C calling convention does not preserve, and rbp. *)
Record gpr := Gpr {
  g_rbp : Z; g_rax : Z; g_rcx : Z; g_rdx : Z; g_rdi : Z; g_rsi : Z; g_r8 : Z; g_r9 : Z; g_r10 : Z; g_r11 : Z }.

(** What [iretq] loads. *)
Record context := Context_ { c_rip : Z; c_cs : Z; c_eflags : Z; c_rsp : Z; c_ss : Z }.

Record isr := Isr { i_mem : mem; i_gpr : gpr; i_ctx : context }.

Definition set_i_mem (m : mem) (s : isr) : isr := Isr m (i_gpr s) (i_ctx s).
Definition set_i_gpr (g : gpr) (s : isr) : isr := Isr (i_mem s) g (i_ctx s).
Definition set_i_rsp (v : Z) (s : isr) : isr :=
  let c := i_ctx s in Isr (i_mem s) (i_gpr s) (Context_ (c_rip c) (c_cs c) (c_eflags c) v (c_ss c)).
Definition i_rsp (s : isr) : Z := c_rsp (i_ctx s).
Definition set_rdi (v : Z) (g : gpr) : gpr :=
  Gpr (g_rbp g) (g_rax g) (g_rcx g) (g_rdx g) v (g_rsi g) (g_r8 g) (g_r9 g) (g_r10 g) (g_r11 g).
Definition set_rbp (v : Z) (g : gpr) : gpr :=
  Gpr v (g_rax g) (g_rcx g) (g_rdx g) (g_rdi g) (g_rsi g) (g_r8 g) (g_r9 g) (g_r10 g) (g_r11 g).

Definition push (v : Z) : K isr unit :=
  modify (λ s, let a := u64 (i_rsp s - 8) in set_i_rsp a (set_i_mem (wr64 (i_mem s) a v) s)).
Definition pop : K isr Z := λ s, Ok (rd64 (i_mem s) (i_rsp s), set_i_rsp (u64 (i_rsp s + 8)) s).

Fixpoint push_list (vs : list Z) : K isr unit :=
  match vs with [] => mret tt | v :: vs => push v;; push_list vs end.
Fixpoint pop_list (n : nat) : K isr (list Z) :=
  match n with O => mret [] | S n => v ← pop; l ← pop_list n; mret (v :: l) end.

Definition pushregs : K isr unit :=
  s ← get; let g := i_gpr s in
  push_list [g_rbp g; g_rax g; g_rcx g; g_rdx g; g_rdi g; g_rsi g; g_r8 g; g_r9 g; g_r10 g; g_r11 g].

Definition popregs : K isr unit :=
  l ← pop_list 10;
  match l with
  | [r11; r10; r9; r8; rsi; rdi; rdx; rcx; rax; rbp] =>
      modify (set_i_gpr (Gpr rbp rax rcx rdx rdi rsi r8 r9 r10 r11))
  | _ => mret tt
  end.

(** The processor: an interrupt on the stack [stack], and the return from it. *)
Definition deliver (stack handler : Z) : K isr unit :=
  s ← get; let c := i_ctx s in
  modify (set_i_rsp (Z.land stack (Z.lnot 0xf)));;
  push_list [c_ss c; c_rsp c; c_eflags c; c_cs c; c_rip c];;
  modify (λ s, Isr (i_mem s) (i_gpr s) (Context_ handler 0x28 (Z.ldiff (c_eflags c) 0x200) (i_rsp s) (c_ss c))).

Definition iretq : K isr unit :=
  l ← pop_list 5;
  match l with
  | [rip; cs; eflags; rsp; ss] => modify (λ s, Isr (i_mem s) (i_gpr s) (Context_ rip cs eflags rsp ss))
  | _ => mret tt
  end.

Definition cld : K isr unit :=
  modify (λ s, let c := i_ctx s in
    Isr (i_mem s) (i_gpr s) (Context_ (c_rip c) (c_cs c) (Z.ldiff (c_eflags c) 0x400) (c_rsp c) (c_ss c))).

Section isr.
(** The function [trap] of idt.c with the address it returns to. *)
Context (trap : K isr unit) (ra : Z).

(** The label [ret]. *)
Definition ret : K isr unit :=
  popregs;;
  modify (λ s, set_i_rsp (u64 (i_rsp s + 8)) s);;
  iretq.

(** [alltraps] from the instruction after [pushregs] to the call of [trap], and
    from the return of [trap] on. *)
Definition alltraps_before : K isr unit :=
  modify (λ s, set_i_gpr (set_rbp (i_rsp s) (i_gpr s)) s);;
  modify (λ s, set_i_rsp (Z.land (i_rsp s) (Z.lnot 0xf)) s);;
  modify (λ s, set_i_gpr (set_rdi (g_rbp (i_gpr s)) (i_gpr s)) s);;
  push ra.
Definition alltraps_after : K isr unit :=
  pop;;
  modify (λ s, set_i_rsp (g_rbp (i_gpr s)) s);;
  ret.
Definition alltraps_call : K isr unit := alltraps_before;; trap;; alltraps_after.

Definition alltraps : K isr unit := cld;; pushregs;; alltraps_call.

Definition irq_stub (code : Z) : K isr unit := push code;; alltraps.
End isr.

(** An interrupt from its delivery to the instruction that is resumed. *)
Definition interrupt (trap : K isr unit) (ra stack handler code : Z) : K isr unit :=
  deliver stack handler;; irq_stub trap ra code.

(** ** Pushes and pops *)

Definition word (v : Z) : Prop := 0 ≤ v < 2 ^ 64.

Lemma push_list_ok vs s :
  Forall word vs → 8 * Z.of_nat (length vs) ≤ i_rsp s < 2 ^ 64 →
  let a := i_rsp s - 8 * Z.of_nat (length vs) in
  ∃ m, push_list vs s = Ok (tt, set_i_rsp a (set_i_mem m s)) ∧ words m a (length vs) = rev vs ∧
    ∀ b, ¬ (a ≤ b < i_rsp s) → rd8 m b = rd8 (i_mem s) b.
Proof.
  revert s. induction vs as [|v vs IH]; intros s Hw Hr a; cbn [length] in *.
  - exists (i_mem s). split; [|by split]. unfold a. rewrite Z.sub_0_r. by destruct s as [? ? []].
  - apply Forall_cons in Hw as [Hv Hw]. cbn [push_list].
    set (s1 := set_i_rsp (i_rsp s - 8) (set_i_mem (wr64 (i_mem s) (i_rsp s - 8) v) s)).
    destruct (IH s1 Hw) as (m & E & Hws & Hout); [unfold s1, i_rsp; simpl; fold (i_rsp s); lia|].
    change (i_rsp s1) with (i_rsp s - 8) in *. change (i_mem s1) with (wr64 (i_mem s) (i_rsp s - 8) v) in Hout.
    replace (i_rsp s - 8 - 8 * Z.of_nat (length vs)) with a in * by (unfold a; lia).
    exists m. split; [|split].
    + rewrite (bind_ok (push v) _ s tt s1).
      * exact E.
      * unfold push, modify. by rewrite u64_small by lia.
    + replace (Datatypes.S (length vs)) with (length vs + 1)%nat by lia. rewrite words_app, Hws. cbn [rev]. f_equal.
      cbn [words]. replace (a + 8 * Z.of_nat (length vs)) with (i_rsp s - 8) by (unfold a; lia). f_equal.
      transitivity (rd64 (wr64 (i_mem s) (i_rsp s - 8) v) (i_rsp s - 8)).
      * apply rdn_ext. intros b Hb. apply Hout. simpl in Hb. lia.
      * rewrite rd64_wr64_eq. by apply u64_small.
    + intros b Hb. rewrite Hout by lia. apply rd8_wr64_ne. lia.
Qed.

Lemma pop_list_ok n s :
  0 ≤ i_rsp s → i_rsp s + 8 * Z.of_nat n < 2 ^ 64 →
  pop_list n s = Ok (words (i_mem s) (i_rsp s) n, set_i_rsp (i_rsp s + 8 * Z.of_nat n) s).
Proof.
  revert s. induction n as [|n IH]; intros s H0 Hr; cbn [pop_list words].
  - rewrite Z.add_0_r. by destruct s as [? ? []].
  - set (s1 := set_i_rsp (i_rsp s + 8) s).
    rewrite (bind_ok pop _ s (rd64 (i_mem s) (i_rsp s)) s1) by (unfold pop; by rewrite u64_small by lia).
    rewrite (bind_ok _ _ _ _ _ (IH s1 ltac:(unfold s1, i_rsp; simpl; fold (i_rsp s); lia) ltac:(unfold s1, i_rsp; simpl; fold (i_rsp s); lia))).
    change (i_rsp s1) with (i_rsp s + 8). change (i_mem s1) with (i_mem s).
    unfold mret, K_ret. do 2 f_equal. unfold s1, set_i_rsp. simpl. do 2 f_equal. lia.
Qed.

(** ** The frame *)

Definition floor16 (v : Z) : Z := Z.land v (Z.lnot 0xf).

Lemma floor16_spec v : floor16 v = v - v mod 16.
Proof.
  unfold floor16. rewrite <-Z.ldiff_land. change 0xf with (Z.ones 4). rewrite Z.ldiff_ones_r, Z.shiftl_mul_pow2, Z.shiftr_div_pow2 by done.
  change (2 ^ 4) with 16. pose proof (Z.div_mod v 16 ltac:(done)). lia.
Qed.

Lemma floor16_self v : v mod 16 = 0 → floor16 v = v.
Proof. intros H. rewrite floor16_spec. lia. Qed.

(** [struct regs]: the registers of [g], the vector and the context [c]. *)
Definition frame (g : gpr) (code : Z) (c : context) : list Z :=
  [g_r11 g; g_r10 g; g_r9 g; g_r8 g; g_rsi g; g_rdi g; g_rdx g; g_rcx g; g_rax g; g_rbp g; code;
   c_rip c; c_cs c; c_eflags c; c_rsp c; c_ss c].

(** The machine that a frame in memory describes. *)
Definition resumed (m : mem) (a : Z) : isr :=
  Isr m (Gpr (rd64 m (a + 72)) (rd64 m (a + 64)) (rd64 m (a + 56)) (rd64 m (a + 48)) (rd64 m (a + 40)) (rd64 m (a + 32))
             (rd64 m (a + 24)) (rd64 m (a + 16)) (rd64 m (a + 8)) (rd64 m a))
    (Context_ (rd64 m (a + 88)) (rd64 m (a + 96)) (rd64 m (a + 104)) (rd64 m (a + 112)) (rd64 m (a + 120))).

Ltac sum_constants := repeat match goal with |- context [Zpos ?x + Zpos ?y] =>
  let v := eval vm_compute in (Zpos x + Zpos y) in change (Zpos x + Zpos y) with v end.

Lemma resumed_frame m a g code c : words m a 16 = frame g code c → resumed m a = Isr m g c.
Proof.
  cbn [words]. rewrite <-!Z.add_assoc. sum_constants.
  intros [= E0 E1 E2 E3 E4 E5 E6 E7 E8 E9 _ E11 E12 E13 E14 E15]. unfold resumed.
  rewrite E0, E1, E2, E3, E4, E5, E6, E7, E8, E9, E11, E12, E13, E14, E15. by destruct g, c.
Qed.

(** The label [ret] with the stack pointer at a frame. *)
Lemma ret_ok s a :
  i_rsp s = a → 0 ≤ a < 2 ^ 64 - 128 → ret s = Ok (tt, resumed (i_mem s) a).
Proof.
  intros Ha Hr. unfold ret, popregs.
  rewrite (bind_ok _ _ s tt (set_i_gpr (i_gpr (resumed (i_mem s) a)) (set_i_rsp (a + 80) s))).
  2:{ rewrite (bind_ok _ _ _ _ _ (pop_list_ok 10 s ltac:(lia) ltac:(lia))). cbn [words]. rewrite Ha, <-!Z.add_assoc. done. }
  set (s1 := set_i_rsp (a + 88) (set_i_gpr (i_gpr (resumed (i_mem s) a)) s)).
  rewrite (bind_ok (modify _) _ _ tt s1).
  2:{ unfold modify. change (i_rsp _) with (a + 80). rewrite u64_small by lia. do 2 f_equal. unfold s1, set_i_rsp. simpl. do 2 f_equal. lia. }
  unfold iretq. rewrite (bind_ok _ _ _ _ _ (pop_list_ok 5 s1 ltac:(change (i_rsp s1) with (a + 88); lia) ltac:(change (i_rsp s1) with (a + 88); lia))).
  change (i_rsp s1) with (a + 88). change (i_mem s1) with (i_mem s). cbn [words]. rewrite <-!Z.add_assoc. done.
Qed.

Definition gpr_ok (g : gpr) : Prop :=
  Forall word [g_rbp g; g_rax g; g_rcx g; g_rdx g; g_rdi g; g_rsi g; g_r8 g; g_r9 g; g_r10 g; g_r11 g].
Definition ctx_ok (c : context) : Prop := Forall word [c_ss c; c_rsp c; c_eflags c; c_cs c; c_rip c].

(** Where the frame is, and the machine on which [trap] is called with [m] as memory. *)
Definition frame_at (stack : Z) : Z := floor16 stack - 128.

Definition in_trap (m : mem) (a handler : Z) (s : isr) : isr :=
  Isr m (set_rdi a (set_rbp a (i_gpr s)))
    (Context_ handler 0x28 (Z.ldiff (Z.ldiff (c_eflags (i_ctx s)) 0x200) 0x400) (a - 8) (c_ss (i_ctx s))).

(** Up to the call of [trap]: 16 words on the stack. *)
Lemma enter_ok stack handler code s :
  gpr_ok (i_gpr s) → ctx_ok (i_ctx s) → word code → 256 ≤ stack < 2 ^ 64 →
  let a := frame_at stack in
  ∃ m, (deliver stack handler;; push code;; cld;; pushregs) s =
      Ok (tt, Isr m (i_gpr s) (Context_ handler 0x28 (Z.ldiff (Z.ldiff (c_eflags (i_ctx s)) 0x200) 0x400) a (c_ss (i_ctx s)))) ∧
    words m a 16 = frame (i_gpr s) code (i_ctx s) ∧ ∀ b, ¬ (a ≤ b < a + 128) → rd8 m b = rd8 (i_mem s) b.
Proof.
  intros Hg Hc Hcode Hst a. pose proof (floor16_spec stack) as Hf. pose proof (Z.mod_pos_bound stack 16 ltac:(done)) as Hm16.
  assert (floor16 stack = a + 128) as Etop by (unfold a, frame_at; lia).
  destruct s as [m0 g c]. simpl i_gpr in *. simpl i_ctx in *. simpl i_mem.
  set (s1 := set_i_rsp (a + 128) (Isr m0 g c)).
  destruct (push_list_ok [c_ss c; c_rsp c; c_eflags c; c_cs c; c_rip c] s1 Hc) as (m1 & E1 & Hw1 & Ho1);
    [change (i_rsp s1) with (a + 128); simpl; lia|]. change (i_rsp s1) with (a + 128) in *. simpl length in *.
  replace (a + 128 - 8 * Z.of_nat 5) with (a + 88) in * by lia. change (i_mem s1) with m0 in Ho1.
  set (c2 := Context_ handler 0x28 (Z.ldiff (c_eflags c) 0x200) (a + 88) (c_ss c)).
  destruct (push_list_ok [code] (Isr m1 g c2)) as (m2 & E2 & Hw2 & Ho2); [by apply Forall_singleton|unfold c2, i_rsp; simpl; lia|].
  change (i_rsp (Isr m1 g c2)) with (a + 88) in *. simpl length in *. replace (a + 88 - 8 * Z.of_nat 1) with (a + 80) in * by lia.
  simpl i_mem in Ho2.
  set (c3 := Context_ handler 0x28 (Z.ldiff (Z.ldiff (c_eflags c) 0x200) 0x400) (a + 80) (c_ss c)).
  destruct (push_list_ok [g_rbp g; g_rax g; g_rcx g; g_rdx g; g_rdi g; g_rsi g; g_r8 g; g_r9 g; g_r10 g; g_r11 g]
    (Isr m2 g c3) Hg) as (m3 & E3 & Hw3 & Ho3); [unfold i_rsp; simpl; lia|].
  change (i_rsp (Isr m2 g c3)) with (a + 80) in *. simpl length in *.
  replace (a + 80 - 8 * Z.of_nat 10) with a in * by lia. simpl i_mem in Ho3.
  exists m3. split; [|split].
  - rewrite (bind_ok (deliver stack handler) _ _ tt (Isr m1 g c2)).
    2:{ unfold deliver. rewrite (bind_ok get _ _ _ _ eq_refl). cbv zeta.
        rewrite (bind_ok (modify (set_i_rsp (Z.land stack (Z.lnot 0xf)))) _ (Isr m0 g c) tt s1) by (unfold modify; fold (floor16 stack); by rewrite Etop).
        by rewrite (bind_ok _ _ _ _ _ E1). }
    rewrite (bind_ok (push code) _ _ tt (set_i_rsp (a + 80) (Isr m2 g c2))).
    + rewrite (bind_ok cld _ (set_i_rsp (a + 80) (Isr m2 g c2)) tt (Isr m2 g c3) eq_refl). unfold pushregs.
      rewrite (bind_ok get _ _ _ _ eq_refl). exact E3.
    + unfold push_list in E2. unfold mbind, K_bind in E2. destruct (push code (Isr m1 g c2)) as [[[] ?]| | |]; done.
  - replace 16%nat with (10 + (1 + 5))%nat by done. rewrite !words_app, Hw3.
    replace (a + 8 * Z.of_nat 10) with (a + 80) by lia. replace (a + 80 + 8 * Z.of_nat 1) with (a + 88) by lia.
    rewrite (words_ext m2 m3 (a + 80) 1), (words_ext m1 m3 (a + 88) 5), Hw2, Hw1; [done|..].
    + intros b Hb. rewrite Ho3, Ho2 by lia. done.
    + intros b Hb. rewrite Ho3 by lia. done.
  - intros b Hb. rewrite Ho3, Ho2, Ho1 by lia. done.
Qed.

(** The parts before and after the call of [trap]. *)
Lemma interrupt_split trap ra stack handler code s :
  interrupt trap ra stack handler code s =
    ((deliver stack handler;; push code;; cld;; pushregs;; alltraps_before ra);; trap;; alltraps_after) s.
Proof.
  unfold interrupt, irq_stub, alltraps, alltraps_call. repeat (rewrite bind_assoc; apply bind_ext; [done|]; intros [] ?). done.
Qed.

Lemma before_ok stack handler code ra s :
  gpr_ok (i_gpr s) → ctx_ok (i_ctx s) → word code → 256 ≤ stack < 2 ^ 64 →
  let a := frame_at stack in
  ∃ m, (deliver stack handler;; push code;; cld;; pushregs;; alltraps_before ra) s = Ok (tt, in_trap m a handler s) ∧
    words m a 16 = frame (i_gpr s) code (i_ctx s) ∧ (∀ b, ¬ (a - 8 ≤ b < a + 128) → rd8 m b = rd8 (i_mem s) b) ∧ a mod 16 = 0.
Proof.
  intros Hg Hc Hcode Hst a. pose proof (floor16_spec stack) as Hf. pose proof (Z.mod_pos_bound stack 16 ltac:(done)) as Hm16.
  assert (a mod 16 = 0) as Ha16.
  { unfold a, frame_at. rewrite Hf. pose proof (Z.div_mod stack 16 ltac:(done)).
    replace (stack - stack mod 16 - 128) with ((stack / 16 - 8) * 16) by lia. by apply Z.mod_mul. }
  assert (0 ≤ a - 8 ∧ a < 2 ^ 64 - 128) as Ha by (unfold a, frame_at; lia).
  destruct (enter_ok stack handler code s Hg Hc Hcode Hst) as (m & E & Hw & Ho). fold a in E, Hw, Ho.
  exists (wr64 m (a - 8) ra). split; [|split; [|split; [|done]]].
  - set (s1 := Isr m (i_gpr s) _) in E. transitivity (alltraps_before ra s1).
    { transitivity (((deliver stack handler;; push code;; cld;; pushregs);; alltraps_before ra) s).
      - symmetry. repeat (rewrite bind_assoc; apply bind_ext; [done|]; intros [] ?). done.
      - by rewrite (bind_ok _ _ _ _ _ E). }
    unfold alltraps_before. rewrite !bind_modify. match goal with |- push ra ?x = _ => set (s2 := x) end.
    assert (s2 = Isr m (set_rdi a (set_rbp a (i_gpr s))) (i_ctx s1)) as ->.
    { unfold s2, set_i_rsp, set_i_gpr, i_rsp. cbn [i_mem i_gpr i_ctx c_rsp c_rip c_cs c_eflags c_ss s1]. fold (floor16 a).
      rewrite floor16_self by done. done. }
    unfold push, modify, i_rsp. cbn [i_ctx c_rsp s1]. rewrite u64_small by lia. done.
  - rewrite <-Hw. apply words_ext. intros b Hb. apply rd8_wr64_ne. lia.
  - intros b Hb. rewrite rd8_wr64_ne, Ho by lia. done.
Qed.

Lemma after_ok stack s :
  256 ≤ stack < 2 ^ 64 → g_rbp (i_gpr s) = frame_at stack → alltraps_after s = Ok (tt, resumed (i_mem s) (frame_at stack)).
Proof.
  intros Hst Hrbp. pose proof (floor16_spec stack) as Hf. pose proof (Z.mod_pos_bound stack 16 ltac:(done)) as Hm16.
  unfold alltraps_after. rewrite (bind_ok pop _ s _ _ eq_refl), bind_modify.
  change (i_gpr (set_i_rsp _ s)) with (i_gpr s). rewrite Hrbp. rewrite (ret_ok _ (frame_at stack)); [done|done|unfold frame_at; lia].
Qed.

(** The whole way, for whatever [trap] does. *)
Lemma interrupt_ok stack handler code ra s :
  gpr_ok (i_gpr s) → ctx_ok (i_ctx s) → word code → 256 ≤ stack < 2 ^ 64 →
  let a := frame_at stack in
  ∃ m, words m a 16 = frame (i_gpr s) code (i_ctx s) ∧ (∀ b, ¬ (a - 8 ≤ b < a + 128) → rd8 m b = rd8 (i_mem s) b) ∧ a mod 16 = 0 ∧
    ∀ trap s', trap (in_trap m a handler s) = Ok (tt, s') → g_rbp (i_gpr s') = a →
      interrupt trap ra stack handler code s = Ok (tt, resumed (i_mem s') a).
Proof.
  intros Hg Hc Hcode Hst a. destruct (before_ok stack handler code ra s Hg Hc Hcode Hst) as (m & E & Hw & Ho & Ha).
  exists m. do 3 (split; [done|]). intros trap s' Ht Hrbp.
  rewrite interrupt_split, (bind_ok _ _ _ _ _ E), (bind_ok _ _ _ _ _ Ht). by apply after_ok.
Qed.
