(* ===== verification/Args.v ===== *)
(** * kernel/proc.c: [copyargs], the stack of a new program

    The strings of [argv] are copied below the top of the stack, then come
    the auxiliary vector, the array of pointers and the count.  The state is
    byte memory; the numbers of the auxiliary vector are the ones of the
    system's elf.h, and parameters here. *)

From S2P Require Import Prelude CString CStringSpec Word.

Local Open Scope Z_scope.

Record auxval := Auxval { at_entry : Z; at_phdr : Z; at_phent : Z; at_phnum : Z }.

Definition ld64 (a : ptr) : K mem Z := λ m, Ok (rd64 m a, m).
Definition st64 (a : ptr) (v : Z) : K mem unit := modify (λ m, wr64 m a v).

Definition str_len (s : ptr) : K mem Z := λ m,
  match Str.strlen s m with Ok n => Ok (n, m) | _ => Hang end.
Definition str_cpy (s s2 : ptr) : K mem unit := λ m,
  match Str.strcpy s s2 m with Ok m' => Ok (tt, m') | _ => Hang end.

(** The loop over [argv]: the count and the stack pointer. *)
Fixpoint copy_strings (fuel : nat) (argv argc stack : Z) : K mem (Z * ptr) :=
  match fuel with
  | O => hang
  | S fuel =>
      arg ← ld64 (argv + 8 * argc);
      if decide (arg = NULL) then mret (argc, stack) else
      length ← str_len arg;
      let stack := u64 (stack - length - 1) in
      str_cpy stack arg;;
      copy_strings fuel argv (argc + 1) stack
  end.

(** The loop that stores the pointers: [k] of them from index [i] on. *)
Fixpoint copy_pointers (k : nat) (i stack oldrsp argv : Z) : K mem unit :=
  match k with
  | O => mret tt
  | S k =>
      arg ← ld64 (argv + 8 * i);
      length ← str_len arg;
      let oldrsp := u64 (oldrsp - (length + 1)) in
      st64 (stack + 8 * i) oldrsp;;
      copy_pointers k (i + 1) stack oldrsp argv
  end.

Section copyargs.
Context (fuel : nat) (AT_ENTRY AT_PHDR AT_PHENT AT_PHNUM : Z).

(** [*stack -= 2, ( *stack)[0] = type, ( *stack)[1] = value] *)
Definition push_aux (stack type value : Z) : K mem ptr :=
  let stack := u64 (stack - 16) in
  st64 stack type;; st64 (stack + 8) value;; mret stack.

(** [( *stack)[0] = 0, *--( *stack)]: the second word is only skipped. *)
Definition copyargs (stack argv : ptr) (aux : auxval) : K mem ptr :=
  let oldrsp := stack in
  '(argc, stack) ← copy_strings fuel argv 0 stack;
  let stack := u64 (stack - 8) in
  st64 stack 0;;
  let stack := u64 (stack - 8) in
  stack ← push_aux stack AT_ENTRY (at_entry aux);
  stack ← push_aux stack AT_PHDR (at_phdr aux);
  stack ← push_aux stack AT_PHENT (at_phent aux);
  stack ← push_aux stack AT_PHNUM (at_phnum aux);
  let stack := u64 (stack - 8) in
  st64 stack 0;;
  let stack := u64 (stack - 8 * argc) in
  copy_pointers (Z.to_nat argc) 0 stack oldrsp argv;;
  let stack := u64 (stack - 8) in
  st64 stack argc;;
  mret stack.

End copyargs.

(** ** Layout *)

(** Where the copies of the strings are, below [top], and where they end. *)
Fixpoint places (top : Z) (strs : list string) : list Z :=
  match strs with
  | [] => []
  | s :: strs => top - (slen s + 1) :: places (top - (slen s + 1)) strs
  end.

Fixpoint bottom (top : Z) (strs : list string) : Z :=
  match strs with
  | [] => top
  | s :: strs => bottom (top - (slen s + 1)) strs
  end.

Lemma bottom_le top strs : bottom top strs ≤ top.
Proof. revert top. induction strs as [|s strs IH]; intros top; simpl; [lia|]. specialize (IH (top - (slen s + 1))). unfold slen in *. lia. Qed.

(** [n] bytes at [a] lie outside of [lo .. hi). *)
Definition clear_of (lo hi a n : Z) : Prop := a + n ≤ lo ∨ hi ≤ a.

(** The array of pointers [ps] at [argv], from index [i] on, ended by NULL, and
    the strings they point to; all outside of [lo .. hi). *)
Fixpoint arg_list (m : mem) (lo hi argv i : Z) (ps : list ptr) (strs : list string) : Prop :=
  clear_of lo hi (argv + 8 * i) 8 ∧
  match ps, strs with
  | [], [] => rd64 m (argv + 8 * i) = NULL
  | p :: ps, s :: strs => rd64 m (argv + 8 * i) = p ∧ p ≠ NULL ∧ s ≠ EmptyString ∧ slen s < 2 ^ 64 ∧ cstr m p s ∧
      clear_of lo hi p (slen s + 1) ∧ arg_list m lo hi argv (i + 1) ps strs
  | _, _ => False
  end.

Lemma arg_list_same m m' lo hi argv i ps strs :
  (∀ a, ¬ (lo ≤ a < hi) → rd8 m' a = rd8 m a) → arg_list m lo hi argv i ps strs → arg_list m' lo hi argv i ps strs.
Proof.
  intros Hm. revert i strs. induction ps as [|p ps IH]; intros i [|s strs] [Hc H]; try done; (split; [done|]).
  - rewrite <-H. apply rdn_ext. intros a Ha. apply Hm. unfold clear_of in Hc. simpl in Ha. lia.
  - destruct H as (E & Hn & Hs & Hl & Hcs & Hcl & H). split; [|split; [done|split; [done|split; [done|split; [|split; [done|by apply IH]]]]]].
    + rewrite <-E. apply rdn_ext. intros a Ha. apply Hm. unfold clear_of in Hc. simpl in Ha. lia.
    + apply (cstr_same m); [done|]. intros a Ha. apply Hm. unfold clear_of in Hcl. lia.
Qed.

Lemma str_len_ok m p s : cstr m p s → s ≠ EmptyString → slen s < 2 ^ 64 → str_len p m = Ok (slen s, m).
Proof. intros. unfold str_len. by rewrite (strlen_cstr m p s). Qed.

(** The copies, and nothing else is written. *)
Lemma copy_strings_ok fuel argv i ps strs lo hi top m :
  arg_list m lo hi argv i ps strs → lo ≤ bottom top strs → top ≤ hi → 0 ≤ lo → hi < 2 ^ 64 → (length strs < fuel)%nat →
  ∃ m', copy_strings fuel argv i top m = Ok ((i + Z.of_nat (length strs), bottom top strs), m') ∧
    Forall2 (cstr m') (places top strs) strs ∧ ∀ a, ¬ (bottom top strs ≤ a < top) → rd8 m' a = rd8 m a.
Proof.
  revert argv i ps strs top m. induction fuel as [|fuel IH]; intros argv i ps strs top m Hargs Hlo Hhi H0 H64 Hf; [lia|].
  cbn [copy_strings]. destruct strs as [|s strs].
  { destruct ps; [|by destruct Hargs]. destruct Hargs as [_ E]. exists m.
    rewrite (bind_ok (ld64 _) _ m NULL m) by (unfold ld64; by rewrite E). rewrite decide_True by done. simpl.
    rewrite Z.add_0_r. split; [done|split; [constructor|done]]. }
  destruct ps as [|p ps]; [by destruct Hargs|]. destruct Hargs as (Hc & E & Hn & Hs & Hl & Hcs & Hcl & Hrest).
  cbn [bottom places length] in *. set (q := top - (slen s + 1)) in *. pose proof (bottom_le q strs) as Hb.
  assert (0 < slen s) by (unfold slen; destruct s; [done|simpl; lia]).
  rewrite (bind_ok (ld64 _) _ m p m) by (unfold ld64; by rewrite E). rewrite decide_False by done.
  rewrite (bind_ok _ _ _ _ _ (str_len_ok m p s Hcs Hs Hl)). cbv zeta.
  assert (u64 (top - slen s - 1) = q) as -> by (unfold q; rewrite u64_small by lia; lia).
  destruct (strcpy_spec m q p s) as (m1 & E1 & Hq & _ & Hout); [done|done|done|unfold clear_of in Hcl; unfold slen in *; lia|].
  rewrite (bind_ok (str_cpy q p) _ m tt m1) by (unfold str_cpy; by rewrite E1).
  assert (∀ a, ¬ (q ≤ a < top) → rd8 m1 a = rd8 m a) as Hout1 by (intros a Ha; apply Hout; unfold slen in *; lia).
  destruct (IH argv (i + 1) ps strs q m1) as (m2 & E2 & Hpl & Hm2); [|lia|lia|done|done|lia|].
  { apply (arg_list_same m); [|done]. intros a Ha. apply Hout1. lia. }
  exists m2. split; [rewrite E2; do 3 f_equal; lia|]. split.
  - constructor; [|done]. apply (cstr_same m1); [done|]. intros a Ha. apply Hm2. lia.
  - intros a Ha. rewrite Hm2 by lia. apply Hout1. lia.
Qed.

(** The pointers are the places of the copies. *)
Lemma copy_pointers_ok argv i ps strs lo hi top stack m :
  arg_list m lo hi argv i ps strs → 0 ≤ bottom top strs → top < 2 ^ 64 →
  lo ≤ stack + 8 * i → stack + 8 * (i + Z.of_nat (length strs)) ≤ hi →
  ∃ m', copy_pointers (length strs) i stack top argv m = Ok (tt, m') ∧
    (∀ n q, places top strs !! n = Some q → rd64 m' (stack + 8 * (i + Z.of_nat n)) = q) ∧
    ∀ a, ¬ (stack + 8 * i ≤ a < stack + 8 * (i + Z.of_nat (length strs))) → rd8 m' a = rd8 m a.
Proof.
  revert i ps top m. induction strs as [|s strs IH]; intros i ps top m Hargs H0 H64 Hlo Hhi.
  { exists m. split; [done|split; [done|done]]. }
  destruct ps as [|p ps]; [by destruct Hargs|]. destruct Hargs as (Hc & E & Hn & Hs & Hl & Hcs & Hcl & Hrest).
  cbn [copy_pointers length bottom places] in *. set (q := top - (slen s + 1)) in *. pose proof (bottom_le q strs).
  assert (0 ≤ slen s) by (unfold slen; lia).
  rewrite (bind_ok (ld64 _) _ m p m) by (unfold ld64; by rewrite E).
  rewrite (bind_ok _ _ _ _ _ (str_len_ok m p s Hcs Hs Hl)). cbv zeta.
  assert (u64 (top - (slen s + 1)) = q) as -> by (apply u64_small; lia).
  set (m1 := wr64 m (stack + 8 * i) q). rewrite (bind_ok (st64 (stack + 8 * i) q) _ m tt m1 eq_refl).
  assert (∀ a, ¬ (stack + 8 * i ≤ a < stack + 8 * i + 8) → rd8 m1 a = rd8 m a) as Hm1 by (intros a Ha; by apply rd8_wr64_ne).
  destruct (IH (i + 1) ps q m1) as (m2 & E2 & Hp & Hm2); [|done|lia|lia|lia|].
  { apply (arg_list_same m); [|done]. intros a Ha. apply Hm1. lia. }
  exists m2. split; [exact E2|]. split.
  - intros [|n] q' Hq'.
    + injection Hq' as <-. transitivity (rd64 m1 (stack + 8 * i)).
      * rewrite Z.add_0_r. apply rdn_ext. intros a Ha. simpl in Ha. apply Hm2. lia.
      * unfold m1. rewrite rd64_wr64_eq. apply u64_small. lia.
    + rewrite <-(Hp n q' Hq'). f_equal. lia.
  - intros a Ha. rewrite Hm2 by lia. apply Hm1. lia.
Qed.

(** ** The whole stack *)

(** The memory after the auxiliary vector was written below [b]. *)
Definition aux_mem (e ph pe pn : Z) (aux : auxval) (b : Z) (m : mem) : mem :=
  let m := wr64 m (b - 8) 0 in
  let m := wr64 (wr64 m (b - 32) e) (b - 24) (at_entry aux) in
  let m := wr64 (wr64 m (b - 48) ph) (b - 40) (at_phdr aux) in
  let m := wr64 (wr64 m (b - 64) pe) (b - 56) (at_phent aux) in
  let m := wr64 (wr64 m (b - 80) pn) (b - 72) (at_phnum aux) in
  wr64 m (b - 88) 0.

Definition word64 (v : Z) : Prop := 0 ≤ v < 2 ^ 64.

(** Its words, from the lowest: the end of [argv], the four pairs, the word that is
    skipped, and the zero above it. *)
Lemma aux_mem_words e ph pe pn aux b m :
  Forall word64 [e; ph; pe; pn; at_entry aux; at_phdr aux; at_phent aux; at_phnum aux] →
  (λ k, rd64 (aux_mem e ph pe pn aux b m) (b - 88 + 8 * k)) <$> seqZ 0 11 =
    [0; pn; at_phnum aux; pe; at_phent aux; ph; at_phdr aux; e; at_entry aux; rd64 m (b - 16); 0].
Proof.
  intros Hw. unfold word64 in Hw. repeat (apply Forall_cons in Hw as [? Hw]). clear Hw.
  change (seqZ 0 11) with [0; 1; 2; 3; 4; 5; 6; 7; 8; 9; 10]. unfold aux_mem. cbn [fmap list_fmap].
  replace (b - 88 + 8 * 0) with (b - 88) by lia. replace (b - 88 + 8 * 1) with (b - 80) by lia.
  replace (b - 88 + 8 * 2) with (b - 72) by lia. replace (b - 88 + 8 * 3) with (b - 64) by lia.
  replace (b - 88 + 8 * 4) with (b - 56) by lia. replace (b - 88 + 8 * 5) with (b - 48) by lia.
  replace (b - 88 + 8 * 6) with (b - 40) by lia. replace (b - 88 + 8 * 7) with (b - 32) by lia.
  replace (b - 88 + 8 * 8) with (b - 24) by lia. replace (b - 88 + 8 * 9) with (b - 16) by lia.
  replace (b - 88 + 8 * 10) with (b - 8) by lia. cbv zeta.
  repeat (f_equal; [repeat (rewrite rd64_wr64_eq || rewrite rd64_wr64_ne by lia); try done; apply u64_small; lia|]).
  f_equal. repeat (rewrite rd64_wr64_eq || rewrite rd64_wr64_ne by lia). done.
Qed.

Lemma aux_mem_outside e ph pe pn aux b m a : ¬ (b - 88 ≤ a < b) → rd8 (aux_mem e ph pe pn aux b m) a = rd8 m a.
Proof. intros Ha. unfold aux_mem. rewrite !rd8_wr64_ne by lia. done. Qed.

Lemma push_aux_ok stack t v m :
  16 ≤ stack < 2 ^ 64 → push_aux stack t v m = Ok (stack - 16, wr64 (wr64 m (stack - 16) t) (stack - 16 + 8) v).
Proof. intros H. unfold push_aux. cbv zeta. rewrite u64_small by lia. done. Qed.

(** What [copyargs] leaves on the stack below [top]. *)
Record arg_stack (m m' : mem) (e ph pe pn : Z) (aux : auxval) (top sp : Z) (strs : list string) : Prop := {
  as_argc : rd64 m' sp = Z.of_nat (length strs);
  as_argv k q : places top strs !! k = Some q → rd64 m' (sp + 8 + 8 * Z.of_nat k) = q;
  as_strings : Forall2 (cstr m') (places top strs) strs;
  as_aux : (λ k, rd64 m' (sp + 8 + 8 * Z.of_nat (length strs) + 8 * k)) <$> seqZ 0 11 =
    [0; pn; at_phnum aux; pe; at_phent aux; ph; at_phdr aux; e; at_entry aux; rd64 m (bottom top strs - 16); 0];
  as_outside a : ¬ (sp ≤ a < top) → rd8 m' a = rd8 m a }.

Lemma rd64_same m m' a : (∀ b, a ≤ b < a + 8 → rd8 m' b = rd8 m b) → rd64 m' a = rd64 m a.
Proof. intros H. apply rdn_ext. intros b Hb. apply H. simpl in Hb. lia. Qed.

Lemma strings_same m m' top strs :
  Forall2 (cstr m) (places top strs) strs → (∀ a, bottom top strs ≤ a < top → rd8 m' a = rd8 m a) →
  Forall2 (cstr m') (places top strs) strs.
Proof.
  revert top. induction strs as [|s strs IH]; intros top; cbn [places bottom]; [done|].
  intros H Hm. apply Forall2_cons in H as [Hs H]. pose proof (bottom_le (top - (slen s + 1)) strs).
  assert (0 ≤ slen s) by (unfold slen; lia). constructor.
  - apply (cstr_same m); [done|]. intros a Ha. apply Hm. lia.
  - apply IH; [done|]. intros a Ha. apply Hm. lia.
Qed.

Lemma copyargs_ok fuel e ph pe pn aux argv ps strs top m :
  let n := Z.of_nat (length strs) in let b := bottom top strs in let sp := b - 96 - 8 * n in
  arg_list m sp top argv 0 ps strs → 0 ≤ sp → top < 2 ^ 64 → (length strs < fuel)%nat →
  Forall word64 [e; ph; pe; pn; at_entry aux; at_phdr aux; at_phent aux; at_phnum aux] →
  ∃ m', copyargs fuel e ph pe pn top argv aux m = Ok (sp, m') ∧ arg_stack m m' e ph pe pn aux top sp strs.
Proof.
  intros n b sp Hargs H0 H64 Hf Hw. pose proof (bottom_le top strs) as Hbt. fold b in Hbt.
  destruct (copy_strings_ok fuel argv 0 ps strs sp top top m) as (m1 & E1 & Hstr & Hm1); [done|lia..|done|].
  fold b in Hm1. set (m2 := aux_mem e ph pe pn aux b m1).
  assert (∀ a, ¬ (sp ≤ a < top) → rd8 m2 a = rd8 m a) as Hm2.
  { intros a Ha. unfold m2. rewrite aux_mem_outside by lia. apply Hm1. lia. }
  destruct (copy_pointers_ok argv 0 ps strs sp top top (b - 88 - 8 * n) m2) as (m3 & E3 & Hptr & Hm3);
    [by apply (arg_list_same m)|lia..|].
  set (m4 := wr64 m3 sp n).
  assert (∀ a, sp + 8 ≤ a ∨ a < sp → rd8 m4 a = rd8 m3 a) as Hm4 by (intros a Ha; apply rd8_wr64_ne; lia).
  assert (∀ a, b - 88 ≤ a ∨ a < sp → rd8 m4 a = rd8 m2 a) as Hm42 by (intros a Ha; rewrite Hm4, Hm3 by lia; done).
  exists m4. split.
  - unfold copyargs. rewrite (bind_ok _ _ _ _ _ E1). fold b. rewrite Z.add_0_l. cbv zeta.
    rewrite (u64_small (b - 8)), (u64_small (b - 8 - 8)) by lia.
    rewrite (bind_ok (st64 (b - 8) 0) _ m1 tt (wr64 m1 (b - 8) 0) eq_refl).
    rewrite (bind_ok _ _ _ _ _ (push_aux_ok (b - 8 - 8) e (at_entry aux) _ ltac:(lia))).
    rewrite (bind_ok _ _ _ _ _ (push_aux_ok (b - 8 - 8 - 16) ph (at_phdr aux) _ ltac:(lia))).
    rewrite (bind_ok _ _ _ _ _ (push_aux_ok (b - 8 - 8 - 16 - 16) pe (at_phent aux) _ ltac:(lia))).
    rewrite (bind_ok _ _ _ _ _ (push_aux_ok (b - 8 - 8 - 16 - 16 - 16) pn (at_phnum aux) _ ltac:(lia))).
    replace (b - 8 - 8 - 16) with (b - 32) by lia. replace (b - 32 - 16) with (b - 48) by lia.
    replace (b - 48 - 16) with (b - 64) by lia. replace (b - 64 - 16) with (b - 80) by lia.
    replace (b - 32 + 8) with (b - 24) by lia. replace (b - 48 + 8) with (b - 40) by lia.
    replace (b - 64 + 8) with (b - 56) by lia. replace (b - 80 + 8) with (b - 72) by lia.
    rewrite (u64_small (b - 80 - 8)) by lia. replace (b - 80 - 8) with (b - 88) by lia.
    rewrite (bind_ok (st64 (b - 88) 0) _ _ tt m2 eq_refl). fold n.
    rewrite (u64_small (b - 88 - 8 * n)), (u64_small (b - 88 - 8 * n - 8)) by lia.
    assert (Z.to_nat n = length strs) as -> by (unfold n; lia). rewrite (bind_ok _ _ _ _ _ E3).
    replace (b - 88 - 8 * n - 8) with sp by lia. done.
  - constructor.
    + unfold m4. rewrite rd64_wr64_eq. apply u64_small. lia.
    + intros k q Hq. rewrite (rd64_same m3 m4) by (intros a Ha; apply Hm4; lia). rewrite <-(Hptr k q Hq). f_equal. lia.
    + apply (strings_same m1); [done|]. intros a Ha. fold b in Ha. rewrite Hm42 by lia. apply aux_mem_outside. lia.
    + fold n b. rewrite <-(rd64_same m m1 (b - 16)) by (intros a Ha; apply Hm1; lia).
      rewrite <-(aux_mem_words e ph pe pn aux b m1 Hw). apply list_fmap_ext. intros i k Hk.
      apply lookup_seqZ in Hk as [-> Hi]. replace (sp + 8 + 8 * n + 8 * (0 + Z.of_nat i)) with (b - 88 + 8 * (0 + Z.of_nat i)) by lia.
      apply rd64_same. intros a Ha. apply Hm42. lia.
    + intros a Ha. rewrite Hm42 by lia. by apply Hm2.
Qed.
