(* ===== verification/Proc.v ===== *)
(** * kernel/proc.c, include/franklin/proc.h and switch.h, kernel/switch.asm: processes

    The process table, the scheduler and the switch of stacks.  A
    [struct proc *] is an index into the table, [None] for NULL.  Saved
    registers lie in byte memory at the offsets of [struct regs] and
    [struct stack].  [switc] is translated from switch.asm: it ends with the
    CPU at the address it popped. *)

From S2P Require Import Prelude CString Word Pmm Slab.

Local Open Scope Z_scope.

Inductive procstate := UNUSED | RUNNABLE | RUNNING.

#[export] Instance procstate_eq_dec : EqDecision procstate.
Proof. solve_decision. Defined.

Definition NPROC : nat := 255.

Record proc := Proc { p_regs : ptr; p_stack : ptr; p_state : procstate; p_pid : Z; p_vmap : ptr }.

Definition set_p_regs (a : ptr) (p : proc) : proc := Proc a (p_stack p) (p_state p) (p_pid p) (p_vmap p).
Definition set_p_stack (a : ptr) (p : proc) : proc := Proc (p_regs p) a (p_state p) (p_pid p) (p_vmap p).
Definition set_p_state (st : procstate) (p : proc) : proc := Proc (p_regs p) (p_stack p) st (p_pid p) (p_vmap p).
Definition set_p_pid (pid : Z) (p : proc) : proc := Proc (p_regs p) (p_stack p) (p_state p) pid (p_vmap p).

(** The registers that [switc] saves, the stack pointer and the next instruction. *)
Record cpu := Cpu { rsp : Z; rbp : Z; rbx : Z; r12 : Z; r13 : Z; r14 : Z; r15 : Z; rip : Z }.

Definition set_rsp (v : Z) (c : cpu) : cpu := Cpu v (rbp c) (rbx c) (r12 c) (r13 c) (r14 c) (r15 c) (rip c).
Definition set_rip (v : Z) (c : cpu) : cpu := Cpu (rsp c) (rbp c) (rbx c) (r12 c) (r13 c) (r14 c) (r15 c) v.

(** The allocators, [ptable], the static variables [nextpid] of [allocproc] and
    [i] of [scheduler], and of this CPU the MSR that holds the current
    process and the registers. *)
Record ker := Ker {
  k_mm : mm; k_lock : Z; k_table : list proc; k_nextpid : Z; k_next : Z; k_gs : option nat; k_cpu : cpu }.

Definition set_k_mm (m : mm) (s : ker) : ker := Ker m (k_lock s) (k_table s) (k_nextpid s) (k_next s) (k_gs s) (k_cpu s).
Definition set_k_lock (l : Z) (s : ker) : ker := Ker (k_mm s) l (k_table s) (k_nextpid s) (k_next s) (k_gs s) (k_cpu s).
Definition set_k_table (t : list proc) (s : ker) : ker := Ker (k_mm s) (k_lock s) t (k_nextpid s) (k_next s) (k_gs s) (k_cpu s).
Definition set_k_nextpid (n : Z) (s : ker) : ker := Ker (k_mm s) (k_lock s) (k_table s) n (k_next s) (k_gs s) (k_cpu s).
Definition set_k_next (i : Z) (s : ker) : ker := Ker (k_mm s) (k_lock s) (k_table s) (k_nextpid s) i (k_gs s) (k_cpu s).
Definition set_k_gs (p : option nat) (s : ker) : ker := Ker (k_mm s) (k_lock s) (k_table s) (k_nextpid s) (k_next s) p (k_cpu s).
Definition set_k_cpu (c : cpu) (s : ker) : ker := Ker (k_mm s) (k_lock s) (k_table s) (k_nextpid s) (k_next s) (k_gs s) c.

Definition in_kmm {A} (f : M A) : K ker A := λ s,
  match f (k_mm s) with
  | Ok (a, m) => Ok (a, set_k_mm m s)
  | Panic msg => Panic msg
  | Hang => Hang
  | Fault e => Fault e
  end.

(** [p->field] and [p->field = v]. *)
Definition proc_at (p : option nat) : K ker proc := λ s,
  match p with
  | None => Fault NullDeref
  | Some i => match k_table s !! i with Some q => Ok (q, s) | None => Fault OutOfBounds end
  end.

Definition update_proc (p : option nat) (f : proc → proc) : K ker unit :=
  q ← proc_at p;
  modify (λ s, set_k_table (match p with Some i => <[i := f q]> (k_table s) | None => k_table s end) s).

(** [ptable.lock] *)
Definition init_plock : K ker unit := modify (set_k_lock 0).
Definition acq : K ker unit :=
  s ← get; if decide (k_lock s = 0) then modify (set_k_lock 1) else hang.
Definition r : K ker unit := modify (set_k_lock 0).

(** [wrmsr] and [rdmsr] of MSR_GS. *)
Definition set_current_proc (p : option nat) : K ker (option nat) := modify (set_k_gs p);; mret p.
Definition get_current_proc : K ker (option nat) := s ← get; mret (k_gs s).

(** [while ( *index < NPROC) ...]; the index is a [uint8_t] and ends at NPROC. *)
Fixpoint getproc_loop (k : nat) (table : list proc) (state : procstate) (index : nat) : option nat * nat :=
  match k with
  | O => (None, index)
  | S k =>
      if decide (index < NPROC)%nat then
        match table !! index with
        | Some p => if decide (p_state p = state) then (Some index, index) else getproc_loop k table state (S index)
        | None => (None, index)
        end
      else (None, index)
  end.

Definition getproc (state : procstate) (index : Z) : K ker (option nat * Z) := λ s,
  let '(p, i) := getproc_loop (S NPROC) (k_table s) state (Z.to_nat index) in Ok ((p, Z.of_nat i), s).

(** ** [switc] *)

Definition push (v : Z) : K ker unit :=
  modify (λ s, set_k_cpu (set_rsp (u64 (rsp (k_cpu s) - 8)) (k_cpu s)) s);;
  s ← get; in_kmm (store64 (rsp (k_cpu s)) v).

Definition pop : K ker Z :=
  s ← get; v ← in_kmm (load64 (rsp (k_cpu s)));
  modify (λ s, set_k_cpu (set_rsp (u64 (rsp (k_cpu s) + 8)) (k_cpu s)) s);;
  mret v.

Definition push_callee_regs : K ker unit :=
  s ← get; let c := k_cpu s in
  push (r15 c);; push (r14 c);; push (r13 c);; push (r12 c);; push (rbx c);; push (rbp c).

Definition pop_callee_regs : K ker unit :=
  bp ← pop; bx ← pop; v12 ← pop; v13 ← pop; v14 ← pop; v15 ← pop;
  modify (λ s, set_k_cpu (Cpu (rsp (k_cpu s)) bp bx v12 v13 v14 v15 (rip (k_cpu s))) s).

(** [call switc] from an instruction before [ra]; [save] is the process whose
    [stack] field the first argument points to, [None] for a local variable. *)
Definition switc (save : option nat) (next ra : Z) : K ker unit :=
  push ra;;
  push_callee_regs;;
  s ← get;
  (match save with
   | Some i => update_proc (Some i) (set_p_stack (rsp (k_cpu s)))
   | None => mret tt
   end);;
  modify (λ s, set_k_cpu (set_rsp next (k_cpu s)) s);;
  pop_callee_regs;;
  a ← pop;
  modify (λ s, set_k_cpu (set_rip a (k_cpu s)) s).

(** ** Processes *)

Definition sizeof_regs : Z := 128.
Definition regs_rip (regs : ptr) : ptr := regs + 88.
Definition regs_cs (regs : ptr) : ptr := regs + 96.
Definition regs_eflags (regs : ptr) : ptr := regs + 104.
Definition regs_rsp (regs : ptr) : ptr := regs + 112.
Definition regs_ss (regs : ptr) : ptr := regs + 120.
Definition sizeof_stack : Z := 56.
Definition stack_rip (stack : ptr) : ptr := stack + 48.

Section proc.
(** [pf] bounds the scan of [palloc]; [ret] is the label of isr.asm that
    pops [struct regs] and returns from the interrupt. *)
Context (pf : nat) (ret : Z).

Definition allocproc (entry : Z) : K ker (option nat) :=
  acq;;
  '(p, _) ← getproc UNUSED 0;
  r;;
  match p with
  | None => mret None
  | Some _ =>
      modify (λ s, set_k_nextpid (u32 (k_nextpid s + 1)) s);;
      s ← get; update_proc p (set_p_pid (k_nextpid s));;
      page ← in_kmm (in_pmm (palloc pf 1));
      let stack := u64 (P2V page + PGSIZE) in
      let stack := u64 (stack - sizeof_regs) in
      update_proc p (set_p_regs stack);;
      in_kmm (store64 (regs_rip stack) entry);;
      in_kmm (store64 (regs_cs stack) 0x28);;
      in_kmm (store64 (regs_eflags stack) 0x202);;
      let regs := stack in
      let stack := u64 (stack - sizeof_stack) in
      update_proc p (set_p_stack stack);;
      in_kmm (store64 (regs_rsp regs) (u64 (stack - 0x200)));;
      in_kmm (store64 (stack_rip stack) ret);;
      mret p
  end.

(** [ra]: the address after the call of [switc]. *)
Definition startproc (p : option nat) (ra : Z) : K ker unit :=
  acq;;
  current ← set_current_proc p;
  update_proc current (set_p_state RUNNING);;
  q ← proc_at p;
  switc None (p_stack q) ra.

Definition init_proc (i : nat) (ra : Z) : K ker unit :=
  set_current_proc (Some i);; startproc (Some i) ra.

(** [for (;;) { if ((p = getproc (RUNNABLE, &i))) break; i = 0; }] *)
Fixpoint find_runnable (k : nat) : K ker (option nat) :=
  match k with
  | O => hang
  | S k =>
      s ← get; '(p, i) ← getproc RUNNABLE (k_next s);
      modify (set_k_next i);;
      match p with
      | Some _ => mret p
      | None => modify (set_k_next 0);; find_runnable k
      end
  end.

(** The result says whether the CPU went on with another stack; if not, the
    function returned. *)
Definition scheduler (k : nat) (ra : Z) : K ker bool :=
  p ← find_runnable k;
  prev ← get_current_proc;
  current ← set_current_proc p;
  update_proc current (set_p_state RUNNING);;
  q ← proc_at prev; c ← proc_at current;
  if decide (p_pid q ≠ p_pid c) then
    switc prev (p_stack c) ra;; mret true
  else mret false.

(** [apic_timer] of kernel/apic.c without the write to the interrupt
    controller; after a switch the resumed thread releases the lock. *)
Definition apic_timer (k : nat) (ra : Z) : K ker bool :=
  acq;;
  current ← get_current_proc;
  update_proc current (set_p_state RUNNABLE);;
  switched ← scheduler k ra;
  (if switched : bool then mret tt else r);;
  mret switched.

End proc.
