(* ===== verification/ProcSpec.v ===== *)
(** * Processes: the table, the scheduler and the stacks

    [first_at] is what [getproc] finds; [picks] is the process the scheduler
    takes.  [frame m a c ra] says that the seven words at [a] are what [switc]
    saves of the CPU [c]. *)

From S2P Require Import Prelude CString CStringSpec Word Pmm PmmSpec Slab SlabSpec Vmm VmmSpec VmmMaps Proc.

Local Open Scope Z_scope.

(** ** The table *)

Definition state_at (table : list proc) (i : nat) : option procstate := p_state <$> table !! i.

Definition first_at (table : list proc) (st : procstate) (i j : nat) : Prop :=
  (i ≤ j < NPROC)%nat ∧ state_at table j = Some st ∧ ∀ k, (i ≤ k < j)%nat → state_at table k ≠ Some st.

Definition none_from (table : list proc) (st : procstate) (i : nat) : Prop :=
  ∀ k, (i ≤ k < NPROC)%nat → state_at table k ≠ Some st.

Lemma first_at_unique table st i j j' : first_at table st i j → first_at table st i j' → j = j'.
Proof.
  intros (H1 & H2 & H3) (H1' & H2' & H3'). destruct (decide (j < j')%nat) as [Hl|]; [destruct (H3' j); [lia|done]|].
  destruct (decide (j' < j)%nat) as [Hl|]; [destruct (H3 j'); [lia|done]|]. lia.
Qed.

Lemma getproc_loop_found k table st i j :
  first_at table st i j → length table = NPROC → (j - i < k)%nat → getproc_loop k table st i = (Some j, j).
Proof.
  revert i. induction k as [|k IH]; intros i (Hr & Hj & Hn) Hlen Hk; [lia|]. cbn [getproc_loop].
  rewrite decide_True by lia. destruct (table !! i) as [p|] eqn:E; [|apply lookup_ge_None in E; lia].
  destruct (decide (i = j)) as [->|Hne].
  - unfold state_at in Hj. rewrite E in Hj. injection Hj as Hj. by rewrite decide_True.
  - rewrite decide_False.
    + apply IH; [|done|lia]. split; [lia|split; [done|]]. intros k' Hk'. apply Hn. lia.
    + intros Hst. apply (Hn i); [lia|]. unfold state_at. by rewrite E, <-Hst.
Qed.

Lemma getproc_loop_none k table st i :
  none_from table st i → length table = NPROC → (i ≤ NPROC)%nat → (NPROC - i < k)%nat → getproc_loop k table st i = (None, NPROC).
Proof.
  revert i. induction k as [|k IH]; intros i Hn Hlen Hi Hk; [lia|]. cbn [getproc_loop].
  destruct (decide (i < NPROC)%nat) as [Hlt|Hge].
  - destruct (table !! i) as [p|] eqn:E; [|apply lookup_ge_None in E; lia]. rewrite decide_False.
    + apply IH; [|done|lia|lia]. intros k' Hk'. apply Hn. lia.
    + intros Hst. apply (Hn i); [lia|]. unfold state_at. by rewrite E, <-Hst.
  - f_equal. lia.
Qed.

(** From every index there is a first entry in the state, or none. *)
Lemma first_or_none table st i : (∃ j, first_at table st i j) ∨ none_from table st i.
Proof.
  remember (NPROC - i)%nat as n eqn:Hn. revert i Hn. induction n as [|n IH]; intros i Hn.
  - right. intros k Hk. lia.
  - destruct (decide (state_at table i = Some st)) as [E|E].
    + left. exists i. split; [lia|split; [done|]]. intros k Hk. lia.
    + destruct (IH (S i) ltac:(lia)) as [(j & Hr & Hj & Hf)|Hnone].
      * left. exists j. split; [lia|split; [done|]]. intros k Hk. destruct (decide (k = i)) as [->|]; [done|]. apply Hf. lia.
      * right. intros k Hk. destruct (decide (k = i)) as [->|]; [done|]. apply Hnone. lia.
Qed.

Lemma getproc_found s st i j :
  first_at (k_table s) st i j → length (k_table s) = NPROC → getproc st (Z.of_nat i) s = Ok ((Some j, Z.of_nat j), s).
Proof.
  intros Hf Hl. unfold getproc. rewrite Nat2Z.id. rewrite (getproc_loop_found _ _ _ i j) by (done || (destruct Hf; lia)). done.
Qed.

Lemma getproc_none s st i :
  none_from (k_table s) st i → length (k_table s) = NPROC → (i ≤ NPROC)%nat →
  getproc st (Z.of_nat i) s = Ok ((None, Z.of_nat NPROC), s).
Proof.
  intros Hf Hl Hi. unfold getproc. rewrite Nat2Z.id. rewrite (getproc_loop_none _ _ _ i) by (done || lia). done.
Qed.

Lemma proc_at_ok s i p : k_table s !! i = Some p → proc_at (Some i) s = Ok (p, s).
Proof. intros E. unfold proc_at. by rewrite E. Qed.

Lemma update_proc_ok s i p f :
  k_table s !! i = Some p → update_proc (Some i) f s = Ok (tt, set_k_table (<[i := f p]> (k_table s)) s).
Proof. intros E. unfold update_proc. by rewrite (bind_ok _ _ _ _ _ (proc_at_ok _ _ _ E)). Qed.

Lemma acq_ok s : k_lock s = 0 → acq s = Ok (tt, set_k_lock 1 s).
Proof. intros E. unfold acq. rewrite (bind_ok get _ s s s eq_refl). by rewrite decide_True. Qed.

(** ** The scheduler *)

(** The process the scheduler takes when its static index is [i]. *)
Definition picks (table : list proc) (i j : nat) : Prop :=
  first_at table RUNNABLE i j ∨ (none_from table RUNNABLE i ∧ first_at table RUNNABLE 0 j).

Lemma picks_exists table i j : first_at table RUNNABLE 0 j → ∃ j', picks table i j'.
Proof.
  intros Hj. destruct (first_or_none table RUNNABLE i) as [[j' Hj']|Hn]; [exists j'; by left|exists j; by right].
Qed.

Lemma find_runnable_ok k s i j :
  picks (k_table s) i j → length (k_table s) = NPROC → (i ≤ NPROC)%nat → k_next s = Z.of_nat i → (2 ≤ k)%nat →
  find_runnable k s = Ok (Some j, set_k_next (Z.of_nat j) s).
Proof.
  intros Hp Hl Hi Hn Hk. destruct k as [|[|k]]; [lia|lia|]. cbn [find_runnable].
  rewrite (bind_ok get _ s s s eq_refl), Hn. destruct Hp as [Hf|[Hnone Hf]].
  - rewrite (bind_ok _ _ _ _ _ (getproc_found s _ i j Hf Hl)). done.
  - rewrite (bind_ok _ _ _ _ _ (getproc_none s _ i Hnone Hl Hi)).
    rewrite (bind_ok (modify (set_k_next (Z.of_nat NPROC))) _ s tt (set_k_next (Z.of_nat NPROC) s) eq_refl).
    set (s1 := set_k_next (Z.of_nat NPROC) s). rewrite (bind_ok (modify (set_k_next 0)) _ s1 tt (set_k_next 0 s1) eq_refl).
    rewrite (bind_ok get _ _ _ _ eq_refl). change (k_next (set_k_next 0 s1)) with (Z.of_nat 0).
    rewrite (bind_ok _ _ _ _ _ (getproc_found (set_k_next 0 s1) _ 0 j Hf Hl)). done.
Qed.

(** A scheduler without a runnable process does not return. *)
Lemma find_runnable_hangs k s i :
  none_from (k_table s) RUNNABLE 0 → length (k_table s) = NPROC → (i ≤ NPROC)%nat → k_next s = Z.of_nat i →
  find_runnable k s = Hang.
Proof.
  intros Hnone Hl. revert s i Hnone Hl. induction k as [|k IH]; intros s i Hnone Hl Hi Hn; [done|]. cbn [find_runnable].
  rewrite (bind_ok get _ s s s eq_refl), Hn.
  rewrite (bind_ok _ _ _ _ _ (getproc_none s _ i ltac:(intros k' Hk'; apply Hnone; lia) Hl Hi)).
  rewrite (bind_ok (modify _) _ s tt (set_k_next (Z.of_nat NPROC) s) eq_refl).
  rewrite (bind_ok (modify (set_k_next 0)) _ _ tt (set_k_next 0 (set_k_next (Z.of_nat NPROC) s)) eq_refl).
  apply (IH _ 0%nat); [done|done|lia|done].
Qed.

(** ** [switc] *)

Definition k_mem (s : ker) : mem := mm_mem (k_mm s).

Definition with_kmem (m : mem) (s : ker) : ker := set_k_mm (with_mem m (k_mm s)) s.

Lemma push_ok v s :
  push v s = Ok (tt, with_kmem (wr64 (k_mem s) (u64 (rsp (k_cpu s) - 8)) v) (set_k_cpu (set_rsp (u64 (rsp (k_cpu s) - 8)) (k_cpu s)) s)).
Proof. done. Qed.

Lemma pop_ok s :
  pop s = Ok (rd64 (k_mem s) (rsp (k_cpu s)), set_k_cpu (set_rsp (u64 (rsp (k_cpu s) + 8)) (k_cpu s)) s).
Proof. done. Qed.

(** The words a push of the callee-saved registers leaves, lowest first. *)
Definition saved (c : cpu) (ra : Z) : list Z := [rbp c; rbx c; r12 c; r13 c; r14 c; r15 c; ra].

Definition cpu_word (v : Z) : Prop := 0 ≤ v < 2 ^ 64.

Definition cpu_ok (c : cpu) : Prop :=
  Forall cpu_word [rbp c; rbx c; r12 c; r13 c; r14 c; r15 c] ∧ 56 ≤ rsp c < 2 ^ 64.

(** The CPU that the frame at [a] describes, after it was popped. *)
Definition popped (m : mem) (a : Z) : cpu :=
  Cpu (a + 56) (rd64 m a) (rd64 m (a + 8)) (rd64 m (a + 16)) (rd64 m (a + 24)) (rd64 m (a + 32)) (rd64 m (a + 40)) (rd64 m (a + 48)).

Definition pushed (m : mem) (c : cpu) (ra : Z) : mem :=
  wr64 (wr64 (wr64 (wr64 (wr64 (wr64 (wr64 m (rsp c - 8) ra) (rsp c - 16) (r15 c)) (rsp c - 24) (r14 c)) (rsp c - 32) (r13 c))
    (rsp c - 40) (r12 c)) (rsp c - 48) (rbx c)) (rsp c - 56) (rbp c).

Lemma pushed_outside m c ra b : ¬ (rsp c - 56 ≤ b < rsp c) → rd8 (pushed m c ra) b = rd8 m b.
Proof. intros Hb. unfold pushed. rewrite !rd8_wr64_ne by lia. done. Qed.

Lemma pushed_words m c ra : cpu_ok c → cpu_word ra → words (pushed m c ra) (rsp c - 56) 7 = saved c ra.
Proof.
  intros [Hw Hr] Hra. repeat (apply Forall_cons in Hw as [? Hw]). unfold pushed, words, saved.
  replace (rsp c - 56 + 8) with (rsp c - 48) by lia. replace (rsp c - 48 + 8) with (rsp c - 40) by lia.
  replace (rsp c - 40 + 8) with (rsp c - 32) by lia. replace (rsp c - 32 + 8) with (rsp c - 24) by lia.
  replace (rsp c - 24 + 8) with (rsp c - 16) by lia. replace (rsp c - 16 + 8) with (rsp c - 8) by lia.
  repeat (f_equal; [repeat (rewrite rd64_wr64_eq || rewrite rd64_wr64_ne by lia); by apply u64_small|]).
  f_equal. repeat (rewrite rd64_wr64_eq || rewrite rd64_wr64_ne by lia). by apply u64_small.
Qed.

Lemma popped_words m a c ra :
  words m a 7 = saved c ra → popped m a = Cpu (a + 56) (rbp c) (rbx c) (r12 c) (r13 c) (r14 c) (r15 c) ra.
Proof.
  unfold words, saved, popped. intros [= E0 E1 E2 E3 E4 E5 E6].
  replace (a + 16) with (a + 8 + 8) by lia. replace (a + 24) with (a + 8 + 8 + 8) by lia.
  replace (a + 32) with (a + 8 + 8 + 8 + 8) by lia. replace (a + 40) with (a + 8 + 8 + 8 + 8 + 8) by lia.
  replace (a + 48) with (a + 8 + 8 + 8 + 8 + 8 + 8) by lia. congruence.
Qed.

(** The state after the stack pointer of the old stack was saved. *)
Definition save_stack (save : option nat) (a : Z) (table : list proc) : list proc :=
  match save with
  | Some i => match table !! i with Some p => <[i := set_p_stack a p]> table | None => table end
  | None => table
  end.

(** The state [s0] with other memory and registers. *)
Definition st (m : mem) (c : cpu) (s0 : ker) : ker := set_k_cpu c (with_kmem m s0).

Lemma st_self s : st (k_mem s) (k_cpu s) s = s.
Proof. by destruct s as [[[] ???] ??????]. Qed.

Lemma push_run v m c s0 :
  8 ≤ rsp c < 2 ^ 64 → push v (st m c s0) = Ok (tt, st (wr64 m (rsp c - 8) v) (set_rsp (rsp c - 8) c) s0).
Proof. intros H. rewrite push_ok. simpl. rewrite u64_small by lia. done. Qed.

Lemma pop_run m c s0 :
  0 ≤ rsp c < 2 ^ 64 - 8 → pop (st m c s0) = Ok (rd64 m (rsp c), st m (set_rsp (rsp c + 8) c) s0).
Proof. intros H. rewrite pop_ok. simpl. rewrite u64_small by lia. done. Qed.

Lemma push_callee_run m c s0 :
  48 ≤ rsp c < 2 ^ 64 →
  push_callee_regs (st m c s0) =
    Ok (tt, st (wr64 (wr64 (wr64 (wr64 (wr64 (wr64 m (rsp c - 8) (r15 c)) (rsp c - 16) (r14 c)) (rsp c - 24) (r13 c))
      (rsp c - 32) (r12 c)) (rsp c - 40) (rbx c)) (rsp c - 48) (rbp c)) (set_rsp (rsp c - 48) c) s0).
Proof.
  intros H. unfold push_callee_regs. rewrite (bind_ok get _ _ _ _ eq_refl). cbv zeta. change (k_cpu (st m c s0)) with c.
  rewrite (bind_ok _ _ _ _ _ (push_run (r15 c) m c s0 ltac:(lia))).
  rewrite (bind_ok _ _ _ _ _ (push_run (r14 c) _ (set_rsp (rsp c - 8) c) s0 ltac:(simpl; lia))).
  rewrite (bind_ok _ _ _ _ _ (push_run (r13 c) _ (set_rsp (rsp c - 8 - 8) c) s0 ltac:(simpl; lia))).
  rewrite (bind_ok _ _ _ _ _ (push_run (r12 c) _ (set_rsp (rsp c - 8 - 8 - 8) c) s0 ltac:(simpl; lia))).
  rewrite (bind_ok _ _ _ _ _ (push_run (rbx c) _ (set_rsp (rsp c - 8 - 8 - 8 - 8) c) s0 ltac:(simpl; lia))).
  rewrite (push_run (rbp c) _ (set_rsp (rsp c - 8 - 8 - 8 - 8 - 8) c) s0 ltac:(simpl; lia)). cbn [rsp set_rsp].
  replace (rsp c - 8 - 8) with (rsp c - 16) by lia. replace (rsp c - 16 - 8) with (rsp c - 24) by lia.
  replace (rsp c - 24 - 8) with (rsp c - 32) by lia. replace (rsp c - 32 - 8) with (rsp c - 40) by lia.
  replace (rsp c - 40 - 8) with (rsp c - 48) by lia. done.
Qed.

Lemma pop_callee_run m c s0 a :
  rsp c = a → 0 ≤ a < 2 ^ 64 - 48 →
  pop_callee_regs (st m c s0) =
    Ok (tt, st m (Cpu (a + 48) (rd64 m a) (rd64 m (a + 8)) (rd64 m (a + 16)) (rd64 m (a + 24)) (rd64 m (a + 32))
                      (rd64 m (a + 40)) (rip c)) s0).
Proof.
  intros <- H. unfold pop_callee_regs.
  rewrite (bind_ok _ _ _ _ _ (pop_run m c s0 ltac:(lia))).
  rewrite (bind_ok _ _ _ _ _ (pop_run m (set_rsp (rsp c + 8) c) s0 ltac:(simpl; lia))).
  rewrite (bind_ok _ _ _ _ _ (pop_run m (set_rsp (rsp c + 8 + 8) c) s0 ltac:(simpl; lia))).
  rewrite (bind_ok _ _ _ _ _ (pop_run m (set_rsp (rsp c + 8 + 8 + 8) c) s0 ltac:(simpl; lia))).
  rewrite (bind_ok _ _ _ _ _ (pop_run m (set_rsp (rsp c + 8 + 8 + 8 + 8) c) s0 ltac:(simpl; lia))).
  rewrite (bind_ok _ _ _ _ _ (pop_run m (set_rsp (rsp c + 8 + 8 + 8 + 8 + 8) c) s0 ltac:(simpl; lia))).
  cbn [rsp set_rsp].
  replace (rsp c + 8 + 8) with (rsp c + 16) by lia. replace (rsp c + 16 + 8) with (rsp c + 24) by lia.
  replace (rsp c + 24 + 8) with (rsp c + 32) by lia. replace (rsp c + 32 + 8) with (rsp c + 40) by lia.
  replace (rsp c + 40 + 8) with (rsp c + 48) by lia. done.
Qed.

(** [switc] saves the old CPU below its stack pointer and takes the new one
    from the frame at [next]. *)
Lemma switc_ok save next ra s :
  56 ≤ rsp (k_cpu s) < 2 ^ 64 → 0 ≤ next < 2 ^ 64 - 56 → (∀ i, save = Some i → is_Some (k_table s !! i)) →
  let m := pushed (k_mem s) (k_cpu s) ra in
  switc save next ra s =
    Ok (tt, st m (popped m next) (set_k_table (save_stack save (rsp (k_cpu s) - 56) (k_table s)) s)).
Proof.
  intros Hr Hn Hs m. rewrite <-(st_self s) at 1. set (c := k_cpu s) in *. unfold switc.
  rewrite (bind_ok _ _ _ _ _ (push_run ra (k_mem s) c s ltac:(lia))).
  rewrite (bind_ok _ _ _ _ _ (push_callee_run _ (set_rsp (rsp c - 8) c) s ltac:(simpl; lia))). cbn [rsp set_rsp r15 r14 r13 r12 rbx rbp].
  replace (rsp c - 8 - 8) with (rsp c - 16) by lia. replace (rsp c - 8 - 16) with (rsp c - 24) by lia.
  replace (rsp c - 8 - 24) with (rsp c - 32) by lia. replace (rsp c - 8 - 32) with (rsp c - 40) by lia.
  replace (rsp c - 8 - 40) with (rsp c - 48) by lia. replace (rsp c - 8 - 48) with (rsp c - 56) by lia.
  change (wr64 _ (rsp c - 56) (rbp c)) with m. set (c1 := Cpu (rsp c - 56) (rbp c) (rbx c) (r12 c) (r13 c) (r14 c) (r15 c) (rip c)).
  change (set_rsp (rsp c - 56) (set_rsp (rsp c - 8) c)) with c1.
  rewrite (bind_ok get _ _ _ _ eq_refl). change (rsp (k_cpu (st m c1 s))) with (rsp c - 56).
  set (s1 := set_k_table (save_stack save (rsp c - 56) (k_table s)) s).
  rewrite (bind_ok _ _ _ tt (st m c1 s1)).
  2:{ unfold s1. destruct save as [i|]; [|by destruct s as [[[] ???] ??????]]. destruct (Hs i eq_refl) as [p E].
      rewrite (update_proc_ok _ i p) by exact E. simpl. by rewrite E. }
  rewrite (bind_ok (modify (λ s, set_k_cpu (set_rsp next (k_cpu s)) s)) _ (st m c1 s1) tt (st m (set_rsp next c1) s1) eq_refl).
  rewrite (bind_ok _ _ _ _ _ (pop_callee_run m (set_rsp next c1) s1 next eq_refl ltac:(lia))).
  erewrite bind_ok; [|apply pop_run; simpl; lia]. simpl rsp.
  unfold modify, set_rip, popped. simpl. replace (next + 48 + 8) with (next + 56) by lia. done.
Qed.

(** Switching away and back: the thread goes on after its call with the same
    registers and stack pointer, if its frame was left alone. *)
Lemma switc_back save save' next ra ra' s s2 i :
  cpu_ok (k_cpu s) → cpu_word ra → 0 ≤ next < 2 ^ 64 - 56 → save = Some i → is_Some (k_table s !! i) →
  switc save next ra s = Ok (tt, s2) →
  (p_stack <$> k_table s2 !! i) = Some (rsp (k_cpu s) - 56) ∧
  ∀ s3 s4, (∀ b, rsp (k_cpu s) - 56 ≤ b < rsp (k_cpu s) → rd8 (k_mem s3) b = rd8 (k_mem s2) b) →
    56 ≤ rsp (k_cpu s3) < 2 ^ 64 → (rsp (k_cpu s3) ≤ rsp (k_cpu s) - 56 ∨ rsp (k_cpu s) ≤ rsp (k_cpu s3) - 56) →
    (∀ i, save' = Some i → is_Some (k_table s3 !! i)) →
    switc save' (rsp (k_cpu s) - 56) ra' s3 = Ok (tt, s4) →
    k_cpu s4 = set_rip ra (k_cpu s).
Proof.
  intros Hc Hra Hn -> [p Hp] E. destruct (Hc) as [Hw Hr].
  rewrite switc_ok in E; [|lia|done|intros i' [= <-]; by exists p]. injection E as <-. split.
  - simpl. rewrite Hp, list_lookup_insert_eq; [done|]. by apply lookup_lt_Some in Hp.
  - intros s3 s4 Hmem Hr3 Hdis Hs' E. rewrite switc_ok in E by (done || lia). injection E as <-.
    change (k_cpu (st ?m ?c ?s)) with c. rewrite (popped_words _ _ (k_cpu s) ra).
    + unfold set_rip. f_equal. lia.
    + rewrite <-(pushed_words (k_mem s) (k_cpu s) ra Hc Hra). apply words_ext. intros b Hb.
      rewrite pushed_outside by lia. apply Hmem. lia.
Qed.

(** ** [allocproc] *)

Lemma in_kmm_ok {A} (f : M A) s a m : f (k_mm s) = Ok (a, m) → in_kmm f s = Ok (a, set_k_mm m s).
Proof. intros E. unfold in_kmm. by rewrite E. Qed.

Lemma store_run a v m s0 : in_kmm (store64 a v) (set_k_mm m s0) = Ok (tt, set_k_mm (with_mem (wr64 (mm_mem m) a v) m) s0).
Proof. done. Qed.

(** Where [allocproc] puts the saved registers and the stack, on the page [t]. *)
Definition new_regs (t : Z) : Z := HHDM_OFFSET + t + PGSIZE - sizeof_regs.
Definition new_stack (t : Z) : Z := new_regs t - sizeof_stack.

Definition new_frame (m : mem) (t entry ret : Z) : mem :=
  wr64 (wr64 (wr64 (wr64 (wr64 m (regs_rip (new_regs t)) entry) (regs_cs (new_regs t)) 0x28)
    (regs_eflags (new_regs t)) 0x202) (regs_rsp (new_regs t)) (new_stack t - 0x200)) (stack_rip (new_stack t)) ret.

Lemma new_frame_outside m t entry ret b :
  ¬ (HHDM_OFFSET + t ≤ b < HHDM_OFFSET + t + PGSIZE) → rd8 (new_frame m t entry ret) b = rd8 m b.
Proof.
  intros Hb. unfold new_frame, regs_rip, regs_cs, regs_eflags, regs_rsp, stack_rip, new_stack, new_regs, sizeof_regs, sizeof_stack, PGSIZE in *.
  rewrite !rd8_wr64_ne by lia. done.
Qed.

(** What the frames say: [switc] goes to [ret], and [ret] to the entry. *)
Lemma new_frame_reads m t entry ret :
  cpu_word entry → cpu_word ret → 0 ≤ t < 2 ^ 46 →
  let m' := new_frame m t entry ret in
  rd64 m' (regs_rip (new_regs t)) = entry ∧ rd64 m' (regs_cs (new_regs t)) = 0x28 ∧
  rd64 m' (regs_eflags (new_regs t)) = 0x202 ∧ rd64 m' (regs_rsp (new_regs t)) = new_stack t - 0x200 ∧
  rd64 m' (stack_rip (new_stack t)) = ret.
Proof.
  unfold cpu_word. intros He Hr Ht. unfold new_frame, regs_rip, regs_cs, regs_eflags, regs_rsp, stack_rip, new_stack.
  set (a := new_regs t). assert (2 ^ 47 ≤ a < 2 ^ 64 - 2 ^ 12) by (unfold a, new_regs, HHDM_OFFSET, PGSIZE, sizeof_regs; lia).
  unfold sizeof_stack. cbv zeta.
  split; [|split; [|split; [|split]]];
    repeat (rewrite rd64_wr64_eq || rewrite rd64_wr64_ne by lia); apply u64_small; lia.
Qed.

Lemma allocproc_none pf ret entry s :
  none_from (k_table s) UNUSED 0 → length (k_table s) = NPROC → k_lock s = 0 → allocproc pf ret entry s = Ok (None, s).
Proof.
  intros Hn Hl Hlock. unfold allocproc. rewrite (bind_ok _ _ _ _ _ (acq_ok s Hlock)).
  rewrite (bind_ok _ _ _ _ _ (getproc_none (set_k_lock 1 s) UNUSED 0 Hn Hl ltac:(lia))).
  rewrite (bind_ok r _ _ tt (set_k_lock 0 (set_k_lock 1 s)) eq_refl). unfold mret, K_ret.
  by destruct s; simpl in *; subst.
Qed.

Lemma allocproc_run pf ret entry s i p t m1 :
  first_at (k_table s) UNUSED 0 i → length (k_table s) = NPROC → k_lock s = 0 → k_table s !! i = Some p →
  in_pmm (palloc pf 1) (k_mm s) = Ok (t, m1) → 0 ≤ t < 2 ^ 46 →
  let pid := u32 (k_nextpid s + 1) in
  allocproc pf ret entry s =
    Ok (Some i, Ker (with_mem (new_frame (mm_mem m1) t entry ret) m1) 0
      (<[i := Proc (new_regs t) (new_stack t) (p_state p) pid (p_vmap p)]> (k_table s)) pid (k_next s) (k_gs s) (k_cpu s)).
Proof.
  intros Hf Hl Hlock Hp Epage Ht pid. unfold allocproc. rewrite (bind_ok _ _ _ _ _ (acq_ok s Hlock)).
  rewrite (bind_ok _ _ _ _ _ (getproc_found (set_k_lock 1 s) UNUSED 0 i Hf Hl)).
  rewrite (bind_ok r _ _ tt (set_k_lock 0 (set_k_lock 1 s)) eq_refl).
  assert (set_k_lock 0 (set_k_lock 1 s) = s) as -> by (destruct s; simpl in *; by subst).
  assert (i < length (k_table s))%nat as Hi by (by apply lookup_lt_Some in Hp).
  rewrite (bind_ok (modify (λ s, set_k_nextpid (u32 (k_nextpid s + 1)) s)) _ s tt (set_k_nextpid pid s) eq_refl).
  rewrite (bind_ok get _ _ _ _ eq_refl). change (k_nextpid (set_k_nextpid pid s)) with pid.
  rewrite (bind_ok _ _ _ _ _ (update_proc_ok (set_k_nextpid pid s) i p _ Hp)).
  set (s1 := set_k_table _ (set_k_nextpid pid s)).
  rewrite (bind_ok _ _ _ _ _ (in_kmm_ok (in_pmm (palloc pf 1)) s1 t m1 Epage)). cbv zeta.
  assert (u64 (u64 (P2V t + PGSIZE) - sizeof_regs) = new_regs t) as Ereg.
  { unfold P2V, new_regs, HHDM_OFFSET, PGSIZE, sizeof_regs. rewrite (u64_small (t + 18446603336221196288)) by lia.
    rewrite (u64_small (_ + 4096)) by lia. rewrite u64_small by lia. lia. }
  rewrite Ereg. assert (u64 (new_regs t - sizeof_stack) = new_stack t) as Estk.
  { unfold new_stack, new_regs, HHDM_OFFSET, PGSIZE, sizeof_regs, sizeof_stack. rewrite u64_small by lia. lia. }
  rewrite Estk. assert (u64 (new_stack t - 0x200) = new_stack t - 0x200) as Ersp.
  { unfold new_stack, new_regs, HHDM_OFFSET, PGSIZE, sizeof_regs, sizeof_stack. rewrite u64_small by lia. lia. }
  rewrite Ersp.
  assert (∀ q, (<[i := q]> (k_table s) !! i : option proc) = Some q) as Hins by (intros q; by apply list_lookup_insert_eq).
  rewrite (bind_ok _ _ _ _ _ (update_proc_ok (set_k_mm m1 s1) i _ _ (Hins _))).
  change (set_k_table ?t (set_k_mm m1 s1)) with (set_k_mm m1 (set_k_table t (set_k_nextpid pid s))).
  change (k_table (set_k_mm m1 s1)) with (<[i := set_p_pid pid p]> (k_table s)). rewrite list_insert_insert_eq.
  rewrite !(bind_ok _ _ _ _ _ (store_run _ _ _ _)), !mm_mem_with, !with_mem_with.
  set (m2 := with_mem _ m1). set (s2 := set_k_table _ (set_k_nextpid pid s)).
  rewrite (bind_ok _ _ _ _ _ (update_proc_ok (set_k_mm m2 s2) i _ _ (Hins _))).
  change (set_k_table ?t (set_k_mm m2 s2)) with (set_k_mm m2 (set_k_table t (set_k_nextpid pid s))).
  change (k_table (set_k_mm m2 s2)) with (<[i := set_p_regs (new_regs t) (set_p_pid pid p)]> (k_table s)). rewrite list_insert_insert_eq.
  rewrite (bind_ok _ _ _ _ _ (store_run _ _ _ _)), (bind_ok _ _ _ _ _ (store_run _ _ _ _)).
  unfold m2. rewrite !mm_mem_with, !with_mem_with. unfold mret, K_ret, set_k_mm, set_k_table, set_k_nextpid. simpl. by rewrite Hlock.
Qed.

(** The slot [i] after [allocproc]: its frames lie on the page [t]. *)
Record started (s : ker) (i : nat) (t entry ret pid : Z) (p : proc) : Prop := {
  sd_slot : k_table s !! i = Some (Proc (new_regs t) (new_stack t) (p_state p) pid (p_vmap p));
  sd_rip : rd64 (k_mem s) (regs_rip (new_regs t)) = entry;
  sd_cs : rd64 (k_mem s) (regs_cs (new_regs t)) = 0x28;
  sd_eflags : rd64 (k_mem s) (regs_eflags (new_regs t)) = 0x202;
  sd_rsp : rd64 (k_mem s) (regs_rsp (new_regs t)) = new_stack t - 0x200;
  sd_ret : rd64 (k_mem s) (stack_rip (new_stack t)) = ret }.

Lemma allocproc_ok pf ret entry s i p N k :
  tables_ok (k_mm s) N ∅ → room (k_mm s) N (S k) → N ≤ Z.of_nat pf → N ≤ 2 ^ 34 →
  first_at (k_table s) UNUSED 0 i → length (k_table s) = NPROC → k_lock s = 0 → k_table s !! i = Some p →
  cpu_word entry → cpu_word ret →
  let pid := u32 (k_nextpid s + 1) in
  ∃ t s', allocproc pf ret entry s = Ok (Some i, s') ∧ page N t ∧ tk (k_mm s) (t / PGSIZE) = false ∧
    tk (k_mm s') (t / PGSIZE) = true ∧ started s' i t entry ret pid p ∧ (∀ j, j ≠ i → k_table s' !! j = k_table s !! j) ∧ length (k_table s') = NPROC ∧
    tables_ok (k_mm s') N ∅ ∧ room (k_mm s') N k ∧ k_nextpid s' = pid ∧ k_lock s' = 0 ∧ k_cpu s' = k_cpu s.
Proof.
  intros Hok Hroom Hpf HN Hf Hl Hlock Hp He Hr pid.
  destruct (palloc_page pf (k_mm s) N ∅ k Hok Hroom Hpf) as (t & m1 & E & Hpt & Hfree & _ & Hk1 & _ & Hex & Hok1 & Hroom1).
  assert (0 ≤ t < 2 ^ 46) as Ht by (destruct Hpt; unfold PGSIZE in *; lia).
  assert (P2V t = HHDM_OFFSET + t) as Epv by (apply (P2V_small N); [done|lia]).
  destruct (write_keeps m1 N ∅ (new_frame (mm_mem m1) t entry ret) Hok1) as [Hok2 Ht2].
  { intros a [(j & Hj & ->)|(u & l & Hu & _)]; [|by apply lookup_empty_Some in Hu]. apply new_frame_outside.
    rewrite (ex_bits _ _ _ _ _ Hex). intros Hw. apply (window_outside _ _ _ _ (bits (k_mm s) + j / 8) Hok Hpt Hfree) with (j := j); [|done|done].
    unfold window. by rewrite Epv. }
  destruct (new_frame_reads (mm_mem m1) t entry ret He Hr Ht) as (H1 & H2 & H3 & H4 & H5).
  eexists t, _. split; [exact (allocproc_run pf ret entry s i p t m1 Hf Hl Hlock Hp E Ht)|].
  assert (i < length (k_table s))%nat as Hi by (by apply lookup_lt_Some in Hp).
  split; [done|split; [done|split; [|split; [|split; [|split; [|split; [exact Hok2|split; [|done]]]]]]]].
  - simpl. rewrite Ht2; [done|]. by apply page_number.
  - constructor; try done. simpl. by apply list_lookup_insert_eq.
  - intros j Hj. simpl. by apply list_lookup_insert_ne.
  - simpl. by rewrite length_insert.
  - apply (room_same m1); done.
Qed.

(** The state [startproc] leaves. *)
Definition started_state (s : ker) (i : nat) (p : proc) (ra : Z) : ker :=
  let m := pushed (k_mem s) (k_cpu s) ra in
  st m (popped m (p_stack p)) (set_k_table (<[i := set_p_state RUNNING p]> (k_table s)) (set_k_gs (Some i) (set_k_lock 1 s))).

Lemma startproc_run s i p ra :
  k_lock s = 0 → k_table s !! i = Some p → 56 ≤ rsp (k_cpu s) < 2 ^ 64 → 0 ≤ p_stack p < 2 ^ 64 - 56 →
  startproc (Some i) ra s = Ok (tt, started_state s i p ra).
Proof.
  intros Hlock Hp Hr Hn. set (s1 := set_k_gs (Some i) (set_k_lock 1 s)).
  set (s2 := set_k_table (<[i := set_p_state RUNNING p]> (k_table s)) s1).
  assert (i < length (k_table s))%nat as Hi by (by apply lookup_lt_Some in Hp).
  assert (k_table s2 !! i = Some (set_p_state RUNNING p)) as Hs2 by (by apply list_lookup_insert_eq).
  unfold startproc. rewrite (bind_ok _ _ _ _ _ (acq_ok s Hlock)).
  rewrite (bind_ok (set_current_proc (Some i)) _ _ (Some i) s1 eq_refl).
  rewrite (bind_ok _ _ _ _ _ (update_proc_ok s1 i p _ Hp)). change (set_k_table _ s1) with s2.
  rewrite (bind_ok _ _ _ _ _ (proc_at_ok s2 i _ Hs2)). by apply switc_ok.
Qed.

(** Starting it: the CPU is at [ret] with the stack pointer at the registers. *)
Lemma startproc_ok s i t entry ret pid p ra :
  started s i t entry ret pid p → k_lock s = 0 → page (2 ^ 34) t → 56 ≤ rsp (k_cpu s) < 2 ^ 64 →
  (rsp (k_cpu s) ≤ HHDM_OFFSET + t ∨ HHDM_OFFSET + t + PGSIZE ≤ rsp (k_cpu s) - 56) →
  ∃ s', startproc (Some i) ra s = Ok (tt, s') ∧ k_lock s' = 1 ∧ k_gs s' = Some i ∧ state_at (k_table s') i = Some RUNNING ∧
    rip (k_cpu s') = ret ∧ rsp (k_cpu s') = new_regs t ∧ rd64 (k_mem s') (regs_rip (new_regs t)) = entry ∧
    rd64 (k_mem s') (regs_cs (new_regs t)) = 0x28 ∧ rd64 (k_mem s') (regs_eflags (new_regs t)) = 0x202 ∧
    rd64 (k_mem s') (regs_rsp (new_regs t)) = new_stack t - 0x200.
Proof.
  intros [Hslot Hrip Hcs Hfl Hrsp Hret] Hlock Hp Hr Hdis.
  assert (0 ≤ t < 2 ^ 46) as Ht by (destruct Hp; unfold PGSIZE in *; lia).
  set (q := Proc (new_regs t) (new_stack t) (p_state p) pid (p_vmap p)) in *.
  assert (i < length (k_table s))%nat as Hi by (by apply lookup_lt_Some in Hslot).
  assert (∀ a, HHDM_OFFSET + t ≤ a → a + 8 ≤ HHDM_OFFSET + t + PGSIZE → rd64 (pushed (k_mem s) (k_cpu s) ra) a = rd64 (k_mem s) a) as Hkeep.
  { intros a H1 H2. apply rdn_ext. intros b Hb. simpl in Hb. apply pushed_outside. lia. }
  assert (new_stack t = HHDM_OFFSET + t + 3912 ∧ new_regs t = HHDM_OFFSET + t + 3968) as [Es Eg]
    by (unfold new_stack, new_regs, PGSIZE, sizeof_regs, sizeof_stack; lia).
  exists (started_state s i q ra). split; [apply startproc_run; try done; simpl; rewrite Es; unfold HHDM_OFFSET; lia|].
  unfold started_state. change (k_mem (st ?m ?c ?s)) with m. change (k_cpu (st ?m ?c ?s)) with c. change (k_table (st ?m ?c ?s)) with (k_table s).
  simpl p_stack. unfold popped. cbn [rip rsp].
  unfold regs_rip, regs_cs, regs_eflags, regs_rsp, stack_rip in *. unfold PGSIZE in *.
  split; [done|split; [done|split; [|split; [|split; [lia|split; [|split; [|split]]]]]]]; rewrite ?Hkeep by lia; try done.
  unfold state_at. simpl. by rewrite list_lookup_insert_eq.
Qed.

(** ** The timer *)

Definition stacks_ok (table : list proc) : Prop :=
  ∀ i p, table !! i = Some p → 0 ≤ p_stack p < 2 ^ 64 - 56.

Lemma state_at_insert table i p j :
  (i < length table)%nat → state_at (<[i := p]> table) j = if decide (j = i) then Some (p_state p) else state_at table j.
Proof.
  intros Hi. unfold state_at. case_decide as E; [subst; by rewrite list_lookup_insert_eq|].
  by rewrite list_lookup_insert_ne.
Qed.

(** The table when the current process [c] is runnable again. *)
Definition preempted (table : list proc) (c : nat) : list proc := alter (set_p_state RUNNABLE) c table.

Lemma preempted_insert table c p : table !! c = Some p → preempted table c = <[c := set_p_state RUNNABLE p]> table.
Proof. intros E. unfold preempted. apply list_eq. intros i. destruct (decide (i = c)) as [->|Hne].
  - rewrite list_lookup_alter_eq, E, list_lookup_insert_eq; [done|]. by apply lookup_lt_Some in E.
  - by rewrite list_lookup_alter_ne, list_lookup_insert_ne. Qed.

(** The scheduler up to the switch. *)
Lemma scheduler_run k ra s c i j qc pj :
  picks (k_table s) i j → length (k_table s) = NPROC → (i ≤ NPROC)%nat → k_next s = Z.of_nat i → (2 ≤ k)%nat →
  k_gs s = Some c → k_table s !! j = Some pj →
  let s3 := set_k_table (<[j := set_p_state RUNNING pj]> (k_table s)) (set_k_gs (Some j) (set_k_next (Z.of_nat j) s)) in
  k_table s3 !! c = Some qc →
  scheduler k ra s =
    if decide (p_pid qc ≠ p_pid pj) then (switc (Some c) (p_stack pj) ra;; mret true) s3 else Ok (false, s3).
Proof.
  intros Hj Hl Hi Hn Hk Hgs Hpj s3 H3c. set (s2 := set_k_next (Z.of_nat j) s).
  assert (k_table s3 !! j = Some (set_p_state RUNNING pj)) as H3j
    by (apply list_lookup_insert_eq; by apply lookup_lt_Some in Hpj).
  unfold scheduler. rewrite (bind_ok _ _ _ _ _ (find_runnable_ok k s i j Hj Hl Hi Hn Hk)). fold s2.
  rewrite (bind_ok get_current_proc _ s2 (Some c) s2) by (unfold get_current_proc; simpl; by rewrite <-Hgs).
  rewrite (bind_ok (set_current_proc (Some j)) _ s2 (Some j) (set_k_gs (Some j) s2) eq_refl).
  rewrite (bind_ok _ _ _ _ _ (update_proc_ok (set_k_gs (Some j) s2) j pj _ Hpj)).
  change (set_k_table (<[j := set_p_state RUNNING pj]> (k_table (set_k_gs (Some j) s2))) (set_k_gs (Some j) s2)) with s3.
  rewrite (bind_ok _ _ _ _ _ (proc_at_ok s3 c qc H3c)), (bind_ok _ _ _ _ _ (proc_at_ok s3 j _ H3j)).
  change (p_pid (set_p_state RUNNING pj)) with (p_pid pj). change (p_stack (set_p_state RUNNING pj)) with (p_stack pj).
  by destruct (decide (p_pid qc ≠ p_pid pj)).
Qed.

Lemma apic_timer_run k ra s c pc sw s' :
  k_lock s = 0 → k_gs s = Some c → k_table s !! c = Some pc →
  scheduler k ra (set_k_table (<[c := set_p_state RUNNABLE pc]> (k_table s)) (set_k_lock 1 s)) = Ok (sw, s') →
  apic_timer k ra s = Ok (sw, if sw then s' else set_k_lock 0 s').
Proof.
  intros Hlock Hgs Hpc E. unfold apic_timer. rewrite (bind_ok _ _ _ _ _ (acq_ok s Hlock)).
  rewrite (bind_ok get_current_proc _ _ (Some c) (set_k_lock 1 s)) by (unfold get_current_proc; simpl; by rewrite <-Hgs).
  rewrite (bind_ok _ _ _ _ _ (update_proc_ok (set_k_lock 1 s) c pc _ Hpc)). change (k_table (set_k_lock 1 s)) with (k_table s).
  rewrite (bind_ok _ _ _ _ _ E). by destruct sw.
Qed.

Lemma apic_timer_ok k ra s c i :
  k_lock s = 0 → k_gs s = Some c → (c < NPROC)%nat → length (k_table s) = NPROC → k_next s = Z.of_nat i → (i ≤ NPROC)%nat →
  (2 ≤ k)%nat → 56 ≤ rsp (k_cpu s) < 2 ^ 64 → stacks_ok (k_table s) →
  ∃ j sw s', apic_timer k ra s = Ok (sw, s') ∧ picks (preempted (k_table s) c) i j ∧
    k_gs s' = Some j ∧ k_next s' = Z.of_nat j ∧ length (k_table s') = NPROC ∧
    (∀ n, state_at (k_table s') n = if decide (n = j) then Some RUNNING else state_at (preempted (k_table s) c) n) ∧
    k_lock s' = (if sw then 1 else 0) ∧
    (sw = false → k_mm s' = k_mm s ∧ k_cpu s' = k_cpu s) ∧ (c = j → sw = false) ∧
    (sw = true → (p_stack <$> k_table s' !! c) = Some (rsp (k_cpu s) - 56) ∧
      ∃ p, k_table s !! j = Some p ∧ k_cpu s' = popped (pushed (k_mem s) (k_cpu s) ra) (p_stack p)).
Proof.
  intros Hlock Hgs Hc Hl Hn Hi Hk Hr Hst.
  destruct (lookup_lt_is_Some_2 (k_table s) c ltac:(lia)) as [pc Hpc].
  set (T := preempted (k_table s) c). assert (T = <[c := set_p_state RUNNABLE pc]> (k_table s)) as ET by (by apply preempted_insert).
  assert (length T = NPROC) as HlT by (rewrite ET, length_insert; done).
  assert (T !! c = Some (set_p_state RUNNABLE pc)) as HTc by (rewrite ET; apply list_lookup_insert_eq; lia).
  assert (state_at T c = Some RUNNABLE) as HsT by (unfold state_at; by rewrite HTc).
  assert (∃ j0, first_at T RUNNABLE 0 j0) as [j0 Hj0].
  { destruct (first_or_none T RUNNABLE 0) as [?|Hnone]; [done|]. by destruct (Hnone c); [lia|]. }
  destruct (picks_exists T i j0 Hj0) as [j Hj].
  assert (j < NPROC)%nat as Hjr by (destruct Hj as [[]|[_ []]]; lia).
  destruct (lookup_lt_is_Some_2 T j ltac:(lia)) as [pj Hpj].
  set (s1 := set_k_table T (set_k_lock 1 s)). set (s2 := set_k_next (Z.of_nat j) s1).
  set (s3 := set_k_table (<[j := set_p_state RUNNING pj]> T) (set_k_gs (Some j) s2)).
  assert (k_table s3 !! j = Some (set_p_state RUNNING pj)) as H3j by (apply list_lookup_insert_eq; lia).
  destruct (lookup_lt_is_Some_2 (k_table s3) c) as [qc H3c]; [simpl; rewrite length_insert; lia|].
  assert (p_pid qc = p_pid pc ∧ (c = j → qc = set_p_state RUNNING pj)) as [Hqc Hqj].
  { destruct (decide (c = j)) as [Hcj|Hne].
    - rewrite Hcj in H3c. rewrite H3j in H3c. injection H3c as <-. rewrite Hcj in HTc. rewrite HTc in Hpj. injection Hpj as <-. done.
    - simpl in H3c. rewrite list_lookup_insert_ne in H3c by done. rewrite HTc in H3c. injection H3c as <-. done. }
  assert (0 ≤ p_stack pj < 2 ^ 64 - 56 ∧ ∃ p, k_table s !! j = Some p ∧ p_stack p = p_stack pj) as [Hsj Hpj0].
  { destruct (decide (c = j)) as [<-|Hne].
    - rewrite HTc in Hpj. injection Hpj as <-. split; [exact (Hst c pc Hpc)|by exists pc].
    - rewrite ET, list_lookup_insert_ne in Hpj by done. split; [exact (Hst j pj Hpj)|by exists pj]. }
  assert (scheduler k ra s1 = (if decide (p_pid qc ≠ p_pid pj) then
      (switc (Some c) (p_stack pj) ra;; mret true) s3 else Ok (false, s3))) as Esch
    by (apply (scheduler_run k ra s1 c i j qc pj); done).
  assert (∀ sw s', scheduler k ra s1 = Ok (sw, s') → apic_timer k ra s = Ok (sw, if sw then s' else set_k_lock 0 s')) as Hrun
    by (intros sw s' E; apply (apic_timer_run k ra s c pc sw s' Hlock Hgs Hpc); by rewrite <-ET).
  assert (∀ n, state_at (k_table s3) n = if decide (n = j) then Some RUNNING else state_at T n) as Hstates
    by (intros n; apply state_at_insert; lia).
  exists j.
  destruct (decide (p_pid qc ≠ p_pid pj)) as [Hne|Heq].
  - rewrite (bind_ok _ _ _ _ _ (switc_ok (Some c) (p_stack pj) ra s3 Hr Hsj ltac:(intros ? [= <-]; by exists qc))) in Esch.
    exists true. eexists. split; [exact (Hrun true _ Esch)|]. split; [exact Hj|]. split; [done|]. split; [done|].
    change (k_table (st ?m ?c ?s)) with (k_table s). simpl k_table. simpl in H3c. rewrite H3c.
    split; [by rewrite !length_insert|]. split; [|split; [done|split; [done|split; [|intros _; split]]]].
    + intros n. rewrite <-Hstates. rewrite state_at_insert by (rewrite length_insert; lia). case_decide as E; [|done].
      subst n. unfold state_at. simpl. by rewrite H3c.
    + intros ->. destruct Hne. by rewrite (Hqj eq_refl).
    + rewrite list_lookup_insert_eq by (rewrite length_insert; lia). done.
    + destruct Hpj0 as (p & Hp & Ep). exists p. split; [done|]. by rewrite Ep.
  - exists false, (set_k_lock 0 s3). split; [exact (Hrun false _ Esch)|]. split; [exact Hj|].
    split; [done|split; [done|split; [simpl; by rewrite length_insert|split; [exact Hstates|split; [done|split; [done|split; done]]]]]].
Qed.

(** A tick that finds the static index at the current process changes nothing. *)
Lemma tick_fixed k ra s c p :
  k_lock s = 0 → k_gs s = Some c → (c < NPROC)%nat → length (k_table s) = NPROC → k_next s = Z.of_nat c →
  (2 ≤ k)%nat → k_table s !! c = Some p → p_state p = RUNNING → apic_timer k ra s = Ok (false, s).
Proof.
  intros Hlock Hgs Hc Hl Hn Hk Hp Hrun. set (q := set_p_state RUNNABLE p).
  set (s1 := set_k_table (<[c := q]> (k_table s)) (set_k_lock 1 s)).
  assert (k_table s1 !! c = Some q) as Hq by (apply list_lookup_insert_eq; lia).
  assert (length (k_table s1) = NPROC) as Hl1 by (simpl; by rewrite length_insert).
  assert (picks (k_table s1) c c) as Hpick.
  { left. split; [lia|split; [unfold state_at; by rewrite Hq|]]. intros j Hj. lia. }
  assert (k_table (set_k_table (<[c := set_p_state RUNNING q]> (k_table s1)) s1) !! c = Some (set_p_state RUNNING q)) as Hq2
    by (apply list_lookup_insert_eq; lia).
  assert (set_p_state RUNNING q = p) as Eq by (destruct p; simpl in *; by subst).
  pose proof (scheduler_run k ra s1 c c c _ q Hpick Hl1 ltac:(lia) Hn Hk Hgs Hq Hq2) as E.
  rewrite decide_False in E by (simpl; tauto).
  rewrite (apic_timer_run k ra s c p _ _ Hlock Hgs Hp E). do 2 f_equal.
  rewrite Eq. unfold s1. cbn [k_table set_k_table]. rewrite list_insert_insert_eq, list_insert_id by done.
  clearbody q. clear -Hlock Hgs Hn. destruct s; simpl in *. by subst.
Qed.

(** [n] ticks on one CPU; a thread that was switched to releases the lock. *)
Fixpoint ticks (k : nat) (ra : Z) (n : nat) : K ker unit :=
  match n with
  | O => mret tt
  | S n => switched ← apic_timer k ra; (if switched : bool then r else mret tt);; ticks k ra n
  end.

Lemma ticks_fixed k ra s c p n :
  k_lock s = 0 → k_gs s = Some c → (c < NPROC)%nat → length (k_table s) = NPROC → k_next s = Z.of_nat c →
  (2 ≤ k)%nat → k_table s !! c = Some p → p_state p = RUNNING → ticks k ra n s = Ok (tt, s).
Proof.
  intros. induction n as [|n IH]; [done|]. cbn [ticks].
  rewrite (bind_ok _ _ _ _ _ (tick_fixed k ra s c p ltac:(done) ltac:(done) ltac:(done) ltac:(done) ltac:(done) ltac:(done) ltac:(done) ltac:(done))).
  exact IH.
Qed.
