(* ===== verification/ProcTheorems.v ===== *)
(** * Processes: the properties

    [allocproc] leaves its slot UNUSED, and the scheduler starts its search at
    the process that runs: the theorems say what follows for the threads of
    [kmain]. *)

From S2P Require Import Prelude CString CStringSpec Word Pmm PmmSpec Slab SlabSpec Vmm VmmSpec VmmMaps VmmDemo Proc ProcSpec Args.

Local Open Scope Z_scope.

(** ** A state *)

Definition unused : proc := Proc 0 0 UNUSED 0 0.
Definition cpu0 : cpu := Cpu 0x8000 1 2 3 4 5 6 0x100.

(** The table at boot, and 64 pages. *)
Definition ker0 : ker := Ker vm0 0 (replicate NPROC unused) 0 2 None cpu0.

Lemma vm0_no_tables : tables_ok vm0 64 ∅.
Proof.
  split; [lia|apply (to_apart _ _ _ vm0_ok)|intros t l H|intros t l a H|intros t l H|intros t l i H];
    destruct (lookup_empty_Some _ _ H).
Qed.

Lemma ker0_first : first_at (k_table ker0) UNUSED 0 0.
Proof. split; [unfold NPROC; lia|split; [reflexivity|]]. intros k Hk. lia. Qed.

(** Two processes that can run: slot 0 is current, slot 5 waits. *)
Definition ker1 : ker :=
  Ker vm0 0 (<[0%nat := Proc 0 0x6000 RUNNING 1 0]> (<[5%nat := Proc 0 0x7000 RUNNABLE 2 0]> (replicate NPROC unused)))
    2 2 (Some 0%nat) cpu0.

Lemma ker1_stacks : stacks_ok (k_table ker1).
Proof.
  intros i p Hp. unfold ker1 in Hp. cbn [k_table] in Hp. destruct (decide (i = 0%nat)) as [->|H0].
  { rewrite list_lookup_insert_eq in Hp by (rewrite length_insert, length_replicate; unfold NPROC; lia). injection Hp as <-. simpl. lia. }
  rewrite list_lookup_insert_ne in Hp by done. destruct (decide (i = 5%nat)) as [->|H5].
  { rewrite list_lookup_insert_eq in Hp by (rewrite length_replicate; unfold NPROC; lia). injection Hp as <-. simpl. lia. }
  rewrite list_lookup_insert_ne in Hp by done. apply lookup_replicate_1 in Hp as [-> _]. simpl. lia.
Qed.

(** ** Starting a thread *)

(** Allocproc takes the first unused slot and one page, and builds the frames of a
    new thread on it: starting the process afterwards leaves the CPU at the label
    ret with the stack pointer at the saved registers, which say entry, the kernel's
    code segment and interrupts on. *)
Theorem allocproc_starts pf ret entry s i p N k ra :
  tables_ok (k_mm s) N ∅ → room (k_mm s) N (S k) → N ≤ Z.of_nat pf → N ≤ 2 ^ 34 →
  first_at (k_table s) UNUSED 0 i → length (k_table s) = NPROC → k_lock s = 0 → k_table s !! i = Some p →
  cpu_word entry → cpu_word ret → 56 ≤ rsp (k_cpu s) ≤ HHDM_OFFSET →
  ∃ t s' s'', allocproc pf ret entry s = Ok (Some i, s') ∧ startproc (Some i) ra s' = Ok (tt, s'') ∧
    page N t ∧ tk (k_mm s) (t / PGSIZE) = false ∧ tables_ok (k_mm s') N ∅ ∧
    k_table s' !! i = Some (Proc (new_regs t) (new_stack t) UNUSED (u32 (k_nextpid s + 1)) (p_vmap p)) ∧
    k_gs s'' = Some i ∧ state_at (k_table s'') i = Some RUNNING ∧
    rip (k_cpu s'') = ret ∧ rsp (k_cpu s'') = new_regs t ∧ rd64 (k_mem s'') (regs_rip (rsp (k_cpu s''))) = entry ∧
    rd64 (k_mem s'') (regs_cs (rsp (k_cpu s''))) = 0x28 ∧ rd64 (k_mem s'') (regs_eflags (rsp (k_cpu s''))) = 0x202.
Proof.
  intros Hok Hroom Hpf HN Hf Hl Hlock Hp He Hr Hrsp.
  destruct (allocproc_ok pf ret entry s i p N k Hok Hroom Hpf HN Hf Hl Hlock Hp He Hr)
    as (t & s' & E & Hpt & Hfree & _ & Hst & _ & _ & Hok' & _ & _ & Hlock' & Hcpu).
  assert (0 ≤ t) by (by destruct Hpt as [_ []]).
  destruct (startproc_ok s' i t entry ret _ p ra Hst Hlock') as (s'' & E' & _ & Hgs & Hrun & Hrip & Hrs & H1 & H2 & H3 & _).
  - destruct Hpt. split; [done|]. unfold PGSIZE in *. lia.
  - rewrite Hcpu. unfold HHDM_OFFSET in *. lia.
  - rewrite Hcpu. left. lia.
  - exists t, s', s''. rewrite Hrs. assert (p_state p = UNUSED) as Hu.
    { destruct Hf as (_ & Hj & _). unfold state_at in Hj. rewrite Hp in Hj. by injection Hj. }
    rewrite <-Hu. split; [exact E|split; [exact E'|split; [exact Hpt|split; [exact Hfree|split; [exact Hok'|split; [apply Hst|done]]]]]].
Qed.

Theorem allocproc_starts_witness :
  ∃ t s' s'', allocproc 64 0xffffffff80002000 0xffffffff80001000 ker0 = Ok (Some 0%nat, s') ∧
    startproc (Some 0%nat) 0xffffffff80003000 s' = Ok (tt, s'') ∧ rsp (k_cpu s'') = new_regs t ∧
    rd64 (k_mem s'') (regs_rip (rsp (k_cpu s''))) = 0xffffffff80001000.
Proof.
  destruct (allocproc_starts 64 0xffffffff80002000 0xffffffff80001000 ker0 0 unused 64 62 0xffffffff80003000
    vm0_no_tables vm0_room) as (t & s' & s'' & E & E' & _ & _ & _ & _ & _ & _ & _ & Hrs & Hrip & _);
    [lia|lia|exact ker0_first|reflexivity|reflexivity|reflexivity|unfold cpu_word; lia|unfold cpu_word; lia|
     simpl; unfold HHDM_OFFSET; lia|].
  exists t, s', s''. split; [exact E|split; [exact E'|split; [exact Hrs|exact Hrip]]].
Defined.

(** allocproc leaves the state of its slot UNUSED, so that a second call returns
    the same process: the slot then has the pid, the registers and the stack of the
    second thread, and the first one is lost. *)
Theorem allocproc_reuses_slot pf ret e1 e2 s i p N k :
  tables_ok (k_mm s) N ∅ → room (k_mm s) N (S (S k)) → N ≤ Z.of_nat pf → N ≤ 2 ^ 34 →
  first_at (k_table s) UNUSED 0 i → length (k_table s) = NPROC → k_lock s = 0 → k_table s !! i = Some p →
  cpu_word e1 → cpu_word e2 → cpu_word ret →
  ∃ s1 s2 t1 t2, allocproc pf ret e1 s = Ok (Some i, s1) ∧ allocproc pf ret e2 s1 = Ok (Some i, s2) ∧
    started s1 i t1 e1 ret (u32 (k_nextpid s + 1)) p ∧
    started s2 i t2 e2 ret (u32 (u32 (k_nextpid s + 1) + 1)) (Proc (new_regs t1) (new_stack t1) UNUSED (u32 (k_nextpid s + 1)) (p_vmap p)) ∧
    t1 / PGSIZE ≠ t2 / PGSIZE ∧ ∀ j, j ≠ i → k_table s2 !! j = k_table s !! j.
Proof.
  intros Hok Hroom Hpf HN Hf Hl Hlock Hp He1 He2 Hr.
  destruct (allocproc_ok pf ret e1 s i p N (S k) Hok Hroom Hpf HN Hf Hl Hlock Hp He1 Hr)
    as (t1 & s1 & E1 & Hp1 & Hf1 & Hk1 & Hst1 & Hrest1 & Hl1 & Hok1 & Hroom1 & Hn1 & Hlock1 & Hc1).
  pose proof (sd_slot _ _ _ _ _ _ _ Hst1) as Hslot.
  assert (p_state p = UNUSED) as Hu.
  { destruct Hf as (_ & Hj & _). unfold state_at in Hj. rewrite Hp in Hj. by injection Hj. }
  assert (first_at (k_table s1) UNUSED 0 i) as Hfirst.
  { destruct Hf as (Hri & _ & Hno). split; [done|split].
    - unfold state_at. rewrite Hslot. simpl. by rewrite Hu.
    - intros j Hj. unfold state_at. rewrite Hrest1 by lia. by apply Hno. }
  destruct (allocproc_ok pf ret e2 s1 i _ N k Hok1 Hroom1 Hpf HN Hfirst Hl1 Hlock1 Hslot He2 Hr)
    as (t2 & s2 & E2 & Hp2 & Hf2 & _ & Hst2 & Hrest2 & _).
  rewrite Hn1, Hu in Hst2. exists s1, s2, t1, t2. split; [exact E1|split; [exact E2|split; [exact Hst1|split; [exact Hst2|split]]]].
  - intros Et. rewrite <-Et in Hf2. congruence.
  - intros j Hj. by rewrite Hrest2, Hrest1.
Qed.

Theorem allocproc_reuses_slot_witness :
  ∃ s1 s2 t2, allocproc 64 0xffffffff80002000 0xffffffff80001000 ker0 = Ok (Some 0%nat, s1) ∧
    allocproc 64 0xffffffff80002000 0xffffffff80001100 s1 = Ok (Some 0%nat, s2) ∧
    rd64 (k_mem s2) (regs_rip (new_regs t2)) = 0xffffffff80001100.
Proof.
  destruct (allocproc_reuses_slot 64 0xffffffff80002000 0xffffffff80001000 0xffffffff80001100 ker0 0 unused 64 61
    vm0_no_tables vm0_room) as (s1 & s2 & t1 & t2 & E1 & E2 & _ & Hst & _);
    [lia|lia|exact ker0_first|reflexivity|reflexivity|reflexivity|unfold cpu_word; lia..|].
  exists s1, s2, t2. split; [exact E1|split; [exact E2|apply Hst]].
Defined.

(** ** Switching *)

(** Switc saves the callee-saved registers and the return address below the stack
    pointer and records where; a later switc to that address, from another stack,
    brings the thread back after its call with the same registers and stack pointer. *)
Theorem switc_resumes save' next ra ra' s s2 i :
  cpu_ok (k_cpu s) → cpu_word ra → 0 ≤ next < 2 ^ 64 - 56 → is_Some (k_table s !! i) →
  switc (Some i) next ra s = Ok (tt, s2) →
  (p_stack <$> k_table s2 !! i) = Some (rsp (k_cpu s) - 56) ∧ words (k_mem s2) (rsp (k_cpu s) - 56) 7 = saved (k_cpu s) ra ∧
  ∀ s3 s4, (∀ b, rsp (k_cpu s) - 56 ≤ b < rsp (k_cpu s) → rd8 (k_mem s3) b = rd8 (k_mem s2) b) →
    56 ≤ rsp (k_cpu s3) < 2 ^ 64 → (rsp (k_cpu s3) ≤ rsp (k_cpu s) - 56 ∨ rsp (k_cpu s) ≤ rsp (k_cpu s3) - 56) →
    (∀ i, save' = Some i → is_Some (k_table s3 !! i)) →
    switc save' (rsp (k_cpu s) - 56) ra' s3 = Ok (tt, s4) → k_cpu s4 = set_rip ra (k_cpu s).
Proof.
  intros Hc Hra Hn Hi E.
  destruct (switc_back (Some i) save' next ra ra' s s2 i Hc Hra Hn eq_refl Hi E) as [H1 H2]. split; [exact H1|split; [|exact H2]].
  rewrite switc_ok in E; [|apply Hc|done|intros ? [= <-]; done]. injection E as <-. by apply pushed_words.
Qed.

Theorem switc_resumes_witness :
  ∃ s2, switc (Some 0%nat) 0x7000 0x1234 ker1 = Ok (tt, s2) ∧ (p_stack <$> k_table s2 !! 0%nat) = Some 0x7fc8.
Proof.
  assert (∃ s2, switc (Some 0%nat) 0x7000 0x1234 ker1 = Ok (tt, s2)) as [s2 E].
  { eexists. apply switc_ok; [simpl; lia|lia|]. intros i [= <-]. eexists. reflexivity. }
  exists s2. split; [exact E|].
  refine (proj1 (switc_resumes None 0x7000 0x1234 0 ker1 s2 0 _ _ _ _ E));
    [split; [repeat constructor; simpl; lia|simpl; lia]|unfold cpu_word; lia|lia|eexists; reflexivity].
Defined.

(** ** The scheduler *)

(** C16: a timer interrupt on a CPU that runs process c returns or switches: the scheduler
    takes the first runnable process from its static index on, wrapping around once, c
    itself being runnable; that process runs, the lock is released or left to the resumed
    thread, and only a switch touches memory and registers. *)
Theorem apic_timer_picks k ra s c i :
  k_lock s = 0 → k_gs s = Some c → (c < NPROC)%nat → length (k_table s) = NPROC → k_next s = Z.of_nat i → (i ≤ NPROC)%nat →
  (2 ≤ k)%nat → 56 ≤ rsp (k_cpu s) < 2 ^ 64 → stacks_ok (k_table s) →
  ∃ j sw s', apic_timer k ra s = Ok (sw, s') ∧ picks (preempted (k_table s) c) i j ∧
    k_gs s' = Some j ∧ k_next s' = Z.of_nat j ∧
    (∀ n, state_at (k_table s') n = if decide (n = j) then Some RUNNING else state_at (preempted (k_table s) c) n) ∧
    k_lock s' = (if sw then 1 else 0) ∧ (c = j → sw = false) ∧ (sw = false → k_mm s' = k_mm s ∧ k_cpu s' = k_cpu s) ∧
    (sw = true → (p_stack <$> k_table s' !! c) = Some (rsp (k_cpu s) - 56) ∧
      ∃ p, k_table s !! j = Some p ∧ k_cpu s' = popped (pushed (k_mem s) (k_cpu s) ra) (p_stack p)).
Proof.
  intros Hlock Hgs Hc Hl Hn Hi Hk Hr Hst.
  destruct (apic_timer_ok k ra s c i Hlock Hgs Hc Hl Hn Hi Hk Hr Hst) as (j & sw & s' & E & H1 & H2 & H3 & _ & H5 & H6 & H7 & H8 & H9).
  exists j, sw, s'. done.
Qed.

Theorem apic_timer_picks_witness :
  ∃ j sw s', apic_timer 2 0x200 ker1 = Ok (sw, s') ∧ picks (preempted (k_table ker1) 0) 2 j ∧ k_gs s' = Some j.
Proof.
  destruct (apic_timer_picks 2 0x200 ker1 0 2) as (j & sw & s' & E & Hp & Hg & _);
    [reflexivity|reflexivity|unfold NPROC; lia|reflexivity|reflexivity|unfold NPROC; lia|lia|simpl; lia|exact ker1_stacks|].
  exists j, sw, s'. split; [exact E|split; [exact Hp|exact Hg]].
Defined.

(** C19: after one timer interrupt on a CPU, any number of further ones changes nothing:
    each makes the process that runs runnable and starts its search at that very process,
    so that it goes on, and whatever else is runnable waits for ever. *)
Theorem timer_starves k ra s c i sw s' n :
  k_lock s = 0 → k_gs s = Some c → (c < NPROC)%nat → length (k_table s) = NPROC → k_next s = Z.of_nat i → (i ≤ NPROC)%nat →
  (2 ≤ k)%nat → 56 ≤ rsp (k_cpu s) < 2 ^ 64 → stacks_ok (k_table s) → apic_timer k ra s = Ok (sw, s') →
  let s1 := set_k_lock 0 s' in ticks k ra n s1 = Ok (tt, s1).
Proof.
  intros Hlock Hgs Hc Hl Hn Hi Hk Hr Hst E.
  destruct (apic_timer_ok k ra s c i Hlock Hgs Hc Hl Hn Hi Hk Hr Hst) as (j & sw' & s2 & E' & Hp & Hg & Hj & Hl' & Hs & _).
  rewrite E' in E. injection E as <- <-. cbv zeta. pose proof (Hs j) as Hsj. rewrite decide_True in Hsj by done.
  unfold state_at in Hsj. destruct (k_table s2 !! j) as [p|] eqn:Hpj; [|done]. injection Hsj as Hsj.
  apply (ticks_fixed k ra _ j p n); try done. destruct Hp as [[]|[_ []]]; lia.
Qed.

Theorem timer_starves_witness :
  ∃ sw s', apic_timer 2 0x200 ker1 = Ok (sw, s') ∧ ticks 2 0x200 1000 (set_k_lock 0 s') = Ok (tt, set_k_lock 0 s').
Proof.
  destruct (apic_timer_ok 2 0x200 ker1 0 2) as (j & sw & s' & E & _);
    [reflexivity|reflexivity|unfold NPROC; lia|reflexivity|reflexivity|unfold NPROC; lia|lia|simpl; lia|exact ker1_stacks|].
  exists sw, s'. split; [exact E|]. refine (timer_starves 2 0x200 ker1 0 2 sw s' 1000 _ _ _ _ _ _ _ _ ker1_stacks E);
    [reflexivity|reflexivity|unfold NPROC; lia|reflexivity|reflexivity|unfold NPROC; lia|lia|simpl; lia].
Defined.

(** With no runnable process the scheduler does not return. *)
Theorem scheduler_hangs k ra s i :
  none_from (k_table s) RUNNABLE 0 → length (k_table s) = NPROC → (i ≤ NPROC)%nat → k_next s = Z.of_nat i →
  scheduler k ra s = Hang.
Proof. intros Hn Hl Hi Hx. unfold scheduler. apply bind_hang. by apply (find_runnable_hangs k s i). Qed.

Theorem scheduler_hangs_witness : scheduler 100 0x200 ker0 = Hang.
Proof.
  apply (scheduler_hangs 100 0x200 ker0 2); [|reflexivity|unfold NPROC; lia|reflexivity].
  intros j Hj E. unfold state_at in E. cbn [k_table ker0] in E.
  rewrite lookup_replicate_2 in E by lia. discriminate.
Defined.

(** ** The stack of a new program *)

(** C32: copyargs leaves the stack that a program expects: the number of arguments, the
    pointers to the copies of the strings below the old top, a zero, the four pairs of the
    auxiliary vector; of the pair that ends the vector only the value is written, its type
    is what the page held before. Nothing outside of the stack changes. *)
Theorem copyargs_builds fuel e ph pe pn aux argv ps strs top m :
  let sp := bottom top strs - 96 - 8 * Z.of_nat (length strs) in
  arg_list m sp top argv 0 ps strs → 0 ≤ sp → top < 2 ^ 64 → (length strs < fuel)%nat →
  Forall word64 [e; ph; pe; pn; at_entry aux; at_phdr aux; at_phent aux; at_phnum aux] →
  ∃ m', copyargs fuel e ph pe pn top argv aux m = Ok (sp, m') ∧
    rd64 m' sp = Z.of_nat (length strs) ∧
    (∀ k q, places top strs !! k = Some q → rd64 m' (sp + 8 + 8 * Z.of_nat k) = q) ∧
    Forall2 (cstr m') (places top strs) strs ∧
    (λ k, rd64 m' (sp + 8 + 8 * Z.of_nat (length strs) + 8 * k)) <$> seqZ 0 11 =
      [0; pn; at_phnum aux; pe; at_phent aux; ph; at_phdr aux; e; at_entry aux; rd64 m (bottom top strs - 16); 0] ∧
    ∀ a, ¬ (sp ≤ a < top) → rd8 m' a = rd8 m a.
Proof.
  intros sp Hargs H0 H64 Hf Hw.
  destruct (copyargs_ok fuel e ph pe pn aux argv ps strs top m Hargs H0 H64 Hf Hw) as (m' & E & [H1 H2 H3 H4 H5]).
  exists m'. split; [exact E|split; [exact H1|split; [exact H2|split; [exact H3|split; [exact H4|exact H5]]]]].
Qed.

(** Two arguments at 0x200 and 0x300, the array at 0x100. *)
Definition args_mem : mem :=
  Str.set_loop 1 0 0x301 108 (Str.set_loop 1 0 0x300 45 (Str.set_loop 1 0 0x201 115 (Str.set_loop 1 0 0x200 108
    (wr64 (wr64 ∅ 0x100 0x200) 0x108 0x300)))).

Lemma args_mem_list : arg_list args_mem 8074 0x2000 0x100 0 [0x200; 0x300] ["ls"; "-l"]%string.
Proof.
  repeat match goal with
  | |- arg_list _ _ _ _ _ _ _ => split
  | |- _ ∧ _ => split
  | |- cstr _ _ _ => split; [discriminate|split; [vm_compute; reflexivity|]]
  end; try (unfold clear_of, slen; simpl; lia); try discriminate; vm_compute; reflexivity.
Qed.

Theorem copyargs_builds_witness :
  ∃ m', copyargs 3 9 3 4 5 0x2000 0x100 (Auxval 0x401000 0x400040 56 7) args_mem = Ok (8074, m') ∧
    rd64 m' 8074 = 2 ∧ rd64 m' 8082 = 8189 ∧ cstr m' 8189 "ls".
Proof.
  destruct (copyargs_builds 3 9 3 4 5 (Auxval 0x401000 0x400040 56 7) 0x100 [0x200; 0x300] ["ls"; "-l"]%string 0x2000 args_mem
    args_mem_list) as (m' & E & Hn & Hv & Hs & _); [simpl; unfold slen; simpl; lia|lia|simpl; lia|
    repeat (apply Forall_cons_2; [unfold word64; simpl; lia|]); by apply Forall_nil|].
  exists m'. split; [exact E|split; [exact Hn|split]].
  - exact (Hv 0%nat 8189 eq_refl).
  - apply Forall2_cons in Hs as [Hs _]. exact Hs.
Defined.
