(* ===== verification/Trap.v ===== *)
(** * kernel/idt.c [trap], kernel/interrupt.c, kernel/syscall.c, kernel/time.c, kernel/apic.c:
    what an interrupt does

    One CPU.  The state has the keyboard's ports and console, the processes,
    the counter of the timer and the registers of the local APIC, which are
    the history of the accesses, newest first.  At the end, [trap] between the
    assembly code of Isr.v, on one machine. *)

From S2P Require Import Prelude CString Word Pmm Slab Acpi Kbd Isr Args Proc.
From Stdlib Require Import Ascii.

Local Open Scope Z_scope.

Inductive mmio := Read (a v : Z) | Write (a v : Z).

(** [PIT_COUNTER]; the static variables [ticks] and [configured] of
    [init_timer]; the global [EOI]. *)
Record irq := Irq {
  t_kbd : kbd; t_ker : ker; PIT_COUNTER : Z; t_mmio : list mmio; t_ticks : Z; t_configured : bool; t_EOI : ptr }.

Definition set_t_kbd (v : kbd) (s : irq) : irq := Irq v (t_ker s) (PIT_COUNTER s) (t_mmio s) (t_ticks s) (t_configured s) (t_EOI s).
Definition set_t_ker (v : ker) (s : irq) : irq := Irq (t_kbd s) v (PIT_COUNTER s) (t_mmio s) (t_ticks s) (t_configured s) (t_EOI s).
Definition set_PIT_COUNTER (v : Z) (s : irq) : irq := Irq (t_kbd s) (t_ker s) v (t_mmio s) (t_ticks s) (t_configured s) (t_EOI s).
Definition set_t_mmio (v : list mmio) (s : irq) : irq := Irq (t_kbd s) (t_ker s) (PIT_COUNTER s) v (t_ticks s) (t_configured s) (t_EOI s).
Definition set_t_timer (ticks : Z) (conf : bool) (s : irq) : irq := Irq (t_kbd s) (t_ker s) (PIT_COUNTER s) (t_mmio s) ticks conf (t_EOI s).
Definition set_t_EOI (v : ptr) (s : irq) : irq := Irq (t_kbd s) (t_ker s) (PIT_COUNTER s) (t_mmio s) (t_ticks s) (t_configured s) v.

Definition in_kbd {A} (f : K kbd A) : K irq A := λ s,
  match f (t_kbd s) with
  | Ok (a, t) => Ok (a, set_t_kbd t s)
  | Panic msg => Panic msg
  | Hang => Hang
  | Fault e => Fault e
  end.
Definition in_ker {A} (f : K ker A) : K irq A := λ s,
  match f (t_ker s) with
  | Ok (a, t) => Ok (a, set_t_ker t s)
  | Panic msg => Panic msg
  | Hang => Hang
  | Fault e => Fault e
  end.

(** The bytes of a string and its terminator, at address 1. *)
Definition literal (str : string) : mem := Str.write_list 1 ((λ c, Z.of_nat (Ascii.nat_of_ascii c)) <$> String.list_ascii_of_string str) ∅.

(** [struct regs] of switch.h. *)
Definition regs_rax (regs : ptr) : ptr := regs + 64.
Definition regs_code (regs : ptr) : ptr := regs + 80.

Section trap.
(** The devices behind the ports and the bytes after [kbd_us], as in Kbd.v; the
    local APIC: what it answers to a read after a history. *)
Context (dev : list event → Z → Z) (beyond : Z → Z) (lapic_dev : list mmio → ptr → Z).
(** As in Proc.v: the rounds of the search for a process, and the address after
    the call of [switc]; [stk] is what the stack of [trap] holds. *)
Context (k : nat) (ra : Z) (stk : mem).

(** ** The timer of the board *)

Definition timerh : K irq unit :=
  modify (λ s, set_PIT_COUNTER (u32 (PIT_COUNTER s - 1)) s);;
  in_kbd (out 0x20 0x20).

(** [n] interrupts of the timer. *)
Fixpoint timers (n : nat) : K irq unit :=
  match n with O => mret tt | S n => timerh;; timers n end.

(** [while (PIT_COUNTER > 0);]: the interrupts [intr i] come before the [i]-th test. *)
Fixpoint sleep_loop (fuel : nat) (intr : nat → K irq unit) (i : nat) : K irq unit :=
  match fuel with
  | O => hang
  | S fuel =>
      intr i;;
      s ← get;
      if decide (PIT_COUNTER s > 0) then sleep_loop fuel intr (S i) else mret tt
  end.

Definition sleep (fuel : nat) (intr : nat → K irq unit) (us : Z) : K irq unit :=
  in_kbd (st ← get; if decide (k_spinlock st = 0) then modify (set_spinlock 1) else hang);;
  modify (set_PIT_COUNTER (u32 us));;
  sleep_loop fuel intr 0;;
  in_kbd (modify (set_spinlock 0)).

(** ** The local APIC *)

Definition write32 (base reg val : Z) : K irq unit := modify (λ s, set_t_mmio (Write (base + reg) (u32 val) :: t_mmio s) s).
Definition read32 (base reg : Z) : ptr := base + reg.
(** The access to a register through a pointer. *)
Definition mmio_read (a : ptr) : K irq Z := λ s,
  let v := u32 (lapic_dev (t_mmio s) a) in Ok (v, set_t_mmio (Read a v :: t_mmio s) s).

Definition EOI_REG : Z := 0xB0.
Definition SPURIOUS_VECTOR : Z := 0xF0.
Definition TPR_REG : Z := 0x80.
Definition TIMER_REG : Z := 0x320.
Definition DIVIDE_REG : Z := 0x3E0.
Definition INITCOUNT : Z := 0x380.
Definition CURRENTCOUNT : Z := 0x390.
Definition LINT0 : Z := 0x350.
Definition LINT1 : Z := 0x360.

Definition configure_timer (fuel : nat) (intr : nat → K irq unit) (lapic : Z) : K irq Z :=
  write32 lapic DIVIDE_REG 0;;
  write32 lapic INITCOUNT (-1);;
  sleep fuel intr 1;;
  write32 lapic TIMER_REG (Z.shiftl 1 16);;
  v ← mmio_read (read32 lapic CURRENTCOUNT);
  mret (i32 (u32 (-1) - v)).

(** The product is an [int]: 100 times more than 21474836 overflows. *)
Definition init_timer (fuel : nat) (intr : nat → K irq unit) (lapic : Z) : K irq unit :=
  s ← get;
  (if t_configured s then mret tt else
     t ← configure_timer fuel intr lapic;
     if decide (- 2 ^ 31 ≤ 100 * t < 2 ^ 31) then modify (set_t_timer (u32 (100 * t)) true) else fail Overflow);;
  in_kbd (print 1 (literal "start lapic timer
"));;
  write32 lapic TIMER_REG (Z.lor 34 (Z.shiftl 1 17));;
  write32 lapic DIVIDE_REG 0;;
  s ← get; write32 lapic INITCOUNT (t_ticks s).

(** [nmi]: the pin that [walk_madt] found. *)
Definition init_apic (fuel : nat) (intr : nat → K irq unit) (nmi lapic : Z) : K irq unit :=
  (if decide (nmi = 1) then write32 lapic LINT1 (Z.shiftl 1 10) else write32 lapic LINT0 (Z.shiftl 1 10));;
  modify (set_t_EOI (read32 lapic EOI_REG));;
  write32 lapic TPR_REG 0;;
  write32 lapic SPURIOUS_VECTOR 0x1FF;;
  init_timer fuel intr lapic.

(** The whole of [apic_timer]: Proc.v has it without [*EOI = 0]. *)
Definition apic_timer_irq : K irq bool :=
  s ← get; (if decide (t_EOI s = NULL) then fail NullDeref else write32 (t_EOI s) 0 0);;
  in_ker (apic_timer k ra).

(** ** The dispatch *)

(** What an entry of [syscalls] points to: a function without parameters, or
    one that has some.  It is called with none, which C leaves undefined for
    the second kind. *)
Inductive callee := NoParams (f : K irq Z) | Params (n : nat).

(** [exec] has two parameters. *)
Definition syscalls : list callee := [Params 2].

Definition call (f : callee) : K irq Z :=
  match f with NoParams f => f | Params _ => fail BadCall end.

Definition syscall (regs : ptr) : K irq unit :=
  rax ← in_ker (in_kmm (load64 (regs_rax regs)));
  let num := i32 rax in
  in_ker get_current_proc;;
  if decide (num < 0) then fail OutOfBounds else
  match syscalls !! Z.to_nat num with
  | Some f => call f;; mret tt
  | None => fail OutOfBounds
  end.

(** [cli; hlt]: with interrupts off the CPU does not go on. *)
Definition cli_hlt {A} : K irq A := hang.

(** [itoa] writes no terminator: [s] is printed up to a zero of the stack. *)
Definition show_exception (code : Z) : K irq unit :=
  in_kbd (print 1 (literal "trap error: "));;
  in_kbd (print 1 (Str.itoa code 1 stk)).

Definition trap (regs : ptr) : K irq unit :=
  code ← in_ker (in_kmm (load64 (regs_code regs)));
  (if decide (code < 32) then show_exception code;; cli_hlt else mret tt);;
  if decide (code = 69) then syscall regs
  else if decide (code = 32) then timerh
  else if decide (code = 33) then in_kbd (kbd_press dev beyond)
  else if decide (code = 34) then apic_timer_irq;; mret tt
  else mret tt.

(** ** An interrupt on the machine

    The assembly code of Isr.v and [trap] on one memory: [alltraps] passes the
    address of the saved registers in rdi, and compiled C code leaves in the
    registers that Isr.v has whatever [clobber] says.  A switch of stacks
    inside [trap] is in the processor of Proc.v and is not followed here. *)

Record core := Core { co_irq : irq; co_gpr : gpr; co_ctx : context }.

Definition irq_mem (s : irq) : mem := mm_mem (k_mm (t_ker s)).
Definition set_irq_mem (m : mem) (s : irq) : irq := set_t_ker (set_k_mm (set_mm_pmm (set_pm_mem m (mm_pmm (k_mm (t_ker s)))) (k_mm (t_ker s))) (t_ker s)) s.

Definition asm {A} (f : K isr A) : K core A := λ s,
  match f (Isr (irq_mem (co_irq s)) (co_gpr s) (co_ctx s)) with
  | Ok (a, i) => Ok (a, Core (set_irq_mem (i_mem i) (co_irq s)) (i_gpr i) (i_ctx i))
  | Panic msg => Panic msg
  | Hang => Hang
  | Fault e => Fault e
  end.

Definition call_trap (clobber : gpr → gpr) : K core unit := λ s,
  match trap (g_rdi (co_gpr s)) (co_irq s) with
  | Ok (_, t) => Ok (tt, Core t (clobber (co_gpr s)) (co_ctx s))
  | Panic msg => Panic msg
  | Hang => Hang
  | Fault e => Fault e
  end.

(** [Isr.interrupt] around this call: from the delivery on the stack [stack] to
    the handler of vector [code], to the return. *)
Definition interrupted (clobber : gpr → gpr) (call_ra stack handler code : Z) : K core unit :=
  asm (deliver stack handler;; Isr.push code;; cld;; pushregs;; alltraps_before call_ra);;
  call_trap clobber;;
  asm alltraps_after.

End trap.
