(* ===== verification/TrapTheorems.v ===== *)
(** * Interrupts: the properties *)

From S2P Require Import Prelude CString CStringSpec Word Pmm PmmSpec Slab SlabSpec Vmm VmmSpec VmmDemo Acpi Kbd DevTheorems Isr Args Proc ProcSpec ProcTheorems Trap.

Local Open Scope Z_scope.

(** ** Waiting for the timer *)

(** The interrupts from the [i]-th test on, before [n] tests. *)
Fixpoint total (ticks : nat → nat) (i n : nat) : nat :=
  match n with O => 0 | S n => ticks i + total ticks (S i) n end.

(** The state after [n] interrupts of the timer. *)
Definition after_timers (n : nat) (s : irq) : irq :=
  set_PIT_COUNTER (u32 (PIT_COUNTER s - Z.of_nat n))
    (set_t_kbd (Kbd (replicate n (Out 0x20 0x20) ++ k_log (t_kbd s)) (k_spinlock (t_kbd s)) (key_release (t_kbd s)) (k_flags (t_kbd s))) s).

Lemma u32_sub a b : u32 (u32 a - b) = u32 (a - b).
Proof. unfold u32. by rewrite Zminus_mod_idemp_l. Qed.

Lemma timers_ok n s : 0 ≤ PIT_COUNTER s < 2 ^ 32 → timers n s = Ok (tt, after_timers n s).
Proof.
  revert s. induction n as [|n IH]; intros s Hs.
  - cbn [timers]. unfold after_timers, u32. rewrite Z.sub_0_r, Z.mod_small by done. by destruct s as [[] ? ? ? ? ? ?].
  - cbn [timers]. rewrite (bind_ok timerh _ s tt (after_timers 1 s) eq_refl).
    rewrite IH by (unfold after_timers, u32; simpl; by apply Z.mod_pos_bound). do 2 f_equal. unfold after_timers.
    cbn [PIT_COUNTER set_PIT_COUNTER t_kbd set_t_kbd k_log k_spinlock key_release k_flags t_ker t_mmio t_ticks t_configured t_EOI].
    rewrite u32_sub. rewrite app_assoc, <-replicate_add, Nat.add_1_r. unfold set_PIT_COUNTER, set_t_kbd. simpl. f_equal. f_equal. lia.
Qed.

Lemma after_timers_add n m s : after_timers m (after_timers n s) = after_timers (n + m) s.
Proof.
  unfold after_timers. cbn [PIT_COUNTER set_PIT_COUNTER t_kbd set_t_kbd k_log k_spinlock key_release k_flags].
  rewrite u32_sub, app_assoc, <-replicate_add, (Nat.add_comm m n). unfold set_PIT_COUNTER, set_t_kbd. simpl. f_equal. f_equal. lia.
Qed.

Lemma after_timers_counter n s : PIT_COUNTER (after_timers n s) = u32 (PIT_COUNTER s - Z.of_nat n).
Proof. done. Qed.

Lemma u32_bounds z : 0 ≤ u32 z < 2 ^ 32.
Proof. by apply Z.mod_pos_bound. Qed.

Section loop.
Context (ticks : nat → nat) (intr intr' : nat → K irq unit).
Hypothesis Hintr : ∀ i, intr i = timers (ticks i).

(** The loop ends at the first test that finds 0. *)
Lemma sleep_loop_returns n : ∀ i fuel s,
  0 ≤ PIT_COUNTER s < 2 ^ 32 → (n < fuel)%nat → u32 (PIT_COUNTER s - Z.of_nat (total ticks i (S n))) = 0 →
  (∀ m, (m < n)%nat → u32 (PIT_COUNTER s - Z.of_nat (total ticks i (S m))) ≠ 0) →
  sleep_loop fuel intr i s = Ok (tt, after_timers (total ticks i (S n)) s).
Proof.
  induction n as [|n IH]; intros i [|fuel] s Hs Hf Hz Hnz; try lia; cbn [sleep_loop];
    rewrite Hintr, (bind_ok _ _ _ _ _ (timers_ok (ticks i) s Hs)), bind_get, after_timers_counter.
  - cbn [total] in *. rewrite Nat.add_0_r in *. rewrite Hz. by rewrite decide_False by lia.
  - specialize (Hnz 0%nat ltac:(lia)) as H0. cbn [total] in H0. rewrite Nat.add_0_r in H0.
    pose proof (u32_bounds (PIT_COUNTER s - Z.of_nat (ticks i))) as Hb. rewrite decide_True by lia.
    assert (∀ m, u32 (PIT_COUNTER (after_timers (ticks i) s) - Z.of_nat (total ticks (S i) (S m))) =
                 u32 (PIT_COUNTER s - Z.of_nat (total ticks i (S (S m))))) as Hm.
    { intros m. rewrite after_timers_counter, u32_sub. f_equal. cbn [total]. lia. }
    rewrite (IH (S i) fuel); [by rewrite after_timers_add|by rewrite after_timers_counter|lia|by rewrite Hm|].
    intros m Hlt. rewrite Hm. apply Hnz. lia.
Qed.

Lemma sleep_loop_hangs : ∀ fuel i s,
  0 ≤ PIT_COUNTER s < 2 ^ 32 → (∀ m, u32 (PIT_COUNTER s - Z.of_nat (total ticks i (S m))) ≠ 0) →
  sleep_loop fuel intr i s = Hang.
Proof.
  induction fuel as [|fuel IH]; intros i s Hs Hnz; [done|]. cbn [sleep_loop].
  rewrite Hintr, (bind_ok _ _ _ _ _ (timers_ok (ticks i) s Hs)), bind_get, after_timers_counter.
  pose proof (Hnz 0%nat) as H0. cbn [total] in H0. rewrite Nat.add_0_r in H0.
  pose proof (u32_bounds (PIT_COUNTER s - Z.of_nat (ticks i))) as Hb. rewrite decide_True by lia.
  apply IH; [by rewrite after_timers_counter|]. intros m. rewrite after_timers_counter, u32_sub.
  intros E. apply (Hnz (S m)). rewrite <-E. f_equal. cbn [total]. lia.
Qed.

(** The loop comes to the [n]-th test, and the interrupt before it never returns. *)
Lemma sleep_loop_stuck n : ∀ i fuel s,
  0 ≤ PIT_COUNTER s < 2 ^ 32 → Z.of_nat (total ticks i n) < PIT_COUNTER s →
  (∀ j, (j < n)%nat → intr' (i + j)%nat = timers (ticks (i + j))) → intr' (i + n)%nat (after_timers (total ticks i n) s) = Hang →
  sleep_loop fuel intr' i s = Hang.
Proof.
  induction n as [|n IH]; intros i [|fuel] s Hs Ht Hj Hn; try done; cbn [sleep_loop].
  - rewrite Nat.add_0_r in Hn. rewrite (bind_hang (intr' i)); [done|]. rewrite <-Hn. f_equal.
    symmetry. change (total ticks i 0) with 0%nat. unfold after_timers, u32. rewrite Z.sub_0_r, Z.mod_small by done. by destruct s as [[] ? ? ? ? ? ?].
  - pose proof (Hj 0%nat ltac:(lia)) as E0. rewrite Nat.add_0_r in E0. rewrite E0, (bind_ok _ _ _ _ _ (timers_ok (ticks i) s Hs)), bind_get.
    cbn [total] in *. assert (PIT_COUNTER (after_timers (ticks i) s) = PIT_COUNTER s - Z.of_nat (ticks i)) as Ec
      by (rewrite after_timers_counter; apply Z.mod_small; lia).
    rewrite decide_True by lia. apply IH; [lia|lia| |].
    + intros j Hlt. replace (S i + j)%nat with (i + S j)%nat by lia. apply Hj. lia.
    + replace (S i + n)%nat with (i + S n)%nat by lia. by rewrite after_timers_add.
Qed.
End loop.

(** What [sleep] does around the loop. *)
Definition sleeping (us : Z) (s : irq) : irq :=
  set_PIT_COUNTER (u32 us) (set_t_kbd (set_spinlock 1 (t_kbd s)) s).

Lemma sleep_unfold fuel intr us s :
  k_spinlock (t_kbd s) = 0 →
  sleep fuel intr us s = (sleep_loop fuel intr 0;; in_kbd (modify (set_spinlock 0))) (sleeping us s).
Proof.
  intros Hl. unfold sleep.
  rewrite (bind_ok _ _ s tt (set_t_kbd (set_spinlock 1 (t_kbd s)) s)); [by rewrite bind_modify|].
  unfold in_kbd. rewrite bind_get. by rewrite decide_True.
Qed.

Lemma total_step ticks i n : total ticks i (S n) = (total ticks i n + ticks (i + n))%nat.
Proof.
  revert i. induction n as [|n IH]; intros i; [cbn [total]; rewrite !Nat.add_0_r; lia|].
  change (total ticks i (S (S n))) with (ticks i + total ticks (S i) (S n))%nat. rewrite IH. cbn [total].
  replace (S i + n)%nat with (i + S n)%nat by lia. lia.
Qed.

(** If no two interrupts come between two tests, the sum passes every number. *)
Lemma total_reaches ticks n goal :
  (∀ i, (ticks i ≤ 1)%nat) → (goal ≤ total ticks 0 n)%nat → (0 < goal)%nat →
  ∃ m, (m < n)%nat ∧ total ticks 0 (S m) = goal ∧ ∀ j, (j < m)%nat → (total ticks 0 (S j) < goal)%nat.
Proof.
  intros H1. induction n as [|n IH]; intros Hg Hp; [simpl in Hg; lia|].
  destruct (decide (goal ≤ total ticks 0 n)%nat) as [Hle|Hgt].
  - destruct (IH Hle Hp) as (m & Hm & Ht & Hj). exists m. split; [lia|done].
  - exists n. pose proof (total_step ticks 0 n) as Es. pose proof (H1 (0 + n)%nat). split; [lia|split; [lia|]]. intros j Hj.
    assert (∀ d, (total ticks 0 (S j) ≤ total ticks 0 (S j + d))%nat) as Hmono.
    { induction d as [|d IHd]; [by rewrite Nat.add_0_r|]. replace (S j + S d)%nat with (S (S j + d)) by lia. rewrite (total_step ticks 0 (S j + d)). lia. }
    specialize (Hmono (n - S j)%nat). replace (S j + (n - S j))%nat with n in Hmono by lia. lia.
Qed.

(** The state after [us] interrupts, the lock free again. *)
Definition slept (us : Z) (s : irq) : irq :=
  set_PIT_COUNTER 0 (set_t_kbd (Kbd (replicate (Z.to_nat us) (Out 0x20 0x20) ++ k_log (t_kbd s)) 0
    (key_release (t_kbd s)) (k_flags (t_kbd s))) s).

Lemma sleep_ok fuel ticks intr us s :
  (∀ i, intr i = timers (ticks i)) →
  k_spinlock (t_kbd s) = 0 → 0 < us < 2 ^ 31 → (∀ i, (ticks i ≤ 1)%nat) → us ≤ Z.of_nat (total ticks 0 fuel) →
  sleep fuel intr us s = Ok (tt, slept us s).
Proof.
  intros Hi Hl Hus H1 Ht. rewrite sleep_unfold by done.
  assert (PIT_COUNTER (sleeping us s) = us) as Ec by (unfold sleeping; simpl; apply Z.mod_small; lia).
  destruct (total_reaches ticks fuel (Z.to_nat us) H1) as (m & Hm & Et & Hj); [lia|lia|].
  rewrite (bind_ok _ _ _ _ _ (sleep_loop_returns ticks intr Hi m 0 fuel (sleeping us s) ltac:(lia) Hm
    ltac:(rewrite Ec, Et, Z2Nat.id, Z.sub_diag by lia; done)
    ltac:(intros j Hlt; rewrite Ec; specialize (Hj j Hlt); unfold u32; rewrite Z.mod_small by lia; lia))).
  rewrite Et. unfold after_timers. rewrite Ec, Z2Nat.id, Z.sub_diag by lia. done.
Qed.

(** C21: sleep (us) waits for us interrupts of the timer, if the loop tests the counter
    between any two of them. But the counter is unsigned and every interrupt decrements it: if
    no test finds exactly 0, as when two interrupts come between the last two tests, the wait
    goes on. Sleep takes spinlock first, waiting for ever for whoever holds it on this CPU,
    and keeps it during the wait: when a key with a code other than shift and caps lock is pressed before the
    wait is over, its interrupt prints, waits for that lock and sleep never returns. *)
Theorem sleep_waits fuel intr us s :
  0 < us < 2 ^ 31 →
  (k_spinlock (t_kbd s) = 0 → ∀ ticks, (∀ i, intr i = timers (ticks i)) →
    ((∀ i, (ticks i ≤ 1)%nat) → us ≤ Z.of_nat (total ticks 0 fuel) →
      ∃ s', sleep fuel intr us s = Ok (tt, s') ∧ PIT_COUNTER s' = 0 ∧
        k_log (t_kbd s') = replicate (Z.to_nat us) (Out 0x20 0x20) ++ k_log (t_kbd s) ∧ k_spinlock (t_kbd s') = 0 ∧
        t_ker s' = t_ker s ∧ t_mmio s' = t_mmio s) ∧
    ((∀ m, (Z.of_nat (total ticks 0 (S m)) - us) mod 2 ^ 32 ≠ 0) → sleep fuel intr us s = Hang)) ∧
  (k_spinlock (t_kbd s) = 0 → key_release (t_kbd s) = 0 → ∀ ticks n beyond c,
    (∀ i, (i < n)%nat → intr i = timers (ticks i)) → Z.of_nat (total ticks 0 n) < us →
    intr n = in_kbd (kbd_press (λ _ _, c) beyond) → code_ok c → c ≠ SHIFT → c ≠ CAPS → sleep fuel intr us s = Hang) ∧
  (k_spinlock (t_kbd s) = 1 → sleep fuel intr us s = Hang).
Proof.
  intros Hus. assert (PIT_COUNTER (sleeping us s) = us) as Ec by (unfold sleeping; simpl; apply Z.mod_small; lia).
  split; [intros Hl ticks Hi; split|split].
  - intros H1 Ht. exists (slept us s). split; [by apply (sleep_ok fuel ticks)|done].
  - intros Hnz. rewrite sleep_unfold by done.
    rewrite (bind_hang (sleep_loop fuel intr 0)); [done|]. apply (sleep_loop_hangs ticks); [done|lia|]. intros m E. rewrite Ec in E.
    apply (Hnz m). unfold u32 in E. apply Z.mod_divide in E as [d E]; [|done]. apply Z.mod_divide; [done|]. exists (- d). lia.
  - intros Hl Hr ticks n beyond c Hj Ht Hn Hc Hs Hk. rewrite sleep_unfold by done.
    rewrite (bind_hang (sleep_loop fuel intr 0)); [done|]. apply (sleep_loop_stuck ticks intr n); [lia|lia|exact Hj|].
    change (0 + n)%nat with n. rewrite Hn. unfold in_kbd. by rewrite kbd_press_deadlocks.
  - intros Hl. unfold sleep. apply bind_hang. unfold in_kbd. rewrite bind_get. by rewrite decide_False by lia.
Qed.

Definition idle : irq := Irq (Kbd [] 0 0 0) ker0 0 [] 0 false NULL.

(** Three interrupts; two at once at the end; q pressed after one of two interrupts. *)
Theorem sleep_waits_witness :
  (∃ s', sleep 4 (λ _, timers 1) 3 idle = Ok (tt, s') ∧ PIT_COUNTER s' = 0) ∧
  sleep 1000 (λ i, timers (if decide (i = 0%nat) then 2 else 0)) 1 idle = Hang ∧
  sleep 1000 (λ i, if decide (i = 1%nat) then in_kbd (kbd_press (λ _ _, 0x15) (λ _, 0)) else timers 1) 2 idle = Hang.
Proof.
  split; [|split].
  - destruct (sleep_waits 4 (λ _, timers 1) 3 idle ltac:(lia)) as [H _].
    destruct (H eq_refl (λ _, 1%nat) (λ _, eq_refl)) as [H' _].
    destruct H' as (s' & E & Hc & _); [intros _; lia|simpl; lia|]. by exists s'.
  - refine (proj2 (proj1 (sleep_waits 1000 _ 1 idle ltac:(lia)) eq_refl _ (λ _, eq_refl)) _). intros m.
    assert (∀ n i, (0 < i)%nat → total (λ i, if decide (i = 0%nat) then 2%nat else 0%nat) i n = 0%nat) as Hz.
    { induction n as [|n IH]; intros i Hi; [done|]. cbn [total]. rewrite decide_False by lia. rewrite IH by lia. done. }
    cbn [total]. rewrite Hz by lia. simpl. vm_compute. discriminate.
  - refine (proj1 (proj2 (sleep_waits 1000 _ 2 idle ltac:(lia))) eq_refl eq_refl (λ _, 1%nat) 1%nat (λ _, 0) 0x15 _ _ eq_refl _ _ _);
      [|simpl; lia|done|done|done].
    intros i Hi. by rewrite decide_False by lia.
Defined.

(** ** The way into [trap] and back *)

(** C11: an interrupt saves on the stack it is delivered on the struct regs that trap is
    called with, 16-byte aligned, and nothing else in memory changes. If trap returns with rbp
    as it was, the machine goes on as the struct regs in memory then says; if trap
    left it alone, every register, the instruction, the flags and both stack registers are
    as before the interrupt. *)
Theorem interrupt_transparent stack handler code ra s :
  gpr_ok (i_gpr s) → ctx_ok (i_ctx s) → word code → 256 ≤ stack < 2 ^ 64 →
  let a := frame_at stack in
  ∃ m, words m a 16 = frame (i_gpr s) code (i_ctx s) ∧ rd64 m (regs_code a) = code ∧ rd64 m (regs_rax a) = g_rax (i_gpr s) ∧
    rd64 m (regs_rip a) = c_rip (i_ctx s) ∧ a mod 16 = 0 ∧ (∀ b, ¬ (a - 8 ≤ b < a + 128) → rd8 m b = rd8 (i_mem s) b) ∧
    ∀ trap s', trap (in_trap m a handler s) = Ok (tt, s') → g_rbp (i_gpr s') = a →
      interrupt trap ra stack handler code s = Ok (tt, resumed (i_mem s') a) ∧
      ((∀ b, a ≤ b < a + 128 → rd8 (i_mem s') b = rd8 m b) →
        interrupt trap ra stack handler code s = Ok (tt, Isr (i_mem s') (i_gpr s) (i_ctx s))).
Proof.
  intros Hg Hc Hcode Hst a. destruct (interrupt_ok stack handler code ra s Hg Hc Hcode Hst) as (m & Hw & Ho & Ha & Ht).
  exists m. split; [exact Hw|]. fold a in Hw, Ht. assert (∀ m', words m' a 16 = frame (i_gpr s) code (i_ctx s) →
    rd64 m' (regs_code a) = code ∧ rd64 m' (regs_rax a) = g_rax (i_gpr s) ∧ rd64 m' (regs_rip a) = c_rip (i_ctx s)) as Hrd.
  { intros m'. unfold regs_code, regs_rax, regs_rip. cbn [words]. rewrite <-!Z.add_assoc. sum_constants. unfold frame.
    intros [= _ _ _ _ _ _ _ _ E8 _ E10 E11 _ _ _ _]. done. }
  destruct (Hrd m Hw) as (H1 & H2 & H3). split; [done|split; [done|split; [done|split; [done|split; [done|]]]]].
  intros trap s' E Hb. split; [by apply Ht|]. intros Hsame. rewrite (Ht trap s' E Hb). do 2 f_equal.
  apply (resumed_frame _ _ _ code). rewrite <-Hw. by apply words_ext.
Qed.

(** The interrupted thread of the example, and a handler that uses a register. *)
Definition thread0 : isr := Isr ∅ (Gpr 1 2 3 4 5 6 7 8 9 10) (Context_ 0xffffffff80001000 0x28 0x202 0x9008 0x30).

Theorem interrupt_transparent_witness :
  ∃ m, interrupt (modify (set_i_gpr (Gpr 0x8f80 77 77 77 77 77 77 77 77 77))) 0x1234 0x9008 0xffffffff80002000 33 thread0 =
    Ok (tt, Isr m (i_gpr thread0) (i_ctx thread0)) ∧ rd64 m (regs_code 0x8f80) = 33.
Proof.
  destruct (interrupt_transparent 0x9008 0xffffffff80002000 33 0x1234 thread0) as (m & _ & Hc & _ & _ & _ & _ & H).
  - unfold gpr_ok. repeat (apply Forall_cons_2; [unfold word; simpl; lia|]). apply Forall_nil_2.
  - unfold ctx_ok. repeat (apply Forall_cons_2; [unfold word; simpl; lia|]). apply Forall_nil_2.
  - done.
  - lia.
  - exists m. split; [|exact Hc]. set (g := Gpr 0x8f80 77 77 77 77 77 77 77 77 77).
    refine (proj2 (H _ (set_i_gpr g (in_trap m (frame_at 0x9008) 0xffffffff80002000 thread0)) eq_refl eq_refl) _). done.
Defined.

(** C17: a thread from allocproc starts at its entry: startproc of its process leaves the
    CPU at the label ret with the stack pointer at the saved registers, and the code there
    loads the kernel's code segment, interrupts on, the entry, and a stack 512 bytes below
    the two frames, the saved registers and the switch frame, at the end of its page. *)
Theorem new_thread_enters pf label entry s i p N k ra g cs fl ss :
  tables_ok (k_mm s) N ∅ → room (k_mm s) N (S k) → N ≤ Z.of_nat pf → N ≤ 2 ^ 34 →
  first_at (k_table s) UNUSED 0 i → length (k_table s) = NPROC → k_lock s = 0 → k_table s !! i = Some p →
  cpu_word entry → cpu_word label → 56 ≤ rsp (k_cpu s) ≤ HHDM_OFFSET →
  ∃ t s' s'' m, allocproc pf label entry s = Ok (Some i, s') ∧ startproc (Some i) ra s' = Ok (tt, s'') ∧
    page N t ∧ tk (k_mm s) (t / PGSIZE) = false ∧ rip (k_cpu s'') = label ∧ k_gs s'' = Some i ∧
    ret (Isr (k_mem s'') g (Context_ (rip (k_cpu s'')) cs fl (rsp (k_cpu s'')) ss)) = Ok (tt, m) ∧
    c_rip (i_ctx m) = entry ∧ c_cs (i_ctx m) = 0x28 ∧ c_eflags (i_ctx m) = 0x202 ∧
    c_rsp (i_ctx m) = HHDM_OFFSET + t + PGSIZE - (128 + 56 + 512).
Proof.
  intros Hok Hroom Hpf HN Hf Hl Hlock Hp He Hr Hrsp.
  destruct (allocproc_ok pf label entry s i p N k Hok Hroom Hpf HN Hf Hl Hlock Hp He Hr)
    as (t & s' & E & Hpt & Hfree & _ & Hst & _ & _ & _ & _ & _ & Hlock' & Hcpu).
  assert (0 ≤ t) as Ht0 by (by destruct Hpt as [_ []]).
  destruct (startproc_ok s' i t entry label _ p ra Hst Hlock') as (s'' & E' & _ & Hgs & _ & Hrip & Hrs & H1 & H2 & H3 & H4).
  - destruct Hpt. split; [done|]. unfold PGSIZE in *. lia.
  - rewrite Hcpu. unfold HHDM_OFFSET in *. lia.
  - rewrite Hcpu. left. lia.
  - exists t, s', s'', (resumed (k_mem s'') (new_regs t)).
    assert (new_regs t = HHDM_OFFSET + t + 3968) as En by (unfold new_regs, PGSIZE, sizeof_regs; lia).
    assert (t < 2 ^ 46) by (destruct Hpt; unfold PGSIZE in *; lia).
    split; [exact E|split; [exact E'|split; [exact Hpt|split; [exact Hfree|split; [exact Hrip|split; [exact Hgs|split]]]]]].
    + apply ret_ok; [exact Hrs|]. unfold HHDM_OFFSET in *. lia.
    + split; [exact H1|split; [exact H2|split; [exact H3|]]]. unfold regs_rsp in H4. unfold resumed. cbn [i_ctx c_rsp].
      rewrite H4. unfold new_stack, new_regs, sizeof_regs, sizeof_stack. lia.
Qed.

Theorem new_thread_enters_witness :
  ∃ s' s'' m, allocproc 64 0xffffffff80002000 0xffffffff80001000 ker0 = Ok (Some 0%nat, s') ∧
    startproc (Some 0%nat) 0xffffffff80003000 s' = Ok (tt, s'') ∧
    ret (Isr (k_mem s'') (i_gpr thread0) (Context_ (rip (k_cpu s'')) 0x28 2 (rsp (k_cpu s'')) 0x30)) = Ok (tt, m) ∧
    c_rip (i_ctx m) = 0xffffffff80001000 ∧ (c_rsp (i_ctx m) - HHDM_OFFSET) mod PGSIZE = 3400.
Proof.
  destruct (new_thread_enters 64 0xffffffff80002000 0xffffffff80001000 ker0 0 unused 64 62 0xffffffff80003000
    (i_gpr thread0) 0x28 2 0x30 vm0_no_tables vm0_room) as (t & s' & s'' & m & E & E' & [Ha _] & _ & _ & _ & Er & H & _ & _ & Hs);
    [lia|lia|exact ker0_first|reflexivity|reflexivity|reflexivity|unfold cpu_word; lia|unfold cpu_word; lia|
     simpl; unfold HHDM_OFFSET; lia|].
  exists s', s'', m. split; [exact E|split; [exact E'|split; [exact Er|split; [exact H|]]]].
  rewrite Hs. unfold PGSIZE in *. Z.div_mod_to_equations. lia.
Defined.

(** ** The local APIC *)

Lemma start_message s :
  k_spinlock (t_kbd s) = 0 → ∃ log, in_kbd (print 1 (literal "start lapic timer
")) s = Ok (tt, set_t_kbd (Kbd log 0 (key_release (t_kbd s)) (k_flags (t_kbd s))) s).
Proof.
  intros Hl. eexists. unfold in_kbd, print. rewrite bind_get, decide_True by done. rewrite bind_modify.
  unfold mbind at 1, K_bind at 1. assert (Str.strlen 1 (literal "start lapic timer
") = Ok 18) as -> by (vm_compute; reflexivity). reflexivity.
Qed.

(** The period, once it is known, is set. *)
Lemma start_timer lapic s s1 (f : K irq unit) :
  f s = Ok (tt, s1) → k_spinlock (t_kbd s1) = 0 →
  ∃ s', (f;; in_kbd (print 1 (literal "start lapic timer
"));;
         write32 lapic TIMER_REG (Z.lor 34 (Z.shiftl 1 17));; write32 lapic DIVIDE_REG 0;;
         s ← get; write32 lapic INITCOUNT (t_ticks s)) s = Ok (tt, s') ∧
    t_mmio s' = [Write (lapic + INITCOUNT) (u32 (t_ticks s1)); Write (lapic + DIVIDE_REG) 0; Write (lapic + TIMER_REG) 0x20022] ++ t_mmio s1 ∧
    t_EOI s' = t_EOI s1 ∧ t_ticks s' = t_ticks s1 ∧ t_configured s' = t_configured s1 ∧ PIT_COUNTER s' = PIT_COUNTER s1.
Proof.
  intros E Hl. destruct (start_message s1 Hl) as [log Ep]. rewrite (bind_ok _ _ _ _ _ E), (bind_ok _ _ _ _ _ Ep).
  eexists. split; [reflexivity|]. done.
Qed.

(** C38: init_apic sets the line of the NMI, the task priority and the spurious vector, and
    starts the periodic timer with vector 34. The first CPU measures: the counter runs down from
    2^32 - 1 for one interrupt of the board's timer, and 100 times what it lost is the period; every
    other CPU takes that period and waits for nothing. *)
Theorem init_apic_programs dev fuel ticks nmi lapic s :
  k_spinlock (t_kbd s) = 0 →
  let line := if decide (nmi = 1) then lapic + LINT1 else lapic + LINT0 in
  let setup := [Write (lapic + SPURIOUS_VECTOR) 0x1FF; Write (lapic + TPR_REG) 0; Write line 0x400] in
  let start t := [Write (lapic + INITCOUNT) t; Write (lapic + DIVIDE_REG) 0; Write (lapic + TIMER_REG) 0x20022] in
  (t_configured s = true → u32 (t_ticks s) = t_ticks s →
    ∃ s', init_apic dev fuel (λ i, timers (ticks i)) nmi lapic s = Ok (tt, s') ∧ t_mmio s' = start (t_ticks s) ++ setup ++ t_mmio s ∧
      t_EOI s' = lapic + EOI_REG ∧ t_ticks s' = t_ticks s ∧ PIT_COUNTER s' = PIT_COUNTER s) ∧
  (t_configured s = false → (∀ i, (ticks i ≤ 1)%nat) → (1 ≤ total ticks 0 fuel)%nat →
    let wait := [Write (lapic + TIMER_REG) 0x10000; Write (lapic + INITCOUNT) (2 ^ 32 - 1); Write (lapic + DIVIDE_REG) 0] in
    let left := u32 (dev (wait ++ setup ++ t_mmio s) (lapic + CURRENTCOUNT)) in
    let lost := 2 ^ 32 - 1 - left in 100 * lost < 2 ^ 31 →
    ∃ s', init_apic dev fuel (λ i, timers (ticks i)) nmi lapic s = Ok (tt, s') ∧
      t_mmio s' = start (100 * lost) ++ Read (lapic + CURRENTCOUNT) left :: wait ++ setup ++ t_mmio s ∧
      t_EOI s' = lapic + EOI_REG ∧ t_ticks s' = 100 * lost ∧ t_configured s' = true).
Proof.
  intros Hl line setup start.
  set (intr := λ i, timers (ticks i)). set (s1 := set_t_mmio (setup ++ t_mmio s) (set_t_EOI (lapic + EOI_REG) s)).
  assert (init_apic dev fuel intr nmi lapic s = init_timer dev fuel intr lapic s1) as Ei.
  { unfold init_apic, s1, setup, line. by case_decide. }
  split.
  - intros Hc Ht. rewrite Ei. unfold init_timer. rewrite bind_get. change (t_configured s1) with (t_configured s). rewrite Hc.
    destruct (start_timer lapic s1 s1 (mret tt) eq_refl Hl) as (s' & E & Hm & He & Htk & _ & Hp).
    exists s'. split; [exact E|]. rewrite Hm, He, Htk, Hp. change (t_ticks s1) with (t_ticks s). by rewrite Ht.
  - intros Hc H1 Ht wait left lost Hlost. rewrite Ei. unfold init_timer. rewrite bind_get. change (t_configured s1) with (t_configured s). rewrite Hc.
    pose proof (u32_bounds (dev (wait ++ setup ++ t_mmio s) (lapic + CURRENTCOUNT))) as Hb. fold left in Hb.
    set (s2 := set_t_mmio ([Write (lapic + INITCOUNT) (2 ^ 32 - 1); Write (lapic + DIVIDE_REG) 0] ++ t_mmio s1) s1).
    set (s3 := set_t_mmio (Read (lapic + CURRENTCOUNT) left :: wait ++ t_mmio s1) (slept 1 s2)).
    assert (configure_timer dev fuel intr lapic s1 = Ok (lost, s3)) as Ec.
    { unfold configure_timer, write32. rewrite !bind_modify.
      rewrite (bind_ok (sleep fuel intr 1) _ s2 tt (slept 1 s2)) by (apply (sleep_ok fuel ticks); (exact Hl || done || lia)).
      rewrite bind_modify. unfold mmio_read, read32. unfold mbind, K_bind, mret, K_ret.
      change (dev _ (lapic + CURRENTCOUNT)) with (dev (wait ++ setup ++ t_mmio s) (lapic + CURRENTCOUNT)). fold left.
      do 2 f_equal. change (u32 (-1)) with (2 ^ 32 - 1). rewrite i32_small; unfold lost; lia. }
    destruct (start_timer lapic s1 (set_t_timer (100 * lost) true s3) (t ← configure_timer dev fuel intr lapic;
      if decide (- 2 ^ 31 ≤ 100 * t < 2 ^ 31) then modify (set_t_timer (u32 (100 * t)) true) else fail Overflow))
      as (s' & E & Hm & He & Htk & Hcf & _).
    + rewrite (bind_ok _ _ _ _ _ Ec), decide_True by (unfold lost in *; lia). unfold modify.
      assert (u32 (100 * lost) = 100 * lost) as -> by (apply Z.mod_small; unfold lost in *; lia). done.
    + done.
    + exists s'. split; [exact E|]. rewrite Hm, He, Htk, Hcf. cbn [t_ticks set_t_timer t_mmio].
      assert (u32 (100 * lost) = 100 * lost) as -> by (apply Z.mod_small; unfold lost in *; lia). done.
Qed.

Theorem init_apic_programs_witness :
  ∃ s', init_apic (λ _ _, 2 ^ 32 - 5001) 4 (λ _, timers 1) 1 0xfee00000 idle = Ok (tt, s') ∧ t_ticks s' = 500000 ∧
    head (t_mmio s') = Some (Write 0xfee00380 500000).
Proof.
  destruct (init_apic_programs (λ _ _, 2 ^ 32 - 5001) 4 (λ _, 1%nat) 1 0xfee00000 idle eq_refl) as [_ H].
  destruct H as (s' & E & Hm & _ & Ht & _); [reflexivity|intros _; lia|simpl; lia|vm_compute; reflexivity|].
  exists s'. split; [exact E|]. rewrite Hm, Ht. vm_compute. by split.
Defined.

(** ** The dispatch *)




(** ** An interrupt and its handler *)






(** With the lock free an exception shows its message; if the code it interrupted
    holds the lock it shows nothing. *)
Lemma exception_shown stk code s :
  Z.of_nat (size (Str.itoa code 1 stk)) + 1 < 2 ^ 64 →
  (k_spinlock (t_kbd s) = 0 → ∃ t bs, show_exception stk code s = Ok (tt, t) ∧
    text (k_log (t_kbd t)) = text (k_log (t_kbd s)) ++ [116; 114; 97; 112; 32; 101; 114; 114; 111; 114; 58; 32] ++ bs) ∧
  (k_spinlock (t_kbd s) = 1 → show_exception stk code s = Hang).
Proof.
  intros Hsz. split; intros Hl; unfold show_exception.
  - destruct (strlen_returns 1 _ Hsz) as (n & En & _).
    assert (in_kbd (print 1 (literal "trap error: ")) s = Ok (tt, set_t_kbd (Kbd (Shown [116; 114; 97; 112; 32; 101; 114; 114; 111; 114; 58; 32] :: k_log (t_kbd s)) 0
      (key_release (t_kbd s)) (k_flags (t_kbd s))) s)) as E.
    { unfold in_kbd, print. rewrite bind_get, decide_True by done. rewrite bind_modify. unfold mbind at 1, K_bind at 1.
      assert (Str.strlen 1 (literal "trap error: ") = Ok 12) as -> by (vm_compute; reflexivity). reflexivity. }
    rewrite (bind_ok _ _ _ _ _ E). unfold in_kbd, print. rewrite bind_get, decide_True by done. rewrite bind_modify. unfold mbind, K_bind.
    rewrite En. do 2 eexists. split; [reflexivity|]. cbn. by rewrite <-app_assoc.
  - apply bind_hang. unfold in_kbd, print. by rewrite bind_get, decide_False by lia.
Qed.





