(* ===== verification/FsState.v ===== *)
(** * The objects of the file system and the memory they live in

    The structures of include/franklin/fs/vfs.h, fs/ramfs/ramfs.h and
    include/franklin/fs/dirent.h, the store that holds them, and the
    primitives every file-system function is written with: dereference,
    field update, [kalloc], [kfree] and the spinlocks.

    Each structure has its own table from addresses to live objects.  A
    dereference of an address that is in no table is a fault, so a use after
    [kfree] is visible.  One break pointer serves all tables: an address is
    never handed out twice.  [fs_ram] is what the memory [kalloc] hands out
    contains; [kalloc] does not clear it, so a field that the code never
    writes keeps that value. *)

From S2P Require Import Prelude.

Local Open Scope Z_scope.

(** ** Structures *)

(** [enum vtype] *)
Inductive vtype := VNON | VREG | VDIR | VLNK | VSOCK | VBLK | VCHR.

#[export] Instance vtype_eq_dec : EqDecision vtype.
Proof. solve_decision. Defined.

Definition VROOT : Z := 1.
Definition MNT_ROOTFS : Z := 1.
Definition ISSYMLINK : Z := 1.
Definition FOLLOW : Z := 2.
Definition O_CREATE : Z := 512.

Definition SEQ_DOT : Z := 0.
Definition SEQ_DOTDOT : Z := 1.
Definition SEQ_EOF : Z := 2.
Definition SEQ_START : Z := 3.

(** A byte of a file buffer; [None] is a byte that was never written. *)
Abbreviation cell := (option Z).

(** The union of [struct ramnode].  [UNone] is the union of a node whose type
    has no member: [ramfs_alloc_node] leaves it untouched. *)
Inductive ramdata :=
  | UDir (dentry parent : ptr) (lastseq : Z)
  | ULnk (link : string)
  | UReg (data : option (list cell)) (size : Z)
  | UNone.

(** [struct ramnode] *)
Record ramnode := Ramnode {
  rn_prev : ptr;
  rn_next : ptr;
  rn_vnode : ptr;
  rn_type : vtype;
  rn_ramlock : Z;
  rn_linkcount : Z;
  rn_data : ramdata
}.

(** [struct ramdentry]; the name buffer is owned by the entry. *)
Record ramdentry := Ramdentry {
  de_next : ptr;
  de_node : ptr;
  de_seq : Z;
  de_name : string
}.

(** [struct ramvfs] *)
Record ramvfs := Ramvfs { rv_root : ptr; rv_nodes : ptr }.

(** [struct vnode]; the [ops] pointer is not stored, every vnode belongs to
    the one file system type of the kernel. *)
Record vnode := Vnode {
  v_vfs : ptr;
  v_mountedhere : ptr;
  v_type : vtype;
  v_refcount : Z;
  v_flags : Z;
  v_lock : Z;
  v_data : ptr
}.

(** [struct vfs]; its [ops] pointer is not stored either. *)
Record vfs := Vfs { m_next : ptr; m_mountpoint : ptr; m_flags : Z; m_data : ptr }.

(** [struct componentnam]: [name] points into the path that is being looked
    up, so it is the rest of the path; the component is its first [len]
    characters. *)
Record componentnam := Componentnam { cn_name : string; cn_len : nat }.

(** [struct nameidata]; [root] is never used. *)
Record nameidata := Nameidata {
  nd_vdir : ptr;
  nd_vn : ptr;
  nd_next : string;
  nd_flags : Z;
  nd_cn : componentnam
}.

(** [struct dirent]; [None] is a [type] that was never written. *)
Record dirent := Dirent { d_ino : ptr; d_reclen : Z; d_type : option Z; d_name : string }.

Definition DT_CHR : Z := 2.
Definition DT_DIR : Z := 4.
Definition DT_BLK : Z := 6.
Definition DT_REG : Z := 8.
Definition DT_LNK : Z := 10.
Definition DT_SOCK : Z := 12.

(** ** The store *)

Record fs := Fs {
  fs_nodes : gmap ptr ramnode;
  fs_dents : gmap ptr ramdentry;
  fs_vnodes : gmap ptr vnode;
  fs_vfss : gmap ptr vfs;
  fs_rams : gmap ptr ramvfs;
  fs_brk : ptr;                  (* next address [kalloc] returns *)
  fs_ram : ptr → Z → Z;          (* contents of fresh memory: object, offset *)
  fs_rootfs : ptr;               (* global [rootfs] *)
  fs_rootvn : ptr;               (* global [rootvn] *)
  fs_mountedlist : ptr;          (* global [mountedlist] *)
  fs_vfslist_lock : Z            (* [vfslist.lock] *)
}.

Definition upd_nodes (f : gmap ptr ramnode → gmap ptr ramnode) (s : fs) : fs :=
  Fs (f (fs_nodes s)) (fs_dents s) (fs_vnodes s) (fs_vfss s) (fs_rams s) (fs_brk s)
     (fs_ram s) (fs_rootfs s) (fs_rootvn s) (fs_mountedlist s) (fs_vfslist_lock s).
Definition upd_dents (f : gmap ptr ramdentry → gmap ptr ramdentry) (s : fs) : fs :=
  Fs (fs_nodes s) (f (fs_dents s)) (fs_vnodes s) (fs_vfss s) (fs_rams s) (fs_brk s)
     (fs_ram s) (fs_rootfs s) (fs_rootvn s) (fs_mountedlist s) (fs_vfslist_lock s).
Definition upd_vnodes (f : gmap ptr vnode → gmap ptr vnode) (s : fs) : fs :=
  Fs (fs_nodes s) (fs_dents s) (f (fs_vnodes s)) (fs_vfss s) (fs_rams s) (fs_brk s)
     (fs_ram s) (fs_rootfs s) (fs_rootvn s) (fs_mountedlist s) (fs_vfslist_lock s).
Definition upd_vfss (f : gmap ptr vfs → gmap ptr vfs) (s : fs) : fs :=
  Fs (fs_nodes s) (fs_dents s) (fs_vnodes s) (f (fs_vfss s)) (fs_rams s) (fs_brk s)
     (fs_ram s) (fs_rootfs s) (fs_rootvn s) (fs_mountedlist s) (fs_vfslist_lock s).
Definition upd_rams (f : gmap ptr ramvfs → gmap ptr ramvfs) (s : fs) : fs :=
  Fs (fs_nodes s) (fs_dents s) (fs_vnodes s) (fs_vfss s) (f (fs_rams s)) (fs_brk s)
     (fs_ram s) (fs_rootfs s) (fs_rootvn s) (fs_mountedlist s) (fs_vfslist_lock s).
Definition upd_brk (f : ptr → ptr) (s : fs) : fs :=
  Fs (fs_nodes s) (fs_dents s) (fs_vnodes s) (fs_vfss s) (fs_rams s) (f (fs_brk s))
     (fs_ram s) (fs_rootfs s) (fs_rootvn s) (fs_mountedlist s) (fs_vfslist_lock s).
Definition set_rootfs (p : ptr) (s : fs) : fs :=
  Fs (fs_nodes s) (fs_dents s) (fs_vnodes s) (fs_vfss s) (fs_rams s) (fs_brk s)
     (fs_ram s) p (fs_rootvn s) (fs_mountedlist s) (fs_vfslist_lock s).
Definition set_rootvn (p : ptr) (s : fs) : fs :=
  Fs (fs_nodes s) (fs_dents s) (fs_vnodes s) (fs_vfss s) (fs_rams s) (fs_brk s)
     (fs_ram s) (fs_rootfs s) p (fs_mountedlist s) (fs_vfslist_lock s).
Definition set_mountedlist (p : ptr) (s : fs) : fs :=
  Fs (fs_nodes s) (fs_dents s) (fs_vnodes s) (fs_vfss s) (fs_rams s) (fs_brk s)
     (fs_ram s) (fs_rootfs s) (fs_rootvn s) p (fs_vfslist_lock s).
Definition set_vfslist_lock (v : Z) (s : fs) : fs :=
  Fs (fs_nodes s) (fs_dents s) (fs_vnodes s) (fs_vfss s) (fs_rams s) (fs_brk s)
     (fs_ram s) (fs_rootfs s) (fs_rootvn s) (fs_mountedlist s) v.

(** ** Memory primitives *)

Abbreviation F := (K fs).

(** A type whose objects are kept in a table of the store. *)
Class Stored (T : Type) := {
  table : fs → gmap ptr T;
  upd_table : (gmap ptr T → gmap ptr T) → fs → fs
}.

#[export] Instance ramnode_stored : Stored ramnode := Build_Stored _ fs_nodes upd_nodes.
#[export] Instance ramdentry_stored : Stored ramdentry := Build_Stored _ fs_dents upd_dents.
#[export] Instance vnode_stored : Stored vnode := Build_Stored _ fs_vnodes upd_vnodes.
#[export] Instance vfs_stored : Stored vfs := Build_Stored _ fs_vfss upd_vfss.
#[export] Instance ramvfs_stored : Stored ramvfs := Build_Stored _ fs_rams upd_rams.

(** [*p], read. *)
Definition load {T} `{Stored T} (p : ptr) : F T := λ s,
  match table s !! p with
  | Some x => Ok (x, s)
  | None => Fault (if decide (p = NULL) then NullDeref else DanglingPtr)
  end.

(** A field of [*p] is written: the object must be live. *)
Definition update {T} `{Stored T} (p : ptr) (f : T → T) : F unit :=
  x ← load p; modify (upd_table (insert p (f x))).

(** [kalloc (sizeof *p)], with the contents [mk] builds from the leftover
    words at the new address. *)
Definition kalloc {T} `{Stored T} (mk : (Z → Z) → T) : F ptr := λ s,
  let p := fs_brk s in
  Ok (p, upd_table (insert p (mk (fs_ram s p))) (upd_brk Z.succ s)).

(** [kfree p] of a live object; [kfree (NULL)] returns at once. *)
Definition kfree (T : Type) `{Stored T} (p : ptr) : F unit :=
  if decide (p = NULL) then mret tt else
  load (T := T) p;; modify (upd_table (T := T) (delete p)).

(** ** Locks *)

Definition set_ramlock (v : Z) (n : ramnode) : ramnode :=
  Ramnode (rn_prev n) (rn_next n) (rn_vnode n) (rn_type n) v (rn_linkcount n) (rn_data n).
Definition set_lock (v : Z) (x : vnode) : vnode :=
  Vnode (v_vfs x) (v_mountedhere x) (v_type x) (v_refcount x) (v_flags x) v (v_data x).

(** Other fields of a vnode. *)
Definition add_refcount (k : Z) (v : vnode) : vnode :=
  Vnode (v_vfs v) (v_mountedhere v) (v_type v) (v_refcount v + k) (v_flags v) (v_lock v) (v_data v).
Definition set_v_data (p : ptr) (v : vnode) : vnode :=
  Vnode (v_vfs v) (v_mountedhere v) (v_type v) (v_refcount v) (v_flags v) (v_lock v) p.
Definition set_mountedhere (p : ptr) (v : vnode) : vnode :=
  Vnode (v_vfs v) p (v_type v) (v_refcount v) (v_flags v) (v_lock v) (v_data v).

(** [acquire (&node->ramlock)]: one CPU that finds the lock taken spins
    forever. *)
Definition acquire_ram (p : ptr) : F unit :=
  n ← load p; if decide (rn_ramlock n = 0) then update p (set_ramlock 1) else hang.
Definition release_ram (p : ptr) : F unit := update p (set_ramlock 0).

Definition acquire_vn (p : ptr) : F unit :=
  v ← load p; if decide (v_lock v = 0) then update p (set_lock 1) else hang.
Definition release_vn (p : ptr) : F unit := update p (set_lock 0).

(** [trylock] copies the lock word; it takes nothing. *)
Definition trylock_vn (p : ptr) : F Z := v ← load p; mret (v_lock v).

Definition acquire_vfslist : F unit := s ← get;
  if decide (fs_vfslist_lock s = 0) then modify (set_vfslist_lock 1) else hang.
Definition release_vfslist : F unit := modify (set_vfslist_lock 0).

(** ** The interface between the VFS and a file system *)

(** [struct vnodeops].  An out-parameter is passed its old value and returned
    with the result. *)
Class vnodeops := {
  vop_open : ptr → F unit;
  vop_read : ptr → Z → Z → F (Z * list cell);
  vop_write : ptr → list Z → Z → Z → F Z;
  vop_remove : ptr → ptr → componentnam → F Z;
  vop_lookup : ptr → ptr → componentnam → F (Z * ptr);
  vop_create : ptr → ptr → componentnam → vtype → F (Z * ptr);
  vop_mkdir : ptr → ptr → componentnam → F (Z * ptr);
  vop_rmdir : ptr → ptr → componentnam → F Z;
  vop_close : ptr → F unit;
  vop_inactive : ptr → F unit;
  vop_symlink : ptr → string → componentnam → F Z;
  vop_readlink : ptr → F (Z * componentnam);
  vop_readdir : ptr → Z → Z → F (Z * list dirent * Z * Z);
  vop_link : ptr → ptr → componentnam → F Z
}.

(** [struct vfsops]; the list of registered file systems has one element. *)
Class vfsops := {
  vfs_name : string;
  vfsop_mount : ptr → F Z;
  vfsop_unmount : ptr → F Z;
  vfsop_root : ptr → F (Z * ptr);
  vfsop_vget : ptr → ptr → F (Z * ptr)
}.

(** ** Running the primitives *)

#[global] Arguments load : simpl never.
#[global] Arguments update : simpl never.
#[global] Arguments kalloc : simpl never.
#[global] Arguments kfree : simpl never.
#[global] Arguments acquire_ram : simpl never.
#[global] Arguments release_ram : simpl never.
#[global] Arguments acquire_vn : simpl never.
#[global] Arguments release_vn : simpl never.
#[global] Arguments trylock_vn : simpl never.

Section prims.
Context {T : Type} `{Stored T}.

Lemma load_ok (s : fs) p (x : T) : table s !! p = Some x → load p s = Ok (x, s).
Proof. intros E. unfold load. by rewrite E. Qed.

Lemma load_null (s : fs) : table (T := T) s !! NULL = None → load (T := T) NULL s = Fault NullDeref.
Proof. intros E. unfold load. by rewrite E. Qed.

Lemma load_dangling (s : fs) p :
  table (T := T) s !! p = None → p ≠ NULL → load (T := T) p s = Fault DanglingPtr.
Proof. intros E ?. unfold load. rewrite E. by case_decide. Qed.

Lemma update_ok (s : fs) p (x : T) f :
  table s !! p = Some x → update p f s = Ok (tt, upd_table (insert p (f x)) s).
Proof. intros E. unfold update. by erewrite bind_ok by (by apply load_ok). Qed.

Lemma update_dangling (s : fs) p (f : T → T) :
  table (T := T) s !! p = None → p ≠ NULL → update p f s = Fault DanglingPtr.
Proof. intros E ?. unfold update. by erewrite bind_fault by (by apply load_dangling). Qed.

Lemma kfree_ok (s : fs) p (x : T) :
  p ≠ NULL → table s !! p = Some x → kfree T p s = Ok (tt, upd_table (T := T) (delete p) s).
Proof.
  intros ? E. unfold kfree. case_decide; [done|].
  by erewrite bind_ok by (by apply load_ok).
Qed.

End prims.

Lemma acquire_ram_ok s p n :
  fs_nodes s !! p = Some n → rn_ramlock n = 0 →
  acquire_ram p s = Ok (tt, upd_nodes (insert p (set_ramlock 1 n)) s).
Proof.
  intros E L. unfold acquire_ram.
  erewrite bind_ok by (by apply load_ok). rewrite decide_True by done.
  exact (update_ok (T := ramnode) s p n _ E).
Qed.

Lemma acquire_ram_hang s p n :
  fs_nodes s !! p = Some n → rn_ramlock n ≠ 0 → acquire_ram p s = Hang.
Proof.
  intros E L. unfold acquire_ram.
  erewrite bind_ok by (by apply load_ok). by rewrite decide_False by done.
Qed.

Lemma release_ram_ok s p n :
  fs_nodes s !! p = Some n → release_ram p s = Ok (tt, upd_nodes (insert p (set_ramlock 0 n)) s).
Proof. exact (update_ok (T := ramnode) s p n _). Qed.

Lemma acquire_vn_ok s p v :
  fs_vnodes s !! p = Some v → v_lock v = 0 →
  acquire_vn p s = Ok (tt, upd_vnodes (insert p (set_lock 1 v)) s).
Proof.
  intros E L. unfold acquire_vn.
  erewrite bind_ok by (by apply load_ok). rewrite decide_True by done.
  exact (update_ok (T := vnode) s p v _ E).
Qed.

Lemma acquire_vn_hang s p v :
  fs_vnodes s !! p = Some v → v_lock v ≠ 0 → acquire_vn p s = Hang.
Proof.
  intros E L. unfold acquire_vn.
  erewrite bind_ok by (by apply load_ok). by rewrite decide_False by done.
Qed.

Lemma release_vn_ok s p v :
  fs_vnodes s !! p = Some v → release_vn p s = Ok (tt, upd_vnodes (insert p (set_lock 0 v)) s).
Proof. exact (update_ok (T := vnode) s p v _). Qed.

Lemma trylock_vn_ok s p v :
  fs_vnodes s !! p = Some v → trylock_vn p s = Ok (v_lock v, s).
Proof. intros E. unfold trylock_vn. by erewrite bind_ok by (by apply load_ok). Qed.

(** Table lookups in a state built by updates. *)
Ltac solve_table :=
  simpl; simplify_map_eq;
  first [ eassumption | reflexivity | (etrans; [eassumption|reflexivity]) | eauto ].

(** One step of a run: the head of the sequence is a primitive whose object
    is known.  [kstep] leaves the goal for the rest of the program. *)
Ltac kstep :=
  lazymatch goal with
  | |- context [mbind _ (load ?p) ?s] =>
      erewrite (bind_ok (load p)) by (apply load_ok; solve_table)
  | |- context [mbind _ (update ?p ?f) ?s] =>
      erewrite (bind_ok (update p f)) by (apply update_ok; solve_table)
  | |- context [mbind _ (acquire_ram ?p) ?s] =>
      erewrite (bind_ok (acquire_ram p)) by (apply acquire_ram_ok; [solve_table|simpl; done])
  | |- context [mbind _ (release_ram ?p) ?s] =>
      erewrite (bind_ok (release_ram p)) by (apply release_ram_ok; solve_table)
  | |- context [mbind _ (acquire_vn ?p) ?s] =>
      erewrite (bind_ok (acquire_vn p)) by (apply acquire_vn_ok; [solve_table|simpl; done])
  | |- context [mbind _ (release_vn ?p) ?s] =>
      erewrite (bind_ok (release_vn p)) by (apply release_vn_ok; solve_table)
  | |- context [mbind _ (trylock_vn ?p) ?s] =>
      erewrite (bind_ok (trylock_vn p)) by (apply trylock_vn_ok; solve_table)
  | |- context [mbind _ (mret ?a) ?s] => rewrite (bind_ok (mret a) _ s a s) by reflexivity
  | |- context [mbind _ get ?s] => rewrite (bind_ok get _ s s s) by reflexivity
  | |- context [mbind _ (modify ?f) ?s] => rewrite (bind_ok (modify f) _ s tt (f s)) by reflexivity
  end; simpl.

(** Two states are equal when their tables are. *)
Lemma fs_eq (s t : fs) :
  fs_nodes s = fs_nodes t → fs_dents s = fs_dents t → fs_vnodes s = fs_vnodes t →
  fs_vfss s = fs_vfss t → fs_rams s = fs_rams t → fs_brk s = fs_brk t → fs_ram s = fs_ram t →
  fs_rootfs s = fs_rootfs t → fs_rootvn s = fs_rootvn t →
  fs_mountedlist s = fs_mountedlist t → fs_vfslist_lock s = fs_vfslist_lock t → s = t.
Proof. destruct s, t; simpl; intros; by subst. Qed.

(** Close [Ok (a, s) = Ok (a, t)] up to the order of the writes. *)
Ltac same_state :=
  unfold mret, K_ret; f_equal; f_equal; apply fs_eq; simpl;
  rewrite ?insert_insert_eq; try reflexivity.
