(* ===== verification/Ramfs.v ===== *)
(** * fs/ramfs/ramfs.c: the in-memory file system

    One definition per function of the file, in the order of the calls.  The
    list walks are bounded by the number of live directory entries (nodes for
    [ramfs_unmount]): a walk that is longer visits an entry twice, and such a
    loop never ends, so running out is [Hang]. *)

From S2P Require Import Prelude CString FsState.
From Stdlib Require Import Ascii.
Export StrVal.

Local Open Scope Z_scope.

(** ** Field updates *)

Definition set_prev (p : ptr) (n : ramnode) : ramnode :=
  Ramnode p (rn_next n) (rn_vnode n) (rn_type n) (rn_ramlock n) (rn_linkcount n) (rn_data n).
Definition set_next (p : ptr) (n : ramnode) : ramnode :=
  Ramnode (rn_prev n) p (rn_vnode n) (rn_type n) (rn_ramlock n) (rn_linkcount n) (rn_data n).
Definition set_vnode (p : ptr) (n : ramnode) : ramnode :=
  Ramnode (rn_prev n) (rn_next n) p (rn_type n) (rn_ramlock n) (rn_linkcount n) (rn_data n).
Definition add_linkcount (k : Z) (n : ramnode) : ramnode :=
  Ramnode (rn_prev n) (rn_next n) (rn_vnode n) (rn_type n) (rn_ramlock n)
          (rn_linkcount n + k) (rn_data n).
Definition set_data (d : ramdata) (n : ramnode) : ramnode :=
  Ramnode (rn_prev n) (rn_next n) (rn_vnode n) (rn_type n) (rn_ramlock n) (rn_linkcount n) d.

Definition set_de_next (p : ptr) (d : ramdentry) : ramdentry :=
  Ramdentry p (de_node d) (de_seq d) (de_name d).
Definition set_de_seq (q : Z) (d : ramdentry) : ramdentry :=
  Ramdentry (de_next d) (de_node d) q (de_name d).

(** The members of the union, as an access through that member sees them. *)
Definition as_dir (n : ramnode) : F (ptr * ptr * Z) :=
  match rn_data n with UDir d p q => mret (d, p, q) | _ => fail WrongUnionMember end.
Definition as_lnk (n : ramnode) : F string :=
  match rn_data n with ULnk l => mret l | _ => fail WrongUnionMember end.
Definition as_reg (n : ramnode) : F (option (list cell) * Z) :=
  match rn_data n with UReg d z => mret (d, z) | _ => fail WrongUnionMember end.

(** ** Directory entries *)

(** [for (de = ...; de; de = de->next) if (strcmp (de->name, name) == 0) break;] *)
Fixpoint dir_lookup_loop (fuel : nat) (de : ptr) (name : string) : F ptr :=
  match fuel with
  | O => hang
  | S fuel =>
      if decide (de = NULL) then mret NULL else
      d ← load de;
      c ← cstrcmp (de_name d) name;
      if decide (c = 0) then mret de else dir_lookup_loop fuel (de_next d) name
  end.

Definition dents_fuel : F nat := s ← get; mret (S (size (fs_dents s))).

Definition ramfs_dir_lookup (dir : ptr) (name : string) : F ptr :=
  acquire_ram dir;;
  n ← load dir; '(h, _, _) ← as_dir n;
  fuel ← dents_fuel;
  de ← dir_lookup_loop fuel h name;
  release_ram dir;;
  mret de.

(** [while (d->next != de) d = d->next;] *)
Fixpoint detach_loop (fuel : nat) (d de : ptr) : F ptr :=
  match fuel with
  | O => hang
  | S fuel =>
      x ← load d;
      if decide (de_next x = de) then mret d else detach_loop fuel (de_next x) de
  end.

Definition ramfs_dir_detach (parent de : ptr) : F Z :=
  acquire_ram parent;;
  update parent (add_linkcount (-1));;
  n ← load parent; '(h, par, q) ← as_dir n;
  (if decide (h = de) then
     x ← load h;
     update parent (set_data (UDir (de_next x) par q))
   else
     fuel ← dents_fuel;
     d ← detach_loop fuel h de;
     x ← load d; y ← load (de_next x);
     update d (set_de_next (de_next y)));;
  release_ram parent;;
  mret 0.

Definition ramfs_free_dentry (dentry : ptr) : F Z :=
  d ← load dentry;
  let node := de_node d in
  acquire_ram node;;
  n ← load node;
  if decide (rn_linkcount n ≤ 0) then panic "ramfs_free_dentry: linkcount <= 0" else
  update node (add_linkcount (-1));;
  kfree ramdentry dentry;;
  release_ram node;;
  mret 0.

(** The [seq] of a new entry keeps what the memory held until the entry is
    attached. *)
Definition ramfs_alloc_dentry (node : ptr) (name : string) : F ptr :=
  dentry ← kalloc (λ junk, Ramdentry NULL node (junk 16) name);
  acquire_ram node;;
  cstrdup name;;
  update node (add_linkcount 1);;
  release_ram node;;
  mret dentry.

Definition ramfs_dir_attach (parent dentry : ptr) : F Z :=
  acquire_ram parent;;
  n ← load parent;
  if decide (rn_type n ≠ VDIR) then release_ram parent;; mret (- EINVAL) else
  '(h, par, q) ← as_dir n;
  update dentry (set_de_seq q);;
  update parent (set_data (UDir h par (u64 (q + 1))));;
  update dentry (set_de_next h);;
  update parent (set_data (UDir dentry par (u64 (q + 1))));;
  update parent (add_linkcount 1);;
  release_ram parent;;
  mret 0.

(** ** Nodes *)

(** The [switch] of [ramfs_alloc_node]: the member of the union for the type.
    [dir.dentry] of a directory is not written and keeps what the memory held. *)
Definition alloc_node_data (node dir : ptr) (type : vtype) (link : option string) : F ramdata :=
  s ← get;
  match type with
  | VDIR => mret (UDir (fs_ram s node 40) (if decide (dir = NULL) then node else dir) SEQ_START)
  | VLNK => match link with
            | Some l => cstrdup l;; mret (ULnk l)
            | None => fail NullDeref
            end
  | VREG => mret (UReg None 0)
  | _ => mret UNone
  end.

(** [prev] of the new node is not written either. *)
Definition ramfs_alloc_node (ram dir : ptr) (type : vtype) (link : option string) : F ptr :=
  node ← kalloc (λ junk, Ramnode (junk 0) (junk 8) (junk 16) VNON 1 (junk 32) UNone);
  r ← load ram;
  (if decide (rv_nodes r ≠ NULL) then update (rv_nodes r) (set_prev node) else mret tt);;
  update node (set_next (rv_nodes r));;
  update ram (λ r, Ramvfs (rv_root r) node);;
  data ← alloc_node_data node dir type link;
  update node (λ n, Ramnode (rn_prev n) (rn_next n) NULL type (rn_ramlock n)
                            (if decide (type = VDIR) then 1 else 0) data);;
  release_ram node;;
  mret node.

Definition ramfs_free_node (ram node : ptr) : F unit :=
  n ← load node;
  (if decide (rn_next n ≠ NULL) then update (rn_next n) (set_prev (rn_prev n)) else mret tt);;
  update node (λ n, set_prev (rn_next n) n);;
  kfree ramnode node.

(** ** Vnodes *)

(** [if (node->type == VDIR) flags |= node->dir.parent == node ? VROOT : 0;] *)
Definition root_flag (node : ptr) (n : ramnode) : F Z :=
  if decide (rn_type n = VDIR) then
    '(_, par, _) ← as_dir n; mret (if decide (par = node) then VROOT else 0)
  else mret 0.

(** [flags] of the new vnode is or-ed into what the memory held. *)
Definition ramfs_vget (vfs : ptr) (ino : ptr) : F (Z * ptr) :=
  let node := ino in
  acquire_ram node;;
  n ← load node;
  vn ← (if decide (rn_vnode n ≠ NULL) then
          acquire_vn (rn_vnode n);;
          update (rn_vnode n) (add_refcount 1);;
          mret (rn_vnode n)
        else
          flags ← root_flag node n;
          vn ← kalloc (λ junk, Vnode vfs NULL (rn_type n) 1 (Z.lor (u16 (junk 32)) flags) 1 node);
          update node (set_vnode vn);;
          mret vn);
  release_vn vn;;
  release_ram node;;
  mret (0, vn).

Definition ramfs_root (vfs : ptr) : F (Z * ptr) :=
  m ← load (T := FsState.vfs) vfs;
  r ← load (m_data m);
  ramfs_vget vfs (rv_root r).

Definition ramfs_inactive (vn : ptr) : F unit :=
  v ← load vn;
  let node := v_data v in
  acquire_ram node;;
  update node (set_vnode NULL);;
  n ← load node;
  (if decide (rn_linkcount n = 0) then
     m ← load (v_vfs v); ramfs_free_node (m_data m) node
   else mret tt);;
  release_ram node.

Definition ramfs_open (vn : ptr) : F unit := mret tt.
Definition ramfs_close (vn : ptr) : F unit := mret tt.

(** ** Operations of the file system *)

Definition ramfs_mount (vfs : ptr) : F Z :=
  ram ← kalloc (λ junk, Ramvfs (junk 0) (junk 8));
  root ← ramfs_alloc_node ram NULL VDIR None;
  update root (add_linkcount 1);;
  update root (λ n, set_next NULL (set_prev NULL n));;
  update ram (λ r, Ramvfs root root);;
  update (T := FsState.vfs) vfs (λ m, Vfs (m_next m) (m_mountpoint m) (m_flags m) ram);;
  mret 0.

(** [for (de = ...; de; de = de->next) { ...; free (de); }]: the loop reads
    [de->next] of the entry it has just freed. *)
Fixpoint unmount_dents (fuel : nat) (node de : ptr) : F unit :=
  match fuel with
  | O => hang
  | S fuel =>
      if decide (de = NULL) then mret tt else
      d ← load de;
      (if decide (de_node d ≠ NULL) then update (de_node d) (set_vnode NULL) else mret tt);;
      ramfs_dir_detach node de;;
      ramfs_free_dentry de;;
      d ← load de;
      unmount_dents fuel node (de_next d)
  end.

Fixpoint unmount_nodes (fuel : nat) (node : ptr) : F unit :=
  match fuel with
  | O => hang
  | S fuel =>
      if decide (node = NULL) then mret tt else
      update node (set_vnode NULL);;
      n ← load node;
      (if decide (rn_type n = VDIR) then
         '(h, _, _) ← as_dir n; k ← dents_fuel; unmount_dents k node h
       else mret tt);;
      n ← load node;
      unmount_nodes fuel (rn_next n)
  end.

Fixpoint unmount_free (fuel : nat) (ram node : ptr) : F unit :=
  match fuel with
  | O => hang
  | S fuel =>
      if decide (node = NULL) then mret tt else
      ramfs_free_node ram node;;
      n ← load (T := ramnode) node;
      unmount_free fuel ram (rn_next n)
  end.

Definition ramfs_unmount (vfs : ptr) : F Z :=
  m ← load (T := FsState.vfs) vfs;
  let ram := m_data m in
  s ← get;
  let fuel := S (size (fs_nodes s)) in
  r ← load ram;
  unmount_nodes fuel (rv_nodes r);;
  r ← load ram;
  unmount_free fuel ram (rv_nodes r);;
  kfree ramvfs ram;;
  mret 0.

(** [newsize = size + 1; while (offset + count >= newsize) newsize *= 2;]
    After 64 doublings a 64-bit [newsize] is 0 and stays 0. *)
Fixpoint grow_loop (fuel : nat) (total newsize : Z) : outcome Z :=
  match fuel with
  | O => Hang
  | S fuel =>
      if decide (newsize ≤ total) then grow_loop fuel total (u64 (newsize * 2)) else Ok newsize
  end.

Definition grow (total size : Z) : outcome Z := grow_loop 65 total (u64 (size + 1)).

(** [memcpy (data + offset, buf, count)] into a buffer, and out of one. *)
Definition buf_write (data : list cell) (offset count : Z) (buf : list Z) : F (list cell) :=
  if decide (count = 0) then mret data
  else if decide (0 ≤ offset ∧ offset + count ≤ Z.of_nat (length data) ∧
                  count ≤ Z.of_nat (length buf)) then
    mret (list_inserts (Z.to_nat offset) (Some <$> take (Z.to_nat count) buf) data)
  else fail OutOfBounds.

Definition buf_read (data : list cell) (offset count : Z) : F (list cell) :=
  if decide (count = 0) then mret []
  else if decide (0 ≤ offset ∧ offset + count ≤ Z.of_nat (length data)) then
    mret (take (Z.to_nat count) (drop (Z.to_nat offset) data))
  else fail OutOfBounds.

Definition ramfs_write (vn : ptr) (buf : list Z) (offset count : Z) : F Z :=
  v ← load vn;
  let node := v_data v in
  acquire_ram node;;
  n ← load node; '(data, size) ← as_reg n;
  (if decide (size ≤ u64 (offset + count)) then
     newsize ← (λ s, match grow (u64 (offset + count)) size with
                     | Ok z => Ok (z, s) | _ => Hang end);
     let newdata := replicate (Z.to_nat newsize) None in
     old ← buf_read (default [] data) 0 size;
     update node (set_data (UReg (Some (list_inserts 0 old newdata)) newsize))
   else mret tt);;
  n ← load node; '(data, size) ← as_reg n;
  match data with
  | None => if decide (count = 0) then mret tt else fail NullDeref
  | Some data => data' ← buf_write data offset count buf;
                 update node (set_data (UReg (Some data') size))
  end;;
  release_ram node;;
  mret 0.

(** The result, and the bytes placed in the caller's buffer. *)
Definition ramfs_read (vn : ptr) (offset count : Z) : F (Z * list cell) :=
  v ← load vn;
  let node := v_data v in
  acquire_ram node;;
  n ← load node; '(data, size) ← as_reg n;
  r ← (if decide (size < u64 (offset + count)) then mret (- EINVAL, [])
       else match data with
            | None => mret (0, [])
            | Some data => out ← buf_read data offset count; mret (i32 count, out)
            end);
  release_ram node;;
  mret r.

(** Unlink the node from the list of all nodes. *)
Definition unchain (node : ptr) : F unit :=
  n ← load node;
  (if decide (rn_prev n ≠ NULL) then update (rn_prev n) (set_next (rn_next n)) else mret tt);;
  n ← load node;
  (if decide (rn_next n ≠ NULL) then update (rn_next n) (set_prev (rn_prev n)) else mret tt).

Definition ramfs_remove (vdir vn : ptr) (cnp : componentnam) : F Z :=
  dv ← load vdir; v ← load vn;
  let parent := v_data dv in
  let node := v_data v in
  if decide (v_type v = VDIR) then mret (- EISDIR)
  else if decide (v_type dv ≠ VDIR) then mret (- ENOTDIR) else
  de ← ramfs_dir_lookup parent (cn_name cnp);
  if decide (de = NULL) then panic "ramfs_remove: parent" else
  d ← load de;
  if decide (de_node d ≠ node) then panic "ramfs_remove: parent" else
  unchain node;;
  ramfs_dir_detach parent de;;
  ramfs_free_dentry de;;
  mret 0.

Definition is_dotdot (cnp : componentnam) : bool :=
  match cn_name cnp with
  | String a (String b _) => bool_decide (cn_len cnp = 2%nat ∧ a = "."%char ∧ b = "."%char)
  | _ => false
  end.

Definition ramfs_rmdir (vdir vpp : ptr) (cnp : componentnam) : F Z :=
  dv ← load vdir; v ← load vpp;
  let node := v_data v in
  let parent := v_data dv in
  if is_dotdot cnp then mret (- ENOTEMPTY) else
  acquire_ram node;;
  n ← load node; '(h, par, _) ← as_dir n;
  if decide (par ≠ parent) then panic "ramfs_rmdir: parent" else
  if decide (h ≠ NULL) then release_ram node;; mret (- ENOTEMPTY) else
  update node (add_linkcount (-1));;
  release_ram node;;
  de ← ramfs_dir_lookup parent (cn_name cnp);
  if decide (de = NULL) then panic "ramfs_rmdir: node" else
  d ← load de;
  if decide (de_node d ≠ node) then panic "ramfs_rmdir: node" else
  unchain node;;
  ramfs_dir_detach parent de;;
  ramfs_free_dentry de;;
  mret 0.

Definition ramfs_alloc_file (vdir : ptr) (vpp : ptr) (cnp : componentnam) (type : vtype)
    (target : option string) : F (Z * ptr) :=
  dv ← load vdir;
  m ← load (v_vfs dv);
  name ← cstrldup (cn_name cnp) (cn_len cnp);
  if decide (v_type dv ≠ VDIR ∨ (is_Some target ∧ type ≠ VLNK)) then mret (- EINVAL, vpp) else
  node ← ramfs_alloc_node (m_data m) (v_data dv) type target;
  de ← ramfs_alloc_dentry node name;
  ramfs_dir_attach (v_data dv) de;;
  '(_, vn) ← ramfs_vget (v_vfs dv) node;
  mret (0, vn).

Definition ramfs_create (vdir vpp : ptr) (cnp : componentnam) (type : vtype) : F (Z * ptr) :=
  ramfs_alloc_file vdir vpp cnp type None.

Definition ramfs_mkdir (vdir vpp : ptr) (cnp : componentnam) : F (Z * ptr) :=
  ramfs_alloc_file vdir vpp cnp VDIR None.

Definition ramfs_symlink (vdir : ptr) (target : string) (cnp : componentnam) : F Z :=
  '(r, _) ← ramfs_alloc_file vdir NULL cnp VLNK (Some target); mret r.

Definition ramfs_link (vdir vn : ptr) (cnp : componentnam) : F Z :=
  dv ← load vdir; v ← load vn;
  de ← ramfs_alloc_dentry (v_data v) (cn_name cnp);
  ramfs_dir_attach (v_data dv) de;;
  mret 0.

(** The target, written to the caller's buffer, and its length. *)
Definition ramfs_readlink (vn : ptr) : F (Z * componentnam) :=
  v ← load vn;
  acquire_ram (v_data v);;
  n ← load (v_data v); link ← as_lnk n;
  len ← cstrlen link;
  release_ram (v_data v);;
  mret (0, Componentnam link len).

(** [strncmp (entry->name, cnp->name, cnp->len) == 0] *)
Fixpoint lookup_loop (fuel : nat) (entry : ptr) (cnp : componentnam) : F ptr :=
  match fuel with
  | O => hang
  | S fuel =>
      if decide (entry = NULL) then mret NULL else
      d ← load entry;
      c ← cstrncmp (de_name d) (cn_name cnp) (cn_len cnp);
      if decide (c = 0) then mret entry else lookup_loop fuel (de_next d) cnp
  end.

(** [vpp] is the value of the caller's variable before the call. *)
Definition ramfs_lookup (vdir vpp : ptr) (cnp : componentnam) : F (Z * ptr) :=
  dv ← load vdir;
  let node := v_data dv in
  acquire_ram node;;
  r ← (if decide (v_type dv ≠ VDIR) then mret (- ENOTDIR, vpp) else
       c ← cstrcmp (cn_name cnp) ".";
       if decide (c = 0) then update vdir (add_refcount 1);; mret (0, vdir) else
       c ← cstrcmp (cn_name cnp) "..";
       n ← load node; '(h, par, _) ← as_dir n;
       if decide (c = 0) then '(_, vn) ← ramfs_vget (v_vfs dv) par; mret (0, vn) else
       fuel ← dents_fuel;
       entry ← lookup_loop fuel h cnp;
       if decide (entry = NULL) then mret (- ENOENT, NULL) else
       d ← load entry;
       '(_, vn) ← ramfs_vget (v_vfs dv) (de_node d); mret (0, vn));
  release_ram node;;
  mret r.

(** [get_reclen]: the name is at offset 13 of [struct dirent]. *)
Definition get_reclen (name : string) : F Z :=
  n ← cstrlen name; mret (u16 (13 + Z.of_nat n + 1)).

(** [d->name] has room for 255 characters and the terminator; [type] is what
    [d] held before. *)
Definition ramfs_make_dirent (node : ptr) (type : option Z) (name : string) : F dirent :=
  n ← cstrlen name;
  if decide (256 ≤ n)%nat then fail OutOfBounds else
  reclen ← get_reclen name;
  mret (Dirent node reclen type name).

(** The [switch] of [ramfs_readdir]: [VREG] has no [break]. *)
Definition dirent_type (t : vtype) : F Z :=
  match t with
  | VBLK => mret DT_BLK
  | VREG | VDIR => mret DT_DIR
  | VSOCK => mret DT_SOCK
  | VLNK => mret DT_LNK
  | VCHR => mret DT_CHR
  | VNON => panic "ramfs_readdir: unknown type"
  end.

(** The state of the [do]-[while]: the entries written so far, the offset and
    the bytes left. *)
Fixpoint readdir_loop (fuel : nat) (de : ptr) (out : list dirent) (offset resid : Z) :
    F (list dirent * Z * Z) :=
  match fuel with
  | O => hang
  | S fuel =>
      x ← load de;
      n ← load (de_node x);
      d ← ramfs_make_dirent (de_node x) None (de_name x);
      t ← dirent_type (rn_type n);
      let out := out ++ [Dirent (d_ino d) (d_reclen d) (Some t) (d_name d)] in
      let resid := u64 (resid - d_reclen d) in
      if decide (resid = 0 ∨ de_next x = NULL) then mret (out, de_seq x, resid)
      else readdir_loop fuel (de_next x) out (de_seq x) resid
  end.

Fixpoint readdir_find (fuel : nat) (de : ptr) (offset : Z) : F ptr :=
  match fuel with
  | O => hang
  | S fuel =>
      if decide (de = NULL) then mret NULL else
      d ← load de;
      if decide (de_seq d = offset) then mret de else readdir_find fuel (de_next d) offset
  end.

(** The result, the entries written, the new [*count] and [*offset]. *)
Definition ramfs_readdir (vdir : ptr) (count offset : Z) : F (Z * list dirent * Z * Z) :=
  dv ← load vdir;
  let parent := v_data dv in
  acquire_ram parent;;
  n ← load parent; '(h, par, _) ← as_dir n;
  '(out, offset, resid) ←
    (if decide (offset = SEQ_DOT) then
       d ← ramfs_make_dirent parent None ".";
       mret ([d], SEQ_DOTDOT, u64 (count - d_reclen d))
     else mret ([], offset, count));
  '(out, offset, resid) ←
    (if decide (offset = SEQ_DOTDOT) then
       d ← ramfs_make_dirent par None "..";
       q ← (if decide (h = NULL) then mret SEQ_EOF else e ← load h; mret (de_seq e));
       mret (out ++ [d], q, u64 (resid - d_reclen d))
     else mret (out, offset, resid));
  '(err, out, offset, resid) ←
    (if decide (offset = SEQ_EOF) then mret (0, out, offset, resid) else
     fuel ← dents_fuel;
     de ← readdir_find fuel h offset;
     if decide (de = NULL) then mret (EINVAL, out, offset, resid) else
     '(out, offset, resid) ← readdir_loop fuel de out offset resid;
     mret (0, out, offset, resid));
  release_ram parent;;
  mret (err, out, u64 (count - resid), offset).

(** ** The operation tables *)

Definition ramfs_vnode_ops : vnodeops := {|
  vop_open := ramfs_open;
  vop_read := ramfs_read;
  vop_write := ramfs_write;
  vop_remove := ramfs_remove;
  vop_lookup := ramfs_lookup;
  vop_create := ramfs_create;
  vop_mkdir := ramfs_mkdir;
  vop_rmdir := ramfs_rmdir;
  vop_close := ramfs_close;
  vop_inactive := ramfs_inactive;
  vop_symlink := ramfs_symlink;
  vop_readlink := ramfs_readlink;
  vop_readdir := ramfs_readdir;
  vop_link := ramfs_link
|}.

Definition ram_ops : vfsops := {|
  vfs_name := "ramfs";
  vfsop_mount := ramfs_mount;
  vfsop_unmount := ramfs_unmount;
  vfsop_root := ramfs_root;
  vfsop_vget := ramfs_vget
|}.
