(* ===== verification/RamfsDir.v ===== *)
(** * Directories of the ramfs: entry lists, links and their invariant

    [dlist] relates the chain of [struct ramdentry] that starts at a pointer
    to the list of its addresses; [refs] counts the entries that point at a
    node.  [dirs_ok] is the invariant of the directory structure: every
    directory owns its own entry list, sequence numbers identify entries,
    every entry names a live node and [linkcount] is the number of entries
    that name the node, plus, for a directory, one for [.], one more for the
    root and one per entry of its own. *)

From S2P Require Import Prelude CString FsState Ramfs.

Local Open Scope Z_scope.

(** ** Entry lists *)

Fixpoint dlist (D : gmap ptr ramdentry) (p : ptr) (l : list ptr) : Prop :=
  match l with
  | [] => p = NULL
  | d :: l => p = d ∧ d ≠ NULL ∧ ∃ e, D !! d = Some e ∧ dlist D (de_next e) l
  end.

Lemma dlist_functional D p l l' : dlist D p l → dlist D p l' → l = l'.
Proof.
  revert p l'. induction l as [|d l IH]; intros p [|d' l']; simpl; [done| | |].
  1,2: intros; destruct_and?; congruence.
  intros (-> & ? & e & ? & ?) (-> & ? & e' & ? & ?). simplify_eq. f_equal. eauto.
Qed.

Lemma dlist_app D p l1 d l2 : dlist D p (l1 ++ d :: l2) → dlist D d (d :: l2).
Proof.
  revert p. induction l1 as [|x l1 IH]; intros p Hl.
  - destruct Hl as (-> & Hl). by split.
  - destruct Hl as (_ & _ & e & _ & Hl). exact (IH _ Hl).
Qed.

Lemma dlist_NoDup D p l : dlist D p l → NoDup l.
Proof.
  revert p. induction l as [|d l IH]; intros p Hl; constructor.
  - intros (l1 & l2 & ->)%list_elem_of_split.
    destruct Hl as (-> & ? & e & ? & Hl).
    pose proof (dlist_app _ _ _ _ _ Hl) as H1.
    assert (dlist D d (d :: l1 ++ d :: l2)) as H2 by (simpl; eauto).
    pose proof (dlist_functional _ _ _ _ H1 H2) as E.
    apply (f_equal length) in E. simpl in E. rewrite length_app in E. simpl in E. lia.
  - destruct Hl as (_ & _ & e & _ & Hl). eauto.
Qed.

Lemma dlist_lookup D p l d : dlist D p l → d ∈ l → ∃ e, D !! d = Some e ∧ d ≠ NULL.
Proof.
  revert p. induction l as [|x l IH]; simpl; intros p Hl Hd; [by apply not_elem_of_nil in Hd|].
  destruct Hl as (-> & ? & e & ? & Hl). apply elem_of_cons in Hd as [->|Hd]; eauto.
Qed.

Lemma dlist_length D p l : dlist D p l → (length l ≤ size D)%nat.
Proof.
  intros Hl. rewrite <-size_dom.
  rewrite <-(size_list_to_set (C := gset ptr) l) by (eauto using dlist_NoDup).
  apply subseteq_size. intros d Hd%elem_of_list_to_set.
  destruct (dlist_lookup _ _ _ _ Hl Hd) as (e & ? & _). by apply elem_of_dom_2 in H.
Qed.

(** A write to an entry outside the list, or the removal of one, leaves it. *)
Lemma dlist_insert D p l d e : d ∉ l → dlist D p l → dlist (<[d := e]> D) p l.
Proof.
  revert p. induction l as [|x l IH]; intros p Hd; simpl; [done|].
  intros (-> & ? & e' & ? & Hl). apply not_elem_of_cons in Hd as [? ?].
  split_and!; [done..|]. exists e'. rewrite lookup_insert_ne by done. eauto.
Qed.

Lemma dlist_delete D p l d : d ∉ l → dlist D p l → dlist (delete d D) p l.
Proof.
  revert p. induction l as [|x l IH]; intros p Hd; simpl; [done|].
  intros (-> & ? & e' & ? & Hl). apply not_elem_of_cons in Hd as [? ?].
  split_and!; [done..|]. exists e'. rewrite lookup_delete_ne by done. eauto.
Qed.

Lemma dlist_fresh D p l d : D !! d = None → dlist D p l → d ∉ l.
Proof. intros Hd Hl (e & He & _)%(dlist_lookup _ _ _ _ Hl). congruence. Qed.

(** Unlinking the successor [d] of [x]. *)
Lemma dlist_unlink D p l1 x d l2 ex ed :
  dlist D p (l1 ++ x :: d :: l2) → D !! x = Some ex → D !! d = Some ed →
  dlist (<[x := set_de_next (de_next ed) ex]> D) p (l1 ++ x :: l2).
Proof.
  intros Hl Hx Hd. pose proof (dlist_NoDup _ _ _ Hl) as ND.
  revert p Hl. induction l1 as [|y l1 IH]; simpl in *; intros p.
  - intros (-> & ? & e & He & _ & ? & e' & He' & Hl). simplify_eq.
    split_and!; [done..|]. eexists. rewrite lookup_insert_eq. split; [done|]. simpl.
    apply dlist_insert; [|done]. apply NoDup_cons in ND as [ND _]. set_solver.
  - intros (-> & ? & e & He & Hl). apply NoDup_cons in ND as [Hy ND].
    split_and!; [done..|]. exists e.
    rewrite lookup_insert_ne by (intros ->; apply Hy; set_solver). eauto.
Qed.

(** ** Counting links *)

Definition refs (D : gmap ptr ramdentry) (p : ptr) : Z :=
  Z.of_nat (size (filter (λ '(_, e), de_node e = p) D)).

Lemma refs_nonneg D p : 0 ≤ refs D p.
Proof. unfold refs. lia. Qed.

Lemma refs_insert D d e p :
  D !! d = None → refs (<[d := e]> D) p = refs D p + (if decide (de_node e = p) then 1 else 0).
Proof.
  intros Hd. unfold refs. case_decide.
  - rewrite map_filter_insert_True by done.
    rewrite map_size_insert_None; [lia|].
    apply map_lookup_filter_None. by left.
  - rewrite map_filter_insert_False by done.
    rewrite delete_id by done. lia.
Qed.

Lemma refs_delete D d e p :
  D !! d = Some e → refs (delete d D) p = refs D p - (if decide (de_node e = p) then 1 else 0).
Proof.
  intros Hd. pose proof (refs_insert (delete d D) d e p (lookup_delete_eq _ _)) as E.
  rewrite insert_delete_id in E by done. lia.
Qed.

(** A write that keeps the node keeps the counts. *)
Lemma refs_update D d e e' p :
  D !! d = Some e → de_node e' = de_node e → refs (<[d := e']> D) p = refs D p.
Proof.
  intros Hd En. rewrite <-(insert_delete_eq D d e').
  rewrite refs_insert by apply lookup_delete_eq. rewrite (refs_delete _ _ _ _ Hd), En. lia.
Qed.

(** ** Comparisons of names *)

Lemma cstrcmp_ok {S} (a b : string) (s : S) :
  a ≠ EmptyString → b ≠ EmptyString →
  cstrcmp a b s = Ok (if decide (a = b) then 0 else -1, s).
Proof. destruct a, b; done. Qed.

(** [n] characters are compared and the second string has that many: the
    first string has those characters as a prefix. *)
Lemma cstrncmp_ok {S} (a b : string) n (s : S) :
  (n ≤ String.length b)%nat →
  cstrncmp a b n s =
    Ok (if decide (String.substring 0 n a = String.substring 0 n b) then 0 else -1, s).
Proof.
  revert a b. induction n as [|n IH]; intros a b Hn; [by destruct a, b|].
  destruct b as [|y b]; simpl in *; [lia|]. destruct a as [|x a]; [done|].
  simpl. destruct (decide (x = y)) as [->|Hne].
  - rewrite IH by lia.
    destruct (decide (String.substring 0 n a = String.substring 0 n b)) as [E|E].
    + by rewrite E, (decide_True (P := String _ _ = _)).
    + by rewrite (decide_False (P := String _ _ = _)) by congruence.
  - by rewrite decide_False by congruence.
Qed.

(** The component a [struct componentnam] stands for. *)
Definition component (cnp : componentnam) : string :=
  String.substring 0 (cn_len cnp) (cn_name cnp).

(** [strncmp (entry->name, cnp->name, cnp->len) == 0]. *)
Definition matches (cnp : componentnam) (e : ramdentry) : bool :=
  bool_decide (String.substring 0 (cn_len cnp) (de_name e) = component cnp).

Definition named (name : string) (e : ramdentry) : bool := bool_decide (de_name e = name).

(** The first entry of a list that satisfies a test, NULL if there is none. *)
Fixpoint find_ent (D : gmap ptr ramdentry) (P : ramdentry → bool) (l : list ptr) : ptr :=
  match l with
  | [] => NULL
  | d :: l => match D !! d with
              | Some e => if P e then d else find_ent D P l
              | None => NULL
              end
  end.

Lemma find_ent_spec D P p l d :
  dlist D p l → find_ent D P l = d → d ≠ NULL →
  d ∈ l ∧ ∃ e, D !! d = Some e ∧ P e = true.
Proof.
  revert p. induction l as [|x l IH]; simpl; intros p Hl E Hd; [congruence|].
  destruct Hl as (_ & _ & e & He & Hl). rewrite He in E.
  destruct (P e) eqn:EP; subst; [split; [by left|eauto]|].
  destruct (IH _ Hl eq_refl Hd) as (? & ?). split; [by right|done].
Qed.

Lemma find_ent_none D P p l :
  dlist D p l → find_ent D P l = NULL → ∀ d e, d ∈ l → D !! d = Some e → P e = false.
Proof.
  revert p. induction l as [|x l IH]; simpl; intros p Hl E d e Hd He; [by apply not_elem_of_nil in Hd|].
  destruct Hl as (_ & ? & e' & He' & Hl). rewrite He' in E.
  destruct (P e') eqn:EP; [congruence|].
  apply elem_of_cons in Hd as [->|Hd]; [congruence|eauto].
Qed.

(** ** The walks *)

Definition names_ok (D : gmap ptr ramdentry) : Prop :=
  ∀ d e, D !! d = Some e → de_name e ≠ EmptyString.

Lemma dir_lookup_loop_ok s fuel p l name :
  dlist (fs_dents s) p l → names_ok (fs_dents s) → name ≠ EmptyString → (length l < fuel)%nat →
  dir_lookup_loop fuel p name s = Ok (find_ent (fs_dents s) (named name) l, s).
Proof.
  intros Hl HN Hname. revert p l Hl. induction fuel as [|fuel IH]; intros p l Hl Hf; [lia|].
  destruct l as [|d l]; simpl in *; [by rewrite decide_True|].
  destruct Hl as (-> & ? & e & He & Hl). rewrite decide_False by done. kstep.
  rewrite (bind_ok (cstrcmp _ _) _ _ _ _ (cstrcmp_ok _ _ s (HN _ _ He) Hname)).
  rewrite He. unfold named at 1. destruct (decide (de_name e = name)).
  - by rewrite decide_True, bool_decide_true.
  - rewrite decide_False, bool_decide_false by done. apply IH; [done|lia].
Qed.

Lemma lookup_loop_ok s fuel p l cnp :
  dlist (fs_dents s) p l → (cn_len cnp ≤ String.length (cn_name cnp))%nat → (length l < fuel)%nat →
  lookup_loop fuel p cnp s = Ok (find_ent (fs_dents s) (matches cnp) l, s).
Proof.
  intros Hl Hcn. revert p l Hl. induction fuel as [|fuel IH]; intros p l Hl Hf; [lia|].
  destruct l as [|d l]; simpl in *; [by rewrite decide_True|].
  destruct Hl as (-> & ? & e & He & Hl). rewrite decide_False by done. kstep.
  rewrite (bind_ok (cstrncmp _ _ _) _ _ _ _ (cstrncmp_ok _ _ _ s Hcn)).
  rewrite He. unfold matches at 1, component.
  destruct (decide (String.substring 0 (cn_len cnp) (de_name e) =
                    String.substring 0 (cn_len cnp) (cn_name cnp))).
  - by rewrite decide_True, bool_decide_true.
  - rewrite decide_False, bool_decide_false by done. apply IH; [done|lia].
Qed.

Lemma detach_loop_ok s fuel p l1 x d l2 :
  dlist (fs_dents s) p (l1 ++ x :: d :: l2) → (length l1 < fuel)%nat →
  detach_loop fuel p d s = Ok (x, s).
Proof.
  intros Hl. pose proof (dlist_NoDup _ _ _ Hl) as ND. revert p l1 Hl ND.
  induction fuel as [|fuel IH]; intros p l1 Hl ND Hf; [lia|].
  destruct l1 as [|y l1]; simpl in *.
  - destruct Hl as (-> & ? & e & He & Hd & _). kstep. by rewrite decide_True.
  - destruct Hl as (-> & ? & e & He & Hl). kstep.
    rewrite decide_False; [apply (IH _ l1); [done|by apply NoDup_cons in ND as [_ ?]|lia]|].
    apply NoDup_cons in ND as [_ ND].
    destruct l1 as [|z l1]; simpl in Hl; destruct Hl as (E & _); rewrite E;
      apply NoDup_cons in ND as [ND _]; set_solver.
Qed.
