(* ===== verification/RamfsOps.v ===== *)
(** * What each ramfs function does to the store

    For every helper of fs/ramfs/ramfs.c its exact result, as an equation, in
    a store where the objects it touches are live and unlocked.  The
    pointers [prev] and [next] that chain all nodes of a file system matter
    for nothing but [ramfs_unmount]; [chain_equiv] is equality of node tables
    up to them. *)

From S2P Require Import Prelude CString FsState Ramfs RamfsDir.

Local Open Scope Z_scope.

(** ** The chain of all nodes *)

Definition strip (n : ramnode) : ramnode := set_prev NULL (set_next NULL n).

Definition chain_equiv (N N' : gmap ptr ramnode) : Prop :=
  ∀ p, strip <$> N !! p = strip <$> N' !! p.

#[export] Instance chain_equiv_equivalence : Equivalence chain_equiv.
Proof.
  split.
  - by intros N p.
  - by intros N N' H p.
  - intros N N' N'' H H' p. by rewrite (H p).
Qed.

(** A pointer of the chain names a live node or nothing. *)
Definition chain_ptr (N : gmap ptr ramnode) (p : ptr) : Prop := p = NULL ∨ is_Some (N !! p).

Definition chain_ok (N : gmap ptr ramnode) : Prop :=
  ∀ p n, N !! p = Some n → chain_ptr N (rn_prev n) ∧ chain_ptr N (rn_next n).

Lemma chain_equiv_lookup N N' p n :
  chain_equiv N N' → N !! p = Some n →
  ∃ n', N' !! p = Some n' ∧ strip n' = strip n.
Proof.
  intros H Hp. specialize (H p). rewrite Hp in H.
  destruct (N' !! p) as [n'|]; [|done]. apply (inj Some) in H. eauto.
Qed.

Lemma chain_equiv_update N p n n' :
  N !! p = Some n → strip n' = strip n → chain_equiv (<[p := n']> N) N.
Proof.
  intros Hp E q. rewrite lookup_insert. case_decide as Hq; [|done].
  subst. rewrite Hp. simpl. by rewrite E.
Qed.

#[export] Instance chain_equiv_insert p n :
  Proper (chain_equiv ==> chain_equiv) (insert p n).
Proof. intros N N' H q. rewrite !lookup_insert. by case_decide. Qed.

#[export] Instance chain_ptr_proper :
  Proper (chain_equiv ==> eq ==> iff) chain_ptr.
Proof.
  intros N N' H p _ <-. unfold chain_ptr.
  by rewrite <-(fmap_is_Some strip), (H p), fmap_is_Some.
Qed.

Lemma chain_ptr_insert N p n q : chain_ptr N q → chain_ptr (<[p := n]> N) q.
Proof. intros [->|H]; [by left|right]. rewrite lookup_insert. case_decide; eauto. Qed.

Lemma chain_ok_insert N p n :
  chain_ok N → chain_ptr (<[p := n]> N) (rn_prev n) → chain_ptr (<[p := n]> N) (rn_next n) →
  chain_ok (<[p := n]> N).
Proof.
  intros HN ?? q m. rewrite lookup_insert_Some. intros [[<- <-]|[_ Hm]]; [done|].
  destruct (HN _ _ Hm). split; by apply chain_ptr_insert.
Qed.

Lemma chain_ok_update N p n n' :
  chain_ok N → N !! p = Some n →
  chain_ptr N (rn_prev n') → chain_ptr N (rn_next n') → chain_ok (<[p := n']> N).
Proof. intros. apply chain_ok_insert; [done| |]; by apply chain_ptr_insert. Qed.

(** A node written with the chain pointers it had. *)
Lemma chain_ok_same N p n n' :
  chain_ok N → N !! p = Some n → rn_prev n' = rn_prev n → rn_next n' = rn_next n →
  chain_ok (<[p := n']> N).
Proof.
  intros HN Hp E1 E2. destruct (HN _ _ Hp).
  apply (chain_ok_update _ _ n); rewrite ?E1, ?E2; done.
Qed.

Lemma unchain_ok s p n :
  fs_nodes s !! p = Some n → chain_ok (fs_nodes s) →
  ∃ N', unchain p s = Ok (tt, upd_nodes (λ _, N') s) ∧ chain_equiv (fs_nodes s) N' ∧ chain_ok N'.
Proof.
  intros Hp HN. unfold unchain. kstep.
  assert (∃ N1, (if decide (rn_prev n ≠ NULL) then update (rn_prev n) (set_next (rn_next n))
                 else mret tt) s = Ok (tt, upd_nodes (λ _, N1) s)
                ∧ chain_equiv (fs_nodes s) N1 ∧ chain_ok N1) as (N1 & E1 & Eq1 & HN1).
  { destruct (HN _ _ Hp) as [[Hz|[m Hm]] Hnx]; [|destruct (decide (rn_prev n ≠ NULL))].
    - rewrite decide_False by naive_solver. exists (fs_nodes s).
      split_and!; [by destruct s|done|done].
    - eexists. split; [erewrite update_ok by solve_table; reflexivity|].
      split; [symmetry; by apply (chain_equiv_update _ _ m)|].
      destruct (HN _ _ Hm). by apply (chain_ok_update _ _ m).
    - exists (fs_nodes s). split_and!; [by destruct s|done|done]. }
  rewrite (bind_ok _ _ _ _ _ E1).
  destruct (chain_equiv_lookup _ _ _ _ Eq1 Hp) as (n1 & Hn1 & _). kstep.
  destruct (HN1 _ _ Hn1) as [Hpv [Hz|[m Hm]]]; [|destruct (decide (rn_next n1 ≠ NULL))].
  - rewrite decide_False by naive_solver. exists N1. by destruct s.
  - eexists. split; [erewrite update_ok by solve_table; reflexivity|]. split.
    + rewrite Eq1. symmetry. by apply (chain_equiv_update _ _ m).
    + simpl. destruct (HN1 _ _ Hm). by apply (chain_ok_update _ _ m).
  - exists N1. by destruct s.
Qed.

(** ** Entries *)

Lemma set_ramlock_id n : rn_ramlock n = 0 → set_ramlock 0 n = n.
Proof. destruct n; simpl; by intros ->. Qed.

Lemma dents_fuel_ok s : dents_fuel s = Ok (S (size (fs_dents s)), s).
Proof. done. Qed.

Lemma ramfs_dir_lookup_ok s p n h par q l name :
  fs_nodes s !! p = Some n → rn_ramlock n = 0 → rn_data n = UDir h par q →
  dlist (fs_dents s) h l → names_ok (fs_dents s) → name ≠ EmptyString →
  ramfs_dir_lookup p name s = Ok (find_ent (fs_dents s) (named name) l, s).
Proof.
  intros Hp L Ed Hl HN Hname. unfold ramfs_dir_lookup. do 2 kstep.
  unfold as_dir. simpl. rewrite Ed. kstep.
  rewrite (bind_ok _ _ _ _ _ (dents_fuel_ok _)). cbv beta.
  erewrite bind_ok by (apply dir_lookup_loop_ok; [done..|];
    pose proof (dlist_length _ _ _ Hl); simpl; lia).
  kstep. same_state. apply insert_id. destruct n; naive_solver.
Qed.

Lemma ramfs_dir_attach_ok s p n d de h par q :
  fs_nodes s !! p = Some n → rn_ramlock n = 0 → rn_type n = VDIR → rn_data n = UDir h par q →
  fs_dents s !! d = Some de →
  ramfs_dir_attach p d s = Ok (0,
    upd_nodes (insert p (add_linkcount 1 (set_data (UDir d par (u64 (q + 1))) n)))
      (upd_dents (insert d (Ramdentry h (de_node de) q (de_name de))) s)).
Proof.
  intros Hp L Et Ed Hd. unfold ramfs_dir_attach.
  do 2 kstep. rewrite decide_False by naive_solver.
  unfold as_dir. simpl. rewrite Ed. do 7 kstep.
  same_state. f_equal. destruct n; naive_solver.
Qed.

Lemma ramfs_dir_attach_notdir s p n d :
  fs_nodes s !! p = Some n → rn_ramlock n = 0 → rn_type n ≠ VDIR →
  ramfs_dir_attach p d s = Ok (- EINVAL, s).
Proof.
  intros Hp L Et. unfold ramfs_dir_attach. do 2 kstep. rewrite decide_True by done. kstep.
  same_state. apply insert_id. destruct n; naive_solver.
Qed.

Lemma ramfs_alloc_dentry_ok s x n name :
  fs_nodes s !! x = Some n → rn_ramlock n = 0 → name ≠ EmptyString →
  ramfs_alloc_dentry x name s = Ok (fs_brk s,
    upd_nodes (insert x (add_linkcount 1 n))
      (upd_dents (insert (fs_brk s) (Ramdentry NULL x (fs_ram s (fs_brk s) 16) name))
        (upd_brk Z.succ s))).
Proof.
  intros Hx L Hname. unfold ramfs_alloc_dentry.
  erewrite (bind_ok (kalloc _)) by reflexivity. kstep.
  rewrite (bind_ok (cstrdup name) _ _ name _) by (by destruct name).
  do 2 kstep. same_state. f_equal. destruct n; naive_solver.
Qed.

Lemma ramfs_free_dentry_ok s d de x n :
  fs_dents s !! d = Some de → d ≠ NULL → de_node de = x →
  fs_nodes s !! x = Some n → rn_ramlock n = 0 → 0 < rn_linkcount n →
  ramfs_free_dentry d s = Ok (0,
    upd_nodes (insert x (add_linkcount (-1) n)) (upd_dents (delete d) s)).
Proof.
  intros Hd ? <- Hx L Hc. unfold ramfs_free_dentry. do 3 kstep.
  rewrite decide_False by (simpl; lia). kstep.
  erewrite (bind_ok (kfree _ _)) by (eapply kfree_ok; [done|solve_table]). kstep.
  same_state. f_equal. destruct n; naive_solver.
Qed.

(** The entry is the first of the directory. *)
Lemma ramfs_dir_detach_head s p n d e par q :
  fs_nodes s !! p = Some n → rn_ramlock n = 0 → rn_data n = UDir d par q →
  fs_dents s !! d = Some e →
  ramfs_dir_detach p d s = Ok (0,
    upd_nodes (insert p (add_linkcount (-1) (set_data (UDir (de_next e) par q) n))) s).
Proof.
  intros Hp L Ed Hd. unfold ramfs_dir_detach. do 3 kstep.
  unfold as_dir. simpl. rewrite Ed. kstep. rewrite decide_True by done.
  erewrite (bind_ok (mbind _ (load d))); [|kstep; apply update_ok; solve_table].
  simpl. kstep. same_state. f_equal. destruct n; naive_solver.
Qed.

(** The entry follows [x]. *)
Lemma ramfs_dir_detach_mid s p n h par q l1 x d l2 ex ed :
  fs_nodes s !! p = Some n → rn_ramlock n = 0 → rn_data n = UDir h par q →
  dlist (fs_dents s) h (l1 ++ x :: d :: l2) →
  fs_dents s !! x = Some ex → fs_dents s !! d = Some ed →
  ramfs_dir_detach p d s = Ok (0,
    upd_nodes (insert p (add_linkcount (-1) n))
      (upd_dents (insert x (set_de_next (de_next ed) ex)) s)).
Proof.
  intros Hp L Ed Hl Hx Hd. unfold ramfs_dir_detach. do 3 kstep.
  unfold as_dir. simpl. rewrite Ed. kstep.
  pose proof (dlist_NoDup _ _ _ Hl) as ND.
  rewrite decide_False.
  2:{ intros ->. destruct l1 as [|y l1]; simpl in *; destruct Hl as (E & _); subst.
      - apply NoDup_cons in ND as [ND _]. set_solver.
      - apply NoDup_cons in ND as [ND _]. set_solver. }
  assert (de_next ex = d) as Hex.
  { apply dlist_app in Hl. destruct Hl as (_ & _ & e & He & E & _). naive_solver. }
  erewrite (bind_ok (mbind _ dents_fuel)).
  2:{ rewrite (bind_ok _ _ _ _ _ (dents_fuel_ok _)). cbv beta.
      erewrite bind_ok; [|apply (detach_loop_ok _ _ _ l1 x d l2); [done|]].
      2:{ apply dlist_length in Hl. rewrite length_app in Hl. simpl in *. lia. }
      kstep. rewrite Hex. kstep. apply update_ok. solve_table. }
  simpl. kstep. same_state. f_equal. destruct n; naive_solver.
Qed.

(** ** Nodes and vnodes *)

(** The union of a new node; a link without a target, or with an empty one,
    makes [strdup] fault. *)
Definition new_data (s : fs) (dir : ptr) (type : vtype) (link : option string) : option ramdata :=
  match type, link with
  | VDIR, _ => Some (UDir (fs_ram s (fs_brk s) 40) (if decide (dir = NULL) then fs_brk s else dir)
                          SEQ_START)
  | VLNK, Some (String c l) => Some (ULnk (String c l))
  | VLNK, _ => None
  | VREG, _ => Some (UReg None 0)
  | _, _ => Some UNone
  end.

Definition new_node (type : vtype) (prev next : ptr) (data : ramdata) : ramnode :=
  Ramnode prev next NULL type 0 (if decide (type = VDIR) then 1 else 0) data.

Lemma alloc_node_data_ok s s' dir type link data :
  fs_ram s' = fs_ram s → new_data s dir type link = Some data →
  alloc_node_data (fs_brk s) dir type link s' = Ok (data, s').
Proof.
  intros Er E. unfold alloc_node_data. kstep. rewrite Er.
  destruct type; try (by simplify_eq/=).
  destruct link as [[|c l]|]; by simplify_eq/=.
Qed.

(** [if (ram->nodes) ram->nodes->prev = node;] with the new node [nn] in the
    table. *)
Lemma chain_head_ok s nn raw h N :
  fs_nodes s = <[nn := raw]> N → N !! nn = None → chain_ok N → chain_ptr N h →
  ∃ N1, (if decide (h ≠ NULL) then update h (set_prev nn) else mret tt) s
          = Ok (tt, upd_nodes (λ _, <[nn := raw]> N1) s)
        ∧ chain_equiv N N1
        ∧ ∀ x, chain_ptr N (rn_prev x) → chain_ptr N (rn_next x) → chain_ok (<[nn := x]> N1).
Proof.
  intros Hs Hf HN Hh.
  destruct (decide (h ≠ NULL)) as [Hne|Hz]; [destruct Hh as [?|[m Hm]]; [done|]|].
  - assert (h ≠ nn) by congruence.
    exists (<[h := set_prev nn m]> N). split_and!.
    + erewrite (update_ok (T := ramnode)) by (simpl; rewrite Hs, lookup_insert_ne by done; done).
      same_state. rewrite Hs. by rewrite insert_insert_ne.
    + symmetry. by apply (chain_equiv_update _ _ m).
    + intros x Hx1 Hx2. rewrite insert_insert_ne by done.
      assert (chain_ok (<[nn := x]> N)) as HN'.
      { apply chain_ok_insert; [done| |]; by apply chain_ptr_insert. }
      apply (chain_ok_update _ _ m); [done|by rewrite lookup_insert_ne| |].
      * right. simpl. rewrite lookup_insert_eq. eauto.
      * apply chain_ptr_insert. by apply (HN _ _ Hm).
  - exists N. split_and!; [|done|].
    + unfold mret, K_ret. same_state. done.
    + intros x Hx1 Hx2. apply chain_ok_insert; [done| |]; by apply chain_ptr_insert.
Qed.

Lemma ramfs_alloc_node_ok s ram r dir type link data :
  fs_rams s !! ram = Some r → fs_nodes s !! fs_brk s = None → fs_ram s (fs_brk s) 0 = NULL →
  chain_ok (fs_nodes s) → chain_ptr (fs_nodes s) (rv_nodes r) →
  new_data s dir type link = Some data →
  ∃ N', ramfs_alloc_node ram dir type link s = Ok (fs_brk s,
          upd_rams (insert ram (Ramvfs (rv_root r) (fs_brk s)))
            (upd_nodes (λ _, N') (upd_brk Z.succ s)))
        ∧ chain_equiv (<[fs_brk s := new_node type NULL NULL data]> (fs_nodes s)) N'
        ∧ chain_ok N'.
Proof.
  intros Hr Hf Hz HN Hh Hd. unfold ramfs_alloc_node.
  erewrite (bind_ok (kalloc _)) by reflexivity. kstep.
  set (raw := Ramnode _ _ _ _ _ _ _).
  edestruct (chain_head_ok (upd_nodes <[fs_brk s := raw]> (upd_brk Z.succ s))
    (fs_brk s) raw (rv_nodes r) (fs_nodes s)) as (N1 & E1 & Eq1 & HN1); [done..|].
  rewrite (bind_ok _ _ _ _ _ E1). do 2 kstep.
  erewrite (bind_ok (alloc_node_data _ _ _ _))
    by (apply (alloc_node_data_ok s); [done|eassumption]).
  do 2 kstep.
  exists (<[fs_brk s := new_node type NULL (rv_nodes r) data]> N1). split_and!.
  - same_state. by rewrite Hz.
  - rewrite <-Eq1. intros q. rewrite !lookup_insert. by destruct (decide (fs_brk s = q)).
  - apply HN1; [by left|done].
Qed.

Definition is_root (node : ptr) (n : ramnode) : bool :=
  match rn_data n with UDir _ par _ => bool_decide (par = node) | _ => false end.

(** [type] says which member of the union is in use. *)
Definition data_ok (n : ramnode) : Prop :=
  match rn_type n, rn_data n with
  | VDIR, UDir _ _ _ => True
  | VLNK, ULnk l => l ≠ EmptyString
  | VREG, UReg None size => size = 0
  | VREG, UReg (Some l) size => Z.of_nat (length l) = size
  | (VNON | VSOCK | VBLK | VCHR), UNone => True
  | _, _ => False
  end.

Lemma root_flag_ok s node n :
  data_ok n → root_flag node n s = Ok (if is_root node n then VROOT else 0, s).
Proof.
  unfold root_flag, data_ok, is_root, as_dir.
  destruct (rn_type n), (rn_data n) as [? par ?| |[]|]; try done.
  intros _. rewrite decide_True by done. kstep.
  destruct (decide (par = node)); [rewrite bool_decide_true|rewrite bool_decide_false]; done.
Qed.

Definition vget_flags (s : fs) (node : ptr) (n : ramnode) : Z :=
  Z.lor (u16 (fs_ram s (fs_brk s) 32)) (if is_root node n then VROOT else 0).

(** Only a directory is marked, when fresh memory is zero. *)
Lemma vget_flags_plain s x n :
  (∀ p o, fs_ram s p o = 0) → data_ok n → rn_type n ≠ VDIR → vget_flags s x n = 0.
Proof.
  intros Hz Hd Ht. unfold vget_flags, is_root. rewrite Hz. unfold data_ok in Hd.
  by destruct (rn_type n), (rn_data n).
Qed.

(** The node has a vnode: another reference to it. *)
Lemma ramfs_vget_old s vfs x n a v :
  fs_nodes s !! x = Some n → rn_ramlock n = 0 → rn_vnode n = a → a ≠ NULL →
  fs_vnodes s !! a = Some v → v_lock v = 0 →
  ramfs_vget vfs x s = Ok ((0, a), upd_vnodes (insert a (add_refcount 1 v)) s).
Proof.
  intros Hx L <- Ha Hv Lv. unfold ramfs_vget. do 2 kstep.
  rewrite decide_True by done.
  erewrite (bind_ok (mbind _ (acquire_vn _))); [|do 2 kstep; reflexivity].
  do 2 kstep. same_state.
  - apply insert_id. destruct n; naive_solver.
  - f_equal. destruct v; naive_solver.
Qed.

(** The node has none: a new vnode. *)
Lemma ramfs_vget_new s vfs x n :
  fs_nodes s !! x = Some n → rn_ramlock n = 0 → rn_vnode n = NULL → data_ok n →
  ramfs_vget vfs x s = Ok ((0, fs_brk s),
    upd_nodes (insert x (set_vnode (fs_brk s) n))
      (upd_vnodes (insert (fs_brk s) (Vnode vfs NULL (rn_type n) 1 (vget_flags s x n) 0 x))
        (upd_brk Z.succ s))).
Proof.
  intros Hx L Hv Hdata. unfold ramfs_vget. do 2 kstep.
  rewrite decide_False by naive_solver.
  erewrite (bind_ok (mbind _ (root_flag _ _))).
  2:{ erewrite (bind_ok (root_flag _ _)) by (by apply root_flag_ok).
      erewrite (bind_ok (kalloc _)) by reflexivity. kstep. reflexivity. }
  simpl. do 2 kstep. same_state. f_equal. destruct n; naive_solver.
Qed.
