(* ===== verification/RamfsInv.v ===== *)
(** * The invariant of the directory structure, and what preserves it

    [dirs_off x k] is the invariant of a store in which [linkcount] of the
    node [x] is [k] more than it should be; between two functions of
    fs/ramfs/ramfs.c, [k] is 0 ([dirs_ok]).  The lemmas give the three ways
    in which the directory structure changes: a node appears, an entry is
    added to a directory, an entry is taken out of one. *)

From S2P Require Import Prelude CString FsState Ramfs RamfsDir RamfsOps.

Local Open Scope Z_scope.

(** ** The invariant *)

(** Sequence numbers fall along the list and stay below [q]. *)
Fixpoint seqs_ok (D : gmap ptr ramdentry) (l : list ptr) (q : Z) : Prop :=
  match l with
  | [] => SEQ_START ≤ q
  | d :: l => ∃ e, D !! d = Some e ∧ de_seq e < q ∧ seqs_ok D l (de_seq e)
  end.

(** The [linkcount] of a node [p] that [r] entries name and that has [len]
    entries of its own. *)
Definition links (p : ptr) (data : ramdata) (r len : Z) : Z :=
  match data with
  | UDir _ par _ => r + len + (if decide (par = p) then 2 else if decide (r = 0) then 0 else 1)
  | _ => r
  end.

#[global] Arguments links : simpl never.

Definition len (L : gmap ptr (list ptr)) (p : ptr) : Z := Z.of_nat (length (default [] (L !! p))).

Definition is_dir (N : gmap ptr ramnode) (p : ptr) : Prop :=
  ∃ n h par q, N !! p = Some n ∧ rn_data n = UDir h par q.

(** The directory that [..] of a directory leads to. *)
Definition data_parent (data : ramdata) : option ptr :=
  match data with UDir _ par _ => Some par | _ => None end.

Definition dir_parent (N : gmap ptr ramnode) (p : ptr) : option ptr :=
  N !! p ≫= λ n, data_parent (rn_data n).

Record dirs_off (x : ptr) (k : Z) (L : gmap ptr (list ptr)) (N : gmap ptr ramnode)
    (D : gmap ptr ramdentry) : Prop := {
  dk_lock : ∀ p n, N !! p = Some n → rn_ramlock n = 0;
  dk_data : ∀ p n, N !! p = Some n → data_ok n;
  dk_links : ∀ p n, N !! p = Some n →
    rn_linkcount n = links p (rn_data n) (refs D p) (len L p) + (if decide (p = x) then k else 0);
  dk_dir : ∀ p n h par q, N !! p = Some n → rn_data n = UDir h par q →
    is_dir N par ∧ refs D p ≤ 1 ∧ ∃ l, L !! p = Some l ∧ dlist D h l ∧ seqs_ok D l q;
  dk_list : ∀ p l, L !! p = Some l → is_dir N p;
  dk_dent : ∀ d e, D !! d = Some e →
    is_Some (N !! de_node e) ∧ de_name e ≠ EmptyString ∧ ∃ p l, L !! p = Some l ∧ d ∈ l;
  dk_disj : ∀ p p' l l' d, L !! p = Some l → L !! p' = Some l' → d ∈ l → d ∈ l' → p = p';
  dk_parent : ∀ p l d e par, L !! p = Some l → d ∈ l → D !! d = Some e →
    dir_parent N (de_node e) = Some par → par = p ∧ par ≠ de_node e
}.

Lemma dir_parent_update N p n n' y :
  N !! p = Some n → data_parent (rn_data n') = data_parent (rn_data n) →
  dir_parent (<[p := n']> N) y = dir_parent N y.
Proof.
  intros Hp E. unfold dir_parent. rewrite lookup_insert. case_decide as Hy; [|done].
  subst. by rewrite Hp.
Qed.

Definition dirs_ok (L : gmap ptr (list ptr)) (N : gmap ptr ramnode) (D : gmap ptr ramdentry) : Prop :=
  dirs_off NULL 0 L N D.

Lemma dirs_off_zero x L N D : dirs_off x 0 L N D ↔ dirs_ok L N D.
Proof.
  split; intros []; split; try done; intros p n Hp;
    rewrite (dk_links0 _ _ Hp); by repeat case_decide.
Qed.

Lemma dirs_names x k L N D : dirs_off x k L N D → names_ok D.
Proof. intros H d e Hd. by destruct (dk_dent _ _ _ _ _ H _ _ Hd) as (_ & ? & _). Qed.

(** ** Chain pointers do not matter *)

Lemma strip_fields n n' :
  strip n = strip n' → rn_vnode n = rn_vnode n' ∧ rn_type n = rn_type n' ∧
  rn_ramlock n = rn_ramlock n' ∧ rn_linkcount n = rn_linkcount n' ∧ rn_data n = rn_data n'.
Proof. destruct n, n'; simpl. intros [=]; by subst. Qed.

Lemma chain_equiv_fields N N' p n' :
  chain_equiv N N' → N' !! p = Some n' → ∃ n, N !! p = Some n ∧
    rn_vnode n = rn_vnode n' ∧ rn_type n = rn_type n' ∧ rn_ramlock n = rn_ramlock n' ∧
    rn_linkcount n = rn_linkcount n' ∧ rn_data n = rn_data n'.
Proof.
  intros E Hp. symmetry in E.
  destruct (chain_equiv_lookup _ _ _ _ E Hp) as (n & Hn & Hs).
  exists n. split; [done|]. by apply strip_fields.
Qed.

(** Equality up to the chain pointers and the vnode. *)
Definition core (n : ramnode) : ramnode := set_vnode NULL (strip n).

Definition core_equiv (N N' : gmap ptr ramnode) : Prop :=
  ∀ p, core <$> N !! p = core <$> N' !! p.

#[export] Instance core_equiv_equivalence : Equivalence core_equiv.
Proof.
  split.
  - by intros N p.
  - by intros N N' H p.
  - intros N N' N'' H H' p. by rewrite (H p).
Qed.

Lemma chain_core_equiv N N' : chain_equiv N N' → core_equiv N N'.
Proof.
  intros H p. specialize (H p).
  destruct (N !! p), (N' !! p); try done. apply (inj Some) in H. unfold core. simpl. by rewrite H.
Qed.

Lemma core_equiv_update N p n n' :
  N !! p = Some n → core n' = core n → core_equiv (<[p := n']> N) N.
Proof.
  intros Hp E q. rewrite lookup_insert. case_decide as Hq; [|done].
  subst. rewrite Hp. simpl. by rewrite E.
Qed.

Lemma core_equiv_fields N N' p n' :
  core_equiv N N' → N' !! p = Some n' → ∃ n, N !! p = Some n ∧
    rn_type n = rn_type n' ∧ rn_ramlock n = rn_ramlock n' ∧
    rn_linkcount n = rn_linkcount n' ∧ rn_data n = rn_data n'.
Proof.
  intros E Hp. specialize (E p). rewrite Hp in E.
  destruct (N !! p) as [n|]; [|done]. apply (inj Some) in E.
  exists n. split; [done|]. destruct n, n'; simpl in *. by injection E as -> -> -> ->.
Qed.

Lemma is_dir_core N N' p : core_equiv N N' → is_dir N p → is_dir N' p.
Proof.
  intros E (n & h & par & q & Hp & Hd). symmetry in E.
  destruct (core_equiv_fields _ _ _ _ E Hp) as (n' & ? & _ & _ & _ & Ed).
  exists n', h, par, q. by rewrite Ed.
Qed.

Lemma dir_parent_core N N' p : core_equiv N N' → dir_parent N' p = dir_parent N p.
Proof.
  intros E. specialize (E p). unfold dir_parent.
  destruct (N !! p) as [n|], (N' !! p) as [n'|]; try done. apply (inj Some) in E. simpl.
  destruct n, n'; simpl in *. by injection E as -> -> -> ->.
Qed.

Lemma dirs_off_core x k L N N' D :
  core_equiv N N' → dirs_off x k L N D → dirs_off x k L N' D.
Proof.
  intros E H. split.
  - intros p n' Hp. destruct (core_equiv_fields _ _ _ _ E Hp) as (n & Hn & _ & <- & _).
    by eapply dk_lock.
  - intros p n' Hp. destruct (core_equiv_fields _ _ _ _ E Hp) as (n & Hn & Et & _ & _ & Ed).
    pose proof (dk_data _ _ _ _ _ H _ _ Hn) as Hd. unfold data_ok in *. by rewrite <-Et, <-Ed.
  - intros p n' Hp. destruct (core_equiv_fields _ _ _ _ E Hp) as (n & Hn & _ & _ & <- & <-).
    by eapply dk_links.
  - intros p n' h par q Hp Hd.
    destruct (core_equiv_fields _ _ _ _ E Hp) as (n & Hn & _ & _ & _ & Ed).
    rewrite <-Ed in Hd. destruct (dk_dir _ _ _ _ _ H _ _ _ _ _ Hn Hd) as (? & ?).
    split; [by eapply is_dir_core|done].
  - intros p l Hl. eapply is_dir_core; [done|by eapply dk_list].
  - intros d e Hd. destruct (dk_dent _ _ _ _ _ H _ _ Hd) as (Hn & ? & ?).
    split; [|done]. by rewrite <-(fmap_is_Some core), <-(E _), fmap_is_Some.
  - by eapply dk_disj.
  - intros p l d e par ???. rewrite (dir_parent_core _ _ _ E). by eapply (dk_parent _ _ _ _ _ H).
Qed.

Lemma is_dir_chain N N' p : chain_equiv N N' → is_dir N p → is_dir N' p.
Proof. intros E. by apply is_dir_core, chain_core_equiv. Qed.

#[export] Instance dirs_off_proper x k L : Proper (core_equiv ==> eq ==> iff) (dirs_off x k L).
Proof. intros N N' E D _ <-. split; by apply dirs_off_core. Qed.

#[export] Instance dirs_ok_proper L : Proper (core_equiv ==> eq ==> iff) (dirs_ok L).
Proof. apply dirs_off_proper. Qed.

#[export] Instance chain_core_subrelation : subrelation chain_equiv core_equiv.
Proof. intros N N'. apply chain_core_equiv. Qed.

(** ** Sequence numbers *)

Lemma seqs_ok_mono D l q q' : q ≤ q' → seqs_ok D l q → seqs_ok D l q'.
Proof.
  destruct l as [|d l]; simpl; [lia|]. intros ? (e & ? & ? & ?).
  exists e. split_and!; [done|lia|done].
Qed.

Lemma seqs_ok_insert D l q d e : d ∉ l → seqs_ok D l q → seqs_ok (<[d := e]> D) l q.
Proof.
  revert q. induction l as [|x l IH]; simpl; intros q Hd; [done|].
  intros (e' & ? & ? & ?). apply not_elem_of_cons in Hd as [? ?].
  exists e'. rewrite lookup_insert_ne by done. eauto.
Qed.

Lemma seqs_ok_delete D l q d : d ∉ l → seqs_ok D l q → seqs_ok (delete d D) l q.
Proof.
  revert q. induction l as [|x l IH]; simpl; intros q Hd; [done|].
  intros (e' & ? & ? & ?). apply not_elem_of_cons in Hd as [? ?].
  exists e'. rewrite lookup_delete_ne by done. eauto.
Qed.

(** Writing the [next] pointer of an entry. *)
Lemma seqs_ok_next D l q x ex nx :
  D !! x = Some ex → seqs_ok D l q → seqs_ok (<[x := set_de_next nx ex]> D) l q.
Proof.
  intros Hx. revert q. induction l as [|y l IH]; simpl; intros q; [done|].
  intros (e & He & ? & ?). destruct (decide (x = y)) as [->|].
  - rewrite lookup_insert_eq. simplify_eq. eauto 10.
  - rewrite lookup_insert_ne by done. eauto.
Qed.

Lemma seqs_ok_remove D l1 d l2 q : seqs_ok D (l1 ++ d :: l2) q → seqs_ok D (l1 ++ l2) q.
Proof.
  revert q. induction l1 as [|y l1 IH]; simpl; intros q.
  - intros (e & _ & ? & ?). eapply seqs_ok_mono; [|done]. lia.
  - intros (e & ? & ? & ?). eauto.
Qed.

(** ** A node appears *)

Lemma refs_dead x k L N D p : dirs_off x k L N D → N !! p = None → refs D p = 0.
Proof.
  intros H Hp. unfold refs.
  rewrite map_empty_filter_2; [by rewrite map_size_empty|].
  intros d e Hd He. destruct (dk_dent _ _ _ _ _ H _ _ Hd) as ([n Hn] & _). congruence.
Qed.

Lemma len_insert L p l q : len (<[p := l]> L) q = if decide (p = q) then Z.of_nat (length l) else len L q.
Proof. unfold len. rewrite lookup_insert. by case_decide. Qed.

Lemma is_dir_insert N p n q : N !! p = None → is_dir N q → is_dir (<[p := n]> N) q.
Proof.
  intros Hp (m & h & par & r & Hq & ?). exists m, h, par, r.
  by rewrite lookup_insert_ne by congruence.
Qed.

(** Writing a node that stays what it was, a directory or not. *)
Lemma is_dir_update N p n n' q :
  N !! p = Some n →
  (∀ h par r, rn_data n = UDir h par r → ∃ h' r', rn_data n' = UDir h' par r') →
  is_dir N q → is_dir (<[p := n']> N) q.
Proof.
  intros Hp Hd (m & h & par & r & Hq & Em). destruct (decide (p = q)) as [<-|].
  - simplify_eq. destruct (Hd _ _ _ Em) as (h' & r' & E). exists n', h', par, r'.
    by rewrite lookup_insert_eq.
  - exists m, h, par, r. by rewrite lookup_insert_ne.
Qed.

(** The list table gains an empty list when the new node is a directory. *)
Definition add_list (x : ptr) (n : ramnode) (L : gmap ptr (list ptr)) : gmap ptr (list ptr) :=
  match rn_data n with UDir _ _ _ => <[x := []]> L | _ => L end.

Lemma dirs_add_node y L N D x n :
  dirs_off y 0 L N D → N !! x = None → rn_ramlock n = 0 → data_ok n →
  (∀ h par q, rn_data n = UDir h par q →
     h = NULL ∧ q = SEQ_START ∧ (par = x ∨ is_dir N par)) →
  dirs_off x (rn_linkcount n - links x (rn_data n) 0 0) (add_list x n L) (<[x := n]> N) D.
Proof.
  intros H Hx Hlk Hdata Hdir.
  assert (∀ p l, L !! p = Some l → p ≠ x) as HLx.
  { intros p l Hl ->. destruct (dk_list _ _ _ _ _ H _ _ Hl) as (? & ? & ? & ? & ? & _). congruence. }
  assert (L !! x = None) as HL by (destruct (L !! x) eqn:E; [by destruct (HLx _ _ E)|done]).
  assert (∀ p l, add_list x n L !! p = Some l →
            (p = x ∧ l = [] ∧ is_dir (<[x := n]> N) x) ∨ L !! p = Some l) as Hadd.
  { intros p l. unfold add_list. destruct (rn_data n) eqn:Ed; [|by right..].
    intros [[<- <-]|[_ ?]]%lookup_insert_Some; [left|by right].
    split_and!; [done..|]. do 4 eexists. by rewrite lookup_insert_eq. }
  assert (∀ p l, L !! p = Some l → add_list x n L !! p = Some l) as Hadd'.
  { intros p l Hl. unfold add_list. specialize (HLx _ _ Hl).
    destruct (rn_data n); rewrite ?lookup_insert_ne by done; done. }
  assert (∀ p, len (add_list x n L) p = len L p) as Hlen.
  { intros p. unfold add_list. destruct (rn_data n); [|done..]. rewrite len_insert.
    case_decide; [|done]. subst. unfold len. by rewrite HL. }
  split.
  - intros p m [[<- <-]|[? Hm]]%lookup_insert_Some; [done|]. by eapply dk_lock.
  - intros p m [[<- <-]|[? Hm]]%lookup_insert_Some; [done|]. by eapply dk_data.
  - intros p m [[<- <-]|[? Hm]]%lookup_insert_Some; rewrite Hlen.
    + rewrite decide_True, (refs_dead _ _ _ _ _ _ H Hx) by done.
      replace (len L x) with 0 by (unfold len; by rewrite HL). lia.
    + rewrite (dk_links _ _ _ _ _ H _ _ Hm), (decide_False (P := p = x)) by done.
      by case_decide.
  - intros p m h par q [[<- <-]|[? Hm]]%lookup_insert_Some Ed.
    + destruct (Hdir _ _ _ Ed) as (-> & -> & Hpar). split_and!.
      * destruct Hpar as [->|?]; [|by apply is_dir_insert].
        exists n, NULL, x, SEQ_START. by rewrite lookup_insert_eq.
      * rewrite (refs_dead _ _ _ _ _ _ H Hx). lia.
      * exists []. unfold add_list. rewrite Ed, lookup_insert_eq. done.
    + destruct (dk_dir _ _ _ _ _ H _ _ _ _ _ Hm Ed) as (? & ? & l & ? & ? & ?).
      split_and!; [by apply is_dir_insert|done|]. exists l. eauto.
  - intros p l [(-> & _ & ?)|Hl]%Hadd; [done|].
    apply is_dir_insert; [done|by eapply dk_list].
  - intros d e Hd. destruct (dk_dent _ _ _ _ _ H _ _ Hd) as ([m Hm] & ? & p & l & ? & ?).
    split_and!; [|done|eauto]. rewrite lookup_insert_ne by congruence. eauto.
  - intros p p' l l' d [(-> & -> & _)|Hl]%Hadd [(-> & -> & _)|Hl']%Hadd Hd Hd'; try done.
    + by apply not_elem_of_nil in Hd.
    + by apply not_elem_of_nil in Hd'.
    + by eapply (dk_disj _ _ _ _ _ H).
  - intros p l d e par [(-> & -> & _)|Hl]%Hadd Hd He; [by apply not_elem_of_nil in Hd|].
    destruct (dk_dent _ _ _ _ _ H _ _ He) as ([m Hm] & _). unfold dir_parent.
    rewrite lookup_insert_ne by congruence. by eapply (dk_parent _ _ _ _ _ H).
Qed.

(** ** An entry is added *)

Definition is_udir (data : ramdata) : bool := match data with UDir _ _ _ => true | _ => false end.

Lemma links_add_entry p h par q h' q' r l :
  links p (UDir h' par q') r (l + 1) = links p (UDir h par q) r l + 1.
Proof. unfold links. lia. Qed.

Lemma links_add_ref x data l r :
  0 ≤ r → (∀ h par q, data = UDir h par q → r = 0 ∧ par ≠ x) →
  links x data (r + 1) l = links x data r l + 1 + (if is_udir data then 1 else 0).
Proof.
  intros Hr Hd. unfold links. destruct data as [h par q| | |]; simpl; [|lia..].
  destruct (Hd _ _ _ eq_refl) as [-> ?]. repeat case_decide; lia.
Qed.

Section link_entry.
Context (x : ptr) (k : Z) (L : gmap ptr (list ptr)) (N : gmap ptr ramnode) (D : gmap ptr ramdentry).
Context (p : ptr) (n : ramnode) (h par : ptr) (q : Z) (l : list ptr) (nx : ramnode).
Context (H : dirs_off x k L N D) (Hp : N !! p = Some n) (Hn : rn_data n = UDir h par q).
Context (Hl : L !! p = Some l) (Hx : N !! x = Some nx) (Hxp : x ≠ p).

Let N' (d : ptr) := <[p := add_linkcount 1 (set_data (UDir d par (u64 (q + 1))) n)]>
                      (<[x := add_linkcount 1 nx]> N).

Lemma link_entry_lookup d y m :
  N' d !! y = Some m →
  (y = p ∧ m = add_linkcount 1 (set_data (UDir d par (u64 (q + 1))) n)) ∨
  (y = x ∧ m = add_linkcount 1 nx) ∨ (y ≠ p ∧ y ≠ x ∧ N !! y = Some m).
Proof.
  unfold N'. intros [[<- <-]|[? [[<- <-]|[? ?]]%lookup_insert_Some]]%lookup_insert_Some; eauto 10.
Qed.

Lemma link_entry_dir d y : is_dir N y → is_dir (N' d) y.
Proof.
  intros Hy. unfold N'. apply (is_dir_update _ _ n).
  - by rewrite lookup_insert_ne.
  - intros h' par' r' E. rewrite Hn in E. injection E as <- <- <-. by do 2 eexists.
  - eapply is_dir_update; [done| |done]. intros h' par' r' E. by do 2 eexists.
Qed.

Lemma link_entry_parent d y : dir_parent (N' d) y = dir_parent N y.
Proof.
  unfold N'. rewrite (dir_parent_update _ _ n); [|by rewrite lookup_insert_ne|simpl; by rewrite Hn].
  by apply (dir_parent_update _ _ nx).
Qed.

Lemma dirs_link_entry d name :
  D !! d = None → d ≠ NULL → name ≠ EmptyString → q + 1 < 2 ^ 64 →
  (∀ h' par' q', rn_data nx = UDir h' par' q' → refs D x = 0 ∧ par' = p) →
  dirs_off x (k - if is_udir (rn_data nx) then 1 else 0) (<[p := d :: l]> L) (N' d)
    (<[d := Ramdentry h x q name]> D).
Proof.
  intros Hd Hd0 Hname Hq Hdir.
  destruct (dk_dir _ _ _ _ _ H _ _ _ _ _ Hp Hn) as (Hpar & Hone & l0 & Hl0 & Hdl & Hseq).
  rewrite Hl in Hl0. injection Hl0 as <-.
  assert (∀ y l', L !! y = Some l' → d ∉ l') as Hfresh.
  { intros y l' Hy. destruct (dk_list _ _ _ _ _ H _ _ Hy) as (m & ? & ? & ? & Hm & Ed).
    destruct (dk_dir _ _ _ _ _ H _ _ _ _ _ Hm Ed) as (_ & _ & l'' & ? & ? & _).
    simplify_eq. by eapply dlist_fresh. }
  assert (3 ≤ q) as Hq3.
  { clear -Hseq. revert q Hseq. induction l as [|y l' IH]; simpl; intros q; [done|].
    intros (e & _ & ? & He). specialize (IH _ He). lia. }
  split.
  - intros y m [(-> & ->)|[(-> & ->)|(_ & _ & Hm)]]%link_entry_lookup; simpl;
      by eapply (dk_lock _ _ _ _ _ H).
  - intros y m [(-> & ->)|[(-> & ->)|(_ & _ & Hm)]]%link_entry_lookup.
    + pose proof (dk_data _ _ _ _ _ H _ _ Hp) as Hok. unfold data_ok in *. simpl.
      rewrite Hn in Hok. by destruct (rn_type n).
    + by apply (dk_data _ _ _ _ _ H _ _ Hx).
    + by eapply dk_data.
  - intros y m Hy. rewrite refs_insert, len_insert by done. simpl.
    apply link_entry_lookup in Hy as [(-> & ->)|[(-> & ->)|(? & ? & Hm)]]; simpl.
    + rewrite (dk_links _ _ _ _ _ H _ _ Hp), Hn.
      rewrite (decide_False (P := x = p)), !(decide_False (P := p = x)), decide_True by done.
      replace (Z.of_nat (S (length l))) with (len L p + 1)
        by (unfold len; rewrite Hl; simpl; lia).
      rewrite !Z.add_0_r, (links_add_entry _ h _ q). lia.
    + rewrite (dk_links _ _ _ _ _ H _ _ Hx), !(decide_True (P := x = x)) by done.
      rewrite (decide_False (P := p = x)) by done.
      rewrite links_add_ref; [lia|apply refs_nonneg|]. intros ??? E.
      destruct (Hdir _ _ _ E) as [? ->]. by split.
    + rewrite (dk_links _ _ _ _ _ H _ _ Hm).
      rewrite !(decide_False (P := y = x)), (decide_False (P := x = y)), (decide_False (P := p = y)) by done.
      by rewrite !Z.add_0_r.
  - intros y m h' par' q' Hy Ed.
    apply link_entry_lookup in Hy as [(-> & ->)|[(-> & ->)|(? & ? & Hm)]]; simpl in Ed.
    + injection Ed as <- <- <-. split_and!; [by apply link_entry_dir| |].
      * rewrite refs_insert by done. simpl. rewrite decide_False by done. lia.
      * exists (d :: l). rewrite lookup_insert_eq. split_and!; [done| |].
        -- simpl. split_and!; [done..|]. eexists. rewrite lookup_insert_eq. split; [done|].
           simpl. apply dlist_insert; [by eapply Hfresh|done].
        -- simpl. eexists. rewrite lookup_insert_eq. split; [done|]. simpl.
           rewrite u64_small by lia. split; [lia|]. apply seqs_ok_insert; [by eapply Hfresh|done].
    + destruct (dk_dir _ _ _ _ _ H _ _ _ _ _ Hx Ed) as (? & ? & l' & Hl' & ? & ?).
      split_and!; [by apply link_entry_dir| |].
      * rewrite refs_insert by done. destruct (Hdir _ _ _ Ed) as [-> _]. case_decide; lia.
      * exists l'. rewrite lookup_insert_ne by done.
        split_and!; [done|apply dlist_insert|apply seqs_ok_insert]; eauto.
    + destruct (dk_dir _ _ _ _ _ H _ _ _ _ _ Hm Ed) as (? & ? & l' & Hl' & ? & ?).
      split_and!; [by apply link_entry_dir| |].
      * rewrite refs_insert by done. simpl. rewrite decide_False by done. lia.
      * exists l'. rewrite lookup_insert_ne by done.
        split_and!; [done|apply dlist_insert|apply seqs_ok_insert]; eauto.
  - intros y l' [[<- <-]|[_ Hy]]%lookup_insert_Some; apply link_entry_dir; by eapply dk_list.
  - intros d' e [[<- <-]|[? Hd']]%lookup_insert_Some; simpl.
    + split_and!; [|done|].
      * unfold N'. rewrite lookup_insert_ne, lookup_insert_eq by done. eauto.
      * exists p, (d :: l). rewrite lookup_insert_eq. split; [done|by left].
    + destruct (dk_dent _ _ _ _ _ H _ _ Hd') as ([m Hm] & ? & y & l' & ? & ?).
      split_and!; [|done|].
      * unfold N'. rewrite !lookup_insert. repeat case_decide; eauto.
      * destruct (decide (y = p)) as [->|]; simplify_eq.
        -- exists p, (d :: l). rewrite lookup_insert_eq. split; [done|by right].
        -- exists y, l'. by rewrite lookup_insert_ne.
  - intros y y' l1 l2 d' [[<- <-]|[? Hy]]%lookup_insert_Some [[<- <-]|[? Hy']]%lookup_insert_Some;
      rewrite ?elem_of_cons; intros Hd1 Hd2; try done.
    + destruct Hd1 as [->|Hd1]; [by destruct (Hfresh _ _ Hy')|]. by eapply (dk_disj _ _ _ _ _ H).
    + destruct Hd2 as [->|Hd2]; [by destruct (Hfresh _ _ Hy)|]. by eapply (dk_disj _ _ _ _ _ H).
    + by eapply (dk_disj _ _ _ _ _ H).
  - intros y l' d' e par' Hy Hin. rewrite link_entry_parent.
    apply lookup_insert_Some in Hy as [[<- <-]|[Hne Hy]]; rewrite lookup_insert_Some.
    + intros [[<- <-]|[Hd' He]]; simpl.
      * unfold dir_parent. rewrite Hx. simpl. intros Ep. unfold data_parent in Ep.
        destruct (rn_data nx) as [h' par'' q'| | |]; try done. injection Ep as ->.
        destruct (Hdir _ _ _ eq_refl) as [_ ->]. done.
      * apply elem_of_cons in Hin as [->|Hin]; [done|]. by eapply (dk_parent _ _ _ _ _ H).
    + intros [[<- <-]|[Hd' He]]; [by destruct (Hfresh _ _ Hy)|]. by eapply (dk_parent _ _ _ _ _ H).
Qed.

End link_entry.

(** ** An entry is taken out *)

Lemma links_sub_ref x data l r :
  0 < r → (∀ h par q, data = UDir h par q → r = 1 ∧ par ≠ x) →
  links x data (r - 1) l = links x data r l - 1 - (if is_udir data then 1 else 0).
Proof.
  intros Hr Hd. rewrite <-(Z.sub_add 1 r) at 2.
  rewrite links_add_ref; [lia|lia|]. intros h par q E. destruct (Hd _ _ _ E). split; [lia|done].
Qed.

Lemma refs_pos D d e : D !! d = Some e → 0 < refs D (de_node e).
Proof.
  intros Hd. pose proof (refs_delete D d e (de_node e) Hd) as E.
  rewrite decide_True in E by done. pose proof (refs_nonneg (delete d D) (de_node e)). lia.
Qed.

Section unlink_entry.
Context (x : ptr) (k : Z) (L : gmap ptr (list ptr)) (N : gmap ptr ramnode) (D : gmap ptr ramdentry).
Context (p : ptr) (n : ramnode) (h par : ptr) (q : Z) (l1 l2 : list ptr) (d : ptr) (ed : ramdentry).
Context (nx : ramnode) (z : ptr) (ez : ramdentry) (nz h' : ptr).
Context (H : dirs_off x k L N D) (Hp : N !! p = Some n) (Hn : rn_data n = UDir h par q).
Context (Hl : L !! p = Some (l1 ++ d :: l2)) (Hx : N !! x = Some nx) (Hxp : x ≠ p).
Context (Hd : D !! d = Some ed) (Hedx : de_node ed = x).
Context (Hz : D !! z = Some ez) (Hzl : z ∈ l1 ++ d :: l2).

(** The entry [z] before [d] gets a new [next]; with [z = d] and its own
    [next] this is the case of the first entry. *)
Let D' := delete d (<[z := set_de_next nz ez]> D).
Let N' := <[x := add_linkcount (-1) nx]>
            (<[p := add_linkcount (-1) (set_data (UDir h' par q) n)]> N).

Context (Hdl' : dlist D' h' (l1 ++ l2)).

Lemma unlink_entry_lookup y m :
  N' !! y = Some m →
  (y = p ∧ m = add_linkcount (-1) (set_data (UDir h' par q) n)) ∨
  (y = x ∧ m = add_linkcount (-1) nx) ∨ (y ≠ p ∧ y ≠ x ∧ N !! y = Some m).
Proof.
  unfold N'. intros [[<- <-]|[? [[<- <-]|[? ?]]%lookup_insert_Some]]%lookup_insert_Some; eauto 10.
Qed.

Lemma unlink_entry_dir y : is_dir N y → is_dir N' y.
Proof.
  intros Hy. unfold N'. apply (is_dir_update _ _ nx).
  - by rewrite lookup_insert_ne.
  - intros h0 par0 r0 E. by do 2 eexists.
  - eapply is_dir_update; [done| |done]. intros h0 par0 r0 E.
    rewrite Hn in E. injection E as <- <- <-. by do 2 eexists.
Qed.

Lemma unlink_entry_parent y : dir_parent N' y = dir_parent N y.
Proof.
  unfold N'. rewrite (dir_parent_update _ _ nx); [|by rewrite lookup_insert_ne|done].
  apply (dir_parent_update _ _ n); [done|]. simpl. by rewrite Hn.
Qed.

Lemma unlink_entry_refs y : refs D' y = refs D y - (if decide (x = y) then 1 else 0).
Proof.
  unfold D'. destruct (decide (z = d)) as [->|].
  - rewrite (refs_delete _ _ (set_de_next nz ez)) by apply lookup_insert_eq.
    rewrite (refs_update _ _ ez) by done. simplify_eq. done.
  - rewrite (refs_delete _ _ ed) by (by rewrite lookup_insert_ne).
    rewrite (refs_update _ _ ez) by done. by rewrite Hedx.
Qed.

Lemma unlink_entry_dents d' e' :
  D' !! d' = Some e' → d' ≠ d ∧ ∃ e, D !! d' = Some e ∧ de_node e' = de_node e ∧ de_name e' = de_name e.
Proof.
  unfold D'. intros [? [[<- <-]|[? ?]]%lookup_insert_Some]%lookup_delete_Some; eauto 10.
Qed.

(** The list of another directory. *)
Lemma unlink_entry_other y h0 l0 q0 :
  L !! y = Some l0 → y ≠ p → dlist D h0 l0 → seqs_ok D l0 q0 → dlist D' h0 l0 ∧ seqs_ok D' l0 q0.
Proof.
  intros Hy Hne Hdl Hsq.
  assert (z ∉ l0) by (intros ?; apply Hne; by eapply (dk_disj _ _ _ _ _ H)).
  assert (d ∉ l0) by (intros ?; apply Hne; eapply (dk_disj _ _ _ _ _ H); [done..|set_solver]).
  split; [by apply dlist_delete, dlist_insert|by apply seqs_ok_delete, seqs_ok_insert].
Qed.

Lemma dirs_unlink_entry :
  (∀ h0 par0 q0, rn_data nx = UDir h0 par0 q0 → par0 ≠ x) →
  dirs_off x (k + if is_udir (rn_data nx) then 1 else 0) (<[p := l1 ++ l2]> L) N' D'.
Proof.
  intros Hdir.
  destruct (dk_dir _ _ _ _ _ H _ _ _ _ _ Hp Hn) as (Hpar & Hone & l0 & Hl0 & Hdl & Hseq).
  rewrite Hl in Hl0. injection Hl0 as <-.
  pose proof (dlist_NoDup _ _ _ Hdl) as ND.
  assert (d ∉ l1 ++ l2) as Hdl12.
  { rewrite <-Permutation_middle in ND. by apply NoDup_cons in ND as [? _]. }
  assert (0 < refs D x) as Hpos by (rewrite <-Hedx; by eapply refs_pos).
  split.
  - intros y m [(-> & ->)|[(-> & ->)|(_ & _ & Hm)]]%unlink_entry_lookup; simpl;
      by eapply (dk_lock _ _ _ _ _ H).
  - intros y m [(-> & ->)|[(-> & ->)|(_ & _ & Hm)]]%unlink_entry_lookup.
    + pose proof (dk_data _ _ _ _ _ H _ _ Hp) as Hok. unfold data_ok in *. simpl.
      rewrite Hn in Hok. by destruct (rn_type n).
    + by apply (dk_data _ _ _ _ _ H _ _ Hx).
    + by eapply dk_data.
  - intros y m Hy. rewrite unlink_entry_refs, len_insert.
    apply unlink_entry_lookup in Hy as [(-> & ->)|[(-> & ->)|(? & ? & Hm)]]; simpl.
    + rewrite (dk_links _ _ _ _ _ H _ _ Hp), Hn.
      rewrite (decide_False (P := x = p)), !(decide_False (P := p = x)), decide_True by done.
      replace (len L p) with (Z.of_nat (length (l1 ++ l2)) + 1)
        by (unfold len; rewrite Hl; simpl; rewrite !length_app; simpl; lia).
      rewrite Z.sub_0_r, !Z.add_0_r, (links_add_entry _ h' _ q). lia.
    + rewrite (dk_links _ _ _ _ _ H _ _ Hx), !(decide_True (P := x = x)) by done.
      rewrite (decide_False (P := p = x)) by done.
      rewrite links_sub_ref; [lia|done|]. intros h0 par0 q0 E.
      destruct (dk_dir _ _ _ _ _ H _ _ _ _ _ Hx E) as (_ & ? & _). split; [lia|eauto].
    + rewrite (dk_links _ _ _ _ _ H _ _ Hm).
      rewrite !(decide_False (P := y = x)), (decide_False (P := x = y)), (decide_False (P := p = y)) by done.
      by rewrite Z.sub_0_r, !Z.add_0_r.
  - intros y m h0 par0 q0 Hy Ed. rewrite unlink_entry_refs.
    apply unlink_entry_lookup in Hy as [(-> & ->)|[(-> & ->)|(? & ? & Hm)]]; simpl in Ed.
    + injection Ed as <- <- <-. split_and!; [by apply unlink_entry_dir|case_decide; lia|].
      exists (l1 ++ l2). rewrite lookup_insert_eq. split_and!; [done..|].
      apply seqs_ok_delete; [done|]. apply seqs_ok_next; [done|]. by eapply seqs_ok_remove.
    + destruct (dk_dir _ _ _ _ _ H _ _ _ _ _ Hx Ed) as (? & ? & l' & Hl' & ? & ?).
      split_and!; [by apply unlink_entry_dir|case_decide; lia|].
      exists l'. rewrite lookup_insert_ne by done. split; [done|]. by eapply unlink_entry_other.
    + destruct (dk_dir _ _ _ _ _ H _ _ _ _ _ Hm Ed) as (? & ? & l' & Hl' & ? & ?).
      split_and!; [by apply unlink_entry_dir|case_decide; lia|].
      exists l'. rewrite lookup_insert_ne by done. split; [done|]. by eapply unlink_entry_other.
  - intros y l' [[<- <-]|[_ Hy]]%lookup_insert_Some; apply unlink_entry_dir; by eapply dk_list.
  - intros d' e' (? & e & He & -> & ->)%unlink_entry_dents.
    destruct (dk_dent _ _ _ _ _ H _ _ He) as ([m Hm] & ? & y & l' & ? & Hin).
    split_and!; [|done|].
    + unfold N'. rewrite !lookup_insert. repeat case_decide; eauto.
    + destruct (decide (y = p)) as [->|]; simplify_eq.
      * exists p, (l1 ++ l2). rewrite lookup_insert_eq. split; [done|]. set_solver.
      * exists y, l'. by rewrite lookup_insert_ne.
  - assert (∀ d', d' ∈ l1 ++ l2 → d' ∈ l1 ++ d :: l2) as Hin by set_solver.
    intros y y' m1 m2 d' [[<- <-]|[? Hy]]%lookup_insert_Some [[<- <-]|[? Hy']]%lookup_insert_Some;
      intros Hd1 Hd2; [done|..].
    + by apply (dk_disj _ _ _ _ _ H _ _ _ _ _ Hl Hy' (Hin _ Hd1)).
    + by apply (dk_disj _ _ _ _ _ H _ _ _ _ _ Hy Hl Hd1), Hin.
    + by eapply (dk_disj _ _ _ _ _ H).
  - intros y l' d' e' par' Hy Hin (_ & e & He & -> & _)%unlink_entry_dents.
    rewrite unlink_entry_parent. apply lookup_insert_Some in Hy as [[<- <-]|[Hne Hy]].
    + eapply (dk_parent _ _ _ _ _ H); [done| |done]. set_solver.
    + by eapply (dk_parent _ _ _ _ _ H).
Qed.

End unlink_entry.

(** A [linkcount] alone changes. *)
Lemma dirs_add_linkcount x k c L N D n :
  dirs_off x k L N D → N !! x = Some n →
  dirs_off x (k + c) L (<[x := add_linkcount c n]> N) D.
Proof.
  intros H Hx.
  assert (∀ y, is_dir N y → is_dir (<[x := add_linkcount c n]> N) y) as Hdir.
  { intros y Hy. eapply is_dir_update; [done| |done]. intros h par r E. by do 2 eexists. }
  split.
  - intros y m [[<- <-]|[? Hm]]%lookup_insert_Some; simpl; by eapply (dk_lock _ _ _ _ _ H).
  - intros y m [[<- <-]|[? Hm]]%lookup_insert_Some; [by apply (dk_data _ _ _ _ _ H _ _ Hx)|].
    by eapply dk_data.
  - intros y m [[<- <-]|[? Hm]]%lookup_insert_Some; simpl.
    + rewrite (dk_links _ _ _ _ _ H _ _ Hx), !decide_True by done. lia.
    + rewrite (dk_links _ _ _ _ _ H _ _ Hm), !decide_False by done. lia.
  - intros y m h par q [[<- <-]|[? Hm]]%lookup_insert_Some Ed; simpl in Ed.
    + destruct (dk_dir _ _ _ _ _ H _ _ _ _ _ Hx Ed) as (? & ?). split; [by apply Hdir|done].
    + destruct (dk_dir _ _ _ _ _ H _ _ _ _ _ Hm Ed) as (? & ?). split; [by apply Hdir|done].
  - intros y l Hy. by apply Hdir; eapply dk_list.
  - intros d e Hd. destruct (dk_dent _ _ _ _ _ H _ _ Hd) as ([m Hm] & ? & ?).
    split_and!; [|done..]. rewrite lookup_insert. case_decide; eauto.
  - by eapply dk_disj.
  - intros p l d e par ???. rewrite (dir_parent_update _ _ n) by done. by eapply (dk_parent _ _ _ _ _ H).
Qed.
