(* ===== verification/RamfsSpec.v ===== *)
(** * The ramfs operations: results, invariant and abstract directories

    [ramfs_ok] is the invariant of the store.  [entries] is the abstract
    value of a directory, its names and nodes from the newest entry to the
    oldest; [abs] collects the directories of a store.  Each theorem says
    that an operation returns, with which result, how the abstract
    directories change, and that the invariant is preserved. *)

From S2P Require Import Prelude CString FsState Ramfs RamfsDir RamfsOps RamfsInv.

Local Open Scope Z_scope.

(** ** Vnodes and nodes *)

(** Every vnode is the vnode of its node, and is referenced. *)
Record vn_ok (N : gmap ptr ramnode) (W : gmap ptr vnode) : Prop := {
  vk_vnode : ∀ a v, W !! a = Some v → 0 < v_refcount v ∧
    ∃ n, N !! v_data v = Some n ∧ rn_vnode n = a ∧ v_type v = rn_type n;
  vk_node : ∀ p n, N !! p = Some n →
    rn_vnode n = NULL ∨ ∃ v, W !! rn_vnode n = Some v ∧ v_data v = p
}.

Lemma vn_ok_chain N N' W : chain_equiv N N' → vn_ok N W → vn_ok N' W.
Proof.
  intros E H. split.
  - intros a v Hv. destruct (vk_vnode _ _ H _ _ Hv) as (? & n & Hn & <- & ->).
    split; [done|]. symmetry in E.
    destruct (chain_equiv_fields _ _ _ _ E Hn) as (n' & Hn' & ? & ? & _). by exists n'.
  - intros p n' Hp. destruct (chain_equiv_fields _ _ _ _ E Hp) as (n & Hn & <- & _).
    by eapply vk_node.
Qed.

#[export] Instance vn_ok_proper : Proper (chain_equiv ==> eq ==> iff) vn_ok.
Proof. intros N N' E W _ <-. split; by apply vn_ok_chain. Qed.

Lemma vn_ok_update N W p n n' :
  vn_ok N W → N !! p = Some n → rn_vnode n' = rn_vnode n → rn_type n' = rn_type n →
  vn_ok (<[p := n']> N) W.
Proof.
  intros H Hp Ev Et. split.
  - intros a v Hv. destruct (vk_vnode _ _ H _ _ Hv) as (? & m & Hm & <- & ->).
    split; [done|]. destruct (decide (p = v_data v)) as [->|].
    + exists n'. rewrite lookup_insert_eq. naive_solver.
    + exists m. by rewrite lookup_insert_ne.
  - intros q m [[<- <-]|[? Hm]]%lookup_insert_Some; [rewrite Ev|]; by eapply vk_node.
Qed.

Lemma vn_ok_add N W x n :
  vn_ok N W → N !! x = None → rn_vnode n = NULL → vn_ok (<[x := n]> N) W.
Proof.
  intros H Hx Hv. split.
  - intros a v Ha. destruct (vk_vnode _ _ H _ _ Ha) as (? & m & Hm & ?).
    split; [done|]. exists m. by rewrite lookup_insert_ne by congruence.
  - intros q m [[<- <-]|[? Hm]]%lookup_insert_Some; [by left|]. by eapply vk_node.
Qed.

Lemma vn_ok_get N W x n a vfs fl lk :
  vn_ok N W → N !! x = Some n → rn_vnode n = NULL → W !! NULL = None → W !! a = None →
  vn_ok (<[x := set_vnode a n]> N) (<[a := Vnode vfs NULL (rn_type n) 1 fl lk x]> W).
Proof.
  intros H Hx Hv H0 Ha. split.
  - intros b v [[<- <-]|[? Hb]]%lookup_insert_Some; simpl.
    + split; [lia|]. exists (set_vnode a n). by rewrite lookup_insert_eq.
    + destruct (vk_vnode _ _ H _ _ Hb) as (? & m & Hm & <- & ->). split; [done|].
      destruct (decide (x = v_data v)) as [->|].
      * simplify_eq. congruence.
      * exists m. by rewrite lookup_insert_ne.
  - intros q m [[<- <-]|[? Hm]]%lookup_insert_Some; simpl.
    + right. eexists. by rewrite lookup_insert_eq.
    + destruct (vk_node _ _ H _ _ Hm) as [|(v & Hb & <-)]; [by left|right].
      exists v. by rewrite lookup_insert_ne by congruence.
Qed.

(** A vnode is written; its node and type stay, and it stays referenced. *)
Lemma vn_ok_write N W a v v' :
  vn_ok N W → W !! a = Some v → v_data v' = v_data v → v_type v' = v_type v → 0 < v_refcount v' →
  vn_ok N (<[a := v']> W).
Proof.
  intros H Ha Ed Et Hr. split.
  - intros b w [[<- <-]|[? Hb]]%lookup_insert_Some; [|by eapply vk_vnode].
    rewrite Ed, Et. by destruct (vk_vnode _ _ H _ _ Ha) as (_ & ?).
  - intros q m Hm. destruct (vk_node _ _ H _ _ Hm) as [|(w & Hb & Ew)]; [by left|right].
    rewrite lookup_insert. case_decide; [|eauto]. simplify_eq. eauto.
Qed.

(** ** Addresses *)

Definition below {A} (b : ptr) (m : gmap ptr A) : Prop := ∀ p, is_Some (m !! p) → 0 < p < b.

Lemma below_fresh {A} b (m : gmap ptr A) : below b m → m !! b = None.
Proof. intros H. destruct (m !! b) eqn:E; [|done]. assert (0 < b < b) by eauto. lia. Qed.

Lemma below_null {A} b (m : gmap ptr A) : below b m → m !! NULL = None.
Proof. intros H. destruct (m !! NULL) eqn:E; [|done]. assert (0 < NULL < b) by eauto. unfold NULL in *. lia. Qed.

Lemma below_mono {A} b b' (m : gmap ptr A) : b ≤ b' → below b m → below b' m.
Proof. intros ? H p Hp. specialize (H p Hp). lia. Qed.

Lemma below_insert {A} b (m : gmap ptr A) p x : 0 < p < b → below b m → below b (<[p := x]> m).
Proof. intros ? H q. rewrite lookup_insert. case_decide; [by subst|apply H]. Qed.

Lemma below_update {A} b (m : gmap ptr A) p x : is_Some (m !! p) → below b m → below b (<[p := x]> m).
Proof. intros ? H. apply below_insert; eauto. Qed.

Lemma below_delete {A} b (m : gmap ptr A) p : below b m → below b (delete p m).
Proof. intros H q [? [_ ?]%lookup_delete_Some]. eauto. Qed.

Lemma below_chain b N N' : chain_equiv N N' → below b N → below b N'.
Proof.
  intros E H p Hp. apply H. by rewrite <-(fmap_is_Some strip), (E p), fmap_is_Some.
Qed.

(** ** The invariant *)

Record ramfs_ok (L : gmap ptr (list ptr)) (s : fs) : Prop := {
  rk_zero : ∀ p o, fs_ram s p o = 0;
  rk_pos : 0 < fs_brk s;
  rk_nodes : below (fs_brk s) (fs_nodes s);
  rk_dents : below (fs_brk s) (fs_dents s);
  rk_vnodes : below (fs_brk s) (fs_vnodes s);
  rk_dirs : dirs_ok L (fs_nodes s) (fs_dents s);
  rk_chain : chain_ok (fs_nodes s);
  rk_vn : vn_ok (fs_nodes s) (fs_vnodes s);
  rk_vfs : ∀ a v, fs_vnodes s !! a = Some v →
    ∃ m r, fs_vfss s !! v_vfs v = Some m ∧ fs_rams s !! m_data m = Some r;
  rk_ram : ∀ p r, fs_rams s !! p = Some r →
    chain_ptr (fs_nodes s) (rv_nodes r) ∧ is_dir (fs_nodes s) (rv_root r)
}.

(** ** Abstract directories *)

Fixpoint entries (D : gmap ptr ramdentry) (l : list ptr) : list (string * ptr) :=
  match l with
  | [] => []
  | d :: l => match D !! d with
              | Some e => (de_name e, de_node e) :: entries D l
              | None => entries D l
              end
  end.

Definition abs (L : gmap ptr (list ptr)) (s : fs) : gmap ptr (list (string * ptr)) :=
  entries (fs_dents s) <$> L.

Lemma entries_insert D d e l : d ∉ l → entries (<[d := e]> D) l = entries D l.
Proof.
  intros Hd. induction l as [|x l IH]; simpl; [done|].
  apply not_elem_of_cons in Hd as [? ?]. rewrite lookup_insert_ne, IH by done. done.
Qed.

Lemma entries_delete D d l : d ∉ l → entries (delete d D) l = entries D l.
Proof.
  intros Hd. induction l as [|x l IH]; simpl; [done|].
  apply not_elem_of_cons in Hd as [? ?]. rewrite lookup_delete_ne, IH by done. done.
Qed.

Lemma entries_next D x ex nx l :
  D !! x = Some ex → entries (<[x := set_de_next nx ex]> D) l = entries D l.
Proof.
  intros Hx. induction l as [|y l IH]; simpl; [done|].
  destruct (decide (x = y)) as [->|]; [rewrite lookup_insert_eq, Hx|rewrite lookup_insert_ne by done];
    by rewrite IH.
Qed.

Lemma entries_app D l1 l2 : entries D (l1 ++ l2) = entries D l1 ++ entries D l2.
Proof. induction l1 as [|d l1 IH]; simpl; [done|]. rewrite IH. by destruct (D !! d). Qed.

(** Entries that are not in any list of [L] change nothing. *)
Lemma abs_ext (L : gmap ptr (list ptr)) D D' :
  (∀ p l, L !! p = Some l → entries D' l = entries D l) → entries D' <$> L = entries D <$> L.
Proof.
  intros H. apply map_eq. intros p. rewrite !lookup_fmap.
  destruct (L !! p) as [l|] eqn:E; simpl; [|done]. by rewrite (H _ _ E).
Qed.

Lemma abs_insert L p l s :
  abs (<[p := l]> L) s = <[p := entries (fs_dents s) l]> (abs L s).
Proof. unfold abs. by rewrite fmap_insert. Qed.

(** ** Reading the invariant *)

Lemma ramfs_vnode L s a v :
  ramfs_ok L s → fs_vnodes s !! a = Some v →
  ∃ n, fs_nodes s !! v_data v = Some n ∧ rn_vnode n = a ∧ v_type v = rn_type n ∧ rn_ramlock n = 0.
Proof.
  intros H Ha. destruct (vk_vnode _ _ (rk_vn _ _ H) _ _ Ha) as (_ & n & Hn & ? & ?).
  exists n. split_and!; try done. by eapply (dk_lock _ _ _ _ _ (rk_dirs _ _ H)).
Qed.

(** What a directory vnode gives. *)
Lemma ramfs_dir L s a v :
  ramfs_ok L s → fs_vnodes s !! a = Some v → v_type v = VDIR →
  ∃ n h par q l, fs_nodes s !! v_data v = Some n ∧ rn_ramlock n = 0 ∧ rn_type n = VDIR ∧
    rn_data n = UDir h par q ∧ L !! v_data v = Some l ∧ dlist (fs_dents s) h l ∧
    seqs_ok (fs_dents s) l q.
Proof.
  intros H Ha Et. destruct (ramfs_vnode _ _ _ _ H Ha) as (n & Hn & _ & Etn & Hlk).
  pose proof (dk_data _ _ _ _ _ (rk_dirs _ _ H) _ _ Hn) as Hd.
  unfold data_ok in Hd. rewrite <-Etn, Et in Hd.
  destruct (rn_data n) as [h par q| | |] eqn:Ed; try done.
  destruct (dk_dir _ _ _ _ _ (rk_dirs _ _ H) _ _ _ _ _ Hn Ed) as (_ & _ & l & ? & ? & ?).
  exists n, h, par, q, l. split_and!; try done. congruence.
Qed.

(** The lists of entries are a function of the state. *)
Lemma ramfs_ok_unique L L' s : ramfs_ok L s → ramfs_ok L' s → L = L'.
Proof.
  intros H H'. apply map_eq. intros p.
  assert (∀ L1 L2 l, ramfs_ok L1 s → ramfs_ok L2 s → L1 !! p = Some l → L2 !! p = Some l) as Hsame.
  { intros L1 L2 l H1 H2 Hl.
    destruct (dk_list _ _ _ _ _ (rk_dirs _ _ H1) _ _ Hl) as (n & h & par & q & Hn & Ed).
    destruct (dk_dir _ _ _ _ _ (rk_dirs _ _ H1) _ _ _ _ _ Hn Ed) as (_ & _ & l1 & Hl1 & Hd1 & _).
    destruct (dk_dir _ _ _ _ _ (rk_dirs _ _ H2) _ _ _ _ _ Hn Ed) as (_ & _ & l2 & Hl2 & Hd2 & _).
    rewrite Hl2. f_equal. assert (l1 = l) as -> by congruence. by eapply dlist_functional. }
  destruct (L !! p) as [l|] eqn:Hl; [symmetry; by apply (Hsame L L')|].
  destruct (L' !! p) as [l|] eqn:Hl'; [|done]. by rewrite (Hsame L' L l) in Hl.
Qed.

(** The sequence number the next entry of the directory gets, if it exists. *)
Definition next_seq (s : fs) (p : ptr) : option Z :=
  match fs_nodes s !! p with
  | Some n => match rn_data n with UDir _ _ q => Some q | _ => None end
  | None => None
  end.

(** No node, file content or mount is lost, no link count falls. *)
Record grows (s s' : fs) : Prop := {
  gr_node : ∀ y n, fs_nodes s !! y = Some n → ∃ n', fs_nodes s' !! y = Some n' ∧
    rn_type n' = rn_type n ∧ rn_linkcount n ≤ rn_linkcount n' ∧
    data_parent (rn_data n') = data_parent (rn_data n) ∧
    (is_udir (rn_data n) = false → rn_data n' = rn_data n);
  gr_vfss : fs_vfss s' = fs_vfss s;
  gr_rootfs : fs_rootfs s' = fs_rootfs s;
  gr_rams : ∀ b r, fs_rams s !! b = Some r → ∃ r', fs_rams s' !! b = Some r' ∧ rv_root r' = rv_root r
}.

(** ** Creating *)

(** The list table after a node [x] of a type was created in directory [p]
    with entry [d]. *)
Definition create_lists (L : gmap ptr (list ptr)) (p d x : ptr) (type : vtype) :
    gmap ptr (list ptr) :=
  let L := if decide (type = VDIR) then <[x := []]> L else L in
  <[p := d :: default [] (L !! p)]> L.

Lemma component_nonempty cnp :
  (0 < cn_len cnp ≤ String.length (cn_name cnp))%nat → component cnp ≠ EmptyString.
Proof.
  unfold component. intros [? ?]. destruct cnp as [[|c name] [|k]]; simpl in *; try lia. done.
Qed.

Lemma cstrldup_ok {S} name k (s : S) :
  (k ≤ String.length name)%nat → cstrldup name k s = Ok (String.substring 0 k name, s).
Proof. intros. unfold cstrldup. by rewrite decide_True. Qed.

(** The member of the union that [ramfs_alloc_node] fills fits the type. *)
Lemma new_data_ok s p n target :
  new_data s p (rn_type n) target = Some (rn_data n) → data_ok n.
Proof.
  unfold new_data, data_ok. destruct (rn_type n), target as [[|c l]|]; intros [= <-]; done.
Qed.

(** It is no root: its parent is the directory it is created in. *)
Lemma new_data_root s p n target :
  p ≠ NULL → p ≠ fs_brk s → new_data s p (rn_type n) target = Some (rn_data n) →
  is_root (fs_brk s) n = false.
Proof.
  unfold new_data, is_root. intros Hp Hb.
  destruct (rn_type n), target as [[|c l]|]; intros [= <-]; try done;
    rewrite decide_False by done; by apply bool_decide_eq_false.
Qed.

Section create.
Context (L : gmap ptr (list ptr)) (s : fs) (vdir vpp : ptr) (dv : vnode) (cnp : componentnam).
Context (type : vtype) (target : option string) (data : ramdata) (q : Z).
Context (H : ramfs_ok L s) (Hv : fs_vnodes s !! vdir = Some dv) (Ht : v_type dv = VDIR).
Context (Hc : (0 < cn_len cnp ≤ String.length (cn_name cnp))%nat).
Context (Htg : is_Some target → type = VLNK) (Hd : new_data s (v_data dv) type target = Some data).
Context (Hq : next_seq s (v_data dv) = Some q) (Hq2 : q + 1 < 2 ^ 64).

Let p := v_data dv.
Let x := fs_brk s.
Let d := x + 1.
Let a := x + 2.

(** The nodes after the call, from the nodes with the new one in the chain. *)
Let attached (par : ptr) (N1 : gmap ptr ramnode) (n1 nx : ramnode) : gmap ptr ramnode :=
  <[p := add_linkcount 1 (set_data (UDir d par (u64 (q + 1))) n1)]> (<[x := add_linkcount 1 nx]> N1).

Lemma create_run :
  ∃ m r N1 n1 nx h par l,
    fs_vfss s !! v_vfs dv = Some m ∧ fs_rams s !! m_data m = Some r ∧
    chain_equiv (<[x := new_node type NULL NULL data]> (fs_nodes s)) N1 ∧ chain_ok N1 ∧
    N1 !! p = Some n1 ∧ rn_data n1 = UDir h par q ∧ L !! p = Some l ∧
    N1 !! x = Some nx ∧ strip nx = strip (new_node type NULL NULL data) ∧
    ramfs_alloc_file vdir vpp cnp type target s = Ok ((0, a),
      Fs (<[x := set_vnode a (add_linkcount 1 nx)]> (attached par N1 n1 nx))
         (<[d := Ramdentry h x q (component cnp)]> (fs_dents s))
         (<[a := Vnode (v_vfs dv) NULL type 1 0 0 x]> (fs_vnodes s))
         (fs_vfss s) (<[m_data m := Ramvfs (rv_root r) x]> (fs_rams s)) (x + 3)
         (fs_ram s) (fs_rootfs s) (fs_rootvn s) (fs_mountedlist s) (fs_vfslist_lock s)).
Proof.
  destruct (ramfs_dir _ _ _ _ H Hv Ht) as (n & h & par & q' & l & Hn & Hlk & Etn & Ed & Hl & _).
  assert (q' = q) as -> by (unfold next_seq in Hq; rewrite Hn, Ed in Hq; congruence).
  destruct (rk_vfs _ _ H _ _ Hv) as (m & r & Hm & Hr).
  destruct (rk_ram _ _ H _ _ Hr) as [Hrn _].
  pose proof (below_fresh _ _ (rk_nodes _ _ H)) as Hx. fold x in Hx.
  change (fs_nodes s !! p = Some n) in Hn. assert (p ≠ x) as Hpx by congruence.
  destruct (ramfs_alloc_node_ok s (m_data m) r p type target data) as (N1 & E1 & Eq1 & HN1);
    [done|done|apply (rk_zero _ _ H)|apply (rk_chain _ _ H)|done..|]. fold x in E1, Eq1.
  destruct (chain_equiv_lookup _ _ x _ Eq1 (lookup_insert_eq _ _ _)) as (nx & Hnx & Ex).
  destruct (chain_equiv_lookup _ _ p n Eq1) as (n1 & Hn1 & En1); [by rewrite lookup_insert_ne|].
  pose proof (strip_fields _ _ Ex) as (Ex1 & Ex2 & Ex3 & Ex4 & Ex5).
  pose proof (strip_fields _ _ En1) as (_ & En2 & En3 & En4 & En5). simpl in Ex1, Ex2, Ex3, Ex4, Ex5.
  exists m, r, N1, n1, nx, h, par, l. split_and!; try done; [congruence|].
  unfold ramfs_alloc_file. do 2 kstep.
  rewrite (bind_ok _ _ _ _ _ (cstrldup_ok _ _ s (proj2 Hc))).
  rewrite decide_False by naive_solver.
  rewrite (bind_ok _ _ _ _ _ E1).
  erewrite (bind_ok (ramfs_alloc_dentry _ _)).
  2:{ apply ramfs_alloc_dentry_ok; [done|done|by apply component_nonempty]. }
  simpl. erewrite (bind_ok (ramfs_dir_attach _ _)).
  2:{ eapply (ramfs_dir_attach_ok _ _ n1 _ _ h par q); simpl; [by rewrite lookup_insert_ne|congruence..|].
      by rewrite lookup_insert_eq. }
  simpl. erewrite (bind_ok (ramfs_vget _ _)).
  2:{ eapply (ramfs_vget_new _ _ _ (add_linkcount 1 nx)); simpl.
      - by rewrite lookup_insert_ne, lookup_insert_eq.
      - done.
      - done.
      - apply (new_data_ok s p _ target). simpl. by rewrite Ex2, Ex5. }
  assert (p ≠ NULL) as Hp0 by (intros E; rewrite E, (below_null _ _ (rk_nodes _ _ H)) in Hn; done).
  assert (is_root x (add_linkcount 1 nx) = false) as Hroot
    by (apply (new_data_root s p _ target); [done..|simpl; by rewrite Ex2, Ex5]).
  simpl. unfold vget_flags. rewrite Hroot.
  replace (fs_ram _ _ 32) with 0 by (symmetry; apply (rk_zero _ _ H)).
  change (fs_brk s) with x. replace (Z.succ x) with (x + 1) by lia.
  replace (Z.succ (x + 1)) with (x + 2) by lia. replace (Z.succ (x + 2)) with (x + 3) by lia.
  unfold attached, a, d. same_state; [by rewrite Ex2|lia].
Qed.

(** The next sequence number of the directory. *)
Lemma create_next_seq r s' : ramfs_alloc_file vdir vpp cnp type target s = Ok (r, s') → next_seq s' p = Some (u64 (q + 1)).
Proof.
  destruct create_run as (m & ram & N1 & n1 & nx & h & par & l & _ & _ & _ & _ & _ & _ & _ & _ & _ & E).
  rewrite E. intros [= _ <-]. destruct (ramfs_dir _ _ _ _ H Hv Ht) as (n & _ & _ & _ & _ & Hn & _).
  pose proof (below_fresh _ _ (rk_nodes _ _ H)) as Hx. fold x in Hx. assert (x ≠ p) as Hxp by (intros Exp; rewrite Exp in Hx; unfold p in Hx; congruence).
  unfold next_seq. simpl. rewrite lookup_insert_ne by done. unfold attached. by rewrite lookup_insert_eq.
Qed.

(** The union of a new directory. *)
Lemma new_dir_data h par q' :
  data = UDir h par q' → h = NULL ∧ par = p ∧ q' = SEQ_START.
Proof.
  intros ->. unfold new_data in Hd.
  assert (p ≠ NULL) as Hp0.
  { destruct (ramfs_dir _ _ _ _ H Hv Ht) as (n & ? & ? & ? & ? & Hn & _).
    intros E. unfold p in E. rewrite E, (below_null _ _ (rk_nodes _ _ H)) in Hn. done. }
  destruct type, target as [[|c k]|]; try done; unfold p in *;
    rewrite decide_False in Hd by done; injection Hd as <- <- <-;
    split_and!; try done; apply (rk_zero _ _ H).
Qed.

Lemma new_data_dir : is_udir data = bool_decide (type = VDIR).
Proof. clear -Hd. unfold new_data in Hd. destruct type, target as [[|c k]|]; simplify_eq; done. Qed.

Lemma create_dirs N1 n1 nx h par l :
  chain_equiv (<[x := new_node type NULL NULL data]> (fs_nodes s)) N1 →
  N1 !! p = Some n1 → rn_data n1 = UDir h par q → L !! p = Some l →
  N1 !! x = Some nx → strip nx = strip (new_node type NULL NULL data) →
  dirs_ok (create_lists L p d x type) (attached par N1 n1 nx)
    (<[d := Ramdentry h x q (component cnp)]> (fs_dents s)).
Proof.
  intros Eq Hn1 Ed Hl Hnx Ex. destruct (strip_fields _ _ Ex) as (_ & _ & _ & _ & Exd).
  pose proof (below_fresh _ _ (rk_nodes _ _ H)) as Hfx. fold x in Hfx.
  pose proof new_dir_data as Hnd. pose proof new_data_dir as Hud.
  assert (is_dir (fs_nodes s) p) as Hpd by (by eapply dk_list; [apply (rk_dirs _ _ H)|]).
  assert (p ≠ x) as Hpx by (intros ->; destruct Hpd as (? & ? & ? & ? & ? & _); congruence).
  set (k := if decide (type = VDIR) then 1 else 0).
  set (L1 := if decide (type = VDIR) then <[x := []]> L else L).
  assert (L1 !! p = Some l) as Hl1.
  { unfold L1. destruct (decide (type = VDIR)); [|done]. by rewrite lookup_insert_ne. }
  assert (dirs_off x k L1 N1 (fs_dents s)) as Hoff.
  { rewrite <-Eq.
    replace k with (rn_linkcount (new_node type NULL NULL data) - links x data 0 0).
    2:{ unfold k, links. simpl. destruct data as [h' par' q'| | |]; simpl in Hud.
        1: destruct (Hnd _ _ _ eq_refl) as (_ & -> & _); rewrite (decide_False (P := p = x)) by done.
        all: repeat case_decide; simplify_eq; try done; by rewrite bool_decide_true in Hud. }
    replace L1 with (add_list x (new_node type NULL NULL data) L).
    2:{ unfold L1, add_list. simpl. destruct data; simpl in Hud; case_decide; try done.
        all: by rewrite ?bool_decide_true, ?bool_decide_false in Hud. }
    apply (dirs_add_node NULL); [apply (rk_dirs _ _ H)|done..| |].
    - by apply (new_data_ok s p _ target).
    - simpl. intros h' par' q' E. destruct (Hnd _ _ _ E) as (-> & -> & ->). eauto. }
  apply (dirs_off_zero x).
  assert (k - (if is_udir (rn_data nx) then 1 else 0) = 0) as Hk.
  { rewrite Exd. simpl. rewrite Hud. unfold k. case_decide;
        [rewrite bool_decide_true|rewrite bool_decide_false]; done. }
  unfold create_lists. fold L1. rewrite Hl1. simpl.
  refine (eq_ind _ (λ k, dirs_off x k _ _ _) _ _ Hk).
  apply (dirs_link_entry x k L1 N1 _ p n1 h par q l nx); try done.
  - rewrite (below_fresh (fs_brk s + 1)); [done|]. 
    eapply below_mono; [|apply (rk_dents _ _ H)]. lia.
  - pose proof (rk_pos _ _ H). unfold d, x, NULL. lia.
  - by apply component_nonempty.
  - rewrite Exd. intros h' par' q' E. destruct (Hnd _ _ _ E) as (_ & -> & _).
    split; [|done]. by eapply refs_dead; [apply (rk_dirs _ _ H)|].
Qed.

(** The state after the call. *)
Let made (m : vfs) (r : ramvfs) (N1 : gmap ptr ramnode) (n1 nx : ramnode) (h par : ptr) : fs :=
  Fs (<[x := set_vnode a (add_linkcount 1 nx)]> (attached par N1 n1 nx))
     (<[d := Ramdentry h x q (component cnp)]> (fs_dents s))
     (<[a := Vnode (v_vfs dv) NULL type 1 0 0 x]> (fs_vnodes s))
     (fs_vfss s) (<[m_data m := Ramvfs (rv_root r) x]> (fs_rams s)) (x + 3)
     (fs_ram s) (fs_rootfs s) (fs_rootvn s) (fs_mountedlist s) (fs_vfslist_lock s).

Lemma create_is_dir N1 n1 nx h par y :
  chain_equiv (<[x := new_node type NULL NULL data]> (fs_nodes s)) N1 →
  N1 !! p = Some n1 → rn_data n1 = UDir h par q → N1 !! x = Some nx → p ≠ x →
  is_dir (fs_nodes s) y →
  is_dir (<[x := set_vnode a (add_linkcount 1 nx)]> (attached par N1 n1 nx)) y.
Proof.
  intros Eq Hn1 Ed Hnx Hpx Hy. eapply is_dir_update.
  - unfold attached. by rewrite lookup_insert_ne, lookup_insert_eq.
  - intros ??? Ey. by do 2 eexists.
  - apply (link_entry_dir x N1 p n1 h par q nx); try done.
    apply (is_dir_chain _ _ _ Eq), is_dir_insert; [|done].
    apply (below_fresh _ _ (rk_nodes _ _ H)).
Qed.

Lemma create_inv m r N1 n1 nx h par l :
  fs_vfss s !! v_vfs dv = Some m → fs_rams s !! m_data m = Some r →
  chain_equiv (<[x := new_node type NULL NULL data]> (fs_nodes s)) N1 → chain_ok N1 →
  N1 !! p = Some n1 → rn_data n1 = UDir h par q → L !! p = Some l →
  N1 !! x = Some nx → strip nx = strip (new_node type NULL NULL data) →
  ramfs_ok (create_lists L p d x type) (made m r N1 n1 nx h par).
Proof.
  intros Hm Hr Eq HN1 Hn1 Ed Hl Hnx Ex.
  destruct (strip_fields _ _ Ex) as (Exv & Ext & _ & _ & Exd). simpl in Exv, Ext, Exd.
  pose proof (create_dirs _ _ _ _ _ _ Eq Hn1 Ed Hl Hnx Ex) as Hdirs.
  pose proof (below_fresh _ _ (rk_nodes _ _ H)) as Hfx. pose proof (rk_pos _ _ H) as Hpos.
  fold x in Hfx, Hpos.
  assert (is_dir (fs_nodes s) p) as Hpd by (by eapply dk_list; [apply (rk_dirs _ _ H)|]).
  assert (p ≠ x) as Hpx by (intros E'; destruct Hpd as (? & ? & ? & ? & ? & _); congruence).
  assert (attached par N1 n1 nx !! x = Some (add_linkcount 1 nx)) as Hax.
  { unfold attached. by rewrite lookup_insert_ne, lookup_insert_eq. }
  assert (∀ A (t : gmap ptr A), below x t → below (x + 3) t) as Hup
    by (intros; eapply below_mono; [|done]; lia).
  split; simpl.
  - apply (rk_zero _ _ H).
  - lia.
  - apply below_insert; [lia|]. unfold attached. apply below_update, below_insert; [|lia|].
    { rewrite lookup_insert_ne by done. eauto. }
    apply (below_chain _ _ _ Eq), below_insert; [lia|]. apply Hup, (rk_nodes _ _ H).
  - apply below_insert; [unfold d; lia|]. apply Hup, (rk_dents _ _ H).
  - apply below_insert; [unfold a; lia|]. apply Hup, (rk_vnodes _ _ H).
  - rewrite (core_equiv_update _ _ _ (set_vnode a (add_linkcount 1 nx)) Hax) by done. done.
  - apply (chain_ok_same _ _ (add_linkcount 1 nx)); try done. unfold attached.
    apply (chain_ok_same _ _ n1); [|by rewrite lookup_insert_ne|done..].
    by apply (chain_ok_same _ _ nx).
  - rewrite <-Ext. change (rn_type nx) with (rn_type (add_linkcount 1 nx)).
    apply vn_ok_get; [|done|done|apply (below_null _ _ (rk_vnodes _ _ H))|].
    + unfold attached. apply (vn_ok_update _ _ _ n1); [|by rewrite lookup_insert_ne|done..].
      apply (vn_ok_update _ _ _ nx); [|done..]. rewrite <-Eq. apply vn_ok_add; [|done..].
      apply (rk_vn _ _ H).
    + apply (below_fresh a). eapply below_mono; [|apply (rk_vnodes _ _ H)]. unfold a, x. lia.
  - assert (∀ b, is_Some (fs_rams s !! b) →
      is_Some (<[m_data m := Ramvfs (rv_root r) x]> (fs_rams s) !! b)) as Hrams
      by (intros b ?; rewrite lookup_insert; case_decide; eauto).
    intros b v [[<- <-]|[? Hb]]%lookup_insert_Some; simpl.
    + exists m. destruct (Hrams (m_data m)) as [r' ?]; eauto.
    + destruct (rk_vfs _ _ H _ _ Hb) as (m' & r' & ? & ?).
      exists m'. destruct (Hrams (m_data m')) as [r'' ?]; eauto.
  - intros b r' [[<- <-]|[? Hb]]%lookup_insert_Some; simpl.
    + split; [right; rewrite lookup_insert_eq; eauto|]. eapply create_is_dir; try done.
      by apply (rk_ram _ _ H _ _ Hr).
    + destruct (rk_ram _ _ H _ _ Hb) as [? ?]. split; [|by eapply create_is_dir].
      apply chain_ptr_insert. unfold attached. do 2 apply chain_ptr_insert.
      rewrite <-Eq. by apply chain_ptr_insert.
Qed.

Lemma create_grows m r N1 n1 nx h par l :
  fs_rams s !! m_data m = Some r →
  chain_equiv (<[x := new_node type NULL NULL data]> (fs_nodes s)) N1 →
  N1 !! p = Some n1 → rn_data n1 = UDir h par q → L !! p = Some l → N1 !! x = Some nx →
  grows s (made m r N1 n1 nx h par).
Proof.
  intros Hr Eq Hn1 Ed Hl Hnx. pose proof (below_fresh _ _ (rk_nodes _ _ H)) as Hfx. fold x in Hfx.
  split; simpl; try done.
  - intros y n Hy. assert (x ≠ y) as Hxy by congruence. rewrite lookup_insert_ne by done.
    destruct (chain_equiv_lookup _ _ y n Eq) as (n' & Hn' & Es); [by rewrite lookup_insert_ne|].
    apply strip_fields in Es as (_ & Et & _ & Ec & En). unfold attached.
    destruct (decide (p = y)) as [<-|].
    + rewrite lookup_insert_eq. eexists. split; [done|]. simpl.
      assert (n' = n1) as -> by congruence. rewrite <-En, Ed. split_and!; try done. lia.
    + rewrite !lookup_insert_ne by done. exists n'. rewrite En. split_and!; try done. lia.
  - intros b r' Hb. destruct (decide (m_data m = b)) as [<-|].
    + rewrite lookup_insert_eq. eexists. split; [done|]. simpl. congruence.
    + rewrite lookup_insert_ne by done. eauto.
Qed.

Lemma create_abs h l :
  L !! p = Some l →
  entries (<[d := Ramdentry h x q (component cnp)]> (fs_dents s)) <$> create_lists L p d x type =
    <[p := (component cnp, x) :: entries (fs_dents s) l]>
      (if decide (type = VDIR) then <[x := []]> (abs L s) else abs L s).
Proof.
  intros Hl. assert (∀ y l', L !! y = Some l' → d ∉ l') as Hfresh.
  { intros y l' Hy. destruct (dk_list _ _ _ _ _ (rk_dirs _ _ H) _ _ Hy) as (n & ? & ? & ? & Hn & En).
    destruct (dk_dir _ _ _ _ _ (rk_dirs _ _ H) _ _ _ _ _ Hn En) as (_ & _ & l'' & ? & Hdl & _).
    simplify_eq. eapply dlist_fresh; [|exact Hdl]. apply (below_fresh d).
    eapply below_mono; [|apply (rk_dents _ _ H)]. unfold d, x. lia. }
  assert (p ≠ x) as Hpx.
  { intros E. destruct (dk_list _ _ _ _ _ (rk_dirs _ _ H) _ _ Hl) as (? & ? & ? & ? & Hn & _).
    pose proof (below_fresh _ _ (rk_nodes _ _ H)). unfold x in E. congruence. }
  assert (entries (<[d := Ramdentry h x q (component cnp)]> (fs_dents s)) <$> L = abs L s) as HL
    by (apply abs_ext; intros; apply entries_insert; eauto).
  unfold create_lists. rewrite fmap_insert. destruct (decide (type = VDIR)).
  - rewrite lookup_insert_ne, Hl, fmap_insert, HL by done. simpl.
    rewrite lookup_insert_eq. simpl. by rewrite entries_insert by eauto.
  - rewrite Hl, HL. simpl. rewrite lookup_insert_eq. simpl. by rewrite entries_insert by eauto.
Qed.

(** Creating a file, directory or link succeeds: the directory gains the
    entry in front, and the new node gets a vnode with one reference. *)
Lemma create_ok :
  ∃ s' old n, ramfs_alloc_file vdir vpp cnp type target s = Ok ((0, a), s') ∧
    ramfs_ok (create_lists L p d x type) s' ∧ abs L s !! p = Some old ∧
    abs (create_lists L p d x type) s' =
      <[p := (component cnp, x) :: old]>
        (if decide (type = VDIR) then <[x := []]> (abs L s) else abs L s) ∧
    fs_vnodes s' = <[a := Vnode (v_vfs dv) NULL type 1 0 0 x]> (fs_vnodes s) ∧
    fs_nodes s' !! x = Some n ∧ rn_type n = type ∧ rn_data n = data ∧ rn_vnode n = a ∧ grows s s'.
Proof.
  destruct create_run as (m & r & N1 & n1 & nx & h & par & l & Hm & Hr & Eq & HN1 & Hn1 & Ed & Hl &
                          Hnx & Ex & E).
  destruct (strip_fields _ _ Ex) as (_ & Ext & _ & _ & Exd).
  eexists _, (entries (fs_dents s) l), _. split; [exact E|]. split_and!.
  - by apply (create_inv m r N1 n1 nx h par l).
  - unfold abs. rewrite lookup_fmap. fold p. by rewrite Hl.
  - by apply create_abs.
  - done.
  - simpl. by rewrite lookup_insert_eq.
  - done.
  - done.
  - done.
  - by apply (create_grows m r N1 n1 nx h par l).
Qed.

End create.
