(* ===== verification/RamfsUnlink.v ===== *)
(** * Taking entries out of a directory, and adding hard links

    [ramfs_remove], [ramfs_rmdir] and [ramfs_link] on every branch: the
    result, the abstract directories afterwards and the invariant.  All that
    these calls leave alone is collected in [shape_equiv]: contents, types,
    vnodes and parents of all nodes. *)

From S2P Require Import Prelude CString FsState Ramfs RamfsDir RamfsOps RamfsInv RamfsSpec.

Local Open Scope Z_scope.

(** ** Everything but the entries and the link counts *)

Definition shape (n : ramnode) : ramnode :=
  Ramnode NULL NULL (rn_vnode n) (rn_type n) (rn_ramlock n) 0
    (match rn_data n with UDir _ par _ => UDir NULL par 0 | data => data end).

Definition shape_equiv (N N' : gmap ptr ramnode) : Prop := ∀ p, shape <$> N !! p = shape <$> N' !! p.

#[export] Instance shape_equiv_equivalence : Equivalence shape_equiv.
Proof.
  split.
  - by intros N p.
  - by intros N N' H p.
  - intros N N' N'' H H' p. by rewrite (H p).
Qed.

#[export] Instance chain_shape_subrelation : subrelation chain_equiv shape_equiv.
Proof.
  intros N N' H p. specialize (H p). destruct (N !! p) as [n|], (N' !! p) as [n'|]; try done.
  apply (inj Some), strip_fields in H as (Ev & Et & El & _ & Ed). simpl. unfold shape.
  by rewrite Ev, Et, El, Ed.
Qed.

Lemma shape_equiv_update N p n n' : N !! p = Some n → shape n' = shape n → shape_equiv (<[p := n']> N) N.
Proof.
  intros Hp E q. rewrite lookup_insert. case_decide as Hq; [|done]. subst. rewrite Hp. simpl. by rewrite E.
Qed.

Lemma shape_equiv_lookup N N' p n' :
  shape_equiv N N' → N' !! p = Some n' → ∃ n, N !! p = Some n ∧ shape n = shape n'.
Proof.
  intros E Hp. specialize (E p). rewrite Hp in E.
  destruct (N !! p) as [n|]; [|done]. apply (inj Some) in E. eauto.
Qed.

Lemma is_dir_shape N N' p : shape_equiv N N' → is_dir N p → is_dir N' p.
Proof.
  intros E (n & h & par & q & Hp & Hd). symmetry in E.
  destruct (shape_equiv_lookup _ _ _ _ E Hp) as (n' & Hp' & Es).
  unfold shape in Es. injection Es as _ _ _ Es. rewrite Hd in Es.
  destruct (rn_data n') as [h' par' q'| | |] eqn:Hd'; try done. by exists n', h', par', q'.
Qed.

Lemma vn_ok_shape N N' W : shape_equiv N N' → vn_ok N W → vn_ok N' W.
Proof.
  intros E H. split.
  - intros a v Hv. destruct (vk_vnode _ _ H _ _ Hv) as (? & n & Hn & <- & ->). split; [done|].
    symmetry in E. destruct (shape_equiv_lookup _ _ _ _ E Hn) as (n' & Hn' & [= ? ? _ _]). by exists n'.
  - intros p n' Hp. destruct (shape_equiv_lookup _ _ _ _ E Hp) as (n & Hn & [= <- _ _ _]).
    by eapply vk_node.
Qed.

Lemma live_shape N N' p : shape_equiv N N' → is_Some (N !! p) → is_Some (N' !! p).
Proof. intros E. by rewrite <-(fmap_is_Some shape), (E p), fmap_is_Some. Qed.

Lemma shape_fields N N' p n :
  shape_equiv N N' → N !! p = Some n → ∃ n', N' !! p = Some n' ∧ rn_vnode n' = rn_vnode n ∧
    rn_type n' = rn_type n ∧ (is_udir (rn_data n) = false → rn_data n' = rn_data n).
Proof.
  intros E Hp. symmetry in E. destruct (shape_equiv_lookup _ _ _ _ E Hp) as (n' & Hp' & [= Ev Et _ Ed]).
  exists n'. split_and!; try done. intros Hu. by destruct (rn_data n), (rn_data n').
Qed.

(** Two states that differ in nothing but entries and link counts. *)
Record relinked (s s' : fs) : Prop := {
  rl_nodes : shape_equiv (fs_nodes s) (fs_nodes s');
  rl_vnodes : fs_vnodes s' = fs_vnodes s;
  rl_vfss : fs_vfss s' = fs_vfss s;
  rl_rams : fs_rams s' = fs_rams s;
  rl_rootfs : fs_rootfs s' = fs_rootfs s
}.

(** A store with the same objects up to entries and link counts keeps the
    invariant when the directories are well formed. *)
Lemma ramfs_ok_shape L L' s N D :
  ramfs_ok L s → shape_equiv (fs_nodes s) N → below (fs_brk s) D → chain_ok N → dirs_ok L' N D →
  ramfs_ok L' (upd_nodes (λ _, N) (upd_dents (λ _, D) s)).
Proof.
  intros [] E HD HN Hd. split; simpl; try done.
  - intros p Hp. apply rk_nodes. eapply live_shape; [|exact Hp]. by symmetry.
  - by eapply vn_ok_shape.
  - intros p r Hr. destruct (rk_ram _ _ Hr) as [[?|Hn] ?].
    + split; [by left|by eapply is_dir_shape].
    + split; [right; by eapply live_shape|by eapply is_dir_shape].
Qed.

(** ** Abstract directories as association lists *)

Section assoc.
Context (P : string → bool).

Fixpoint lookup_entry (es : list (string * ptr)) : option ptr :=
  match es with
  | [] => None
  | (name, x) :: es => if P name then Some x else lookup_entry es
  end.

Fixpoint remove_entry (es : list (string * ptr)) : list (string * ptr) :=
  match es with
  | [] => []
  | (name, x) :: es => if P name then es else (name, x) :: remove_entry es
  end.

(** The search of the list finds what the association list has. *)
Lemma find_ent_entries D h l :
  dlist D h l →
  match lookup_entry (entries D l) with
  | Some x => ∃ l1 d l2 e, l = l1 ++ d :: l2 ∧ find_ent D (λ e, P (de_name e)) l = d ∧ d ≠ NULL ∧
      D !! d = Some e ∧ de_node e = x ∧ remove_entry (entries D l) = entries D (l1 ++ l2)
  | None => find_ent D (λ e, P (de_name e)) l = NULL
  end.
Proof.
  revert h. induction l as [|d l IH]; intros h; [done|].
  intros (-> & Hd & e & He & Hl). specialize (IH _ Hl). simpl. rewrite He. simpl.
  destruct (P (de_name e)) eqn:EP.
  - by exists [], d, l, e.
  - destruct (lookup_entry (entries D l)) as [x|]; [|done].
    destruct IH as (l1 & d' & l2 & e' & -> & Ef & ? & ? & ? & Er).
    exists (d :: l1), d', l2, e'. split_and!; try done. simpl. by rewrite He, Er.
Qed.

End assoc.

(** ** Unlinking *)

(** The end of [ramfs_remove] and [ramfs_rmdir]. *)
Definition drop_entry (node parent de : ptr) : F Z :=
  unchain node;; ramfs_dir_detach parent de;; ramfs_free_dentry de;; mret 0.

(** [ramfs_dir_detach] in both positions: the list loses the entry, the
    entry itself stays allocated. *)
Lemma detach_ok s p n h par q l1 d l2 ed :
  fs_nodes s !! p = Some n → rn_ramlock n = 0 → rn_data n = UDir h par q →
  dlist (fs_dents s) h (l1 ++ d :: l2) → fs_dents s !! d = Some ed →
  ∃ z ez nz h', fs_dents s !! z = Some ez ∧ z ∈ l1 ++ d :: l2 ∧
    dlist (delete d (<[z := set_de_next nz ez]> (fs_dents s))) h' (l1 ++ l2) ∧
    <[z := set_de_next nz ez]> (fs_dents s) !! d = Some ed ∧
    ramfs_dir_detach p d s = Ok (0,
      upd_nodes (insert p (add_linkcount (-1) (set_data (UDir h' par q) n)))
        (upd_dents (insert z (set_de_next nz ez)) s)).
Proof.
  intros Hn Hlk Ed Hl Hd. pose proof (dlist_NoDup _ _ _ Hl) as ND.
  assert (d ∉ l1 ++ l2) as Hdl.
  { rewrite <-Permutation_middle in ND. by apply NoDup_cons in ND as [? _]. }
  assert (∀ e, set_de_next (de_next e) e = e) as Hid by (by intros []).
  destruct l1 as [|y l1' _] using rev_ind.
  - destruct Hl as (-> & Hd0 & e & He & Hl). assert (e = ed) as -> by congruence.
    exists d, ed, (de_next ed), (de_next ed). rewrite Hid, insert_id by done.
    split_and!; [done|by left|by apply dlist_delete|done|].
    rewrite (ramfs_dir_detach_head _ _ n _ ed par q) by done. same_state. by rewrite insert_id.
  - rewrite <-!(assoc_L (++)) in *. simpl in *.
    destruct (dlist_lookup _ _ _ y Hl) as (ey & Hy & _); [set_solver|].
    assert (y ≠ d) by set_solver.
    exists y, ey, (de_next ed), h. split_and!; [done|set_solver| |by rewrite lookup_insert_ne|].
    + apply dlist_delete; [done|]. by apply (dlist_unlink _ _ _ y d).
    + rewrite (ramfs_dir_detach_mid _ _ n h par q l1' y d l2 ey ed) by done.
      same_state. f_equal. destruct n; simpl in *. by subst.
Qed.

Section drop.
Context (s : fs) (L : gmap ptr (list ptr)) (x p d : ptr) (k : Z) (l1 l2 : list ptr).
Context (n nx : ramnode) (h par : ptr) (q : Z) (ed : ramdentry).
Context (H : dirs_off x k L (fs_nodes s) (fs_dents s)) (HN : chain_ok (fs_nodes s)).
Context (Hp : fs_nodes s !! p = Some n) (Hn : rn_data n = UDir h par q).
Context (Hl : L !! p = Some (l1 ++ d :: l2)) (Hd : fs_dents s !! d = Some ed).
Context (Hx : fs_nodes s !! x = Some nx) (Hed : de_node ed = x) (Hxp : x ≠ p).
Context (Hc : 0 < rn_linkcount nx).
Context (Hroot : ∀ h0 par0 q0, rn_data nx = UDir h0 par0 q0 → par0 ≠ x).

Lemma drop_entry_ok :
  ∃ N D, drop_entry x p d s = Ok (0, upd_nodes (λ _, N) (upd_dents (λ _, D) s)) ∧
    dirs_off x (k + if is_udir (rn_data nx) then 1 else 0) (<[p := l1 ++ l2]> L) N D ∧
    chain_ok N ∧ shape_equiv (fs_nodes s) N ∧ (∀ b, below b (fs_dents s) → below b D) ∧
    (∀ l, d ∉ l → entries D l = entries (fs_dents s) l).
Proof.
  unfold drop_entry. destruct (unchain_ok s x nx Hx HN) as (N1 & E1 & Eq & HN1).
  rewrite (bind_ok _ _ _ _ _ E1).
  destruct (chain_equiv_lookup _ _ _ _ Eq Hp) as (n1 & Hp1 & Es1).
  destruct (chain_equiv_lookup _ _ _ _ Eq Hx) as (nx1 & Hx1 & Es2).
  apply strip_fields in Es1 as (_ & _ & Elk1 & _ & Ed1).
  apply strip_fields in Es2 as (_ & _ & Elk2 & Ec2 & Ed2).
  destruct (dk_dir _ _ _ _ _ H _ _ _ _ _ Hp Hn) as (_ & _ & l & Hl' & Hdl & _). simplify_eq.
  pose proof (dk_lock _ _ _ _ _ H) as Hlk.
  destruct (detach_ok (upd_nodes (λ _, N1) s) p n1 h par q l1 d l2 ed)
    as (z & ez & nz & h' & Hz & Hzl & Hdl' & Hd' & E2); simpl; try done; try congruence.
  { rewrite Elk1. eauto. }
  rewrite (bind_ok _ _ _ _ _ E2). cbv beta.
  erewrite (bind_ok (ramfs_free_dentry d)).
  2:{ apply (ramfs_free_dentry_ok _ d ed (de_node ed) nx1); simpl.
      - done.
      - by destruct (dlist_lookup _ _ _ d Hdl) as (? & _ & ?); [set_solver|].
      - done.
      - by rewrite lookup_insert_ne.
      - rewrite Elk2. eauto.
      - lia. }
  simpl. exists (<[de_node ed := add_linkcount (-1) nx1]>
    (<[p := add_linkcount (-1) (set_data (UDir h' par q) n1)]> N1)),
    (delete d (<[z := set_de_next nz ez]> (fs_dents s))). split_and!.
  - same_state.
  - refine (eq_ind _ (λ a, dirs_off _ (k + if is_udir a then 1 else 0) _ _ _) _ _ Ed2).
    eapply (dirs_unlink_entry (de_node ed) k L N1 (fs_dents s) p n1 h par q l1 l2 d ed); try done.
    + by rewrite <-Eq.
    + congruence.
    + rewrite Ed2. done.
  - eapply (chain_ok_same _ _ nx1); [|by rewrite lookup_insert_ne|done..].
    by apply (chain_ok_same _ _ n1).
  - rewrite (shape_equiv_update _ _ nx1); [|by rewrite lookup_insert_ne|done].
    rewrite (shape_equiv_update _ _ n1); [by rewrite <-Eq|done|].
    unfold shape. simpl. by rewrite Ed1, Hn.
  - intros b Hb. apply below_delete, below_update; [by eexists|done].
  - intros l Hdn. rewrite entries_delete by done. by apply entries_next.
Qed.

End drop.

(** How the abstract directories change when [d] leaves the list of [p]. *)
Lemma drop_abs x k L N D D' p l1 d l2 :
  dirs_off x k L N D → L !! p = Some (l1 ++ d :: l2) →
  (∀ l, d ∉ l → entries D' l = entries D l) →
  entries D' <$> <[p := l1 ++ l2]> L = <[p := entries D (l1 ++ l2)]> (entries D <$> L).
Proof.
  intros H Hl HD. assert (d ∉ l1 ++ l2) as Hd.
  { destruct (dk_list _ _ _ _ _ H _ _ Hl) as (n & ? & ? & ? & Hn & En).
    destruct (dk_dir _ _ _ _ _ H _ _ _ _ _ Hn En) as (_ & _ & l & ? & Hdl & _). simplify_eq.
    apply dlist_NoDup in Hdl. rewrite <-Permutation_middle in Hdl.
    by apply NoDup_cons in Hdl as [? _]. }
  rewrite fmap_insert, HD by done. apply map_eq. intros y.
  destruct (decide (p = y)) as [<-|Hy]; [by rewrite !lookup_insert_eq|].
  rewrite !lookup_insert_ne, !lookup_fmap by done.
  destruct (L !! y) as [l'|] eqn:Ey; [|done]. simpl. f_equal. apply HD.
  intros Hin. apply Hy, (dk_disj _ _ _ _ _ H _ _ _ _ d Hl Ey); [set_solver|done].
Qed.

Lemma data_ok_dir n : data_ok n → is_udir (rn_data n) = bool_decide (rn_type n = VDIR).
Proof. unfold data_ok. by destruct (rn_type n), (rn_data n) as [| |[]|]. Qed.

Definition is_name (name n : string) : bool := bool_decide (n = name).

(** Two vnodes of one node are the same. *)
Lemma vnode_inj L s a b v w :
  ramfs_ok L s → fs_vnodes s !! a = Some v → fs_vnodes s !! b = Some w →
  v_data v = v_data w → a = b.
Proof.
  intros H Ha Hb E. destruct (ramfs_vnode _ _ _ _ H Ha) as (n & Hn & <- & _).
  destruct (ramfs_vnode _ _ _ _ H Hb) as (m & Hm & <- & _). congruence.
Qed.

(** What the lookup by name in a directory of a well-formed store finds. *)
Lemma dir_lookup_abs y k L s p n h par q l es name :
  dirs_off y k L (fs_nodes s) (fs_dents s) → fs_nodes s !! p = Some n → rn_ramlock n = 0 → rn_data n = UDir h par q →
  L !! p = Some l → dlist (fs_dents s) h l → abs L s !! p = Some es → name ≠ EmptyString →
  match lookup_entry (is_name name) es with
  | Some x => ∃ l1 d l2 e, l = l1 ++ d :: l2 ∧ d ≠ NULL ∧ fs_dents s !! d = Some e ∧ de_node e = x ∧
      ramfs_dir_lookup p name s = Ok (d, s) ∧
      remove_entry (is_name name) es = entries (fs_dents s) (l1 ++ l2)
  | None => ramfs_dir_lookup p name s = Ok (NULL, s)
  end.
Proof.
  intros H Hn Hlk Ed Hl Hdl Hes Hname.
  assert (es = entries (fs_dents s) l) as ->.
  { unfold abs in Hes. rewrite lookup_fmap, Hl in Hes. by injection Hes. }
  pose proof (dirs_names _ _ _ _ _ H) as Hnames.
  rewrite (ramfs_dir_lookup_ok s p n h par q l) by done.
  pose proof (find_ent_entries (is_name name) _ _ _ Hdl) as Hf.
  change (named name) with (λ e, is_name name (de_name e)).
  destruct (lookup_entry _ _) as [x|]; [|by rewrite Hf].
  destruct Hf as (l1 & d & l2 & e & ? & -> & ? & ? & ? & ?). by exists l1, d, l2, e.
Qed.

(** An empty directory that an entry names has two links. *)
Lemma empty_dir_links L N D x n par q d e l :
  dirs_ok L N D → N !! x = Some n → rn_data n = UDir NULL par q → par ≠ x → L !! x = Some l →
  dlist D NULL l → D !! d = Some e → de_node e = x → rn_linkcount n = 2.
Proof.
  intros H Hn En Hpar Hl Hdl Hd He. rewrite (dk_links _ _ _ _ _ H _ _ Hn).
  destruct (dk_dir _ _ _ _ _ H _ _ _ _ _ Hn En) as (_ & ? & _).
  pose proof (refs_pos _ _ _ Hd) as Hr. rewrite He in Hr.
  assert (len L x = 0) as ->.
  { unfold len. rewrite Hl. simpl. destruct l; [done|]. by destruct Hdl as (? & ? & _). }
  unfold links. rewrite En, decide_False by done. rewrite decide_False by lia. case_decide; lia.
Qed.

(** A directory named by an entry of [p] has [p] as its parent. *)
Lemma entry_parent P L s p es x par :
  ramfs_ok L s → abs L s !! p = Some es → lookup_entry P es = Some x →
  dir_parent (fs_nodes s) x = Some par → par = p ∧ p ≠ x.
Proof.
  intros H Hes Hx Hpar. unfold abs in Hes. rewrite lookup_fmap in Hes.
  destruct (L !! p) as [l|] eqn:Hl; [|done]. injection Hes as <-.
  destruct (dk_list _ _ _ _ _ (rk_dirs _ _ H) _ _ Hl) as (n & ? & ? & ? & Hn & En).
  destruct (dk_dir _ _ _ _ _ (rk_dirs _ _ H) _ _ _ _ _ Hn En) as (_ & _ & l' & ? & Hdl & _).
  simplify_eq. pose proof (find_ent_entries P _ _ _ Hdl) as Hf. rewrite Hx in Hf.
  destruct Hf as (l1 & d & l2 & e & -> & _ & _ & Hd & <- & _).
  destruct (dk_parent _ _ _ _ _ (rk_dirs _ _ H) _ _ d e par Hl) as [-> ?]; try done.
  set_solver.
Qed.

Section remove.
Context (L : gmap ptr (list ptr)) (s : fs) (vdir vn : ptr) (dv v : vnode) (cnp : componentnam).
Context (es : list (string * ptr)).
Context (H : ramfs_ok L s) (Hdv : fs_vnodes s !! vdir = Some dv) (Hv : fs_vnodes s !! vn = Some v).
Context (Hdir : v_type dv = VDIR) (Hname : cn_name cnp ≠ EmptyString).
Context (Hes : abs L s !! v_data dv = Some es).

Lemma remove_ok :
  v_type v ≠ VDIR → lookup_entry (is_name (cn_name cnp)) es = Some (v_data v) →
  ∃ L' s', ramfs_remove vdir vn cnp s = Ok (0, s') ∧ ramfs_ok L' s' ∧
    abs L' s' = <[v_data dv := remove_entry (is_name (cn_name cnp)) es]> (abs L s) ∧
    relinked s s'.
Proof.
  intros Ht Hlook.
  destruct (ramfs_dir _ _ _ _ H Hdv Hdir) as (n & h & par & q & l & Hn & Hlk & Etn & Ed & Hl & Hdl & _).
  destruct (ramfs_vnode _ _ _ _ H Hv) as (nx & Hnx & _ & Ext & _).
  pose proof (dir_lookup_abs _ _ _ _ _ _ _ _ _ _ _ _ (rk_dirs _ _ H) Hn Hlk Ed Hl Hdl Hes Hname) as Hfind.
  rewrite Hlook in Hfind. destruct Hfind as (l1 & d & l2 & e & -> & Hd0 & Hd & He & Erun & Erem).
  unfold ramfs_remove. do 2 kstep. rewrite (decide_False (P := v_type v = VDIR)) by done.
  rewrite decide_False by naive_solver. rewrite (bind_ok _ _ _ _ _ Erun).
  rewrite decide_False by done. kstep. rewrite decide_False by naive_solver.
  assert (v_data v ≠ v_data dv) by congruence.
  pose proof (rk_dirs _ _ H) as HD. apply (dirs_off_zero (v_data v)) in HD.
  assert (is_udir (rn_data nx) = false) as Hu.
  { rewrite (data_ok_dir _ (dk_data _ _ _ _ _ HD _ _ Hnx)). apply bool_decide_eq_false. congruence. }
  assert (0 < rn_linkcount nx) as Hc.
  { rewrite (dk_links _ _ _ _ _ HD _ _ Hnx), decide_True by done. pose proof (refs_pos _ _ _ Hd).
    rewrite He in *. unfold links. destruct (rn_data nx); try done; lia. }
  destruct (drop_entry_ok s L (v_data v) (v_data dv) d 0 l1 l2 n nx h par q e)
    as (N & D & E & HD' & HN & Hsh & Hb & Hent); try done; [apply (rk_chain _ _ H)| |].
  { intros h0 par0 q0 E0. by rewrite E0 in Hu. }
  exists (<[v_data dv := l1 ++ l2]> L), (upd_nodes (λ _, N) (upd_dents (λ _, D) s)). split_and!.
  - exact E.
  - rewrite Hu in HD'. apply dirs_off_zero in HD'.
    apply (ramfs_ok_shape L); try done. apply Hb, (rk_dents _ _ H).
  - rewrite Erem. by apply (drop_abs (v_data v) 0 L (fs_nodes s) _ _ _ l1 d l2).
  - by split.
Qed.

(** The guards. *)
Lemma remove_isdir : v_type v = VDIR → ramfs_remove vdir vn cnp s = Ok (- EISDIR, s).
Proof. intros Ht. unfold ramfs_remove. do 2 kstep. by rewrite decide_True. Qed.

(** The name is not, or not first, bound to the node: the kernel stops. *)
Lemma remove_panic :
  v_type v ≠ VDIR → lookup_entry (is_name (cn_name cnp)) es ≠ Some (v_data v) →
  ramfs_remove vdir vn cnp s = Panic "ramfs_remove: parent".
Proof.
  intros Ht Hlook.
  destruct (ramfs_dir _ _ _ _ H Hdv Hdir) as (n & h & par & q & l & Hn & Hlk & Etn & Ed & Hl & Hdl & _).
  pose proof (dir_lookup_abs _ _ _ _ _ _ _ _ _ _ _ _ (rk_dirs _ _ H) Hn Hlk Ed Hl Hdl Hes Hname) as Hf.
  unfold ramfs_remove. do 2 kstep. rewrite (decide_False (P := v_type v = VDIR)) by done.
  rewrite decide_False by naive_solver.
  destruct (lookup_entry _ es) as [x|].
  - destruct Hf as (l1 & d & l2 & e & -> & Hd0 & Hd & He & Erun & _).
    rewrite (bind_ok _ _ _ _ _ Erun). rewrite decide_False by done. kstep.
    rewrite decide_True by congruence. done.
  - rewrite (bind_ok _ _ _ _ _ Hf). by rewrite decide_True.
Qed.

Lemma rmdir_ok :
  v_type v = VDIR → is_dotdot cnp = false → abs L s !! v_data v = Some [] →
  lookup_entry (is_name (cn_name cnp)) es = Some (v_data v) →
  ∃ L' s', ramfs_rmdir vdir vn cnp s = Ok (0, s') ∧ ramfs_ok L' s' ∧
    abs L' s' = <[v_data dv := remove_entry (is_name (cn_name cnp)) es]> (abs L s) ∧
    relinked s s'.
Proof.
  intros Ht Hdd Hempty Hlook.
  destruct (ramfs_dir _ _ _ _ H Hdv Hdir) as (n & h & par & q & l & Hn & Hlk & Etn & Ed & Hl & Hdl & _).
  destruct (ramfs_dir _ _ _ _ H Hv Ht) as
    (nx & h' & par' & q' & l' & Hnx & Hlkx & _ & Exd & Hlx & Hdlx & _).
  destruct (entry_parent _ _ _ _ _ _ par' H Hes Hlook) as [-> Hxp];
    [unfold dir_parent; rewrite Hnx; simpl; by rewrite Exd|].
  assert (h' = NULL) as ->.
  { unfold abs in Hempty. rewrite lookup_fmap, Hlx in Hempty. injection Hempty as Hempty.
    destruct l' as [|d' l']; [done|]. destruct Hdlx as (_ & _ & e & He & _). simpl in Hempty.
    by rewrite He in Hempty. }
  unfold ramfs_rmdir. do 2 kstep. rewrite Hdd. do 2 kstep. unfold as_dir. simpl. rewrite Exd. kstep.
  rewrite decide_False by naive_solver. simpl. do 2 kstep.
  set (s1 := upd_nodes (insert (v_data v) (add_linkcount (-1) nx)) s).
  match goal with |- context [ mbind _ _ ?t = _ ] => replace t with s1 end.
  2:{ apply fs_eq; try done. simpl. rewrite !insert_insert_eq. f_equal.
      destruct nx; simpl in *; by subst. }
  pose proof (proj2 (dirs_off_zero (v_data v) _ _ _) (rk_dirs _ _ H)) as HD.
  pose proof (dirs_add_linkcount _ _ (-1) _ _ _ _ HD Hnx) as HD1.
  assert (fs_nodes s1 !! v_data dv = Some n) as Hn1 by (simpl; by rewrite lookup_insert_ne).
  pose proof (dir_lookup_abs _ _ _ s1 _ _ _ _ _ _ _ _ HD1 Hn1 Hlk Ed Hl Hdl Hes Hname) as Hf.
  rewrite Hlook in Hf. destruct Hf as (l1 & d & l2 & e & -> & Hd0 & Hd & He & Erun & Erem).
  rewrite (bind_ok _ _ _ _ _ Erun). rewrite decide_False by done. kstep.
  rewrite decide_False by naive_solver.
  assert (rn_linkcount nx = 2) as Hc.
  { apply (empty_dir_links L (fs_nodes s) (fs_dents s) (v_data v) nx (v_data dv) q' d e l'); try done.
    apply (rk_dirs _ _ H). }
  destruct (drop_entry_ok s1 L (v_data v) (v_data dv) d (-1) l1 l2 n (add_linkcount (-1) nx) h par q e)
    as (N & D & E & HD' & HN & Hsh & Hb & Hent); simpl; try done.
  { apply (chain_ok_same _ _ nx); try done. apply (rk_chain _ _ H). }
  { by rewrite lookup_insert_eq. }
  { lia. }
  { rewrite Exd. intros h0 par0 q0 [= <- <- <-]. done. }
  exists (<[v_data dv := l1 ++ l2]> L), (upd_nodes (λ _, N) (upd_dents (λ _, D) s1)). split_and!.
  - exact E.
  - simpl in HD'. rewrite Exd in HD'. apply dirs_off_zero in HD'.
    apply (ramfs_ok_shape L _ s); try done; [|apply Hb, (rk_dents _ _ H)].
    rewrite <-Hsh. symmetry. by apply (shape_equiv_update _ _ nx).
  - rewrite Erem. by apply (drop_abs (v_data v) 0 L (fs_nodes s) _ _ _ l1 d l2).
  - split; try done. simpl. rewrite <-Hsh. symmetry. by apply (shape_equiv_update _ _ nx).
Qed.

(** A directory with entries stays. *)
Lemma rmdir_notempty ex :
  v_type v = VDIR → is_dotdot cnp = false → abs L s !! v_data v = Some ex → ex ≠ [] →
  dir_parent (fs_nodes s) (v_data v) = Some (v_data dv) →
  ramfs_rmdir vdir vn cnp s = Ok (- ENOTEMPTY, s).
Proof.
  intros Ht Hdd Hex Hne Hpar.
  destruct (ramfs_dir _ _ _ _ H Hv Ht) as
    (nx & h' & par' & q' & l' & Hnx & Hlkx & _ & Exd & Hlx & Hdlx & _).
  assert (par' = v_data dv) as -> by (unfold dir_parent in Hpar; rewrite Hnx in Hpar; simpl in Hpar;
    rewrite Exd in Hpar; by injection Hpar).
  assert (h' ≠ NULL) as Hh.
  { unfold abs in Hex. rewrite lookup_fmap, Hlx in Hex. injection Hex as <-.
    destruct l' as [|d' l']; [done|]. by destruct Hdlx as (-> & ? & _). }
  unfold ramfs_rmdir. do 2 kstep. rewrite Hdd. do 2 kstep. unfold as_dir. simpl. rewrite Exd. kstep.
  rewrite decide_False by naive_solver. rewrite decide_True by done. kstep.
  same_state. apply insert_id. destruct nx; simpl in *; by subst.
Qed.

(** [..] as the name is refused before anything else. *)
Lemma rmdir_dotdot : is_dotdot cnp = true → ramfs_rmdir vdir vn cnp s = Ok (- ENOTEMPTY, s).
Proof. intros Hdd. unfold ramfs_rmdir. do 2 kstep. by rewrite Hdd. Qed.

End remove.

(** ** Hard links *)

Lemma ramfs_ok_brk L s b : ramfs_ok L s → fs_brk s ≤ b → ramfs_ok L (upd_brk (λ _, b) s).
Proof.
  intros [] Hb. split; simpl; try done; [lia|by eapply below_mono..].
Qed.

(** An entry that is not in any list. *)
Lemma lists_fresh L s d :
  ramfs_ok L s → fs_brk s ≤ d → ∀ y l, L !! y = Some l → d ∉ l.
Proof.
  intros H Hb y l Hy.
  destruct (dk_list _ _ _ _ _ (rk_dirs _ _ H) _ _ Hy) as (n & ? & ? & ? & Hn & En).
  destruct (dk_dir _ _ _ _ _ (rk_dirs _ _ H) _ _ _ _ _ Hn En) as (_ & _ & l' & ? & Hdl & _).
  simplify_eq. eapply dlist_fresh; [|exact Hdl]. apply (below_fresh d).
  eapply below_mono; [|apply (rk_dents _ _ H)]. done.
Qed.

Section link.
Context (L : gmap ptr (list ptr)) (s : fs) (vdir vn : ptr) (dv v : vnode) (cnp : componentnam).
Context (es : list (string * ptr)) (q : Z).
Context (H : ramfs_ok L s) (Hdv : fs_vnodes s !! vdir = Some dv) (Hv : fs_vnodes s !! vn = Some v).
Context (Hdir : v_type dv = VDIR) (Ht : v_type v ≠ VDIR) (Hname : cn_name cnp ≠ EmptyString).
Context (Hes : abs L s !! v_data dv = Some es) (Hq : next_seq s (v_data dv) = Some q).
Context (Hq2 : q + 1 < 2 ^ 64).

(** A new entry for a file; its name is the rest of the path. *)
Lemma link_ok :
  ∃ L' s', ramfs_link vdir vn cnp s = Ok (0, s') ∧ ramfs_ok L' s' ∧
    abs L' s' = <[v_data dv := (cn_name cnp, v_data v) :: es]> (abs L s) ∧
    relinked s s'.
Proof.
  destruct (ramfs_dir _ _ _ _ H Hdv Hdir) as (n & h & par & q' & l & Hn & Hlk & Etn & Ed & Hl & Hdl & _).
  assert (q' = q) as -> by (unfold next_seq in Hq; rewrite Hn, Ed in Hq; congruence).
  destruct (ramfs_vnode _ _ _ _ H Hv) as (nx & Hnx & _ & Ext & Hlkx).
  assert (v_data v ≠ v_data dv) as Hxp by congruence.
  pose proof (proj2 (dirs_off_zero (v_data v) _ _ _) (rk_dirs _ _ H)) as HD.
  assert (is_udir (rn_data nx) = false) as Hu.
  { rewrite (data_ok_dir _ (dk_data _ _ _ _ _ HD _ _ Hnx)). apply bool_decide_eq_false. congruence. }
  set (d := fs_brk s).
  set (N := <[v_data dv := add_linkcount 1 (set_data (UDir d par (u64 (q + 1))) n)]>
              (<[v_data v := add_linkcount 1 nx]> (fs_nodes s))).
  set (D := <[d := Ramdentry h (v_data v) q (cn_name cnp)]> (fs_dents s)).
  assert (shape_equiv (fs_nodes s) N) as Hsh.
  { unfold N. rewrite (shape_equiv_update _ _ n); [|by rewrite lookup_insert_ne|].
    - symmetry. by apply (shape_equiv_update _ _ nx).
    - unfold shape. simpl. by rewrite Ed. }
  assert (fs_dents s !! d = None) as Hd by apply (below_fresh _ _ (rk_dents _ _ H)).
  pose proof (rk_pos _ _ H) as Hpos. fold d in Hpos.
  exists (<[v_data dv := d :: l]> L),
    (upd_nodes (λ _, N) (upd_dents (λ _, D) (upd_brk (λ _, d + 1) s))). split_and!.
  - unfold ramfs_link. do 2 kstep.
    rewrite (bind_ok _ _ _ _ _ (ramfs_alloc_dentry_ok s _ nx _ Hnx Hlkx Hname)).
    erewrite (bind_ok (ramfs_dir_attach _ _)).
    2:{ eapply (ramfs_dir_attach_ok _ _ n _ _ h par q); simpl; try done.
        - by rewrite lookup_insert_ne.
        - by rewrite lookup_insert_eq. }
    same_state.
  - apply (ramfs_ok_shape L); simpl; try done; [apply ramfs_ok_brk; [done|unfold d; lia]|..].
    + apply below_insert; [lia|]. eapply below_mono; [|apply (rk_dents _ _ H)]. unfold d. lia.
    + eapply (chain_ok_same _ _ n); [|by rewrite lookup_insert_ne|done..].
      apply (chain_ok_same _ _ nx); try done. apply (rk_chain _ _ H).
    + apply (dirs_off_zero (v_data v)).
      change 0 with (0 - (if false then 1 else 0)). rewrite <-Hu.
      apply (dirs_link_entry _ 0 L _ _ _ n h par q l nx); try done; [unfold NULL; lia|].
      intros h' par' q' E. by rewrite E in Hu.
  - unfold abs in *. simpl. rewrite lookup_fmap, Hl in Hes. injection Hes as <-.
    rewrite fmap_insert. simpl. unfold D at 1. rewrite lookup_insert_eq. simpl.
    unfold D. rewrite entries_insert by (eapply lists_fresh; [done|reflexivity|done]).
    f_equal. apply abs_ext. intros y l' Hy. apply entries_insert.
    eapply lists_fresh; [done|reflexivity|done].
  - by split.
Qed.

End link.
