(* ===== verification/RamfsLookup.v ===== *)
(** * Looking up names, and the life of vnodes and mounts

    [ramfs_vget], [ramfs_lookup], [ramfs_inactive] and [ramfs_mount].  The
    effect of [ramfs_vget] is the function [vget_state]: another reference to
    the vnode of the node, or a new vnode. *)

From S2P Require Import Prelude CString FsState Ramfs RamfsDir RamfsOps RamfsInv RamfsSpec RamfsUnlink.

Local Open Scope Z_scope.

(** ** [ramfs_vget] *)

Definition vget_state (vfs x : ptr) (s : fs) : ptr * fs :=
  match fs_nodes s !! x with
  | None => (NULL, s)
  | Some n =>
      if decide (rn_vnode n = NULL) then
        (fs_brk s,
         upd_nodes (insert x (set_vnode (fs_brk s) n))
           (upd_vnodes (insert (fs_brk s) (Vnode vfs NULL (rn_type n) 1 (vget_flags s x n) 0 x))
             (upd_brk Z.succ s)))
      else (rn_vnode n, upd_vnodes (alter (add_refcount 1) (rn_vnode n)) s)
  end.

(** The vnode of the node, if there is one, is not locked. *)
Definition vget_ready (s : fs) (n : ramnode) : Prop :=
  rn_vnode n = NULL ∨ ∃ v, fs_vnodes s !! rn_vnode n = Some v ∧ v_lock v = 0.

Lemma vget_run s vfs x n :
  fs_nodes s !! x = Some n → rn_ramlock n = 0 → data_ok n → vget_ready s n →
  ramfs_vget vfs x s = Ok ((0, (vget_state vfs x s).1), (vget_state vfs x s).2).
Proof.
  intros Hx Hlk Hd Hr. unfold vget_state. rewrite Hx. destruct (decide (rn_vnode n = NULL)).
  - simpl. by apply ramfs_vget_new.
  - destruct Hr as [|(v & Hv & Lv)]; [done|]. simpl.
    rewrite (ramfs_vget_old s vfs x n (rn_vnode n) v) by done. same_state.
    apply map_eq. intros b. rewrite lookup_insert.
    case_decide; subst; [by rewrite lookup_alter_eq, Hv|by rewrite lookup_alter_ne].
Qed.

(** The call commutes with a change of the lock of another node. *)
Lemma vget_state_lock s vfs x p n k :
  fs_nodes s !! p = Some n → x ≠ p →
  vget_state vfs x (upd_nodes (insert p (set_ramlock k n)) s) =
    ((vget_state vfs x s).1, upd_nodes (insert p (set_ramlock k n)) (vget_state vfs x s).2).
Proof.
  intros Hp Hx. unfold vget_state. simpl. rewrite lookup_insert_ne by done.
  destruct (fs_nodes s !! x) as [nx|]; [|done]. destruct (decide (rn_vnode nx = NULL)); [|done].
  simpl. f_equal. apply fs_eq; simpl; try done. by rewrite insert_insert_ne.
Qed.

Lemma vget_other s vfs x p : x ≠ p → fs_nodes (vget_state vfs x s).2 !! p = fs_nodes s !! p.
Proof.
  intros Hx. unfold vget_state. destruct (fs_nodes s !! x) as [n|]; [|done].
  case_decide; simpl; [|done]. by rewrite lookup_insert_ne.
Qed.

Lemma vget_inv L s vfs x n m r :
  ramfs_ok L s → fs_nodes s !! x = Some n → fs_vfss s !! vfs = Some m → fs_rams s !! m_data m = Some r →
  ramfs_ok L (vget_state vfs x s).2.
Proof.
  intros H Hx Hm Hr. unfold vget_state. rewrite Hx. destruct (decide (rn_vnode n = NULL)) as [Hv|Hv]; simpl.
  - pose proof (rk_pos _ _ H) as Hpos.
    assert (∀ A (t : gmap ptr A), below (fs_brk s) t → below (Z.succ (fs_brk s)) t) as Hup
      by (intros; eapply below_mono; [|done]; lia).
    destruct H. split; simpl; try done; try lia; auto.
    + apply below_update; [by eexists|]. by apply Hup.
    + apply below_insert; [lia|]. by apply Hup.
    + by rewrite (core_equiv_update _ _ _ _ Hx).
    + by apply (chain_ok_same _ _ n).
    + apply vn_ok_get; try done; [apply (below_null _ _ rk_vnodes)|].
      apply (below_fresh _ _ rk_vnodes).
    + intros a v [[<- <-]|[? Ha]]%lookup_insert_Some; [eauto|]. by eapply rk_vfs.
    + intros b r' Hb. destruct (rk_ram _ _ Hb) as [? ?].
      split; [by apply chain_ptr_insert|]. eapply is_dir_update; [done| |done].
      intros h par q' E. by do 2 eexists.
  - destruct (vk_node _ _ (rk_vn _ _ H) _ _ Hx) as [|(v & Ha & Ev)]; [done|].
    assert (alter (add_refcount 1) (rn_vnode n) (fs_vnodes s) =
            <[rn_vnode n := add_refcount 1 v]> (fs_vnodes s)) as E.
    { apply map_eq. intros b. rewrite lookup_insert.
      case_decide; subst; [by rewrite lookup_alter_eq, Ha|by rewrite lookup_alter_ne]. }
    destruct (vk_vnode _ _ (rk_vn _ _ H) _ _ Ha) as (Hpos & _).
    destruct H. split; simpl; rewrite ?E; try done.
    + by apply below_update.
    + apply (vn_ok_write _ _ _ v); try done. simpl. lia.
    + intros a w [[<- <-]|[? Ha']]%lookup_insert_Some; simpl; by eapply rk_vfs.
Qed.

(** Directories and contents are not touched. *)
Lemma vget_abs L s vfs x : abs L (vget_state vfs x s).2 = abs L s.
Proof. unfold vget_state. destruct (fs_nodes s !! x); [|done]. by case_decide. Qed.

Lemma vget_core s vfs x : core_equiv (fs_nodes s) (fs_nodes (vget_state vfs x s).2).
Proof.
  unfold vget_state. destruct (fs_nodes s !! x) as [n|] eqn:Hx; [|done]. case_decide; [|done].
  simpl. symmetry. by apply (core_equiv_update _ _ n).
Qed.

(** The vnode that is returned belongs to the node. *)
Lemma vget_vnode L s vfs x n :
  ramfs_ok L s → fs_nodes s !! x = Some n →
  ∃ v, fs_vnodes (vget_state vfs x s).2 !! (vget_state vfs x s).1 = Some v ∧
    v_data v = x ∧ v_type v = rn_type n.
Proof.
  intros H Hx. unfold vget_state. rewrite Hx. destruct (decide (rn_vnode n = NULL)); simpl.
  - eexists. by rewrite lookup_insert_eq.
  - destruct (vk_node _ _ (rk_vn _ _ H) _ _ Hx) as [|(v & Ha & Ev)]; [done|].
    exists (add_refcount 1 v). rewrite lookup_alter_eq, Ha. split_and!; [done..|]. simpl.
    destruct (vk_vnode _ _ (rk_vn _ _ H) _ _ Ha) as (_ & n' & ? & _ & ->). congruence.
Qed.

(** ** [ramfs_lookup] *)

(** The component is a prefix of the name. *)
Lemma matches_prefix cnp e :
  (cn_len cnp ≤ String.length (cn_name cnp))%nat →
  matches cnp e = String.prefix (component cnp) (de_name e).
Proof.
  intros Hc. assert (String.length (component cnp) = cn_len cnp) as El.
  { unfold component. revert Hc. generalize (cn_len cnp), (cn_name cnp). intros k name. revert k.
    induction name as [|c name IH]; intros [|k] Hk; simpl in *; try done; try lia.
    by rewrite IH by lia. }
  unfold matches. apply eq_bool_prop_intro. rewrite bool_decide_spec, <-El.
  by rewrite Is_true_true, String.prefix_correct.
Qed.

Section lookup.
Context (L : gmap ptr (list ptr)) (s : fs) (vdir vpp : ptr) (dv : vnode) (cnp : componentnam).
Context (es : list (string * ptr)).
Context (H : ramfs_ok L s) (Hdv : fs_vnodes s !! vdir = Some dv) (Hdir : v_type dv = VDIR).
Context (Hc : (0 < cn_len cnp ≤ String.length (cn_name cnp))%nat).
Context (Hes : abs L s !! v_data dv = Some es).

(** The first entry whose name starts with the component. *)
Let found : option ptr := lookup_entry (String.prefix (component cnp)) es.

Lemma lookup_ent (Hdot : cn_name cnp ≠ "."%string) (Hdd : cn_name cnp ≠ ".."%string) :
  match found with
  | None => ramfs_lookup vdir vpp cnp s = Ok ((- ENOENT, NULL), s)
  | Some x => ∀ n, fs_nodes s !! x = Some n → vget_ready s n →
      ramfs_lookup vdir vpp cnp s =
        Ok ((0, (vget_state (v_vfs dv) x s).1), (vget_state (v_vfs dv) x s).2)
  end.
Proof.
  destruct (ramfs_dir _ _ _ _ H Hdv Hdir) as (n & h & par & q & l & Hn & Hlk & Etn & Ed & Hl & Hdl & _).
  assert (es = entries (fs_dents s) l) as Ees.
  { unfold abs in Hes. rewrite lookup_fmap, Hl in Hes. by injection Hes. }
  assert (cn_name cnp ≠ EmptyString) as Hne by (destruct (cn_name cnp); simpl in Hc; [lia|done]).
  pose proof (find_ent_entries (String.prefix (component cnp)) _ _ _ Hdl) as Hf.
  rewrite <-Ees in Hf. fold found in Hf.
  set (s1 := upd_nodes (insert (v_data dv) (set_ramlock 1 n)) s).
  assert (ramfs_lookup vdir vpp cnp s =
    ((if decide (find_ent (fs_dents s) (matches cnp) l = NULL) then mret (- ENOENT, NULL) else
      d ← load (find_ent (fs_dents s) (matches cnp) l);
      '(_, vn) ← ramfs_vget (v_vfs dv) (de_node d); mret (0, vn))
     ≫= λ r, release_ram (v_data dv);; mret r) s1) as ->.
  { assert (length l < S (size (fs_dents s1)))%nat as Hlen
      by (pose proof (dlist_length _ _ _ Hdl); simpl; lia).
    unfold ramfs_lookup. do 2 kstep. rewrite decide_False by naive_solver. fold s1.
    rewrite bind_assoc, (bind_ok _ _ _ _ _ (cstrcmp_ok _ "." s1 Hne (ltac:(done)))).
    rewrite decide_False by (by rewrite decide_False).
    rewrite bind_assoc, (bind_ok _ _ _ _ _ (cstrcmp_ok _ ".." s1 Hne (ltac:(done)))).
    rewrite bind_assoc. kstep. rewrite bind_assoc. unfold as_dir. simpl. rewrite Ed. kstep.
    rewrite decide_False by (by rewrite decide_False).
    rewrite bind_assoc, (bind_ok _ _ _ _ _ (dents_fuel_ok _)), bind_assoc.
    rewrite (bind_ok _ _ _ _ _ (lookup_loop_ok s1 _ h l cnp Hdl (proj2 Hc) Hlen)). done. }
  assert (find_ent (fs_dents s) (matches cnp) l =
    find_ent (fs_dents s) (λ e, String.prefix (component cnp) (de_name e)) l) as ->.
  { clear -Hc. induction l as [|d l IH]; simpl; [done|]. destruct (fs_dents s !! d) as [e|]; [|done].
    by rewrite matches_prefix, IH by lia. }
  destruct found as [x|] eqn:Ef.
  - destruct Hf as (l1 & d & l2 & e & -> & -> & Hd0 & Hd & <- & _). intros nx Hnx Hr.
    assert (de_node e ≠ v_data dv) as Hxp.
    { intros E. destruct (entry_parent _ _ _ _ _ _ par H Hes Ef) as [_ ?]; [|congruence].
      unfold dir_parent. rewrite E, Hn. simpl. by rewrite Ed. }
    rewrite decide_False by done. rewrite bind_assoc. kstep.
    rewrite bind_assoc. erewrite (bind_ok (ramfs_vget _ _)).
    2:{ apply (vget_run s1 _ _ nx); [simpl; by rewrite lookup_insert_ne| | |done].
        - by apply (dk_lock _ _ _ _ _ (rk_dirs _ _ H) _ _ Hnx).
        - by apply (dk_data _ _ _ _ _ (rk_dirs _ _ H) _ _ Hnx). }
    unfold s1. rewrite (vget_state_lock s _ _ _ n) by done. cbn [fst snd]. do 2 kstep. same_state.
    apply insert_id. rewrite vget_other by done. rewrite Hn. f_equal. destruct n; simpl in *; by subst.
  - rewrite Hf. simpl. kstep. kstep. same_state.
    apply insert_id. rewrite Hn. f_equal. destruct n; simpl in *; by subst.
Qed.

(** [.] is another reference to the directory itself; no search is done. *)
Lemma lookup_dot :
  cn_name cnp = "."%string →
  ramfs_lookup vdir vpp cnp s = Ok ((0, vdir), upd_vnodes (insert vdir (add_refcount 1 dv)) s).
Proof.
  intros Hn'. destruct (ramfs_dir _ _ _ _ H Hdv Hdir) as (n & h & par & q & l & Hn & Hlk & _).
  unfold ramfs_lookup. do 2 kstep. rewrite decide_False by naive_solver. rewrite Hn'.
  rewrite bind_assoc, (bind_ok _ _ _ (0) _ eq_refl). simpl. rewrite bind_assoc. do 3 kstep.
  same_state. apply insert_id. rewrite Hn. f_equal. destruct n; simpl in *; by subst.
Qed.

(** [..] in the root directory spins on the lock the call already holds. *)
Lemma lookup_dotdot_root :
  cn_name cnp = ".."%string → dir_parent (fs_nodes s) (v_data dv) = Some (v_data dv) →
  ramfs_lookup vdir vpp cnp s = Hang.
Proof.
  intros Hn' Hpar. destruct (ramfs_dir _ _ _ _ H Hdv Hdir) as (n & h & par & q & l & Hn & Hlk & _ & Ed & _).
  assert (par = v_data dv) as ->.
  { unfold dir_parent in Hpar. rewrite Hn in Hpar. simpl in Hpar. rewrite Ed in Hpar. by injection Hpar. }
  unfold ramfs_lookup. do 2 kstep. rewrite decide_False by naive_solver. rewrite Hn'.
  rewrite bind_assoc, (bind_ok _ _ _ (-1) _ eq_refl). simpl.
  rewrite bind_assoc, (bind_ok _ _ _ (0) _ eq_refl). rewrite bind_assoc. kstep.
  rewrite bind_assoc. unfold as_dir. simpl. rewrite Ed. kstep. rewrite bind_assoc.
  apply bind_hang. unfold ramfs_vget. apply bind_hang.
  eapply acquire_ram_hang; [simpl; by rewrite lookup_insert_eq|done].
Qed.

End lookup.

(** ** [ramfs_inactive] *)

(** The last reference to a vnode goes away while the node is linked. *)
Lemma inactive_linked s vn v n :
  fs_vnodes s !! vn = Some v → fs_nodes s !! v_data v = Some n → rn_ramlock n = 0 →
  rn_linkcount n ≠ 0 →
  ramfs_inactive vn s = Ok (tt, upd_nodes (insert (v_data v) (set_vnode NULL n)) s).
Proof.
  intros Hv Hn Hlk Hc. unfold ramfs_inactive. do 4 kstep. rewrite decide_False by done. kstep.
  erewrite release_ram_ok by solve_table. same_state. f_equal. destruct n; simpl in *; by subst.
Qed.

Lemma free_node_release s ram nd n :
  fs_nodes s !! nd = Some n → nd ≠ NULL → chain_ptr (fs_nodes s) (rn_next n) →
  (ramfs_free_node ram nd;; release_ram nd) s = Fault DanglingPtr.
Proof.
  intros Hn Hnd Hc. unfold ramfs_free_node. rewrite bind_assoc. kstep.
  set (u := if decide (rn_next n ≠ NULL) then _ else _).
  assert (∃ N, u s = Ok (tt, upd_nodes (λ _, N) s) ∧ is_Some (N !! nd)) as (N & Eu & [m Hm]).
  { unfold u. destruct Hc as [Hz|[m Hm]]; [|destruct (decide (rn_next n ≠ NULL))].
    - rewrite decide_False by naive_solver. exists (fs_nodes s). split; [by destruct s|eauto].
    - eexists. split; [erewrite update_ok by solve_table; reflexivity|].
      simpl. rewrite lookup_insert. case_decide; eauto.
    - exists (fs_nodes s). split; [by destruct s|eauto]. }
  rewrite bind_assoc, (bind_ok _ _ _ _ _ Eu), bind_assoc. kstep.
  erewrite bind_ok by (eapply kfree_ok; [done|solve_table]). unfold release_ram.
  apply update_dangling; [|done]. simpl. apply lookup_delete_eq.
Qed.

(** The last reference to a vnode goes away after its last name did: the node
    is freed, and its lock released in the freed memory. *)
Lemma inactive_unlinked L s vn v n :
  ramfs_ok L s → fs_vnodes s !! vn = Some v → fs_nodes s !! v_data v = Some n →
  rn_linkcount n = 0 → ramfs_inactive vn s = Fault DanglingPtr.
Proof.
  intros H Hv Hn Hc. pose proof (dk_lock _ _ _ _ _ (rk_dirs _ _ H) _ _ Hn) as Hlk.
  destruct (rk_vfs _ _ H _ _ Hv) as (m & r & Hm & Hr).
  unfold ramfs_inactive. do 4 kstep. rewrite decide_True by done.
  rewrite bind_assoc. kstep. destruct (rk_chain _ _ H _ _ Hn) as [_ Hnx].
  assert (v_data v ≠ NULL) by (intros E; rewrite E, (below_null _ _ (rk_nodes _ _ H)) in Hn; done).
  eapply free_node_release; [simpl; by rewrite lookup_insert_eq|done|simpl].
  by do 2 apply chain_ptr_insert.
Qed.

(** ** [ramfs_mount] *)

(** The empty store of a boot. *)
Definition no_fs (ram : ptr → Z → Z) (b : ptr) (V : gmap ptr vfs) : fs :=
  Fs ∅ ∅ ∅ V ∅ b ram NULL NULL NULL 0.


Lemma no_fs_ok ram b V : (∀ p o, ram p o = 0) → 0 < b → ramfs_ok ∅ (no_fs ram b V).
Proof.
  intros Hz Hb.
  assert (∀ A : Type, below b (∅ : gmap ptr A)) as Hbelow
    by (intros A p [x Hx]; by rewrite lookup_empty in Hx).
  by split.
Qed.

Section mount.
Context (L : gmap ptr (list ptr)) (s : fs) (vfs : ptr) (m : FsState.vfs).
Context (H : ramfs_ok L s) (Hm : fs_vfss s !! vfs = Some m).

Let ram := fs_brk s.
Let root := fs_brk s + 1.
Let mounted : FsState.vfs := Vfs (m_next m) (m_mountpoint m) (m_flags m) ram.
Let root_node : ramnode := add_linkcount 1 (new_node VDIR NULL NULL (UDir NULL root SEQ_START)).

Lemma mount_run :
  ∃ N, chain_equiv (<[root := root_node]> (fs_nodes s)) N ∧ chain_ok N ∧
    ramfs_mount vfs s = Ok (0,
      upd_nodes (λ _, N) (upd_rams (insert ram (Ramvfs root root))
        (upd_vfss (insert vfs mounted) (upd_brk (λ _, root + 1) s)))).
Proof.
  pose proof (rk_pos _ _ H) as Hpos. pose proof (rk_zero _ _ H) as Hz.
  unfold ramfs_mount. erewrite (bind_ok (kalloc _)) by reflexivity.
  set (s1 := upd_table _ _).
  destruct (ramfs_alloc_node_ok s1 ram (Ramvfs 0 0) NULL VDIR None (UDir NULL root SEQ_START))
    as (N & E & Eq & HN); simpl.
  - rewrite lookup_insert_eq, !Hz. done.
  - apply (below_fresh (Z.succ (fs_brk s))). eapply below_mono; [|apply (rk_nodes _ _ H)]. lia.
  - apply Hz.
  - apply (rk_chain _ _ H).
  - by left.
  - rewrite Hz. unfold root. by rewrite Z.add_1_r.
  - assert (fs_brk s1 = root) as Hb by (unfold root; simpl; lia). rewrite Hb in E, Eq. fold ram in E |- *.
    rewrite (bind_ok _ _ _ _ _ E).
    destruct (chain_equiv_lookup _ _ root _ Eq (lookup_insert_eq _ _ _)) as (nr & Hnr & Er).
    set (nr' := set_next NULL (set_prev NULL (add_linkcount 1 nr))).
    exists (<[root := nr']> N). split_and!.
    + simpl in Eq. rewrite <-Eq, insert_insert_eq.
      unfold root_node, nr'. destruct nr; simpl in Er. by injection Er as -> -> -> -> ->.
    + apply (chain_ok_update _ _ nr); try done; by left.
    + do 4 kstep. same_state.
Qed.

Lemma mount_inv N :
  chain_equiv (<[root := root_node]> (fs_nodes s)) N → chain_ok N →
  ramfs_ok (<[root := []]> L)
    (upd_nodes (λ _, N) (upd_rams (insert ram (Ramvfs root root))
      (upd_vfss (insert vfs mounted) (upd_brk (λ _, root + 1) s)))).
Proof.
  intros Eq HN. pose proof (rk_pos _ _ H) as Hpos.
  assert (fs_nodes s !! root = None) as Hroot.
  { apply (below_fresh root). eapply below_mono; [|apply (rk_nodes _ _ H)]. unfold root. lia. }
  assert (∀ A (t : gmap ptr A), below (fs_brk s) t → below (root + 1) t) as Hup
    by (intros; eapply below_mono; [|done]; unfold root; lia).
  assert (∀ y, is_dir (fs_nodes s) y → is_dir N y) as Hdir
    by (intros; apply (is_dir_chain _ _ _ Eq); by apply is_dir_insert).
  assert (is_dir N root) as Hrd.
  { apply (is_dir_chain _ _ _ Eq). do 4 eexists. by rewrite lookup_insert_eq. }
  split; simpl.
  - apply (rk_zero _ _ H).
  - unfold root. lia.
  - apply (below_chain _ _ _ Eq), below_insert; [unfold root; lia|]. apply Hup, (rk_nodes _ _ H).
  - apply Hup, (rk_dents _ _ H).
  - apply Hup, (rk_vnodes _ _ H).
  - rewrite <-Eq. apply (dirs_off_zero root).
    pose proof (dirs_add_node NULL L (fs_nodes s) (fs_dents s) root root_node (rk_dirs _ _ H) Hroot eq_refl I)
      as Hadd.
    replace 0 with (rn_linkcount root_node - links root (rn_data root_node) 0 0).
    + apply Hadd. simpl. intros ??? [= <- <- <-]. eauto.
    + unfold links. simpl. by rewrite decide_True.
  - done.
  - rewrite <-Eq. apply vn_ok_add; [apply (rk_vn _ _ H)|done..].
  - assert (∀ b, is_Some (fs_rams s !! b) → is_Some (<[ram := Ramvfs root root]> (fs_rams s) !! b))
      as Hrams by (intros b ?; rewrite lookup_insert; case_decide; eauto).
    intros a v Ha. destruct (rk_vfs _ _ H _ _ Ha) as (m' & r & Hm' & Hr).
    destruct (decide (vfs = v_vfs v)) as [<-|].
    + exists mounted, (Ramvfs root root). by rewrite !lookup_insert_eq.
    + destruct (Hrams (m_data m')) as [r' ?]; [by eexists|].
      exists m', r'. by rewrite lookup_insert_ne.
  - intros p r [[<- <-]|[? Hp]]%lookup_insert_Some; simpl.
    + split; [right|done]. destruct Hrd as (n & _ & _ & _ & ? & _). by eexists.
    + destruct (rk_ram _ _ H _ _ Hp) as [? ?]. split; [|by apply Hdir].
      rewrite <-Eq. by apply chain_ptr_insert.
Qed.

(** Mounting makes one new directory, empty, its own parent. *)
Lemma mount_ok :
  ∃ s', ramfs_mount vfs s = Ok (0, s') ∧ ramfs_ok (<[root := []]> L) s' ∧
    abs (<[root := []]> L) s' = <[root := []]> (abs L s) ∧
    dir_parent (fs_nodes s') root = Some root ∧ fs_vnodes s' = fs_vnodes s ∧
    fs_vfss s' !! vfs = Some (Vfs (m_next m) (m_mountpoint m) (m_flags m) ram) ∧
    fs_rams s' !! ram = Some (Ramvfs root root) ∧ fs_rootfs s' = fs_rootfs s ∧
    next_seq s' root = Some SEQ_START.
Proof.
  destruct mount_run as (N & Eq & HN & E). eexists. split; [exact E|]. split_and!.
  - by apply mount_inv.
  - unfold abs. by rewrite fmap_insert.
  - destruct (chain_equiv_lookup _ _ root _ Eq (lookup_insert_eq _ _ _)) as (nr & Hnr & Er).
    unfold dir_parent. simpl. rewrite Hnr. simpl. apply strip_fields in Er as (_ & _ & _ & _ & ->). done.
  - done.
  - simpl. by rewrite lookup_insert_eq.
  - simpl. by rewrite lookup_insert_eq.
  - done.
  - destruct (chain_equiv_lookup _ _ root _ Eq (lookup_insert_eq _ _ _)) as (nr & Hnr & Er).
    unfold next_seq. simpl. rewrite Hnr. simpl. apply strip_fields in Er as (_ & _ & _ & _ & ->). done.
Qed.

End mount.
