(* ===== verification/RamfsFile.v ===== *)
(** * Reading and writing files

    [ramfs_read] and [ramfs_write]: the doubling loop terminates and yields
    enough room, a write changes exactly the bytes it is given, what was
    written is read back, and the requests that leave the buffer. *)

From S2P Require Import Prelude CString FsState Ramfs RamfsDir RamfsOps RamfsInv RamfsSpec RamfsUnlink.

Local Open Scope Z_scope.

(** ** The doubling loop *)

Lemma grow_loop_ok fuel total ns :
  0 ≤ total < 2 ^ 63 → 0 < ns → total < ns * 2 ^ Z.of_nat fuel →
  (ns ≤ total + 1 ∨ ns ≤ 2 * total) →
  ∃ z, grow_loop (S fuel) total ns = Ok z ∧ total < z ∧ ns ≤ z ∧ (z ≤ total + 1 ∨ z ≤ 2 * total).
Proof.
  intros Ht. revert ns. induction fuel as [|fuel IH]; intros ns Hns Hf Hb.
  - simpl in Hf. exists ns. simpl. rewrite decide_False by lia. split_and!; [done|lia..].
  - destruct (decide (ns ≤ total)) as [Hle|Hgt].
    + assert (u64 (ns * 2) = ns * 2) as E by (apply u64_small; lia).
      destruct (IH (ns * 2)) as (z & Ez & ? & ? & ?); [lia| |lia|].
      { rewrite Nat2Z.inj_succ, Z.pow_succ_r in Hf by lia. lia. }
      exists z. split_and!; try lia. rewrite <-Ez. cbn [grow_loop]. rewrite decide_True, E by done. done.
    + exists ns. cbn [grow_loop]. rewrite decide_False by lia. split_and!; [done|lia..].
Qed.

(** The new size is larger than the end of the write, and at most twice as
    large (the smallest size is 1). *)
Lemma grow_ok total size :
  0 ≤ size ≤ total → total < 2 ^ 63 →
  ∃ z, grow total size = Ok z ∧ total < z ∧ size < z ∧ (z ≤ total + 1 ∨ z ≤ 2 * total).
Proof.
  intros Hs Ht. unfold grow. rewrite u64_small by lia.
  destruct (grow_loop_ok 64 total (size + 1)) as (z & E & ? & ? & ?); [lia|lia| |lia|].
  - change (Z.of_nat 64) with 64. nia.
  - exists z. split_and!; [done|lia..].
Qed.

(** The size after [k] doublings, which wrap. *)
Definition doubled (size : Z) (k : nat) : Z := u64 ((size + 1) * 2 ^ Z.of_nat k).

Lemma doubled_S size k : u64 (doubled size k * 2) = doubled size (S k).
Proof.
  unfold doubled, u64. rewrite Zmult_mod_idemp_l. f_equal. rewrite Nat2Z.inj_succ, Z.pow_succ_r by lia. lia.
Qed.

Lemma doubled_gone size k : (64 ≤ k)%nat → doubled size k = 0.
Proof.
  intros Hk. unfold doubled, u64. replace (Z.of_nat k) with (Z.of_nat (k - 64) + 64) by lia.
  rewrite Z.pow_add_r by lia. rewrite Z.mul_assoc. by apply Z.mod_mul.
Qed.

Lemma doubled_power i k :
  doubled (2 ^ Z.of_nat i - 1) k ≤ 2 ^ 63.
Proof.
  destruct (decide (64 ≤ i + k)%nat) as [Hge|Hlt]; unfold doubled, u64;
    replace ((2 ^ Z.of_nat i - 1 + 1) * 2 ^ Z.of_nat k) with (2 ^ (Z.of_nat (i + k))) by (rewrite Nat2Z.inj_add, Z.pow_add_r by lia; lia).
  - replace (Z.of_nat (i + k)) with (Z.of_nat (i + k - 64) + 64) by lia. rewrite Z.pow_add_r, Z.mod_mul by lia. lia.
  - assert (2 ^ Z.of_nat (i + k) ≤ 2 ^ 63) by (apply Z.pow_le_mono_r; lia). rewrite Z.mod_small; [done|]. split; [|lia].
    apply Z.pow_nonneg. lia.
Qed.

Lemma grow_loop_ends total size k : ∀ fuel j,
  (k < fuel)%nat → (∀ i, (i < k)%nat → doubled size (j + i) ≤ total) → total < doubled size (j + k) →
  grow_loop fuel total (doubled size j) = Ok (doubled size (j + k)).
Proof.
  induction k as [|k IH]; intros [|fuel] j Hf Hle Hgt; try lia; cbn [grow_loop].
  - rewrite Nat.add_0_r in *. by rewrite decide_False by lia.
  - pose proof (Hle 0%nat ltac:(lia)) as H0. rewrite Nat.add_0_r in H0. rewrite decide_True, doubled_S by done.
    replace (j + S k)%nat with (S j + k)%nat in * by lia. apply IH; [lia| |done].
    intros i Hi. replace (S j + i)%nat with (j + S i)%nat by lia. apply Hle. lia.
Qed.

Lemma grow_loop_hangs total size fuel : ∀ j,
  (∀ k, doubled size k ≤ total) → grow_loop fuel total (doubled size j) = Hang.
Proof.
  induction fuel as [|fuel IH]; intros j Hle; [done|]. cbn [grow_loop]. rewrite decide_True, doubled_S by apply Hle. by apply IH.
Qed.

Lemma grow_start total size : grow total size = grow_loop 65 total (doubled size 0).
Proof. unfold grow, doubled. by rewrite Z.mul_1_r. Qed.

(** ** Buffers *)

Lemma buf_read_all (data : option (list cell)) (s : fs) :
  buf_read (default [] data) 0 (Z.of_nat (length (default [] data))) s = Ok (default [] data, s).
Proof.
  unfold buf_read. destruct (default [] data) as [|c l]; [done|].
  rewrite decide_False by (simpl; lia). rewrite decide_True by lia.
  by rewrite Nat2Z.id, drop_0, firstn_all.
Qed.

Lemma buf_write_ok data offset count buf (s : fs) :
  0 ≤ offset → 0 ≤ count → offset + count ≤ Z.of_nat (length data) → count ≤ Z.of_nat (length buf) →
  buf_write data offset count buf s =
    Ok (list_inserts (Z.to_nat offset) (Some <$> take (Z.to_nat count) buf) data, s).
Proof.
  intros. unfold buf_write. destruct (decide (count = 0)) as [->|]; [done|].
  by rewrite decide_True.
Qed.

(** [new] is [old] with [buf] written at [offset]; what is in neither was
    never written. *)
Definition written (old new : list cell) (offset : nat) (buf : list Z) : Prop :=
  (length old ≤ length new)%nat ∧ (offset + length buf ≤ length new)%nat ∧
  ∀ i, (i < length new)%nat →
    new !! i = if decide (offset ≤ i < offset + length buf)%nat then Some <$> buf !! (i - offset)%nat
               else if decide (i < length old)%nat then old !! i else Some None.

Lemma list_inserts_0 (old : list cell) z :
  (length old ≤ z)%nat → list_inserts 0 old (replicate z None) = old ++ replicate (z - length old) None.
Proof.
  intros Hz. apply list_eq. intros i. destruct (decide (i < length old)%nat).
  - rewrite lookup_app_l by done. rewrite list_lookup_inserts by (rewrite ?length_replicate; lia).
    f_equal. lia.
  - rewrite lookup_app_r by lia. rewrite list_lookup_inserts_ge by lia.
    destruct (decide (i < z)%nat).
    + rewrite !lookup_replicate_2 by lia. done.
    + rewrite !lookup_ge_None_2; rewrite ?length_replicate; lia || done.
Qed.

Lemma written_inserts (old : list cell) z offset buf :
  (length old ≤ z)%nat → (offset + length buf ≤ z)%nat →
  written old (list_inserts offset (Some <$> buf) (old ++ replicate (z - length old) None)) offset buf.
Proof.
  intros H1 H2. set (base := old ++ _).
  assert (length base = z) as Hb by (unfold base; rewrite length_app, length_replicate; lia).
  unfold written. rewrite length_inserts, Hb. split_and!; [done..|]. intros i Hi.
  destruct (decide (offset ≤ i < offset + length buf)%nat).
  - rewrite list_lookup_inserts by (rewrite ?length_fmap; lia).
    by rewrite list_lookup_fmap.
  - destruct (decide (i < offset)%nat).
    + rewrite list_lookup_inserts_lt by lia. unfold base.
      destruct (decide (i < length old)%nat); [by rewrite lookup_app_l|].
      rewrite lookup_app_r by lia. apply lookup_replicate_2. lia.
    + rewrite list_lookup_inserts_ge by (rewrite length_fmap; lia). unfold base.
      destruct (decide (i < length old)%nat); [by rewrite lookup_app_l|].
      rewrite lookup_app_r by lia. apply lookup_replicate_2. lia.
Qed.

(** ** A file's contents change, the directories do not *)

Lemma dirs_file_update L N D x n n' :
  dirs_ok L N D → N !! x = Some n → is_udir (rn_data n) = false → is_udir (rn_data n') = false →
  rn_ramlock n' = 0 → rn_linkcount n' = rn_linkcount n → data_ok n' → dirs_ok L (<[x := n']> N) D.
Proof.
  intros H Hx Hu Hu' Hlk Hc Hd.
  assert (∀ y, is_dir N y → is_dir (<[x := n']> N) y) as Hdir.
  { intros y Hy. eapply is_dir_update; [done| |done]. intros h par r E. by rewrite E in Hu. }
  split.
  - intros p m [[<- <-]|[? Hm]]%lookup_insert_Some; [done|by eapply (dk_lock _ _ _ _ _ H)].
  - intros p m [[<- <-]|[? Hm]]%lookup_insert_Some; [done|by eapply (dk_data _ _ _ _ _ H)].
  - intros p m [[<- <-]|[? Hm]]%lookup_insert_Some; [|by apply (dk_links _ _ _ _ _ H)].
    rewrite Hc, (dk_links _ _ _ _ _ H _ _ Hx). unfold links. by destruct (rn_data n), (rn_data n').
  - intros p m h par q [[<- <-]|[? Hm]]%lookup_insert_Some Ed; [by rewrite Ed in Hu'|].
    destruct (dk_dir _ _ _ _ _ H _ _ _ _ _ Hm Ed) as (? & ?). split; [by apply Hdir|done].
  - intros p l Hp. apply Hdir. by eapply dk_list.
  - intros d e He. destruct (dk_dent _ _ _ _ _ H _ _ He) as ([m Hm] & ? & ?).
    split_and!; [|done..]. rewrite lookup_insert. case_decide; eauto.
  - by eapply dk_disj.
  - intros p l d e par Hp Hd' He. rewrite (dir_parent_update _ _ n).
    + by eapply (dk_parent _ _ _ _ _ H).
    + done.
    + by destruct (rn_data n), (rn_data n').
Qed.

Lemma ramfs_ok_file L s x n n' :
  ramfs_ok L s → fs_nodes s !! x = Some n → is_udir (rn_data n) = false → is_udir (rn_data n') = false →
  rn_prev n' = rn_prev n → rn_next n' = rn_next n → rn_vnode n' = rn_vnode n → rn_type n' = rn_type n →
  rn_ramlock n' = 0 → rn_linkcount n' = rn_linkcount n → data_ok n' →
  ramfs_ok L (upd_nodes (insert x n') s).
Proof.
  intros [] Hx Hu Hu' Ep En Ev Et Hlk Hc Hd. split; simpl; try done.
  - by apply below_update.
  - by apply (dirs_file_update _ _ _ _ n).
  - by apply (chain_ok_same _ _ n).
  - by apply (vn_ok_update _ _ _ n).
  - intros p r Hr. destruct (rk_ram _ _ Hr) as [? ?]. split; [by apply chain_ptr_insert|].
    eapply is_dir_update; [done| |done]. intros h par q E. by rewrite E in Hu.
Qed.

Lemma as_reg_ok n data size (s : fs) : rn_data n = UReg data size → as_reg n s = Ok ((data, size), s).
Proof. intros E. unfold as_reg. by rewrite E. Qed.

(** The bytes of a file: none before the first write. *)
Definition contents (data : option (list cell)) : list cell := default [] data.

Section file.
Context (L : gmap ptr (list ptr)) (s : fs) (vn : ptr) (v : vnode) (n : ramnode).
Context (data : option (list cell)) (size : Z).
Context (H : ramfs_ok L s) (Hv : fs_vnodes s !! vn = Some v) (Hn : fs_nodes s !! v_data v = Some n).
Context (Hreg : rn_data n = UReg data size).

Lemma file_size : size = Z.of_nat (length (contents data)) ∧ (data = None → size = 0) ∧ rn_ramlock n = 0.
Proof.
  split_and!; [..|by eapply (dk_lock _ _ _ _ _ (rk_dirs _ _ H))];
    pose proof (dk_data _ _ _ _ _ (rk_dirs _ _ H) _ _ Hn) as Hd; unfold data_ok in Hd; rewrite Hreg in Hd;
    by destruct (rn_type n), data.
Qed.

(** The node after the file was grown to hold [total + 1] bytes. *)
Lemma grow_step total (s1 : fs) n1 :
  0 ≤ total < 2 ^ 63 → fs_nodes s1 !! v_data v = Some n1 →
  ∃ size' base, (if decide (size ≤ total) then
     newsize ← (λ s, match grow total size with Ok z => Ok (z, s) | _ => Hang end);
     let newdata := replicate (Z.to_nat newsize) None in
     old ← buf_read (contents data) 0 size;
     update (v_data v) (set_data (UReg (Some (list_inserts 0 old newdata)) newsize))
   else mret tt) s1 =
   Ok (tt, if decide (size ≤ total) then upd_nodes (insert (v_data v) (set_data (UReg (Some base) size') n1)) s1
           else s1) ∧
   size' = Z.of_nat (length base) ∧ total < size' ∧
   base = contents data ++ replicate (length base - length (contents data)) None ∧
   (size ≤ total ∨ data = Some base).
Proof.
  intros Ht Hn1. destruct file_size as (Hs & Hnone & _). destruct (decide (size ≤ total)) as [Hle|Hgt].
  - destruct (grow_ok total size) as (z & Ez & Hz & Hz2 & _); [lia|lia|].
    exists z, (list_inserts 0 (contents data) (replicate (Z.to_nat z) None)).
    rewrite length_inserts, length_replicate. split_and!; [|lia|lia| |by left].
    + rewrite (bind_ok _ _ s1 z s1) by (by rewrite Ez). cbv beta zeta. rewrite Hs.
      rewrite (bind_ok _ _ _ _ _ (buf_read_all data s1)).
      exact (update_ok (T := ramnode) s1 (v_data v) n1 _ Hn1).
    + rewrite list_inserts_0 by lia. done.
  - destruct data as [base|]; [|specialize (Hnone eq_refl); lia].
    exists size, base. split_and!; [done|done|lia| |by right].
    simpl in *. by rewrite Nat.sub_diag, app_nil_r.
Qed.

Lemma write_ok buf offset :
  0 ≤ offset → offset + Z.of_nat (length buf) < 2 ^ 63 →
  ∃ data', let s' := upd_nodes (insert (v_data v)
      (set_data (UReg (Some data') (Z.of_nat (length data'))) n)) s in
    ramfs_write vn buf offset (Z.of_nat (length buf)) s = Ok (0, s') ∧ ramfs_ok L s' ∧
    written (contents data) data' (Z.to_nat offset) buf.
Proof.
  intros Ho Hc. destruct file_size as (Hs & _ & Hlk).
  set (total := offset + Z.of_nat (length buf)).
  set (n1 := set_ramlock 1 n).
  destruct (grow_step total (upd_nodes (insert (v_data v) n1) s) n1)
    as (size' & base & E & Hs' & Hb & Hbase & Hcase); [unfold total; lia|simpl; by rewrite lookup_insert_eq|].
  assert (length (contents data) ≤ length base)%nat as Hlen
    by (rewrite Hbase, length_app; lia).
  unfold ramfs_write. do 3 kstep.
  rewrite (bind_ok _ _ _ _ _ (as_reg_ok n1 data size _ Hreg)). cbv beta iota.
  rewrite u64_small by (unfold total in *; lia). fold total n1. rewrite (bind_ok _ _ _ _ _ E).
  set (n2 := set_data (UReg (Some base) size') n1). match goal with |- context [mbind _ _ ?t = _] =>
    replace t with (upd_nodes (insert (v_data v) n2) s) end.
  2:{ destruct (decide (size ≤ total)).
      - apply fs_eq; simpl; rewrite ?insert_insert_eq; done.
      - destruct Hcase as [|E']; [done|]. unfold n2. rewrite E' in Hs. simpl in Hs.
        rewrite Hs', <-Hs, <-E', <-Hreg. done. }
  set (data' := list_inserts (Z.to_nat offset) (Some <$> buf) base).
  assert (length data' = length base) as Hl' by (unfold data'; by rewrite length_inserts).
  exists data'. assert (Z.of_nat (length data') = size') as -> by (by rewrite Hl', <-Hs').
  assert (data_ok (set_data (UReg (Some data') size') n)) as Hdok.
  { pose proof (dk_data _ _ _ _ _ (rk_dirs _ _ H) _ _ Hn) as Hd. unfold data_ok in Hd |- *. simpl.
    rewrite Hreg in Hd. destruct (rn_type n), data; try done; by rewrite Hl'. }
  split_and!.
  - kstep. rewrite (bind_ok _ _ _ _ _ (as_reg_ok n2 (Some base) size' _ eq_refl)). cbv beta iota.
    rewrite bind_assoc.
    erewrite (bind_ok (buf_write _ _ _ _)) by (apply buf_write_ok; unfold total in *; lia).
    rewrite Nat2Z.id, firstn_all. fold data'. do 2 kstep. same_state. f_equal.
    destruct n; simpl in *. by subst.
  - apply (ramfs_ok_file L s _ n); try done. by rewrite Hreg.
  - unfold data'. rewrite Hbase. apply written_inserts; unfold total in *; lia.
Qed.

(** A read within the file returns its bytes. *)
Lemma read_ok bs offset count :
  data = Some bs → 0 ≤ offset → 0 ≤ count → offset + count ≤ size → offset + count < 2 ^ 64 →
  ramfs_read vn offset count s =
    Ok ((i32 count, take (Z.to_nat count) (drop (Z.to_nat offset) bs)), s).
Proof.
  intros Ed Ho Hc Hs Ht. destruct file_size as (Hsz & _ & Hlk). rewrite Ed in Hsz. simpl in Hsz.
  unfold ramfs_read. do 3 kstep.
  rewrite (bind_ok _ _ _ _ _ (as_reg_ok (set_ramlock 1 n) data size _ Hreg)). cbv beta iota.
  rewrite u64_small by lia. rewrite decide_False by lia. rewrite Ed, bind_assoc.
  rewrite (bind_ok _ _ _ (take (Z.to_nat count) (drop (Z.to_nat offset) bs))
    (upd_nodes (insert (v_data v) (set_ramlock 1 n)) s)).
  2:{ unfold buf_read. destruct (decide (count = 0)) as [->|]; [done|].
      by rewrite decide_True by lia. }
  do 2 kstep. same_state. apply insert_id. rewrite Hn. f_equal. destruct n; simpl in *; by subst.
Qed.

(** A read beyond the end is refused. *)
Lemma read_eof offset count :
  size < u64 (offset + count) → ramfs_read vn offset count s = Ok ((- EINVAL, []), s).
Proof.
  intros Hs. destruct file_size as (_ & _ & Hlk). unfold ramfs_read. do 3 kstep.
  rewrite (bind_ok _ _ _ _ _ (as_reg_ok (set_ramlock 1 n) data size _ Hreg)). cbv beta iota.
  rewrite decide_True by done. do 2 kstep. same_state.
  apply insert_id. rewrite Hn. f_equal. destruct n; simpl in *; by subst.
Qed.

(** A negative offset whose sum with the count wraps into the file: the copy
    starts before the buffer. *)
Lemma read_negative bs offset count :
  data = Some bs → offset < 0 → 0 < count → 0 ≤ offset + count ≤ size → size < 2 ^ 64 →
  ramfs_read vn offset count s = Fault OutOfBounds.
Proof.
  intros Ed Ho Hc Hs Hs2. destruct file_size as (_ & _ & Hlk). unfold ramfs_read. do 3 kstep.
  rewrite (bind_ok _ _ _ _ _ (as_reg_ok (set_ramlock 1 n) data size _ Hreg)). cbv beta iota.
  rewrite u64_small by lia. rewrite decide_False by lia. rewrite Ed, bind_assoc.
  apply bind_fault. unfold buf_read. rewrite !decide_False by lia. done.
Qed.

End file.
