(* ===== verification/Vfs.v ===== *)
(** * fs/vfs.c and include/franklin/fs/vfs.h: the virtual file system

    Every function of fs/vfs.c, written against the operation tables of
    [FsState] ([vnodeops], [vfsops]) as the C code is written against
    [vn->ops] and [vfs->ops].

    [fuel] bounds the three loops whose length depends on the data and not on
    the path: following symbolic links in [namei], climbing out of mounted
    file systems on [..], and entering mounted ones.  The loop of [lookup]
    over the components is bounded by the length of the path, which every
    iteration shortens.  [stk] is what the stack holds where a caller places
    its [struct nameidata]; none of the callers initialises [flags]. *)

From S2P Require Import Prelude CString FsState.
From Stdlib Require Import Ascii.
Export StrVal.

Local Open Scope Z_scope.

(** ** Paths *)

Definition is_slash (c : ascii) : bool := bool_decide (c = "/"%char).

(** [while ( *name == '/') name++;] *)
Fixpoint skip_slashes (s : string) : string :=
  match s with
  | String c s' => if is_slash c then skip_slashes s' else s
  | EmptyString => EmptyString
  end.

(** [for (cp = name; *cp && *cp != '/'; cp++) ;]: the length of the component
    and what follows it. *)
Fixpoint comp_len (s : string) : nat :=
  match s with
  | String c s' => if is_slash c then O else S (comp_len s')
  | EmptyString => O
  end.

Fixpoint after_comp (s : string) : string :=
  match s with
  | String c s' => if is_slash c then s else after_comp s'
  | EmptyString => EmptyString
  end.

Definition starts_slash (s : string) : bool :=
  match s with String c _ => is_slash c | EmptyString => false end.

(** ** Field updates *)

Definition set_nd_vdir (p : ptr) (nd : nameidata) : nameidata :=
  Nameidata p (nd_vn nd) (nd_next nd) (nd_flags nd) (nd_cn nd).
Definition set_nd_vn (p : ptr) (nd : nameidata) : nameidata :=
  Nameidata (nd_vdir nd) p (nd_next nd) (nd_flags nd) (nd_cn nd).
Definition set_nd_next (s : string) (nd : nameidata) : nameidata :=
  Nameidata (nd_vdir nd) (nd_vn nd) s (nd_flags nd) (nd_cn nd).
Definition set_nd_flags (z : Z) (nd : nameidata) : nameidata :=
  Nameidata (nd_vdir nd) (nd_vn nd) (nd_next nd) z (nd_cn nd).
Definition set_nd_cn (c : componentnam) (nd : nameidata) : nameidata :=
  Nameidata (nd_vdir nd) (nd_vn nd) (nd_next nd) (nd_flags nd) c.

Section vfs.
Context `{vops : vnodeops} `{fops : vfsops}.
Context (fuel : nat) (stk : nameidata).

(** ** References *)

Definition vref (vn : ptr) : F unit :=
  acquire_vn vn;; update vn (add_refcount 1);;
  release_vn vn.

Definition vref_locked (vn : ptr) : F unit :=
  update vn (add_refcount 1).

Definition vfs_close (vn : ptr) : F Z :=
  l ← trylock_vn vn;
  (if decide (l = 0) then acquire_vn vn else mret tt);;
  vop_close vn;;
  update vn (add_refcount (-1));;
  v ← load vn;
  (if decide (v_refcount v = 0) then
     vop_inactive vn;;
     update vn (set_v_data NULL);;
     kfree vnode vn
   else release_vn vn);;
  mret 0.

Definition vput (vn : ptr) : F unit := vfs_close vn;; mret tt.
Definition vrele (vn : ptr) : F unit := vput vn.

(** [if (p) vput (p);] *)
Definition vput_opt (p : ptr) : F unit := if decide (p = NULL) then mret tt else vput p.

(** ** Path lookup *)

(** The loop on a [..] component.  [inl vdir]: the loop ended in [break];
    [inr tt]: it ended in [goto nextname], the vnode is [rootvn]. *)
Fixpoint climb (k : nat) (vdir : ptr) : F (ptr + unit) :=
  match k with
  | O => hang
  | S k =>
      s ← get;
      if decide (vdir = fs_rootvn s) then vref vdir;; mret (inr tt) else
      acquire_vn vdir;;
      v ← load vdir;
      if decide (Z.land (v_flags v) VROOT = 0) then release_vn vdir;; mret (inl vdir) else
      m ← load (v_vfs v);
      vrele vdir;;
      vref (m_mountpoint m);;
      climb k (m_mountpoint m)
  end.

(** [while (vdir->type == VDIR && (vfs = vdir->mountedhere))]: the vnode, or
    the error of the mounted file system; [vdir] is locked on entry and, if
    there is no error, on exit. *)
Fixpoint cross (k : nat) (vdir : ptr) : F (ptr + Z) :=
  match k with
  | O => hang
  | S k =>
      v ← load vdir;
      if decide (v_type v = VDIR ∧ v_mountedhere v ≠ NULL) then
        vrele vdir;;
        '(err, root) ← vfsop_root (v_mountedhere v);
        if decide (err ≠ 0) then mret (inr err) else
        acquire_vn root;;
        cross k root
      else mret (inl vdir)
  end.

(** The loop of [lookup]; [vdir] is its local variable.  Every iteration that
    continues shortens the path, so [k] greater than its length is enough. *)
Fixpoint lookup_comps (k : nat) (vdir : ptr) (nd : nameidata) : F (Z * nameidata) :=
  match k with
  | O => hang
  | S k =>
      let name := cn_name (nd_cn nd) in
      let nd := set_nd_next (after_comp name)
                  (set_nd_cn (Componentnam name (comp_len name)) nd) in
      let nextname (vdir : ptr) (nd : nameidata) : F (Z * nameidata) :=
        match nd_next nd with
        | EmptyString => release_vn vdir;; mret (0, nd)
        | _ =>
            let nd := set_nd_cn (Componentnam (skip_slashes (nd_next nd)) (cn_len (nd_cn nd))) nd in
            vput (nd_vdir nd);;
            release_vn vdir;;
            lookup_comps k vdir nd
        end in
      if decide (name = EmptyString) then
        let nd := set_nd_vn (nd_vdir nd) nd in
        vref (nd_vn nd);; mret (0, nd)
      else
        c ← cstrncmp name ".." 2;
        r ← (if decide (c = 0) then climb fuel vdir else mret (inl vdir));
        match r with
        | inr _ =>
            s ← get;
            nextname (fs_rootvn s) (set_nd_vdir (fs_rootvn s) (set_nd_vn (fs_rootvn s) nd))
        | inl vdir =>
            let nd := set_nd_vdir vdir nd in
            acquire_vn vdir;;
            '(err, vn) ← vop_lookup vdir (nd_vn nd) (nd_cn nd);
            let nd := set_nd_vn vn nd in
            release_vn vdir;;
            if decide (err ≠ 0) then mret (err, nd) else
            acquire_vn vn;;
            r ← cross fuel vn;
            match r with
            | inr err => mret (err, nd)
            | inl vdir =>
                let nd := set_nd_vn vdir nd in
                v ← load vdir;
                if decide (v_type v = VLNK ∧
                           (Z.land (nd_flags nd) FOLLOW ≠ 0 ∨ starts_slash (nd_next nd) = true))
                then mret (0, set_nd_flags (Z.lor (nd_flags nd) ISSYMLINK) nd)
                else nextname vdir nd
            end
        end
  end.

Definition vfs_lookup (nd : nameidata) : F (Z * nameidata) :=
  lookup_comps (S (String.length (cn_name (nd_cn nd)))) (nd_vdir nd)
    (set_nd_flags (Z.ldiff (nd_flags nd) ISSYMLINK) nd).

(** The loop of [namei]; [vn] and [x] are its local variables. *)
Fixpoint namei_loop (k : nat) (x : nat) (vn : option ptr) (nd : nameidata) : F (Z * nameidata) :=
  match k with
  | O => hang
  | S k =>
      '(x, vn, nd) ←
        (if starts_slash (cn_name (nd_cn nd)) then
           (if decide (x = O) then mret tt
            else match vn with Some p => vput p | None => fail Uninitialised end);;
           s ← get;
           '(_, root) ← vfsop_root (fs_rootfs s);
           mret (S x, Some root,
                 set_nd_cn (Componentnam (skip_slashes (cn_name (nd_cn nd))) (cn_len (nd_cn nd))) nd)
         else mret (x, vn, nd));
      match vn with
      | None => fail Uninitialised
      | Some p =>
          '(err, nd) ← vfs_lookup (set_nd_vdir p nd);
          if decide (err ≠ 0) then mret (err, nd) else
          if decide (Z.land (nd_flags nd) ISSYMLINK = 0) then mret (0, nd) else
          '(_, sym) ← vop_readlink (nd_vn nd);
          let rest := after_comp (cn_name (nd_cn nd)) in
          len ← cstrlen rest;
          if decide (512 ≤ cn_len sym + len)%nat then fail OutOfBounds else
          let nd := set_nd_cn (Componentnam (cn_name sym +:+ rest) (cn_len (nd_cn nd))) nd in
          vput (nd_vn nd);;
          namei_loop k x (Some (nd_vdir nd)) nd
      end
  end.

Definition namei (name : string) (nd : nameidata) : F (Z * nameidata) :=
  name ← cstrdup name;
  len ← cstrlen name;
  namei_loop fuel O None (set_nd_vn NULL (set_nd_cn (Componentnam name len) nd)).

(** ** The calls of the VFS *)

(** The number of bytes ([-EINVAL] for a file), the entries and the new
    [*offset]. *)
Definition vfs_readdir (vdir : ptr) (nbytes offset : Z) : F (Z * list dirent * Z) :=
  acquire_vn vdir;;
  v ← load vdir;
  r ← (if decide (v_type v ≠ VDIR) then mret (- EINVAL, [], offset) else
       '(_, out, n, offset) ← vop_readdir vdir nbytes offset;
       mret (n, out, offset));
  release_vn vdir;;
  mret r.

Definition vfs_link (name target : string) : F Z :=
  '(err, nd) ← namei target stk;
  if decide (err ≠ 0) then mret err else
  let vn := nd_vn nd in
  acquire_vn vn;;
  v ← load vn;
  if decide (v_type v = VDIR) then
    vput_opt (nd_vdir nd);; vrele vn;; mret (- EISDIR)
  else
    vput (nd_vdir nd);;
    '(err, nd) ← namei name nd;
    if decide (err ≠ - ENOENT) then mret err else
    acquire_vn (nd_vdir nd);;
    err ← vop_link (nd_vdir nd) vn (nd_cn nd);
    release_vn (nd_vdir nd);;
    vput_opt (nd_vdir nd);;
    vrele vn;;
    mret err.

(** The caller's character buffer is passed where [readlink] expects a
    [struct componentnam]: the address it would write to is whatever the
    buffer holds. *)
Definition vfs_readlink_locked (vn : ptr) : F Z :=
  v ← load vn;
  if decide (v_type v ≠ VLNK) then mret (- EINVAL) else fail DanglingPtr.

Definition vfs_readlink (vn : ptr) : F Z :=
  acquire_vn vn;;
  v ← load vn;
  if decide (v_type v ≠ VLNK) then release_vn vn;; mret (- EINVAL) else fail DanglingPtr.

Definition vfs_symlink (name target : string) : F Z :=
  '(err, nd) ← namei name stk;
  if decide (err ≠ - ENOENT) then
    vput_opt (nd_vdir nd);; vput_opt (nd_vn nd);; mret err
  else
    acquire_vn (nd_vdir nd);;
    vop_symlink (nd_vdir nd) target (nd_cn nd);;
    vrele (nd_vdir nd);;
    mret err.

Definition vfs_root (vfs : ptr) : F (Z * ptr) :=
  '(err, root) ← vfsop_root vfs; acquire_vn root;; mret (err, root).

(** Insert the new [struct vfs] in the list and mount it. *)
Definition mount_vfs (vfs : ptr) : F Z :=
  s ← get;
  update (T := FsState.vfs) vfs
    (λ m, Vfs (fs_mountedlist s) (m_mountpoint m) (m_flags m) (m_data m));;
  modify (set_mountedlist vfs);;
  err ← vfsop_mount vfs;
  release_vfslist;;
  mret err.

Definition vfs_mount (mntpoint : option string) (fstype : string) : F Z :=
  acquire_vfslist;;
  c ← cstrcmp vfs_name fstype;
  if decide (c ≠ 0) then release_vfslist;; mret (- ENOENT) else
  vfs ← kalloc (λ junk, Vfs (junk 0) (junk 8) (junk 24) (junk 32));
  match mntpoint with
  | Some path =>
      '(err, n) ← namei path stk;
      let fail2 (err : Z) : F Z :=
        vput_opt (nd_vn n);; vput_opt (nd_vdir n);; release_vfslist;; mret err in
      if decide (err ≠ 0) then fail2 err else
      let mntvnode := nd_vn n in
      acquire_vn mntvnode;;
      v ← load mntvnode;
      if decide (v_type v ≠ VDIR) then fail2 (- ENOTDIR)
      else if decide (v_mountedhere v ≠ NULL) then fail2 (- EBUSY) else
      update (T := FsState.vfs) vfs
        (λ m, Vfs (m_next m) mntvnode (m_flags m) (m_data m));;
      update mntvnode (set_mountedhere vfs);;
      vrele mntvnode;;
      vput (nd_vdir n);;
      mount_vfs vfs
  | None =>
      update (T := FsState.vfs) vfs
        (λ m, Vfs NULL (m_mountpoint m) (Z.lor (m_flags m) MNT_ROOTFS) (m_data m));;
      modify (set_rootfs vfs);;
      mount_vfs vfs
  end.

Definition init_rootvn : F unit :=
  s ← get;
  if decide (fs_rootfs s = NULL) then mret tt else
  '(_, root) ← vfsop_root (fs_rootfs s);
  modify (set_rootvn root).

Definition vfs_unmount (name : string) : F Z :=
  '(err, n) ← namei name stk;
  if decide (err ≠ 0) then vput_opt (nd_vn n);; vput_opt (nd_vdir n);; mret err else
  let vn := nd_vn n in
  v ← load vn;
  let vfs := v_vfs v in
  acquire_vn vn;;
  if decide (Z.land (v_flags v) VROOT = 0) then vrele vn;; mret (- EINVAL) else
  m ← load (T := FsState.vfs) vfs;
  if decide (Z.land (m_flags m) MNT_ROOTFS ≠ 0) then vrele vn;; mret (- EINVAL) else
  vrele vn;;
  err ← vfsop_unmount vfs;
  if decide (err ≠ 0) then mret err else
  m ← load (T := FsState.vfs) vfs;
  let mntvnode := m_mountpoint m in
  acquire_vn mntvnode;;
  update mntvnode (set_mountedhere NULL);;
  release_vn mntvnode;;
  vput (nd_vdir n);;
  mret 0.

Definition vfs_unlink (name : string) : F Z :=
  '(err, nd) ← namei name stk;
  if decide (err ≠ 0) then vput_opt (nd_vn nd);; vput_opt (nd_vdir nd);; mret err else
  let vn := nd_vn nd in
  let vdir := nd_vdir nd in
  acquire_vn vn;;
  (if decide (vdir ≠ vn) then acquire_vn vdir else mret tt);;
  v ← load vn;
  err ← (if decide (Z.land (v_flags v) VROOT ≠ 0) then mret (- EBUSY)
         else vop_remove vdir vn (nd_cn nd));
  (if decide (vdir ≠ vn) then vrele vdir else vput vdir);;
  vrele vn;;
  mret err.

Definition vfs_read (vn : ptr) (offset count : Z) : F (Z * list cell) :=
  acquire_vn vn;;
  v ← load vn;
  r ← (if decide (v_type v = VDIR) then mret (- EISDIR, []) else vop_read vn offset count);
  release_vn vn;;
  mret r.

Definition vfs_write (vn : ptr) (buf : list Z) (offset count : Z) : F Z :=
  acquire_vn vn;;
  v ← load vn;
  r ← (if decide (v_type v = VDIR) then mret (- EISDIR) else vop_write vn buf offset count);
  release_vn vn;;
  mret r.

(** [vpp] is the value of the caller's variable before the call. *)
Definition vfs_open (name : string) (vpp : ptr) (type : vtype) (flags : Z) : F (Z * ptr) :=
  if decide (Z.land flags O_CREATE ≠ 0) then
    '(err, nd) ← namei name stk;
    if decide (err ≠ - ENOENT) then
      vput_opt (nd_vdir nd);; vput_opt (nd_vn nd);; mret (err, vpp)
    else
      acquire_vn (nd_vdir nd);;
      '(err, vn) ← vop_create (nd_vdir nd) (nd_vn nd) (nd_cn nd) type;
      vrele (nd_vdir nd);;
      if decide (err ≠ 0) then mret (err, vpp) else mret (err, vn)
  else
    '(err, nd) ← namei name stk;
    vput_opt (nd_vdir nd);;
    if decide (err = 0) then mret (err, nd_vn nd) else mret (err, vpp).

Definition vfs_create (name : string) (vpp : ptr) (type : vtype) : F (Z * ptr) :=
  vfs_open name vpp type O_CREATE.

Definition vfs_mkdir (name : string) (vpp : ptr) : F (Z * ptr) :=
  if decide (name = EmptyString) then mret (- EINVAL, vpp) else
  '(err, n) ← namei name stk;
  if decide (err ≠ - ENOENT) then
    vput_opt (nd_vdir n);; vput_opt (nd_vn n);;
    mret (if decide (err ≠ 0) then err else - EEXIST, vpp)
  else
    acquire_vn (nd_vdir n);;
    v ← load (nd_vdir n);
    '(err, vpp) ← (if decide (v_type v ≠ VDIR) then mret (- ENOTDIR, vpp)
                   else vop_mkdir (nd_vdir n) vpp (nd_cn n));
    vrele (nd_vdir n);;
    mret (err, vpp).

Definition vfs_rmdir (name : string) : F Z :=
  '(err, nd) ← namei name stk;
  if decide (err ≠ 0) then vput_opt (nd_vn nd);; vput_opt (nd_vdir nd);; mret err else
  let vdir := nd_vn nd in
  let parent := nd_vdir nd in
  acquire_vn vdir;;
  err ← (if decide (parent = vdir) then mret (- EINVAL) else
         acquire_vn parent;;
         v ← load vdir;
         if decide (v_type v ≠ VDIR) then mret (- ENOTDIR)
         else if decide (Z.land (v_flags v) VROOT ≠ 0) then mret (- EBUSY)
         else vop_rmdir parent vdir (nd_cn nd));
  (if decide (parent ≠ vdir) then vrele parent else vput parent);;
  vrele vdir;;
  mret err.

End vfs.
