(* ===== verification/VfsRefs.v ===== *)
(** * References to vnodes: the primitives of fs/vfs.c over ramfs

    [vfs_inv K] is the invariant between the steps of the VFS: the store is
    well formed, nothing is mounted on a directory, only directories have
    flags, and the locked vnodes are those of [K].  [evolve] relates two
    states that differ in nothing but vnodes: same directories, same files.
    Each primitive keeps the invariant and is such a step; [has] says which
    vnodes it keeps alive. *)

From S2P Require Import Prelude CString FsState Ramfs RamfsDir RamfsOps RamfsInv RamfsSpec.
From S2P Require Import RamfsUnlink RamfsLookup Vfs.

Local Open Scope Z_scope.

#[export] Existing Instances ramfs_vnode_ops ram_ops.

(** ** States *)

Record vfs_inv (K : list ptr) (L : gmap ptr (list ptr)) (s : fs) : Prop := {
  vi_ok : ramfs_ok L s;
  vi_vnodes : ∀ a v, fs_vnodes s !! a = Some v →
    v_mountedhere v = NULL ∧ v_lock v = if decide (a ∈ K) then 1 else 0;
  vi_flags : ∀ a v, fs_vnodes s !! a = Some v → v_type v ≠ VDIR → v_flags v = 0
}.

(** Only vnodes change. *)
Record evolve (s s' : fs) : Prop := {
  ev_core : core_equiv (fs_nodes s) (fs_nodes s');
  ev_dents : fs_dents s' = fs_dents s;
  ev_vfss : fs_vfss s' = fs_vfss s;
  ev_rams : fs_rams s' = fs_rams s;
  ev_rootfs : fs_rootfs s' = fs_rootfs s;
  ev_rootvn : fs_rootvn s' = fs_rootvn s;
  ev_lock : fs_vfslist_lock s' = fs_vfslist_lock s
}.

#[export] Instance evolve_preorder : PreOrder evolve.
Proof.
  split; [by split|]. intros s s' s'' [] []. split; try congruence.
Qed.

Lemma evolve_abs L s s' : evolve s s' → abs L s' = abs L s.
Proof. intros []. unfold abs. congruence. Qed.

Lemma evolve_node s s' x n :
  evolve s s' → fs_nodes s !! x = Some n → ∃ n', fs_nodes s' !! x = Some n' ∧
    rn_type n' = rn_type n ∧ rn_linkcount n' = rn_linkcount n ∧ rn_data n' = rn_data n.
Proof.
  intros [E _ _ _ _ _ _] Hn. symmetry in E.
  destruct (core_equiv_fields _ _ _ _ E Hn) as (n' & ? & ? & _ & ? & ?). eauto.
Qed.

(** [a] is the vnode of the node [x]. *)
Definition has (s : fs) (a x : ptr) : Prop := ∃ v, fs_vnodes s !! a = Some v ∧ v_data v = x.

(** A step that keeps all vnodes. *)
Definition keeps (s s' : fs) : Prop := ∀ a x, has s a x → has s' a x.

Lemma has_inj K L s a b x : vfs_inv K L s → has s a x → has s b x → a = b.
Proof. intros [H _] (v & Ha & <-) (w & Hb & E). by eapply vnode_inj. Qed.

Lemma has_node K L s a x : vfs_inv K L s → has s a x →
  ∃ v n, fs_vnodes s !! a = Some v ∧ v_data v = x ∧ fs_nodes s !! x = Some n ∧
    v_type v = rn_type n ∧ rn_vnode n = a.
Proof.
  intros [H _] (v & Ha & <-). destruct (ramfs_vnode _ _ _ _ H Ha) as (n & ? & ? & ? & _).
  by exists v, n.
Qed.

Lemma ramfs_ok_write L s a v v' :
  ramfs_ok L s → fs_vnodes s !! a = Some v → v_data v' = v_data v → v_type v' = v_type v →
  v_vfs v' = v_vfs v → 0 < v_refcount v' → ramfs_ok L (upd_vnodes (insert a v') s).
Proof.
  intros [] Ha Ed Et Em Hr. split; simpl; try done.
  - by apply below_update.
  - by apply (vn_ok_write _ _ _ v).
  - intros b w [[<- <-]|[? Hb]]%lookup_insert_Some; [rewrite Em|]; by eapply rk_vfs.
Qed.

(** Writing the lock or the reference count of a vnode. *)
Lemma write_inv K K' L s a v v' :
  vfs_inv K L s → fs_vnodes s !! a = Some v → v_data v' = v_data v → v_type v' = v_type v →
  v_vfs v' = v_vfs v → v_mountedhere v' = NULL → v_flags v' = v_flags v → 0 < v_refcount v' →
  v_lock v' = (if decide (a ∈ K') then 1 else 0) → (∀ b, b ≠ a → b ∈ K ↔ b ∈ K') →
  let s' := upd_vnodes (insert a v') s in vfs_inv K' L s' ∧ evolve s s' ∧ keeps s s'.
Proof.
  intros [H Hv Hf] Ha Ed Et Em Hm Ef Hr Hl HK. split_and!; [split| |].
  - by apply (ramfs_ok_write _ _ _ v).
  - simpl. intros b w [[<- <-]|[? Hb]]%lookup_insert_Some; [done|].
    destruct (Hv _ _ Hb) as [? ->]. split; [done|]. specialize (HK b). repeat case_decide; naive_solver.
  - simpl. intros b w [[<- <-]|[? Hb]]%lookup_insert_Some; [rewrite Et, Ef|]; by eapply Hf.
  - by split.
  - intros b x (w & Hb & ?). unfold has. simpl. rewrite lookup_insert.
    destruct (decide (a = b)) as [<-|]; [|by exists w]. simplify_eq. exists v'. split; congruence.
Qed.

Lemma acquire_inv K L s a x :
  vfs_inv K L s → has s a x → a ∉ K →
  ∃ s', acquire_vn a s = Ok (tt, s') ∧ vfs_inv (a :: K) L s' ∧ evolve s s' ∧ keeps s s'.
Proof.
  intros H (v & Ha & _) Hk. destruct (vi_vnodes _ _ _ H _ _ Ha) as [Hm Hl].
  rewrite decide_False in Hl by done.
  destruct (vk_vnode _ _ (rk_vn _ _ (vi_ok _ _ _ H)) _ _ Ha) as [? _].
  eexists. split; [by apply acquire_vn_ok|].
  apply (write_inv K _ L s a v); try done; [by rewrite decide_True by left|set_solver].
Qed.

Lemma filter_other (a : ptr) (K : list ptr) : a ∉ K → filter (.≠ a) K = K.
Proof.
  induction K as [|b K IH]; [done|]. intros [Hb HK]%not_elem_of_cons. rewrite filter_cons_True by done. by rewrite IH.
Qed.

Lemma filter_self (a : ptr) (K : list ptr) : a ∉ K → filter (.≠ a) (a :: K) = K.
Proof. intros HK. rewrite filter_cons_False by naive_solver. by apply filter_other. Qed.

Lemma release_inv K L s a x :
  vfs_inv K L s → has s a x → 
  ∃ s', release_vn a s = Ok (tt, s') ∧ vfs_inv (filter (.≠ a) K) L s' ∧ evolve s s' ∧ keeps s s'.
Proof.
  intros H (v & Ha & _). destruct (vi_vnodes _ _ _ H _ _ Ha) as [Hm Hl].
  destruct (vk_vnode _ _ (rk_vn _ _ (vi_ok _ _ _ H)) _ _ Ha) as [? _].
  eexists. split; [by eapply release_vn_ok|].
  apply (write_inv K _ L s a v); try done.
  - rewrite decide_False; [done|]. rewrite list_elem_of_filter. naive_solver.
  - intros b Hb. rewrite list_elem_of_filter. naive_solver.
Qed.

Lemma vref_inv K L s a x :
  vfs_inv K L s → has s a x → a ∉ K →
  ∃ s', vref a s = Ok (tt, s') ∧ vfs_inv K L s' ∧ evolve s s' ∧ keeps s s'.
Proof.
  intros H (v & Ha & _) Hk. destruct (vi_vnodes _ _ _ H _ _ Ha) as [Hm Hl].
  rewrite decide_False in Hl by done.
  destruct (vk_vnode _ _ (rk_vn _ _ (vi_ok _ _ _ H)) _ _ Ha) as [? _].
  exists (upd_vnodes (insert a (add_refcount 1 v)) s). split.
  - unfold vref. do 2 kstep. erewrite release_vn_ok by solve_table. same_state.
    f_equal. destruct v; simpl in *; by subst.
  - apply (write_inv K _ L s a v); try done; simpl; [lia|]. by rewrite decide_False.
Qed.

(** ** Dropping a reference *)

(** The node has a name left, or is the root of a file system. *)
Definition linked (s : fs) (x : ptr) : Prop := ∃ n, fs_nodes s !! x = Some n ∧ rn_linkcount n ≠ 0.

Lemma linked_evolve s s' x : evolve s s' → linked s x → linked s' x.
Proof.
  intros E (n & Hn & Hc). destruct (evolve_node _ _ _ _ E Hn) as (n' & Hn' & _ & Ec & _).
  exists n'. by rewrite Ec.
Qed.

Definition drop_ref (v : vnode) : vnode :=
  Vnode (v_vfs v) (v_mountedhere v) (v_type v) (v_refcount v - 1) (v_flags v) 0 (v_data v).

(** What closing a vnode does: one reference less, or no vnode. *)
Lemma close_run s a v n :
  fs_vnodes s !! a = Some v → fs_nodes s !! v_data v = Some n → rn_ramlock n = 0 → a ≠ NULL →
  (v_lock v = 0 ∨ v_lock v = 1) → (v_refcount v = 1 → rn_linkcount n ≠ 0) →
  vfs_close a s = Ok (0,
    if decide (v_refcount v = 1) then
      upd_nodes (insert (v_data v) (set_vnode NULL n)) (upd_vnodes (delete a) s)
    else upd_vnodes (insert a (drop_ref v)) s).
Proof.
  intros Ha Hn Hlk Hnull Hl Hc. unfold vfs_close. kstep.
  set (s1 := upd_vnodes (insert a (set_lock 1 v)) s).
  rewrite (bind_ok _ _ s tt s1).
  2:{ destruct (decide (v_lock v = 0)); [by apply acquire_vn_ok|]. destruct Hl as [|Hl]; [done|].
      unfold s1. unfold mret, K_ret. do 2 f_equal. apply fs_eq; try done. simpl.
      rewrite insert_id; [done|]. rewrite Ha. f_equal. destruct v; simpl in *; by subst. }
  erewrite (bind_ok (ramfs_close a)) by reflexivity. unfold s1. do 2 kstep.
  destruct (decide (v_refcount v = 1)) as [E|E].
  - rewrite decide_True by lia.
    rewrite bind_assoc. erewrite (bind_ok (ramfs_inactive a)).
    2:{ eapply (inactive_linked _ a _ n); simpl; [by rewrite lookup_insert_eq|done..|by apply Hc]. }
    rewrite bind_assoc. simpl. kstep.
    erewrite (bind_ok (kfree _ _)) by (eapply kfree_ok; [done|solve_table]).
    same_state. by rewrite !delete_insert_eq.
  - rewrite decide_False by lia. kstep. same_state.
Qed.

Lemma vn_ok_drop N W a v n :
  vn_ok N W → W !! a = Some v → N !! v_data v = Some n →
  vn_ok (<[v_data v := set_vnode NULL n]> N) (delete a W).
Proof.
  intros H Ha Hn. destruct (vk_vnode _ _ H _ _ Ha) as (_ & n0 & Hn0 & Ev & _).
  assert (n0 = n) as -> by congruence. split.
  - intros b w [Hb Hw]%lookup_delete_Some. destruct (vk_vnode _ _ H _ _ Hw) as (? & m & Hm & <- & ->).
    split; [done|]. exists m. rewrite lookup_insert_ne; [done|]. intros E. rewrite <-E in Hm. congruence.
  - intros q m [[<- <-]|[Hq Hm]]%lookup_insert_Some; [by left|].
    destruct (vk_node _ _ H _ _ Hm) as [|(w & Hw & Ew)]; [by left|right]. exists w.
    rewrite lookup_delete_ne; [done|]. intros E. apply Hq. rewrite E in Ha. congruence.
Qed.

(** A node loses its vnode. *)
Lemma ramfs_ok_drop L s a v n :
  ramfs_ok L s → fs_vnodes s !! a = Some v → fs_nodes s !! v_data v = Some n →
  ramfs_ok L (upd_nodes (insert (v_data v) (set_vnode NULL n)) (upd_vnodes (delete a) s)).
Proof.
  intros [] Ha Hn. split; simpl; try done.
  - by apply below_update.
  - by apply below_delete.
  - by rewrite (core_equiv_update _ _ _ (set_vnode NULL n) Hn).
  - by apply (chain_ok_same _ _ n).
  - by apply vn_ok_drop.
  - intros b w [_ Hb]%lookup_delete_Some. by eapply rk_vfs.
  - intros p r Hr. destruct (rk_ram _ _ Hr) as [? ?]. split; [by apply chain_ptr_insert|].
    eapply is_dir_update; [done| |done]. intros h par q E. by do 2 eexists.
Qed.

(** A vnode is put: the others stay. *)
Lemma vput_inv K L s a x :
  vfs_inv K L s → has s a x → linked s x →
  ∃ s', vfs_close a s = Ok (0, s') ∧ vfs_inv (filter (.≠ a) K) L s' ∧ evolve s s' ∧
    ∀ b y, b ≠ a → has s b y → has s' b y.
Proof.
  intros H (v & Ha & <-) (n & Hn & Hc). destruct (vi_vnodes _ _ _ H _ _ Ha) as [Hm Hl].
  destruct (vk_vnode _ _ (rk_vn _ _ (vi_ok _ _ _ H)) _ _ Ha) as [Hr _].
  assert (a ≠ NULL) as Hnull
    by (intros ->; rewrite (below_null _ _ (rk_vnodes _ _ (vi_ok _ _ _ H))) in Ha; done).
  eexists. split; [apply (close_run s a v n); try done|].
  { by apply (dk_lock _ _ _ _ _ (rk_dirs _ _ (vi_ok _ _ _ H)) _ _ Hn). }
  { rewrite Hl. destruct (decide (a ∈ K)); auto. }
  assert (∀ b, b ≠ a → b ∈ K ↔ b ∈ filter (.≠ a) K) as HK
    by (intros b Hb; rewrite list_elem_of_filter; naive_solver).
  destruct (decide (v_refcount v = 1)) as [E|E].
  - split_and!; [split| |].
    + apply ramfs_ok_drop; [apply H|done..].
    + simpl. intros b w [Hb Hw]%lookup_delete_Some. destruct (vi_vnodes _ _ _ H _ _ Hw) as [? ->].
      split; [done|]. apply not_eq_sym, HK in Hb. by rewrite (decide_ext _ _ _ _ Hb).
    + simpl. intros b w [_ Hw]%lookup_delete_Some. by eapply vi_flags.
    + split; try done. simpl. symmetry. by apply (core_equiv_update _ _ n).
    + intros b y Hb (w & Hw & ?). exists w. simpl. by rewrite lookup_delete_ne by done.
  - destruct (write_inv K (filter (.≠ a) K) L s a v (drop_ref v)) as (? & ? & Hk); try done; simpl; [lia| |].
    + rewrite decide_False; [done|]. rewrite list_elem_of_filter. naive_solver.
    + split_and!; [done..|]. intros. by apply Hk.
Qed.

(** ** Getting a vnode *)

(** What a step that returns the vnode [b] of a node [x] leaves. *)
Definition got (K : list ptr) (L : gmap ptr (list ptr)) (s s' : fs) (b x : ptr) : Prop :=
  vfs_inv K L s' ∧ evolve s s' ∧ keeps s s' ∧ has s' b x ∧ b ∉ K.

Lemma vget_got K L s m mm r x n :
  vfs_inv K L s → fs_nodes s !! x = Some n → fs_vfss s !! m = Some mm → fs_rams s !! m_data mm = Some r →
  (∀ b, b ∈ K → is_Some (fs_vnodes s !! b)) → (∀ b, b ∈ K → ¬ has s b x) →
  vget_ready s n ∧ got K L s (vget_state m x s).2 (vget_state m x s).1 x.
Proof.
  intros H Hx Hm Hr HK Hfree. pose proof (vi_ok _ _ _ H) as Hok.
  assert (vget_ready s n) as Hready.
  { destruct (vk_node _ _ (rk_vn _ _ Hok) _ _ Hx) as [|(v & Ha & Ev)]; [by left|right].
    exists v. split; [done|]. destruct (vi_vnodes _ _ _ H _ _ Ha) as [_ ->].
    rewrite decide_False; [done|]. intros Hin. by apply (Hfree _ Hin); exists v. }
  split; [done|]. destruct (vget_vnode L s m x n Hok Hx) as (v & Hv & Hvx & _).
  assert (∀ a w, fs_vnodes (vget_state m x s).2 !! a = Some w →
    (a = fs_brk s ∧ v_mountedhere w = NULL ∧ v_lock w = 0) ∨
    ∃ w0, fs_vnodes s !! a = Some w0 ∧ v_mountedhere w = v_mountedhere w0 ∧ v_lock w = v_lock w0) as Hold.
  { intros a w. unfold vget_state. rewrite Hx. destruct (decide (rn_vnode n = NULL)); simpl.
    - intros [[<- <-]|[? ?]]%lookup_insert_Some; [by left|right; eauto].
    - rewrite lookup_alter. destruct (decide (rn_vnode n = a)) as [<-|]; [|right; eauto].
      intros (w0 & ? & ->)%fmap_Some. right. by exists w0. }
  pose proof (below_fresh _ _ (rk_vnodes _ _ Hok)) as Hfr.
  split_and!; [split| | | |].
  - by eapply vget_inv.
  - intros a w Ha. destruct (Hold _ _ Ha) as [(-> & ? & ?)|(w0 & Hw0 & -> & ->)]; [|by apply H].
    split; [done|]. rewrite decide_False; [done|]. intros Hin. destruct (HK _ Hin). congruence.
  - intros a w. unfold vget_state. rewrite Hx. destruct (decide (rn_vnode n = NULL)); simpl.
    + intros [[<- <-]|[? ?]]%lookup_insert_Some; [|by eapply vi_flags].
      apply vget_flags_plain; [apply (rk_zero _ _ Hok)|by apply (dk_data _ _ _ _ _ (rk_dirs _ _ Hok) _ _ Hx)].
    + rewrite lookup_alter. destruct (decide (rn_vnode n = a)) as [<-|]; [|by eapply vi_flags].
      intros (w0 & ? & ->)%fmap_Some. by eapply (vi_flags _ _ _ H _ w0).
  - split; [apply vget_core|unfold vget_state; rewrite Hx; by case_decide..].
  - intros a y (w & Hw & <-). unfold vget_state, has. rewrite Hx.
    destruct (decide (rn_vnode n = NULL)); simpl.
    + exists w. by rewrite lookup_insert_ne by congruence.
    + rewrite lookup_alter. destruct (decide (rn_vnode n = a)) as [<-|]; rewrite Hw; simpl; eauto.
  - by exists v.
  - unfold vget_state. rewrite Hx. destruct (decide (rn_vnode n = NULL)); simpl.
    + intros Hin. destruct (HK _ Hin). congruence.
    + destruct Hready as [|(w & Hw & _)]; [done|]. intros Hin. apply (Hfree _ Hin).
      destruct (vk_node _ _ (rk_vn _ _ Hok) _ _ Hx) as [|(w' & Ha & Ev)]; [done|]. by exists w'.
Qed.

(** A node that an entry names is linked. *)
Lemma dent_linked L s d e : ramfs_ok L s → fs_dents s !! d = Some e → linked s (de_node e).
Proof.
  intros H Hd. destruct (dk_dent _ _ _ _ _ (rk_dirs _ _ H) _ _ Hd) as ([nx Hnx] & _).
  exists nx. split; [done|]. pose proof (refs_pos _ _ _ Hd).
  rewrite (dk_links _ _ _ _ _ (rk_dirs _ _ H) _ _ Hnx). unfold links, len.
  destruct (rn_data nx); repeat case_decide; lia.
Qed.

Lemma entry_linked P L s p es x :
  ramfs_ok L s → abs L s !! p = Some es → lookup_entry P es = Some x → linked s x.
Proof.
  intros H Hes Hx. unfold abs in Hes. rewrite lookup_fmap in Hes.
  destruct (L !! p) as [l|] eqn:Hl; [|done]. injection Hes as <-.
  destruct (dk_list _ _ _ _ _ (rk_dirs _ _ H) _ _ Hl) as (n & ? & ? & ? & Hn & En).
  destruct (dk_dir _ _ _ _ _ (rk_dirs _ _ H) _ _ _ _ _ Hn En) as (_ & _ & l' & ? & Hdl & _).
  simplify_eq. pose proof (find_ent_entries P _ _ _ Hdl) as Hf. rewrite Hx in Hf.
  destruct Hf as (l1 & d & l2 & e & -> & _ & _ & Hd & <- & _). by eapply dent_linked.
Qed.

(** A vnode whose node has entries is a directory. *)
Lemma abs_dir L s a v es :
  ramfs_ok L s → fs_vnodes s !! a = Some v → abs L s !! v_data v = Some es → v_type v = VDIR.
Proof.
  intros Hok Ha Hes. unfold abs in Hes. rewrite lookup_fmap in Hes.
  destruct (L !! v_data v) as [l|] eqn:Hl; [|done].
  destruct (dk_list _ _ _ _ _ (rk_dirs _ _ Hok) _ _ Hl) as (n & ? & ? & ? & Hn & En).
  destruct (ramfs_vnode _ _ _ _ Hok Ha) as (n' & Hn' & _ & -> & _). assert (n' = n) as -> by congruence.
  pose proof (dk_data _ _ _ _ _ (rk_dirs _ _ Hok) _ _ Hn) as Hd.
  apply data_ok_dir in Hd. rewrite En in Hd. by apply eq_sym, bool_decide_eq_true in Hd.
Qed.

Lemma lookup_got K L s vdir vpp p es cnp x :
  vfs_inv K L s → has s vdir p → abs L s !! p = Some es →
  (0 < cn_len cnp ≤ String.length (cn_name cnp))%nat →
  cn_name cnp ≠ "."%string → cn_name cnp ≠ ".."%string →
  (∀ b, b ∈ K → is_Some (fs_vnodes s !! b)) → (∀ b, b ∈ K → ¬ has s b x) →
  lookup_entry (String.prefix (component cnp)) es = Some x →
  ∃ b s', ramfs_lookup vdir vpp cnp s = Ok ((0, b), s') ∧ got K L s s' b x.
Proof.
  intros H Hvd Hes Hc Hdot Hdd HK Hfree Hx. pose proof (vi_ok _ _ _ H) as Hok.
  destruct (has_node _ _ _ _ _ H Hvd) as (dv & np & Hdv & <- & Hnp & Etp & _).
  pose proof (abs_dir _ _ _ _ _ Hok Hdv Hes) as Hdir.
  pose proof (lookup_ent L s vdir vpp dv cnp es Hok Hdv Hdir Hc Hes Hdot Hdd) as Hrun.
  rewrite Hx in Hrun. destruct (entry_linked _ _ _ _ _ _ Hok Hes Hx) as (nx & Hnx & _).
  destruct (rk_vfs _ _ Hok _ _ Hdv) as (mm & r & Hmm & Hr).
  destruct (vget_got K L s (v_vfs dv) mm r x nx H Hnx Hmm Hr HK Hfree) as [Hready Hgot].
  eexists _, _. split; [by eapply Hrun|done].
Qed.
