(* ===== verification/VfsPath.v ===== *)
(** * Path lookup refines a walk over the abstract directories

    [comps] splits a path into its components and [walk] follows them in the
    abstract directories.  For a path without [.] components, trailing
    slashes and symbolic links, in a file system on which nothing is mounted,
    [lookup] and [namei] of fs/vfs.c end where [walk] ends, with the vnodes of
    the directory and of the target, and leave directories and files as they
    were. *)

From S2P Require Import Prelude CString FsState Ramfs RamfsDir RamfsOps RamfsInv RamfsSpec.
From S2P Require Import RamfsUnlink RamfsLookup Vfs VfsRefs.
From Stdlib Require Import Ascii.

Local Open Scope Z_scope.

(** ** Components *)

Definition comp_of (name : string) : string := String.substring 0 (comp_len name) name.

(** The components of a path that does not start with a slash; [None] if it
    ends in one.  [k] greater than the length of the path is enough. *)
Fixpoint comps (k : nat) (name : string) : option (list string) :=
  match k with
  | O => None
  | S k =>
      match after_comp name with
      | EmptyString => Some [comp_of name]
      | rest => match skip_slashes rest with
                | EmptyString => None
                | next => cons (comp_of name) <$> comps k next
                end
      end
  end.

Definition split_path (path : string) : option (list string) :=
  if starts_slash path then
    match skip_slashes path with EmptyString => None | name => comps (S (String.length name)) name end
  else None.

(** Not one of the components that [lookup] treats as [.] or [..]. *)
Definition plain (c : string) : bool :=
  match c with String a _ => negb (bool_decide (a = "."%char)) | EmptyString => true end.

Lemma skip_slashes_starts s : starts_slash (skip_slashes s) = false.
Proof. induction s as [|c s IH]; simpl; [done|]. destruct (is_slash c) eqn:E; [done|]. by simpl. Qed.

Lemma comp_len_le s : (comp_len s ≤ String.length s)%nat.
Proof. induction s as [|c s IH]; simpl; [lia|]. destruct (is_slash c); lia. Qed.

Lemma comp_len_pos s : s ≠ EmptyString → starts_slash s = false → (0 < comp_len s)%nat.
Proof. destruct s as [|c s]; simpl; [done|]. intros _ ->. lia. Qed.

Lemma skip_slashes_length s : (String.length (skip_slashes s) ≤ String.length s)%nat.
Proof. induction s as [|c s IH]; simpl; [lia|]. destruct (is_slash c); simpl; lia. Qed.

Lemma after_comp_length s :
  s ≠ EmptyString → starts_slash s = false → (String.length (after_comp s) < String.length s)%nat.
Proof.
  assert (∀ t, (String.length (after_comp t) ≤ String.length t)%nat) as Hle.
  { induction t as [|c t IH]; simpl; [lia|]. destruct (is_slash c); simpl; lia. }
  destruct s as [|c s]; simpl; [done|]. intros _ ->. specialize (Hle s). lia.
Qed.

(** A plain component rules out the special names. *)
Lemma plain_names name :
  name ≠ EmptyString → starts_slash name = false → plain (comp_of name) = true →
  name ≠ "."%string ∧ name ≠ ".."%string ∧ cstrncmp (S := fs) name ".." 2 = mret (-1).
Proof.
  unfold comp_of, plain. destruct name as [|a name]; [done|]. simpl. intros _ ->.
  destruct (bool_decide_reflect (a = "."%char)) as [|Ha]; [done|]. intros _.
  split_and!; [congruence..|]. by rewrite decide_False.
Qed.

Lemma comp_of_all name : after_comp name = EmptyString → comp_of name = name.
Proof.
  unfold comp_of. induction name as [|c s IH]; simpl; [done|]. destruct (is_slash c); [done|].
  intros E. simpl. by rewrite IH.
Qed.

Lemma comps_cons k name cs : comps k name = Some cs → ∃ c cs', cs = c :: cs'.
Proof.
  destruct k as [|k]; cbn [comps]; [done|]. destruct (after_comp name) as [|a r]; [intros [= <-]; eauto|].
  destruct (skip_slashes (String a r)) as [|a' r']; [done|].
  destruct (comps k (String a' r')); [|done]. intros [= <-]. eauto.
Qed.

(** ** The walk *)

Inductive end_of_walk :=
  | At (dir x : ptr)                       (* the target and its directory *)
  | Absent (dir : ptr) (rest : list string) (* the first component that is not there *)
  | NotDir (dir : ptr)                     (* a component follows something that is no directory *)
  | Link (dir x : ptr).                    (* a symbolic link *)

Fixpoint walk (A : gmap ptr (list (string * ptr))) (lnk : ptr → bool) (p : ptr) (cs : list string) :
    end_of_walk :=
  match cs with
  | [] => NotDir p
  | c :: cs' =>
      match A !! p with
      | None => NotDir p
      | Some es =>
          match lookup_entry (String.prefix c) es with
          | None => Absent p cs
          | Some x => if lnk x then Link p x
                      else match cs' with [] => At p x | _ => walk A lnk x cs' end
          end
      end
  end.

Definition is_link (s : fs) (x : ptr) : bool :=
  match fs_nodes s !! x with Some n => bool_decide (rn_type n = VLNK) | None => false end.

Lemma is_link_evolve s s' x : evolve s s' → is_link s' x = is_link s x.
Proof.
  intros [E _ _ _ _ _ _]. unfold is_link. destruct (fs_nodes s' !! x) as [n'|] eqn:Hn'.
  - by destruct (core_equiv_fields _ _ _ _ E Hn') as (n & -> & -> & _).
  - specialize (E x). rewrite Hn' in E. by destruct (fs_nodes s !! x).
Qed.

Lemma walk_ext A lnk lnk' p cs : (∀ x, lnk' x = lnk x) → walk A lnk p cs = walk A lnk' p cs.
Proof.
  intros E. revert p. induction cs as [|c cs IH]; intros p; simpl; [done|].
  destruct (A !! p) as [es|]; [|done]. destruct (lookup_entry _ es) as [x|]; [|done].
  rewrite E, IH. done.
Qed.

(** An entry does not name its own directory. *)
Lemma entry_ne P L s p es x :
  ramfs_ok L s → abs L s !! p = Some es → lookup_entry P es = Some x → p ≠ x.
Proof.
  intros H Hes Hx <-. pose proof Hes as Hes'. unfold abs in Hes'. rewrite lookup_fmap in Hes'.
  destruct (L !! p) as [l|] eqn:Hl; [|done].
  destruct (dk_list _ _ _ _ _ (rk_dirs _ _ H) _ _ Hl) as (n' & h & par & q & Hn' & En).
  destruct (entry_parent _ _ _ _ _ _ par H Hes Hx) as [_ ?]; [|done].
  unfold dir_parent. rewrite Hn'. simpl. by rewrite En.
Qed.

(** A walk that ends at a target found it under the last component. *)
Lemma walk_at A lnk p cs d x :
  walk A lnk p cs = At d x → ∃ es, A !! d = Some es ∧
    lookup_entry (String.prefix (List.last cs EmptyString)) es = Some x ∧ lnk x = false.
Proof.
  revert p. induction cs as [|c cs IH]; intros p; cbn [walk]; [done|].
  destruct (A !! p) as [es|] eqn:Hes; [|done]. destruct (lookup_entry _ es) as [y|] eqn:Hy; [|done].
  destruct (lnk y) eqn:Hl; [done|]. destruct cs as [|c' cs]; [|by apply IH].
  intros [= <- <-]. by exists es.
Qed.

(** A walk that ends at a missing component looked for it. *)
Lemma walk_absent A lnk p cs d rest :
  walk A lnk p cs = Absent d rest → ∃ es c rest', rest = c :: rest' ∧ A !! d = Some es ∧
    lookup_entry (String.prefix c) es = None.
Proof.
  revert p. induction cs as [|c cs IH]; intros p; cbn [walk]; [done|].
  destruct (A !! p) as [es|] eqn:Hes; [|done]. destruct (lookup_entry _ es) as [y|] eqn:Hy.
  - destruct (lnk y); [done|]. destruct cs as [|c' cs]; [done|]. by apply IH.
  - intros [= <- <-]. by exists es, c, cs.
Qed.

(** The locked vnodes of [K] are no directories: no walk goes through them. *)
Definition off_path (K : list ptr) (L : gmap ptr (list ptr)) (s : fs) : Prop :=
  ∀ b, b ∈ K → ∃ y, has s b y ∧ abs L s !! y = None.

Lemma off_path_nil L s : off_path [] L s.
Proof. by intros b Hb%not_elem_of_nil. Qed.

Lemma off_path_keeps K L s s' : off_path K L s → evolve s s' → (∀ b y, b ∈ K → has s b y → has s' b y) → off_path K L s'.
Proof.
  intros HK Ev Hk b Hb. destruct (HK b Hb) as (y & Hy & Hn). exists y. split; [by apply Hk|]. by rewrite (evolve_abs L s s').
Qed.

Lemma off_path_dir K L s a p es : vfs_inv K L s → off_path K L s → has s a p → abs L s !! p = Some es → a ∉ K.
Proof. intros H HK (v & Hv & <-) Hes Ha. destruct (HK a Ha) as (y & (w & Hw & <-) & Hn). congruence. Qed.

(** One component: the vnode of the entry, locked, nothing else held but [K]. *)
Lemma lookup_step fuel K L s vdir vpp p es cnp x :
  vfs_inv K L s → off_path K L s → (∀ b, b ∈ K → ¬ has s b x) → has s vdir p → abs L s !! p = Some es →
  (0 < cn_len cnp ≤ String.length (cn_name cnp))%nat →
  cn_name cnp ≠ "."%string → cn_name cnp ≠ ".."%string → p ≠ x →
  lookup_entry (String.prefix (component cnp)) es = Some x →
  ∃ b s' s1 s2 s3 s4, acquire_vn vdir s = Ok (tt, s1) ∧ ramfs_lookup vdir vpp cnp s1 = Ok ((0, b), s2) ∧
    release_vn vdir s2 = Ok (tt, s3) ∧ acquire_vn b s3 = Ok (tt, s4) ∧
    cross (S fuel) b s4 = Ok (inl b, s') ∧ s' = s4 ∧
    vfs_inv (b :: K) L s' ∧ evolve s s' ∧ keeps s s' ∧ has s' b x ∧ b ≠ vdir ∧ b ∉ K.
Proof.
  intros H Hoff HKx Hvd Hes Hc Hdot Hdd Hpx Hx. pose proof (off_path_dir _ _ _ _ _ _ H Hoff Hvd Hes) as HvK.
  destruct (acquire_inv _ _ _ _ _ H Hvd) as (s1 & E1 & H1 & Ev1 & K1); [done|].
  assert (has s1 vdir p) as Hvd1 by auto.
  assert (has s1 vdir x → False) as Hne.
  { intros (v & Hv & <-). destruct Hvd1 as (w & Hw & <-). congruence. }
  destruct (lookup_got (vdir :: K) L s1 vdir vpp p es cnp x) as (b & s2 & E2 & H2 & Ev2 & K2 & Hb & Hbn); try done.
  { by rewrite (evolve_abs L s s1). }
  { intros a [->|Ha]%elem_of_cons; [by destruct Hvd1 as (v & Hv & _); eauto|].
    destruct (Hoff a Ha) as (y & Hy & _). apply K1 in Hy as (v & Hv & _). eauto. }
  { intros a [->|Ha]%elem_of_cons; [done|]. intros Hax. destruct (Hoff a Ha) as (y & Hy & _).
    apply (HKx a Ha). assert (x = y) as ->; [|done]. apply K1 in Hy. destruct Hy as (v & Hv & <-), Hax as (w & Hw & <-). congruence. }
  apply not_elem_of_cons in Hbn as [Hbv HbK].
  destruct (release_inv (vdir :: K) L s2 vdir p) as (s3 & E3 & H3 & Ev3 & K3); [done|auto|].
  rewrite filter_self in H3 by done.
  destruct (acquire_inv K L s3 b x) as (s4 & E4 & H4 & Ev4 & K4); [done|auto|done|].
  exists b, s4, s1, s2, s3, s4. split_and!; try done.
  - assert (has s4 b x) as (v & Hv & _) by auto. simpl. kstep.
    destruct (vi_vnodes _ _ _ H4 _ _ Hv) as [-> _]. by rewrite decide_False by naive_solver.
  - by do 3 (etrans; [done|]).
  - intros a y ?. auto.
  - auto.
Qed.

(** The components of a path whose first one was looked up last. *)
Definition rest_of (cnp : componentnam) (cs : list string) : Prop := ∃ k, comps k (cn_name cnp) = Some cs.

(** The state in which a lookup ends, and what it found. *)
Definition ended (K : list ptr) (L : gmap ptr (list ptr)) (s s' : fs) (nd nd' : nameidata) (dir : ptr) (c : string) : Prop :=
  vfs_inv K L s' ∧ evolve s s' ∧ has s' (nd_vdir nd') dir ∧ component (nd_cn nd') = c ∧
  (0 < cn_len (nd_cn nd') ≤ String.length (cn_name (nd_cn nd')))%nat ∧ nd_flags nd' = nd_flags nd ∧
  is_Some (abs L s !! dir) ∧ linked s dir ∧ ∀ b y, b ∈ K → has s b y → has s' b y.

Section loop.
Context (fuel : nat) (K : list ptr) (L : gmap ptr (list ptr)).

(** The [nameidata] after the component of [nd] was found at [vn]. *)
Definition nd_step (vdir vn : ptr) (nd : nameidata) : nameidata :=
  let name := cn_name (nd_cn nd) in
  Nameidata vdir vn (after_comp name) (nd_flags nd) (Componentnam name (comp_len name)).

Definition nd_rest (nd : nameidata) : nameidata :=
  set_nd_cn (Componentnam (skip_slashes (nd_next nd)) (cn_len (nd_cn nd))) nd.

(** One iteration on a plain component that names [x], no symbolic link. *)
Lemma iter_found k' vdir p nd s es x :
  let name := cn_name (nd_cn nd) in
  name ≠ EmptyString → starts_slash name = false → plain (comp_of name) = true →
  vfs_inv K L s → off_path K L s → (∀ b, b ∈ K → ¬ has s b x) →
  has s vdir p → abs L s !! p = Some es → is_link s x = false →
  lookup_entry (String.prefix (comp_of name)) es = Some x →
  ∃ b s', vfs_inv (b :: K) L s' ∧ evolve s s' ∧ keeps s s' ∧ has s' b x ∧ b ≠ vdir ∧ (b ∉ K) ∧
    lookup_comps (S fuel) (S k') vdir nd s =
      (match after_comp name with
      | EmptyString => (release_vn b;; mret (0, nd_step vdir b nd)) s'
      | _ => (vput vdir;; release_vn b;; lookup_comps (S fuel) k' b (nd_rest (nd_step vdir b nd))) s'
      end).
Proof.
  intros name Hne Hsl Hpl H Hoff HKx Hvd Hes Hlnk Hx.
  pose proof (comp_len_pos _ Hne Hsl) as Hpos. pose proof (comp_len_le name) as Hle.
  destruct (plain_names _ Hne Hsl Hpl) as (Hdot & Hdd & Hcmp).
  pose proof (entry_ne _ _ _ _ _ _ (vi_ok _ _ _ H) Hes Hx) as Hpx.
  destruct (lookup_step fuel K L s vdir (nd_vn nd) p es (Componentnam name (comp_len name)) x)
    as (b & s' & s1 & s2 & s3 & s4 & E1 & E2 & E3 & E4 & E5 & -> & H' & Ev & Kp & Hb & Hbv & HbK); try done.
  exists b, s4. split_and!; try done. cbn [lookup_comps]. fold name. rewrite decide_False by done.
  rewrite Hcmp, (bind_ok _ _ s (-1) s eq_refl), (bind_ok _ _ s (inl vdir) s eq_refl).
  cbv beta iota zeta. rewrite (bind_ok _ _ _ _ _ E1).
  rewrite (bind_ok (@vop_lookup ramfs_vnode_ops vdir (nd_vn nd) (Componentnam name (comp_len name))) _ _ (0, b) s2 E2).
  cbv beta iota.
  rewrite (bind_ok _ _ _ _ _ E3), decide_False by (intros []; done). rewrite (bind_ok _ _ _ _ _ E4).
  rewrite (bind_ok _ _ _ _ _ E5). cbv beta iota.
  destruct Hb as (v & Hv & <-). erewrite (bind_ok (load b)) by (apply load_ok; exact Hv).
  rewrite decide_False; [by unfold nd_step; fold name; destruct (after_comp name)|]. intros [Et _].
  destruct (ramfs_vnode _ _ _ _ (vi_ok _ _ _ H') Hv) as (n & Hn & _ & Et' & _).
  rewrite <-(is_link_evolve _ _ _ Ev) in Hlnk. unfold is_link in Hlnk. rewrite Hn in Hlnk.
  apply bool_decide_eq_false in Hlnk. congruence.
Qed.

(** One iteration on a plain component that is not there. *)
Lemma iter_absent k' vdir p nd s es :
  let name := cn_name (nd_cn nd) in
  name ≠ EmptyString → starts_slash name = false → plain (comp_of name) = true →
  vfs_inv K L s → off_path K L s → has s vdir p → abs L s !! p = Some es →
  lookup_entry (String.prefix (comp_of name)) es = None →
  ∃ s', vfs_inv K L s' ∧ evolve s s' ∧ keeps s s' ∧
    lookup_comps (S fuel) (S k') vdir nd s = Ok ((- ENOENT, nd_step vdir NULL nd), s').
Proof.
  intros name Hne Hsl Hpl H Hoff Hvd Hes Hx. pose proof (off_path_dir _ _ _ _ _ _ H Hoff Hvd Hes) as HvK.
  pose proof (comp_len_pos _ Hne Hsl) as Hpos. pose proof (comp_len_le name) as Hle.
  destruct (plain_names _ Hne Hsl Hpl) as (Hdot & Hdd & Hcmp).
  destruct (acquire_inv _ _ _ _ _ H Hvd) as (s1 & E1 & H1 & Ev1 & K1); [done|].
  assert (has s1 vdir p) as (v & Hv & Evp) by auto.
  destruct (release_inv (vdir :: K) L s1 vdir p) as (s3 & E3 & H3 & Ev3 & K3); [done|by exists v|].
  rewrite filter_self in H3 by done.
  assert (v_type v = VDIR) as Hdir.
  { eapply (abs_dir L s1 vdir v es); [apply H1|done|]. by rewrite (evolve_abs L s s1), Evp. }
  assert (abs L s1 !! v_data v = Some es) as Hes1 by (by rewrite (evolve_abs L s s1), Evp).
  pose proof (lookup_ent L s1 vdir (nd_vn nd) v (Componentnam name (comp_len name)) es (vi_ok _ _ _ H1) Hv
    Hdir (conj Hpos Hle) Hes1 Hdot Hdd) as E2.
  change (component _) with (comp_of name) in E2. rewrite Hx in E2.
  exists s3. split_and!; [done|by etrans|unfold keeps; auto|].
  cbn [lookup_comps]. fold name. rewrite decide_False by done.
  rewrite Hcmp, (bind_ok _ _ s (-1) s eq_refl), (bind_ok _ _ s (inl vdir) s eq_refl).
  cbv beta iota zeta. rewrite (bind_ok _ _ _ _ _ E1).
  rewrite (bind_ok (@vop_lookup ramfs_vnode_ops vdir (nd_vn nd) (Componentnam name (comp_len name)))
    _ _ (- ENOENT, NULL) s1 E2). cbv beta iota.
  rewrite (bind_ok _ _ _ _ _ E3), decide_True by done. done.
Qed.

Lemma ended_step s s' vdir nd vn p es :
  let name := cn_name (nd_cn nd) in
  name ≠ EmptyString → starts_slash name = false → vfs_inv K L s' → evolve s s' →
  has s' vdir p → abs L s !! p = Some es → linked s p → (∀ b y, b ∈ K → has s b y → has s' b y) →
  ended K L s s' nd (nd_step vdir vn nd) p (comp_of name).
Proof.
  intros name Hne Hsl H Ev Hd Hes Hlp Hk. unfold ended. split_and!; simpl; try done.
  - by apply comp_len_pos.
  - apply comp_len_le.
Qed.

Lemma ended_weaken s s1 s' nd nd1 nd' d c :
  evolve s s1 → (∀ b y, b ∈ K → has s b y → has s1 b y) → nd_flags nd1 = nd_flags nd →
  ended K L s1 s' nd1 nd' d c → ended K L s s' nd nd' d c.
Proof.
  intros Ev Hk1 Ef (? & Ev' & ? & ? & ? & Ef' & Hd & Hlk & Hk). unfold ended.
  rewrite <-(evolve_abs _ _ _ Ev). split_and!; try done; try lia; [by etrans| |by intros b y Hb Hy; apply Hk, Hk1].
  destruct Hlk as (n & Hn & Hc). destruct Ev as [E _ _ _ _ _ _].
  destruct (core_equiv_fields _ _ _ _ E Hn) as (n0 & Hn0 & _ & _ & Ec & _). exists n0. by rewrite Ec.
Qed.

(** The whole loop. *)
Lemma lookup_comps_walk k :
  ∀ cs vdir p nd s k', let name := cn_name (nd_cn nd) in
  comps k name = Some cs → (String.length name < k')%nat → name ≠ EmptyString → starts_slash name = false →
  Forall (λ c, plain c = true) cs → vfs_inv K L s → off_path K L s → has s vdir p → linked s p →
  match walk (abs L s) (is_link s) p cs with
  | At d x => (∀ b, b ∈ K → ¬ has s b x) →
      ∃ nd' s', lookup_comps (S fuel) k' vdir nd s = Ok ((0, nd'), s') ∧ ended K L s s' nd nd' d (List.last cs EmptyString) ∧ has s' (nd_vn nd') x ∧
      cn_name (nd_cn nd') = List.last cs EmptyString
  | Absent d rest => ∃ nd' s', lookup_comps (S fuel) k' vdir nd s = Ok ((- ENOENT, nd'), s') ∧
      ended K L s s' nd nd' d (List.hd EmptyString rest) ∧ nd_vn nd' = NULL ∧
      rest_of (nd_cn nd') rest
  | _ => True
  end.
Proof.
  induction k as [|k IH]; intros cs vdir p nd s k' name Hcs Hk' Hne Hsl Hplain H Hoff Hvd Hlp; [done|].
  destruct k' as [|k']; [lia|]. pose proof (comp_len_pos _ Hne Hsl) as Hpos.
  pose proof (comp_len_le name) as Hle. pose proof (after_comp_length _ Hne Hsl) as Hlen.
  assert (∃ cs', cs = comp_of name :: cs') as [cs' Ecs].
  { cbn [comps] in Hcs. destruct (after_comp name) as [|a r]; [by injection Hcs as <-; eexists|].
    destruct (skip_slashes _); [done|]. destruct (comps k _); [|done]. injection Hcs as <-. by eexists. }
  rewrite Ecs in Hplain. apply Forall_cons in Hplain as [Hpl Hplain].
  rewrite Ecs. cbn [walk]. destruct (abs L s !! p) as [es|] eqn:Hes; [|done].
  destruct (lookup_entry _ es) as [x|] eqn:Hx.
  - destruct (is_link s x) eqn:Hlnk; [done|].
    pose proof (λ HKx, iter_found k' _ p nd s es x Hne Hsl Hpl H Hoff HKx Hvd Hes Hlnk Hx) as Hit.
    cbn [comps] in Hcs. fold name in Hcs, Hit |- *.
    destruct (after_comp name) as [|a0 r0] eqn:Ea.
    + assert (cs' = []) as -> by congruence. intros HKx.
      destruct (Hit HKx) as (b & s1 & H1 & Ev1 & Kp1 & Hb & Hbv & HbK & E1). rewrite E1.
      destruct (release_inv (b :: K) L s1 b x) as (s2 & E2 & H2 & Ev2 & Kp2); [done..|].
      rewrite filter_self in H2 by done.
      rewrite (bind_ok _ _ _ _ _ E2). eexists _, _. split; [done|].
      pose proof (comp_of_all _ Ea) as Ec. split_and!; [|by apply Kp2|by rewrite Ec].
      apply (ended_step s s2 vdir nd b p es); try done; [by etrans|by apply Kp2, Kp1|]. intros c y _ Hy. by apply Kp2, Kp1.
    + assert (∃ c2 cs2, cs' = c2 :: cs2) as (c2 & cs2 & Ecs2).
      { rewrite Ecs in Hcs. destruct (skip_slashes (String a0 r0)) as [|a1 r1] eqn:Esk; [done|].
        destruct (comps k (String a1 r1)) as [cs2|] eqn:Ek; [|done]. injection Hcs as ->.
        by eapply comps_cons. }
      destruct (abs L s !! x) as [ex|] eqn:Hex; [|rewrite Ecs2; cbn [walk]; rewrite Hex; exact I].
      destruct Hit as (b & s1 & H1 & Ev1 & Kp1 & Hb & Hbv & HbK & E1).
      { intros b Hb (v & Hv & Ev). destruct (Hoff b Hb) as (y & (w & Hw & Ew) & Hn). congruence. }
      rewrite E1. assert (has s1 vdir p) as Hvd1 by (by apply Kp1).
      assert (vdir ∉ K) as HvK by (by apply (off_path_dir K L s vdir p es)).
      destruct (vput_inv (b :: K) L s1 vdir p) as (s2 & E2 & H2 & Ev2 & Kp2);
        [done..|by eapply linked_evolve|].
      rewrite filter_other in H2 by (apply not_elem_of_cons; by split).
      destruct (release_inv (b :: K) L s2 b x) as (s3 & E3 & H3 & Ev3 & Kp3); [done|by apply Kp2|].
      rewrite filter_self in H3 by done.
      rewrite (bind_ok (vput vdir) _ s1 tt s2) by (unfold vput; by rewrite (bind_ok _ _ _ _ _ E2)).
      rewrite (bind_ok _ _ _ _ _ E3).
      assert (evolve s s3) as Ev by (do 2 (etrans; [done|]); done).
      assert (∀ c y, c ∈ K → has s c y → has s3 c y) as Hk3.
      { intros c y Hc Hy. apply Kp3, Kp2; [|by apply Kp1]. by intros ->. }
      specialize (IH cs' b x (nd_rest (nd_step vdir b nd)) s3 k').
      simpl in IH. fold name in IH. rewrite Ea in IH.
      rewrite Ecs2 in *.
      rewrite (walk_ext _ _ (is_link s3)) by (intros; by apply is_link_evolve).
      rewrite <-(evolve_abs _ _ _ Ev).
      destruct (skip_slashes (String a0 r0)) as [|a1 r1] eqn:Esk; [done|].
      pose proof (skip_slashes_length (String a0 r0)) as Hsk. rewrite Esk in Hsk.
      pose proof (skip_slashes_starts (String a0 r0)) as Hst. rewrite Esk in Hst.
      assert (comps k (String a1 r1) = Some (c2 :: cs2)) as Hcs2.
      { rewrite Ecs in Hcs. destruct (comps k _); [|done]. by injection Hcs as ->. }
      assert (linked s3 x) as Hlx.
      { eapply linked_evolve; [exact Ev|]. by apply (entry_linked _ L s p es x (vi_ok _ _ _ H) Hes Hx). }
      specialize (IH Hcs2 ltac:(lia) ltac:(done) Hst Hplain H3 ltac:(by apply (off_path_keeps K L s)) ltac:(by apply Kp3, Kp2) Hlx).
      destruct (walk _ _ x _) as [d y|d rest| |]; [| |done..].
      * intros HKy. destruct IH as (nd' & s' & E & He & Hv & Hl).
        { intros c Hc Hcy. destruct (Hoff c Hc) as (z & Hz & _). apply (HKy c Hc). pose proof (Hk3 c z Hc Hz) as Hz3.
          assert (y = z) as ->; [|done]. destruct Hcy as (v & Hv & <-), Hz3 as (w & Hw & <-). congruence. }
        exists nd', s'. split_and!; try done.
        by apply (ended_weaken s s3 s' nd (nd_rest (nd_step vdir b nd))).
      * destruct IH as (nd' & s' & E & He & Hv & Hl). exists nd', s'. split_and!; try done.
        by apply (ended_weaken s s3 s' nd (nd_rest (nd_step vdir b nd))).
  - destruct (iter_absent k' _ p nd s es Hne Hsl Hpl H Hoff Hvd Hes Hx) as (s1 & H1 & Ev1 & Kp1 & E1).
    rewrite E1. eexists _, _. split; [done|]. split_and!; [|done|].
    + apply (ended_step s s1 vdir nd NULL p es); try done; [by apply Kp1|]. intros c y _ Hy. by apply Kp1.
    + exists (S k). by rewrite <-Ecs.
Qed.

End loop.

(** ** [namei] *)

(** The root file system is mounted; [root] is its root directory. *)
Definition rooted (s : fs) (root : ptr) : Prop :=
  ∃ m r, fs_vfss s !! fs_rootfs s = Some m ∧ fs_rams s !! m_data m = Some r ∧ rv_root r = root ∧
    dir_parent (fs_nodes s) root = Some root.

Lemma dir_parent_evolve s s' x : evolve s s' → dir_parent (fs_nodes s') x = dir_parent (fs_nodes s) x.
Proof. intros [E _ _ _ _ _ _]. by apply dir_parent_core. Qed.

Lemma rooted_evolve s s' root : evolve s s' → rooted s root → rooted s' root.
Proof.
  intros E (m & r & ? & ? & ? & ?). pose proof (dir_parent_evolve _ _ root E).
  destruct E. exists m, r. split_and!; congruence.
Qed.

Lemma root_linked L s root :
  ramfs_ok L s → dir_parent (fs_nodes s) root = Some root → linked s root.
Proof.
  intros H Hpar. unfold dir_parent in Hpar. destruct (fs_nodes s !! root) as [n|] eqn:Hn; [|done].
  simpl in Hpar. exists n. split; [done|].
  rewrite (dk_links _ _ _ _ _ (rk_dirs _ _ H) _ _ Hn). pose proof (refs_nonneg (fs_dents s) root).
  destruct (rn_data n) as [h par q| | |]; try done. injection Hpar as ->.
  unfold links, len. rewrite (decide_True (P := root = root)) by done. case_decide; lia.
Qed.

Section namei.
Context (fuel : nat) (K : list ptr) (L : gmap ptr (list ptr)) (s : fs) (root : ptr) (path : string) (cs : list string).
Context (nd : nameidata).
Context (H : vfs_inv K L s) (Hoff : off_path K L s) (Hroot : rooted s root).
Context (Hpath : split_path path = Some cs) (Hplain : Forall (λ c, plain c = true) cs).

Lemma root_dir : ∃ es, abs L s !! root = Some es.
Proof.
  destruct Hroot as (m & r & _ & _ & _ & Hpar). unfold dir_parent in Hpar.
  destruct (fs_nodes s !! root) as [n|] eqn:Hn; [|done]. simpl in Hpar. destruct (rn_data n) as [h par q| | |] eqn:Ed; try done.
  destruct (dk_dir _ _ _ _ _ (rk_dirs _ _ (vi_ok _ _ _ H)) _ _ _ _ _ Hn Ed) as (_ & _ & l & Hl & _).
  exists (entries (fs_dents s) l). unfold abs. by rewrite lookup_fmap, Hl.
Qed.

Lemma vfs_root_got : ∃ b s', ramfs_root (fs_rootfs s) s = Ok ((0, b), s') ∧ got K L s s' b root.
Proof.
  destruct root_dir as [es Hes]. destruct Hroot as (m & r & Hm & Hr & Er & Hpar).
  destruct (fs_nodes s !! root) as [n|] eqn:Hn; [|unfold dir_parent in Hpar; by rewrite Hn in Hpar].
  destruct (vget_got K L s (fs_rootfs s) m r root n) as [Hready Hgot]; try done.
  { intros b Hb. destruct (Hoff b Hb) as (y & (v & Hv & _) & _). eauto. }
  { intros b Hb (v & Hv & Ev). destruct (Hoff b Hb) as (y & (w & Hw & Ew) & Hno). congruence. }
  eexists _, _. split; [|exact Hgot].
  unfold ramfs_root. do 2 kstep. rewrite Er. apply (vget_run s _ _ n); [done|..|done].
  - by apply (dk_lock _ _ _ _ _ (rk_dirs _ _ (vi_ok _ _ _ H)) _ _ Hn).
  - by apply (dk_data _ _ _ _ _ (rk_dirs _ _ (vi_ok _ _ _ H)) _ _ Hn).
Qed.

(** The structure that [namei] hands to [lookup]. *)
Definition namei_nd (b : ptr) : nameidata :=
  Nameidata b NULL (nd_next nd) (Z.ldiff (nd_flags nd) ISSYMLINK)
    (Componentnam (skip_slashes path) (String.length path)).

Lemma namei_run b s1 err nd' s' :
  starts_slash path = true → ramfs_root (fs_rootfs s) s = Ok ((0, b), s1) →
  lookup_comps (S fuel) (S (String.length (skip_slashes path))) b (namei_nd b) s1 = Ok ((err, nd'), s') →
  (err = 0 → Z.land (nd_flags nd') ISSYMLINK = 0) →
  namei (S fuel) path nd s = Ok ((err, nd'), s').
Proof.
  intros Hs E1 E2 Hf. unfold namei.
  assert (∀ t : fs, cstrdup path t = Ok (path, t)) as Ed by (by destruct path).
  assert (∀ t : fs, cstrlen path t = Ok (String.length path, t)) as El by (by destruct path).
  rewrite (bind_ok _ _ _ _ _ (Ed s)), (bind_ok _ _ _ _ _ (El s)).
  cbn [namei_loop nd_cn set_nd_vn set_nd_cn cn_name]. rewrite Hs.
  rewrite bind_assoc, (bind_ok _ _ s tt s eq_refl).
  rewrite bind_assoc, (bind_ok _ _ s s s eq_refl).
  rewrite bind_assoc, (bind_ok (@vfsop_root ram_ops (fs_rootfs s)) _ _ (0, b) s1 E1).
  cbv beta iota. rewrite (bind_ok _ _ s1 _ s1 eq_refl). cbv beta iota.
  rewrite (bind_ok _ _ s1 (err, nd') s' E2). cbv beta iota.
  destruct (decide (err ≠ 0)) as [|He]; [done|].
  assert (err = 0) as -> by lia. rewrite decide_True by auto. done.
Qed.

Lemma namei_walk_under :
  match walk (abs L s) (is_link s) root cs with
  | At d x => (∀ b, b ∈ K → ¬ has s b x) → ∃ b nd' s', namei (S fuel) path nd s = Ok ((0, nd'), s') ∧
      ended K L s s' (namei_nd b) nd' d (List.last cs EmptyString) ∧ has s' (nd_vn nd') x ∧
      cn_name (nd_cn nd') = List.last cs EmptyString
  | Absent d rest => ∃ b nd' s', namei (S fuel) path nd s = Ok ((- ENOENT, nd'), s') ∧
      ended K L s s' (namei_nd b) nd' d (List.hd EmptyString rest) ∧ nd_vn nd' = NULL ∧
      rest_of (nd_cn nd') rest
  | _ => True
  end.
Proof.
  pose proof Hpath as Hp. unfold split_path in Hp. destruct (starts_slash path) eqn:Hs; [|done].
  pose proof (skip_slashes_starts path) as Hst.
  assert (skip_slashes path ≠ EmptyString ∧
    comps (S (String.length (skip_slashes path))) (skip_slashes path) = Some cs) as [Hne Hcs]
    by (by destruct (skip_slashes path)).
  destruct vfs_root_got as (b & s1 & E1 & H1 & Ev1 & Kp1 & Hb & _).
  assert (linked s1 root) as Hlr.
  { eapply root_linked; [apply H1|]. rewrite (dir_parent_evolve s s1) by done.
    by destruct Hroot as (? & ? & _ & _ & _ & ?). }
  assert (∀ c y, c ∈ K → has s c y → has s1 c y) as Hk1 by (intros c y _; apply Kp1).
  pose proof (lookup_comps_walk fuel K L _ cs b root (namei_nd b) s1 (S (String.length (skip_slashes path)))
    Hcs ltac:(simpl; lia) Hne Hst Hplain H1 ltac:(by apply (off_path_keeps K L s)) Hb Hlr) as Hwalk.
  rewrite (walk_ext _ _ (is_link s1)) by (intros; by apply is_link_evolve).
  rewrite <-(evolve_abs _ _ _ Ev1).
  destruct (walk _ _ root cs) as [d x|d rest| |]; [| |done..].
  - intros HKx. destruct Hwalk as (nd' & s' & E & He & Hv & Hl).
    { intros c Hc (v & Hv & Ev). destruct (Hoff c Hc) as (y & Hy & _). apply (HKx c Hc). assert (x = y) as ->; [|done].
      destruct (Hk1 c y Hc Hy) as (w & Hw & <-). congruence. }
    exists b, nd', s'. split_and!; try done.
    + eapply (namei_run b s1); try done. intros _. destruct He as (_ & _ & _ & _ & _ & -> & _).
      simpl. apply Z.land_ldiff.
    + by apply (ended_weaken K L s s1 s' (namei_nd b) (namei_nd b)).
  - destruct Hwalk as (nd' & s' & E & He & Hv & Hl). exists b, nd', s'. split_and!; try done.
    + by apply (namei_run b s1).
    + by apply (ended_weaken K L s s1 s' (namei_nd b) (namei_nd b)).
Qed.

End namei.

(** With no lock held. *)
Lemma namei_walk fuel L s root path cs nd :
  vfs_inv [] L s → rooted s root → split_path path = Some cs → Forall (λ c, plain c = true) cs →
  match walk (abs L s) (is_link s) root cs with
  | At d x => ∃ b nd' s', namei (S fuel) path nd s = Ok ((0, nd'), s') ∧
      ended [] L s s' (namei_nd path nd b) nd' d (List.last cs EmptyString) ∧ has s' (nd_vn nd') x ∧
      cn_name (nd_cn nd') = List.last cs EmptyString
  | Absent d rest => ∃ b nd' s', namei (S fuel) path nd s = Ok ((- ENOENT, nd'), s') ∧
      ended [] L s s' (namei_nd path nd b) nd' d (List.hd EmptyString rest) ∧ nd_vn nd' = NULL ∧
      rest_of (nd_cn nd') rest
  | _ => True
  end.
Proof.
  intros H Hroot Hpath Hplain. pose proof (namei_walk_under fuel [] L s root path cs nd H (off_path_nil L s) Hroot Hpath Hplain) as Hn.
  destruct (walk _ _ root cs) as [d x|d rest| |]; [|done..]. apply Hn. by intros b Hb%not_elem_of_nil.
Qed.
