(* ===== verification/VfsOps.v ===== *)
(** * The calls of the VFS over ramfs, from path to result

    [vfs_create], [vfs_mkdir], [vfs_open] on every end of a walk, and
    [vfs_read] and [vfs_write]: result, abstract directories and invariant. *)

From S2P Require Import Prelude CString FsState Ramfs RamfsDir RamfsOps RamfsInv RamfsSpec.
From S2P Require Import RamfsUnlink RamfsLookup RamfsFile Vfs VfsRefs VfsPath.

Local Open Scope Z_scope.

(** ** States that grow *)

Lemma evolve_grows s s' : evolve s s' → grows s s'.
Proof.
  intros E. split; [|apply E..|].
  - intros y n Hn. destruct (evolve_node _ _ _ _ E Hn) as (n' & Hn' & ? & ? & Ed).
    exists n'. rewrite Ed. split_and!; try done. lia.
  - intros b r Hb. destruct E as [_ _ _ Er _ _ _]. exists r. by rewrite Er.
Qed.

#[export] Instance grows_trans : Transitive grows.
Proof.
  intros s s' s'' [A1 A2 A3 A4] [B1 B2 B3 B4]. split; [|congruence..|].
  - intros y n Hn. destruct (A1 _ _ Hn) as (n' & Hn' & Et & Ec & Ep & Ed).
    destruct (B1 _ _ Hn') as (n'' & Hn'' & Et' & Ec' & Ep' & Ed'). exists n''.
    split_and!; [done|congruence|lia|congruence|]. intros Hu. rewrite Ed'; [by apply Ed|].
    by rewrite (Ed Hu).
  - intros b r Hb. destruct (A4 _ _ Hb) as (r' & Hr' & E). destruct (B4 _ _ Hr') as (r'' & ? & E').
    exists r''. split; [done|congruence].
Qed.

Lemma linked_grows L s s' x : ramfs_ok L s → grows s s' → linked s x → linked s' x.
Proof.
  intros H G (n & Hn & Hc). destruct (gr_node _ _ G _ _ Hn) as (n' & Hn' & _ & Hle & _).
  exists n'. split; [done|]. pose proof (refs_nonneg (fs_dents s) x).
  assert (0 ≤ rn_linkcount n); [|lia].
  rewrite (dk_links _ _ _ _ _ (rk_dirs _ _ H) _ _ Hn). unfold links, len.
  destruct (rn_data n); repeat case_decide; lia.
Qed.

Lemma rooted_grows s s' root : grows s s' → rooted s root → rooted s' root.
Proof.
  intros [G1 G2 G3 G4] (m & r & Hm & Hr & Er & Hp). destruct (G4 _ _ Hr) as (r' & Hr' & Er').
  exists m, r'. rewrite G2, G3. split_and!; [done..|congruence|].
  unfold dir_parent in *. destruct (fs_nodes s !! root) as [n|] eqn:Hn; [|done].
  destruct (G1 _ _ Hn) as (n' & -> & _ & _ & Ep & _). simpl in *. congruence.
Qed.

Lemma next_seq_evolve s s' p : evolve s s' → next_seq s' p = next_seq s p.
Proof.
  intros [E _ _ _ _ _ _]. unfold next_seq. destruct (fs_nodes s' !! p) as [n'|] eqn:Hn'.
  - by destruct (core_equiv_fields _ _ _ _ E Hn') as (n & -> & _ & _ & _ & ->).
  - specialize (E p). rewrite Hn' in E. by destruct (fs_nodes s !! p).
Qed.

(** ** A new entry *)

(** The node has the type and the initial contents [ramfs_alloc_node] gives. *)
Definition fresh_node (s : fs) (x : ptr) (type : vtype) : Prop :=
  ∃ n, fs_nodes s !! x = Some n ∧ rn_type n = type ∧ (type = VREG → rn_data n = UReg None 0).

(** What creating entry [c] of type [type] in directory [d] leaves. *)
Definition created (L : gmap ptr (list ptr)) (s : fs) (d : ptr) (c : string) (type : vtype)
    (es : list (string * ptr)) (L' : gmap ptr (list ptr)) (s' : fs) (a x : ptr) : Prop :=
  vfs_inv [] L' s' ∧ grows s s' ∧ has s' a x ∧ fresh_node s' x type ∧ fs_nodes s !! x = None ∧
  abs L' s' = <[d := (c, x) :: es]> (if decide (type = VDIR) then <[x := []]> (abs L s) else abs L s) ∧
  next_seq s' d = (λ q, u64 (q + 1)) <$> next_seq s d.

Lemma make_entry L s vdir vpp d es cnp type q :
  vfs_inv [] L s → has s vdir d → linked s d → abs L s !! d = Some es →
  (0 < cn_len cnp ≤ String.length (cn_name cnp))%nat → type = VREG ∨ type = VDIR →
  next_seq s d = Some q → q + 1 < 2 ^ 64 →
  ∃ L' s' a x s1 s2, acquire_vn vdir s = Ok (tt, s1) ∧ 
    (∃ v, fs_vnodes s1 !! vdir = Some v ∧ v_type v = VDIR) ∧
    ramfs_alloc_file vdir vpp cnp type None s1 = Ok ((0, a), s2) ∧ vrele vdir s2 = Ok (tt, s') ∧
    created L s d (component cnp) type es L' s' a x.
Proof.
  intros H Hvd Hld Hes Hc Htype Hq Hq2.
  destruct (acquire_inv _ _ _ _ _ H Hvd) as (s1 & E1 & H1 & Ev1 & K1); [set_solver|].
  destruct (K1 _ _ Hvd) as (dv & Hdv & <-).
  assert (v_type dv = VDIR) as Hdir.
  { eapply (abs_dir L s1); [apply H1|done|]. by rewrite (evolve_abs L s s1). }
  set (data := match type with VDIR => UDir (fs_ram s1 (fs_brk s1) 40) (v_data dv) SEQ_START | _ => UReg None 0 end).
  assert (v_data dv ≠ NULL) as Hp0.
  { destruct Hld as (n & Hn & _). intros E.
    rewrite E, (below_null _ _ (rk_nodes _ _ (vi_ok _ _ _ H))) in Hn. done. }
  assert (new_data s1 (v_data dv) type None = Some data) as Hnew.
  { unfold data, new_data. destruct Htype as [-> | ->]; [done|]. by rewrite decide_False. }
  assert (next_seq s1 (v_data dv) = Some q) as Hq1 by (by rewrite (next_seq_evolve s s1)).
  assert (is_Some (@None string) → type = VLNK) as Htg by by intros [].
  destruct (create_ok L s1 vdir vpp dv cnp type None data q (vi_ok _ _ _ H1) Hdv Hdir Hc Htg Hnew Hq1 Hq2) as
    (s2 & old & n & E2 & H2 & Hold & Habs & Hvn & Hn & Et & Ed & Ev & G).
  set (L' := create_lists L (v_data dv) (fs_brk s1 + 1) (fs_brk s1) type) in *.
  rewrite (evolve_abs L s s1) in Hold, Habs by done. assert (old = es) as -> by congruence.
  assert (fs_vnodes s1 !! (fs_brk s1 + 2) = None) as Hfr.
  { apply (below_fresh (fs_brk s1 + 2)). eapply below_mono; [|apply (rk_vnodes _ _ (vi_ok _ _ _ H1))]. lia. }
  assert (fs_brk s1 + 2 ≠ vdir) as Hav by congruence.
  assert (vfs_inv [vdir] L' s2) as H2'.
  { split; [done|rewrite Hvn..]; intros b w [[<- <-]|[? Hb]]%lookup_insert_Some; simpl; try done; try by eapply H1.
    split; [done|]. rewrite decide_False; [done|]. intros Hin%list_elem_of_singleton. done. }
  assert (has s2 vdir (v_data dv)) as Hvd2 by (exists dv; by rewrite Hvn, lookup_insert_ne).
  assert (grows s s2) as G' by (etrans; [by apply evolve_grows|done]).
  destruct (vput_inv [vdir] L' s2 vdir (v_data dv)) as (s3 & E3 & H3 & Ev3 & K3); [done..| |].
  { eapply linked_grows; [|exact G'|done]. apply H. }
  rewrite filter_self in H3 by set_solver.
  exists L', s3, (fs_brk s1 + 2), (fs_brk s1), s1, s2. split_and!; [done|by exists dv|done| |].
  { unfold vrele, vput. by rewrite (bind_ok _ _ _ _ _ E3). }
  unfold created. split_and!.
  - done.
  - etrans; [done|by apply evolve_grows].
  - apply K3; [done|]. eexists. rewrite Hvn, lookup_insert_eq. done.
  - destruct (evolve_node _ _ _ _ Ev3 Hn) as (n' & Hn' & Et' & _ & Ed'). exists n'.
    split_and!; [done|congruence|]. rewrite Ed', Ed. unfold data. by intros ->.
  - destruct (fs_nodes s !! fs_brk s1) eqn:E; [|done].
    destruct (gr_node _ _ (evolve_grows _ _ Ev1) _ _ E) as (n0 & Hn0 & _).
    rewrite (below_fresh _ _ (rk_nodes _ _ (vi_ok _ _ _ H1))) in Hn0. done.
  - by rewrite (evolve_abs L' s2 s3), Habs.
  - rewrite (next_seq_evolve s2 s3), Hq by done.
    exact (create_next_seq L s1 vdir vpp dv cnp type None data q (vi_ok _ _ _ H1) Hdv Hdir Hc Htg Hnew Hq1 _ _ E2).
Qed.

Section calls.
Context (fuel : nat) (stk : nameidata) (L : gmap ptr (list ptr)) (s : fs) (root : ptr).
Context (path : string) (cs : list string) (vpp : ptr).
Context (H : vfs_inv [] L s) (Hroot : rooted s root).
Context (Hpath : split_path path = Some cs) (Hplain : Forall (λ c, plain c = true) cs).

(** After a walk that ends at a missing component, the entry is made in the
    directory reached, under the name of that component. *)
Lemma create_absent_run d rest c type q out :
  walk (abs L s) (is_link s) root cs = Absent d (c :: rest) → type = VREG ∨ type = VDIR →
  next_seq s d = Some q → q + 1 < 2 ^ 64 →
  ∃ es nd s1 L' s' a x s2 s3, abs L s !! d = Some es ∧ namei (S fuel) path stk s = Ok ((- ENOENT, nd), s1) ∧
    acquire_vn (nd_vdir nd) s1 = Ok (tt, s2) ∧
    (∃ v, fs_vnodes s2 !! nd_vdir nd = Some v ∧ v_type v = VDIR) ∧
    nd_vn nd = NULL ∧ ramfs_alloc_file (nd_vdir nd) out (nd_cn nd) type None s2 = Ok ((0, a), s3) ∧
    vrele (nd_vdir nd) s3 = Ok (tt, s') ∧ created L s d c type es L' s' a x.
Proof.
  intros Hw Htype Hq Hq2.
  pose proof (namei_walk fuel L s root path cs stk H Hroot Hpath Hplain) as Hn. rewrite Hw in Hn.
  destruct Hn as (b & nd & s1 & E & (H1 & Ev & Hd & Hc & Hlen & _ & [es Hes] & Hld & _) & Hvn & _).
  simpl in Hc. rewrite <-Hc.
  destruct (make_entry L s1 (nd_vdir nd) out d es (nd_cn nd) type q) as
    (L' & s' & a & x & s2 & s3 & E1 & Hv & E2 & E3 & Hcr); try done.
  { by eapply linked_evolve. }
  { by rewrite (evolve_abs L s s1). }
  { by rewrite (next_seq_evolve s s1). }
  exists es, nd, s1, L', s', a, x, s2, s3. split_and!; try done.
  destruct Hcr as (? & G & ? & ? & Hx & ? & Hsq). unfold created. split_and!; try done.
  - etrans; [by apply evolve_grows|done].
  - destruct (fs_nodes s !! x) eqn:Ex; [|done].
    destruct (evolve_node _ _ _ _ Ev Ex) as (? & ? & _). congruence.
  - by rewrite <-(evolve_abs L s s1).
  - by rewrite <-(next_seq_evolve s s1).
Qed.

Lemma create_new d rest c q :
  walk (abs L s) (is_link s) root cs = Absent d (c :: rest) →
  next_seq s d = Some q → q + 1 < 2 ^ 64 →
  ∃ es L' s' a x, abs L s !! d = Some es ∧ vfs_create (S fuel) stk path vpp VREG s = Ok ((0, a), s') ∧
    created L s d c VREG es L' s' a x.
Proof.
  intros Hw Hq Hq2.
  destruct (create_absent_run d rest c VREG q NULL) as
    (es & nd & s1 & L' & s' & a & x & s2 & s3 & Hes & E1 & E2 & Hv & Hvn & E3 & E4 & Hcr); auto.
  exists es, L', s', a, x. split_and!; try done. unfold vfs_create, vfs_open.
  rewrite (decide_True (P := Z.land O_CREATE O_CREATE ≠ 0)) by done.
  rewrite (bind_ok _ _ _ _ _ E1). cbv beta iota. rewrite decide_False by (by intros []).
  rewrite (bind_ok _ _ _ _ _ E2), Hvn.
  rewrite (bind_ok (@vop_create ramfs_vnode_ops (nd_vdir nd) NULL (nd_cn nd) VREG) _ s2 (0, a) s3 E3).
  cbv beta iota. by rewrite (bind_ok _ _ _ _ _ E4), decide_False by (by intros []).
Qed.

Lemma mkdir_new d rest c q :
  walk (abs L s) (is_link s) root cs = Absent d (c :: rest) →
  next_seq s d = Some q → q + 1 < 2 ^ 64 →
  ∃ es L' s' a x, abs L s !! d = Some es ∧ vfs_mkdir (S fuel) stk path vpp s = Ok ((0, a), s') ∧
    created L s d c VDIR es L' s' a x.
Proof.
  intros Hw Hq Hq2.
  destruct (create_absent_run d rest c VDIR q vpp) as
    (es & nd & s1 & L' & s' & a & x & s2 & s3 & Hes & E1 & E2 & (v & Hv & Hvd) & Hvn & E3 & E4 & Hcr); auto.
  exists es, L', s', a, x. split_and!; try done. unfold vfs_mkdir.
  rewrite (decide_False (P := path = EmptyString)) by (by intros ->).
  rewrite (bind_ok _ _ _ _ _ E1). cbv beta iota. rewrite decide_False by (by intros []).
  rewrite (bind_ok _ _ _ _ _ E2). erewrite (bind_ok (load (nd_vdir nd))) by (apply load_ok; exact Hv).
  rewrite (decide_False (P := v_type v ≠ VDIR)) by (by intros []).
  rewrite (bind_ok (@vop_mkdir ramfs_vnode_ops (nd_vdir nd) vpp (nd_cn nd)) _ s2 (0, a) s3 E3).
  cbv beta iota. by rewrite (bind_ok _ _ _ _ _ E4).
Qed.

Lemma at_ne d x : walk (abs L s) (is_link s) root cs = At d x → d ≠ x.
Proof. intros (es & Hes & Hx & _)%walk_at. by eapply entry_ne; [apply H|..]. Qed.

Lemma at_linked d x : walk (abs L s) (is_link s) root cs = At d x → linked s x.
Proof. intros (es & Hes & Hx & _)%walk_at. by eapply entry_linked; [apply H|..]. Qed.

(** [if (p) vput (p);] on the vnode of a linked node. *)
Lemma vput_opt_inv K s1 a x :
  vfs_inv K L s1 → has s1 a x → linked s1 x →
  ∃ s2, vput_opt a s1 = Ok (tt, s2) ∧ vfs_inv (filter (.≠ a) K) L s2 ∧ evolve s1 s2 ∧
    ∀ b y, b ≠ a → has s1 b y → has s2 b y.
Proof.
  intros H1 Ha Hl. destruct (vput_inv K L s1 a x H1 Ha Hl) as (s2 & E2 & ? & ? & ?).
  exists s2. split_and!; try done. unfold vput_opt, vput. rewrite decide_False.
  - by rewrite (bind_ok _ _ _ _ _ E2).
  - intros ->. destruct Ha as (v & Hv & _).
    by rewrite (below_null _ _ (rk_vnodes _ _ (vi_ok _ _ _ H1))) in Hv.
Qed.

(** An existing name: the vnode of its node, with one more reference. *)
Lemma open_at d x flags :
  walk (abs L s) (is_link s) root cs = At d x → Z.land flags O_CREATE = 0 →
  ∃ s' a, vfs_open (S fuel) stk path vpp VNON flags s = Ok ((0, a), s') ∧
    vfs_inv [] L s' ∧ evolve s s' ∧ has s' a x.
Proof.
  intros Hw Hfl. pose proof (namei_walk fuel L s root path cs stk H Hroot Hpath Hplain) as Hn.
  rewrite Hw in Hn. destruct Hn as (b & nd & s1 & E & (H1 & Ev & Hd & _ & _ & _ & _ & Hld & _) & Hx & _).
  destruct (vput_opt_inv [] s1 (nd_vdir nd) d) as (s2 & E2 & H2 & Ev2 & K2); [done..|by eapply linked_evolve|].
  exists s2, (nd_vn nd). split_and!; [|done|by etrans|].
  - unfold vfs_open. rewrite (decide_False (P := Z.land flags O_CREATE ≠ 0)) by (by intros []).
    by rewrite (bind_ok _ _ _ _ _ E), (bind_ok _ _ _ _ _ E2).
  - apply K2; [|done]. intros Ea. rewrite Ea in Hx. pose proof (at_ne _ _ Hw) as Hdx.
    destruct Hx as (v & Hv & <-), Hd as (w & Hw' & <-). congruence.
Qed.

Lemma open_absent d rest flags :
  walk (abs L s) (is_link s) root cs = Absent d rest → Z.land flags O_CREATE = 0 →
  ∃ s', vfs_open (S fuel) stk path vpp VNON flags s = Ok ((- ENOENT, vpp), s') ∧
    vfs_inv [] L s' ∧ evolve s s'.
Proof.
  intros Hw Hfl. pose proof (namei_walk fuel L s root path cs stk H Hroot Hpath Hplain) as Hn.
  rewrite Hw in Hn. destruct Hn as (b & nd & s1 & E & (H1 & Ev & Hd & _ & _ & _ & _ & Hld & _) & _ & _).
  destruct (vput_opt_inv [] s1 (nd_vdir nd) d) as (s2 & E2 & H2 & Ev2 & K2); [done..|by eapply linked_evolve|].
  exists s2. split_and!; [|done|by etrans].
  unfold vfs_open. rewrite (decide_False (P := Z.land flags O_CREATE ≠ 0)) by (by intros []).
  rewrite (bind_ok _ _ _ _ _ E). cbv beta iota. by rewrite (bind_ok _ _ _ _ _ E2), decide_False by done.
Qed.

(** A call that only looks at an existing name puts both vnodes back. *)
Lemma put_both d x :
  walk (abs L s) (is_link s) root cs = At d x →
  ∃ nd s1 s2 s3, namei (S fuel) path stk s = Ok ((0, nd), s1) ∧ vput_opt (nd_vdir nd) s1 = Ok (tt, s2) ∧
    vput_opt (nd_vn nd) s2 = Ok (tt, s3) ∧ vfs_inv [] L s3 ∧ evolve s s3.
Proof.
  intros Hw. pose proof (namei_walk fuel L s root path cs stk H Hroot Hpath Hplain) as Hn.
  rewrite Hw in Hn. destruct Hn as (b & nd & s1 & E & (H1 & Ev & Hd & _ & _ & _ & _ & Hld & _) & Hx & _).
  destruct (vput_opt_inv [] s1 (nd_vdir nd) d) as (s2 & E2 & H2 & Ev2 & K2); [done..|by eapply linked_evolve|].
  assert (has s2 (nd_vn nd) x) as Hx2.
  { apply K2; [|done]. intros Ea. rewrite Ea in Hx. pose proof (at_ne _ _ Hw).
    destruct Hx as (v & Hv & <-), Hd as (w & Hw' & <-). congruence. }
  destruct (vput_opt_inv [] s2 (nd_vn nd) x) as (s3 & E3 & H3 & Ev3 & _); [done..| |].
  { eapply linked_evolve; [|by eapply at_linked]. by etrans. }
  exists nd, s1, s2, s3. split_and!; try done. by do 2 (etrans; [done|]).
Qed.

(** Creating a name that exists: success is reported, [*vpp] is not written. *)
Lemma create_exists d x :
  walk (abs L s) (is_link s) root cs = At d x →
  ∃ s', vfs_create (S fuel) stk path vpp VREG s = Ok ((0, vpp), s') ∧ vfs_inv [] L s' ∧ evolve s s'.
Proof.
  intros (nd & s1 & s2 & s3 & E1 & E2 & E3 & H3 & Ev)%put_both. exists s3. split_and!; [|done..].
  unfold vfs_create, vfs_open. rewrite (decide_True (P := Z.land O_CREATE O_CREATE ≠ 0)) by done.
  rewrite (bind_ok _ _ _ _ _ E1). cbv beta iota. rewrite decide_True by done.
  by rewrite (bind_ok _ _ _ _ _ E2), (bind_ok _ _ _ _ _ E3).
Qed.

Lemma mkdir_exists d x :
  walk (abs L s) (is_link s) root cs = At d x →
  ∃ s', vfs_mkdir (S fuel) stk path vpp s = Ok ((- EEXIST, vpp), s') ∧ vfs_inv [] L s' ∧ evolve s s'.
Proof.
  intros (nd & s1 & s2 & s3 & E1 & E2 & E3 & H3 & Ev)%put_both. exists s3. split_and!; [|done..].
  unfold vfs_mkdir. rewrite (decide_False (P := path = EmptyString)) by (intros ->; done).
  rewrite (bind_ok _ _ _ _ _ E1). cbv beta iota. rewrite decide_True by done.
  by rewrite (bind_ok _ _ _ _ _ E2), (bind_ok _ _ _ _ _ E3).
Qed.

End calls.

(** What was created in the root directory is found there. *)
Lemma prefix_refl c : String.prefix c c = true.
Proof. induction c as [|a c IH]; simpl; [done|]. by destruct (Ascii.ascii_dec a a). Qed.

Lemma create_open fuel stk L s root path c vpp vpp' q :
  vfs_inv [] L s → rooted s root → split_path path = Some [c] → plain c = true →
  walk (abs L s) (is_link s) root [c] = Absent root [c] → next_seq s root = Some q → q + 1 < 2 ^ 64 →
  ∃ L' s1 s2 a a' x es, vfs_create (S fuel) stk path vpp VREG s = Ok ((0, a), s1) ∧
    vfs_open (S fuel) stk path vpp' VNON 0 s1 = Ok ((0, a'), s2) ∧ created L s root c VREG es L' s1 a x ∧
    vfs_inv [] L' s2 ∧ evolve s1 s2 ∧ has s2 a' x.
Proof.
  intros H Hroot Hp Hpl Hw Hq Hq2.
  assert (Forall (λ c, plain c = true) [c]) as Hpl' by by repeat constructor.
  destruct (create_new fuel stk L s root path [c] vpp H Hroot Hp Hpl' root [] c q) as
    (es & L' & s1 & a & x & Hes & E1 & Hcr); try done.
  pose proof Hcr as (H1 & G & Ha & Hx & Hfr & Habs & _).
  assert (walk (abs L' s1) (is_link s1) root [c] = At root x) as Hw1.
  { cbn [walk]. rewrite Habs, decide_False, lookup_insert_eq by done. simpl. rewrite prefix_refl.
    destruct Hx as (n & Hn & Et & _). unfold is_link. rewrite Hn, Et. done. }
  destruct (open_at fuel stk L' s1 root path [c] vpp' H1 ltac:(by eapply rooted_grows) Hp Hpl' root x 0 Hw1)
    as (s2 & a' & E2 & H2 & Ev2 & Ha2); [done|].
  by exists L', s1, s2, a, a', x, es.
Qed.

(** ** Reading and writing through the VFS *)

Section rw.
Context (L : gmap ptr (list ptr)) (s : fs) (a x : ptr) (n : ramnode) (data : option (list cell)) (size : Z).
Context (H : vfs_inv [] L s) (Ha : has s a x) (Hn : fs_nodes s !! x = Some n).
Context (Hreg : rn_data n = UReg data size).

Lemma rw_vnode : ∃ v, fs_vnodes s !! a = Some v ∧ v_data v = x ∧ v_lock v = 0 ∧ v_type v ≠ VDIR ∧
  ramfs_ok L (upd_vnodes (insert a (set_lock 1 v)) s).
Proof.
  destruct (has_node _ _ _ _ _ H Ha) as (v & n' & Hv & Ev & Hn' & Et & _).
  assert (n' = n) as -> by congruence. exists v. destruct (vi_vnodes _ _ _ H _ _ Hv) as [_ Hl].
  split_and!; try done.
  - pose proof (dk_data _ _ _ _ _ (rk_dirs _ _ (vi_ok _ _ _ H)) _ _ Hn) as Hd. apply data_ok_dir in Hd.
    rewrite Hreg in Hd. simpl in Hd. rewrite Et. by apply eq_sym, bool_decide_eq_false in Hd.
  - apply (ramfs_ok_write _ _ _ v); try done; [apply H|].
    by destruct (vk_vnode _ _ (rk_vn _ _ (vi_ok _ _ _ H)) _ _ Hv).
Qed.

Lemma vfs_write_ok buf offset :
  0 ≤ offset → offset + Z.of_nat (length buf) < 2 ^ 63 →
  ∃ data', let s' := upd_nodes (insert x (set_data (UReg (Some data') (Z.of_nat (length data'))) n)) s in
    vfs_write a buf offset (Z.of_nat (length buf)) s = Ok (0, s') ∧ vfs_inv [] L s' ∧
    written (contents data) data' (Z.to_nat offset) buf.
Proof.
  intros Ho Hb. destruct rw_vnode as (v & Hv & Ev & Hl & Ht & Hok).
  destruct (write_ok L _ a (set_lock 1 v) n data size Hok (lookup_insert_eq _ _ _)
    ltac:(simpl; by rewrite Ev) Hreg buf offset Ho Hb) as (data' & E & Hok1 & Hw).
  simpl in E. rewrite Ev in E. exists data'. cbv zeta. simpl in Hok1. rewrite Ev in Hok1.
  match type of E with _ = Ok (0, ?t) => set (s1 := t) in * end.
  match goal with |- context [vfs_inv [] L ?t] => set (s' := t) end.
  assert (set_lock 0 (set_lock 1 v) = v) as Ev0 by (destruct v; simpl in *; by subst).
  assert (upd_vnodes (insert a v) s1 = s') as Hback.
  { apply fs_eq; try done. simpl. rewrite insert_insert_eq. by apply insert_id. }
  split_and!.
  - unfold vfs_write. do 2 kstep. rewrite decide_False by done.
    rewrite (bind_ok (ramfs_write a buf offset _) _ _ _ _ E).
    pose proof (release_vn_ok s1 a (set_lock 1 v)) as Er. rewrite Ev0, Hback in Er.
    rewrite (bind_ok (release_vn a) _ _ _ _ (Er (lookup_insert_eq _ _ _))). done.
  - split; [|apply H..]. rewrite <-Hback.
    apply (ramfs_ok_write _ _ _ (set_lock 1 v)); try done; [by apply lookup_insert_eq|].
    by destruct (vk_vnode _ _ (rk_vn _ _ (vi_ok _ _ _ H)) _ _ Hv).
  - done.
Qed.

Lemma vfs_read_ok bs offset count :
  data = Some bs → 0 ≤ offset → 0 ≤ count → offset + count ≤ size → offset + count < 2 ^ 64 →
  vfs_read a offset count s = Ok ((i32 count, take (Z.to_nat count) (drop (Z.to_nat offset) bs)), s).
Proof.
  intros Hd Ho Hc Hs Ht. destruct rw_vnode as (v & Hv & Ev & Hl & Hty & Hok).
  unfold vfs_read. do 2 kstep. rewrite decide_False by done.
  erewrite (bind_ok (ramfs_read a offset count)).
  2:{ apply (read_ok L _ a (set_lock 1 v) n data size Hok); try done; simpl.
      - by rewrite lookup_insert_eq.
      - by rewrite Ev. }
  kstep. same_state. apply insert_id. rewrite Hv. f_equal. destruct v; simpl in *; by subst.
Qed.

Lemma vfs_read_eof offset count :
  size < u64 (offset + count) → vfs_read a offset count s = Ok ((- EINVAL, []), s).
Proof.
  intros Hs. destruct rw_vnode as (v & Hv & Ev & Hl & Hty & Hok).
  unfold vfs_read. do 2 kstep. rewrite decide_False by done.
  erewrite (bind_ok (ramfs_read a offset count)).
  2:{ apply (read_eof L _ a (set_lock 1 v) n data size Hok); try done; simpl.
      - by rewrite lookup_insert_eq.
      - by rewrite Ev. }
  kstep. same_state. apply insert_id. rewrite Hv. f_equal. destruct v; simpl in *; by subst.
Qed.

End rw.
