(* ===== verification/VfsLinks.v ===== *)
(** * Hard links and unlinking, from path to result

    [vfs_link] and [vfs_unlink] of kernel/vfs.c over ramfs: on the calls that
    go through, and on the ones that are refused, the result, the abstract
    directories and the invariant.  Both calls hold the lock of a file while
    they work on its directory, or on a second path. *)

From S2P Require Import Prelude CString FsState Ramfs RamfsDir RamfsOps RamfsInv RamfsSpec.
From S2P Require Import RamfsUnlink RamfsLookup Vfs VfsRefs VfsPath VfsOps.

Local Open Scope Z_scope.

(** ** Names *)

(** Some directory has an entry for the node. *)
Definition names (A : gmap ptr (list (string * ptr))) (x : ptr) : Prop :=
  ∃ d es name, A !! d = Some es ∧ (name, x) ∈ es.

Lemma entries_in D l name x : (name, x) ∈ entries D l → ∃ d e, D !! d = Some e ∧ de_node e = x.
Proof.
  induction l as [|d l IH]; simpl; [by intros ?%not_elem_of_nil|].
  destruct (D !! d) as [e|] eqn:Hd; [|done]. intros [[= _ ->]|?]%elem_of_cons; [|by apply IH]. by exists d, e.
Qed.

Lemma names_linked L s x : ramfs_ok L s → names (abs L s) x → linked s x.
Proof.
  intros H (d & es & name & Hes & Hin). unfold abs in Hes. rewrite lookup_fmap in Hes.
  destruct (L !! d) as [l|]; [|done]. injection Hes as <-.
  destruct (entries_in _ _ _ _ Hin) as (de & e & Hde & <-). by eapply dent_linked.
Qed.

Lemma lookup_entry_in P es x : lookup_entry P es = Some x → ∃ name, (name, x) ∈ es.
Proof.
  induction es as [|[n y] es IH]; simpl; [done|]. destruct (P n).
  - intros [= ->]. exists n. by left.
  - intros (m & Hm)%IH. exists m. by right.
Qed.

(** Taking out the entry of one node leaves those of the others. *)
Lemma remove_entry_others P es x y name :
  lookup_entry P es = Some x → y ≠ x → (name, y) ∈ es → (name, y) ∈ remove_entry P es.
Proof.
  induction es as [|[n z] es IH]; simpl; [done|]. destruct (P n); intros Hx Hy Hin.
  - apply elem_of_cons in Hin as [[= -> ->]|]; congruence.
  - apply elem_of_cons in Hin as [->|]; [left|right; by apply IH].
Qed.

Lemma remove_names P A d es x y :
  A !! d = Some es → lookup_entry P es = Some x → y ≠ x → names A y → names (<[d := remove_entry P es]> A) y.
Proof.
  intros Hes Hx Hy (d' & es' & name & Hes' & Hin). destruct (decide (d' = d)) as [->|Hd].
  - assert (es' = es) as -> by congruence. eexists d, _, name. split; [by rewrite lookup_insert_eq|].
    by apply (remove_entry_others P es x).
  - exists d', es', name. by rewrite lookup_insert_ne.
Qed.

(** The directory a walk ends in has a name, unless it is where it began. *)
Lemma walk_dir_names A lnk p cs :
  match walk A lnk p cs with At d _ | Absent d _ => d = p ∨ names A d | _ => True end.
Proof.
  revert p. induction cs as [|c cs IH]; intros p; cbn [walk]; [done|].
  destruct (A !! p) as [es|] eqn:Hes; [|done]. destruct (lookup_entry _ es) as [y|] eqn:Hy; [|by left].
  destruct (lnk y); [done|]. destruct cs as [|c' cs]; [by left|]. specialize (IH y).
  assert (names A y) as Hyn by (destruct (lookup_entry_in _ _ _ Hy) as [n Hn]; by exists p, es, n).
  destruct (walk A lnk y (c' :: cs)); try done; destruct IH as [->|?]; by right.
Qed.

Lemma names_cons A d es name x y :
  A !! d = Some es → names A y → names (<[d := (name, x) :: es]> A) y.
Proof.
  intros Hes (d' & es' & n & Hes' & Hin). destruct (decide (d' = d)) as [->|Hd].
  - assert (es' = es) as -> by congruence. eexists d, _, n. split; [by rewrite lookup_insert_eq|by right].
  - exists d', es', n. by rewrite lookup_insert_ne.
Qed.

(** The rest of a path that is one component long. *)
Lemma rest_of_one cnp c : rest_of cnp [c] → cn_name cnp = c.
Proof.
  intros [k Hk]. destruct k as [|k]; cbn [comps] in Hk; [done|].
  destruct (after_comp (cn_name cnp)) as [|a r] eqn:Ea; [injection Hk as <-; by rewrite comp_of_all|].
  destruct (skip_slashes (String a r)) as [|b t]; [done|].
  destruct (comps k (String b t)) as [cs|] eqn:Ek; [|done]. injection Hk as _ ->.
  destruct (comps_cons _ _ _ Ek) as (? & ? & ?). done.
Qed.

(** ** States whose entries differ *)

Lemma relinked_inv K L L' s s' : vfs_inv K L s → ramfs_ok L' s' → relinked s s' → vfs_inv K L' s'.
Proof. intros [_ Hv Hf] H' [_ E _ _ _]. split; [done|rewrite E..]; [exact Hv|exact Hf]. Qed.

Lemma relinked_has s s' a x : relinked s s' → has s a x → has s' a x.
Proof. intros [_ E _ _ _] (v & Hv & Ex). exists v. by rewrite E. Qed.

Lemma dir_parent_shape N N' x : shape_equiv N N' → dir_parent N' x = dir_parent N x.
Proof.
  intros E. specialize (E x). unfold dir_parent.
  destruct (N !! x) as [n|], (N' !! x) as [n'|]; try done. simpl in *. unfold shape in E. injection E as _ _ _ E.
  by destruct (rn_data n), (rn_data n'); simplify_eq.
Qed.

Lemma relinked_rooted s s' root : relinked s s' → rooted s root → rooted s' root.
Proof.
  intros [E _ Ev Er Ef] (m & r & ? & ? & ? & ?). exists m, r.
  rewrite (dir_parent_shape _ _ _ E). split_and!; congruence.
Qed.

(** Only vnodes change, then one entry and a link count, then vnodes. *)
Definition relinks (s s' : fs) : Prop := ∃ s1 s2, evolve s s1 ∧ relinked s1 s2 ∧ evolve s2 s'.

Lemma relinks_rooted s s' root : relinks s s' → rooted s root → rooted s' root.
Proof.
  intros (s1 & s2 & E1 & R & E2) H. eapply rooted_evolve; [exact E2|].
  eapply relinked_rooted; [exact R|]. by eapply rooted_evolve.
Qed.

Lemma rooted_link L s root : ramfs_ok L s → rooted s root → linked s root.
Proof. intros H (m & r & _ & _ & _ & Hpar). by eapply root_linked. Qed.

(** ** Vnodes of files and of directories *)

Lemma nodir_type K L s a v : vfs_inv K L s → fs_vnodes s !! a = Some v → abs L s !! v_data v = None → v_type v ≠ VDIR.
Proof.
  intros H Ha Hn Ht. destruct (ramfs_dir L s a v (vi_ok _ _ _ H) Ha Ht) as (n & h & par & q & l & _ & _ & _ & _ & Hl & _).
  unfold abs in Hn. by rewrite lookup_fmap, Hl in Hn.
Qed.

(** [vrele] and [vput] are one function. *)
Lemma vrele_inv K L s a x :
  vfs_inv K L s → has s a x → linked s x →
  ∃ s', vrele a s = Ok (tt, s') ∧ vfs_inv (filter (.≠ a) K) L s' ∧ evolve s s' ∧
    ∀ b y, b ≠ a → has s b y → has s' b y.
Proof.
  intros H Ha Hl. destruct (vput_inv K L s a x H Ha Hl) as (s' & E & ? & ? & ?). exists s'.
  split_and!; try done. unfold vrele, vput. by rewrite (bind_ok _ _ _ _ _ E).
Qed.

Lemma has_ne s a b x y : has s a x → has s b y → x ≠ y → a ≠ b.
Proof. intros (v & Hv & <-) (w & Hw & <-) Hne ->. congruence. Qed.

(** ** [vfs_unlink] *)

Section unlink.
Context (fuel : nat) (stk : nameidata) (L : gmap ptr (list ptr)) (s : fs) (root : ptr).
Context (path : string) (cs : list string).
Context (H : vfs_inv [] L s) (Hroot : rooted s root).
Context (Hpath : split_path path = Some cs) (Hplain : Forall (λ c, plain c = true) cs).

(** Up to the call of the file system: both vnodes are held, target first. *)
Lemma unlink_locks d x :
  walk (abs L s) (is_link s) root cs = At d x →
  ∃ nd s1 s2 s3, namei (S fuel) path stk s = Ok ((0, nd), s1) ∧
    acquire_vn (nd_vn nd) s1 = Ok (tt, s2) ∧ acquire_vn (nd_vdir nd) s2 = Ok (tt, s3) ∧
    vfs_inv [nd_vdir nd; nd_vn nd] L s3 ∧ evolve s s3 ∧ has s3 (nd_vdir nd) d ∧ has s3 (nd_vn nd) x ∧
    nd_vdir nd ≠ nd_vn nd ∧ cn_name (nd_cn nd) = List.last cs EmptyString ∧ cn_name (nd_cn nd) ≠ EmptyString.
Proof.
  intros Hw. pose proof (namei_walk fuel L s root path cs stk H Hroot Hpath Hplain) as Hn.
  rewrite Hw in Hn. destruct Hn as (b & nd & s1 & E & (H1 & Ev & Hd & _ & Hlen & _) & Hx & Hname).
  pose proof (at_ne L s root cs H d x Hw) as Hdx. pose proof (has_ne _ _ _ _ _ Hd Hx Hdx) as Hne.
  destruct (acquire_inv [] L s1 (nd_vn nd) x H1 Hx) as (s2 & E2 & H2 & Ev2 & K2); [apply not_elem_of_nil|].
  destruct (acquire_inv _ L s2 (nd_vdir nd) d H2 (K2 _ _ Hd)) as (s3 & E3 & H3 & Ev3 & K3); [set_solver|].
  exists nd, s1, s2, s3. split_and!; try done.
  - by do 2 (etrans; [done|]).
  - by apply K3, K2.
  - by apply K3, K2.
  - intros E0. rewrite E0 in Hlen. simpl in Hlen. lia.
Qed.

(** After it: both vnodes are put back. *)
Lemma unlink_puts K L' s4 vdir vn d x :
  vfs_inv (vdir :: vn :: K) L' s4 → vdir ≠ vn → vdir ∉ K → vn ∉ K → has s4 vdir d → has s4 vn x → linked s4 d → linked s4 x →
  ∃ s5 s6, vrele vdir s4 = Ok (tt, s5) ∧ vrele vn s5 = Ok (tt, s6) ∧ vfs_inv K L' s6 ∧ evolve s4 s6.
Proof.
  intros H4 Hne HdK HxK Hd Hx Hld Hlx.
  destruct (vrele_inv _ L' s4 vdir d H4 Hd Hld) as (s5 & E5 & H5 & Ev5 & K5).
  rewrite filter_self in H5 by set_solver.
  destruct (vrele_inv _ L' s5 vn x H5) as (s6 & E6 & H6 & Ev6 & K6); [by apply K5|by eapply linked_evolve|].
  rewrite filter_self in H6 by done.
  exists s5, s6. split_and!; try done. by etrans.
Qed.

(** A file that keeps another name: the entry goes. *)
Lemma unlink_named d x es :
  walk (abs L s) (is_link s) root cs = At d x → abs L s !! d = Some es → abs L s !! x = None →
  let P := is_name (List.last cs EmptyString) in
  lookup_entry P es = Some x → names (<[d := remove_entry P es]> (abs L s)) x →
  ∃ L' s', vfs_unlink (S fuel) stk path s = Ok (0, s') ∧ vfs_inv [] L' s' ∧ relinks s s' ∧
    abs L' s' = <[d := remove_entry P es]> (abs L s).
Proof.
  intros Hw Hes Hxn P Hx Hkeep.
  destruct (unlink_locks d x Hw) as (nd & s1 & s2 & s3 & E1 & E2 & E3 & H3 & Ev & Hvd & Hvx & Hne & Hname & Hne0).
  pose proof Hvd as (dv & Hdv & Edv). pose proof Hvx as (v & Hv & Exv).
  rewrite <-(evolve_abs L s s3 Ev), <-Exv in Hxn. pose proof (nodir_type _ _ _ _ _ H3 Hv Hxn) as Ht.
  assert (v_type dv = VDIR) as Hdir.
  { eapply (abs_dir L s3); [apply H3|done|]. by rewrite (evolve_abs L s s3), Edv. }
  destruct (remove_ok L s3 (nd_vdir nd) (nd_vn nd) dv v (nd_cn nd) es (vi_ok _ _ _ H3) Hdv Hv Hdir Hne0)
    as (L' & s4 & E4 & H4 & Habs & R); [by rewrite (evolve_abs L s s3), Edv|done|by rewrite Hname, Exv|].
  rewrite (evolve_abs L s s3), Hname, Edv in Habs by done. fold P in Habs.
  pose proof (relinked_inv _ _ _ _ _ H3 H4 R) as Hi4.
  assert (linked s4 d) as Hld.
  { pose proof (walk_dir_names (abs L s) (is_link s) root cs) as Hdn. rewrite Hw in Hdn. destruct Hdn as [->|Hd].
    - eapply rooted_link; [exact H4|]. eapply relinked_rooted; [exact R|]. by eapply rooted_evolve.
    - apply (names_linked L'); [done|]. rewrite Habs. apply (remove_names _ _ _ _ x); try done.
      by apply (at_ne L s root cs H). }
  assert (linked s4 x) as Hlx by (apply (names_linked L'); [done|by rewrite Habs]).
  destruct (unlink_puts [] L' s4 (nd_vdir nd) (nd_vn nd) d x) as (s5 & s6 & E5 & E6 & H6 & Ev6);
    try done; try apply not_elem_of_nil; try by eapply relinked_has.
  exists L', s6. split_and!; [|done|by exists s3, s4|by rewrite (evolve_abs L' s4 s6)].
  unfold vfs_unlink. rewrite (bind_ok _ _ _ _ _ E1). cbv beta iota.
  rewrite (decide_False (P := 0 ≠ 0)) by (by intros []).
  cbv zeta. rewrite (bind_ok _ _ _ _ _ E2).
  rewrite (bind_ok (if decide _ then _ else _) _ s2 tt s3) by (by rewrite decide_True).
  erewrite (bind_ok (load (nd_vn nd))) by (apply load_ok; exact Hv).
  rewrite (vi_flags _ _ _ H3 _ _ Hv Ht), (decide_False (P := Z.land 0 VROOT ≠ 0)) by (by intros []).
  rewrite (bind_ok (@vop_remove ramfs_vnode_ops (nd_vdir nd) (nd_vn nd) (nd_cn nd)) _ s3 0 s4 E4).
  rewrite (bind_ok (if decide _ then _ else _) _ s4 tt s5) by (by rewrite decide_True).
  by rewrite (bind_ok _ _ _ _ _ E6).
Qed.

(** A directory is refused, with EISDIR, or with EBUSY when its vnode is
    flagged as the root of a file system. *)
Lemma unlink_dir d x ex :
  walk (abs L s) (is_link s) root cs = At d x → abs L s !! x = Some ex →
  ∃ e s', vfs_unlink (S fuel) stk path s = Ok (e, s') ∧ (e = - EISDIR ∨ e = - EBUSY) ∧ vfs_inv [] L s' ∧ evolve s s'.
Proof.
  intros Hw Hex.
  destruct (unlink_locks d x Hw) as (nd & s1 & s2 & s3 & E1 & E2 & E3 & H3 & Ev & Hvd & Hvx & Hne & Hname & Hne0).
  pose proof Hvd as (dv & Hdv & _). pose proof Hvx as (v & Hv & Exv).
  assert (v_type v = VDIR) as Ht.
  { eapply (abs_dir L s3); [apply H3|done|]. by rewrite (evolve_abs L s s3), Exv. }
  destruct (unlink_puts [] L s3 (nd_vdir nd) (nd_vn nd) d x) as (s5 & s6 & E5 & E6 & H6 & Ev6);
    try done; try apply not_elem_of_nil.
  { eapply linked_evolve; [exact Ev|]. pose proof (walk_dir_names (abs L s) (is_link s) root cs) as Hdn. rewrite Hw in Hdn. destruct Hdn as [->|Hd].
    - by eapply rooted_link; [apply H|].
    - by eapply names_linked; [apply H|]. }
  { eapply linked_evolve; [exact Ev|]. by eapply at_linked. }
  exists (if decide (Z.land (v_flags v) VROOT ≠ 0) then - EBUSY else - EISDIR), s6.
  split_and!; [|by case_decide; [right|left]|done|by etrans].
  unfold vfs_unlink. rewrite (bind_ok _ _ _ _ _ E1). cbv beta iota.
  rewrite (decide_False (P := 0 ≠ 0)) by (by intros []).
  cbv zeta. rewrite (bind_ok _ _ _ _ _ E2).
  rewrite (bind_ok (if decide _ then _ else _) _ s2 tt s3) by (by rewrite decide_True).
  erewrite (bind_ok (load (nd_vn nd))) by (apply load_ok; exact Hv).
  rewrite (bind_ok (if decide _ then _ else _) _ s3 (if decide (Z.land (v_flags v) VROOT ≠ 0) then - EBUSY else - EISDIR) s3).
  2:{ destruct (decide (Z.land (v_flags v) VROOT ≠ 0)); [done|].
      exact (remove_isdir s3 (nd_vdir nd) (nd_vn nd) dv v (nd_cn nd) Hdv Hv Ht). }
  rewrite (bind_ok (if decide _ then _ else _) _ s3 tt s5) by (by rewrite decide_True).
  by rewrite (bind_ok _ _ _ _ _ E6).
Qed.

Lemma unlink_absent d rest :
  walk (abs L s) (is_link s) root cs = Absent d rest →
  ∃ s', vfs_unlink (S fuel) stk path s = Ok (- ENOENT, s') ∧ vfs_inv [] L s' ∧ evolve s s'.
Proof.
  intros Hw. pose proof (namei_walk fuel L s root path cs stk H Hroot Hpath Hplain) as Hn.
  rewrite Hw in Hn. destruct Hn as (b & nd & s1 & E & (H1 & Ev & Hd & _ & _ & _ & _ & Hld & _) & Hvn & _).
  destruct (vput_opt_inv L [] s1 (nd_vdir nd) d) as (s2 & E2 & H2 & Ev2 & K2); [done..|by eapply linked_evolve|].
  exists s2. split_and!; [|done|by etrans].
  unfold vfs_unlink. rewrite (bind_ok _ _ _ _ _ E). cbv beta iota.
  rewrite (decide_True (P := - ENOENT ≠ 0)) by done. rewrite Hvn.
  rewrite (bind_ok (vput_opt NULL) _ s1 tt s1) by done. by rewrite (bind_ok _ _ _ _ _ E2).
Qed.

End unlink.

(** ** [vfs_link] *)

Section link.
Context (fuel : nat) (stk : nameidata) (L : gmap ptr (list ptr)) (s : fs) (root : ptr).
Context (target : string) (ct : list string).
Context (H : vfs_inv [] L s) (Hroot : rooted s root).
Context (Htarget : split_path target = Some ct) (Htplain : Forall (λ c, plain c = true) ct).

(** The target is found and locked. *)
Lemma link_target d0 x :
  walk (abs L s) (is_link s) root ct = At d0 x →
  ∃ nd s1 s2, namei (S fuel) target stk s = Ok ((0, nd), s1) ∧ acquire_vn (nd_vn nd) s1 = Ok (tt, s2) ∧
    vfs_inv [nd_vn nd] L s2 ∧ evolve s s2 ∧ has s2 (nd_vdir nd) d0 ∧ has s2 (nd_vn nd) x ∧
    nd_vdir nd ≠ nd_vn nd ∧ linked s2 d0 ∧ linked s2 x.
Proof.
  intros Hw. pose proof (namei_walk fuel L s root target ct stk H Hroot Htarget Htplain) as Hn.
  rewrite Hw in Hn. destruct Hn as (b & nd & s1 & E & (H1 & Ev & Hd & _ & _ & _ & _ & Hld & _) & Hx & _).
  pose proof (has_ne _ _ _ _ _ Hd Hx (at_ne L s root ct H d0 x Hw)) as Hne.
  destruct (acquire_inv [] L s1 (nd_vn nd) x H1 Hx) as (s2 & E2 & H2 & Ev2 & K2); [apply not_elem_of_nil|].
  assert (evolve s s2) as Ev' by (by etrans).
  exists nd, s1, s2. split_and!; try done; [by apply K2..|by eapply linked_evolve|].
  eapply linked_evolve; [done|]. by eapply at_linked.
Qed.

Lemma link_absent d rest name :
  walk (abs L s) (is_link s) root ct = Absent d rest →
  ∃ s', vfs_link (S fuel) stk name target s = Ok (- ENOENT, s') ∧ vfs_inv [] L s' ∧ evolve s s'.
Proof.
  intros Hw. pose proof (namei_walk fuel L s root target ct stk H Hroot Htarget Htplain) as Hn.
  rewrite Hw in Hn. destruct Hn as (b & nd & s1 & E & (H1 & Ev & _) & _).
  exists s1. split_and!; try done. unfold vfs_link. by rewrite (bind_ok _ _ _ _ _ E).
Qed.

Lemma link_dir d0 x ex name :
  walk (abs L s) (is_link s) root ct = At d0 x → abs L s !! x = Some ex →
  ∃ s', vfs_link (S fuel) stk name target s = Ok (- EISDIR, s') ∧ vfs_inv [] L s' ∧ evolve s s'.
Proof.
  intros Hw Hex. destruct (link_target d0 x Hw) as (nd & s1 & s2 & E1 & E2 & H2 & Ev & Hd & Hx & Hne & Hld & Hlx).
  pose proof Hx as (v & Hv & Exv).
  assert (v_type v = VDIR) as Ht.
  { eapply (abs_dir L s2); [apply H2|done|]. by rewrite (evolve_abs L s s2), Exv. }
  destruct (vput_opt_inv L [nd_vn nd] s2 (nd_vdir nd) d0) as (s3 & E3 & H3 & Ev3 & K3); [done..|].
  rewrite filter_other in H3 by set_solver.
  destruct (vrele_inv _ L s3 (nd_vn nd) x H3) as (s4 & E4 & H4 & Ev4 & _);
    [by apply K3|by eapply linked_evolve|].
  rewrite filter_self in H4 by apply not_elem_of_nil.
  exists s4. split_and!; [|done|by do 2 (etrans; [done|])].
  unfold vfs_link. rewrite (bind_ok _ _ _ _ _ E1). cbv beta iota.
  rewrite (decide_False (P := 0 ≠ 0)) by (by intros []). cbv zeta. rewrite (bind_ok _ _ _ _ _ E2).
  erewrite (bind_ok (load (nd_vn nd))) by (apply load_ok; exact Hv).
  rewrite (decide_True (P := v_type v = VDIR)) by done.
  by rewrite (bind_ok _ _ _ _ _ E3), (bind_ok _ _ _ _ _ E4).
Qed.

(** The second half: with the file locked, the entry is made in a directory. *)
Lemma link_entry s4 vdir vn d x cnp es q :
  vfs_inv [vn] L s4 → has s4 vdir d → has s4 vn x → abs L s4 !! d = Some es → abs L s4 !! x = None →
  cn_name cnp ≠ EmptyString → next_seq s4 d = Some q → q + 1 < 2 ^ 64 → (d = root ∨ names (abs L s4) d) → rooted s4 root →
  ∃ L' s5 s6 s7 s8 s9, acquire_vn vdir s4 = Ok (tt, s5) ∧ ramfs_link vdir vn cnp s5 = Ok (0, s6) ∧
    release_vn vdir s6 = Ok (tt, s7) ∧ vput_opt vdir s7 = Ok (tt, s8) ∧ vrele vn s8 = Ok (tt, s9) ∧
    vfs_inv [] L' s9 ∧ relinks s4 s9 ∧ abs L' s9 = <[d := (cn_name cnp, x) :: es]> (abs L s4).
Proof.
  intros H4 Hd Hx Hes Hxn Hname Hq Hq2 Hdn Hr. assert (d ≠ x) as Hdx by congruence.
  pose proof (has_ne _ _ _ _ _ Hd Hx Hdx) as Hne.
  destruct (acquire_inv _ L s4 vdir d H4 Hd) as (s5 & E5 & H5 & Ev5 & K5); [set_solver|].
  rewrite <-(evolve_abs L s4 s5 Ev5) in Hes, Hxn, Hdn |- *. rewrite <-(next_seq_evolve s4 s5 d Ev5) in Hq.
  pose proof (K5 _ _ Hd) as (dv & Hdv & <-). pose proof (K5 _ _ Hx) as (v & Hv & <-).
  pose proof (nodir_type _ _ _ _ _ H5 Hv Hxn) as Ht.
  assert (v_type dv = VDIR) as Hdir by (eapply (abs_dir L s5); [apply H5|done..]).
  destruct (link_ok L s5 vdir vn dv v cnp es q (vi_ok _ _ _ H5) Hdv Hv Hdir Ht Hname Hes Hq Hq2)
    as (L' & s6 & E6 & H6 & Habs & R).
  pose proof (relinked_inv _ _ _ _ _ H5 H6 R) as Hi6.
  assert (linked s6 (v_data dv)) as Hl6.
  { destruct Hdn as [->|Hdn].
    - eapply rooted_link; [exact H6|]. eapply relinked_rooted; [exact R|]. by eapply rooted_evolve.
    - apply (names_linked L'); [done|]. rewrite Habs. by apply names_cons. }
  assert (linked s6 (v_data v)) as Hlx6.
  { apply (names_linked L'); [done|]. rewrite Habs. eexists _, _, _. split; [by rewrite lookup_insert_eq|by left]. }
  assert (has s6 vdir (v_data dv)) as Hd6 by (eapply relinked_has; [exact R|by apply K5]).
  assert (has s6 vn (v_data v)) as Hx6 by (eapply relinked_has; [exact R|by apply K5]).
  destruct (release_inv _ L' s6 vdir _ Hi6 Hd6) as (s7 & E7 & H7 & Ev7 & K7).
  rewrite filter_self in H7 by set_solver.
  destruct (vput_opt_inv L' [vn] s7 vdir _ H7 (K7 _ _ Hd6)) as (s8 & E8 & H8 & Ev8 & K8); [by eapply linked_evolve|].
  rewrite filter_other in H8 by set_solver. assert (evolve s6 s8) as Ev68 by (by etrans).
  destruct (vrele_inv _ L' s8 vn (v_data v) H8) as (s9 & E9 & H9 & Ev9 & _); [by apply K8, K7|by eapply linked_evolve|].
  rewrite filter_self in H9 by apply not_elem_of_nil. assert (evolve s6 s9) as Ev69 by (by etrans).
  exists L', s5, s6, s7, s8, s9. split_and!; try done; [by exists s5, s6|by rewrite (evolve_abs L' s6 s9)].
Qed.

(** A new name for a file. *)
Lemma link_new d0 x name cs d c es q :
  walk (abs L s) (is_link s) root ct = At d0 x → abs L s !! x = None →
  split_path name = Some cs → Forall (λ c, plain c = true) cs →
  walk (abs L s) (is_link s) root cs = Absent d [c] → abs L s !! d = Some es →
  next_seq s d = Some q → q + 1 < 2 ^ 64 →
  ∃ L' s', vfs_link (S fuel) stk name target s = Ok (0, s') ∧ vfs_inv [] L' s' ∧ relinks s s' ∧
    abs L' s' = <[d := (c, x) :: es]> (abs L s).
Proof.
  intros Hw Hxn Hname Hnplain Hwn Hes Hq Hq2.
  destruct (link_target d0 x Hw) as (nd & s1 & s2 & E1 & E2 & H2 & Ev2 & Hd0 & Hx & Hne & Hld0 & Hlx).
  pose proof Hx as (v & Hv & Exv).
  assert (v_type v ≠ VDIR) as Ht by (apply (nodir_type _ _ _ _ _ H2 Hv); by rewrite (evolve_abs L s s2), Exv).
  destruct (vput_inv [nd_vn nd] L s2 (nd_vdir nd) d0) as (s3 & E3 & H3 & Ev3 & K3); [done..|].
  rewrite filter_other in H3 by set_solver. assert (evolve s s3) as Ev03 by (by etrans).
  assert (has s3 (nd_vn nd) x) as Hx3 by (by apply K3).
  assert (off_path [nd_vn nd] L s3) as Hoff.
  { intros a ->%list_elem_of_singleton. exists x. split; [done|]. by rewrite (evolve_abs L s s3). }
  pose proof (namei_walk_under fuel [nd_vn nd] L s3 root name cs nd H3 Hoff ltac:(by eapply rooted_evolve)
    Hname Hnplain) as Hn.
  rewrite (evolve_abs L s s3), (walk_ext _ _ (is_link s)), Hwn in Hn
    by (done || (intros; symmetry; by apply is_link_evolve)).
  destruct Hn as (b & nd2 & s4 & E4 & (H4 & Ev4 & Hd & _ & Hlen & _ & _ & Hld & Hk) & _ & Hrest).
  apply rest_of_one in Hrest. assert (evolve s s4) as Ev04 by (by etrans).
  pose proof (walk_dir_names (abs L s) (is_link s) root cs) as Hdn. rewrite Hwn in Hdn.
  destruct (link_entry s4 (nd_vdir nd2) (nd_vn nd) d x (nd_cn nd2) es q H4 Hd)
    as (L' & s5 & s6 & s7 & s8 & s9 & E5 & E6 & E7 & E8 & E9 & H9 & (t1 & t2 & F1 & R & F2) & Habs);
    rewrite ?(evolve_abs L s s4), ?(next_seq_evolve s s4); try done.
  { apply Hk; [by left|done]. }
  { intros E0. rewrite E0 in Hlen. simpl in Hlen. lia. }
  { by eapply rooted_evolve. }
  exists L', s9. split_and!; [|done| |by rewrite Habs, (evolve_abs L s s4), Hrest].
  2:{ exists t1, t2. split_and!; [by etrans|done..]. }
  unfold vfs_link. rewrite (bind_ok _ _ _ _ _ E1). cbv beta iota.
  rewrite (decide_False (P := 0 ≠ 0)) by (by intros []). cbv zeta. rewrite (bind_ok _ _ _ _ _ E2).
  erewrite (bind_ok (load (nd_vn nd))) by (apply load_ok; exact Hv).
  rewrite (decide_False (P := v_type v = VDIR)) by done.
  rewrite (bind_ok (vput (nd_vdir nd)) _ s2 tt s3) by (unfold vput; by rewrite (bind_ok _ _ _ _ _ E3)).
  rewrite (bind_ok _ _ _ _ _ E4). cbv beta iota.
  rewrite (decide_False (P := - ENOENT ≠ - ENOENT)) by (by intros []). rewrite (bind_ok _ _ _ _ _ E5).
  rewrite (bind_ok (@vop_link ramfs_vnode_ops (nd_vdir nd2) (nd_vn nd) (nd_cn nd2)) _ s5 0 s6 E6).
  by rewrite (bind_ok _ _ _ _ _ E7), (bind_ok _ _ _ _ _ E8), (bind_ok _ _ _ _ _ E9).
Qed.

End link.
