(* ===== verification/VfsSpec.v ===== *)
(** * The specification of the VFS on a mounted ramfs, and its refinement

    The abstract state is a tree: the entries of every directory, newest
    first, and what every node is.  Each call is a step on trees; every call
    of kernel/vfs.c on a state that satisfies the invariant returns, keeps the
    invariant, and does what its step says. *)

From S2P Require Import Prelude CString FsState Ramfs RamfsDir RamfsOps RamfsInv RamfsSpec.
From S2P Require Import RamfsUnlink RamfsLookup RamfsFile Vfs VfsRefs VfsPath VfsOps VfsLinks.

Local Open Scope Z_scope.

(** ** Trees *)

Inductive kind := Dir | File (bytes : list cell) | Symlink | Other.

Definition kind_of (n : ramnode) : kind :=
  match rn_data n with
  | UDir _ _ _ => Dir
  | ULnk _ => Symlink
  | UReg data _ => File (contents data)
  | UNone => Other
  end.

Record tree := Tree { t_dirs : gmap ptr (list (string * ptr)); t_nodes : gmap ptr kind }.

(** What a state stores, without locks, counts, vnodes and memory layout. *)
Definition view (L : gmap ptr (list ptr)) (s : fs) : tree := Tree (abs L s) (kind_of <$> fs_nodes s).

Definition t_link (t : tree) (x : ptr) : bool :=
  match t_nodes t !! x with Some Symlink => true | _ => false end.

(** Where a path leads, from the root. *)
Definition find (t : tree) (root : ptr) (cs : list string) : end_of_walk :=
  walk (t_dirs t) (t_link t) root cs.

Definition named (t : tree) (x : ptr) : Prop := names (t_dirs t) x.

(** Nodes are never lost. *)
Definition extends (t t' : tree) : Prop := ∀ y k, t_nodes t !! y = Some k → t_nodes t' !! y = Some k.

Definition path_ok (path : string) (cs : list string) : Prop :=
  split_path path = Some cs ∧ Forall (λ c, plain c = true) cs.

(** ** Calls and steps *)

(** Handles are vnodes in a run of the code and nodes in a step on trees. *)
Inductive call :=
  | Create (path : string)
  | Mkdir (path : string)
  | Open (path : string)
  | Close (h : ptr)
  | Write (h : ptr) (offset : Z) (buf : list Z)
  | Read (h : ptr) (offset count : Z)
  | Hardlink (name target : string)
  | Unlink (path : string).

Record answer := Answer { an_err : Z; an_handle : ptr; an_bytes : list cell }.

(** The calls of kernel/vfs.c; the caller's variable for the vnode is NULL. *)
Definition exec (fuel : nat) (stk : nameidata) (c : call) : F answer :=
  match c with
  | Create path => r ← vfs_create fuel stk path NULL VREG; mret (Answer r.1 r.2 [])
  | Mkdir path => r ← vfs_mkdir fuel stk path NULL; mret (Answer r.1 r.2 [])
  | Open path => r ← vfs_open fuel stk path NULL VNON 0; mret (Answer r.1 r.2 [])
  | Close h => e ← vfs_close h; mret (Answer e NULL [])
  | Write h offset buf => e ← vfs_write h buf offset (Z.of_nat (length buf)); mret (Answer e NULL [])
  | Read h offset count => r ← vfs_read h offset count; mret (Answer r.1 NULL r.2)
  | Hardlink name target => e ← vfs_link fuel stk name target; mret (Answer e NULL [])
  | Unlink path => e ← vfs_unlink fuel stk path; mret (Answer e NULL [])
  end.

(** The file [x] is the first entry of directory [d] under exactly this name. *)
Definition entry_of (t : tree) (d : ptr) (name : string) (x : ptr) (es : list (string * ptr)) : Prop :=
  t_dirs t !! d = Some es ∧ lookup_entry (is_name name) es = Some x.

Inductive tstep (root : ptr) (t : tree) : call → answer → tree → Prop :=
  | ts_create_new path cs d c rest es x t' :
      path_ok path cs → find t root cs = Absent d (c :: rest) → t_dirs t !! d = Some es →
      t_nodes t !! x = None → t_dirs t' = <[d := (c, x) :: es]> (t_dirs t) →
      t_nodes t' !! x = Some (File []) → extends t t' →
      tstep root t (Create path) (Answer 0 x []) t'
  | ts_create_old path cs d x :
      path_ok path cs → find t root cs = At d x → tstep root t (Create path) (Answer 0 NULL []) t
  | ts_mkdir_new path cs d c rest es x t' :
      path_ok path cs → find t root cs = Absent d (c :: rest) → t_dirs t !! d = Some es →
      t_nodes t !! x = None → t_dirs t' = <[d := (c, x) :: es]> (<[x := []]> (t_dirs t)) →
      t_nodes t' !! x = Some Dir → extends t t' →
      tstep root t (Mkdir path) (Answer 0 x []) t'
  | ts_mkdir_old path cs d x :
      path_ok path cs → find t root cs = At d x →
      tstep root t (Mkdir path) (Answer (- EEXIST) NULL []) t
  | ts_open path cs d x :
      path_ok path cs → find t root cs = At d x → tstep root t (Open path) (Answer 0 x []) t
  | ts_open_absent path cs d rest :
      path_ok path cs → find t root cs = Absent d rest →
      tstep root t (Open path) (Answer (- ENOENT) NULL []) t
  | ts_close x : tstep root t (Close x) (Answer 0 NULL []) t
  | ts_write x offset buf old new :
      t_nodes t !! x = Some (File old) → written old new (Z.to_nat offset) buf →
      tstep root t (Write x offset buf) (Answer 0 NULL []) (Tree (t_dirs t) (<[x := File new]> (t_nodes t)))
  | ts_read x offset count bs :
      t_nodes t !! x = Some (File bs) → offset + count ≤ Z.of_nat (length bs) →
      tstep root t (Read x offset count)
        (Answer (i32 count) NULL (take (Z.to_nat count) (drop (Z.to_nat offset) bs))) t
  | ts_read_eof x offset count bs :
      t_nodes t !! x = Some (File bs) → Z.of_nat (length bs) < offset + count →
      tstep root t (Read x offset count) (Answer (- EINVAL) NULL []) t
  | ts_link name target cs ct d0 x d c es :
      path_ok target ct → find t root ct = At d0 x → t_dirs t !! x = None →
      path_ok name cs → find t root cs = Absent d [c] → t_dirs t !! d = Some es →
      tstep root t (Hardlink name target) (Answer 0 NULL []) (Tree (<[d := (c, x) :: es]> (t_dirs t)) (t_nodes t))
  | ts_link_dir name target ct d0 x :
      path_ok target ct → find t root ct = At d0 x → is_Some (t_dirs t !! x) →
      tstep root t (Hardlink name target) (Answer (- EISDIR) NULL []) t
  | ts_link_absent name target ct d rest :
      path_ok target ct → find t root ct = Absent d rest →
      tstep root t (Hardlink name target) (Answer (- ENOENT) NULL []) t
  | ts_unlink path cs d x es :
      path_ok path cs → find t root cs = At d x → t_dirs t !! x = None →
      entry_of t d (List.last cs EmptyString) x es →
      tstep root t (Unlink path) (Answer 0 NULL [])
        (Tree (<[d := remove_entry (is_name (List.last cs EmptyString)) es]> (t_dirs t)) (t_nodes t))
  | ts_unlink_dir path cs d x e :
      path_ok path cs → find t root cs = At d x → is_Some (t_dirs t !! x) → e = - EISDIR ∨ e = - EBUSY →
      tstep root t (Unlink path) (Answer e NULL []) t
  | ts_unlink_absent path cs d rest :
      path_ok path cs → find t root cs = Absent d rest →
      tstep root t (Unlink path) (Answer (- ENOENT) NULL []) t.

(** The handle of a call stands for a node. *)
Definition stands_for (s : fs) (c c' : call) : Prop :=
  match c, c' with
  | Close a, Close x => has s a x
  | Write a o b, Write x o' b' => has s a x ∧ o = o' ∧ b = b'
  | Read a o k, Read x o' k' => has s a x ∧ o = o' ∧ k = k'
  | Create p, Create p' | Mkdir p, Mkdir p' | Open p, Open p' | Unlink p, Unlink p' => p = p'
  | Hardlink p q, Hardlink p' q' => p = p' ∧ q = q'
  | _, _ => False
  end.

Definition answers (s : fs) (r r' : answer) : Prop :=
  an_err r = an_err r' ∧ an_bytes r = an_bytes r' ∧
  (an_handle r = NULL ∧ an_handle r' = NULL ∨ has s (an_handle r) (an_handle r')).

(** Directory [d] has sequence numbers left. *)
Definition room (s : fs) (d : ptr) : Prop := ∃ q, next_seq s d = Some q ∧ q + 1 < 2 ^ 64.

(** The calls the theorems speak of: paths of plain components that meet no
    symbolic link, handles of nodes that have a name, files within bounds.  A
    link is made under a new name in an existing directory; a file is unlinked
    under exactly the name of its entry, and keeps another one. *)
Definition allowed (s : fs) (root : ptr) (t : tree) (c : call) : Prop :=
  match c with
  | Create path | Mkdir path => ∃ cs, path_ok path cs ∧
      ((∃ d x, find t root cs = At d x) ∨ ∃ d rest, find t root cs = Absent d rest ∧ room s d)
  | Open path => ∃ cs, path_ok path cs ∧
      ((∃ d x, find t root cs = At d x) ∨ ∃ d rest, find t root cs = Absent d rest)
  | Close x => named t x ∨ x = root
  | Write x offset buf => (∃ bs, t_nodes t !! x = Some (File bs)) ∧ 0 ≤ offset ∧
      offset + Z.of_nat (length buf) < 2 ^ 63
  | Read x offset count => (∃ bs, t_nodes t !! x = Some (File bs)) ∧ 0 ≤ offset ∧ 0 < count ∧
      offset + count < 2 ^ 64
  | Hardlink name target => ∃ ct, path_ok target ct ∧
      ((∃ d rest, find t root ct = Absent d rest) ∨
       ∃ d0 x, find t root ct = At d0 x ∧
         (is_Some (t_dirs t !! x) ∨ ∃ cs d c, path_ok name cs ∧ find t root cs = Absent d [c] ∧ room s d))
  | Unlink path => ∃ cs, path_ok path cs ∧
      ((∃ d rest, find t root cs = Absent d rest) ∨
       ∃ d x, find t root cs = At d x ∧
         (is_Some (t_dirs t !! x) ∨ ∃ es, entry_of t d (List.last cs EmptyString) x es ∧
            names (<[d := remove_entry (is_name (List.last cs EmptyString)) es]> (t_dirs t)) x))
  end.

(** ** The view of a state *)

Lemma view_link L s x : ramfs_ok L s → t_link (view L s) x = is_link s x.
Proof.
  intros H. unfold t_link, is_link. simpl. rewrite lookup_fmap.
  destruct (fs_nodes s !! x) as [n|] eqn:Hn; [|done]. simpl.
  pose proof (dk_data _ _ _ _ _ (rk_dirs _ _ H) _ _ Hn) as Hd. unfold data_ok, kind_of in *.
  by destruct (rn_type n), (rn_data n).
Qed.

Lemma find_walk L s root cs : ramfs_ok L s → find (view L s) root cs = walk (abs L s) (is_link s) root cs.
Proof. intros H. apply walk_ext. intros x. symmetry. by apply view_link. Qed.

Lemma view_evolve L s s' : evolve s s' → view L s' = view L s.
Proof.
  intros Ev. unfold view. f_equal; [by apply evolve_abs|]. apply map_eq. intros x. rewrite !lookup_fmap.
  pose proof (ev_core _ _ Ev x) as E.
  destruct (fs_nodes s !! x) as [n|], (fs_nodes s' !! x) as [n'|]; try done. simpl in *. injection E as E.
  unfold kind_of, core, strip in *. by destruct n, n'; simpl in *; simplify_eq.
Qed.

Lemma view_grows L s s' : ramfs_ok L s → grows s s' → extends (view L s) (view L s').
Proof.
  intros H G y k. simpl. rewrite !lookup_fmap. destruct (fs_nodes s !! y) as [n|] eqn:Hn; [|done].
  destruct (gr_node _ _ G _ _ Hn) as (n' & -> & _ & _ & Hpar & Hdata). simpl. intros [= <-]. f_equal.
  unfold kind_of. destruct (is_udir (rn_data n)) eqn:Hu; [|by rewrite Hdata].
  by destruct (rn_data n), (rn_data n').
Qed.

Lemma named_linked L s x : ramfs_ok L s → named (view L s) x → linked s x.
Proof. apply names_linked. Qed.

Lemma view_relinks L s s' : relinks s s' → t_nodes (view L s') = t_nodes (view L s).
Proof.
  intros (s1 & s2 & E1 & [R _ _ _ _] & E2). pose proof (view_evolve L _ _ E1) as [= _ F1].
  pose proof (view_evolve L _ _ E2) as [= _ F2]. simpl. rewrite F2, <-F1. apply map_eq. intros x.
  specialize (R x). rewrite !lookup_fmap. destruct (fs_nodes s1 !! x) as [n|], (fs_nodes s2 !! x) as [n'|]; try done.
  simpl in *. unfold shape in R. injection R as _ _ _ R. unfold kind_of.
  by destruct (rn_data n), (rn_data n'); simplify_eq.
Qed.

Lemma file_node L s x bs :
  t_nodes (view L s) !! x = Some (File bs) →
  ∃ n data size, fs_nodes s !! x = Some n ∧ rn_data n = UReg data size ∧ contents data = bs.
Proof.
  simpl. rewrite lookup_fmap. destruct (fs_nodes s !! x) as [n|] eqn:Hn; [|done]. simpl. unfold kind_of.
  destruct (rn_data n) as [| |data size|] eqn:Ed; [done|done| |done]. intros [= <-]. by exists n, data, size.
Qed.

(** ** The refinement *)

Section refine.
Context (fuel : nat) (stk : nameidata) (L : gmap ptr (list ptr)) (s : fs) (root : ptr).
Context (H : vfs_inv [] L s) (Hroot : rooted s root).

(** A run of [c] that does what a step for [c'] says. *)
Definition refines (c c' : call) : Prop :=
  ∃ L' s' r r' t', exec (S fuel) stk c s = Ok (r, s') ∧ vfs_inv [] L' s' ∧ rooted s' root ∧
    tstep root (view L s) c' r' t' ∧ view L' s' = t' ∧ answers s' r r'.

Lemma created_kind d c type es L' s' a x :
  created L s d c type es L' s' a x →
  t_nodes (view L s) !! x = None ∧ extends (view L s) (view L' s') ∧
  (type = VREG → t_nodes (view L' s') !! x = Some (File [])) ∧
  (type = VDIR → t_nodes (view L' s') !! x = Some Dir).
Proof.
  intros (H' & G & _ & (n & Hn & Et & Ed) & Hfr & _). simpl. rewrite !lookup_fmap, Hfr, Hn.
  split_and!; [done| | |].
  - pose proof (view_grows L s s' (vi_ok _ _ _ H) G) as He. intros y k Hy. specialize (He y k Hy). exact He.
  - intros Ht. simpl. unfold kind_of. by rewrite (Ed Ht).
  - intros Ht. pose proof (dk_data _ _ _ _ _ (rk_dirs _ _ (vi_ok _ _ _ H')) _ _ Hn) as Hd.
    unfold data_ok in Hd. rewrite Et, Ht in Hd. simpl. unfold kind_of. by destruct (rn_data n).
Qed.

(** What the calls that change nothing have in common. *)
Lemma refines_same c c' r r' s' :
  exec (S fuel) stk c s = Ok (r, s') → vfs_inv [] L s' → evolve s s' →
  tstep root (view L s) c' r' (view L s) → answers s' r r' → refines c c'.
Proof.
  intros E Hi Ev Hstep Ha. exists L, s', r, r', (view L s). split_and!; try done.
  - by eapply rooted_evolve.
  - by apply view_evolve.
Qed.

Lemma refines_open path c : c = Open path → allowed s root (view L s) c → refines c c.
Proof.
  intros -> (cs & [Hp Hpl] & Hcase). destruct Hcase as [(d & x & Hat)|(d & rest & Habs)].
  - pose proof Hat as Hw. rewrite find_walk in Hw by apply H.
    destruct (open_at fuel stk L s root path cs NULL H Hroot Hp Hpl d x 0 Hw) as (s' & a & E & H' & Ev & Ha); [done|].
    eapply (refines_same _ _ (Answer 0 a []) (Answer 0 x [])); [|done|done|by econstructor|].
    + unfold exec. by rewrite (bind_ok _ _ _ _ _ E).
    + split_and!; [done|done|by right].
  - pose proof Habs as Hw. rewrite find_walk in Hw by apply H.
    destruct (open_absent fuel stk L s root path cs NULL H Hroot Hp Hpl d rest 0 Hw) as (s' & E & H' & Ev); [done|].
    eapply (refines_same _ _ (Answer (- ENOENT) NULL []) (Answer (- ENOENT) NULL []));
      [|done|done|by eapply ts_open_absent|].
    + unfold exec. by rewrite (bind_ok _ _ _ _ _ E).
    + split_and!; [done|done|by left].
Qed.

Lemma refines_create path c : c = Create path → allowed s root (view L s) c → refines c c.
Proof.
  intros -> (cs & [Hp Hpl] & Hcase). destruct Hcase as [(d & x & Hat)|(d & rest & Habs & q & Hq & Hq2)].
  - pose proof Hat as Hw. rewrite find_walk in Hw by apply H.
    destruct (create_exists fuel stk L s root path cs NULL H Hroot Hp Hpl d x Hw) as (s' & E & H' & Ev).
    eapply (refines_same _ _ (Answer 0 NULL []) (Answer 0 NULL [])); [|done|done|by eapply ts_create_old|].
    + unfold exec. by rewrite (bind_ok _ _ _ _ _ E).
    + split_and!; [done|done|by left].
  - pose proof Habs as Hw. rewrite find_walk in Hw by apply H.
    destruct (walk_absent _ _ _ _ _ _ Hw) as (es0 & c & rest' & -> & _ & _).
    destruct (create_new fuel stk L s root path cs NULL H Hroot Hp Hpl d rest' c q Hw Hq Hq2)
      as (es & L' & s' & a & x & Hes & E & Hcr).
    destruct (created_kind _ _ _ _ _ _ _ _ Hcr) as (Hfr & Hext & Hk & _).
    destruct Hcr as (H' & G & Ha & _ & _ & Hdirs & _).
    exists L', s', (Answer 0 a []), (Answer 0 x []), (view L' s'). split_and!; try done.
    + unfold exec. by rewrite (bind_ok _ _ _ _ _ E).
    + by eapply rooted_grows.
    + eapply (ts_create_new _ _ path cs d c rest' es x); try done; by apply Hk.
    + split_and!; [done|done|by right].
Qed.

Lemma refines_mkdir path c : c = Mkdir path → allowed s root (view L s) c → refines c c.
Proof.
  intros -> (cs & [Hp Hpl] & Hcase). destruct Hcase as [(d & x & Hat)|(d & rest & Habs & q & Hq & Hq2)].
  - pose proof Hat as Hw. rewrite find_walk in Hw by apply H.
    destruct (mkdir_exists fuel stk L s root path cs NULL H Hroot Hp Hpl d x Hw) as (s' & E & H' & Ev).
    eapply (refines_same _ _ (Answer (- EEXIST) NULL []) (Answer (- EEXIST) NULL []));
      [|done|done|by eapply ts_mkdir_old|].
    + unfold exec. by rewrite (bind_ok _ _ _ _ _ E).
    + split_and!; [done|done|by left].
  - pose proof Habs as Hw. rewrite find_walk in Hw by apply H.
    destruct (walk_absent _ _ _ _ _ _ Hw) as (es0 & c & rest' & -> & _ & _).
    destruct (mkdir_new fuel stk L s root path cs NULL H Hroot Hp Hpl d rest' c q Hw Hq Hq2)
      as (es & L' & s' & a & x & Hes & E & Hcr).
    destruct (created_kind _ _ _ _ _ _ _ _ Hcr) as (Hfr & Hext & _ & Hk).
    destruct Hcr as (H' & G & Ha & _ & _ & Hdirs & _).
    exists L', s', (Answer 0 a []), (Answer 0 x []), (view L' s'). split_and!; try done.
    + unfold exec. by rewrite (bind_ok _ _ _ _ _ E).
    + by eapply rooted_grows.
    + eapply (ts_mkdir_new _ _ path cs d c rest' es x); try done; by apply Hk.
    + split_and!; [done|done|by right].
Qed.

Lemma refines_close a x : has s a x → allowed s root (view L s) (Close x) → refines (Close a) (Close x).
Proof.
  intros Ha Hx. assert (linked s x) as Hlk.
  { destruct Hx as [Hx | ->]; [eapply named_linked|eapply rooted_link]; try done; apply H. }
  destruct (vput_inv [] L s a x H Ha Hlk) as (s' & E & H' & Ev & _).
  eapply (refines_same _ _ (Answer 0 NULL []) (Answer 0 NULL [])); [|done|done|constructor|].
  - unfold exec. by rewrite (bind_ok _ _ _ _ _ E).
  - split_and!; [done|done|by left].
Qed.

Lemma refines_write a x offset buf :
  has s a x → allowed s root (view L s) (Write x offset buf) →
  refines (Write a offset buf) (Write x offset buf).
Proof.
  intros Ha ([bs Hbs] & Ho & Hb). destruct (file_node _ _ _ _ Hbs) as (n & data & size & Hn & Ed & Hc).
  destruct (vfs_write_ok L s a x n data size H Ha Hn Ed buf offset Ho Hb) as (data' & E & H' & Hw).
  match type of H' with vfs_inv [] L ?t => set (s' := t) in * end.
  exists L, s', (Answer 0 NULL []), (Answer 0 NULL []),
    (Tree (abs L s) (<[x := File data']> (t_nodes (view L s)))). split_and!; try done.
  - unfold exec. by rewrite (bind_ok _ _ _ _ _ E).
  - destruct Hroot as (m & r & Hm & Hr & Er & Hpar). exists m, r. split_and!; try done.
    unfold s'. simpl. by rewrite (dir_parent_update _ _ n) by (done || simpl; by rewrite Ed).
  - apply (ts_write root (view L s) x offset buf bs data'); [done|]. by rewrite <-Hc.
  - unfold view. f_equal. simpl. by rewrite fmap_insert.
  - split_and!; [done|done|by left].
Qed.

Lemma refines_read a x offset count :
  has s a x → allowed s root (view L s) (Read x offset count) →
  refines (Read a offset count) (Read x offset count).
Proof.
  intros Ha ([bs Hbs] & Ho & Hcnt & Hb). destruct (file_node _ _ _ _ Hbs) as (n & data & size & Hn & Ed & Hc).
  assert (size = Z.of_nat (length bs)) as Hsz.
  { rewrite <-Hc. destruct (has_node _ _ _ _ _ H Ha) as (v & n' & Hv & Ev & _).
    subst x. by destruct (file_size L s v n data size (vi_ok _ _ _ H) Hn Ed). }
  destruct (decide (offset + count ≤ size)) as [Hle|Hgt].
  - destruct data as [bs'|]; simpl in Hc; [subst bs'|subst bs; simpl in Hsz; lia].
    pose proof (vfs_read_ok L s a x n (Some bs) size H Ha Hn Ed bs offset count eq_refl Ho
      ltac:(lia) Hle Hb) as E.
    eapply (refines_same _ _ (Answer (i32 count) NULL (take (Z.to_nat count) (drop (Z.to_nat offset) bs))));
      [|done|done|apply (ts_read _ _ _ _ _ bs); [done|lia]|].
    + unfold exec. by rewrite (bind_ok _ _ _ _ _ E).
    + split_and!; [done|done|by left].
  - pose proof (vfs_read_eof L s a x n data size H Ha Hn Ed offset count) as E.
    rewrite u64_small in E by lia.
    eapply (refines_same _ _ (Answer (- EINVAL) NULL [])); [|done|done|apply (ts_read_eof _ _ _ _ _ bs); [done|lia]|].
    + unfold exec. rewrite (bind_ok _ _ _ _ _ (E ltac:(lia))). done.
    + split_and!; [done|done|by left].
Qed.

(** Calls that change one entry. *)
Lemma refines_relinks c c' L' s' A :
  exec (S fuel) stk c s = Ok (Answer 0 NULL [], s') → vfs_inv [] L' s' → relinks s s' → abs L' s' = A →
  tstep root (view L s) c' (Answer 0 NULL []) (Tree A (t_nodes (view L s))) → refines c c'.
Proof.
  intros E Hi R Ha Hstep. exists L', s', (Answer 0 NULL []), (Answer 0 NULL []), (view L' s').
  assert (view L' s' = Tree A (t_nodes (view L s))) as Hv.
  { rewrite <-(view_relinks L _ _ R). unfold view. by rewrite Ha. }
  split_and!; [done|done|by eapply relinks_rooted|by rewrite Hv|done|].
  split_and!; [done|done|by left].
Qed.

Lemma refines_same_err c c' e s' :
  exec (S fuel) stk c s = Ok (Answer e NULL [], s') → vfs_inv [] L s' → evolve s s' →
  tstep root (view L s) c' (Answer e NULL []) (view L s) → refines c c'.
Proof. intros E Hi Ev Hstep. eapply refines_same; [done..|]. split_and!; [done|done|by left]. Qed.

Lemma refines_link name target c : c = Hardlink name target → allowed s root (view L s) c → refines c c.
Proof.
  intros -> (ct & [Ht Htpl] & Hcase).
  destruct Hcase as [(d & rest & Habs)|(d0 & x & Hat & [[ex Hex]|(cs & d & c & [Hn Hnpl] & Habs & q & Hq & Hq2)])].
  - pose proof Habs as Hw. rewrite find_walk in Hw by apply H.
    destruct (link_absent fuel stk L s root target ct H Hroot Ht Htpl d rest name Hw) as (s' & E & H' & Ev).
    eapply (refines_same_err _ _ (- ENOENT)); [|done|done|by eapply ts_link_absent].
    unfold exec. by rewrite (bind_ok _ _ _ _ _ E).
  - pose proof Hat as Hw. rewrite find_walk in Hw by apply H.
    destruct (link_dir fuel stk L s root target ct H Hroot Ht Htpl d0 x ex name Hw Hex) as (s' & E & H' & Ev).
    eapply (refines_same_err _ _ (- EISDIR)); [|done|done|by eapply ts_link_dir; eauto].
    unfold exec. by rewrite (bind_ok _ _ _ _ _ E).
  - pose proof Hat as Hw. pose proof Habs as Hw2. rewrite find_walk in Hw, Hw2 by apply H.
    destruct (abs L s !! x) as [ex|] eqn:Hx.
    + destruct (link_dir fuel stk L s root target ct H Hroot Ht Htpl d0 x ex name Hw Hx) as (s' & E & H' & Ev).
      eapply (refines_same_err _ _ (- EISDIR)); [|done|done|by eapply ts_link_dir; eauto].
      unfold exec. by rewrite (bind_ok _ _ _ _ _ E).
    + destruct (walk_absent _ _ _ _ _ _ Hw2) as (es & c' & r' & _ & Hes & _).
      destruct (link_new fuel stk L s root target ct H Hroot Ht Htpl d0 x name cs d c es q Hw Hx Hn Hnpl Hw2 Hes Hq Hq2)
        as (L' & s' & E & H' & R & Ha).
      eapply (refines_relinks _ _ L' s'); [|done..|by eapply ts_link].
      unfold exec. by rewrite (bind_ok _ _ _ _ _ E).
Qed.

Lemma refines_unlink path c : c = Unlink path → allowed s root (view L s) c → refines c c.
Proof.
  intros -> (cs & [Hp Hpl] & Hcase).
  destruct Hcase as [(d & rest & Habs)|(d & x & Hat & Hcase)].
  - pose proof Habs as Hw. rewrite find_walk in Hw by apply H.
    destruct (unlink_absent fuel stk L s root path cs H Hroot Hp Hpl d rest Hw) as (s' & E & H' & Ev).
    eapply (refines_same_err _ _ (- ENOENT)); [|done|done|by eapply ts_unlink_absent].
    unfold exec. by rewrite (bind_ok _ _ _ _ _ E).
  - pose proof Hat as Hw. rewrite find_walk in Hw by apply H.
    destruct (abs L s !! x) as [ex|] eqn:Hx.
    + destruct (unlink_dir fuel stk L s root path cs H Hroot Hp Hpl d x ex Hw Hx) as (e & s' & E & He & H' & Ev).
      eapply (refines_same_err _ _ e); [|done|done|by eapply ts_unlink_dir; eauto].
      unfold exec. by rewrite (bind_ok _ _ _ _ _ E).
    + destruct Hcase as [[ex Hex]|(es & [Hes He] & Hk)]; [simpl in Hex; congruence|].
      destruct (unlink_named fuel stk L s root path cs H Hroot Hp Hpl d x es Hw Hes Hx He Hk)
        as (L' & s' & E & H' & R & Ha).
      eapply (refines_relinks _ _ L' s'); [|done..|by eapply ts_unlink].
      unfold exec. by rewrite (bind_ok _ _ _ _ _ E).
Qed.

(** Every allowed call returns and refines its step. *)
Lemma refine_call c c' : stands_for s c c' → allowed s root (view L s) c' → refines c c'.
Proof.
  intros Hs Ha. destruct c, c'; simpl in Hs; try done; try (subst; eauto using refines_create, refines_mkdir, refines_open, refines_unlink).
  - by apply refines_close.
  - destruct Hs as (? & -> & ->). by apply refines_write.
  - destruct Hs as (? & -> & ->). by apply refines_read.
  - destruct Hs as [-> ->]. by eapply refines_link.
Qed.

End refine.

(** ** Sessions *)

Section session.
Context (fuel : nat) (stk : nameidata) (root : ptr) (s0 : fs).

(** The states that sequences of allowed calls reach from [s0]. *)
Inductive session : fs → Prop :=
  | session_start : session s0
  | session_call s c c' r s' :
      session s → stands_for s c c' → (∀ L, ramfs_ok L s → allowed s root (view L s) c') →
      exec (S fuel) stk c s = Ok (r, s') → session s'.

Definition tsteps : tree → tree → Prop := rtc (λ t t', ∃ c r, tstep root t c r t').

Lemma session_inv L0 s :
  vfs_inv [] L0 s0 → rooted s0 root → session s →
  ∃ L, vfs_inv [] L s ∧ rooted s root ∧ tsteps (view L0 s0) (view L s).
Proof.
  intros H0 Hr0. induction 1 as [|s c c' r s' _ (L & H & Hr & Hsteps) Hc Ha E].
  - exists L0. split_and!; [done|done|apply rtc_refl].
  - destruct (refine_call fuel stk L s root H Hr c c' Hc (Ha L (vi_ok _ _ _ H)))
      as (L' & s1 & r1 & r' & t' & E1 & H' & Hr' & Hstep & Et & _).
    rewrite E in E1. injection E1 as <- <-. exists L'. split_and!; [done|done|].
    eapply rtc_r; [done|]. exists c', r'. by rewrite Et.
Qed.

(** Nothing an allowed call does is stuck: not a panic, not a held lock, no
    access to a freed object. *)
Lemma session_progress L0 s c c' :
  vfs_inv [] L0 s0 → rooted s0 root → session s → stands_for s c c' →
  (∀ L, ramfs_ok L s → allowed s root (view L s) c') →
  ∃ r s', exec (S fuel) stk c s = Ok (r, s').
Proof.
  intros H0 Hr0 Hs Hc Ha. destruct (session_inv _ _ H0 Hr0 Hs) as (L & H & Hr & _).
  destruct (refine_call fuel stk L s root H Hr c c' Hc (Ha L (vi_ok _ _ _ H)))
    as (L' & s1 & r1 & r' & t' & E1 & _). eauto.
Qed.

End session.

(** ** Facts of the abstract steps *)

(** Names in a directory keep distinct nodes apart, and every step keeps the
    trees that have a directory for every key well formed. *)
Definition well_formed (t : tree) : Prop :=
  (∀ d es, t_dirs t !! d = Some es → t_nodes t !! d = Some Dir) ∧
  ∀ d es name x, t_dirs t !! d = Some es → (name, x) ∈ es → is_Some (t_nodes t !! x).

Lemma view_well_formed L s : ramfs_ok L s → well_formed (view L s).
Proof.
  intros H. split.
  - intros d es Hes. simpl in Hes. unfold abs in Hes. rewrite lookup_fmap in Hes. simpl. rewrite lookup_fmap.
    destruct (L !! d) as [l|] eqn:Hl; [|done].
    destruct (dk_list _ _ _ _ _ (rk_dirs _ _ H) _ _ Hl) as (n & h & par & q & Hn & En).
    rewrite Hn. simpl. unfold kind_of. by rewrite En.
  - intros d es name x Hes Hin.
    assert (named (view L s) x) as (n & Hn & _)%(named_linked L s x H) by (by exists d, es, name).
    simpl. rewrite lookup_fmap, Hn. by eexists.
Qed.

(** What one reads after a write: the bytes written. *)
Lemma write_read_bytes old new offset buf :
  written old new offset buf → take (length buf) (drop offset new) = Some <$> buf.
Proof.
  intros (_ & Hlen & Hw). apply list_eq. intros i.
  destruct (decide (i < length buf)%nat) as [Hi|Hi].
  - rewrite lookup_take_lt, lookup_drop, Hw, decide_True, list_lookup_fmap by lia.
    by replace (offset + i - offset)%nat with i by lia.
  - rewrite (lookup_ge_None_2 (take _ _)) by (rewrite length_take; lia).
    symmetry. apply lookup_ge_None_2. rewrite length_fmap. lia.
Qed.

(** Write, then read the same range: the same bytes come back, and the state
    is the one after the write. *)
Lemma write_then_read L s a x old buf offset :
  vfs_inv [] L s → has s a x → t_nodes (view L s) !! x = Some (File old) →
  buf ≠ [] → 0 ≤ offset → offset + Z.of_nat (length buf) < 2 ^ 63 → Z.of_nat (length buf) < 2 ^ 31 →
  ∃ s', vfs_write a buf offset (Z.of_nat (length buf)) s = Ok (0, s') ∧ vfs_inv [] L s' ∧
    vfs_read a offset (Z.of_nat (length buf)) s' =
      Ok ((Z.of_nat (length buf), Some <$> buf), s').
Proof.
  intros H Ha Hx Hne Ho Hb Hi. destruct (file_node _ _ _ _ Hx) as (n & data & size & Hn & Ed & _).
  destruct (vfs_write_ok L s a x n data size H Ha Hn Ed buf offset Ho Hb) as (data' & E & H' & Hw).
  match type of H' with vfs_inv [] L ?t => set (s' := t) in H', E end. exists s'.
  split_and!; [done|done|]. pose proof Hw as (_ & Hlen & _).
  rewrite (vfs_read_ok L s' a x (set_data (UReg (Some data') (Z.of_nat (length data'))) n)
    (Some data') (Z.of_nat (length data')) H' Ha (lookup_insert_eq _ _ _) eq_refl data' offset
    (Z.of_nat (length buf))) by (done || lia).
  rewrite i32_small, Nat2Z.id by lia. by rewrite (write_read_bytes (contents data)).
Qed.
