(* ===== verification/RamfsReach.v ===== *)
(** * Reachable states of the ram file system

    The calls that kernel/vfs.c makes into kernel/ramfs.c, in any order, from
    the state before the first mount: every state keeps [ramfs_ok]. *)

From S2P Require Import Prelude CString FsState Ramfs RamfsDir RamfsOps RamfsInv RamfsSpec.
From S2P Require Import RamfsUnlink RamfsLookup RamfsFile Vfs VfsRefs.

Local Open Scope Z_scope.

Definition live_vnode (s : fs) (a : ptr) (v : vnode) : Prop := fs_vnodes s !! a = Some v.
Definition live_dir (s : fs) (a : ptr) (v : vnode) : Prop := live_vnode s a v ∧ v_type v = VDIR.

Definition good_component (cnp : componentnam) : Prop :=
  (0 < cn_len cnp ≤ String.length (cn_name cnp))%nat.

(** One call, with what its caller guarantees. *)
Inductive op_step (s : fs) : fs → Prop :=
  | op_mount vfs r s' :
      is_Some (fs_vfss s !! vfs) → ramfs_mount vfs s = Ok (r, s') → op_step s s'
  | op_alloc vdir vpp dv cnp type target data q r s' :
      (* create, mkdir and symlink *)
      live_dir s vdir dv → good_component cnp → (is_Some target → type = VLNK) →
      new_data s (v_data dv) type target = Some data →
      next_seq s (v_data dv) = Some q → q + 1 < 2 ^ 64 →
      ramfs_alloc_file vdir vpp cnp type target s = Ok (r, s') → op_step s s'
  | op_link vdir vn dv v cnp q r s' :
      live_dir s vdir dv → live_vnode s vn v → v_type v ≠ VDIR → cn_name cnp ≠ EmptyString →
      next_seq s (v_data dv) = Some q → q + 1 < 2 ^ 64 →
      ramfs_link vdir vn cnp s = Ok (r, s') → op_step s s'
  | op_remove vdir vn dv v cnp r s' :
      live_dir s vdir dv → live_vnode s vn v → cn_name cnp ≠ EmptyString →
      ramfs_remove vdir vn cnp s = Ok (r, s') → op_step s s'
  | op_rmdir vdir vn dv v cnp r s' :
      live_dir s vdir dv → live_dir s vn v → cn_name cnp ≠ EmptyString →
      (∀ L es, ramfs_ok L s → abs L s !! v_data dv = Some es →
         lookup_entry (is_name (cn_name cnp)) es = Some (v_data v)) →
      ramfs_rmdir vdir vn cnp s = Ok (r, s') → op_step s s'
  | op_vget vfs m ino n r s' :
      fs_vfss s !! vfs = Some m → is_Some (fs_rams s !! m_data m) → fs_nodes s !! ino = Some n →
      vget_ready s n → ramfs_vget vfs ino s = Ok (r, s') → op_step s s'
  | op_write vn v n data size buf offset r s' :
      live_vnode s vn v → fs_nodes s !! v_data v = Some n → rn_data n = UReg data size →
      0 ≤ offset → offset + Z.of_nat (length buf) < 2 ^ 63 →
      ramfs_write vn buf offset (Z.of_nat (length buf)) s = Ok (r, s') → op_step s s'
  | op_vnode a v v' :
      (* the locks, reference counts and mount points of vfs.c *)
      live_vnode s a v → v_data v' = v_data v → v_type v' = v_type v → v_vfs v' = v_vfs v →
      0 < v_refcount v' → op_step s (upd_vnodes (insert a v') s)
  | op_close a v n r s' :
      live_vnode s a v → (v_lock v = 0 ∨ v_lock v = 1) → fs_nodes s !! v_data v = Some n →
      (v_refcount v = 1 → rn_linkcount n ≠ 0) → vfs_close a s = Ok (r, s') → op_step s s'.

Lemma dir_abs L s a v : ramfs_ok L s → live_dir s a v → ∃ es, abs L s !! v_data v = Some es.
Proof.
  intros H [Hv Ht]. destruct (ramfs_dir _ _ _ _ H Hv Ht) as (n & h & par & q & l & _ & _ & _ & _ & Hl & _).
  unfold abs. rewrite lookup_fmap, Hl. by eexists.
Qed.

Lemma op_remove_ok L s vdir vn dv v cnp r s' :
  ramfs_ok L s → live_dir s vdir dv → live_vnode s vn v → cn_name cnp ≠ EmptyString →
  ramfs_remove vdir vn cnp s = Ok (r, s') → ∃ L', ramfs_ok L' s'.
Proof.
  intros H Hd Hv Hn E. destruct (dir_abs _ _ _ _ H Hd) as [es Hes]. destruct Hd as [Hdv Ht].
  destruct (decide (v_type v = VDIR)) as [Hdir|Hdir].
  - rewrite (remove_isdir s vdir vn dv v) in E by done. injection E as <- <-. by exists L.
  - destruct (decide (lookup_entry (is_name (cn_name cnp)) es = Some (v_data v))) as [Hl|Hl].
    + destruct (remove_ok L s vdir vn dv v cnp es H Hdv Hv Ht Hn Hes Hdir Hl) as (L' & s1 & E1 & H' & _).
      exists L'. congruence.
    + rewrite (remove_panic L s vdir vn dv v cnp es H Hdv Hv Ht Hn Hes Hdir Hl) in E. done.
Qed.

Lemma op_rmdir_ok L s vdir vn dv v cnp r s' :
  ramfs_ok L s → live_dir s vdir dv → live_dir s vn v → cn_name cnp ≠ EmptyString →
  (∀ es, abs L s !! v_data dv = Some es → lookup_entry (is_name (cn_name cnp)) es = Some (v_data v)) →
  ramfs_rmdir vdir vn cnp s = Ok (r, s') → ∃ L', ramfs_ok L' s'.
Proof.
  intros H Hd Hv Hn Hl E. destruct (dir_abs _ _ _ _ H Hd) as [es Hes]. specialize (Hl es Hes).
  destruct (dir_abs _ _ _ _ H Hv) as [ex Hex]. pose proof (ramfs_dir _ _ _ _ H (proj1 Hv) (proj2 Hv)) as Hdir.
  destruct Hd as [Hdv Ht], Hv as [Hv Htv], (is_dotdot cnp) eqn:Hdd.
  - rewrite (rmdir_dotdot s vdir vn dv v cnp) in E by done. injection E as <- <-. by exists L.
  - destruct (decide (ex = [])) as [->|Hne].
    + destruct (rmdir_ok L s vdir vn dv v cnp es H Hdv Hv Ht Hn Hes Htv Hdd Hex Hl) as (L' & s1 & E1 & H' & _).
      exists L'. congruence.
    + destruct Hdir as (n & h & par & q & l & Hnd & _ & _ & Ed & _).
      assert (dir_parent (fs_nodes s) (v_data v) = Some par) as Hpar
        by (unfold dir_parent; rewrite Hnd; simpl; by rewrite Ed).
      destruct (entry_parent _ L s (v_data dv) es (v_data v) par H Hes Hl Hpar) as [-> _].
      rewrite (rmdir_notempty L s vdir vn dv v cnp H Hdv Hv ex) in E by done.
      injection E as <- <-. by exists L.
Qed.

Lemma op_step_ok L s s' : ramfs_ok L s → op_step s s' → ∃ L', ramfs_ok L' s'.
Proof.
  intros H. destruct 1 as [vfs r s' [m Hm] E|vdir vpp dv cnp type target data q r s' [Hv Ht] Hc Htg Hd Hq Hq2 E
    |vdir vn dv v cnp q r s' Hdir Hv Ht Hn Hq Hq2 E| |vdir vn dv v cnp r s' Hd Hv Hn Hl E|vfs m ino n r s' Hm [rv Hr] Hn Hg E
    |vn v n data size buf offset r s' Hv Hn Hd Ho Hb E|a v v' Hv Hd Ht Hvfs Hr|a v n r s' Hv Hl Hn Hc E].
  - destruct (mount_ok L s vfs m H Hm) as (s1 & E1 & H' & _). eexists. rewrite E in E1. by injection E1 as _ <-.
  - destruct (create_ok L s vdir vpp dv cnp type target data q H Hv Ht Hc Htg Hd Hq Hq2)
      as (s1 & ? & ? & E1 & H' & _).
    eexists. rewrite E in E1. by injection E1 as _ <-.
  - destruct (dir_abs _ _ _ _ H Hdir) as [es Hes]. destruct Hdir as [Hdv Hdt].
    destruct (link_ok L s vdir vn dv v cnp es q H Hdv Hv Hdt Ht Hn Hes Hq Hq2) as (L' & s1 & E1 & H' & _).
    exists L'. congruence.
  - by eapply op_remove_ok.
  - eapply (op_rmdir_ok L s vdir vn dv v cnp); eauto.
  - rewrite (vget_run s vfs ino n) in E; [|done|by apply (dk_lock _ _ _ _ _ (rk_dirs _ _ H) _ _ Hn)
      |by apply (dk_data _ _ _ _ _ (rk_dirs _ _ H) _ _ Hn)|done].
    injection E as <- <-. exists L. by eapply vget_inv.
  - destruct (write_ok L s vn v n data size H Hv Hn Hd buf offset Ho Hb) as (data' & E1 & H' & _).
    exists L. rewrite E in E1. by injection E1 as _ ->.
  - exists L. by eapply ramfs_ok_write.
  - rewrite (close_run s a v n Hv Hn) in E; try done.
    2:{ apply (dk_lock _ _ _ _ _ (rk_dirs _ _ H) _ _ Hn). }
    2:{ intros ->. unfold live_vnode in Hv. by rewrite (below_null _ _ (rk_vnodes _ _ H)) in Hv. }
    exists L. injection E as _ <-. case_decide as E1; [by apply ramfs_ok_drop|].
    apply (ramfs_ok_write _ _ _ v); try done. simpl.
    destruct (vk_vnode _ _ (rk_vn _ _ H) _ _ Hv). lia.
Qed.

(** Every state the calls reach from the state before the first mount. *)
Lemma reach_ok ram b V s :
  (∀ p o, ram p o = 0) → 0 < b → rtc op_step (no_fs ram b V) s → ∃ L, ramfs_ok L s.
Proof.
  intros Hz Hb Hr. remember (no_fs ram b V) as s0 eqn:E0.
  assert (∃ L, ramfs_ok L s0) as H by (exists ∅; subst; by apply no_fs_ok).
  clear E0. induction Hr as [|s1 s2 s3 Hstep _ IH]; [done|]. apply IH.
  destruct H as [L H]. by eapply op_step_ok.
Qed.
