(* ===== verification/VfsMount.v ===== *)
(** * Mounting the root file system

    [vfs_mount (NULL, "ramfs")] from the state before any file system
    establishes the invariant the VFS calls keep. *)

From S2P Require Import Prelude CString FsState Ramfs RamfsDir RamfsOps RamfsInv RamfsSpec.
From S2P Require Import RamfsUnlink RamfsLookup RamfsFile Vfs VfsRefs VfsPath VfsOps VfsSpec.

Local Open Scope Z_scope.

Lemma ramfs_ok_empty V b ram rootfs rootvn mounted lock :
  (∀ p o, ram p o = 0) → 0 < b → ramfs_ok ∅ (Fs ∅ ∅ ∅ V ∅ b ram rootfs rootvn mounted lock).
Proof. intros Hz Hb. destruct (no_fs_ok ram b V Hz Hb). by constructor. Qed.

Lemma ramfs_ok_lock L s l : ramfs_ok L s → ramfs_ok L (set_vfslist_lock l s).
Proof. intros []. by constructor. Qed.

Lemma acquire_vfslist_free s :
  fs_vfslist_lock s = 0 → acquire_vfslist s = Ok (tt, set_vfslist_lock 1 s).
Proof. intros Hl. unfold acquire_vfslist. by rewrite (bind_ok get _ _ _ _ eq_refl), decide_True. Qed.

Lemma mount_root fuel stk ram b :
  (∀ p o, ram p o = 0) → 0 < b →
  let root := b + 2 in
  ∃ s', vfs_mount fuel stk None "ramfs" (no_fs ram b ∅) = Ok (0, s') ∧
    vfs_inv [] {[ root := [] ]} s' ∧ rooted s' root ∧ fs_vfslist_lock s' = 0 ∧
    t_dirs (view {[ root := [] ]} s') = {[ root := [] ]} ∧ next_seq s' root = Some SEQ_START.
Proof.
  intros Hz Hb root.
  set (m := FsState.Vfs NULL (ram b 8) (Z.lor (ram b 24) MNT_ROOTFS) (ram b 32)).
  set (s1 := Fs ∅ ∅ ∅ {[ b := m ]} ∅ (b + 1) ram b NULL b 1).
  destruct (mount_ok ∅ s1 b m) as (s2 & E & H2 & Habs & Hpar & Hvn & Hm & Hr & Hrf & Hseq).
  { apply ramfs_ok_empty; [done|lia]. }
  { apply lookup_singleton_eq. }
  simpl in *. replace (b + 1 + 1) with root in * by (unfold root; lia).
  exists (set_vfslist_lock 0 s2). split_and!.
  - unfold vfs_mount, mount_vfs.
    rewrite (bind_ok acquire_vfslist _ _ tt (set_vfslist_lock 1 (no_fs ram b ∅))) by (by apply acquire_vfslist_free).
    erewrite (bind_ok (cstrcmp _ _)) by (vm_compute; reflexivity). cbv beta iota.
    rewrite decide_False by (intros []; done).
    erewrite (bind_ok (kalloc _)) by reflexivity.
    erewrite (bind_ok (update _ _)) by (apply update_ok; simpl; apply lookup_insert_eq).
    erewrite (bind_ok (modify _)) by reflexivity. erewrite (bind_ok get) by reflexivity.
    erewrite (bind_ok (update _ _)) by (apply update_ok; simpl; apply lookup_insert_eq).
    erewrite (bind_ok (modify _)) by reflexivity.
    rewrite (bind_ok (ramfs_mount b) _ _ 0 s2); [by erewrite (bind_ok release_vfslist) by reflexivity|].
    rewrite <-E. f_equal. apply fs_eq; try done. simpl. by rewrite !insert_insert_eq.
  - split; [by apply ramfs_ok_lock|simpl; rewrite Hvn..]; intros a v Ha; by apply lookup_empty_Some in Ha.
  - exists (FsState.Vfs (m_next m) (m_mountpoint m) (m_flags m) (b + 1)), (Ramvfs root root).
    simpl. rewrite Hrf. done.
  - done.
  - simpl. unfold abs in Habs. done.
  - done.
Qed.
