(* ===== verification/Demo.v ===== *)
(** * Example states

    States the theorems are applied to: a mounted ramfs, the same with the
    root's vnode held, with a file [/f] and with a directory [/d]. *)

From S2P Require Import Prelude CString FsState Ramfs RamfsDir RamfsOps RamfsInv RamfsSpec.
From S2P Require Import RamfsUnlink RamfsLookup RamfsFile Vfs VfsRefs VfsPath VfsOps VfsSpec VfsMount.

Local Open Scope Z_scope.

Definition state_of {A} (r : outcome (A * fs)) : fs :=
  match r with Ok (_, s) => s | _ => no_fs (λ _ _, 0) 1 ∅ end.

(** A [nameidata] on the stack, its fields not yet written. *)
Definition stk0 : nameidata := Nameidata NULL NULL EmptyString 0 (Componentnam EmptyString 0).

Definition name_of (name : string) : componentnam := Componentnam name (String.length name).

(** The root directory is node 3; its vnode, once held, is 4. *)
Definition demo0 : fs := Eval vm_compute in state_of (vfs_mount 1 stk0 None "ramfs" (no_fs (λ _ _, 0) 1 ∅)).
Definition demo1 : fs := Eval vm_compute in state_of (ramfs_root 1 demo0).

(** File [/f]: node 5, vnode 7.  Directory [/d]: node 8, vnode 10. *)
Definition demo2 : fs := Eval vm_compute in state_of (ramfs_alloc_file 4 NULL (name_of "f") VREG None demo1).
Definition demo3 : fs := Eval vm_compute in state_of (ramfs_alloc_file 4 NULL (name_of "d") VDIR None demo2).

Definition lists0 : gmap ptr (list ptr) := {[ 3 := [] ]}.
Definition lists2 : gmap ptr (list ptr) := Eval vm_compute in create_lists lists0 3 6 5 VREG.
Definition lists3 : gmap ptr (list ptr) := Eval vm_compute in create_lists lists2 3 9 8 VDIR.

Lemma demo0_ok : vfs_inv [] lists0 demo0 ∧ rooted demo0 3.
Proof.
  destruct (mount_root 1 stk0 (λ _ _, 0) 1 ltac:(done) ltac:(done)) as (s' & E & H & Hr & _).
  assert (demo0 = s') as ->; [|done].
  apply (f_equal state_of) in E. simpl state_of in E. rewrite <-E. vm_compute. reflexivity.
Qed.

Lemma demo1_eq : (vget_state 1 3 demo0).2 = demo1.
Proof. vm_compute. reflexivity. Qed.

Lemma demo1_ok : ramfs_ok lists0 demo1.
Proof.
  rewrite <-demo1_eq. destruct demo0_ok as [H _].
  apply (vget_inv lists0 demo0 1 3 (add_linkcount 1 (new_node VDIR NULL NULL (UDir NULL 3 SEQ_START)))
    (FsState.Vfs 0 0 1 2) (Ramvfs 3 3) (vi_ok _ _ _ H)); vm_compute; reflexivity.
Qed.

(** The state after an entry was made, with everything the call needs in a
    form that evaluates. *)
Lemma make_ok L s vdir dv name type data q s' :
  ramfs_ok L s → fs_vnodes s !! vdir = Some dv → v_type dv = VDIR → name ≠ EmptyString →
  new_data s (v_data dv) type None = Some data → next_seq s (v_data dv) = Some q → q + 1 < 2 ^ 64 →
  state_of (ramfs_alloc_file vdir NULL (name_of name) type None s) = s' →
  ramfs_ok (create_lists L (v_data dv) (fs_brk s + 1) (fs_brk s) type) s'.
Proof.
  intros H Hv Ht Hn Hd Hq Hq2 <-.
  assert (0 < cn_len (name_of name) ≤ String.length (cn_name (name_of name)))%nat as Hc
    by (destruct name; simpl; [done|lia]).
  destruct (create_ok L s vdir NULL dv (name_of name) type None data q H Hv Ht Hc ltac:(by intros []) Hd Hq Hq2)
    as (s1 & ? & ? & -> & H1 & _). exact H1.
Qed.

Lemma demo2_made : state_of (ramfs_alloc_file 4 NULL (name_of "f") VREG None demo1) = demo2.
Proof. vm_compute. reflexivity. Qed.

Lemma demo3_made : state_of (ramfs_alloc_file 4 NULL (name_of "d") VDIR None demo2) = demo3.
Proof. vm_compute. reflexivity. Qed.

Lemma demo2_ok : ramfs_ok lists2 demo2.
Proof.
  apply (make_ok lists0 demo1 4 (Vnode 1 NULL VDIR 1 1 0 3) "f" VREG (UReg None 0) 3 demo2 demo1_ok);
    [vm_compute; reflexivity|done|done|vm_compute; reflexivity|vm_compute; reflexivity|done|exact demo2_made].
Qed.

Lemma demo3_ok : ramfs_ok lists3 demo3.
Proof.
  apply (make_ok lists2 demo2 4 (Vnode 1 NULL VDIR 1 1 0 3) "d" VDIR (UDir 0 3 SEQ_START) 4 demo3 demo2_ok);
    [vm_compute; reflexivity|done|done|vm_compute; reflexivity|vm_compute; reflexivity|done|exact demo3_made].
Qed.

Lemma demo3_inv : vfs_inv [] lists3 demo3 ∧ rooted demo3 3.
Proof.
  split.
  - assert (map_Forall (λ _ v, v_mountedhere v = NULL ∧ v_lock v = 0 ∧ (v_type v = VDIR ∨ v_flags v = 0)) (fs_vnodes demo3)) as H
      by (apply (bool_decide_unpack _); vm_compute; reflexivity).
    split; [apply demo3_ok|intros a v (? & ? & [])%H; naive_solver..].
  - exists (FsState.Vfs 0 0 1 2), (Ramvfs 3 8). done.
Qed.

(** The bytes "hi" written at offset 2 of [/f]. *)
Definition demo4 : fs := Eval vm_compute in state_of (ramfs_write 7 [104; 105] 2 2 demo3).

Definition demo4_bytes : list cell := [None; None; Some 104; Some 105; None; None; None; None].
Definition demo4_f : ramnode := Ramnode 8 3 7 VREG 0 1 (UReg (Some demo4_bytes) 8).

Lemma demo4_made : state_of (ramfs_write 7 [104; 105] 2 2 demo3) = demo4.
Proof. vm_compute. reflexivity. Qed.

Lemma demo4_node : fs_nodes demo4 !! 5 = Some demo4_f.
Proof. vm_compute. reflexivity. Qed.

Lemma demo4_vnode : fs_vnodes demo4 !! 7 = Some (Vnode 1 NULL VREG 1 0 0 5).
Proof. vm_compute. reflexivity. Qed.

Lemma demo3_f : fs_nodes demo3 !! 5 = Some (Ramnode 8 3 7 VREG 0 1 (UReg None 0)).
Proof. vm_compute. reflexivity. Qed.

Lemma demo3_f_vnode : fs_vnodes demo3 !! 7 = Some (Vnode 1 NULL VREG 1 0 0 5).
Proof. vm_compute. reflexivity. Qed.

Lemma demo4_ok : ramfs_ok lists3 demo4.
Proof.
  destruct (write_ok lists3 demo3 7 _ _ None 0 demo3_ok demo3_f_vnode demo3_f eq_refl [104; 105] 2
    ltac:(lia) ltac:(simpl; lia)) as (data' & E & H & _).
  rewrite <-demo4_made. change (Z.of_nat (length [104; 105])) with 2 in E. rewrite E. exact H.
Qed.
