(* ===== verification/RamfsTheorems.v ===== *)
(** * Properties of kernel/ramfs.c *)

From S2P Require Import Prelude CString FsState Ramfs RamfsDir RamfsOps RamfsInv RamfsSpec.
From S2P Require Import RamfsUnlink RamfsLookup RamfsFile Vfs VfsRefs VfsPath VfsOps VfsSpec RamfsReach VfsMount Demo.

Local Open Scope Z_scope.

(** The vnodes of the example states. *)
Definition root_vn : vnode := Vnode 1 NULL VDIR 1 1 0 3.
Definition f_vn : vnode := Vnode 1 NULL VREG 1 0 0 5.
Definition d_vn : vnode := Vnode 1 NULL VDIR 1 0 0 8.

Lemma demo3_vnodes :
  fs_vnodes demo3 !! 4 = Some root_vn ∧ fs_vnodes demo3 !! 7 = Some f_vn ∧ fs_vnodes demo3 !! 10 = Some d_vn.
Proof. vm_compute. done. Qed.

Lemma demo3_abs :
  abs lists3 demo3 !! 3 = Some [("d"%string, 8); ("f"%string, 5)] ∧ abs lists3 demo3 !! 8 = Some [].
Proof. vm_compute. done. Qed.

(** C3: every state that the calls of the VFS into the ramfs (mount, create,
    mkdir, symlink, link, remove, rmdir, vget, write, close, and the changes of
    locks and reference counts) reach from the state before the first mount
    satisfies the invariant: each directory's list of entries is intact and in
    decreasing sequence order, link counts are the numbers of names, every
    entry's node is live, nodes and vnodes point at each other, no lock of a
    node is held. *)
Theorem ramfs_reachable ram b V s :
  (∀ p o, ram p o = 0) → 0 < b → rtc op_step (no_fs ram b V) s → ∃ L, ramfs_ok L s.
Proof. apply reach_ok. Qed.

Lemma ramfs_reachable_witness :
  ∃ s L, ramfs_mount 1 (no_fs (λ _ _, 0) 2 {[ 1 := FsState.Vfs 0 0 0 0 ]}) = Ok (0, s) ∧ ramfs_ok L s.
Proof.
  set (s0 := no_fs (λ _ _, 0) 2 {[ 1 := FsState.Vfs 0 0 0 0 ]}).
  destruct (mount_ok ∅ s0 1 (FsState.Vfs 0 0 0 0)) as (s & E & _);
    [by apply no_fs_ok|apply lookup_singleton_eq|].
  destruct (ramfs_reachable (λ _ _, 0) 2 {[ 1 := FsState.Vfs 0 0 0 0 ]} s) as [L H]; [done|done| |by exists s, L].
  apply rtc_once. apply (op_mount s0 1 0 s); [|exact E]. eexists. apply lookup_singleton_eq.
Defined.

(** Mounting adds an empty root directory that is its own parent, and
    changes no other directory. *)
Theorem ramfs_mount_root L s vfs m :
  ramfs_ok L s → fs_vfss s !! vfs = Some m →
  let root := fs_brk s + 1 in
  ∃ s', ramfs_mount vfs s = Ok (0, s') ∧ ramfs_ok (<[root := []]> L) s' ∧
    abs (<[root := []]> L) s' = <[root := []]> (abs L s) ∧
    dir_parent (fs_nodes s') root = Some root ∧
    fs_rams s' !! fs_brk s = Some (Ramvfs root root).
Proof.
  intros H Hm root. destruct (mount_ok L s vfs m H Hm) as (s' & E & H' & Ha & Hp & _ & _ & Hr & _). by exists s'.
Qed.

Lemma ramfs_mount_root_witness :
  ∃ s', ramfs_mount 1 demo3 = Ok (0, s') ∧ fs_rams s' !! 11 = Some (Ramvfs 12 12).
Proof.
  destruct (ramfs_mount_root lists3 demo3 1 (FsState.Vfs 0 0 1 2)) as (s' & E & _ & _ & _ & Hr);
    [apply demo3_ok|vm_compute; reflexivity|]. exists s'. split; [exact E|exact Hr].
Defined.

(** C27: create, mkdir and symlink: a new node of the type asked for, a new
    first entry with the component's name in the directory, and a vnode for
    the new node with one reference, both at addresses not in use before. *)
Theorem ramfs_alloc_file_adds L s vdir vpp dv cnp type target data q :
  ramfs_ok L s → fs_vnodes s !! vdir = Some dv → v_type dv = VDIR →
  (0 < cn_len cnp ≤ String.length (cn_name cnp))%nat → (is_Some target → type = VLNK) →
  new_data s (v_data dv) type target = Some data →
  next_seq s (v_data dv) = Some q → q + 1 < 2 ^ 64 →
  ∃ L' s' a x old n, ramfs_alloc_file vdir vpp cnp type target s = Ok ((0, a), s') ∧ ramfs_ok L' s' ∧
    abs L s !! v_data dv = Some old ∧
    abs L' s' = <[v_data dv := (component cnp, x) :: old]>
      (if decide (type = VDIR) then <[x := []]> (abs L s) else abs L s) ∧
    fs_vnodes s' = <[a := Vnode (v_vfs dv) NULL type 1 0 0 x]> (fs_vnodes s) ∧
    fs_nodes s' !! x = Some n ∧ rn_type n = type ∧ rn_data n = data ∧ rn_vnode n = a ∧
    fs_nodes s !! x = None ∧ fs_vnodes s !! a = None.
Proof.
  intros H Hv Ht Hc Htg Hd Hq Hq2.
  destruct (create_ok L s vdir vpp dv cnp type target data q H Hv Ht Hc Htg Hd Hq Hq2)
    as (s' & old & n & E & H' & Hold & Ha & Hvn & Hn & Et & Ed & Ev & _).
  eexists _, s', _, _, old, n. split_and!; try done.
  - apply (below_fresh _ _ (rk_nodes _ _ H)).
  - apply (below_fresh (fs_brk s + 2)). eapply below_mono; [|apply (rk_vnodes _ _ H)]. lia.
Qed.

Lemma ramfs_alloc_file_adds_witness : ∃ s' a x,
  ramfs_alloc_file 4 NULL (name_of "s") VLNK (Some "/f"%string) demo3 = Ok ((0, a), s') ∧
  fs_vnodes s' = <[a := Vnode 1 NULL VLNK 1 0 0 x]> (fs_vnodes demo3).
Proof.
  destruct (ramfs_alloc_file_adds lists3 demo3 4 NULL root_vn (name_of "s") VLNK (Some "/f"%string) (ULnk "/f") 5)
    as (L' & s' & a & x & old & n & E & _ & _ & _ & Hv & _);
    [apply demo3_ok|apply demo3_vnodes|done|simpl; lia|done|done|vm_compute; reflexivity|done|].
  exists s', a, x. split; [exact E|exact Hv].
Defined.

(** Link adds an entry for an existing file, named by the rest of the
    path. *)
Theorem ramfs_link_adds L s vdir vn dv v cnp es q :
  ramfs_ok L s → fs_vnodes s !! vdir = Some dv → fs_vnodes s !! vn = Some v →
  v_type dv = VDIR → v_type v ≠ VDIR → cn_name cnp ≠ EmptyString →
  abs L s !! v_data dv = Some es → next_seq s (v_data dv) = Some q → q + 1 < 2 ^ 64 →
  ∃ L' s', ramfs_link vdir vn cnp s = Ok (0, s') ∧ ramfs_ok L' s' ∧
    abs L' s' = <[v_data dv := (cn_name cnp, v_data v) :: es]> (abs L s) ∧ fs_vnodes s' = fs_vnodes s.
Proof.
  intros H Hdv Hv Hd Ht Hn Hes Hq Hq2.
  destruct (link_ok L s vdir vn dv v cnp es q H Hdv Hv Hd Ht Hn Hes Hq Hq2) as (L' & s' & E & H' & Ha & [_ Hvn _ _ _]).
  by exists L', s'.
Qed.

Lemma ramfs_link_adds_witness : ∃ L' s', ramfs_link 4 7 (name_of "g") demo3 = Ok (0, s') ∧
  abs L' s' = <[3 := [("g"%string, 5); ("d"%string, 8); ("f"%string, 5)]]> (abs lists3 demo3).
Proof.
  destruct (ramfs_link_adds lists3 demo3 4 7 root_vn f_vn (name_of "g") [("d"%string, 8); ("f"%string, 5)] 5)
    as (L' & s' & E & _ & Ha & _);
    [apply demo3_ok|apply demo3_vnodes|apply demo3_vnodes|done|done|done|apply demo3_abs|vm_compute; reflexivity|done|].
  exists L', s'. split; [exact E|exact Ha].
Defined.

(** C28: remove takes the entry away when it names the file; a directory is
    refused with EISDIR; when the first entry of exactly that name is not the
    file, as after a lookup that matched a longer name, it panics. *)
Theorem ramfs_remove_cases L s vdir vn dv v cnp es :
  ramfs_ok L s → fs_vnodes s !! vdir = Some dv → fs_vnodes s !! vn = Some v →
  v_type dv = VDIR → cn_name cnp ≠ EmptyString → abs L s !! v_data dv = Some es →
  (v_type v = VDIR → ramfs_remove vdir vn cnp s = Ok (- EISDIR, s)) ∧
  (v_type v ≠ VDIR → lookup_entry (is_name (cn_name cnp)) es = Some (v_data v) →
     ∃ L' s', ramfs_remove vdir vn cnp s = Ok (0, s') ∧ ramfs_ok L' s' ∧
       abs L' s' = <[v_data dv := remove_entry (is_name (cn_name cnp)) es]> (abs L s) ∧
       fs_vnodes s' = fs_vnodes s) ∧
  (v_type v ≠ VDIR → lookup_entry (is_name (cn_name cnp)) es ≠ Some (v_data v) →
     ramfs_remove vdir vn cnp s = Panic "ramfs_remove: parent").
Proof.
  intros H Hdv Hv Hd Hn Hes. split_and!.
  - by apply (remove_isdir s vdir vn dv v).
  - intros Ht Hl. destruct (remove_ok L s vdir vn dv v cnp es H Hdv Hv Hd Hn Hes Ht Hl)
      as (L' & s' & E & H' & Ha & [_ Hvn _ _ _]). by exists L', s'.
  - by apply (remove_panic L s vdir vn dv v cnp es).
Qed.

Lemma ramfs_remove_cases_witness :
  (∃ L' s', ramfs_remove 4 7 (name_of "f") demo3 = Ok (0, s') ∧
     abs L' s' = <[3 := [("d"%string, 8)]]> (abs lists3 demo3)) ∧
  ramfs_remove 4 7 (name_of "g") demo3 = Panic "ramfs_remove: parent".
Proof.
  split.
  - destruct (ramfs_remove_cases lists3 demo3 4 7 root_vn f_vn (name_of "f") [("d"%string, 8); ("f"%string, 5)])
      as (_ & H & _);
      [apply demo3_ok|apply demo3_vnodes|apply demo3_vnodes|done|done|apply demo3_abs|].
    destruct H as (L' & s' & E & _ & Ha & _); [done|done|]. exists L', s'. split; [exact E|exact Ha].
  - destruct (ramfs_remove_cases lists3 demo3 4 7 root_vn f_vn (name_of "g") [("d"%string, 8); ("f"%string, 5)])
      as (_ & _ & H);
      [apply demo3_ok|apply demo3_vnodes|apply demo3_vnodes|done|done|apply demo3_abs|].
    by apply H.
Defined.

(** C29: rmdir takes the entry of an empty directory away; a directory with
    entries, and the name "..", are refused with ENOTEMPTY. *)
Theorem ramfs_rmdir_cases L s vdir vn dv v cnp es ex :
  ramfs_ok L s → fs_vnodes s !! vdir = Some dv → fs_vnodes s !! vn = Some v →
  v_type dv = VDIR → v_type v = VDIR → cn_name cnp ≠ EmptyString →
  abs L s !! v_data dv = Some es → abs L s !! v_data v = Some ex →
  lookup_entry (is_name (cn_name cnp)) es = Some (v_data v) →
  if is_dotdot cnp then ramfs_rmdir vdir vn cnp s = Ok (- ENOTEMPTY, s) else
  if decide (ex = []) then
    ∃ L' s', ramfs_rmdir vdir vn cnp s = Ok (0, s') ∧ ramfs_ok L' s' ∧
      abs L' s' = <[v_data dv := remove_entry (is_name (cn_name cnp)) es]> (abs L s) ∧
      fs_vnodes s' = fs_vnodes s
  else ramfs_rmdir vdir vn cnp s = Ok (- ENOTEMPTY, s).
Proof.
  intros H Hdv Hv Hd Ht Hn Hes Hex Hl. destruct (is_dotdot cnp) eqn:Hdd.
  { by apply (rmdir_dotdot s vdir vn dv v). }
  destruct (decide (ex = [])) as [->|Hne].
  - destruct (rmdir_ok L s vdir vn dv v cnp es H Hdv Hv Hd Hn Hes Ht Hdd Hex Hl)
      as (L' & s' & E & H' & Ha & [_ Hvn _ _ _]). by exists L', s'.
  - destruct (ramfs_dir _ _ _ _ H Hv Ht) as (n & h & par & q & l & Hnd & _ & _ & Ed & _).
    assert (dir_parent (fs_nodes s) (v_data v) = Some par) as Hpar
      by (unfold dir_parent; rewrite Hnd; simpl; by rewrite Ed).
    destruct (entry_parent _ L s (v_data dv) es (v_data v) par H Hes Hl Hpar) as [-> _].
    by apply (rmdir_notempty L s vdir vn dv v cnp H Hdv Hv ex).
Qed.

Lemma ramfs_rmdir_cases_witness : ∃ L' s', ramfs_rmdir 4 10 (name_of "d") demo3 = Ok (0, s') ∧
  abs L' s' = <[3 := [("f"%string, 5)]]> (abs lists3 demo3).
Proof.
  destruct (ramfs_rmdir_cases lists3 demo3 4 10 root_vn d_vn (name_of "d") [("d"%string, 8); ("f"%string, 5)] [])
    as (L' & s' & E & _ & Ha & _);
    [apply demo3_ok|apply demo3_vnodes|apply demo3_vnodes|done|done|done|apply demo3_abs|apply demo3_abs|done|].
  exists L', s'. split; [exact E|exact Ha].
Defined.

(** C30: lookup of a component finds the first entry whose name starts with it
    and answers with the node's vnode; without one it is ENOENT and nothing
    changes. *)
Theorem ramfs_lookup_prefix L s vdir vpp dv cnp es :
  ramfs_ok L s → fs_vnodes s !! vdir = Some dv → v_type dv = VDIR →
  (0 < cn_len cnp ≤ String.length (cn_name cnp))%nat → abs L s !! v_data dv = Some es →
  cn_name cnp ≠ "."%string → cn_name cnp ≠ ".."%string →
  match lookup_entry (String.prefix (component cnp)) es with
  | None => ramfs_lookup vdir vpp cnp s = Ok ((- ENOENT, NULL), s)
  | Some x => ∀ n, fs_nodes s !! x = Some n → vget_ready s n →
      ∃ a s' v, ramfs_lookup vdir vpp cnp s = Ok ((0, a), s') ∧ abs L s' = abs L s ∧
        fs_vnodes s' !! a = Some v ∧ v_data v = x ∧ v_type v = rn_type n
  end.
Proof.
  intros H Hdv Hd Hc Hes Hdot Hdd. pose proof (lookup_ent L s vdir vpp dv cnp es H Hdv Hd Hc Hes Hdot Hdd) as Hl.
  destruct (lookup_entry _ es) as [x|]; [|done]. intros n Hn Hg.
  destruct (vget_vnode L s (v_vfs dv) x n H Hn) as (v & Hv & Ev & Et).
  eexists _, _, v. split; [by apply Hl with n|]. split_and!; [apply vget_abs|done..].
Qed.

Lemma ramfs_lookup_prefix_witness :
  (∃ a s' v, ramfs_lookup 4 NULL (name_of "f") demo3 = Ok ((0, a), s') ∧
     fs_vnodes s' !! a = Some v ∧ v_data v = 5) ∧
  ramfs_lookup 4 NULL (name_of "fg") demo3 = Ok ((- ENOENT, NULL), demo3).
Proof.
  split.
  - destruct (ramfs_lookup_prefix lists3 demo3 4 NULL root_vn (name_of "f") [("d"%string, 8); ("f"%string, 5)]
      demo3_ok (proj1 demo3_vnodes) eq_refl ltac:(simpl; lia) (proj1 demo3_abs) ltac:(done) ltac:(done)
      (Ramnode 8 3 7 VREG 0 1 (UReg None 0))) as (a & s' & v & E & _ & Hv & Ev & _);
      [vm_compute; reflexivity| |].
    + right. exists f_vn. split; [apply demo3_vnodes|done].
    + exists a, s', v. split; [exact E|]. split; [exact Hv|exact Ev].
  - exact (ramfs_lookup_prefix lists3 demo3 4 NULL root_vn (name_of "fg") [("d"%string, 8); ("f"%string, 5)]
      demo3_ok (proj1 demo3_vnodes) eq_refl ltac:(simpl; lia) (proj1 demo3_abs) ltac:(done) ltac:(done)).
Defined.

(** Lookup of ".." in the root of a ramfs never returns: it holds the lock
    of the root's node while [ramfs_vget] waits for it. *)
Theorem ramfs_lookup_dotdot_hangs L s vdir vpp dv cnp :
  ramfs_ok L s → fs_vnodes s !! vdir = Some dv → v_type dv = VDIR →
  (0 < cn_len cnp ≤ String.length (cn_name cnp))%nat → cn_name cnp = ".."%string →
  dir_parent (fs_nodes s) (v_data dv) = Some (v_data dv) →
  ramfs_lookup vdir vpp cnp s = Hang.
Proof. apply lookup_dotdot_root. Qed.

Lemma ramfs_lookup_dotdot_hangs_witness : ramfs_lookup 4 NULL (name_of "..") demo3 = Hang.
Proof.
  exact (ramfs_lookup_dotdot_hangs lists3 demo3 4 NULL root_vn (name_of "..") demo3_ok (proj1 demo3_vnodes)
    eq_refl ltac:(simpl; lia) eq_refl eq_refl).
Defined.

(** Inactive of a vnode whose node still has a name only takes the vnode
    off the node; of one whose last name is gone it frees the node and then
    releases the lock inside the freed memory. *)
Theorem ramfs_inactive_cases L s vn v n :
  ramfs_ok L s → fs_vnodes s !! vn = Some v → fs_nodes s !! v_data v = Some n →
  (rn_linkcount n ≠ 0 →
     ramfs_inactive vn s = Ok (tt, upd_nodes (insert (v_data v) (set_vnode NULL n)) s)) ∧
  (rn_linkcount n = 0 → ramfs_inactive vn s = Fault DanglingPtr).
Proof.
  intros H Hv Hn. split.
  - intros Hc. apply inactive_linked; try done. by apply (dk_lock _ _ _ _ _ (rk_dirs _ _ H) _ _ Hn).
  - intros Hc. by eapply inactive_unlinked.
Qed.

Lemma ramfs_inactive_cases_witness :
  ∃ s', ramfs_remove 4 7 (name_of "f") demo3 = Ok (0, s') ∧ ramfs_inactive 7 s' = Fault DanglingPtr.
Proof.
  destruct (remove_ok lists3 demo3 4 7 root_vn f_vn (name_of "f") [("d"%string, 8); ("f"%string, 5)]
    demo3_ok (proj1 demo3_vnodes) (proj1 (proj2 demo3_vnodes)) eq_refl ltac:(done) (proj1 demo3_abs)
    ltac:(done) eq_refl) as (L' & s' & E & H' & _).
  exists s'. split; [exact E|].
  assert (fs_vnodes s' !! 7 = Some f_vn ∧ ∃ n, fs_nodes s' !! 5 = Some n ∧ rn_linkcount n = 0)
    as (Hv & n & Hn & Hc).
  { apply (f_equal state_of) in E. rewrite <-(eq_refl : state_of (Ok (0, s')) = s'), <-E.
    split; [vm_compute; reflexivity|]. eexists. split; vm_compute; reflexivity. }
  destruct (ramfs_inactive_cases L' s' 7 f_vn n H' Hv Hn) as [_ H]. exact (H Hc).
Defined.

(** [ramfs_write]: after it the file holds the buffer at the offset, its
    old bytes elsewhere, and memory never written between and after them; the
    invariant is kept and nothing else changes. *)
Theorem ramfs_write_bytes L s vn v n data size buf offset :
  ramfs_ok L s → fs_vnodes s !! vn = Some v → fs_nodes s !! v_data v = Some n → rn_data n = UReg data size →
  0 ≤ offset → offset + Z.of_nat (length buf) < 2 ^ 63 →
  ∃ data', let s' := upd_nodes (insert (v_data v)
      (set_data (UReg (Some data') (Z.of_nat (length data'))) n)) s in
    ramfs_write vn buf offset (Z.of_nat (length buf)) s = Ok (0, s') ∧ ramfs_ok L s' ∧
    written (contents data) data' (Z.to_nat offset) buf.
Proof. intros H Hv Hn Hd. by apply (write_ok L s vn v n data size). Qed.

Lemma ramfs_write_bytes_witness : ∃ data' s',
  ramfs_write 7 [104; 105] 2 2 demo3 = Ok (0, s') ∧ written [] data' 2 [104; 105].
Proof.
  destruct (ramfs_write_bytes lists3 demo3 7 f_vn _ None 0 [104; 105] 2
    demo3_ok (proj1 (proj2 demo3_vnodes)) demo3_f eq_refl ltac:(lia) ltac:(simpl; lia)) as (data' & E & _ & Hw).
  eexists data', _. change (Z.of_nat (length [104; 105])) with 2 in E. split; [exact E|exact Hw].
Defined.

(** C31: below 2^63 the size a file grows to is above what the write needs and at most
    twice that, and the doubling ends. In general it ends at the first of the sizes
    (size + 1) * 2^k modulo 2^64 that is above the 64-bit sum of offset and count, and never
    ends when none of them is; so it never ends for a sum of at least 2^63 when size + 1 is
    a power of two, as it is for an empty file. *)
Theorem ramfs_grow_bounds total size :
  0 ≤ size ≤ total →
  (total < 2 ^ 63 → ∃ z, grow total size = Ok z ∧ total < z ∧ size < z ∧ (z ≤ total + 1 ∨ z ≤ 2 * total)) ∧
  (∀ k, (∀ j, (j < k)%nat → u64 ((size + 1) * 2 ^ Z.of_nat j) ≤ total) → total < u64 ((size + 1) * 2 ^ Z.of_nat k) →
    grow total size = Ok (u64 ((size + 1) * 2 ^ Z.of_nat k))) ∧
  ((∀ k, u64 ((size + 1) * 2 ^ Z.of_nat k) ≤ total) → ∀ fuel, grow_loop fuel total (u64 (size + 1)) = Hang) ∧
  (∀ i, size = 2 ^ Z.of_nat i - 1 → 2 ^ 63 ≤ total → ∀ fuel, grow_loop fuel total (u64 (size + 1)) = Hang).
Proof.
  intros Hs. assert (u64 (size + 1) = doubled size 0) as E0 by (unfold doubled; by rewrite Z.mul_1_r). rewrite E0.
  split; [intros Ht; by apply grow_ok|split; [|split]].
  - intros k Hle Hgt. rewrite grow_start. apply (grow_loop_ends total size k 65 0); [|exact Hle|exact Hgt].
    destruct (decide (64 ≤ k)%nat) as [Hk|]; [|lia]. apply (doubled_gone size) in Hk. unfold doubled in Hk. lia.
  - intros Hle fuel. by apply grow_loop_hangs.
  - intros i -> Ht fuel. apply grow_loop_hangs. intros k. pose proof (doubled_power i k). lia.
Qed.

(** A file of 10 bytes; the sum 2^63 + 5, at which an empty file hangs and one of 2 bytes does not. *)
Lemma ramfs_grow_bounds_witness :
  (∃ z, grow 100 10 = Ok z ∧ 100 < z) ∧ grow_loop 1000 (2 ^ 63 + 5) 1 = Hang ∧ grow (2 ^ 63 + 5) 2 = Ok (3 * 2 ^ 62).
Proof.
  split; [|split].
  - destruct (ramfs_grow_bounds 100 10) as [H _]; [lia|]. destruct H as (z & E & Hz & _); [lia|by exists z].
  - refine (proj2 (proj2 (proj2 (ramfs_grow_bounds (2 ^ 63 + 5) 0 _))) 0%nat _ _ 1000%nat); [lia|done|lia].
  - rewrite (proj1 (proj2 (ramfs_grow_bounds (2 ^ 63 + 5) 2 ltac:(lia))) 62%nat); [reflexivity| |vm_compute; reflexivity].
    intros j Hj. unfold u64. assert (2 ^ Z.of_nat j ≤ 2 ^ 61) by (apply Z.pow_le_mono_r; lia).
    rewrite Z.mod_small; [lia|]. split; [|lia]. pose proof (Z.pow_nonneg 2 (Z.of_nat j)). lia.
Defined.

(** A negative offset passes the check of [ramfs_read] when offset plus
    count, which wraps, is within the file: the read starts before the
    buffer. *)
Theorem ramfs_read_before_buffer L s vn v n bs size offset count :
  ramfs_ok L s → fs_vnodes s !! vn = Some v → fs_nodes s !! v_data v = Some n →
  rn_data n = UReg (Some bs) size →
  offset < 0 → 0 < count → 0 ≤ offset + count ≤ size → size < 2 ^ 64 →
  ramfs_read vn offset count s = Fault OutOfBounds.
Proof. intros H Hv Hn Hd. by apply (read_negative L s vn v n (Some bs) size H Hv Hn Hd bs). Qed.

Lemma ramfs_read_before_buffer_witness : ramfs_read 7 (-1) 1 demo4 = Fault OutOfBounds.
Proof.
  exact (ramfs_read_before_buffer lists3 demo4 7 f_vn demo4_f demo4_bytes 8 (-1) 1 demo4_ok demo4_vnode demo4_node
    eq_refl ltac:(lia) ltac:(lia) ltac:(lia) ltac:(lia)).
Defined.

(** ** Types

    The pointers of the structures as types: a node of a type holds the member
    of the union that belongs to that type, and its pointers lead to objects of
    the types the code casts them to. *)
Inductive data_typed (s : fs) : vtype → ramdata → Prop :=
  | typed_dir dentry parent lastseq n :
      (dentry = NULL ∨ is_Some (fs_dents s !! dentry)) → fs_nodes s !! parent = Some n → rn_type n = VDIR →
      data_typed s VDIR (UDir dentry parent lastseq)
  | typed_link l : l ≠ EmptyString → data_typed s VLNK (ULnk l)
  | typed_empty : data_typed s VREG (UReg None 0)
  | typed_file buf : data_typed s VREG (UReg (Some buf) (Z.of_nat (length buf)))
  | typed_other type : type ∈ [VNON; VSOCK; VBLK; VCHR] → data_typed s type UNone.

Definition node_typed (s : fs) (p : ptr) (n : ramnode) : Prop :=
  data_typed s (rn_type n) (rn_data n) ∧
  (rn_vnode n = NULL ∨ ∃ v, fs_vnodes s !! rn_vnode n = Some v ∧ v_data v = p ∧ v_type v = rn_type n).

Definition vnode_typed (s : fs) (a : ptr) (v : vnode) : Prop :=
  ∃ n m r, fs_nodes s !! v_data v = Some n ∧ rn_vnode n = a ∧ v_type v = rn_type n ∧
    fs_vfss s !! v_vfs v = Some m ∧ fs_rams s !! m_data m = Some r.

Definition dentry_typed (s : fs) (e : ramdentry) : Prop :=
  (de_next e = NULL ∨ is_Some (fs_dents s !! de_next e)) ∧ is_Some (fs_nodes s !! de_node e).

Lemma dlist_head D h l : dlist D h l → h = NULL ∨ is_Some (D !! h).
Proof. destruct l as [|d l]; simpl; [by left|]. intros (-> & _ & e & He & _). right. by exists e. Qed.

Lemma dlist_next D h l d e : dlist D h l → d ∈ l → D !! d = Some e → de_next e = NULL ∨ is_Some (D !! de_next e).
Proof.
  intros H Hd He. apply list_elem_of_split in Hd as (l1 & l2 & ->). apply dlist_app in H as (_ & _ & e' & He' & H).
  assert (e' = e) as -> by congruence. by eapply dlist_head.
Qed.

Lemma dir_type L s p : ramfs_ok L s → is_dir (fs_nodes s) p → ∃ n, fs_nodes s !! p = Some n ∧ rn_type n = VDIR.
Proof.
  intros H (n & h & par & q & Hn & Ed). exists n. split; [done|].
  pose proof (dk_data _ _ _ _ _ (rk_dirs _ _ H) _ _ Hn) as Hd. unfold data_ok in Hd. rewrite Ed in Hd. by destruct (rn_type n).
Qed.

Lemma node_typed_ok L s p n : ramfs_ok L s → fs_nodes s !! p = Some n → data_typed s (rn_type n) (rn_data n).
Proof.
  intros H Hn. pose proof (dk_data _ _ _ _ _ (rk_dirs _ _ H) _ _ Hn) as Hd. unfold data_ok in Hd.
  destruct (rn_type n) eqn:Et, (rn_data n) as [h par q|k|[buf|] size|] eqn:Ed; try done; subst;
    try (apply typed_other; set_solver).
  - apply typed_file.
  - apply typed_empty.
  - destruct (dk_dir _ _ _ _ _ (rk_dirs _ _ H) _ _ _ _ _ Hn Ed) as (Hpar & _ & l & _ & Hl & _).
    destruct (dir_type _ _ _ H Hpar) as (n' & Hn' & Et'). eapply typed_dir; [by eapply dlist_head|done|done].
  - by apply typed_link.
Qed.

(** C4: in every state that the calls of the VFS reach, a node's type says
    which member of the union it holds, a directory's parent is a directory,
    node and vnode point at each other and have one type, an entry names a
    node and the chain of entries never leaves the entries, and the file system
    of a vnode is mounted with a directory as its root. *)
Theorem ramfs_well_typed ram b V s :
  (∀ p o, ram p o = 0) → 0 < b → rtc op_step (no_fs ram b V) s →
  map_Forall (node_typed s) (fs_nodes s) ∧ map_Forall (vnode_typed s) (fs_vnodes s) ∧ map_Forall (λ _, dentry_typed s) (fs_dents s) ∧
  map_Forall (λ _ r, rn_type <$> fs_nodes s !! rv_root r = Some VDIR) (fs_rams s).
Proof.
  intros Hram Hb Hr. destruct (reach_ok ram b V s Hram Hb Hr) as [L H]. split; [|split; [|split]].
  - intros p n Hn. split; [by eapply node_typed_ok|]. destruct (vk_node _ _ (rk_vn _ _ H) _ _ Hn) as [|(v & Hv & Hd)]; [by left|].
    right. exists v. split_and!; [done..|]. destruct (vk_vnode _ _ (rk_vn _ _ H) _ _ Hv) as (_ & n' & Hn' & _ & ->). congruence.
  - intros a v Hv. destruct (vk_vnode _ _ (rk_vn _ _ H) _ _ Hv) as (_ & n & Hn & ? & ?).
    destruct (rk_vfs _ _ H _ _ Hv) as (m & r & ? & ?). by exists n, m, r.
  - intros d e He. destruct (dk_dent _ _ _ _ _ (rk_dirs _ _ H) _ _ He) as (Hn & _ & p & l & Hl & Hin). split; [|done].
    destruct (dk_list _ _ _ _ _ (rk_dirs _ _ H) _ _ Hl) as (n & h & par & q & Hp & Ed).
    destruct (dk_dir _ _ _ _ _ (rk_dirs _ _ H) _ _ _ _ _ Hp Ed) as (_ & _ & l' & Hl' & Hdl & _).
    assert (l' = l) as -> by congruence. by eapply dlist_next.
  - intros p r Hp. destruct (dir_type _ _ _ H (proj2 (rk_ram _ _ H _ _ Hp))) as (n & -> & Et). simpl. by rewrite Et.
Qed.

Theorem ramfs_well_typed_witness :
  ∃ s, ramfs_mount 1 (no_fs (λ _ _, 0) 2 {[ 1 := FsState.Vfs 0 0 0 0 ]}) = Ok (0, s) ∧ map_Forall (node_typed s) (fs_nodes s) ∧
    fs_nodes s ≠ ∅.
Proof.
  set (s0 := no_fs (λ _ _, 0) 2 {[ 1 := FsState.Vfs 0 0 0 0 ]}).
  destruct (mount_ok ∅ s0 1 (FsState.Vfs 0 0 0 0)) as (s & E & _);
    [by apply no_fs_ok|apply lookup_singleton_eq|].
  destruct (ramfs_well_typed (λ _ _, 0) 2 {[ 1 := FsState.Vfs 0 0 0 0 ]} s) as (Hn & _); [done|done| |].
  - apply rtc_once. apply (op_mount s0 1 0 s); [|exact E]. eexists. apply lookup_singleton_eq.
  - exists s. split; [exact E|split; [exact Hn|]]. vm_compute in E. injection E as <-. discriminate.
Defined.
