(* ===== verification/VfsTheorems.v ===== *)
(** * Properties of fs/vfs.c on a mounted ramfs *)

From S2P Require Import Prelude CString FsState Ramfs RamfsDir RamfsOps RamfsInv RamfsSpec.
From S2P Require Import RamfsUnlink RamfsLookup RamfsFile Vfs VfsRefs VfsPath VfsOps VfsLinks VfsSpec RamfsReach VfsMount Demo.

Local Open Scope Z_scope.

(** Calls allowed in the example states. *)
Lemma demo3_allowed c :
  allowed demo3 3 (view lists3 demo3) c → ∀ L, ramfs_ok L demo3 → allowed demo3 3 (view L demo3) c.
Proof. intros Ha L H. by rewrite (ramfs_ok_unique L lists3 demo3 H demo3_ok). Qed.

Lemma demo3_write : allowed demo3 3 (view lists3 demo3) (Write 5 2 [104; 105]).
Proof. split; [|simpl; lia]. exists []. vm_compute. reflexivity. Qed.

(** [/f] gets the second name [/h], and loses the first. *)
Definition demo_linked : fs := Eval vm_compute in state_of (exec 10 stk0 (Hardlink "/h" "/f") demo3).
Definition demo_unlinked : fs := Eval vm_compute in state_of (exec 10 stk0 (Unlink "/f") demo_linked).

Lemma demo_linked_made : exec 10 stk0 (Hardlink "/h" "/f") demo3 = Ok (Answer 0 NULL [], demo_linked).
Proof. vm_compute. reflexivity. Qed.

Lemma demo_unlinked_made : exec 10 stk0 (Unlink "/f") demo_linked = Ok (Answer 0 NULL [], demo_unlinked).
Proof. vm_compute. reflexivity. Qed.

Lemma demo3_link : allowed demo3 3 (view lists3 demo3) (Hardlink "/h" "/f").
Proof.
  exists ["f"%string]. split; [split; [vm_compute; reflexivity|by repeat constructor]|]. right.
  exists 3, 5. split; [vm_compute; reflexivity|]. right. exists ["h"%string], 3, "h"%string.
  split; [split; [vm_compute; reflexivity|by repeat constructor]|]. split; [vm_compute; reflexivity|].
  exists 5. split; [vm_compute; reflexivity|lia].
Qed.

Definition demo_linked_dirs : gmap ptr (list (string * ptr)) := <[3 := ("h"%string, 5) :: [("d"%string, 8); ("f"%string, 5)]]> (abs lists3 demo3).

Lemma demo_linked_abs L : ramfs_ok L demo_linked → abs L demo_linked = demo_linked_dirs.
Proof.
  intros H5. destruct demo3_inv as [H Hr]. destruct demo3_link as (ct & [Ht Htpl] & _).
  assert (ct = ["f"%string]) as -> by (vm_compute in Ht; congruence).
  destruct (link_new 9 stk0 lists3 demo3 3 "/f" ["f"%string] H Hr Ht Htpl 3 5 "/h" ["h"%string] 3 "h" [("d"%string, 8); ("f"%string, 5)] 5)
    as (L' & s' & E & H' & _ & Ha); try (vm_compute; reflexivity); [by repeat constructor|].
  assert (demo_linked = s') as <-.
  { pose proof (bind_ok _ (λ e, mret (Answer e NULL [])) _ _ _ E) as E'.
    exact (f_equal state_of (eq_trans (eq_sym demo_linked_made) E')). }
  by rewrite (ramfs_ok_unique L L' demo_linked H5 (vi_ok _ _ _ H')).
Qed.

Lemma demo_linked_unlink L : ramfs_ok L demo_linked → allowed demo_linked 3 (view L demo_linked) (Unlink "/f").
Proof.
  intros H. unfold view. rewrite (demo_linked_abs L H).
  exists ["f"%string]. split; [split; [vm_compute; reflexivity|by repeat constructor]|]. right.
  exists 3, 5. split; [vm_compute; reflexivity|]. right. exists [("h"%string, 5); ("d"%string, 8); ("f"%string, 5)].
  split; [by split|]. exists 3, [("h"%string, 5); ("d"%string, 8)], "h"%string. split; [vm_compute; reflexivity|by left].
Qed.

(** C1: refinement: whatever sequence of allowed calls (create, mkdir, open,
    close, write, read, link, unlink) runs from a state that satisfies the invariant, the
    state keeps the invariant and the root, and what it stores was reached by
    the steps of the abstract trees. *)
Theorem vfs_session_refines fuel stk root s0 L0 s :
  vfs_inv [] L0 s0 → rooted s0 root → session fuel stk root s0 s →
  ∃ L, vfs_inv [] L s ∧ rooted s root ∧ tsteps root (view L0 s0) (view L s).
Proof. apply session_inv. Qed.

Lemma vfs_session_refines_witness :
  ∃ L, vfs_inv [] L demo_unlinked ∧ rooted demo_unlinked 3 ∧ tsteps 3 (view lists3 demo3) (view L demo_unlinked).
Proof.
  apply (vfs_session_refines 9 stk0 3 demo3 lists3 demo_unlinked (proj1 demo3_inv) (proj2 demo3_inv)).
  apply (session_call 9 stk0 3 demo3 demo_linked (Unlink "/f") (Unlink "/f") (Answer 0 NULL []));
    [|done|exact demo_linked_unlink|exact demo_unlinked_made].
  exact (session_call 9 stk0 3 demo3 demo3 (Hardlink "/h" "/f") (Hardlink "/h" "/f") _ demo_linked (session_start 9 stk0 3 demo3)
    (conj eq_refl eq_refl) (demo3_allowed _ demo3_link) demo_linked_made).
Defined.

(** C5: every allowed call returns: no panic, no lock that is never released,
    no access to freed memory, and with an answer of the abstract step for it. *)
Theorem vfs_call_answers fuel stk L s root c c' :
  vfs_inv [] L s → rooted s root → stands_for s c c' → allowed s root (view L s) c' →
  ∃ L' s' r r', exec (S fuel) stk c s = Ok (r, s') ∧ vfs_inv [] L' s' ∧
    tstep root (view L s) c' r' (view L' s') ∧ answers s' r r'.
Proof.
  intros H Hr Hc Ha. destruct (refine_call fuel stk L s root H Hr c c' Hc Ha)
    as (L' & s' & r & r' & t' & E & H' & _ & Hs & <- & Hans). by exists L', s', r, r'.
Qed.

Lemma vfs_call_answers_witness : ∃ L' s' r r',
  exec 10 stk0 (Write 7 2 [104; 105]) demo3 = Ok (r, s') ∧
  tstep 3 (view lists3 demo3) (Write 5 2 [104; 105]) r' (view L' s').
Proof.
  destruct (vfs_call_answers 9 stk0 lists3 demo3 3 (Write 7 2 [104; 105]) (Write 5 2 [104; 105])
    (proj1 demo3_inv) (proj2 demo3_inv)) as (L' & s' & r & r' & E & _ & Hs & _).
  - split; [|done]. eexists. split; [exact demo3_f_vnode|done].
  - exact demo3_write.
  - exists L', s', r, r'. split; [exact E|exact Hs].
Defined.

(** C6: path resolution: [namei] follows the components through the
    directories, taking at each the first entry whose name starts with the
    component; it stops with the target and its directory both referenced, or
    with ENOENT at the first missing component, the directory referenced. *)
Theorem namei_resolves fuel L s root path cs nd :
  vfs_inv [] L s → rooted s root → path_ok path cs →
  match find (view L s) root cs with
  | At d x => ∃ nd' s', namei (S fuel) path nd s = Ok ((0, nd'), s') ∧ vfs_inv [] L s' ∧
      view L s' = view L s ∧ has s' (nd_vdir nd') d ∧ has s' (nd_vn nd') x ∧
      cn_name (nd_cn nd') = List.last cs EmptyString
  | Absent d rest => ∃ nd' s', namei (S fuel) path nd s = Ok ((- ENOENT, nd'), s') ∧ vfs_inv [] L s' ∧
      view L s' = view L s ∧ has s' (nd_vdir nd') d ∧ nd_vn nd' = NULL ∧
      component (nd_cn nd') = List.hd EmptyString rest
  | _ => True
  end.
Proof.
  intros H Hr [Hp Hpl]. rewrite find_walk by apply H.
  pose proof (namei_walk fuel L s root path cs nd H Hr Hp Hpl) as Hn.
  destruct (walk _ _ _ _); [| |done..].
  - destruct Hn as (b & nd' & s' & E & (H' & Ev & Hd & _) & Hx & Hname). exists nd', s'.
    split_and!; try done. by apply view_evolve.
  - destruct Hn as (b & nd' & s' & E & (H' & Ev & Hd & Hc & _) & Hx & _). exists nd', s'.
    split_and!; try done. by apply view_evolve.
Qed.

Lemma namei_resolves_witness : ∃ nd' s', namei 10 "//d" stk0 demo3 = Ok ((0, nd'), s') ∧
  has s' (nd_vdir nd') 3 ∧ has s' (nd_vn nd') 8.
Proof.
  assert (find (view lists3 demo3) 3 ["d"%string] = At 3 8) as Ef by (vm_compute; reflexivity).
  pose proof (namei_resolves 9 lists3 demo3 3 "//d" ["d"%string] stk0 (proj1 demo3_inv) (proj2 demo3_inv)) as H.
  rewrite Ef in H. destruct H as (nd' & s' & E & _ & _ & Hd & Hx & _).
  - split; [vm_compute; reflexivity|by repeat constructor].
  - exists nd', s'. split; [exact E|]. split; [exact Hd|exact Hx].
Defined.

(** C24: a file created in the root directory is found by the next open of the
    same path: same node, two handles. The vnode that vfs_create returns is not locked,
    against the comment above vfs_create; if it were, the open would wait for it. *)
Theorem create_then_open fuel stk L s root path c q :
  vfs_inv [] L s → rooted s root → path_ok path [c] →
  find (view L s) root [c] = Absent root [c] → next_seq s root = Some q → q + 1 < 2 ^ 64 →
  ∃ L' s1 s2 a a' x, vfs_create (S fuel) stk path NULL VREG s = Ok ((0, a), s1) ∧
    vfs_open (S fuel) stk path NULL VNON 0 s1 = Ok ((0, a'), s2) ∧
    t_nodes (view L s) !! x = None ∧ has s1 a x ∧ (∃ v, fs_vnodes s1 !! a = Some v ∧ v_lock v = 0) ∧ has s2 a' x ∧
    vfs_inv [] L' s2 ∧ t_nodes (view L' s2) !! x = Some (File []).
Proof.
  intros H Hr [Hp Hpl] Hf Hq Hq2. rewrite find_walk in Hf by apply H. inversion Hpl as [|? ? Hc _]; subst.
  destruct (create_open fuel stk L s root path c NULL NULL q H Hr Hp Hc Hf Hq Hq2)
    as (L' & s1 & s2 & a & a' & x & es & E1 & E2 & Hcr & H2 & Ev & Ha').
  destruct (created_kind L s H _ _ _ _ _ _ _ _ Hcr) as (Hfr & _ & Hk & _).
  destruct Hcr as (H1 & _ & Ha & _). exists L', s1, s2, a, a', x. split_and!; try done.
  { destruct Ha as (v & Hv & _). exists v. split; [done|]. apply (vi_vnodes _ _ _ H1 _ _ Hv). }
  rewrite (view_evolve L' s1 s2) by done. by apply Hk.
Qed.

Lemma create_then_open_witness : ∃ s1 s2 a a' x,
  vfs_create 10 stk0 "/g" NULL VREG demo3 = Ok ((0, a), s1) ∧
  vfs_open 10 stk0 "/g" NULL VNON 0 s1 = Ok ((0, a'), s2) ∧ has s1 a x ∧ has s2 a' x.
Proof.
  destruct (create_then_open 9 stk0 lists3 demo3 3 "/g" "g" 5 (proj1 demo3_inv) (proj2 demo3_inv))
    as (L' & s1 & s2 & a & a' & x & E1 & E2 & _ & Ha & _ & Ha' & _).
  - split; [vm_compute; reflexivity|by repeat constructor].
  - vm_compute. reflexivity.
  - vm_compute. reflexivity.
  - done.
  - exists s1, s2, a, a', x. split; [exact E1|]. split; [exact E2|]. split; [exact Ha|exact Ha'].
Defined.

(** C15: reading back what was written returns the bytes written, at any
    offset, and changes nothing. *)
Theorem vfs_write_read_back L s a x old buf offset :
  vfs_inv [] L s → has s a x → t_nodes (view L s) !! x = Some (File old) →
  buf ≠ [] → 0 ≤ offset → offset + Z.of_nat (length buf) < 2 ^ 63 → Z.of_nat (length buf) < 2 ^ 31 →
  ∃ s', vfs_write a buf offset (Z.of_nat (length buf)) s = Ok (0, s') ∧ vfs_inv [] L s' ∧
    vfs_read a offset (Z.of_nat (length buf)) s' = Ok ((Z.of_nat (length buf), Some <$> buf), s').
Proof. apply write_then_read. Qed.

Lemma vfs_write_read_back_witness : ∃ s',
  vfs_write 7 [104; 105] 2 2 demo3 = Ok (0, s') ∧
  vfs_read 7 2 2 s' = Ok ((2, [Some 104; Some 105]), s').
Proof.
  destruct (vfs_write_read_back lists3 demo3 7 5 [] [104; 105] 2 (proj1 demo3_inv)) as (s' & E & _ & E').
  - eexists. split; [exact demo3_f_vnode|done].
  - vm_compute. reflexivity.
  - done.
  - lia.
  - simpl. lia.
  - simpl. lia.
  - exists s'. split; [exact E|exact E'].
Defined.

(** Closing a handle of a linked node gives the reference back: the vnode
    goes with its last reference and the node forgets it, otherwise one
    reference less is left, and the lock is free. *)
Theorem vfs_close_counts L s a v n :
  vfs_inv [] L s → fs_vnodes s !! a = Some v → fs_nodes s !! v_data v = Some n → rn_linkcount n ≠ 0 →
  ∃ s', vfs_close a s = Ok (0, s') ∧ vfs_inv [] L s' ∧ view L s' = view L s ∧
    if decide (v_refcount v = 1)
    then fs_vnodes s' = delete a (fs_vnodes s) ∧ fs_nodes s' !! v_data v = Some (set_vnode NULL n)
    else fs_vnodes s' = <[a := drop_ref v]> (fs_vnodes s) ∧ fs_nodes s' = fs_nodes s.
Proof.
  intros H Hv Hn Hc. destruct (vput_inv [] L s a (v_data v) H) as (s' & E & H' & Ev & _);
    [by exists v|by exists n|].
  exists s'. split_and!; [done|done|by apply view_evolve|].
  assert (a ≠ NULL) as Ha. { intros ->. by rewrite (below_null _ _ (rk_vnodes _ _ (vi_ok _ _ _ H))) in Hv. }
  assert (rn_ramlock n = 0) as Hlk by apply (dk_lock _ _ _ _ _ (rk_dirs _ _ (vi_ok _ _ _ H)) _ _ Hn).
  assert (v_lock v = 0 ∨ v_lock v = 1) as Hl by (left; apply (vi_vnodes _ _ _ H _ _ Hv)).
  rewrite (close_run s a v n Hv Hn Hlk Ha Hl (λ _, Hc)) in E. injection E as <-.
  destruct (decide (v_refcount v = 1)); [|done]. split; [done|]. apply lookup_insert_eq.
Qed.

Lemma vfs_close_counts_witness : ∃ s', vfs_close 7 demo3 = Ok (0, s') ∧
  fs_vnodes s' = delete 7 (fs_vnodes demo3).
Proof.
  destruct (vfs_close_counts lists3 demo3 7 _ _ (proj1 demo3_inv) demo3_f_vnode demo3_f ltac:(done))
    as (s' & E & _ & _ & Hv & _).
  exists s'. split; [exact E|exact Hv].
Defined.

(** C34: mounting the root file system, before any other, establishes the
    invariant: an empty root directory, every lock free. *)
Theorem vfs_mount_root_establishes fuel stk ram b :
  (∀ p o, ram p o = 0) → 0 < b →
  ∃ L s' root, vfs_mount fuel stk None "ramfs" (no_fs ram b ∅) = Ok (0, s') ∧
    vfs_inv [] L s' ∧ rooted s' root ∧ fs_vfslist_lock s' = 0 ∧
    t_dirs (view L s') = {[ root := [] ]} ∧ room s' root.
Proof.
  intros Hz Hb. destruct (mount_root fuel stk ram b Hz Hb) as (s' & E & H & Hr & Hl & Ht & Hq).
  exists {[ b + 2 := [] ]}, s', (b + 2). split_and!; try done. by exists SEQ_START.
Qed.

Lemma vfs_mount_root_establishes_witness :
  ∃ L s' root, vfs_mount 0 stk0 None "ramfs" (no_fs (λ _ _, 0) 1 ∅) = Ok (0, s') ∧
    vfs_inv [] L s' ∧ rooted s' root.
Proof.
  destruct (vfs_mount_root_establishes 0 stk0 (λ _ _, 0) 1) as (L & s' & root & E & H & Hr & _); [done|done|].
  exists L, s', root. split; [exact E|]. split; [exact H|exact Hr].
Defined.

(** [vfs_symlink] reports the result of the path lookup, not of the link:
    on a path that exists it returns 0 and makes nothing. *)
Theorem vfs_symlink_exists fuel stk L s root path cs target d x :
  vfs_inv [] L s → rooted s root → path_ok path cs → find (view L s) root cs = At d x →
  ∃ s', vfs_symlink (S fuel) stk path target s = Ok (0, s') ∧ vfs_inv [] L s' ∧ view L s' = view L s.
Proof.
  intros H Hr [Hp Hpl] Hf. rewrite find_walk in Hf by apply H.
  destruct (put_both fuel stk L s root path cs H Hr Hp Hpl d x Hf)
    as (nd & s1 & s2 & s3 & E1 & E2 & E3 & H3 & Ev).
  exists s3. split_and!; [|done|by apply view_evolve].
  unfold vfs_symlink. rewrite (bind_ok _ _ _ _ _ E1). cbv beta iota. rewrite decide_True by done.
  by rewrite (bind_ok _ _ _ _ _ E2), (bind_ok _ _ _ _ _ E3).
Qed.

Lemma vfs_symlink_exists_witness : ∃ s', vfs_symlink 10 stk0 "/f" "/d" demo3 = Ok (0, s') ∧
  view lists3 s' = view lists3 demo3.
Proof.
  destruct (vfs_symlink_exists 9 stk0 lists3 demo3 3 "/f" ["f"%string] "/d" 3 5
    (proj1 demo3_inv) (proj2 demo3_inv)) as (s' & E & _ & Hv).
  - split; [vm_compute; reflexivity|by repeat constructor].
  - vm_compute. reflexivity.
  - exists s'. split; [exact E|exact Hv].
Defined.

(** The state after [/f] was closed, and the one after [/s] was linked. *)
Definition demo6 : fs := Eval vm_compute in state_of (vfs_close 7 demo3).
Definition demo7 : fs := Eval vm_compute in state_of (vfs_symlink 10 stk0 "/s" "/f" demo3).

(** where the path is free, [vfs_symlink] makes the link and returns
    ENOENT; here for "/s". *)
Theorem vfs_symlink_new :
  vfs_symlink 10 stk0 "/s" "/f" demo3 = Ok (- ENOENT, demo7) ∧
  kind_of <$> fs_nodes demo7 !! 11 = Some Symlink ∧ fs_dents demo7 !! 12 = Some (Ramdentry 9 11 5 "s").
Proof. vm_compute. done. Qed.

(** Unlinking a file that nobody has open runs into freed memory: the node
    is freed with the last reference and its lock released after that. *)
Theorem vfs_unlink_closed_file :
  vfs_close 7 demo3 = Ok (0, demo6) ∧ vfs_unlink 10 stk0 "/f" demo6 = Fault DanglingPtr.
Proof. vm_compute. done. Qed.

(** [vfs_link] of a file onto itself never returns: the vnode's lock is
    held during the second path lookup. *)
Theorem vfs_link_self_hangs : vfs_link 10 stk0 "/f" "/f" demo3 = Hang.
Proof. vm_compute. reflexivity. Qed.

(** The state after "/d", which exists, was to become a name of [/f]. *)
Definition demo_link_exists : fs := Eval vm_compute in state_of (vfs_link 10 stk0 "/d" "/f" demo3).

(** [vfs_link] to a name that exists returns 0, makes nothing and leaves the
    vnode of the target locked. *)
Theorem vfs_link_exists :
  vfs_link 10 stk0 "/d" "/f" demo3 = Ok (0, demo_link_exists) ∧ fs_dents demo_link_exists = fs_dents demo3 ∧
  v_lock <$> fs_vnodes demo_link_exists !! 7 = Some 1.
Proof. vm_compute. done. Qed.
