(* ===== verification/Initramfs.v ===== *)
(** * fs/ramfs/initramfs.c: the archive of the boot loader

    The archive lies in byte memory; the files go through the calls of
    kernel/vfs.c.  The local array [name] and the literal of the function are
    at the addresses [name] and [ustar] of the same memory. *)

From S2P Require Import Prelude CString Pmm Slab Vmm FsState Ramfs Vfs.

Local Open Scope Z_scope.

(** Fields of [struct tar]. *)
Definition tar_name (file : ptr) : ptr := file.
Definition tar_size (file : ptr) : ptr := file + 124.
Definition sizeof_tar_size : nat := 12.
Definition tar_type (file : ptr) : ptr := file + 156.
Definition tar_magic (file : ptr) : ptr := file + 257.

Definition TAR_HEADER_SIZE : Z := 512.
Definition TAR_FILETYPE_REG : Z := 48.

(** The value of a [char]. *)
Definition char_of (b : Z) : Z := (b + 2 ^ 7) mod 2 ^ 8 - 2 ^ 7.

(** [while ( *oct && len--) val = val * 8 + ( *oct++ - '0')] *)
Fixpoint oct2int_loop (len : nat) (oct val : Z) (m : mem) : Z :=
  if decide (rd8 m oct = 0) then val else
  match len with
  | O => val
  | S len => oct2int_loop len (oct + 1) (u64 (val * 8 + (char_of (rd8 m oct) - 48))) m
  end.

Definition oct2int (oct : ptr) (len : nat) (m : mem) : Z := oct2int_loop len oct 0 m.

(** The string at [a], of at most [n] characters. *)
Fixpoint read_string (n : nat) (m : mem) (a : ptr) : string :=
  match n with
  | O => EmptyString
  | S n => if decide (rd8 m a = 0) then EmptyString
           else String (Ascii.ascii_of_nat (Z.to_nat (rd8 m a))) (read_string n m (a + 1))
  end.

(** The file system, and the memory with the archive. *)
Record ir := Ir { ir_fs : fs; ir_mem : mem }.

Definition in_fs {A} (f : F A) : K ir A := λ s,
  match f (ir_fs s) with
  | Ok (a, t) => Ok (a, Ir t (ir_mem s))
  | Panic msg => Panic msg
  | Hang => Hang
  | Fault e => Fault e
  end.

Section initramfs.
Context {vops : vnodeops} {fops : vfsops}.
Context (fuel : nat) (stk : nameidata) (name ustar : ptr).

(** [name[0] = '/'; strcpy (name + 1, file->name)], into 100 bytes. *)
Definition copy_name (file : ptr) : K ir unit := λ s,
  let m := wr8 (ir_mem s) name 47 in
  match Str.strlen (tar_name file) m with
  | Ok n => if decide (98 < n) then Fault OutOfBounds else
            match Str.strcpy (name + 1) (tar_name file) m with Ok m => Ok (tt, Ir (ir_fs s) m) | _ => Hang end
  | _ => Hang
  end.

(** The value of [vn] before anything is stored: no address. *)
Definition UNINIT : ptr := -1.

(** The body of the loop: [vn] and the next header. *)
Definition initramfs_file (file vn : ptr) : K ir (ptr * ptr) :=
  copy_name file;;
  s ← get;
  let size := oct2int (tar_size file) sizeof_tar_size (ir_mem s) in
  vn ← (if decide (rd8 (ir_mem s) (tar_type file) = TAR_FILETYPE_REG) then
          '(_, vn) ← in_fs (vfs_create fuel stk (read_string 100 (ir_mem s) name) vn VREG);
          if decide (vn = UNINIT) then fail Uninitialised else
          if decide (vn = NULL) then panic "initramfs: file create" else
          in_fs (vfs_write vn (rd8 (ir_mem s) <$> seqZ (file + TAR_HEADER_SIZE) size) 0 size);;
          mret vn
        else mret vn);
  (if decide (vn = UNINIT) then fail Uninitialised else in_fs (vfs_close vn));;
  mret (vn, u64 (file + TAR_HEADER_SIZE + ALIGN_UP size TAR_HEADER_SIZE)).

Fixpoint initramfs_loop (k : nat) (file vn : ptr) : K ir unit :=
  match k with
  | O => hang
  | S k =>
      s ← get;
      if decide (Str.strncmp (tar_magic file) ustar 5 (ir_mem s) = 0) then
        '(vn, file) ← initramfs_file file vn;
        initramfs_loop k file vn
      else mret tt
  end.

(** [modules]: the address of the first module, if the boot loader answered and
    there is one. *)
Definition initramfs (k : nat) (modules : option ptr) : K ir unit :=
  match modules with
  | None => panic "initramfs: module"
  | Some file => initramfs_loop k file UNINIT
  end.

End initramfs.
