(* ===== verification/InitramfsSpec.v ===== *)
(** * The archive: what the loop unpacks

    [archive] describes an archive of regular files in memory. *)

From S2P Require Import Prelude CString CStringSpec Pmm Slab Vmm FsState Ramfs RamfsDir RamfsOps RamfsInv RamfsSpec.
From S2P Require Import RamfsUnlink RamfsLookup RamfsFile Vfs VfsRefs VfsPath VfsOps VfsLinks VfsSpec Initramfs.
From Stdlib Require Import Ascii.

Local Open Scope Z_scope.

(** ** Strings and numbers *)

Lemma byte_of_ascii c : Ascii.ascii_of_nat (Z.to_nat (byte_of c)) = c.
Proof. unfold byte_of. rewrite Nat2Z.id. apply Ascii.ascii_nat_embedding. Qed.

Lemma read_string_cstr n m a str : cstr m a str → (String.length str < n)%nat → read_string n m a = str.
Proof.
  revert n a. induction str as [|c str IH]; intros [|n] a Hs Hn; cbn [String.length cstr read_string] in *; try lia.
  - by rewrite decide_True.
  - destruct Hs as (Hc & E & Hs). rewrite E, decide_False by (intros E0; by apply byte_of_zero in E0).
    rewrite byte_of_ascii, IH by (done || lia). done.
Qed.

Lemma same_loop_true k i s s2 m : (∀ j, i ≤ j < i + Z.of_nat k → rd8 m (s + j) = rd8 m (s2 + j)) → Str.same_loop k i s s2 m = true.
Proof.
  revert i. induction k as [|k IH]; intros i H; cbn [Str.same_loop]; [done|].
  rewrite decide_True by (apply H; lia). apply IH. intros j Hj. apply H. lia.
Qed.

Lemma same_loop_ext k i s s2 m m' :
  (∀ j, i ≤ j < i + Z.of_nat k → rd8 m' (s + j) = rd8 m (s + j) ∧ rd8 m' (s2 + j) = rd8 m (s2 + j)) →
  Str.same_loop k i s s2 m' = Str.same_loop k i s s2 m.
Proof.
  revert i. induction k as [|k IH]; intros i H; cbn [Str.same_loop]; [done|].
  destruct (H i) as [-> ->]; [lia|]. rewrite IH; [done|]. intros j Hj. apply H. lia.
Qed.

Lemma oct2int_ext len oct val m m' :
  (∀ a, oct ≤ a ≤ oct + Z.of_nat len → rd8 m' a = rd8 m a) → oct2int_loop len oct val m' = oct2int_loop len oct val m.
Proof.
  revert oct val. induction len as [|len IH]; intros oct val H; cbn [oct2int_loop]; rewrite H by lia; [done|].
  rewrite IH; [done|]. intros a Ha. apply H. lia.
Qed.

(** The digits of a number, as [tar] writes them. *)
Definition octal (ds : list Z) : Z := fold_left (λ v d, v * 8 + d) ds 0.

(** ** Archives *)

Definition is_header (m : mem) (ustar file : ptr) : Prop := Str.strncmp (tar_magic file) ustar 5 m = 0.

(** How far the next header is. *)
Definition step_of (content : list Z) : Z := TAR_HEADER_SIZE + DIV_ROUNDUP (Z.of_nat (length content)) TAR_HEADER_SIZE * TAR_HEADER_SIZE.

Record regular (m : mem) (ustar file : ptr) (n : string) (content : list Z) : Prop := {
  rg_magic : is_header m ustar file;
  rg_short : n ≠ EmptyString ∧ slen n ≤ 98;
  rg_bound : Z.of_nat (length content) < 2 ^ 63;
  rg_name : cstr m (tar_name file) n;
  rg_size : oct2int (tar_size file) sizeof_tar_size m = Z.of_nat (length content);
  rg_type : rd8 m (tar_type file) = TAR_FILETYPE_REG;
  rg_content : rd8 m <$> seqZ (file + TAR_HEADER_SIZE) (Z.of_nat (length content)) = content }.

(** The files [es] from the header at [file] on; behind the last one at [last]
    there is no header. *)
Fixpoint archive (m : mem) (ustar file last : ptr) (es : list (string * list Z)) : Prop :=
  match es with
  | [] => file = last ∧ ¬ is_header m ustar file
  | (n, content) :: es => regular m ustar file n content ∧ archive m ustar (file + step_of content) last es
  end.

Lemma DIV_ROUNDUP_512 n : 0 ≤ n < 2 ^ 63 → n ≤ DIV_ROUNDUP n 512 * 512 < n + 512.
Proof.
  intros Hn. unfold DIV_ROUNDUP. rewrite u64_small by lia. pose proof (Z.div_mod (n + 512 - 1) 512 ltac:(done)).
  pose proof (Z.mod_pos_bound (n + 512 - 1) 512 ltac:(done)). lia.
Qed.

(** ** One file *)

Section file.
Context (fuel : nat) (stk : nameidata) (L : gmap ptr (list ptr)) (s : fs) (root : ptr).
Context (H : vfs_inv [] L s) (Hroot : rooted s root).

(** What a node holds. *)
Definition holds (t : tree) (x : ptr) (content : list Z) : Prop :=
  ∃ bs, t_nodes t !! x = Some (File bs) ∧ take (length content) bs = Some <$> content.

Lemma lookup_entry_none c es : (∀ n x, (n, x) ∈ es → String.prefix c n = false) → lookup_entry (String.prefix c) es = None.
Proof.
  induction es as [|[n x] es IH]; intros Hp; [done|]. cbn [lookup_entry]. rewrite (Hp n x) by left.
  apply IH. intros n' x' Hin. apply (Hp n' x'). by right.
Qed.

Lemma lookup_entry_after c new x es :
  (∀ n y, (n, y) ∈ new → String.prefix c n = false) → lookup_entry (String.prefix c) (new ++ (c, x) :: es) = Some x.
Proof.
  induction new as [|[n y] new IH]; intros Hp; cbn [lookup_entry app].
  - by rewrite prefix_refl.
  - rewrite (Hp n y) by left. apply IH. intros n' y' Hin. apply (Hp n' y'). by right.
Qed.

Lemma unpack_file path c vpp q es content :
  split_path path = Some [c] → plain c = true → t_dirs (view L s) !! root = Some es →
  (∀ n x, (n, x) ∈ es → String.prefix c n = false) → next_seq s root = Some q → 0 ≤ q → q + 1 < 2 ^ 64 →
  Z.of_nat (length content) < 2 ^ 63 →
  ∃ L' s1 s2 s3 a x, vfs_create (S fuel) stk path vpp VREG s = Ok ((0, a), s1) ∧ 0 < a ∧
    vfs_write a content 0 (Z.of_nat (length content)) s1 = Ok (0, s2) ∧ vfs_close a s2 = Ok (0, s3) ∧
    vfs_inv [] L' s3 ∧ rooted s3 root ∧ next_seq s3 root = Some (q + 1) ∧
    t_dirs (view L' s3) !! root = Some ((c, x) :: es) ∧ t_nodes (view L s) !! x = None ∧
    holds (view L' s3) x content ∧ extends (view L s) (view L' s3).
Proof.
  intros Hp Hpl Hes Hno Hq Hq0 Hq2 Hlen.
  assert (Forall (λ c, plain c = true) [c]) as Hpl' by by repeat constructor.
  assert (walk (abs L s) (is_link s) root [c] = Absent root [c]) as Hw.
  { cbn [walk]. simpl in Hes. by rewrite Hes, lookup_entry_none. }
  destruct (create_new fuel stk L s root path [c] vpp H Hroot Hp Hpl' root [] c q Hw Hq Hq2) as (es' & L' & s1 & a & x & Hes' & E1 & Hcr).
  assert (es' = es) as -> by (simpl in Hes; congruence).
  destruct (created_kind L s H _ _ _ _ _ _ _ _ Hcr) as (Hfr & Hext & Hk & _). specialize (Hk eq_refl).
  destruct Hcr as (H1 & G & Ha & _ & _ & Habs & Hsq).
  assert (x ≠ root) as Hxr.
  { intros ->. destruct (rooted_link L s root (vi_ok _ _ _ H) Hroot) as (n & Hn & _). simpl in Hfr. by rewrite lookup_fmap, Hn in Hfr. }
  destruct (file_node _ _ _ _ Hk) as (n & data & size & Hn & Ed & Hc).
  destruct (vfs_write_ok L' s1 a x n data size H1 Ha Hn Ed content 0 ltac:(done) ltac:(lia)) as (data' & E2 & H2 & Hwr).
  match type of H2 with vfs_inv [] L' ?t => set (s2 := t) in * end.
  assert (rooted s2 root) as Hr2.
  { destruct (rooted_grows s s1 root G Hroot) as (m & r & Hm & Hr & Er & Hpar). exists m, r. split_and!; try done.
    unfold s2. simpl. by rewrite (dir_parent_update _ _ n) by (done || simpl; by rewrite Ed). }
  assert (t_dirs (view L' s2) !! root = Some ((c, x) :: es)) as Hd2 by (change (abs L' s1 !! root = Some ((c, x) :: es)); rewrite Habs; apply lookup_insert_eq).
  destruct (vput_inv [] L' s2 a x H2 Ha) as (s3 & E3 & H3 & Ev3 & _).
  { apply (named_linked L'); [apply H2|]. exists root, ((c, x) :: es), c. split; [done|]. by left. }
  exists L', s1, s2, s3, a, x. rewrite (view_evolve L' s2 s3) by done. split; [exact E1|]. split.
  { destruct Ha as (v & Hv & _). apply (rk_vnodes _ _ (vi_ok _ _ _ H1)). by eexists. }
  split; [exact E2|split; [exact E3|split; [exact H3|split; [by eapply rooted_evolve|split]]]].
  { rewrite (next_seq_evolve s2 s3) by done. unfold s2, next_seq. simpl. rewrite lookup_insert_ne by done.
    change (next_seq s1 root = Some (q + 1)). rewrite Hsq, Hq. simpl. rewrite u64_small; [done|]. lia. }
  split; [exact Hd2|split; [exact Hfr|split]].
  - exists data'. split; [simpl; rewrite fmap_insert, lookup_insert_eq; done|].
    pose proof (write_read_bytes _ _ _ _ Hwr) as Hb. simpl in Hb. by rewrite drop_0 in Hb.
  - intros y k Hy. assert (y ≠ x) as Hyx by congruence. simpl. rewrite fmap_insert, lookup_insert_ne by done. by apply Hext.
Qed.

End file.


(** ** The name, and the memory behind it *)

Section memory.
Context (name ustar : ptr).

(** Only the array [name] changes. *)
Definition same_but_name (m m' : mem) : Prop := ∀ a, ¬ (name ≤ a < name + 100) → rd8 m' a = rd8 m a.

Definition apart (lo hi : Z) : Prop := hi ≤ name ∨ name + 100 ≤ lo.

Lemma copy_name_ok file n t m :
  cstr m file n → n ≠ EmptyString → slen n ≤ 98 → apart file (file + 100) →
  ∃ m', copy_name name file (Ir t m) = Ok (tt, Ir t m') ∧ cstr m' name (String "/"%char n) ∧ same_but_name m m'.
Proof.
  intros Hs Hne Hl Hap. unfold copy_name, tar_name, apart, same_but_name in *. cbn [ir_mem ir_fs]. set (m1 := wr8 m name 47).
  assert (0 ≤ slen n) as H0 by (unfold slen; lia).
  assert (cstr m1 file n) as Hs1 by (apply (cstr_same m); [done|]; intros a Ha; apply rd8_wr8_ne; lia).
  rewrite (strlen_cstr m1 file n) by (done || unfold slen in *; lia). fold (slen n). rewrite decide_False by lia.
  destruct (strcpy_spec m1 (name + 1) file n) as (m2 & E & Hc & _ & Hout); [done|done|unfold slen in *; lia|unfold slen in *; lia|].
  rewrite E. exists m2. split; [done|]. fold (slen n) in Hout. split.
  - cbn [cstr]. split; [done|split; [|done]]. rewrite Hout by lia. unfold m1. by rewrite rd8_wr8_eq.
  - intros a Ha. rewrite Hout by lia. unfold m1. apply rd8_wr8_ne. lia.
Qed.

Lemma is_header_same m m' file :
  same_but_name m m' → apart ustar (ustar + 5) → apart file (file + 512) → is_header m' ustar file ↔ is_header m ustar file.
Proof.
  intros Hm Hu Hf. unfold is_header, Str.strncmp, tar_magic, apart, same_but_name in *.
  rewrite (same_loop_ext _ _ _ _ m m'); [done|]. intros j Hj. simpl in Hj. split; apply Hm; lia.
Qed.

Lemma step_of_bounds content : Z.of_nat (length content) < 2 ^ 63 → 512 + Z.of_nat (length content) ≤ step_of content.
Proof. intros Hl. unfold step_of, TAR_HEADER_SIZE. pose proof (DIV_ROUNDUP_512 (Z.of_nat (length content))). lia. Qed.

Lemma regular_same m m' file n content :
  same_but_name m m' → apart ustar (ustar + 5) → apart file (file + step_of content) →
  regular m ustar file n content → regular m' ustar file n content.
Proof.
  intros Hm Hu Hf [H1 H2 H3 H4 H5 H6 H7]. pose proof (step_of_bounds content H3) as Hst.
  assert (∀ a, file ≤ a < file + step_of content → rd8 m' a = rd8 m a) as Hin by (intros a Ha; apply Hm; unfold apart in *; lia).
  constructor; try done.
  - apply (is_header_same m m'); try done. unfold apart in *. lia.
  - apply (cstr_same m); [done|]. intros a Ha. apply Hin. unfold tar_name in *. lia.
  - unfold oct2int. rewrite (oct2int_ext _ _ _ m m'); [done|]. intros a Ha. apply Hin. unfold tar_size, sizeof_tar_size in *. lia.
  - rewrite Hin; [done|]. unfold tar_type. lia.
  - rewrite <-H7 at 2. apply list_fmap_ext. intros i x Hx. apply lookup_seqZ in Hx as [-> Hi]. apply Hin.
    unfold TAR_HEADER_SIZE. lia.
Qed.

Lemma archive_le m file last es : archive m ustar file last es → file ≤ last.
Proof.
  revert file. induction es as [|[n content] es IH]; intros file; cbn [archive]; [lia|].
  intros [Hr Ha]. specialize (IH _ Ha). pose proof (step_of_bounds content (rg_bound _ _ _ _ _ Hr)). lia.
Qed.

Lemma archive_same m m' file last es :
  same_but_name m m' → apart ustar (ustar + 5) → apart file (last + 512) → archive m ustar file last es → archive m' ustar file last es.
Proof.
  intros Hm Hu. revert file. induction es as [|[n content] es IH]; intros file Hf; cbn [archive].
  - intros [-> Hn]. split; [done|]. by rewrite (is_header_same m m').
  - intros [Hr Ha]. pose proof (archive_le _ _ _ _ Ha) as Hle. pose proof (step_of_bounds content (rg_bound _ _ _ _ _ Hr)).
    split; [apply (regular_same m m'); try done; unfold apart in *; lia|]. apply IH; [|done]. unfold apart in *. lia.
Qed.

End memory.

(** ** The loop *)

Section loop.
Context (fuel : nat) (stk : nameidata) (name ustar : ptr) (root : ptr).
Context (Hustar : apart name ustar (ustar + 5)).

Definition name_ok (n : string) : Prop := split_path (String "/"%char n) = Some [n] ∧ plain n = true.

(** No name is a prefix of another. *)
Definition unlike (a b : string) : Prop := String.prefix a b = false ∧ String.prefix b a = false.

(** The files [es] are in the directory [dir] of the tree [t]. *)
Definition stored (t : tree) (dir : list (string * ptr)) (es : list (string * list Z)) : Prop :=
  ∀ n content, (n, content) ∈ es → ∃ x, lookup_entry (String.prefix n) dir = Some x ∧ holds t x content.

Lemma in_fs_ok {A} (f : F A) s m a s' : f s = Ok (a, s') → in_fs f (Ir s m) = Ok (a, Ir s' m).
Proof. intros E. unfold in_fs. simpl. by rewrite E. Qed.

Lemma u64_step file content :
  0 ≤ file → file + step_of content < 2 ^ 64 → Z.of_nat (length content) < 2 ^ 63 →
  u64 (file + TAR_HEADER_SIZE + ALIGN_UP (Z.of_nat (length content)) TAR_HEADER_SIZE) = file + step_of content.
Proof.
  intros Hf H64 Hl. unfold step_of, ALIGN_UP, TAR_HEADER_SIZE in *. pose proof (DIV_ROUNDUP_512 (Z.of_nat (length content)) ltac:(lia)).
  rewrite (u64_small (DIV_ROUNDUP _ _ * 512)) by lia. rewrite u64_small by lia. lia.
Qed.

Lemma initramfs_file_ok L s m file vn q dir n content :
  vfs_inv [] L s → rooted s root → regular m ustar file n content → apart name file (file + step_of content) →
  0 ≤ file → file + step_of content < 2 ^ 64 → t_dirs (view L s) !! root = Some dir →
  next_seq s root = Some q → 0 ≤ q → q + 1 < 2 ^ 64 → name_ok n → (∀ n' x, (n', x) ∈ dir → String.prefix n n' = false) →
  ∃ L' s' m' a x, initramfs_file (S fuel) stk name file vn (Ir s m) = Ok ((a, file + step_of content), Ir s' m') ∧
    same_but_name name m m' ∧ vfs_inv [] L' s' ∧ rooted s' root ∧ next_seq s' root = Some (q + 1) ∧
    t_dirs (view L' s') !! root = Some ((n, x) :: dir) ∧ holds (view L' s') x content ∧ extends (view L s) (view L' s').
Proof.
  intros Hi Hr Hreg Hap Hf H64 Hdir Hq Hq0 Hq2 [Hp Hpl] Hno.
  pose proof (step_of_bounds content (rg_bound _ _ _ _ _ Hreg)) as Hst. destruct (rg_short _ _ _ _ _ Hreg) as [Hne Hsl].
  destruct (copy_name_ok name file n s m (rg_name _ _ _ _ _ Hreg) Hne Hsl) as (m' & E0 & Hname & Hsame); [unfold apart in *; lia|].
  assert (regular m' ustar file n content) as Hreg' by (by apply (regular_same name ustar m)).
  destruct (unpack_file fuel stk L s root Hi Hr (String "/"%char n) n vn q dir content Hp Hpl Hdir Hno Hq Hq0 Hq2 (rg_bound _ _ _ _ _ Hreg))
    as (L' & s1 & s2 & s3 & a & x & E1 & Ha & E2 & E3 & Hi3 & Hr3 & Hq3 & Hd3 & _ & Hh & Hext).
  exists L', s3, m', a, x. split; [|done].
  unfold initramfs_file. rewrite (bind_ok _ _ _ _ _ E0), (bind_ok get _ _ _ _ eq_refl). cbn [ir_mem]. cbv zeta.
  rewrite (rg_size _ _ _ _ _ Hreg'), (rg_type _ _ _ _ _ Hreg'), (rg_content _ _ _ _ _ Hreg').
  rewrite (read_string_cstr 100 m' name _ Hname) by (simpl; unfold slen in *; lia).
  rewrite (decide_True (P := TAR_FILETYPE_REG = _)) by done.
  erewrite bind_ok.
  2:{ rewrite (bind_ok _ _ _ _ _ (in_fs_ok _ _ m' _ _ E1)). cbn beta iota. rewrite decide_False by (unfold UNINIT; lia).
      rewrite decide_False by (unfold NULL; lia). rewrite (bind_ok _ _ _ _ _ (in_fs_ok _ _ m' _ _ E2)). reflexivity. }
  rewrite decide_False by (unfold UNINIT; lia). rewrite (bind_ok _ _ _ _ _ (in_fs_ok _ _ m' _ _ E3)).
  unfold mret, K_ret. by rewrite u64_step by (done || apply Hreg).
Qed.

Lemma initramfs_loop_ok es L s m file last vn q dir k :
  vfs_inv [] L s → rooted s root → archive m ustar file last es → apart name file (last + 512) →
  0 ≤ file → last + 512 ≤ 2 ^ 64 → t_dirs (view L s) !! root = Some dir →
  next_seq s root = Some q → 0 ≤ q → q + Z.of_nat (length es) < 2 ^ 64 → Forall name_ok es.*1 →
  (∀ n n' x, n ∈ es.*1 → (n', x) ∈ dir → String.prefix n n' = false) → ForallOrdPairs unlike es.*1 → (length es < k)%nat →
  ∃ L' s' m' new, initramfs_loop (S fuel) stk name ustar k file vn (Ir s m) = Ok (tt, Ir s' m') ∧
    vfs_inv [] L' s' ∧ rooted s' root ∧ t_dirs (view L' s') !! root = Some (new ++ dir) ∧
    (∀ n x, (n, x) ∈ new → n ∈ es.*1) ∧ extends (view L s) (view L' s') ∧ stored (view L' s') (new ++ dir) es.
Proof.
  revert L s m file vn q dir k. induction es as [|[n content] es IH]; intros L s m file vn q dir [|k]; cbn [archive fmap list_fmap length fst];
    intros Hi Hr Har Hap Hf H64 Hdir Hq Hq0 Hq2 Hok Hno Hpairs Hk; try lia; cbn [initramfs_loop]; rewrite (bind_ok get _ _ _ _ eq_refl); cbn [ir_mem].
  - destruct Har as [-> Hn]. rewrite decide_False by done. exists L, s, m, []. split; [done|split; [done|split; [done|split; [done|]]]].
    split; [by intros n x ?%not_elem_of_nil|]. split; [by intros y z|]. by intros n content ?%not_elem_of_nil.
  - destruct Har as [Hreg Har]. rewrite decide_True by apply Hreg. pose proof (archive_le _ _ _ _ _ Har) as Hle.
    pose proof (step_of_bounds content (rg_bound _ _ _ _ _ Hreg)) as Hst.
    apply Forall_cons in Hok as [Hn Hok]. inversion Hpairs as [|? ? Hall Hpairs']; subst.
    destruct (initramfs_file_ok L s m file vn q dir n content) as (L1 & s1 & m1 & a & x & E1 & Hsame & Hi1 & Hr1 & Hq1 & Hd1 & Hh1 & Hext1);
      try done; [unfold apart in *; lia|lia|lia|intros n' x; apply Hno; by left|].
    destruct (IH L1 s1 m1 (file + step_of content) a (q + 1) ((n, x) :: dir) k) as (L2 & s2 & m2 & new & E2 & Hi2 & Hr2 & Hd2 & Hnew & Hext2 & Hst2);
      try done; [apply (archive_same name ustar m); try done; unfold apart in *; lia|unfold apart in *; lia|lia|lia|lia| |lia|].
    { intros n1 n2 y Hin [[= -> _]|Hdy]%elem_of_cons; [|apply (Hno n1 n2 y); [by right|done]].
      rewrite List.Forall_forall in Hall. apply (Hall n1). by apply list_elem_of_In. }
    exists L2, s2, m2, (new ++ [(n, x)]). rewrite (bind_ok _ _ _ _ _ E1), <-app_assoc. cbn [app].
    split; [exact E2|split; [exact Hi2|split; [exact Hr2|split; [exact Hd2|split; [|split]]]]].
    + intros n1 y [Hin|Hin]%elem_of_app; [right; by apply (Hnew n1 y)|]. apply list_elem_of_singleton in Hin as [= -> _]. by left.
    + intros y z Hy. by apply Hext2, Hext1.
    + intros n1 c1 [[= -> ->]|Hin]%elem_of_cons; [|by apply Hst2]. exists x. split.
      * apply lookup_entry_after. intros n2 y Hin. rewrite List.Forall_forall in Hall.
        apply (Hall n2), list_elem_of_In. by apply (Hnew n2 y).
      * destruct Hh1 as (bs & Hbs & Hb). exists bs. split; [by apply Hext2|done].
Qed.

End loop.

(** A file opened by its path: the vnode reads its bytes, and reading changes nothing. *)
Lemma open_reads fuel stk L s root path cs d x vpp content :
  vfs_inv [] L s → rooted s root → path_ok path cs → find (view L s) root cs = At d x → holds (view L s) x content →
  content ≠ [] →
  ∃ a s', vfs_open (S fuel) stk path vpp VNON 0 s = Ok ((0, a), s') ∧ vfs_inv [] L s' ∧ evolve s s' ∧ has s' a x ∧
    ∀ off n, 0 ≤ off → 0 ≤ n < 2 ^ 31 → off + n ≤ Z.of_nat (length content) → off + n < 2 ^ 64 →
      vfs_read a off n s' = Ok ((n, Some <$> take (Z.to_nat n) (drop (Z.to_nat off) content)), s').
Proof.
  intros Hi Hr [Hp Hpl] Hf (bs & Hbs & Hb) Hne. rewrite find_walk in Hf by apply Hi.
  destruct (open_at fuel stk L s root path cs vpp Hi Hr Hp Hpl d x 0 Hf) as (s' & a & E & Hi' & Ev & Ha); [done|].
  exists a, s'. split; [exact E|split; [done|split; [done|split; [done|]]]]. rewrite <-(view_evolve L s s') in Hbs by done.
  destruct (file_node _ _ _ _ Hbs) as (nd & data & size & Hnd & Ed & Hc).
  assert (length content ≤ length bs)%nat as Hlen.
  { apply (f_equal length) in Hb. rewrite length_take, length_fmap in Hb. lia. }
  assert (0 < length content)%nat by (destruct content; [done|simpl; lia]).
  assert (data = Some bs) as -> by (destruct data as [b|]; simpl in Hc; [by subst|subst bs; simpl in Hlen; lia]).
  assert (size = Z.of_nat (length bs)) as ->.
  { destruct (has_node _ _ _ _ _ Hi' Ha) as (v & nd' & _ & Ex & _). subst x.
    by destruct (file_size L s' v nd (Some bs) size (vi_ok _ _ _ Hi') Hnd Ed). }
  intros off n Ho Hn Hl Ht. rewrite (vfs_read_ok L s' a x nd (Some bs) _ Hi' Ha Hnd Ed bs off n) by (done || lia).
  rewrite i32_small by lia. rewrite fmap_take, fmap_drop, <-Hb, skipn_firstn_comm, take_take. do 4 f_equal. lia.
Qed.
