(* ===== verification/InitramfsTheorems.v ===== *)
(** * The archive of the boot loader: the properties *)

From S2P Require Import Prelude CString CStringSpec Pmm Slab Vmm FsState Ramfs RamfsDir RamfsOps RamfsInv RamfsSpec.
From S2P Require Import RamfsUnlink RamfsLookup RamfsFile Vfs VfsRefs VfsPath VfsOps VfsSpec Demo Initramfs InitramfsSpec.
From Stdlib Require Import Ascii.

Local Open Scope Z_scope.

(** A file of the tree, through the VFS calls. *)
Lemma stored_readable fuel stk L s root dir es n content :
  vfs_inv [] L s → rooted s root → t_dirs (view L s) !! root = Some dir → stored (view L s) dir es → name_ok n →
  (n, content) ∈ es → content ≠ [] → Z.of_nat (length content) < 2 ^ 31 →
  ∃ a s', vfs_open (S fuel) stk (String "/"%char n) NULL VNON 0 s = Ok ((0, a), s') ∧
    vfs_read a 0 (Z.of_nat (length content)) s' = Ok ((Z.of_nat (length content), Some <$> content), s').
Proof.
  intros Hi Hr Hd Hst [Hp Hpl] Hin Hne Hl. destruct (Hst n content Hin) as (x & Hx & Hh).
  assert (find (view L s) root [n] = At root x) as Hw.
  { destruct Hh as (bs & Hbs & _). unfold find. cbn [walk]. rewrite Hd, Hx. unfold t_link. by rewrite Hbs. }
  destruct (open_reads fuel stk L s root (String "/"%char n) [n] root x NULL content) as (a & s' & E & _ & _ & _ & Hrd); try done.
  { split; [done|by repeat constructor]. }
  exists a, s'. split; [exact E|]. rewrite Hrd by lia. by rewrite Nat2Z.id, drop_0, firstn_all.
Qed.

(** C8: initramfs on an archive of regular files whose names are single
    components, of which none is a prefix of another or of a name already in the root
    directory, returns; every file that is not empty and is below 2 GiB can then be opened under
    its name, and reading it gives the bytes of the archive. *)
Theorem initramfs_unpacks fuel stk name ustar L s root m file last es q dir k :
  vfs_inv [] L s → rooted s root → archive m ustar file last es →
  apart name ustar (ustar + 5) → apart name file (last + 512) → 0 ≤ file → last + 512 ≤ 2 ^ 64 →
  t_dirs (view L s) !! root = Some dir → next_seq s root = Some q → 0 ≤ q → q + Z.of_nat (length es) < 2 ^ 64 →
  Forall name_ok es.*1 → (∀ n n' x, n ∈ es.*1 → (n', x) ∈ dir → String.prefix n n' = false) →
  ForallOrdPairs unlike es.*1 → (length es < k)%nat →
  ∃ L' s' m', initramfs (S fuel) stk name ustar k (Some file) (Ir s m) = Ok (tt, Ir s' m') ∧
    vfs_inv [] L' s' ∧ rooted s' root ∧ extends (view L s) (view L' s') ∧
    ∀ n content, (n, content) ∈ es → content ≠ [] → Z.of_nat (length content) < 2 ^ 31 →
      ∃ a s'', vfs_open (S fuel) stk (String "/"%char n) NULL VNON 0 s' = Ok ((0, a), s'') ∧
        vfs_read a 0 (Z.of_nat (length content)) s'' = Ok ((Z.of_nat (length content), Some <$> content), s'').
Proof.
  intros Hi Hr Har Hu Hap Hf H64 Hd Hq Hq0 Hq2 Hok Hno Hpairs Hk.
  destruct (initramfs_loop_ok fuel stk name ustar root Hu es L s m file last UNINIT q dir k)
    as (L' & s' & m' & new & E & Hi' & Hr' & Hd' & _ & Hext & Hst); try done.
  exists L', s', m'. split; [exact E|split; [exact Hi'|split; [exact Hr'|split; [exact Hext|]]]].
  intros n content Hin Hne Hl. apply (stored_readable fuel stk L' s' root (new ++ dir) es); try done.
  rewrite Forall_forall in Hok. apply Hok. apply list_elem_of_fmap. by exists (n, content).
Qed.

(** A first entry that is no regular file: vn is closed without ever being set. *)
Theorem initramfs_first_other fuel stk name ustar s m file k n :
  is_header m ustar file → cstr m file n → n ≠ EmptyString → slen n ≤ 98 → apart name file (file + 512) →
  rd8 m (tar_type file) ≠ TAR_FILETYPE_REG → (0 < k)%nat →
  initramfs fuel stk name ustar k (Some file) (Ir s m) = Fault Uninitialised.
Proof.
  intros Hh Hn Hne Hl Hap Ht Hk. destruct k as [|k]; [lia|]. cbn [initramfs initramfs_loop].
  rewrite (bind_ok get _ _ _ _ eq_refl), decide_True by done. apply bind_fault.
  destruct (copy_name_ok name file n s m Hn Hne Hl) as (m' & E & _ & Hsame); [unfold apart in *; lia|].
  unfold initramfs_file. rewrite (bind_ok _ _ _ _ _ E), (bind_ok get _ _ _ _ eq_refl). cbn [ir_mem]. cbv zeta.
  rewrite decide_False by (rewrite Hsame; [done|]; unfold tar_type, apart in *; lia).
  rewrite (bind_ok (mret UNINIT) _ _ _ _ eq_refl). by rewrite decide_True.
Qed.

(** One file of two bytes, at 0x10000. *)
Definition tar_bytes : list (Z * list Z) :=
  [(0x200, [117; 115; 116; 97; 114]); (0x10000, [122]); (0x1007C, [48; 48; 50]); (0x1009C, [48]);
   (0x10101, [117; 115; 116; 97; 114]); (0x10200, [104; 105])].
Definition tar_mem : mem := fold_right (λ p m, Str.write_list (fst p) (snd p) m) ∅ tar_bytes.

Lemma tar_mem_archive : archive tar_mem 0x200 0x10000 0x10400 [("z"%string, [104; 105])].
Proof.
  split; [constructor|].
  all: try (vm_compute; reflexivity).
  - split; [discriminate|done].
  - split; [discriminate|]. split; reflexivity.
  - split; [reflexivity|]. intros Hh. vm_compute in Hh. discriminate.
Qed.

Theorem initramfs_unpacks_witness :
  ∃ s' m', initramfs 10 stk0 0x100 0x200 2 (Some 0x10000) (Ir demo3 tar_mem) = Ok (tt, Ir s' m') ∧
    ∃ a s'', vfs_open 10 stk0 "/z" NULL VNON 0 s' = Ok ((0, a), s'') ∧ vfs_read a 0 2 s'' = Ok ((2, [Some 104; Some 105]), s'').
Proof.
  destruct (initramfs_unpacks 9 stk0 0x100 0x200 lists3 demo3 3 tar_mem 0x10000 0x10400 [("z"%string, [104; 105])] 5
    [("d"%string, 8); ("f"%string, 5)] 2 (proj1 demo3_inv) (proj2 demo3_inv) tar_mem_archive) as (L' & s' & m' & E & _ & _ & _ & H).
  - right. lia.
  - right. lia.
  - lia.
  - lia.
  - vm_compute. reflexivity.
  - vm_compute. reflexivity.
  - lia.
  - simpl. lia.
  - repeat constructor.
  - intros n n' x Hn Hx. apply list_elem_of_singleton in Hn as ->. repeat (apply elem_of_cons in Hx as [[= -> ->]|Hx]; [reflexivity|]).
    by apply not_elem_of_nil in Hx.
  - repeat constructor.
  - simpl. lia.
  - exists s', m'. split; [exact E|]. apply (H "z"%string [104; 105]); [by left|discriminate|simpl; lia].
Defined.
