(* ===== verification/Exec.v ===== *)
(** * kernel/proc.c: [loadelf] and [exec]

    The operations of the other components on one state.  The layout of the
    file and the constants of the system's elf.h are a parameter, the record
    [elf_h]. *)

From S2P Require Import Prelude CString Word Pmm Slab Vmm Args Proc Desc FsState Ramfs Vfs Initramfs.

Local Open Scope Z_scope.

Record ehdr := Ehdr { e_entry : Z; e_phoff : Z; e_phentsize : Z; e_phnum : Z }.
Record phdr := Phdr { p_type : Z; p_flags : Z; p_offset : Z; p_vaddr : Z; p_filesz : Z; p_memsz : Z }.

(** elf.h: sizes and fields of [Elf64_Ehdr] and [Elf64_Phdr], and constants. *)
Record elf_h := ElfH {
  sizeof_ehdr : Z; ehdr_of : list Z → ehdr; sizeof_phdr : Z; phdr_of : list Z → phdr;
  PT_LOAD : Z; PT_PHDR : Z; PF_X : Z; PF_W : Z;
  AT_ENTRY : Z; AT_PHDR : Z; AT_PHENT : Z; AT_PHNUM : Z }.

(** The file system, the processes with the allocators, [kernel_vm_map], the
    descriptor table and CR3.  The copy of the allocators in [y_gdt] is not used. *)
Record sys := Sys { y_fs : fs; y_ker : ker; y_kmap : ptr; y_gdt : gdts; y_cr3 : Z }.

Definition lift {S A} (get : sys → S) (put : S → sys → sys) (f : K S A) : K sys A := λ s,
  match f (get s) with
  | Ok (a, t) => Ok (a, put t s)
  | Panic msg => Panic msg
  | Hang => Hang
  | Fault e => Fault e
  end.

Definition y_mm (s : sys) : mm := k_mm (y_ker s).
Definition set_y_mm (m : mm) (s : sys) : sys := Sys (y_fs s) (set_k_mm m (y_ker s)) (y_kmap s) (y_gdt s) (y_cr3 s).

Definition in_yfs {A} : K fs A → K sys A := lift y_fs (λ t s, Sys t (y_ker s) (y_kmap s) (y_gdt s) (y_cr3 s)).
Definition in_yker {A} : K ker A → K sys A := lift y_ker (λ t s, Sys (y_fs s) t (y_kmap s) (y_gdt s) (y_cr3 s)).
Definition in_ymm {A} : M A → K sys A := lift y_mm set_y_mm.
Definition in_ymem {A} : K mem A → K sys A :=
  lift (λ s, mm_mem (y_mm s)) (λ m s, set_y_mm (set_mm_pmm (set_pm_mem m (mm_pmm (y_mm s))) (y_mm s)) s).
Definition in_yvmm {A} : K vmm A → K sys A :=
  lift (λ s, Vmm (y_mm s) (y_kmap s))
    (λ v s, Sys (y_fs s) (set_k_mm (vmm_mm v) (y_ker s)) (kernel_vm_map v) (y_gdt s) (y_cr3 s)).
Definition in_ygdt {A} : K gdts A → K sys A :=
  lift (λ s, set_gd_mm (y_mm s) (y_gdt s))
    (λ g s, Sys (y_fs s) (set_k_mm (gd_mm g) (y_ker s)) (y_kmap s) g (y_cr3 s)).

(** The value of an [off_t]. *)
Definition i64 (z : Z) : Z := (z + 2 ^ 63) mod 2 ^ 64 - 2 ^ 63.

Definition STACKSIZE : Z := 0x40000.
Definition set_p_vmap (a : ptr) (p : proc) : proc := Proc (p_regs p) (p_stack p) (p_state p) (p_pid p) a.

Section exec.
Context {vops : vnodeops} {fops : vfsops}.
(** [vf] and [stk] as in Vfs.v; [pf] and [fuel] bound the allocators; [junk] are
    the bytes of a file that were never written. *)
Context (h : elf_h) (vf : nat) (stk : nameidata) (pf fuel : nat) (junk : Z → Z).

(** [vfs_read] into a structure of [size] bytes: [None] when nothing was stored. *)
Definition read_struct (vn : ptr) (offset size : Z) : K sys (option (list Z)) :=
  '(e, bytes) ← in_yfs (vfs_read vn offset size);
  if decide (e < 0) then mret None else
  match mapM id bytes with Some l => mret (Some l) | None => fail Uninitialised end.

(** [vfs_read] to an address. *)
Definition read_to (vn : ptr) (dest offset count : Z) : K sys unit :=
  '(_, bytes) ← in_yfs (vfs_read vn offset count);
  in_ymem (modify (Str.write_list dest (imap (λ i c, default (junk (dest + Z.of_nat i)) c) bytes))).

Definition segment_flags (p : phdr) : Z :=
  let flags := Z.lor PTE_PRESENT PTE_USER in
  let flags := if decide (Z.land (p_flags p) (PF_W h) ≠ 0) then Z.lor flags PTE_RW else flags in
  if decide (Z.land (p_flags p) (PF_X h) = 0) then Z.lor flags PTE_NX else flags.

(** The case of PT_LOAD. *)
Definition load_segment (vn vmap : ptr) (p : phdr) : K sys unit :=
  let pagecount := DIV_ROUNDUP (p_memsz p) PGSIZE in
  paddr ← in_ymm (in_pmm (palloc pf pagecount));
  top_level ← in_ymm (load64 (map_top_level vmap));
  in_ymm (mappages pf top_level (p_vaddr p) paddr (u64 (pagecount * PGSIZE)) (segment_flags p));;
  read_to vn (P2V paddr) (i64 (p_offset p)) (p_filesz p).

(** The loop over the program headers: [k] of them from index [i] on.  [phdr] is
    the local variable, [None] before the first read. *)
Fixpoint load_phdrs (k : nat) (i : Z) (vn vmap : ptr) (elf : ehdr) (phdr : option phdr) (aux : auxval) : K sys auxval :=
  match k with
  | O => mret aux
  | S k =>
      b ← read_struct vn (i64 (u64 (e_phoff elf + u64 (i * sizeof_phdr h)))) (sizeof_phdr h);
      let phdr := match b with Some l => Some (phdr_of h l) | None => phdr end in
      match phdr with
      | None => fail Uninitialised
      | Some p =>
          aux ← (if decide (p_type p = PT_LOAD h) then load_segment vn vmap p;; mret aux
                 else if decide (p_type p = PT_PHDR h) then mret (Auxval (at_entry aux) (p_vaddr p) (at_phent aux) (at_phnum aux))
                 else mret aux);
          load_phdrs k (i + 1) vn vmap elf phdr aux
      end
  end.

Definition loadelf (name : string) (vmap : ptr) (aux : auxval) : K sys auxval :=
  '(_, vn) ← in_yfs (vfs_open vf stk name UNINIT VNON 0);
  if decide (vn = UNINIT) then fail Uninitialised else
  b ← read_struct vn 0 (sizeof_ehdr h);
  match b with
  | None => fail Uninitialised
  | Some l =>
      let elf := ehdr_of h l in
      aux ← load_phdrs (Z.to_nat (e_phnum elf)) 0 vn vmap elf None aux;
      mret (Auxval (e_entry elf) (at_phdr aux) (e_phentsize elf) (e_phnum elf))
  end.

Definition switchvm (vmap : ptr) : K sys unit :=
  top_level ← in_ymm (load64 (map_top_level vmap));
  modify (λ s, Sys (y_fs s) (y_ker s) (y_kmap s) (y_gdt s) (V2P top_level)).

(** [exec] up to the stack of the program: its address space, its registers and
    its arguments.  [aux] is what the local variable holds before. *)
Definition exec_prepare (name : string) (argv : ptr) (aux : auxval) : K sys (option nat * ptr) :=
  p ← in_yker get_current_proc;
  vmap ← in_yvmm (newvm_map pf fuel);
  aux ← loadelf name vmap aux;
  stack ← in_ymm (in_pmm (palloc pf (STACKSIZE / PGSIZE)));
  let stackva := 0x70000000000 in
  top_level ← in_ymm (load64 (map_top_level vmap));
  in_ymm (mappages pf top_level stackva stack STACKSIZE (Z.lor (Z.lor PTE_PRESENT PTE_RW) PTE_USER));;
  q ← in_yker (proc_at p);
  let regs := p_regs q in
  in_ymm (store64 (regs_rsp regs) (stackva + STACKSIZE));;
  in_ymm (store64 (regs_rip regs) (at_entry aux));;
  in_ymm (store64 (regs_cs regs) 0x43);;
  in_ymm (store64 (regs_ss regs) 0x3b);;
  in_ymm (store64 (regs_eflags regs) 0x202);;
  in_yker (update_proc p (set_p_vmap vmap));;
  let stacktop := P2V (u64 (stack + STACKSIZE)) in
  sp ← in_ymem (copyargs fuel (AT_ENTRY h) (AT_PHDR h) (AT_PHENT h) (AT_PHNUM h) stacktop argv aux);
  rsp ← in_ymm (load64 (regs_rsp regs));
  in_ymm (store64 (regs_rsp regs) (u64 (rsp - (stacktop - sp))));;
  mret (p, vmap).

(** The rest: the task state segment, and the process is started; [ra] as in [startproc]. *)
Definition exec_enter (p : option nat) (vmap : ptr) (ra : Z) : K sys unit :=
  tss ← in_ymm (Slab.kalloc pf fuel 12);
  switchvm vmap;;
  page ← in_ymm (in_pmm (palloc pf 1));
  in_ymm (store64 (tss + 4) (P2V (u64 (page + PGSIZE))));;
  in_ygdt (load_tss tss);;
  in_yker (startproc p ra).

Definition exec (name : string) (argv : ptr) (aux : auxval) (ra : Z) : K sys unit :=
  '(p, vmap) ← exec_prepare name argv aux; exec_enter p vmap ra.

End exec.
