(* ===== verification/Fixes.v ===== *)
(** * Parts of the state that operations leave alone

    [fixes π f]: whenever [f] returns, the part [π] of the state is what it
    was.  One rule for every way to build an operation, in the hint database
    [fixes]; then the two parts that the theorems on [exec] use, the lock of
    the process table and the list of slabs. *)

From S2P Require Import Prelude CString Word Pmm Slab Vmm Args Proc Desc FsState Ramfs Vfs Initramfs Exec.

Local Open Scope Z_scope.

Definition fixes {S T A} (π : S → T) (f : K S A) : Prop := ∀ s a s', f s = Ok (a, s') → π s' = π s.

Section rules.
Context {S T : Type} (π : S → T).

Lemma fixes_ret {A} (a : A) : fixes π (mret a).
Proof. by intros s b s' [= _ <-]. Qed.

Lemma fixes_fail {A} e : fixes π (fail e : K S A).
Proof. done. Qed.

Lemma fixes_hang {A} : fixes π (hang : K S A).
Proof. done. Qed.

Lemma fixes_bind {A B} (f : K S A) (g : A → K S B) : fixes π f → (∀ a, fixes π (g a)) → fixes π (f ≫= g).
Proof. intros Hf Hg s b s' E. apply bind_inv in E as (a & s1 & E1 & E2). by rewrite (Hg _ _ _ _ E2), (Hf _ _ _ E1). Qed.

Lemma fixes_if {A} P `{!Decision P} (f g : K S A) : fixes π f → fixes π g → fixes π (if decide P then f else g).
Proof. by case_decide. Qed.

Lemma fixes_get : fixes π (get : K S S).
Proof. by intros s a s' [= _ <-]. Qed.

Lemma fixes_modify (f : S → S) : (∀ s, π (f s) = π s) → fixes π (modify f).
Proof. intros Hf s a s' [= _ <-]. apply Hf. Qed.

Lemma fixes_for k i (body : Z → K S unit) : (∀ j, fixes π (body j)) → fixes π (for_from k i body).
Proof. intros Hb. revert i. induction k as [|k IH]; intros i; cbn [for_from]; [apply fixes_ret|]. by apply fixes_bind. Qed.
End rules.

(** An operation of a component, on the state of all. *)
Lemma fixes_lift {S T A} (π : sys → T) (getter : sys → S) putter (f : K S A) :
  (∀ t s, π (putter t s) = π s) → fixes π (lift getter putter f).
Proof. intros H s a s' E. unfold lift in E. destruct (f (getter s)) as [[b t]| | |]; [|done..]. injection E as <- <-. apply H. Qed.

Lemma fixes_lift_part {S T A} (ρ : S → T) (π : sys → T) (getter : sys → S) putter (f : K S A) :
  (∀ s, π s = ρ (getter s)) → (∀ t s, π (putter t s) = ρ t) → fixes ρ f → fixes π (lift getter putter f).
Proof.
  intros H1 H2 Hf s a s' E. unfold lift in E. destruct (f (getter s)) as [[b t]| | |] eqn:Ef; [|done..].
  injection E as <- <-. rewrite H2, H1. apply (Hf _ _ _ Ef).
Qed.

Create HintDb fixes.
#[export] Hint Resolve fixes_ret fixes_fail fixes_hang fixes_if fixes_get fixes_for : fixes.
#[export] Hint Extern 1 (fixes _ (modify _)) => apply fixes_modify; done : fixes.
#[export] Hint Extern 2 (fixes _ (_ ≫= _)) => apply fixes_bind; [|intros ?] : fixes.
#[export] Hint Extern 1 (fixes _ (let '(_, _) := ?p in _)) => destruct p : fixes.
#[export] Hint Extern 1 (fixes _ (match ?p with Some _ => _ | None => _ end)) => destruct p : fixes.

(** ** The lock of the process table *)

Lemma proc_at_same p s a s' : proc_at p s = Ok (a, s') → s' = s.
Proof. unfold proc_at. destruct p as [i|]; [|done]. by destruct (k_table s !! i); intros [= _ <-]. Qed.

Lemma proc_at_fixes {T} (π : ker → T) p : fixes π (proc_at p).
Proof. intros s a s' E. by apply proc_at_same in E as ->. Qed.

Lemma update_proc_fixes {T} (π : ker → T) p f : (∀ t s, π (set_k_table t s) = π s) → fixes π (update_proc p f).
Proof. intros H. apply fixes_bind; [apply proc_at_fixes|]. intros q. by apply fixes_modify. Qed.

Lemma in_kmm_lock {A} (f : M A) : fixes k_lock (in_kmm f).
Proof. intros s a s' E. unfold in_kmm in E. destruct (f (k_mm s)) as [[b t]| | |]; [|done..]. by injection E as <- <-. Qed.

#[export] Hint Resolve proc_at_fixes in_kmm_lock : fixes.
#[export] Hint Extern 1 (fixes k_lock (update_proc _ _)) => apply update_proc_fixes; done : fixes.

Lemma pop_lock : fixes k_lock pop.
Proof. unfold pop. auto 10 with fixes. Qed.

Lemma push_lock v : fixes k_lock (push v).
Proof. unfold push. auto 10 with fixes. Qed.

#[export] Hint Resolve pop_lock push_lock : fixes.

Lemma switc_lock save next ra : fixes k_lock (switc save next ra).
Proof. unfold switc, push_callee_regs, pop_callee_regs. auto 100 with fixes. Qed.

Lemma init_proc_locks i ra s s' : init_proc i ra s = Ok (tt, s') → k_lock s' = 1.
Proof.
  intros E. unfold init_proc, startproc, set_current_proc in E. apply bind_inv in E as (a & s1 & _ & E).
  apply bind_inv in E as ([] & s2 & Ea & E).
  assert (k_lock s2 = 1) as H2.
  { unfold acq in Ea. rewrite bind_get in Ea. case_decide; [|done]. by injection Ea as <-. }
  rewrite <-H2. refine (fixes_bind _ _ _ _ _ s2 tt s' E).
  - auto with fixes.
  - intros c. apply fixes_bind; [auto with fixes|]. intros _. apply fixes_bind; [auto with fixes|]. intros q. apply switc_lock.
Qed.

(** ** The list of slabs *)

(** What [kalloc] uses besides memory. *)
Definition slabber (m : mm) : ptr * Z := (mm_slabs m, mm_lock m).
Definition sys_slabber (s : sys) : ptr * Z := slabber (y_mm s).
Definition vmm_slabber (s : vmm) : ptr * Z := slabber (vmm_mm s).

Lemma in_pmm_slabber {A} (f : K pmm A) : fixes slabber (in_pmm f).
Proof. intros s a s' E. unfold in_pmm in E. destruct (f (mm_pmm s)) as [[b p]| | |]; [|done..]. by injection E as _ <-. Qed.

Lemma load64_slabber a : fixes slabber (load64 a).
Proof. by intros s b s' [= _ <-]. Qed.

Lemma store64_slabber a v : fixes slabber (store64 a v).
Proof. by apply fixes_modify. Qed.

#[export] Hint Resolve in_pmm_slabber load64_slabber store64_slabber : fixes.

Lemma in_mm_slabber {A} (f : M A) : fixes slabber f → fixes vmm_slabber (in_mm f).
Proof.
  intros Hf s a s' E. unfold in_mm in E. destruct (f (vmm_mm s)) as [[b p]| | |] eqn:Ef; [|done..].
  injection E as _ <-. apply (Hf _ _ _ Ef).
Qed.

#[export] Hint Resolve in_mm_slabber : fixes.
#[export] Hint Extern 1 (fixes sys_slabber (in_yfs _)) => apply fixes_lift; done : fixes.
#[export] Hint Extern 1 (fixes sys_slabber (in_ymem _)) => apply fixes_lift; done : fixes.
#[export] Hint Extern 2 (fixes sys_slabber (in_ymm _)) => apply (fixes_lift_part slabber); [done..|] : fixes.
#[export] Hint Extern 2 (fixes sys_slabber (in_yker _)) => apply (fixes_lift_part (λ k, slabber (k_mm k))); [done..|] : fixes.
#[export] Hint Extern 1 (fixes (λ k, slabber (k_mm k)) (update_proc _ _)) => apply update_proc_fixes; done : fixes.

Section slabber.
Context {vops : vnodeops} {fops : vfsops}.
Context (h : elf_h) (vf : nat) (stk : nameidata) (pf fuel : nat) (junk : Z → Z).

Lemma get_next_level_slabber top idx alloc : fixes slabber (get_next_level pf top idx alloc).
Proof. unfold get_next_level, fill. destruct alloc; cbn [negb]; auto 10 with fixes. Qed.

Lemma mappage2_slabber top va pa flags : fixes slabber (mappage2 pf top va pa flags).
Proof. pose proof get_next_level_slabber. unfold mappage2, va2pte. auto 20 with fixes. Qed.

Lemma mappages_slabber top va pa size flags : fixes slabber (mappages pf top va pa size flags).
Proof. pose proof mappage2_slabber. unfold mappages. auto 10 with fixes. Qed.

(** [newvm_map] after its [kalloc]. *)
Lemma newvm_map_slabber s vmap m0 v s' :
  Slab.kalloc pf fuel sizeof_vm_map (vmm_mm s) = Ok (vmap, m0) → newvm_map pf fuel s = Ok (v, s') → vmm_slabber s' = slabber m0.
Proof.
  intros Ek E. unfold newvm_map in E. apply bind_inv in E as (a & s1 & E1 & E). unfold in_mm in E1. rewrite Ek in E1. injection E1 as <- <-.
  refine (fixes_bind _ _ _ _ _ _ _ _ E); [auto with fixes|]. intros b. auto 20 with fixes.
Qed.

Lemma read_struct_fixes {T} (π : sys → T) vn off n : fixes π (in_yfs (vfs_read vn off n)) → fixes π (read_struct vn off n).
Proof. intros H. unfold read_struct. auto 10 with fixes. Qed.

Lemma load_phdrs_fixes {T} (π : sys → T) k i vn vmap elf ph aux :
  (∀ B (f : K fs B), fixes π (in_yfs f)) → (∀ p, fixes π (load_segment h pf junk vn vmap p)) →
  fixes π (load_phdrs h pf junk k i vn vmap elf ph aux).
Proof.
  intros Hfs Hseg. revert i ph aux. induction k as [|k IH]; intros i ph aux; cbn [load_phdrs]; [apply fixes_ret|].
  apply fixes_bind; [by apply read_struct_fixes|]. intros b.
  destruct (match b with Some l => Some (phdr_of h l) | None => ph end) as [p|]; [|apply fixes_fail].
  apply fixes_bind; [|intros a; apply IH]. auto 20 with fixes.
Qed.

Lemma loadelf_fixes {T} (π : sys → T) name vmap aux :
  (∀ B (f : K fs B), fixes π (in_yfs f)) → (∀ vn p, fixes π (load_segment h pf junk vn vmap p)) →
  fixes π (loadelf h vf stk pf junk name vmap aux).
Proof.
  intros Hfs Hseg. unfold loadelf. apply fixes_bind; [auto with fixes|]. intros [_ vn]. case_decide; [apply fixes_fail|].
  apply fixes_bind; [by apply read_struct_fixes|]. intros [l|]; [|apply fixes_fail].
  apply fixes_bind; [by apply load_phdrs_fixes|]. auto with fixes.
Qed.

Lemma load_segment_slabber vn vmap p : fixes sys_slabber (load_segment h pf junk vn vmap p).
Proof. pose proof mappages_slabber. unfold load_segment, read_to. auto 20 with fixes. Qed.

Lemma loadelf_slabber name vmap aux : fixes sys_slabber (loadelf h vf stk pf junk name vmap aux).
Proof. apply loadelf_fixes; [auto with fixes|]. intros. apply load_segment_slabber. Qed.

(** [exec_prepare] allocates nothing but its map with [kalloc]. *)
Lemma exec_prepare_slabber name argv aux s vmap m0 a s' :
  Slab.kalloc pf fuel sizeof_vm_map (y_mm s) = Ok (vmap, m0) →
  exec_prepare h vf stk pf fuel junk name argv aux s = Ok (a, s') → sys_slabber s' = slabber m0.
Proof.
  intros Ek E. unfold exec_prepare, get_current_proc in E. apply bind_inv in E as (p & s0 & E0 & E). injection E0 as _ <-.
  apply bind_inv in E as (v & s1 & E1 & E).
  assert (sys_slabber s1 = slabber m0) as <-.
  { unfold in_yvmm, lift in E1. destruct (newvm_map _ _ _) as [[b t]| | |] eqn:Ev; [|done..]. injection E1 as _ <-.
    refine (newvm_map_slabber _ vmap m0 _ _ _ Ev). destruct s as [? [] ? ? ?]. exact Ek. }
  pose proof loadelf_slabber. pose proof mappages_slabber.
  assert (∀ f : proc → proc, fixes sys_slabber (in_yker (update_proc p f))) by auto with fixes.
  refine (_ s1 a s' E). clear E. apply fixes_bind; [done|]. intros x. cbv zeta. auto 60 with fixes.
Qed.
End slabber.
