(* ===== verification/ExecSpec.v ===== *)
(** * Loading a program: the segments in the new address space

    [loaded] says of one program header that its pages are mapped with its
    permissions and hold the bytes of the file.  Everything that was loaded
    before stays loaded: the pages are private memory. *)

From S2P Require Import Prelude CString CStringSpec Word Pmm PmmSpec Slab SlabSpec Vmm VmmSpec VmmSpace VmmKernel VmmMaps VmmRun.
From S2P Require Import Args Proc Desc FsState Ramfs Vfs Initramfs Exec.

Local Open Scope Z_scope.

(** ** Lifting *)

Lemma in_ymm_ok {A} (f : M A) s m a m' : f m = Ok (a, m') → in_ymm f (set_y_mm m s) = Ok (a, set_y_mm m' s).
Proof. intros E. unfold in_ymm, lift. change (y_mm (set_y_mm m s)) with m. by rewrite E. Qed.

Lemma in_yfs_ok {A} (f : K fs A) s a : f (y_fs s) = Ok (a, y_fs s) → in_yfs f s = Ok (a, s).
Proof. intros E. unfold in_yfs, lift. rewrite E. by destruct s. Qed.

Lemma mapM_id_some (l : list Z) : mapM id (Some <$> l) = Some l.
Proof. induction l as [|x l IH]; [done|]. cbn. by rewrite IH. Qed.

Lemma imap_default (f : nat → Z) (l : list Z) : imap (λ i c, default (f i) c) (Some <$> l) = l.
Proof. apply list_eq. intros i. rewrite list_lookup_imap, list_lookup_fmap. by destruct (l !! i). Qed.

(** ** Files *)

(** [n] bytes of the image from [off] on. *)
Definition part (img : list Z) (off n : Z) : list Z := take (Z.to_nat n) (drop (Z.to_nat off) img).

Lemma part_lookup img off n i :
  0 ≤ off → 0 ≤ i < n → part img off n !! Z.to_nat i = img !! Z.to_nat (off + i).
Proof.
  intros Ho Hi. unfold part. rewrite lookup_take_lt by lia. rewrite lookup_drop. f_equal. lia.
Qed.

Lemma part_length img off n : 0 ≤ off → 0 ≤ n → off + n ≤ Z.of_nat (length img) → Z.of_nat (length (part img off n)) = n.
Proof. intros. unfold part. rewrite length_take, length_drop. lia. Qed.

Section load.
Context {vops : vnodeops} {fops : vfsops}.
Context (h : elf_h) (vf : nat) (stk : nameidata) (pf fuel : nat) (junk : Z → Z).
(** The vnode and its bytes; the state but for the allocators; the map. *)
Context (vn : ptr) (img : list Z) (s0 : sys) (vmap r N : Z).
Context (Hpf : N ≤ Z.of_nat pf) (Hlen : Z.of_nat (length img) < 2 ^ 63).

(** The reads of the file: they return its bytes and change nothing. *)
Definition reads (t : fs) : Prop := ∀ off n,
  0 ≤ off → 0 ≤ n < 2 ^ 31 → off + n ≤ Z.of_nat (length img) → vfs_read vn off n t = Ok ((n, Some <$> part img off n), t).

Context (Hreads : reads (y_fs s0)).

Lemma read_struct_ok off n m :
  0 ≤ off → 0 ≤ n < 2 ^ 31 → off + n ≤ Z.of_nat (length img) →
  read_struct vn off n (set_y_mm m s0) = Ok (Some (part img off n), set_y_mm m s0).
Proof.
  clear Hpf Hlen. intros Ho Hn Hl. unfold read_struct. rewrite (bind_ok _ _ _ _ _ (in_yfs_ok _ (set_y_mm m s0) _ (Hreads off n Ho Hn Hl))).
  cbn beta iota. rewrite decide_False by lia. by rewrite mapM_id_some.
Qed.

Lemma read_to_ok off n a m :
  0 ≤ off → 0 ≤ n < 2 ^ 31 → off + n ≤ Z.of_nat (length img) →
  read_to junk vn a off n (set_y_mm m s0) = Ok (tt, set_y_mm (with_mem (Str.write_list a (part img off n) (mm_mem m)) m) s0).
Proof.
  clear Hpf Hlen. intros Ho Hn Hl. unfold read_to. rewrite (bind_ok _ _ _ _ _ (in_yfs_ok _ (set_y_mm m s0) _ (Hreads off n Ho Hn Hl))).
  cbn beta iota. rewrite (imap_default (λ i, junk (a + Z.of_nat i))). done.
Qed.

(** ** Segments *)

Definition pages (p : phdr) : Z := DIV_ROUNDUP (p_memsz p) PGSIZE.
Definition first_page (p : phdr) : Z := p_vaddr p / PGSIZE.

Record segment_ok (p : phdr) : Prop := {
  so_aligned : p_vaddr p mod PGSIZE = 0;
  so_vaddr : 0 ≤ p_vaddr p;
  so_memsz : 0 < p_memsz p < 2 ^ 47;
  so_user : p_vaddr p + p_memsz p ≤ 2 ^ 47;
  so_filesz : 0 ≤ p_filesz p ≤ p_memsz p;
  so_small : p_filesz p < 2 ^ 31;
  so_offset : 0 ≤ p_offset p;
  so_image : p_offset p + p_filesz p ≤ Z.of_nat (length img) }.

Lemma pages_spec p : segment_ok p → p_memsz p ≤ pages p * PGSIZE < p_memsz p + PGSIZE ∧ 0 < pages p ∧
  p_vaddr p = first_page p * PGSIZE ∧ 0 ≤ first_page p ∧ first_page p + pages p ≤ 2 ^ 35.
Proof.
  clear Hpf Hlen Hreads. intros Hs. pose proof (so_memsz p Hs). pose proof (so_user p Hs). pose proof (so_vaddr p Hs).
  unfold pages, DIV_ROUNDUP, first_page. rewrite u64_small by (unfold PGSIZE; lia).
  pose proof (Z.div_mod (p_memsz p + PGSIZE - 1) PGSIZE ltac:(done)). pose proof (Z.mod_pos_bound (p_memsz p + PGSIZE - 1) PGSIZE ltac:(done)).
  pose proof (Z.div_mod (p_vaddr p) PGSIZE ltac:(done)) as Hv. rewrite (so_aligned p Hs) in Hv. unfold PGSIZE in *.
  set (a := p_vaddr p / 4096) in *. set (b := (p_memsz p + 4096 - 1) / 4096) in *. lia.
Qed.

(** The entry of the [i]-th page. *)
Definition seg_entry (p : phdr) (q i : Z) : Z := u64 (Z.lor ((q + i) * PGSIZE) (segment_flags h p)).

(** Segment [p] is in memory from page [q] on, in the map of root [r]. *)
Definition loaded_at (m : mm) (L : gmap Z (list Z)) (p : phdr) (q : Z) : Prop :=
  private m N L (P2V (q * PGSIZE)) (pages p * PGSIZE) ∧
  (∀ i, 0 ≤ i < pages p → space m r ((first_page p + i) * PGSIZE) = Some (seg_entry p q i)) ∧
  ∀ i b, 0 ≤ i < p_filesz p → img !! Z.to_nat (p_offset p + i) = Some b → rd8 (mm_mem m) (P2V (q * PGSIZE) + i) = u8 b.

(** The run of [n] pages from [q] on does not meet what is private in [mi]. *)
Definition fresh (mi : mm) (Li : gmap Z (list Z)) (q n : Z) : Prop :=
  ∀ a c b, private mi N Li a c → a ≤ b < a + c → ¬ (P2V (q * PGSIZE) ≤ b < P2V (q * PGSIZE) + n * PGSIZE).

Definition loaded (mi : mm) (Li : gmap Z (list Z)) (m : mm) (L : gmap Z (list Z)) (p : phdr) : Prop :=
  ∃ q, 0 ≤ q ∧ q + pages p ≤ N ∧ fresh mi Li q (pages p) ∧ loaded_at m L p q.

(** The map is usable. *)
Record ready (m : mm) (L : gmap Z (list Z)) : Prop := {
  rd_ok : tables_ok m N L;
  rd_root : L !! r = Some [];
  rd_private : private m N L (map_top_level vmap) 8;
  rd_top : rd64 (mm_mem m) (map_top_level vmap) = P2V r }.

(** Private memory keeps its bytes and stays private. *)
Definition keeps (m : mm) (L : gmap Z (list Z)) (m' : mm) (L' : gmap Z (list Z)) : Prop :=
  ∀ a c, private m N L a c → private m' N L' a c ∧ ∀ b, a ≤ b < a + c → rd8 (mm_mem m') b = rd8 (mm_mem m) b.

Lemma keeps_trans m L m1 L1 m2 L2 : keeps m L m1 L1 → keeps m1 L1 m2 L2 → keeps m L m2 L2.
Proof.
  intros H1 H2 a c Hp. destruct (H1 a c Hp) as [Hp1 E1]. destruct (H2 a c Hp1) as [Hp2 E2]. split; [done|].
  intros b Hb. by rewrite E2, E1.
Qed.

Lemma extends_keeps m m' L L' : extends m m' N L L' → keeps m L m' L'.
Proof.
  intros Hex a c Hp. split; [by eapply private_extends|]. intros b Hb. destruct (Hp b Hb). by apply Hex.
Qed.

(** A page outside of the segment. *)
Definition off_segment (p : phdr) (va : Z) : Prop := ∀ i, 0 ≤ i < pages p → vpn va ≠ vpn ((first_page p + i) * PGSIZE).

Lemma load_segment_ok p m L k :
  ready m L → tail m N (4 * Z.to_nat (pages p) + k) → segment_ok p →
  (∀ i, 0 ≤ i < pages p → space m r ((first_page p + i) * PGSIZE) = None) →
  ∃ m' L', load_segment h pf junk vn vmap p (set_y_mm m s0) = Ok (tt, set_y_mm m' s0) ∧ ready m' L' ∧ tail m' N k ∧
    loaded m L m' L' p ∧ keeps m L m' L' ∧ ∀ va, off_segment p va → space m' r va = space m r va.
Proof.
  intros [Hok Hr Hpr Htop] Htail Hs Hnone. pose proof (pages_spec p Hs) as (Hpg & Hn0 & Hva & Hf0 & Hf35).
  pose proof (to_bound _ _ _ Hok) as HN. set (n := pages p) in *.
  assert (u64 (n * PGSIZE) = n * PGSIZE) as Esz by (apply u64_small; unfold PGSIZE in *; lia).
  assert (present (segment_flags h p) = true) as Hfl.
  { unfold segment_flags. repeat case_decide; reflexivity. }
  destruct (map_run_ok pf N r m L (p_vaddr p) n (segment_flags h p) k)
    as (q & m1 & m2 & L2 & E1 & Hex1 & E2 & Hq & Hqn & Hfree & Hok2 & Hex2 & Htail2 & Hrun2 & Hin & Hout); try done; [lia| |].
  { intros i Hi. replace (p_vaddr p + i * PGSIZE) with ((first_page p + i) * PGSIZE) by lia. by apply Hnone. }
  set (m3 := with_mem (Str.write_list (P2V (q * PGSIZE)) (part img (p_offset p) (p_filesz p)) (mm_mem m2)) m2).
  assert (∀ b, ¬ (P2V (q * PGSIZE) ≤ b < P2V (q * PGSIZE) + n * PGSIZE) → rd8 (mm_mem m3) b = rd8 (mm_mem m2) b) as Hout3.
  { intros b Hb. unfold m3. rewrite mm_mem_with, write_list_spec, decide_False; [done|].
    rewrite part_length by (apply Hs). pose proof (so_filesz p Hs). lia. }
  destruct (write_private m2 N L2 (mm_mem m3) _ _ Hok2 Hrun2 Hout3) as (Hok3 & Htk3 & Hsp3). change (with_mem (mm_mem m3) m2) with m3 in *.
  assert (L2 !! r = Some []) as Hr2 by (apply (lookup_weaken L); [done|apply Hex2]).
  assert (keeps m L m3 L2) as Hk3.
  { intros a c Hp. destruct (keeps_trans _ _ _ _ _ _ (extends_keeps _ _ _ _ Hex1) (extends_keeps _ _ _ _ Hex2) a c Hp) as [Hp2 E].
    split; [by apply (private_same m2)|]. intros b Hb. rewrite Hout3, E; [done|done|].
    apply (private_run_apart m N L a c); try done. lia. }
  destruct (Hk3 _ _ Hpr) as [Hpr3 Etop].
  assert (rd64 (mm_mem m3) (map_top_level vmap) = P2V r) as Htop3 by (rewrite <-Htop; apply rdn_ext; intros b Hb; apply Etop; simpl in Hb; lia).
  exists m3, L2. split; [|split; [|split; [|split; [|split]]]].
  - unfold load_segment. fold (pages p). fold n. rewrite (bind_ok _ _ _ _ _ (in_ymm_ok _ _ _ _ _ E1)).
    rewrite (bind_ok _ _ _ _ _ (in_ymm_ok _ _ _ _ _ (load64_ok _ _))).
    assert (rd64 (mm_mem m1) (map_top_level vmap) = P2V r) as -> by (rewrite <-Htop; by apply (private_kept m m1 N L L)).
    rewrite Esz, (bind_ok _ _ _ _ _ (in_ymm_ok _ _ _ _ _ E2)).
    pose proof (so_offset p Hs). pose proof (so_image p Hs). pose proof (so_filesz p Hs). pose proof (so_small p Hs).
    assert (i64 (p_offset p) = p_offset p) as -> by (unfold i64; rewrite Z.mod_small; lia).
    by rewrite read_to_ok by lia.
  - by constructor.
  - by apply (res_same m2).
  - exists q. split; [done|split; [done|split; [intros a c b Hp Hb; apply (private_run_apart m N L a c); (done || lia)|]]].
    split; [by apply (private_same m2)|split].
    + intros i Hi. fold n in Hi. rewrite Hsp3 by done. replace ((first_page p + i) * PGSIZE) with (p_vaddr p + i * PGSIZE) by lia.
      by rewrite Hin.
    + intros i b Hi Hb. pose proof (so_filesz p Hs). unfold m3. rewrite mm_mem_with, write_list_spec.
      rewrite part_length by (apply Hs). rewrite decide_True by lia.
      replace (P2V (q * PGSIZE) + i - P2V (q * PGSIZE)) with i by lia. rewrite part_lookup by (apply Hs || lia). by rewrite Hb.
  - done.
  - intros va Hoff. rewrite Hsp3, Hout by (done || (intros i Hi; replace (p_vaddr p + i * PGSIZE) with ((first_page p + i) * PGSIZE) by lia; by apply Hoff)). done.
Qed.

(** ** The program headers *)

(** The [i]-th program header of the image is [p]. *)
Definition header_at (elf : ehdr) (i : Z) (p : phdr) : Prop :=
  let off := e_phoff elf + i * sizeof_phdr h in
  off + sizeof_phdr h ≤ Z.of_nat (length img) ∧ phdr_of h (part img off (sizeof_phdr h)) = p.

Definition is_load (p : phdr) : Prop := p_type p = PT_LOAD h.

(** The pages that loading [ps] takes at most: the segments and their tables. *)
Fixpoint page_budget (ps : list phdr) : nat :=
  match ps with
  | [] => 0
  | p :: ps => (if decide (p_type p = PT_LOAD h) then 4 * Z.to_nat (pages p) else 0) + page_budget ps
  end.

(** Two program headers: if both are segments, they share no page. *)
Definition disjoint_segments (p p' : phdr) : Prop :=
  is_load p → is_load p' → first_page p + pages p ≤ first_page p' ∨ first_page p' + pages p' ≤ first_page p.

Definition load_ok (p : phdr) : Prop := is_load p → segment_ok p.

(** The last PT_PHDR. *)
Fixpoint phdr_address (ps : list phdr) (a : Z) : Z :=
  match ps with
  | [] => a
  | p :: ps => phdr_address ps (if decide (p_type p = PT_LOAD h) then a else if decide (p_type p = PT_PHDR h) then p_vaddr p else a)
  end.

Lemma vpn_first p i : segment_ok p → 0 ≤ i < pages p → vpn ((first_page p + i) * PGSIZE) = first_page p + i.
Proof. intros Hs Hi. destruct (pages_spec p Hs) as (_ & _ & _ & H0 & H35). apply vpn_lower. lia. Qed.

Lemma disjoint_off p p' i :
  segment_ok p → segment_ok p' → is_load p → is_load p' → disjoint_segments p p' → 0 ≤ i < pages p' →
  off_segment p ((first_page p' + i) * PGSIZE).
Proof. intros Hs Hs' Hl Hl' Hd Hi j Hj. rewrite !vpn_first by done. destruct (Hd Hl Hl'); lia. Qed.

(** What later steps keep of a loaded segment. *)
Lemma loaded_step mi Li m L m' L' p :
  loaded mi Li m L p → 0 < pages p → p_filesz p ≤ pages p * PGSIZE → (∀ a c, private m N L a c → private m' N L' a c) →
  (∀ q b, 0 ≤ q → q + pages p ≤ N → fresh mi Li q (pages p) → private m N L (P2V (q * PGSIZE)) (pages p * PGSIZE) →
     P2V (q * PGSIZE) ≤ b < P2V (q * PGSIZE) + pages p * PGSIZE → rd8 (mm_mem m') b = rd8 (mm_mem m) b) →
  (∀ i, 0 ≤ i < pages p → space m' r ((first_page p + i) * PGSIZE) = space m r ((first_page p + i) * PGSIZE)) → loaded mi Li m' L' p.
Proof.
  clear Hpf Hlen. intros (q & Hq & Hqn & Hfr & Hp & Hsp & Hb) Hn Hf Hpriv E Hsame. exists q. split; [done|split; [done|split; [done|]]].
  split; [by apply Hpriv|split].
  - intros i Hi. rewrite Hsame by done. by apply Hsp.
  - intros i b Hi Hi'. rewrite (E q) by (done || lia). by apply Hb.
Qed.

Lemma loaded_keeps mi Li m L m' L' p :
  loaded mi Li m L p → 0 < pages p → p_filesz p ≤ pages p * PGSIZE → keeps m L m' L' →
  (∀ i, 0 ≤ i < pages p → space m' r ((first_page p + i) * PGSIZE) = space m r ((first_page p + i) * PGSIZE)) → loaded mi Li m' L' p.
Proof.
  intros Hld Hn Hf Hk. apply (loaded_step mi Li m L); [done..|intros a c Hp; by apply Hk|].
  intros q b _ _ _ Hp Hb. by apply (Hk _ _ Hp).
Qed.

Lemma loaded_from mi Li mj Lj m L p : (∀ a c, private mi N Li a c → private mj N Lj a c) → loaded mj Lj m L p → loaded mi Li m L p.
Proof.
  intros Hk (q & Hq & Hqn & Hfr & H). exists q. split; [done|split; [done|split; [|done]]].
  intros a c b Hp. apply Hfr. by apply Hk.
Qed.

Lemma load_phdrs_ok elf k ps : ∀ i ph aux m L,
  0 ≤ e_phoff elf → 0 ≤ i → 0 < sizeof_phdr h < 2 ^ 31 →
  (∀ j p, ps !! j = Some p → header_at elf (i + Z.of_nat j) p) →
  ready m L → tail m N (page_budget ps + k) → Forall load_ok ps → ForallOrdPairs disjoint_segments ps →
  (∀ p, p ∈ ps → is_load p → ∀ j, 0 ≤ j < pages p → space m r ((first_page p + j) * PGSIZE) = None) →
  ∃ m' L', load_phdrs h pf junk (length ps) i vn vmap elf ph aux (set_y_mm m s0) =
      Ok (Auxval (at_entry aux) (phdr_address ps (at_phdr aux)) (at_phent aux) (at_phnum aux), set_y_mm m' s0) ∧
    ready m' L' ∧ tail m' N k ∧ (∀ p, p ∈ ps → is_load p → loaded m L m' L' p) ∧ keeps m L m' L' ∧
    ∀ va, (∀ p, p ∈ ps → is_load p → off_segment p va) → space m' r va = space m r va.
Proof.
  induction ps as [|p ps IH]; intros i ph aux m L He Hi Hsz Hhdr Hrd Htail Hok Hdis Hnone.
  { exists m, L. split; [by destruct aux|]. split; [done|split; [done|split; [by intros p Hp%not_elem_of_nil|split; [|done]]]].
    intros a c Hp. done. }
  inversion Hdis as [|? ? Hhd Htl]; subst. destruct (Hhdr 0%nat p eq_refl) as [Hend Hp]. rewrite Z.add_0_r in Hend, Hp. set (off := e_phoff elf + i * sizeof_phdr h) in *.
  assert (0 ≤ off) as Hoff by (unfold off; nia).
  assert (i64 (u64 (e_phoff elf + u64 (i * sizeof_phdr h))) = off) as Eoff.
  { assert (0 ≤ i * sizeof_phdr h ≤ off) by (unfold off in *; nia). rewrite (u64_small (i * _)) by lia. fold off.
    rewrite u64_small by lia. unfold i64. rewrite Z.mod_small; lia. }
  apply Forall_cons in Hok as [Hpok Hok].
  assert (∀ j p', ps !! j = Some p' → header_at elf (i + 1 + Z.of_nat j) p') as Hhdr'.
  { intros j p' Hj. replace (i + 1 + Z.of_nat j) with (i + Z.of_nat (S j)) by lia. by apply Hhdr. }
  cbn [length load_phdrs]. rewrite Eoff, (bind_ok _ _ _ _ _ (read_struct_ok off (sizeof_phdr h) m Hoff ltac:(lia) Hend)).
  cbn beta iota zeta. rewrite Hp. cbn [page_budget phdr_address] in *. destruct (decide (p_type p = PT_LOAD h)) as [Hl|Hl].
  - assert (segment_ok p) as Hs by (by apply Hpok). rewrite <-Nat.add_assoc in Htail.
    destruct (load_segment_ok p m L (page_budget ps + k) Hrd Htail Hs) as (m1 & L1 & E1 & Hrd1 & Ht1 & Hld & Hk1 & Hsp1).
    { apply Hnone; [by left|done]. }
    rewrite Forall_forall in Hhd.
    assert (∀ p' j, p' ∈ ps → is_load p' → 0 ≤ j < pages p' → off_segment p ((first_page p' + j) * PGSIZE)) as Hoffs.
    { intros p' j Hin Hl' Hj. apply disjoint_off; try done; [|by apply Hhd]. rewrite Forall_forall in Hok. by apply Hok. }
    destruct (IH (i + 1) (Some p) aux m1 L1) as (m2 & L2 & E2 & Hrd2 & Ht2 & Hld2 & Hk2 & Hsp2); try (done || lia).
    { intros p' Hin Hl' j Hj. rewrite Hsp1 by (by apply Hoffs). apply Hnone; [by right|done|done]. }
    exists m2, L2. split; [|split; [done|split; [done|split; [|split]]]].
    + rewrite (bind_ok (load_segment h pf junk vn vmap p;; mret aux) _ _ aux (set_y_mm m1 s0)).
      * exact E2.
      * by rewrite (bind_ok _ _ _ _ _ E1).
    + intros p' [->|Hin]%elem_of_cons Hl'; [|by apply (loaded_from m L m1 L1); [intros a c Ha; by apply Hk1|by apply Hld2]]. destruct (pages_spec p Hs) as (Hpg & Hn0 & _). pose proof (so_filesz p Hs).
      apply (loaded_keeps m L m1 L1); try done; [lia|]. intros j Hj. apply Hsp2. intros p' Hin Hl''.
      apply disjoint_off; try done; [rewrite Forall_forall in Hok; by apply Hok|].
      intros _ _. destruct (Hhd p' Hin Hl Hl''); [by right|by left].
    + by apply (keeps_trans _ _ m1 L1).
    + intros va Hva. rewrite Hsp2 by (intros p' Hin; apply Hva; by right). apply Hsp1. apply Hva; [by left|done].
  - destruct (IH (i + 1) (Some p) (if decide (p_type p = PT_PHDR h) then Auxval (at_entry aux) (p_vaddr p) (at_phent aux) (at_phnum aux) else aux) m L)
      as (m2 & L2 & E2 & Hrd2 & Ht2 & Hld2 & Hk2 & Hsp2); try (done || lia).
    { intros p' Hin. apply Hnone. by right. }
    exists m2, L2. split; [|split; [done|split; [done|split; [|split; [done|]]]]].
    + case_decide; (rewrite (bind_ok _ _ _ _ _ eq_refl); exact E2).
    + intros p' [->|Hin]%elem_of_cons Hl'; [done|by apply Hld2].
    + intros va Hva. apply Hsp2. intros p' Hin. apply Hva. by right.
Qed.

End load.

(** ** The file, and the program in memory *)

(** The image [img] starts with the header [elf] and has the program headers [ps]. *)
Record image (h : elf_h) (img : list Z) (elf : ehdr) (ps : list phdr) : Prop := {
  im_length : Z.of_nat (length img) < 2 ^ 63;
  im_sizes : 0 < sizeof_ehdr h < 2 ^ 31 ∧ 0 < sizeof_phdr h < 2 ^ 31;
  im_ehdr : sizeof_ehdr h ≤ Z.of_nat (length img) ∧ ehdr_of h (part img 0 (sizeof_ehdr h)) = elf;
  im_phoff : 0 ≤ e_phoff elf;
  im_phnum : e_phnum elf = Z.of_nat (length ps);
  im_phdrs : ∀ j p, ps !! j = Some p → header_at h img elf (Z.of_nat j) p;
  im_segments : Forall (load_ok h img) ps;
  im_disjoint : ForallOrdPairs (disjoint_segments h) ps }.

(** What the program finds at the address [va]: the byte [b], with the permissions of [p]. *)
Definition finds (h : elf_h) (m : mm) (r : Z) (p : phdr) (va b : Z) : Prop :=
  ∃ e pa, space m r va = Some e ∧ translate m r va = Some pa ∧ rd8 (mm_mem m) (P2V pa) = u8 b ∧
    Z.testbit e 2 = true ∧ Z.testbit e 1 = bool_decide (Z.land (p_flags p) (PF_W h) ≠ 0) ∧
    Z.testbit e 63 = bool_decide (Z.land (p_flags p) (PF_X h) = 0).

Lemma segment_flags_bits h p :
  PTE_GET_ADDR (segment_flags h p) = 0 ∧ Z.testbit (segment_flags h p) 2 = true ∧
  Z.testbit (segment_flags h p) 1 = bool_decide (Z.land (p_flags p) (PF_W h) ≠ 0) ∧
  Z.testbit (segment_flags h p) 63 = bool_decide (Z.land (p_flags p) (PF_X h) = 0).
Proof. unfold segment_flags, bool_decide. repeat case_decide; split_and!; by vm_compute. Qed.

(** A byte of a page and the entry of the page. *)
Lemma page_of f i : 0 ≤ i → 0 ≤ f →
  vpn (f * PGSIZE + i) = vpn ((f + i / PGSIZE) * PGSIZE) ∧ (f * PGSIZE + i) mod PGSIZE = i mod PGSIZE.
Proof.
  intros Hi Hf. split; [|rewrite Z.add_comm; by apply Z.mod_add].
  unfold vpn. by rewrite Z.div_mul, (Z.add_comm _ i), Z.div_add, Z.add_comm.
Qed.

Lemma entry_bits q i flags b : (b < 12 ∨ b = 63) → 0 ≤ b → 0 ≤ q + i < 2 ^ 35 →
  Z.testbit (u64 (Z.lor ((q + i) * PGSIZE) flags)) b = Z.testbit flags b.
Proof.
  intros Hb Hb0 Hq. unfold u64. rewrite Z.mod_pow2_bits_low, Z.lor_spec by lia. destruct Hb as [Hb| ->].
  - change PGSIZE with (2 ^ 12). by rewrite Z.mul_pow2_bits_low.
  - rewrite (Z.bits_above_log2 ((q + i) * PGSIZE)); [done|unfold PGSIZE; lia|]. destruct (decide (q + i = 0)) as [->|]; [done|].
    apply Z.log2_lt_pow2; unfold PGSIZE; lia.
Qed.

Lemma loaded_finds h img r N mi Li m L p i b :
  N ≤ 2 ^ 35 → segment_ok img p → loaded h img r N mi Li m L p → 0 ≤ i < p_filesz p → img !! Z.to_nat (p_offset p + i) = Some b →
  finds h m r p (p_vaddr p + i) b.
Proof.
  intros HN Hs (q & Hq & Hqn & _ & _ & Hsp & Hby) Hi Hb. pose proof (pages_spec img p Hs) as (Hpg & Hn0 & Hva & Hf0 & _).
  pose proof (so_filesz img p Hs). rewrite Hva. destruct (page_of (first_page p) i) as [Hv Hm]; [lia|done|].
  assert (0 ≤ i / PGSIZE < pages p) as Hj by (split; [apply Z.div_pos; [lia|done]|apply Z.div_lt_upper_bound; [done|lia]]).
  destruct (segment_flags_bits h p) as (Ha & H2 & H1 & H63).
  assert (space m r (first_page p * PGSIZE + i) = Some (seg_entry h p q (i / PGSIZE))) as Es by (rewrite (space_vpn _ _ _ _ Hv); by apply Hsp).
  eexists _, _. split; [exact Es|]. unfold seg_entry in *. split.
  { unfold translate. rewrite Es. cbn [mbind option_bind]. rewrite entry_addr by (done || lia). by rewrite Hm. }
  rewrite !entry_bits by lia. split; [|done]. rewrite <-(Hby i b Hi Hb). f_equal.
  replace ((q + i / PGSIZE) * PGSIZE + i mod PGSIZE) with (q * PGSIZE + i) by (pose proof (page_offset i); lia).
  unfold P2V, HHDM_OFFSET. rewrite !u64_small by (unfold PGSIZE in *; lia). lia.
Qed.

Lemma elem_load h img ps p : Forall (load_ok h img) ps → p ∈ ps → is_load h p → segment_ok img p.
Proof. rewrite Forall_forall. intros H Hp Hl. by apply H. Qed.
