(* ===== verification/ExecRun.v ===== *)
(** * [exec] up to the start of the process

    [loadelf] on a file of the tree, and [exec_prepare]: the new address space
    with the program and its stack, the arguments on the stack, and the saved
    registers with which the process will enter user mode. *)

From S2P Require Import Prelude CString CStringSpec Word Pmm PmmSpec Slab SlabSpec Vmm VmmSpec VmmSpace VmmKernel VmmMaps VmmRun.
From S2P Require Import Args Proc ProcSpec Desc FsState Ramfs RamfsDir RamfsOps RamfsInv RamfsSpec RamfsLookup Vfs VfsRefs VfsPath VfsOps VfsSpec Initramfs InitramfsSpec Exec ExecSpec.

Local Open Scope Z_scope.

Lemma loadelf_ok h fuel stk pf junk name cs d x img elf ps vmap r N L LT s aux k :
  vfs_inv [] L (y_fs s) → rooted (y_fs s) d → path_ok name cs → find (view L (y_fs s)) d cs = At d x →
  holds (view L (y_fs s)) x img → image h img elf ps →
  ready vmap r N (y_mm s) LT → tail (y_mm s) N (page_budget h ps + k) → N ≤ Z.of_nat pf →
  (∀ p, p ∈ ps → is_load h p → ∀ j, 0 ≤ j < pages p → space (y_mm s) r ((first_page p + j) * PGSIZE) = None) →
  ∃ t m LT', loadelf h (S fuel) stk pf junk name vmap aux s =
      Ok (Auxval (e_entry elf) (phdr_address h ps (at_phdr aux)) (e_phentsize elf) (e_phnum elf),
          set_y_mm m (Sys t (y_ker s) (y_kmap s) (y_gdt s) (y_cr3 s))) ∧
    vfs_inv [] L t ∧ view L t = view L (y_fs s) ∧ ready vmap r N m LT' ∧ tail m N k ∧ keeps N (y_mm s) LT m LT' ∧
    (∀ p, p ∈ ps → is_load h p → loaded h img r N (y_mm s) LT m LT' p) ∧
    ∀ va, (∀ p, p ∈ ps → is_load h p → off_segment p va) → space m r va = space (y_mm s) r va.
Proof.
  intros Hi Hr Hpath Hf Hh [Hlen [Hs1 Hs2] [Hse Helf] Hoff Hnum Hph Hok Hdis] Hrd Ht Hpf Hnone.
  assert (img ≠ []) as Hne by (intros ->; simpl in Hse; lia).
  destruct (open_reads fuel stk L (y_fs s) d name cs d x UNINIT img) as (a & t & E & Hit & Ev & Ha & Hreads); try done.
  set (s0 := Sys t (y_ker s) (y_kmap s) (y_gdt s) (y_cr3 s)).
  assert (reads a img (y_fs s0)) as Hreads'.
  { intros off n Ho Hn Hl. apply Hreads; lia. }
  assert (0 < a) as Ha0.
  { destruct Ha as (v & Hv & _). apply (rk_vnodes _ _ (vi_ok _ _ _ Hit)). by eexists. }
  destruct (load_phdrs_ok h pf junk a img s0 vmap r N Hpf Hlen Hreads' elf k ps 0 None aux (y_mm s) LT)
    as (m & LT' & E2 & Hrd' & Ht' & Hld & Hk & Hsp); try done.
  assert (set_y_mm (y_mm s) s0 = s0) as Es0 by (unfold s0; destruct s as [? [] ? ? ?]; reflexivity).
  exists t, m, LT'. split.
  - unfold loadelf. rewrite (bind_ok _ _ s (0, a) s0); [|unfold in_yfs, lift; by rewrite E].
    rewrite decide_False by (unfold UNINIT; lia).
    pose proof (read_struct_ok a img s0 Hreads' 0 (sizeof_ehdr h) (y_mm s) ltac:(done) ltac:(lia) Hse) as E1. rewrite Es0 in E1.
    rewrite (bind_ok _ _ _ _ _ E1). cbn zeta. rewrite Helf, Hnum, Nat2Z.id. rewrite Es0 in E2.
    by rewrite (bind_ok _ _ _ _ _ E2).
  - split; [done|split; [by apply view_evolve|done]].
Qed.

(** ** The new address space *)

Lemma in_ymem_ok {A} (f : K mem A) s m a m' : f (mm_mem m) = Ok (a, m') → in_ymem f (set_y_mm m s) = Ok (a, set_y_mm (with_mem m' m) s).
Proof. intros E. unfold in_ymem, lift. change (mm_mem (y_mm (set_y_mm m s))) with (mm_mem m). by rewrite E. Qed.

Lemma store_yok a v m s : in_ymm (store64 a v) (set_y_mm m s) = Ok (tt, set_y_mm (with_mem (wr64 (mm_mem m) a v) m) s).
Proof. done. Qed.

Lemma load_yok a m s : in_ymm (load64 a) (set_y_mm m s) = Ok (rd64 (mm_mem m) a, set_y_mm m s).
Proof. done. Qed.

(** Free pages hold no entries in their lower half, as zeroed pages do. *)
Definition clean (m : mm) (N : Z) : Prop :=
  ∀ t j, page N t → tk m (t / PGSIZE) = false → 0 ≤ j < 256 → present (entry (mm_mem m) t j) = false.

(** [newvm_map] as [exec] uses it. *)
Lemma newvm_step pf fuel N LT kr vmap m0 n s :
  Slab.kalloc pf fuel sizeof_vm_map (y_mm s) = Ok (vmap, m0) → newvm_ready (Vmm (y_mm s) (y_kmap s)) N LT kr vmap m0 →
  clean m0 N → tail m0 N (S n) → N ≤ Z.of_nat pf →
  ∃ r m1, in_yvmm (newvm_map pf fuel) s = Ok (vmap, set_y_mm m1 s) ∧ ready vmap r N m1 (<[r := []]> LT) ∧ tail m1 N n ∧
    (∀ va, space m1 r va = if decide (upper_half va) then space m0 kr va else None) ∧
    ∀ a c, private m0 N LT a c → private m1 N (<[r := []]> LT) a c ∧
      ∀ b, a ≤ b < a + c → ¬ (vmap ≤ b < vmap + 8) → rd8 (mm_mem m1) b = rd8 (mm_mem m0) b.
Proof.
  intros E Hrd Hcl Ht Hpf. pose proof (nr_ok _ _ _ _ _ _ Hrd) as Hok. pose proof (nr_root _ _ _ _ _ _ Hrd) as Hkr.
  destruct (newvm_map_ok (R := tail) pf fuel N LT (Vmm (y_mm s) (y_kmap s)) kr vmap m0 n E Hrd Ht Hpf)
    as (r & m1 & Er & Hv & Hp & Hf & Hk & Hnone & Hents & Hsame & Ht1 & Hok1 & Hpriv).
  assert (∀ va, in_range (index 3 va)) as Hr3 by (intros va; by apply index_range).
  exists r, m1. split; [unfold in_yvmm, lift; by rewrite Er|split; [|split; [done|split; [|done]]]].
  - constructor; [apply Hok1; intros j Hj; by apply Hcl|by rewrite lookup_insert, decide_True|by apply Hpriv, (nr_vpriv _ _ _ _ _ _ Hrd)|done].
  - intros va. case_decide as Hva; rewrite upper_index in Hva.
    + apply (same_entry_space _ _ N LT); [done|done|by apply (same_entries_walks m0 m1 N LT)|]. rewrite Hents by done. by rewrite decide_True.
    + specialize (Hr3 va). unfold in_range in Hr3. unfold space, indices. cbn [pte_at].
      rewrite Hents, decide_False by (done || lia). by rewrite Hcl by (done || lia).
Qed.

(** Writing private memory away from the map. *)
Lemma write_ready vmap r N m L m' a n k :
  ready vmap r N m L → private m N L a n → (∀ b, ¬ (a ≤ b < a + n) → rd8 m' b = rd8 (mm_mem m) b) → VmmMaps.apart a n vmap 8 → tail m N k →
  ready vmap r N (with_mem m' m) L ∧ tail (with_mem m' m) N k ∧ (∀ va, space (with_mem m' m) r va = space m r va) ∧
  ∀ b c, private m N L b c → private (with_mem m' m) N L b c.
Proof.
  intros [Hok Hr Hpr Htop] Hp Hm Hap Ht. destruct (write_private m N L m' a n Hok Hp Hm) as (Hok' & Htk & Hsp).
  assert (∀ b c, private m N L b c → private (with_mem m' m) N L b c) as Hpriv by (intros b c; by apply private_same).
  split; [|split; [by apply (res_same m)|split; [intros va; by apply Hsp|done]]]. constructor; [done|done|by apply Hpriv|].
  rewrite <-Htop. apply rdn_ext. intros b Hb. rewrite mm_mem_with. apply Hm. unfold VmmMaps.apart, map_top_level in *. simpl in Hb. lia.
Qed.

(** The argument list lies in the [c] bytes at [A]. *)
Definition arg_block (A c : Z) (m : mem) (argv : ptr) (ptrs : list ptr) (strs : list string) : Prop :=
  ∀ m' lo hi, (∀ b, A ≤ b < A + c → rd8 m' b = rd8 m b) → clear_of lo hi A c → arg_list m' lo hi argv 0 ptrs strs.

Definition USER_STACK : Z := 0x70000000000.

(** The registers [exec] stores, before the arguments are on the stack. *)
Definition regs_mem (regs entry : Z) (m : mem) : mem :=
  wr64 (wr64 (wr64 (wr64 (wr64 m (regs_rsp regs) (USER_STACK + STACKSIZE)) (regs_rip regs) entry) (regs_cs regs) 0x43)
    (regs_ss regs) 0x3b) (regs_eflags regs) 0x202.

Lemma regs_mem_outside regs entry m b : ¬ (regs ≤ b < regs + 128) → rd8 (regs_mem regs entry m) b = rd8 m b.
Proof.
  intros Hb. unfold regs_mem, regs_rsp, regs_rip, regs_cs, regs_ss, regs_eflags. by rewrite !rd8_wr64_ne by lia.
Qed.

(** What a return to the saved registers loads. *)
Record user_context (m : mem) (regs entry sp : Z) : Prop := {
  uc_rip : rd64 m (regs_rip regs) = entry;
  uc_rsp : rd64 m (regs_rsp regs) = sp;
  uc_cs : rd64 m (regs_cs regs) = 0x43;
  uc_ss : rd64 m (regs_ss regs) = 0x3b;
  uc_eflags : rd64 m (regs_eflags regs) = 0x202 }.

Lemma regs_mem_context regs entry m m' sp :
  word64 entry → word64 sp → (∀ b, regs ≤ b < regs + 128 → rd8 m' b = rd8 (regs_mem regs entry m) b) →
  user_context (wr64 m' (regs_rsp regs) sp) regs entry sp.
Proof.
  unfold word64. intros He Hsp Hm'.
  assert (∀ a, regs ≤ a → a + 8 ≤ regs + 128 → (a + 8 ≤ regs_rsp regs ∨ regs_rsp regs + 8 ≤ a) →
    rd64 (wr64 m' (regs_rsp regs) sp) a = rd64 (regs_mem regs entry m) a) as Hrd.
  { intros a Ha Ha' Hap. apply rd64_same. intros b Hb. rewrite rd8_wr64_ne by lia. apply Hm'. lia. }
  constructor; [|by rewrite rd64_wr64_eq, u64_small| | |];
    (rewrite Hrd by (unfold regs_rsp, regs_rip, regs_cs, regs_ss, regs_eflags; lia));
    unfold regs_mem, regs_rsp, regs_rip, regs_cs, regs_ss, regs_eflags, USER_STACK, STACKSIZE;
    rewrite ?rd64_wr64_ne by lia; rewrite rd64_wr64_eq, u64_small by lia; done.
Qed.

(** ** The arguments *)

(** The bytes that [copyargs] takes of the stack. *)
Definition args_size (strs : list string) : Z := 96 + 8 * Z.of_nat (length strs) + foldr (λ s n, slen s + 1 + n) 0 strs.

Lemma bottom_size top strs : bottom top strs - 96 - 8 * Z.of_nat (length strs) = top - args_size strs.
Proof.
  unfold args_size. assert (bottom top strs = top - foldr (λ s n, slen s + 1 + n) 0 strs) as ->; [|lia].
  revert top. induction strs as [|s strs IH]; intros top; cbn [bottom foldr]; [lia|]. rewrite IH. lia.
Qed.

Lemma args_size_min strs : 96 ≤ args_size strs.
Proof. pose proof (bottom_size 0 strs). pose proof (bottom_le 0 strs). lia. Qed.

(** What the program finds on its stack, without the pair that ends the
    auxiliary vector. *)
Record user_args (m : mem) (e ph pe pn : Z) (aux : auxval) (top sp : Z) (strs : list string) : Prop := {
  ua_argc : rd64 m sp = Z.of_nat (length strs);
  ua_argv k q : places top strs !! k = Some q → rd64 m (sp + 8 + 8 * Z.of_nat k) = q;
  ua_strings : Forall2 (cstr m) (places top strs) strs;
  ua_aux : (λ k, rd64 m (sp + 8 + 8 * Z.of_nat (length strs) + 8 * k)) <$> seqZ 0 9 =
    [0; pn; at_phnum aux; pe; at_phent aux; ph; at_phdr aux; e; at_entry aux] }.

Lemma places_length top strs : length (places top strs) = length strs.
Proof. revert top. induction strs as [|s strs IH]; intros top; cbn [places length]; [done|]. by rewrite IH. Qed.

Lemma user_args_same m m' e ph pe pn aux top strs :
  let sp := bottom top strs - 96 - 8 * Z.of_nat (length strs) in
  user_args m e ph pe pn aux top sp strs → (∀ b, sp ≤ b < top → rd8 m' b = rd8 m b) → user_args m' e ph pe pn aux top sp strs.
Proof.
  intros sp [H1 H2 H3 H4] Hm. pose proof (bottom_le top strs) as Hb.
  assert (∀ a, sp ≤ a → a + 8 ≤ top → rd64 m' a = rd64 m a) as Hrd by (intros a Ha Ha'; apply rd64_same; intros b Hb'; apply Hm; lia).
  constructor.
  - by rewrite Hrd by lia.
  - intros k q Hk. pose proof (lookup_lt_Some _ _ _ Hk) as Hl. rewrite places_length in Hl. rewrite Hrd by lia. by apply H2.
  - apply (strings_same m); [done|]. intros a Ha. apply Hm. lia.
  - rewrite <-H4. apply list_fmap_ext. intros j k Hk. apply list_elem_of_lookup_2, elem_of_seqZ in Hk. apply Hrd; lia.
Qed.

Lemma user_args_of m m1 m2 e ph pe pn aux top strs :
  let sp := bottom top strs - 96 - 8 * Z.of_nat (length strs) in
  arg_stack m m1 e ph pe pn aux top sp strs → (∀ b, sp ≤ b < top → rd8 m2 b = rd8 m1 b) → user_args m2 e ph pe pn aux top sp strs.
Proof.
  intros sp [H1 H2 H3 H4 _]. apply user_args_same. constructor; [done..|].
  apply (f_equal (take 9)) in H4. by rewrite <-fmap_take in H4.
Qed.

(** Two disjoint ranges. *)
Lemma ranges_apart a n lo hi : 0 < n → lo < hi → (∀ b, a ≤ b < a + n → ¬ (lo ≤ b < hi)) → a + n ≤ lo ∨ hi ≤ a.
Proof. intros Hn Hlh H. destruct (decide (a + n ≤ lo ∨ hi ≤ a)) as [|Hno]; [done|]. destruct (H (Z.max a lo)); lia. Qed.

(** ** The whole *)

(** The segments of the program lie in the lower half and off its stack. *)
Definition user_segment (h : elf_h) (p : phdr) : Prop :=
  is_load h p → first_page p + pages p ≤ 0x70000000 ∨ 0x70000040 ≤ first_page p ∧ first_page p + pages p ≤ 2 ^ 35.

(** The processes and the memory that [exec_prepare] needs: the reserve of pages is
    one for the root, what the program takes, and 64 pages of stack with three tables each. *)
Record exec_ready (h : elf_h) (pf fuel : nat) (ps : list phdr) (N : Z) (LT : gmap Z (list Z)) (kr vmap : Z) (m0 : mm)
    (i : nat) (p : proc) (A c : Z) (argv : ptr) (ptrs : list ptr) (strs : list string) (s : sys) (k : nat) : Prop := {
  xr_pages : N ≤ 2 ^ 34;
  xr_gs : k_gs (y_ker s) = Some i;
  xr_proc : k_table (y_ker s) !! i = Some p;
  xr_kalloc : Slab.kalloc pf fuel sizeof_vm_map (y_mm s) = Ok (vmap, m0);
  xr_vm : newvm_ready (Vmm (y_mm s) (y_kmap s)) N LT kr vmap m0;
  xr_clean : clean m0 N;
  xr_tail : tail m0 N (S (page_budget h ps + (256 + k)));
  xr_regs : private m0 N LT (p_regs p) 128;
  xr_args : private m0 N LT A c;
  xr_nonempty : 0 < c;
  xr_regs_vmap : VmmMaps.apart (p_regs p) 128 vmap 8;
  xr_args_vmap : VmmMaps.apart A c vmap 8;
  xr_args_regs : VmmMaps.apart A c (p_regs p) 128;
  xr_argv : arg_block A c (mm_mem m0) argv ptrs strs }.

Definition STACK_FLAGS : Z := Z.lor (Z.lor PTE_PRESENT PTE_RW) PTE_USER.

(** The stack of 64 pages from page [q] on: mapped for user mode, and its end. *)
Definition user_stack (m : mm) (r q : Z) : Prop :=
  ∀ j, 0 ≤ j < 64 → space m r (USER_STACK + j * PGSIZE) = Some (u64 (Z.lor ((q + j) * PGSIZE) STACK_FLAGS)).

Definition stack_top (q : Z) : Z := P2V (q * PGSIZE) + STACKSIZE.

Lemma stack_step pf N r vmap L m k :
  ready vmap r N m L → tail m N (256 + k) → N ≤ Z.of_nat pf →
  (∀ j, 0 ≤ j < 64 → space m r (USER_STACK + j * PGSIZE) = None) →
  ∃ q m1 m2 L2, in_pmm (palloc pf 64) m = Ok (q * PGSIZE, m1) ∧ rd64 (mm_mem m1) (map_top_level vmap) = P2V r ∧
    mappages pf (P2V r) USER_STACK (q * PGSIZE) STACKSIZE STACK_FLAGS m1 = Ok (0, m2) ∧
    0 ≤ q ∧ q + 64 ≤ N ∧ (∀ j, q ≤ j < q + 64 → tk m j = false) ∧ ready vmap r N m2 L2 ∧ tail m2 N k ∧ keeps N m L m2 L2 ∧
    private m2 N L2 (P2V (q * PGSIZE)) STACKSIZE ∧ user_stack m2 r q ∧
    ∀ va, (∀ j, 0 ≤ j < 64 → vpn va ≠ vpn (USER_STACK + j * PGSIZE)) → space m2 r va = space m r va.
Proof.
  intros [Hok Hr Hpr Htop] Ht Hpf Hnone.
  destruct (map_run_ok pf N r m L USER_STACK 64 STACK_FLAGS k)
    as (q & m1 & m2 & L2 & E1 & Hex1 & E2 & Hq & Hqn & Hfree & Hok2 & Hex2 & Ht2 & Hrun & Hin & Hout); try done.
  pose proof (keeps_trans _ _ _ _ _ _ _ (extends_keeps _ _ _ _ _ Hex1) (extends_keeps _ _ _ _ _ Hex2)) as Hk.
  destruct (Hk _ _ Hpr) as [Hpr2 Etop].
  exists q, m1, m2, L2. split; [done|split; [rewrite <-Htop; by apply (private_kept m m1 N L L)|split; [done|]]].
  do 3 (split; [done|]). split; [|done]. constructor; [done| |done|].
  - by apply (lookup_weaken L); [|apply Hex2].
  - rewrite <-Htop. by apply rd64_same.
Qed.

(** The registers and the arguments, once the stack is mapped. *)
Lemma args_step fuel e ph pe pn aux argv ptrs strs regs vmap r N q m L k :
  let lo := P2V (q * PGSIZE) in let top := stack_top q in let sp := top - args_size strs in
  let m1 := regs_mem regs (at_entry aux) (mm_mem m) in
  ready vmap r N m L → tail m N k → private m N L regs 128 → private m N L lo STACKSIZE →
  VmmMaps.apart regs 128 vmap 8 → VmmMaps.apart lo STACKSIZE vmap 8 → VmmMaps.apart lo STACKSIZE regs 128 →
  0 ≤ lo → top < 2 ^ 64 → args_size strs ≤ STACKSIZE → (length strs < fuel)%nat →
  Forall word64 [e; ph; pe; pn; at_entry aux; at_phdr aux; at_phent aux; at_phnum aux] →
  arg_list m1 sp top argv 0 ptrs strs →
  ∃ m2, copyargs fuel e ph pe pn top argv aux m1 = Ok (sp, m2) ∧ rd64 m2 (regs_rsp regs) = USER_STACK + STACKSIZE ∧
    let m3 := wr64 m2 (regs_rsp regs) (USER_STACK + STACKSIZE - args_size strs) in
    ready vmap r N (with_mem m3 m) L ∧ tail (with_mem m3 m) N k ∧ (∀ va, space (with_mem m3 m) r va = space m r va) ∧
    (∀ b c, private m N L b c → private (with_mem m3 m) N L b c) ∧
    (∀ b, ¬ (regs ≤ b < regs + 128) → ¬ (lo ≤ b < top) → rd8 m3 b = rd8 (mm_mem m) b) ∧
    user_context m3 regs (at_entry aux) (USER_STACK + STACKSIZE - args_size strs) ∧ user_args m3 e ph pe pn aux top sp strs.
Proof.
  intros lo top sp m1 Hrd Ht Hpr Hps Hrv Hsv Hsr H0 H64 Hsz Hf Hw Hargs. unfold VmmMaps.apart in *.
  assert (top = lo + STACKSIZE) as Etop by done. assert (lo ≤ sp) as Hsp by (unfold sp; lia).
  pose proof (args_size_min strs) as Hmin.
  destruct (copyargs_ok fuel e ph pe pn aux argv ptrs strs top m1) as (m2 & E & Has); rewrite ?bottom_size; try done; [lia|].
  rewrite bottom_size in E, Has. fold sp in E, Has. pose proof (as_outside _ _ _ _ _ _ _ _ _ _ Has) as Hout.
  exists m2. split; [done|].
  assert (∀ b, regs ≤ b < regs + 128 → rd8 m2 b = rd8 m1 b) as Hregs by (intros b Hb; apply Hout; lia).
  assert (∀ b, ¬ (regs ≤ b < regs + 128) → rd8 m1 b = rd8 (mm_mem m) b) as Hm1 by (intros b Hb; by apply regs_mem_outside).
  split.
  { transitivity (rd64 m1 (regs_rsp regs)); [apply rd64_same; intros b Hb; apply Hregs; unfold regs_rsp in Hb; lia|].
    unfold m1, regs_mem, regs_rsp, regs_rip, regs_cs, regs_ss, regs_eflags. rewrite !rd64_wr64_ne by lia. by rewrite rd64_wr64_eq. }
  set (v := USER_STACK + STACKSIZE - args_size strs). cbv zeta. set (m3 := wr64 m2 (regs_rsp regs) v).
  assert (∀ b, ¬ (regs ≤ b < regs + 128) → rd8 m3 b = rd8 m2 b) as Hm3 by (intros b Hb; unfold m3; apply rd8_wr64_ne; unfold regs_rsp; lia).
  destruct (write_ready vmap r N m L m1 regs 128 k) as (Rd1 & T1 & S1 & P1); [done|done|done|done|done|].
  destruct (write_ready vmap r N (with_mem m1 m) L m2 lo STACKSIZE k) as (Rd2 & T2 & S2 & P2);
    [done|by apply P1| |done|done|].
  { intros b Hb. rewrite mm_mem_with. apply Hout. lia. }
  destruct (write_ready vmap r N (with_mem m2 (with_mem m1 m)) L m3 regs 128 k) as (Rd3 & T3 & S3 & P3);
    [done|by apply P2, P1| |done|done|].
  { intros b Hb. rewrite mm_mem_with. by apply Hm3. }
  change (with_mem m3 (with_mem m2 (with_mem m1 m))) with (with_mem m3 m) in *.
  split; [done|split; [done|split; [|split; [|split; [|split]]]]].
  - intros va. by rewrite S3, S2, S1.
  - intros b c Hp. by apply P3, P2, P1.
  - intros b Hb Hb'. rewrite Hm3 by done. rewrite Hout by lia. by apply Hm1.
  - apply (regs_mem_context regs (at_entry aux) (mm_mem m)); [|unfold word64, v, USER_STACK, STACKSIZE in *; lia|done].
    repeat (apply Forall_cons in Hw as [? Hw]). done.
  - unfold sp. rewrite <-bottom_size. apply (user_args_of m1 m2); rewrite bottom_size; [done|]. intros b Hb. apply Hm3. unfold sp in *. lia.
Qed.

(** What [exec_prepare] builds on the memory [m0]: the map at [r], its stack from page [q] on,
    the registers at [regs], and the arguments.  What was private in [m0] still is, and
    is none of the new pages. *)
Record built (h : elf_h) (img : list Z) (ps : list phdr) (vmap r N : Z) (k : nat) (m0 : mm) (LT : gmap Z (list Z))
    (m : mm) (L : gmap Z (list Z)) (upper : Z → option Z) (regs : Z) (aux : auxval) (strs : list string) (q : Z) : Prop := {
  bt_ready : ready vmap r N m L;
  bt_tail : tail m N k;
  bt_image p : p ∈ ps → is_load h p → loaded h img r N m0 LT m L p;
  bt_page : 0 ≤ q ∧ q + 64 ≤ N;
  bt_fresh : fresh N m0 LT q 64;
  bt_own : private m N L (P2V (q * PGSIZE)) STACKSIZE;
  bt_private a n : private m0 N LT a n → private m N L a n;
  bt_stack : user_stack m r q;
  bt_rest va : (∀ p, p ∈ ps → is_load h p → off_segment p va) → (∀ j, 0 ≤ j < 64 → vpn va ≠ vpn (USER_STACK + j * PGSIZE)) →
    space m r va = if decide (upper_half va) then upper va else None;
  bt_size : args_size strs ≤ STACKSIZE;
  bt_regs : user_context (mm_mem m) regs (at_entry aux) (USER_STACK + STACKSIZE - args_size strs);
  bt_args : user_args (mm_mem m) (AT_ENTRY h) (AT_PHDR h) (AT_PHENT h) (AT_PHNUM h) aux (stack_top q) (stack_top q - args_size strs) strs }.

(** What of it a user sees: the map at [r], its stack from page [q] on, the
    registers at [regs], and the arguments. *)
Record prepared (h : elf_h) (img : list Z) (ps : list phdr) (vmap r N : Z) (k : nat) (m : mm) (L : gmap Z (list Z))
    (upper : Z → option Z) (regs : Z) (aux : auxval) (strs : list string) (q : Z) : Prop := {
  pd_ready : ready vmap r N m L;
  pd_tail : tail m N k;
  pd_image p i b : p ∈ ps → is_load h p → 0 ≤ i < p_filesz p → img !! Z.to_nat (p_offset p + i) = Some b →
    finds h m r p (p_vaddr p + i) b;
  pd_page : 0 ≤ q ∧ q + 64 ≤ N;
  pd_stack : user_stack m r q;
  pd_rest va : (∀ p, p ∈ ps → is_load h p → off_segment p va) → (∀ j, 0 ≤ j < 64 → vpn va ≠ vpn (USER_STACK + j * PGSIZE)) →
    space m r va = if decide (upper_half va) then upper va else None;
  pd_regs : user_context (mm_mem m) regs (at_entry aux) (USER_STACK + STACKSIZE - args_size strs);
  pd_args : user_args (mm_mem m) (AT_ENTRY h) (AT_PHDR h) (AT_PHENT h) (AT_PHNUM h) aux (stack_top q) (stack_top q - args_size strs) strs }.

Lemma built_prepared h img elf ps vmap r N k m0 LT m L upper regs aux strs q :
  image h img elf ps → N ≤ 2 ^ 35 → built h img ps vmap r N k m0 LT m L upper regs aux strs q →
  prepared h img ps vmap r N k m L upper regs aux strs q.
Proof.
  intros Him HN [? ? Hld ? ? ? ? ? ? ? ? ?]. constructor; try done. intros p i b Hin Hl Hb Hib.
  apply (loaded_finds h img r N m0 LT m L p); try done; [|by apply Hld]. by apply (elem_load h img ps p (im_segments _ _ _ _ Him)).
Qed.

Lemma vpn_stack j : 0 ≤ j < 64 → vpn (USER_STACK + j * PGSIZE) = 0x70000000 + j.
Proof.
  intros Hj. unfold vpn, USER_STACK. replace (0x70000000000 + j * PGSIZE) with ((0x70000000 + j) * PGSIZE) by (unfold PGSIZE; lia).
  rewrite Z.div_mul by done. apply Z.mod_small. lia.
Qed.

Lemma user_segment_space h img p j :
  segment_ok img p → user_segment h p → is_load h p → 0 ≤ j < pages p →
  ¬ upper_half ((first_page p + j) * PGSIZE) ∧ ∀ i, 0 ≤ i < 64 → vpn (USER_STACK + i * PGSIZE) ≠ vpn ((first_page p + j) * PGSIZE).
Proof.
  intros Hs Hu Hl Hj. specialize (Hu Hl). pose proof (pages_spec img p Hs) as (_ & _ & _ & Hf0 & Hf35).
  assert (vpn ((first_page p + j) * PGSIZE) = first_page p + j) as Ev by (apply vpn_lower; lia).
  split; [unfold upper_half; rewrite Ev; lia|]. intros i Hi. rewrite Ev.
  rewrite vpn_stack by done. lia.
Qed.

(** The state of [exec_prepare], with the memory [m] and the table of processes [ps]. *)
Definition put (t : fs) (m : mm) (table : list proc) (s : sys) : sys :=
  set_y_mm m (Sys t (set_k_table table (y_ker s)) (y_kmap s) (y_gdt s) (y_cr3 s)).

Lemma update_proc_put i p f t m table s :
  table !! i = Some p → in_yker (update_proc (Some i) f) (put t m table s) = Ok (tt, put t m (<[i := f p]> table) s).
Proof.
  intros Hi. unfold in_yker, lift. erewrite update_proc_ok by exact Hi. done.
Qed.

Lemma proc_at_put i p t m table s : table !! i = Some p → in_yker (proc_at (Some i)) (put t m table s) = Ok (p, put t m table s).
Proof. intros Hi. unfold in_yker, lift, proc_at, put. cbn. by rewrite Hi. Qed.

Lemma current_yok s i : k_gs (y_ker s) = Some i → in_yker get_current_proc s = Ok (Some i, s).
Proof. destruct s as [t [m l tb np n gs c] km g cr]. simpl. by intros ->. Qed.

Lemma stack_top_eq N q : N ≤ 2 ^ 34 → 0 ≤ q → q + 64 ≤ N → P2V (u64 (q * PGSIZE + STACKSIZE)) = stack_top q ∧ stack_top q = HHDM_OFFSET + q * PGSIZE + STACKSIZE.
Proof.
  intros HN Hq Hqn. unfold stack_top, P2V, HHDM_OFFSET, PGSIZE, STACKSIZE. rewrite (u64_small (q * 4096 + 0x40000)), !u64_small by lia. lia.
Qed.

Lemma exec_prepare_ok h fuel stk pf kf junk name cs d x img elf ps vmap N L LT kr m0 i p A c argv ptrs strs s aux k :
  vfs_inv [] L (y_fs s) → rooted (y_fs s) d → path_ok name cs → find (view L (y_fs s)) d cs = At d x →
  holds (view L (y_fs s)) x img → image h img elf ps →
  exec_ready h pf kf ps N LT kr vmap m0 i p A c argv ptrs strs s k → N ≤ Z.of_nat pf → Forall (user_segment h) ps →
  args_size strs ≤ STACKSIZE → (length strs < kf)%nat →
  let aux' := Auxval (e_entry elf) (phdr_address h ps (at_phdr aux)) (e_phentsize elf) (e_phnum elf) in
  Forall word64 [AT_ENTRY h; AT_PHDR h; AT_PHENT h; AT_PHNUM h; at_entry aux'; at_phdr aux'; at_phent aux'; at_phnum aux'] →
  ∃ r q t m L', exec_prepare h (S fuel) stk pf kf junk name argv aux s =
      Ok ((Some i, vmap), put t m (<[i := set_p_vmap vmap p]> (k_table (y_ker s))) s) ∧
    vfs_inv [] L t ∧ view L t = view L (y_fs s) ∧
    built h img ps vmap r N k m0 LT m L' (space m0 kr) (p_regs p) aux' strs q ∧
    ∀ a n b, private m0 N LT a n → a ≤ b < a + n → ¬ (vmap ≤ b < vmap + 8) → ¬ (p_regs p ≤ b < p_regs p + 128) →
      rd8 (mm_mem m) b = rd8 (mm_mem m0) b.
Proof.
  intros Hi Hr Hpath Hfd Hh Him [HN Hgs Hpr Hka Hvm Hcl Htl Hxr Hxa Hne Hrv Hav Har Hargv] Hpf Hus Hsz Hkf aux' Hw.
  destruct (newvm_step pf kf N LT kr vmap m0 _ s Hka Hvm Hcl Htl Hpf) as (r & m1 & E1 & Rd1 & T1 & S1 & P1).
  set (L1 := <[r := []]> LT) in *. set (s1 := set_y_mm m1 s).
  assert (∀ q j, q ∈ ps → is_load h q → 0 ≤ j < pages q → segment_ok img q ∧ ¬ upper_half ((first_page q + j) * PGSIZE) ∧
    ∀ l, 0 ≤ l < 64 → vpn (USER_STACK + l * PGSIZE) ≠ vpn ((first_page q + j) * PGSIZE)) as Hseg.
  { intros q j Hq Hl Hj. pose proof (elem_load h img ps q (im_segments _ _ _ _ Him) Hq Hl) as Hs. split; [done|].
    rewrite Forall_forall in Hus. apply (user_segment_space h img); auto. }
  destruct (loadelf_ok h fuel stk pf junk name cs d x img elf ps vmap r N L L1 s1 aux (256 + k))
    as (t & m2 & L2 & E2 & Hit & Ev & Rd2 & T2 & K2 & Ld2 & S2); try done.
  { intros q Hq Hl j Hj. change (y_mm s1) with m1. rewrite S1. by rewrite decide_False by (by apply (Hseg q j)). }
  change (y_mm s1) with m1 in *.
  destruct (stack_step pf N r vmap L2 m2 k Rd2 T2 Hpf) as (q & ms & m3 & L3 & E3 & Etop & E4 & Hq & Hqn & Hfree & Rd3 & T3 & K3 & Hps & Hus3 & S3).
  { intros j Hj. rewrite S2, S1.
    - rewrite decide_False; [done|]. unfold upper_half. rewrite vpn_stack by done. lia.
    - intros l Hl Hll b Hb. by apply (Hseg l b). }
  destruct (stack_top_eq N q) as [Est Etp]; [lia|done|done|]. set (lo := P2V (q * PGSIZE)) in *.
  assert (stack_top q = lo + STACKSIZE) as Elo by done.
  assert (∀ a n, private m0 N LT a n → private m3 N L3 a n ∧
    (∀ b, a ≤ b < a + n → ¬ (vmap ≤ b < vmap + 8) → rd8 (mm_mem m3) b = rd8 (mm_mem m0) b)) as Hkept.
  { intros a n Ha. destruct (P1 a n Ha) as [Ha1 B1]. destruct (K2 a n Ha1) as [Ha2 B2]. destruct (K3 a n Ha2) as [Ha3 B3].
    split; [done|]. intros b Hb Hv. by rewrite B3, B2, B1. }
  assert (∀ a n, private m2 N L2 a n → 0 < n → VmmMaps.apart lo STACKSIZE a n) as Hoff.
  { intros a n Ha Hn. destruct (ranges_apart a n lo (lo + STACKSIZE)); [done|unfold STACKSIZE; lia| |by right|by left].
    intros b Hb. change (lo + STACKSIZE) with (P2V (q * PGSIZE) + 64 * PGSIZE). apply (private_run_apart m2 N L2 a n q 64); (done || lia). }
  destruct (Hkept _ _ Hxr) as [Hxr3 _]. destruct (Hkept _ _ Hxa) as [_ Bxa].
  assert (VmmMaps.apart lo STACKSIZE (p_regs p) 128) as Hlr by (apply Hoff; [by apply K2, P1|done]).
  assert (VmmMaps.apart lo STACKSIZE vmap 8) as Hlv by (apply Hoff; [apply (rd_private _ _ _ _ _ Rd2)|done]).
  assert (VmmMaps.apart lo STACKSIZE A c) as Hla by (apply Hoff; [by apply K2, P1|done]).
  assert (0 ≤ lo ∧ stack_top q < 2 ^ 64) as [Hlo0 Htop64] by (unfold HHDM_OFFSET, PGSIZE, STACKSIZE in *; lia).
  unfold VmmMaps.apart in Hlr, Hla, Hav, Har, Hrv.
  destruct (args_step kf (AT_ENTRY h) (AT_PHDR h) (AT_PHENT h) (AT_PHNUM h) aux' argv ptrs strs (p_regs p) vmap r N q m3 L3 k)
    as (mc & E5 & Ersp & Rd4 & T4 & S4 & P4 & O4 & Uc & Ua); try done.
  { apply Hargv.
    - intros b Hb. rewrite regs_mem_outside by lia. apply Bxa; lia.
    - unfold clear_of. fold lo in Elo. lia. }
  set (mf := wr64 mc _ _) in *. exists r, q, t, (with_mem mf m3), L3.
  set (s2 := Sys t (y_ker s) (y_kmap s) (y_gdt s) (y_cr3 s)).
  split; [|split; [done|split; [done|]]].
  - unfold exec_prepare.
    rewrite (bind_ok _ _ _ _ _ (current_yok s i Hgs)), (bind_ok _ _ _ _ _ E1), (bind_ok _ _ _ _ _ E2). cbv zeta.
    change (STACKSIZE / PGSIZE) with 64. change 0x70000000000 with USER_STACK. change (Z.lor (Z.lor PTE_PRESENT PTE_RW) PTE_USER) with STACK_FLAGS.
    rewrite (bind_ok _ _ _ _ _ (in_ymm_ok _ _ _ _ _ E3)), (bind_ok _ _ _ _ _ (load_yok _ _ _)), Etop.
    rewrite (bind_ok _ _ _ _ _ (in_ymm_ok _ _ _ _ _ E4)).
    change (set_y_mm m3 _) with (put t m3 (k_table (y_ker s)) s). rewrite (bind_ok _ _ _ _ _ (proc_at_put i p t m3 _ s Hpr)).
    unfold put at 1. rewrite !(bind_ok _ _ _ _ _ (store_yok _ _ _ _)).
    change (set_y_mm (with_mem _ _) _) with (put t (with_mem (regs_mem (p_regs p) (at_entry aux') (mm_mem m3)) m3) (k_table (y_ker s)) s).
    rewrite (bind_ok _ _ _ _ _ (update_proc_put i p _ t _ _ s Hpr)), Est. unfold put.
    rewrite (bind_ok _ _ _ _ _ (in_ymem_ok _ _ (with_mem (regs_mem (p_regs p) (at_entry aux') (mm_mem m3)) m3) _ _ E5)), (bind_ok _ _ _ _ _ (load_yok _ _ _)).
    rewrite (bind_ok _ _ _ _ _ (store_yok _ _ _ _)). rewrite mm_mem_with, Ersp.
    pose proof (args_size_min strs). rewrite (u64_small (_ - _)) by (unfold USER_STACK, STACKSIZE in *; lia).
    replace (USER_STACK + STACKSIZE - (stack_top q - (stack_top q - args_size strs))) with (USER_STACK + STACKSIZE - args_size strs) by lia.
    done.
  - assert (∀ a n b, private m0 N LT a n → a ≤ b < a + n → ¬ (lo ≤ b < stack_top q)) as Hfq.
    { intros a n b Ha Hb. rewrite Elo. change (lo + STACKSIZE) with (P2V (q * PGSIZE) + 64 * PGSIZE).
      apply (private_run_apart m2 N L2 a n q 64); [by apply K2, P1|done || lia..]. }
    split; [constructor; [done|done| |done|exact Hfq|by apply P4| | | |done|done|done]|].
    + intros w Hin Hl. pose proof (elem_load h img ps w (im_segments _ _ _ _ Him) Hin Hl) as Hs.
      destruct (pages_spec img w Hs) as (Hpg & Hn0 & _). pose proof (so_filesz img w Hs).
      apply (loaded_from h img r N m0 LT m1 L1); [intros a c' Ha; by apply P1|].
      apply (loaded_step h img r N m1 L1 m2 L2); [by apply Ld2|done|lia| | |].
      * intros a n Ha. by apply P4, K3.
      * intros w0 b' Hw0 Hwn Hfr Hpw Hb'. rewrite mm_mem_with, O4; [by apply (K3 _ _ Hpw)| |].
        -- intros Hbr. apply (Hfr (p_regs p) 128 b'); [by apply P1|done|done].
        -- rewrite Elo. change (lo + STACKSIZE) with (P2V (q * PGSIZE) + 64 * PGSIZE).
           by apply (private_run_apart m2 N L2 (P2V (w0 * PGSIZE)) (pages w * PGSIZE) q 64); (done || lia).
      * intros j Hj. rewrite S4. apply S3. intros l' Hl' E. by apply (proj2 (proj2 (Hseg w j Hin Hl Hj)) l').
    + intros a n Ha. by apply P4, Hkept.
    + intros j Hj. rewrite S4. by apply Hus3.
    + intros va Hva Hst. rewrite S4, S3 by done. rewrite S2 by done. by rewrite S1.
    + intros a n b Ha Hb Hbv Hbr. rewrite mm_mem_with, O4; [by apply (Hkept a n)|done|by apply (Hfq a n)].
Qed.
