(* ===== verification/ExecEnter.v ===== *)
(** * [exec] from the task state segment to user mode

    What [exec_prepare] built survives the rest of [exec], which writes
    to a slab, the task state segment, the descriptor table and the stack it
    leaves. *)

From S2P Require Import Prelude CString CStringSpec Word Pmm PmmSpec Slab SlabSpec Vmm VmmSpec VmmSpace VmmKernel VmmMaps VmmRun.
From S2P Require Import Args Proc ProcSpec Desc DescSpec Isr FsState Ramfs Vfs VfsRefs Initramfs Exec Fixes ExecSpec ExecRun.

Local Open Scope Z_scope.

(** ** What survives *)

Lemma P2V_back N t : page N t → N ≤ 2 ^ 35 → V2P (P2V t) = t.
Proof.
  intros Hp HN. rewrite (P2V_small N) by done. destruct Hp as [_ Hp]. unfold V2P, PGSIZE in *.
  replace (HHDM_OFFSET + t - HHDM_OFFSET) with t by lia. apply u64_small. lia.
Qed.

Lemma private_sub m N L a n a' n' : private m N L a n → a ≤ a' → a' + n' ≤ a + n → private m N L a' n'.
Proof. intros Hp H1 H2 b Hb. apply Hp. lia. Qed.

Lemma page_bounds N t : page N t → 0 ≤ t ∧ t + PGSIZE ≤ N * PGSIZE.
Proof. intros [Hm Hr]. pose proof (Z.div_mod t PGSIZE ltac:(done)). unfold PGSIZE in *. lia. Qed.

(** A range of memory: address and size. *)
Definition disjoint_ranges (x y : Z * Z) : Prop := VmmMaps.apart x.1 x.2 y.1 y.2.

Section user.
Context (h : elf_h) (img : list Z) (elf : ehdr) (ps : list phdr) (vmap r N : Z) (m0 : mm) (LT : gmap Z (list Z)).
Context (upper : Z → option Z) (regs : Z) (aux : auxval) (strs : list string) (q : Z).
Hypothesis Him : image h img elf ps.

Local Abbreviation is_built k m L := (built h img ps vmap r N k m0 LT m L upper regs aux strs q).

(** A step that keeps private memory and the address space keeps the program. *)
Lemma built_step k k' m L m' :
  is_built k m L → ready vmap r N m' L → tail m' N k' → (∀ va, space m' r va = space m r va) →
  (∀ a n, private m N L a n → private m' N L a n) →
  (∀ w n b, fresh N m0 LT w n → private m N L (P2V (w * PGSIZE)) (n * PGSIZE) →
    P2V (w * PGSIZE) ≤ b < P2V (w * PGSIZE) + n * PGSIZE → rd8 (mm_mem m') b = rd8 (mm_mem m) b) →
  (∀ b, regs ≤ b < regs + 128 → rd8 (mm_mem m') b = rd8 (mm_mem m) b) → is_built k' m' L.
Proof.
  intros [Hrd Ht Hld Hq Hfr Hown Hpr Hst Hrest Hsz [U1 U2 U3 U4 U5] Hua] Hrd' Ht' Hsp Hpriv Hpages Hregs. constructor; try done.
  - intros w Hin Hl. pose proof (elem_load h img ps w (im_segments _ _ _ _ Him) Hin Hl) as Hs.
    destruct (pages_spec img w Hs) as (Hpg & Hn0 & _). pose proof (so_filesz img w Hs).
    apply (loaded_step h img r N m0 LT m L); [by apply Hld|done|lia|done| |done].
    intros w0 b _ _ Hf Hp Hb. by apply (Hpages w0 (pages w)).
  - by apply Hpriv.
  - intros a n Ha. by apply Hpriv, Hpr.
  - intros j Hj. rewrite Hsp. by apply Hst.
  - intros va Hva Hva'. rewrite Hsp. by apply Hrest.
  - assert (∀ a, regs ≤ a → a + 8 ≤ regs + 128 → rd64 (mm_mem m') a = rd64 (mm_mem m) a) as Hw
      by (intros a Ha Ha'; apply rd64_same; intros b Hb; apply Hregs; lia).
    constructor; rewrite Hw by (unfold regs_rip, regs_rsp, regs_cs, regs_ss, regs_eflags; lia); done.
  - rewrite <-bottom_size in Hua. rewrite <-bottom_size. apply (user_args_same (mm_mem m)); [done|]. rewrite bottom_size.
    intros b Hb. apply (Hpages q 64); [done|done|]. unfold stack_top, STACKSIZE, PGSIZE in *. lia.
Qed.

(** A write of the kernel, to memory that was its own before. *)
Lemma built_write k m L m' a n :
  is_built k m L → private m0 N LT a n → (∀ b, ¬ (a ≤ b < a + n) → rd8 m' b = rd8 (mm_mem m) b) →
  VmmMaps.apart a n vmap 8 → VmmMaps.apart a n regs 128 → is_built k (with_mem m' m) L.
Proof.
  intros Hb Hp Hm Hv Hr. pose proof Hb as [Hrd Ht _ _ _ _ Hpr _ _ _ _ _].
  destruct (write_ready vmap r N m L m' a n k Hrd (Hpr _ _ Hp) Hm Hv Ht) as (Rd & T & S & P).
  apply (built_step k k m L); try done.
  - intros w c b Hf _ Hbr. rewrite mm_mem_with. apply Hm. intros Hab. by apply (Hf a n b).
  - intros b Hbr. rewrite mm_mem_with. apply Hm. unfold VmmMaps.apart in Hr. lia.
Qed.

(** A page that the kernel takes. *)
Lemma built_take pf k m L :
  is_built (S k) m L → N ≤ Z.of_nat pf → private m0 N LT regs 128 →
  ∃ t m', in_pmm (palloc pf 1) m = Ok (t, m') ∧ page N t ∧ tk m (t / PGSIZE) = false ∧ is_built k m' L ∧
    slabber m' = slabber m ∧ ∀ a n b, private m0 N LT a n → a ≤ b < a + n → rd8 (mm_mem m') b = rd8 (mm_mem m) b.
Proof.
  intros Hb Hpf Hregs. pose proof Hb as [[Hok Hr Hvp Htop] Ht _ _ _ _ Hpr _ _ _ _ _].
  destruct (palloc_run pf m N L 1 k Hok Ht) as (w & m' & E & Hw0 & Hwn & Hfree & _ & Hex & Hok' & Ht' & Hsp); [lia|done|].
  pose proof (extends_keeps N _ _ _ _ Hex) as Hk. exists (w * PGSIZE), m'. split; [done|split; [|split; [|split; [|split]]]].
  - split; [by rewrite Z.mod_mul|]. unfold PGSIZE. lia.
  - rewrite Z.div_mul by done. apply Hfree. lia.
  - apply (built_step (S k) k m L); try done.
    + constructor; [done|done|by apply Hk|]. rewrite <-Htop. by apply (private_kept m m' N L L).
    + intros va. by apply Hsp.
    + intros a n Ha. by apply Hk.
    + intros w0 n b _ Hp Hbr. by apply (Hk _ _ Hp).
    + intros b Hbr. by apply (Hk _ _ (Hpr _ _ Hregs)).
  - apply (in_pmm_slabber _ _ _ _ E).
  - intros a n b Ha Hbr. by apply (Hk _ _ (Hpr _ _ Ha)).
Qed.
End user.

(** ** The rest of [exec] *)

(** The memory that [exec_enter] writes or relies on: the map, the stack of the process
    with its registers, the slab of the task state segment and the segment,
    the descriptor, and the stack that is left. *)
Definition kernel_ranges (vmap : Z) (p : proc) (slab tss : Z) (s : sys) : list (Z * Z) :=
  [(vmap, 8); (p_stack p, sizeof_stack + 128); (slab, sizeof_slab); (tss, 12); (gd_gdt (y_gdt s) + 72, 12);
   (rsp (k_cpu (y_ker s)) - 56, 56)].

(** The process is as [allocproc] left it, its lock is free, and some slab of
    16-byte blocks has a free block. *)
Record enter_ready (fuel : nat) (N : Z) (LT : gmap Z (list Z)) (m0 : mm) (vmap : Z) (p : proc) (Ls : list ptr)
    (slab tss label : Z) (s : sys) : Prop := {
  er_lock : k_lock (y_ker s) = 0;
  er_slabber : mm_lock m0 = 0;
  er_slabs : slab_list (mm_mem m0) (mm_slabs m0) Ls;
  er_fuel : (length Ls < fuel)%nat;
  er_fits : head (filter (slab_fits (mm_mem m0) (block_size 12)) Ls) = Some slab;
  er_tss : rd64 (mm_mem m0) (slab_freelist slab) = tss;
  er_headers : Forall (λ x, private m0 N LT x sizeof_slab ∧ VmmMaps.apart x sizeof_slab vmap 8 ∧
    VmmMaps.apart x sizeof_slab (p_regs p) 128) Ls;
  er_frame : p_stack p + sizeof_stack = p_regs p;
  er_label : rd64 (mm_mem m0) (stack_rip (p_stack p)) = label;
  er_stack : 0 ≤ p_stack p ∧ p_regs p + 128 < 2 ^ 64;
  er_rsp : 56 ≤ rsp (k_cpu (y_ker s)) < 2 ^ 64;
  er_word : 0 ≤ tss < 2 ^ 64;
  er_private : Forall (λ x, private m0 N LT x.1 x.2) (kernel_ranges vmap p slab tss s);
  er_apart : ForallOrdPairs disjoint_ranges (kernel_ranges vmap p slab tss s) }.

(** The ranges by their places in the list. *)
Lemma ordpairs_lookup {A} (R : A → A → Prop) l i j x y :
  ForallOrdPairs R l → l !! i = Some x → l !! j = Some y → (i < j)%nat → R x y.
Proof.
  intros H. revert i j. induction H as [|z l Hz _ IH]; intros i j Hi Hj Hij; [done|]. destruct j as [|j]; [lia|]. destruct i as [|i].
  - injection Hi as ->. by apply (Forall_lookup_1 _ l j y Hz).
  - apply (IH i j); [done|done|lia].
Qed.

Lemma enter_apart fuel N LT m0 vmap p Ls slab tss label s i j x y :
  enter_ready fuel N LT m0 vmap p Ls slab tss label s →
  kernel_ranges vmap p slab tss s !! i = Some x → kernel_ranges vmap p slab tss s !! j = Some y → (i < j)%nat →
  x.1 + x.2 ≤ y.1 ∨ y.1 + y.2 ≤ x.1.
Proof. intros Hen Hi Hj Hij. apply (ordpairs_lookup _ _ i j x y (er_apart _ _ _ _ _ _ _ _ _ _ _ Hen) Hi Hj Hij). Qed.

Lemma enter_private fuel N LT m0 vmap p Ls slab tss label s i x :
  enter_ready fuel N LT m0 vmap p Ls slab tss label s → kernel_ranges vmap p slab tss s !! i = Some x → private m0 N LT x.1 x.2.
Proof. intros Hen Hi. apply (Forall_lookup_1 _ _ i x (er_private _ _ _ _ _ _ _ _ _ _ _ Hen) Hi). Qed.

Ltac use_apart Hen i j :=
  let H := fresh in pose proof (enter_apart _ _ _ _ _ _ _ _ _ _ _ i j _ _ Hen eq_refl eq_refl ltac:(lia)) as H;
  cbn [fst snd] in H; unfold sizeof_slab, sizeof_stack in H.

(** The task state segment comes from the slab. *)
Lemma tss_block pf fuel N LT m0 vmap p Ls slab tss label s m :
  enter_ready fuel N LT m0 vmap p Ls slab tss label s → slabber m = slabber m0 →
  (∀ a n b, private m0 N LT a n → a ≤ b < a + n → ¬ (vmap ≤ b < vmap + 8) → ¬ (p_regs p ≤ b < p_regs p + 128) →
     rd8 (mm_mem m) b = rd8 (mm_mem m0) b) →
  ∃ m', Slab.kalloc pf fuel 12 m = Ok (tss, with_mem m' m) ∧
    ∀ b, ¬ (slab ≤ b < slab + sizeof_slab) → rd8 m' b = rd8 (mm_mem m) b.
Proof.
  intros Hen [= Es El] Hsame. use_apart Hen 2%nat 3%nat. destruct Hen as [_ Hlk Hsl Hfu Hfit Htss Hhd _ _ _ _ _ _ _].
  assert (headers_same (mm_mem m0) (mm_mem m) Ls) as Hh.
  { eapply Forall_impl; [exact Hhd|]. cbn beta. unfold VmmMaps.apart. intros x (Hp & Hv & Hr) b Hb. apply (Hsame x sizeof_slab b); (done || lia). }
  assert (slab ∈ Ls) as Hin.
  { apply head_Some_elem_of in Hfit. by apply list_elem_of_filter in Hfit as [_ ?]. }
  assert (slab ≠ NULL ∧ rd64 (mm_mem m) (slab_freelist slab) = tss) as [Hnull Hfree].
  { split.
    - clear -Hsl Hin. induction Hsl as [|a L Ha _ IH]; [by apply elem_of_nil in Hin|]. apply elem_of_cons in Hin as [->|Hin]; [done|by apply IH].
    - rewrite <-Htss. unfold slab_freelist. unfold headers_same in Hh. rewrite Forall_forall in Hh. apply header_word; [by apply Hh|lia]. }
  destruct (kalloc_hit pf fuel m Ls 12 slab tss) as (m' & E & _ & _ & Hout); try done.
  - congruence.
  - rewrite Es. by apply (slab_list_same (mm_mem m0)).
  - by rewrite (fitting_same (mm_mem m0)).
  - unfold sizeof_slab. lia.
  - exists m'. split; [done|]. unfold sizeof_slab. intros b Hb. apply Hout; lia.
Qed.

(** What the stores of [exec_enter] leave, where [t] is the page of the interrupt stack. *)
Definition tss_mem (m : mem) (tss t : Z) : mem := wr64 m (tss + 4) (P2V (u64 (t + PGSIZE))).

Section enter.
Context (h : elf_h) (img : list Z) (elf : ehdr) (ps : list phdr) (vmap r N : Z) (m0 : mm) (LT : gmap Z (list Z)).
Context (upper : Z → option Z) (p : proc) (aux : auxval) (strs : list string) (q : Z).
Context (pf fuel : nat) (Ls : list ptr) (slab tss label : Z) (s : sys) (ra : Z).
Hypothesis Him : image h img elf ps.
Hypothesis HN : N ≤ 2 ^ 34.
Hypothesis Hpf : N ≤ Z.of_nat pf.
Hypothesis Hen : enter_ready fuel N LT m0 vmap p Ls slab tss label s.

Local Abbreviation is_built k m L := (built h img ps vmap r N k m0 LT m L upper (p_regs p) aux strs q).

(** What a later step finds in the memory of the kernel. *)
Record kernel_mem (m : mem) (t : Z) : Prop := {
  km_rsp0 : rd64 m (tss + 4) = P2V t + PGSIZE;
  km_desc : base_at m (gd_gdt (y_gdt s) + 72) = without_byte3 tss + 2 ^ 24 * rd8 (mm_mem m0) (gd_gdt (y_gdt s) + 79);
  km_label : rd64 m (stack_rip (p_stack p)) = label }.

Lemma enter_memory k m L :
  is_built (S k) m L → slabber m = slabber m0 →
  (∀ a n b, private m0 N LT a n → a ≤ b < a + n → ¬ (vmap ≤ b < vmap + 8) → ¬ (p_regs p ≤ b < p_regs p + 128) →
     rd8 (mm_mem m) b = rd8 (mm_mem m0) b) →
  ∃ m' t m2, Slab.kalloc pf fuel 12 m = Ok (tss, with_mem m' m) ∧ rd64 m' (map_top_level vmap) = P2V r ∧
    in_pmm (palloc pf 1) (with_mem m' m) = Ok (t, m2) ∧ page N t ∧
    let m3 := tss_write (tss_mem (mm_mem m2) tss t) (gd_gdt (y_gdt s) + 72) tss in
    let m4 := pushed m3 (k_cpu (y_ker s)) ra in
    is_built k (with_mem m4 m2) L ∧ kernel_mem m4 t.
Proof.
  intros Hb Hsl Hsame. pose proof (tss_block pf fuel N LT m0 vmap p Ls slab tss label s m Hen Hsl Hsame) as (m' & E & Hm').
  pose proof (er_frame _ _ _ _ _ _ _ _ _ _ _ Hen) as Hfr. pose proof (er_label _ _ _ _ _ _ _ _ _ _ _ Hen) as Hlab.
  pose proof (er_rsp _ _ _ _ _ _ _ _ _ _ _ Hen) as Hrsp. pose proof (er_word _ _ _ _ _ _ _ _ _ _ _ Hen) as Hw.
  pose proof (λ i x, enter_private _ _ _ _ _ _ _ _ _ _ _ i x Hen) as Hpr. unfold sizeof_stack, sizeof_slab in *.
  set (gd := gd_gdt (y_gdt s) + 72) in *.
  assert (private m0 N LT (p_regs p) 128) as Hregs by (apply (private_sub _ _ _ _ _ _ _ (Hpr 1%nat _ eq_refl)); cbn [fst snd]; unfold sizeof_stack; lia).
  assert (is_built (S k) (with_mem m' m) L) as B1.
  { use_apart Hen 0%nat 2%nat. use_apart Hen 1%nat 2%nat. apply (built_write h img elf) with slab 40; try done; [apply (Hpr 2%nat _ eq_refl)|unfold VmmMaps.apart; lia..]. }
  destruct (built_take h img elf ps vmap r N m0 LT upper (p_regs p) aux strs q Him pf k (with_mem m' m) L B1 Hpf Hregs)
    as (t & m2 & Ep & Ht & _ & B2 & _ & Hm2). rewrite mm_mem_with in Hm2.
  exists m', t, m2. split; [done|split; [apply (rd_top _ _ _ _ _ (bt_ready _ _ _ _ _ _ _ _ _ _ _ _ _ _ _ _ B1))|split; [done|split; [done|]]]]. cbv zeta.
  set (m3a := tss_mem (mm_mem m2) tss t). set (m3 := tss_write m3a gd tss). set (m4 := pushed m3 (k_cpu (y_ker s)) ra).
  assert (∀ b, ¬ (tss ≤ b < tss + 12) → rd8 m3a b = rd8 (mm_mem m2) b) as O1 by (intros b Hbr; apply rd8_wr64_ne; lia).
  assert (∀ b, ¬ (gd ≤ b < gd + 12) → rd8 m3 b = rd8 m3a b) as O2 by (intros b Hbr; by apply tss_write_outside).
  assert (∀ b, ¬ (rsp (k_cpu (y_ker s)) - 56 ≤ b < rsp (k_cpu (y_ker s)) - 56 + 56) → rd8 m4 b = rd8 m3 b) as O3 by (intros b Hbr; apply pushed_outside; lia).
  split.
  - change (with_mem m4 m2) with (with_mem m4 (with_mem m3 (with_mem m3a m2))).
    apply (built_write h img elf) with (rsp (k_cpu (y_ker s)) - 56) 56; [done| |apply (Hpr 5%nat _ eq_refl)|exact O3| |].
    + apply (built_write h img elf) with gd 12; [done| |apply (Hpr 4%nat _ eq_refl)|exact O2| |].
      * apply (built_write h img elf) with tss 12; [done|done|apply (Hpr 3%nat _ eq_refl)|exact O1| |].
        -- use_apart Hen 0%nat 3%nat. unfold VmmMaps.apart. lia.
        -- use_apart Hen 1%nat 3%nat. unfold VmmMaps.apart. lia.
      * use_apart Hen 0%nat 4%nat. unfold VmmMaps.apart. lia.
      * use_apart Hen 1%nat 4%nat. unfold VmmMaps.apart. lia.
    + use_apart Hen 0%nat 5%nat. unfold VmmMaps.apart. lia.
    + use_apart Hen 1%nat 5%nat. unfold VmmMaps.apart. lia.
  - assert (∀ a n b, private m0 N LT a n → a ≤ b < a + n → ¬ (vmap ≤ b < vmap + 8) → ¬ (p_regs p ≤ b < p_regs p + 128) →
      ¬ (slab ≤ b < slab + 40) → rd8 (mm_mem m2) b = rd8 (mm_mem m0) b) as Hold.
    { intros a n b Ha Hbr H1 H2 H3. rewrite (Hm2 a n), Hm', (Hsame a n); done. }
    constructor.
    + assert (rd64 m4 (tss + 4) = rd64 m3a (tss + 4)) as ->.
      { apply rd64_same. use_apart Hen 3%nat 4%nat. use_apart Hen 3%nat 5%nat. intros b Hbr. rewrite O3, O2 by lia. done. }
      unfold m3a, tss_mem. rewrite rd64_wr64_eq. pose proof (page_bounds N t Ht). unfold P2V, HHDM_OFFSET, PGSIZE in *.
      rewrite (u64_small (t + 4096)), (u64_small (t + 4096 + _)), (u64_small (t + _)), u64_small by lia. lia.
    + assert (∀ n a, gd ≤ a → a + Z.of_nat n ≤ gd + 12 → rdn n m4 a = rdn n m3 a) as Hrd.
      { use_apart Hen 4%nat 5%nat. intros n a H1 H2. apply rdn_ext. intros b Hbr. apply O3. lia. }
      fold gd. unfold base_at. rewrite !Hrd by lia. fold (base_at m3 gd). unfold m3. rewrite tss_write_base by done. do 2 f_equal.
      rewrite O1 by (use_apart Hen 3%nat 4%nat; lia). replace (gd_gdt (y_gdt s) + 79) with (gd + 7) by lia.
      apply (Hold gd 12); [apply (Hpr 4%nat _ eq_refl)|lia|use_apart Hen 0%nat 4%nat; lia|use_apart Hen 1%nat 4%nat; lia|use_apart Hen 2%nat 4%nat; lia].
    + rewrite <-Hlab. apply rd64_same. unfold stack_rip. intros b Hbr.
      rewrite O3 by (use_apart Hen 1%nat 5%nat; lia). rewrite O2 by (use_apart Hen 1%nat 4%nat; lia). rewrite O1 by (use_apart Hen 1%nat 3%nat; lia).
      apply (Hold (p_stack p) (56 + 128)); [apply (Hpr 1%nat _ eq_refl)|lia|use_apart Hen 0%nat 1%nat; lia|lia|use_apart Hen 1%nat 2%nat; lia].
Qed.

(** What [exec] leaves: the address space of the program in CR3 and the program in it;
    the process runs, and the lock of the table is held; the segment names a new
    page as the stack of interrupts; and the CPU is at the label [ret] with the stack
    pointer at registers that enter the program. *)
Record entered (k : nat) (L : gmap Z (list Z)) (i : nat) (s' : sys) : Prop := {
  et_prepared : prepared h img ps vmap r N k (y_mm s') L upper (p_regs p) aux strs q;
  et_map : y_cr3 s' = r;
  et_current : k_gs (y_ker s') = Some i;
  et_slot : k_table (y_ker s') !! i = Some (set_p_state RUNNING (set_p_vmap vmap p));
  et_lock : k_lock (y_ker s') = 1;
  et_kernel : ∃ t, page N t ∧ kernel_mem (mm_mem (y_mm s')) t;
  et_ret g fl cs ss : let c := k_cpu (y_ker s') in ∃ g', rip c = label ∧
    ret (Isr (mm_mem (y_mm s')) g (Context_ (rip c) cs fl (rsp c) ss)) =
      Ok (tt, Isr (mm_mem (y_mm s')) g' (Context_ (at_entry aux) 0x43 0x202 (USER_STACK + STACKSIZE - args_size strs) 0x3b)) }.

(** Up to the call of [startproc], which is the first to look at the lock. *)
Lemma exec_enter_until k t m L table i s1 :
  is_built (S k) m L → slabber m = slabber m0 →
  (∀ a n b, private m0 N LT a n → a ≤ b < a + n → ¬ (vmap ≤ b < vmap + 8) → ¬ (p_regs p ≤ b < p_regs p + 128) →
     rd8 (mm_mem m) b = rd8 (mm_mem m0) b) →
  y_gdt s1 = y_gdt s →
  ∃ pg m2, page N pg ∧
    let m3 := tss_write (tss_mem (mm_mem m2) tss pg) (gd_gdt (y_gdt s) + 72) tss in
    let m4 := pushed m3 (k_cpu (y_ker s)) ra in
    is_built k (with_mem m4 m2) L ∧ kernel_mem m4 pg ∧
    exec_enter pf fuel (Some i) vmap ra (put t m table s1) =
      in_yker (startproc (Some i) ra)
        (Sys t (set_k_mm (with_mem m3 m2) (set_k_table table (y_ker s1))) (y_kmap s1) (gwith m3 (set_gd_mm m2 (y_gdt s))) r).
Proof.
  intros Hb Hsl Hsame Hg. destruct (enter_memory k m L Hb Hsl Hsame) as (m' & pg & m2 & E1 & Etop & E2 & Hpg & Hb' & Hkm).
  assert (page N r) as Hr by (apply (to_page _ _ _ (rd_ok _ _ _ _ _ (bt_ready _ _ _ _ _ _ _ _ _ _ _ _ _ _ _ _ Hb)) r []), (bt_ready _ _ _ _ _ _ _ _ _ _ _ _ _ _ _ _ Hb)).
  exists pg, m2. split; [done|]. cbv zeta. split; [done|split; [done|]].
  unfold exec_enter, put. rewrite Hg, (bind_ok _ _ _ _ _ (in_ymm_ok _ _ _ _ _ E1)). unfold switchvm.
  rewrite (bind_ok _ _ _ tt (set_y_mm (with_mem m' m) (Sys t (set_k_table table (y_ker s1)) (y_kmap s1) (y_gdt s) r))).
  2:{ rewrite (bind_ok _ _ _ _ _ (load_yok _ _ _)), mm_mem_with, Etop. unfold modify. by rewrite (P2V_back N) by (done || lia). }
  rewrite (bind_ok _ _ _ _ _ (in_ymm_ok _ _ _ _ _ E2)), (bind_ok _ _ _ _ _ (store_yok _ _ _ _)).
  by erewrite (bind_ok (in_ygdt (load_tss tss))); [|unfold in_ygdt, lift; rewrite load_tss_run; reflexivity].
Qed.

(** With the lock held, [startproc] waits. *)
Lemma exec_enter_waits k t m L table i s1 :
  is_built (S k) m L → slabber m = slabber m0 →
  (∀ a n b, private m0 N LT a n → a ≤ b < a + n → ¬ (vmap ≤ b < vmap + 8) → ¬ (p_regs p ≤ b < p_regs p + 128) →
     rd8 (mm_mem m) b = rd8 (mm_mem m0) b) →
  y_gdt s1 = y_gdt s → k_lock (y_ker s1) ≠ 0 → exec_enter pf fuel (Some i) vmap ra (put t m table s1) = Hang.
Proof.
  intros Hb Hsl Hsame Hg Hl. destruct (exec_enter_until k t m L table i s1 Hb Hsl Hsame Hg) as (pg & m2 & _ & _ & _ & ->).
  unfold in_yker, lift, startproc, acq. rewrite (bind_hang (s ← get; _)); [done|]. rewrite bind_get.
  cbn [y_ker set_k_mm set_k_table k_lock]. by rewrite decide_False.
Qed.

Lemma exec_enter_ok k t m L table i :
  is_built (S k) m L → slabber m = slabber m0 →
  (∀ a n b, private m0 N LT a n → a ≤ b < a + n → ¬ (vmap ≤ b < vmap + 8) → ¬ (p_regs p ≤ b < p_regs p + 128) →
     rd8 (mm_mem m) b = rd8 (mm_mem m0) b) →
  table !! i = Some (set_p_vmap vmap p) →
  ∃ s', exec_enter pf fuel (Some i) vmap ra (put t m table s) = Ok (tt, s') ∧ y_fs s' = t ∧ entered k L i s'.
Proof.
  intros Hb Hsl Hsame Hi. destruct (exec_enter_until k t m L table i s Hb Hsl Hsame eq_refl) as (pg & m2 & Hpg & Hb' & Hkm & E).
  pose proof (er_stack _ _ _ _ _ _ _ _ _ _ _ Hen) as Hst. pose proof (er_rsp _ _ _ _ _ _ _ _ _ _ _ Hen) as Hrsp.
  pose proof (er_frame _ _ _ _ _ _ _ _ _ _ _ Hen) as Hfr. unfold sizeof_stack in Hfr.
  set (m3 := tss_write (tss_mem (mm_mem m2) tss pg) (gd_gdt (y_gdt s) + 72) tss) in *.
  set (m4 := pushed m3 (k_cpu (y_ker s)) ra) in *.
  set (k4 := set_k_mm (with_mem m3 m2) (set_k_table table (y_ker s))) in *.
  set (s' := Sys t (started_state k4 i (set_p_vmap vmap p) ra) (y_kmap s) (gwith m3 (set_gd_mm m2 (y_gdt s))) r).
  exists s'. split; [|split; [done|]].
  - rewrite E. unfold in_yker, lift. cbn [y_ker].
    rewrite (startproc_run k4 i (set_p_vmap vmap p) ra); [done|apply (er_lock _ _ _ _ _ _ _ _ _ _ _ Hen)|done|done|].
    simpl. lia.
  - constructor; [| |done| |done| |].
    + apply (built_prepared h img elf ps vmap r N k m0 LT); [done|lia|done].
    + done.
    + simpl. apply list_lookup_insert_eq. by apply lookup_lt_Some in Hi.
    + by exists pg.
    + intros g fl cs ss. pose proof (bt_regs _ _ _ _ _ _ _ _ _ _ _ _ _ _ _ _ Hb') as [U1 U2 U3 U4 U5]. rewrite mm_mem_with in *.
      change (mm_mem (y_mm s')) with m4. cbv zeta.
      change (k_cpu (y_ker s')) with (popped m4 (p_stack p)). unfold popped. cbn [rip rsp].
      pose proof (km_label _ _ Hkm) as Hlab. unfold stack_rip in Hlab. rewrite Hlab.
      eexists. split; [done|]. rewrite (ret_ok _ (p_regs p)); [|unfold i_rsp; cbn [i_ctx c_rsp]; lia|lia].
      unfold regs_rip, regs_rsp, regs_cs, regs_ss, regs_eflags in *. cbn [i_mem]. unfold resumed. by rewrite U1, U2, U3, U4, U5.
Qed.
End enter.
