(* ===== verification/ExecDemo.v ===== *)
(** * An executable file and a machine, for the theorems on [exec] *)

From S2P Require Import Prelude CString CStringSpec Word Pmm PmmSpec Slab SlabSpec Vmm VmmSpec VmmSpace VmmKernel VmmMaps VmmRun VmmDemo.
From S2P Require Import Args Proc Desc FsState Ramfs RamfsDir RamfsOps RamfsInv RamfsSpec RamfsUnlink RamfsLookup Vfs VfsRefs VfsPath VfsOps VfsSpec Demo Initramfs InitramfsSpec Exec ExecSpec ExecRun.

Local Open Scope Z_scope.

(** ** An executable *)

(** Little-endian numbers in the bytes of a file. *)
Definition le (l : list Z) (off n : nat) : Z := foldr (λ b acc, b + 256 * acc) 0 (take n (drop off l)).
Fixpoint le_bytes (n : nat) (z : Z) : list Z := match n with O => [] | S n => z mod 256 :: le_bytes n (z / 256) end.

(** elf.h of x86-64. *)
Definition elf64 : elf_h := {|
  sizeof_ehdr := 64; ehdr_of := λ l, Ehdr (le l 24 8) (le l 32 8) (le l 54 2) (le l 56 2);
  sizeof_phdr := 56; phdr_of := λ l, Phdr (le l 0 4) (le l 4 4) (le l 8 8) (le l 16 8) (le l 32 8) (le l 40 8);
  PT_LOAD := 1; PT_PHDR := 6; PF_X := 1; PF_W := 2;
  AT_ENTRY := 9; AT_PHDR := 3; AT_PHENT := 4; AT_PHNUM := 5 |}.

Definition ehdr_bytes (e : ehdr) : list Z :=
  replicate 24 0 ++ le_bytes 8 (e_entry e) ++ le_bytes 8 (e_phoff e) ++ replicate 14 0 ++
  le_bytes 2 (e_phentsize e) ++ le_bytes 2 (e_phnum e) ++ replicate 6 0.
Definition phdr_bytes (p : phdr) : list Z :=
  le_bytes 4 (p_type p) ++ le_bytes 4 (p_flags p) ++ le_bytes 8 (p_offset p) ++ le_bytes 8 (p_vaddr p) ++ replicate 8 0 ++
  le_bytes 8 (p_filesz p) ++ le_bytes 8 (p_memsz p) ++ replicate 8 0.

(** A header, PT_PHDR, and a segment of four bytes with a page of variables behind it. *)
Definition exe_ehdr : ehdr := Ehdr 0x400000 64 56 2.
Definition exe_phdr : phdr := Phdr 6 4 64 0x400040 112 112.
Definition exe_text : phdr := Phdr 1 5 176 0x400000 4 0x1004.
Definition exe : list Z := ehdr_bytes exe_ehdr ++ phdr_bytes exe_phdr ++ phdr_bytes exe_text ++ [0xf4; 0xeb; 0xfd; 0x90].

Lemma exe_image : image elf64 exe exe_ehdr [exe_phdr; exe_text].
Proof.
  constructor.
  - vm_compute. reflexivity.
  - simpl. lia.
  - split; [vm_compute; discriminate|vm_compute; reflexivity].
  - simpl. lia.
  - reflexivity.
  - intros [|[|[|j]]] p Hp; try discriminate Hp; injection Hp as <-; (split; [vm_compute; discriminate|vm_compute; reflexivity]).
  - constructor; [intros Hl; discriminate Hl|]. constructor; [|constructor]. intros _. constructor; simpl; lia || (vm_compute; congruence || reflexivity).
  - constructor; [constructor; [|constructor]|repeat constructor]. intros Hl. discriminate Hl.
Qed.

(** The file in the tree, once it was written and closed. *)
Lemma exe_file : ∃ L t x, vfs_inv [] L t ∧ rooted t 3 ∧ path_ok "/exe" ["exe"%string] ∧
  find (view L t) 3 ["exe"%string] = At 3 x ∧ holds (view L t) x exe.
Proof.
  destruct (unpack_file 9 stk0 lists3 demo3 3 (proj1 demo3_inv) (proj2 demo3_inv) "/exe" "exe" NULL 5 [("d"%string, 8); ("f"%string, 5)] exe)
    as (L & s1 & s2 & t & a & x & _ & _ & _ & _ & Hi & Hr & _ & Hd & _ & Hh & _).
  - vm_compute. reflexivity.
  - vm_compute. reflexivity.
  - vm_compute. reflexivity.
  - intros n x Hx. repeat (apply elem_of_cons in Hx as [[= -> ->]|Hx]; [reflexivity|]). by apply not_elem_of_nil in Hx.
  - vm_compute. reflexivity.
  - lia.
  - lia.
  - vm_compute. reflexivity.
  - exists L, t, x. split; [exact Hi|split; [exact Hr|split; [|split; [|exact Hh]]]].
    + split; [vm_compute; reflexivity|repeat constructor].
    + destruct Hh as (bs & Hbs & _). unfold find. cbn [walk]. rewrite Hd.
      change (lookup_entry _ _) with (Some x). cbn beta iota. unfold t_link. by rewrite Hbs.
Qed.

(** ** A machine

    512 pages, the bitmap at 0x1000, [kernel_vm_map] at 0x2000 with an empty
    map on page 0, the arguments "ls" at 0x5000, and below 0x4000 the label [ret];
    [kalloc] takes page 1. *)
Definition x_mem : mem :=
  wr64 (wr8 (wr8 (wr64 (wr64 {[0x1000 := 1]} 0x2000 (P2V 0)) 0x5000 0x5100) 0x5100 108) 0x5101 115) 0x3ff8 0xffffffff80002000.
Definition x_mm : mm := Mm (Pmm x_mem 0x1000 0 0) NULL 0 0.
Definition x_map : Z := HHDM_OFFSET + 0x1000 + 40.
Definition x0 : mm := VmmDemo.state_of (Slab.kalloc 512 8 sizeof_vm_map x_mm) x_mm.

Lemma x0_made : Slab.kalloc 512 8 sizeof_vm_map x_mm = Ok (x_map, x0).
Proof. apply returns_ok. vm_compute. reflexivity. Qed.

Lemma x0_bits : bits x0 = 0x1000.
Proof. vm_compute. reflexivity. Qed.

(** Where [x0] has bytes. *)
Definition x_key (a : Z) : Prop := a = 0x1000 ∨ 0x2000 ≤ a < 0x6000 ∨ HHDM_OFFSET + 0x1000 ≤ a < HHDM_OFFSET + 0x2000.

Lemma x0_keys : bool_decide (map_Forall (λ a _, a = 0x1000 ∨ 0x2000 ≤ a < 0x6000 ∨ HHDM_OFFSET + 0x1000 ≤ a < HHDM_OFFSET + 0x2000) (mm_mem x0)) = true.
Proof. vm_compute. reflexivity. Qed.

Lemma x0_zero a : ¬ x_key a → rd8 (mm_mem x0) a = 0.
Proof.
  intros Ha. unfold rd8. destruct (mm_mem x0 !! a) as [v|] eqn:E; [|done].
  by destruct (Ha (proj1 (bool_decide_eq_true _) x0_keys a v E)).
Qed.

Lemma x0_bitmap : rd8 (mm_mem x0) 0x1000 = 3.
Proof. vm_compute. reflexivity. Qed.

Lemma x0_taken j : 0 ≤ j < 512 → tk x0 j = (j <? 2).
Proof.
  intros Hj. unfold taken. rewrite x0_bits.
  destruct (decide (j / 8 = 0)) as [E|E].
  - rewrite E, Z.add_0_r, x0_bitmap. assert (0 ≤ j < 8) as Hj8 by (pose proof (Z.div_mod j 8); pose proof (Z.mod_pos_bound j 8); lia).
    rewrite Z.mod_small by done.
    assert (j ∈ seqZ 0 8) as Hs by (by apply elem_of_seqZ). by repeat (apply elem_of_cons in Hs as [->|Hs]; [done|]); apply elem_of_nil in Hs.
  - assert (0 < j / 8 < 64) by (pose proof (Z.div_pos j 8); split; [lia|apply Z.div_lt_upper_bound; lia]).
    rewrite x0_zero by (unfold x_key, HHDM_OFFSET; lia). rewrite Z.testbit_0_l. symmetry. apply Z.ltb_ge.
    pose proof (Z.mul_div_le j 8). lia.
Qed.

Lemma x0_outside b : ¬ (0x1000 ≤ b < 0x1040) → outside (bits x0) 512 b.
Proof.
  intros Hb j Hj ->. apply Hb. rewrite x0_bits. pose proof (Z.div_pos j 8). assert (j / 8 < 64) by (apply Z.div_lt_upper_bound; lia). lia.
Qed.

Lemma x0_entry t i : page 512 t → t ≠ 0x1000 → in_range i → entry (mm_mem x0) t i = 0.
Proof.
  intros Hp Ht Hi. apply rdn_zero. intros a Ha. apply x0_zero. rewrite (P2V_small 512) in Ha by done. destruct Hp as [Hm Hp].
  assert (t = 0x1000 * (t / 0x1000)) as Et by (pose proof (Z.div_mod t 0x1000); unfold PGSIZE in *; lia).
  unfold x_key, in_range, HHDM_OFFSET, PGSIZE in *. lia.
Qed.

Lemma x0_ok : tables_ok x0 512 L0.
Proof.
  assert (page 512 0) as Hp0 by (split; [done|]; unfold PGSIZE; lia).
  constructor.
  - lia.
  - intros p j Hp _ Hj Hw. assert (¬ (0x1000 ≤ pm_bitmap (mm_pmm x0) + j / 8)) as Hno; [|rewrite x0_bits in Hno; pose proof (Z.div_pos j 8); lia].
    intros _. unfold window in Hw. rewrite x0_bits in Hw. rewrite (P2V_small 512) in Hw; [|split; [by rewrite Z.mod_mul|unfold PGSIZE; lia]|lia].
    assert (j / 8 < 64) by (apply Z.div_lt_upper_bound; lia). unfold HHDM_OFFSET, PGSIZE in *. lia.
  - intros t l Ht. apply L0_inv in Ht as [-> ->]. split; [done|]. by apply (x0_taken 0).
  - intros t l a Ht Hw. apply L0_inv in Ht as [-> ->]. apply x0_outside. unfold window in Hw. rewrite (P2V_small 512) in Hw by done.
    unfold HHDM_OFFSET in *. lia.
  - intros t l Ht. apply L0_inv in Ht as [-> ->]. simpl. lia.
  - intros t l i Ht _ Hi. apply L0_inv in Ht as [-> ->]. by rewrite x0_entry.
Qed.

(** Low memory but the bitmap, and the page of the slab. *)
Lemma x0_private a n : (0x1040 ≤ a ∧ a + n ≤ 0x100000) ∨ (HHDM_OFFSET + 0x1000 ≤ a ∧ a + n ≤ HHDM_OFFSET + 0x2000) → private x0 512 L0 a n.
Proof.
  intros Ha b Hb. split; [apply x0_outside; unfold HHDM_OFFSET in *; lia|]. intros t Hp Hw. unfold window in Hw.
  rewrite (P2V_small 512) in Hw by done. destruct Hp as [Hm Hp].
  assert (t = 0x1000 * (t / 0x1000)) as Et by (pose proof (Z.div_mod t 0x1000); unfold PGSIZE in *; lia).
  assert (t = 0x1000) as -> by (unfold HHDM_OFFSET, PGSIZE in *; lia). split; [by apply (x0_taken 1)|done].
Qed.

Lemma x0_clean : clean x0 512.
Proof.
  intros t j Hp Hf Hj. rewrite x0_entry; [done|done| |unfold in_range; lia]. intros ->.
  change (0x1000 / PGSIZE) with 1 in Hf. by rewrite x0_taken in Hf by lia.
Qed.

Lemma x0_tail : tail x0 512 510.
Proof. exists 2. split; [lia|split; [lia|]]. intros q Hq. rewrite x0_taken by lia. lia. Qed.

Lemma x0_kernel : rd64 (mm_mem x0) 0x2000 = P2V 0.
Proof. vm_compute. reflexivity. Qed.

Lemma x0_vm : newvm_ready (Vmm x_mm 0x2000) 512 L0 0 x_map x0.
Proof.
  constructor; [exact x0_ok|done|exact x0_kernel| | |].
  - apply x0_private. left. simpl. lia.
  - apply x0_private. right. unfold x_map. lia.
  - left. simpl. unfold x_map, HHDM_OFFSET. lia.
Qed.

Lemma x0_words : rd64 (mm_mem x0) 0x5000 = 0x5100 ∧ rd64 (mm_mem x0) 0x5008 = 0 ∧ cstr (mm_mem x0) 0x5100 "ls".
Proof. split; [vm_compute; reflexivity|split; [vm_compute; reflexivity|]]. cbn [cstr].
  split; [discriminate|split; [vm_compute; reflexivity|]]. split; [discriminate|split; vm_compute; reflexivity].
Qed.

Lemma x0_argv : arg_block 0x5000 0x200 (mm_mem x0) 0x5000 [0x5100] ["ls"%string].
Proof.
  intros m' lo hi Hm Hc. destruct x0_words as (E1 & E2 & E3). unfold clear_of in Hc.
  assert (∀ a, 0x5000 ≤ a → a + 8 ≤ 0x5200 → rd64 m' a = rd64 (mm_mem x0) a) as Hrd by (intros a Ha Ha'; apply rd64_same; intros b Hb; apply Hm; lia).
  cbn [arg_list]. unfold clear_of. split; [lia|]. split; [by rewrite Hrd|]. split; [done|split; [done|split; [unfold slen; simpl; lia|]]].
  split; [apply (cstr_same (mm_mem x0)); [done|]; intros a Ha; apply Hm; unfold slen in Ha; simpl in Ha; lia|].
  split; [unfold slen; simpl; lia|]. split; [lia|by rewrite Hrd].
Qed.
