(* ===== verification/ExecTheorems.v ===== *)
(** * Loading programs: the properties *)

From S2P Require Import Prelude CString CStringSpec Word Pmm PmmSpec Slab SlabSpec Vmm VmmSpec VmmSpace VmmKernel VmmMaps VmmRun VmmDemo.
From S2P Require Import Args Proc ProcSpec Desc DescSpec Isr FsState Ramfs RamfsDir RamfsOps RamfsInv RamfsSpec RamfsUnlink RamfsLookup Vfs VfsRefs VfsPath VfsOps VfsSpec Demo Initramfs InitramfsSpec Exec Fixes ExecSpec ExecRun ExecEnter ExecDemo.

Local Open Scope Z_scope.

(** C9: loadelf on a file of the tree with a valid image, in a map where the pages of
    its segments are free, returns; the auxiliary values are those of the ELF header and
    of the last PT_PHDR, and in the address space of the map every byte of every segment
    is at its address, for user mode, writable and executable as the header says; memory
    that was private and the other pages are as before, and the tree did not change. *)
Theorem loadelf_loads h fuel stk pf junk name cs d x img elf ps vmap r N L LT s aux k :
  vfs_inv [] L (y_fs s) → rooted (y_fs s) d → path_ok name cs → find (view L (y_fs s)) d cs = At d x →
  holds (view L (y_fs s)) x img → image h img elf ps →
  ready vmap r N (y_mm s) LT → tail (y_mm s) N (page_budget h ps + k) → N ≤ Z.of_nat pf →
  (∀ p, p ∈ ps → is_load h p → ∀ j, 0 ≤ j < pages p → space (y_mm s) r ((first_page p + j) * PGSIZE) = None) →
  ∃ t m LT', loadelf h (S fuel) stk pf junk name vmap aux s =
      Ok (Auxval (e_entry elf) (phdr_address h ps (at_phdr aux)) (e_phentsize elf) (e_phnum elf),
          set_y_mm m (Sys t (y_ker s) (y_kmap s) (y_gdt s) (y_cr3 s))) ∧
    vfs_inv [] L t ∧ view L t = view L (y_fs s) ∧ ready vmap r N m LT' ∧ tail m N k ∧ keeps N (y_mm s) LT m LT' ∧
    (∀ p i b, p ∈ ps → is_load h p → 0 ≤ i < p_filesz p → img !! Z.to_nat (p_offset p + i) = Some b →
      finds h m r p (p_vaddr p + i) b) ∧
    ∀ va, (∀ p, p ∈ ps → is_load h p → off_segment p va) → space m r va = space (y_mm s) r va.
Proof.
  intros Hi Hr Hpath Hf Hh Him Hrd Ht Hpf Hnone.
  destruct (loadelf_ok h fuel stk pf junk name cs d x img elf ps vmap r N L LT s aux k)
    as (t & m & LT' & E & Hit & Ev & Hrd' & Ht' & Hk & Hld & Hsp); try done.
  exists t, m, LT'. do 6 (split; [done|]). split; [|done]. intros p i b Hp Hl Hi' Hb.
  apply (loaded_finds h img r N (y_mm s) LT m LT'); try done.
  - apply (to_bound _ _ _ (rd_ok _ _ _ _ _ Hrd')).
  - apply (elem_load h img ps); [apply (im_segments _ _ _ _ Him)|done..].
  - by apply Hld.
Qed.

Definition sys_of (t : fs) : sys :=
  Sys t (Ker vm0 0 [] 0 2 None (Cpu 0 0 0 0 0 0 0 0)) 0 (Gdts vm0 0 0 0 (0, 0) (0, 0)) 0.

Lemma vm0_tail : tail vm0 64 63.
Proof.
  exists 1. split; [lia|split; [lia|]]. intros q Hq. rewrite (tk_checked vm0 _ _ q vm0_taken) by lia. lia.
Qed.

Lemma vm0_ready : ready 0x2000 0 64 vm0 L0.
Proof.
  constructor; [exact vm0_ok|reflexivity| |vm_compute; reflexivity]. intros b Hb. change (map_top_level 0x2000) with 0x2000 in Hb. split.
  - intros j Hj. simpl. assert (j / 8 < 64) by (apply Z.div_lt_upper_bound; lia). lia.
  - intros t Ht Hw. destruct (high_window t b b Ht ltac:(unfold HHDM_OFFSET; lia) Hw eq_refl).
Qed.

Theorem loadelf_loads_witness :
  ∃ t t' m, loadelf elf64 10 stk0 64 (λ _, 0) "/exe" 0x2000 (Auxval 0 0 0 0) (sys_of t) =
      Ok (Auxval 0x400000 0x400040 56 2, set_y_mm m (sys_of t')) ∧ finds elf64 m 0 exe_text 0x400001 0xeb.
Proof.
  destruct exe_file as (L & t & x & Hi & Hr & Hp & Hd & Hh).
  destruct (loadelf_loads elf64 9 stk0 64 (λ _, 0) "/exe" ["exe"%string] 3 x exe exe_ehdr [exe_phdr; exe_text] 0x2000 0 64 L L0
    (sys_of t) (Auxval 0 0 0 0) 55 Hi Hr Hp Hd Hh exe_image vm0_ready vm0_tail) as (t' & m & LT & E & _ & _ & _ & _ & _ & Hf & _).
  - lia.
  - intros p _ _ j _. apply vm0_space.
  - exists t, t', m. split; [exact E|]. apply (Hf exe_text 1 0xeb); [right; left|reflexivity|simpl; lia|vm_compute; reflexivity].
Defined.

(** The variables of a program that the file does not hold (p_memsz beyond p_filesz) are
    what the pages held: the byte 0xaa of the second page of the text is still there. *)
Definition exe_calls : F unit :=
  '(_, a) ← vfs_create 9 stk0 "/exe" NULL VREG;
  vfs_write a exe 0 (Z.of_nat (length exe));;
  vfs_close a;;
  mret tt.
Definition dirty : sys :=
  set_y_mm (with_mem (wr8 (mm_mem vm0) (P2V 0x2000) 0xaa) vm0) (sys_of (state_of (exe_calls demo3))).

Theorem loadelf_leaves_bss :
  match loadelf elf64 10 stk0 64 (λ _, 0) "/exe" 0x2000 (Auxval 0 0 0 0) dirty with
  | Ok (_, s) => translate (y_mm s) 0 0x401000 = Some 0x2000 ∧ rd8 (mm_mem (y_mm s)) (P2V 0x2000) = 0xaa
  | _ => False
  end.
Proof. vm_compute. by split. Qed.

(** Exec, up to the task state segment, on a file of the tree with a valid image and on
    arguments in memory the kernel keeps: it returns with a new map in the slot of the process; in
    its address space every byte of every segment is at its address with the flags of the header,
    the 64 pages of stack are mapped for user mode, and any other address is the kernel's in the
    upper half and free in the lower; the saved registers are the entry point, the user's
    selectors and the stack pointer; and the stack there holds argc, the pointers, the strings and
    the auxiliary vector. The tree is as it was, and k pages are left. *)
Theorem exec_builds h fuel stk pf kf junk name cs d x img elf ps vmap N L LT kr m0 i p A c argv ptrs strs s aux k :
  vfs_inv [] L (y_fs s) → rooted (y_fs s) d → path_ok name cs → find (view L (y_fs s)) d cs = At d x →
  holds (view L (y_fs s)) x img → image h img elf ps →
  exec_ready h pf kf ps N LT kr vmap m0 i p A c argv ptrs strs s k → N ≤ Z.of_nat pf → Forall (user_segment h) ps →
  args_size strs ≤ STACKSIZE → (length strs < kf)%nat →
  let aux' := Auxval (e_entry elf) (phdr_address h ps (at_phdr aux)) (e_phentsize elf) (e_phnum elf) in
  Forall word64 [AT_ENTRY h; AT_PHDR h; AT_PHENT h; AT_PHNUM h; at_entry aux'; at_phdr aux'; at_phent aux'; at_phnum aux'] →
  ∃ r q t m L', exec_prepare h (S fuel) stk pf kf junk name argv aux s =
      Ok ((Some i, vmap), put t m (<[i := set_p_vmap vmap p]> (k_table (y_ker s))) s) ∧
    vfs_inv [] L t ∧ view L t = view L (y_fs s) ∧
    prepared h img ps vmap r N k m L' (space m0 kr) (p_regs p) aux' strs q.
Proof.
  intros Hi Hr Hpath Hf Hh Him Hx. intros.
  destruct (exec_prepare_ok h fuel stk pf kf junk name cs d x img elf ps vmap N L LT kr m0 i p A c argv ptrs strs s aux k)
    as (r & q & t & m & L' & E & Hit & Ev & Hb & _); try done.
  exists r, q, t, m, L'. split; [done|split; [done|split; [done|]]]. apply (built_prepared _ _ elf _ _ _ _ _ m0 LT); [done| |done].
  pose proof (xr_pages _ _ _ _ _ _ _ _ _ _ _ _ _ _ _ _ _ _ Hx). lia.
Qed.

(** Process 5 runs, and calls exec("/exe", argv) on the machine [x0]. *)
Definition proc5 : proc := Proc 0x4000 0x3fc8 RUNNING 2 0.
Definition ker5 : ker := Ker x_mm 0 (<[5%nat := proc5]> (replicate NPROC (Proc 0 0 UNUSED 0 0))) 2 2 (Some 5%nat) (Cpu 0x8000 1 2 3 4 5 6 0x100).
Definition x_sys (t : fs) : sys := Sys t ker5 0x2000 (Gdts x_mm 0x6000 0 0 (0, 0) (0, 0)) 0.

Lemma x_ready t : exec_ready elf64 512 8 [exe_phdr; exe_text] 512 L0 0 x_map x0 5 proc5 0x5000 0x200 0x5000 [0x5100] ["ls"%string] (x_sys t) 245.
Proof.
  constructor; [done|done|done|exact x0_made|exact x0_vm|exact x0_clean|exact x0_tail| | |done| | | |exact x0_argv];
    first [apply x0_private; simpl; lia|unfold VmmMaps.apart, x_map, HHDM_OFFSET; simpl; lia].
Qed.

Lemma exe_user : Forall (user_segment elf64) [exe_phdr; exe_text].
Proof. constructor; [by intros Hl|]. constructor; [|constructor]. intros _. left. vm_compute. discriminate. Qed.

Theorem exec_builds_witness :
  ∃ t r q t' m L, exec_prepare elf64 10 stk0 512 8 (λ _, 0) "/exe" 0x5000 (Auxval 0 0 0 0) (x_sys t) =
      Ok ((Some 5%nat, x_map), put t' m (<[5%nat := set_p_vmap x_map proc5]> (k_table ker5)) (x_sys t)) ∧
    prepared elf64 exe [exe_phdr; exe_text] x_map r 512 245 m L (space x0 0) 0x4000 (Auxval 0x400000 0x400040 56 2) ["ls"%string] q.
Proof.
  destruct exe_file as (L & t & x & Hi & Hr & Hp & Hd & Hh).
  destruct (exec_builds elf64 9 stk0 512 8 (λ _, 0) "/exe" ["exe"%string] 3 x exe exe_ehdr [exe_phdr; exe_text] x_map 512 L L0 0 x0 5 proc5
    0x5000 0x200 0x5000 [0x5100] ["ls"%string] (x_sys t) (Auxval 0 0 0 0) 245 Hi Hr Hp Hd Hh exe_image (x_ready t))
    as (r & q & t' & m & L' & E & _ & _ & Hpd).
  - lia.
  - exact exe_user.
  - unfold args_size, slen, STACKSIZE. simpl. lia.
  - simpl. lia.
  - repeat constructor; unfold word64; simpl; lia.
  - exists t, r, q, t', m, L'. split; [exact E|exact Hpd].
Defined.

(** The machine with the lock of the process table at [l]. *)
Definition with_lock (l : Z) (s : sys) : sys := Sys (y_fs s) (set_k_lock l (y_ker s)) (y_kmap s) (y_gdt s) (y_cr3 s).

(** [exec] on a machine [s], and on one that differs from it in the lock. *)
Lemma exec_run h fuel stk pf kf junk name cs d x img elf ps vmap N L LT kr m0 i p A c argv ptrs strs s aux k Ls slab tss label ra s1 :
  vfs_inv [] L (y_fs s) → rooted (y_fs s) d → path_ok name cs → find (view L (y_fs s)) d cs = At d x →
  holds (view L (y_fs s)) x img → image h img elf ps →
  exec_ready h pf kf ps N LT kr vmap m0 i p A c argv ptrs strs s (S k) → enter_ready kf N LT m0 vmap p Ls slab tss label s →
  N ≤ Z.of_nat pf → Forall (user_segment h) ps → args_size strs ≤ STACKSIZE → (length strs < kf)%nat →
  let aux' := Auxval (e_entry elf) (phdr_address h ps (at_phdr aux)) (e_phentsize elf) (e_phnum elf) in
  Forall word64 [AT_ENTRY h; AT_PHDR h; AT_PHENT h; AT_PHNUM h; at_entry aux'; at_phdr aux'; at_phent aux'; at_phnum aux'] →
  s = s1 ∨ s = with_lock 0 s1 →
  ∃ r q t m L', vfs_inv [] L t ∧ view L t = view L (y_fs s) ∧ slabber m = slabber m0 ∧
    built h img ps vmap r N (S k) m0 LT m L' (space m0 kr) (p_regs p) aux' strs q ∧
    (∀ a n b, private m0 N LT a n → a ≤ b < a + n → ¬ (vmap ≤ b < vmap + 8) → ¬ (p_regs p ≤ b < p_regs p + 128) →
      rd8 (mm_mem m) b = rd8 (mm_mem m0) b) ∧
    exec h (S fuel) stk pf kf junk name argv aux ra s1 =
      exec_enter pf kf (Some i) vmap ra (put t m (<[i := set_p_vmap vmap p]> (k_table (y_ker s))) s1).
Proof.
  intros Hi Hr Hpath Hf Hh Him Hx Hen Hpf Hus Hsz Hkf aux' Hw Hs1.
  assert (exec_ready h pf kf ps N LT kr vmap m0 i p A c argv ptrs strs s1 (S k)) as Hx1.
  { destruct Hs1 as [-> | ->]; [done|]. destruct Hx. constructor; done. }
  assert (y_fs s = y_fs s1 ∧ k_table (y_ker s) = k_table (y_ker s1)) as [Ef Ek] by (by destruct Hs1 as [-> | ->]).
  rewrite Ef in Hi, Hr, Hf, Hh. rewrite Ef, Ek.
  destruct (exec_prepare_ok h fuel stk pf kf junk name cs d x img elf ps vmap N L LT kr m0 i p A c argv ptrs strs s1 aux (S k))
    as (r & q & t & m & L' & E & Hit & Ev & Hb & Hsame); try done.
  pose proof (exec_prepare_slabber h (S fuel) stk pf kf junk name argv aux s1 vmap m0 _ _ (xr_kalloc _ _ _ _ _ _ _ _ _ _ _ _ _ _ _ _ _ _ Hx1) E) as Hsl.
  exists r, q, t, m, L'. do 5 (split; [done|]). unfold exec. by rewrite (bind_ok _ _ _ _ _ E).
Qed.

(** C10: exec of a process that allocproc made, with its lock free, on a valid file: it returns
    on the stack of the process at the label ret with CR3 at the new address space, and the
    code at ret enters the program in user mode, at its entry point, with the stack pointer at
    argc; the program, its stack and its arguments are in that address space, and the task state
    segment points to a new page. But the lock of the process table is held from
    then on: the next timer interrupt never returns. *)
Theorem exec_enters h fuel stk pf kf junk name cs d x img elf ps vmap N L LT kr m0 i p A c argv ptrs strs s aux k Ls slab tss label ra :
  vfs_inv [] L (y_fs s) → rooted (y_fs s) d → path_ok name cs → find (view L (y_fs s)) d cs = At d x →
  holds (view L (y_fs s)) x img → image h img elf ps →
  exec_ready h pf kf ps N LT kr vmap m0 i p A c argv ptrs strs s (S k) → enter_ready kf N LT m0 vmap p Ls slab tss label s →
  N ≤ Z.of_nat pf → Forall (user_segment h) ps → args_size strs ≤ STACKSIZE → (length strs < kf)%nat →
  let aux' := Auxval (e_entry elf) (phdr_address h ps (at_phdr aux)) (e_phentsize elf) (e_phnum elf) in
  Forall word64 [AT_ENTRY h; AT_PHDR h; AT_PHENT h; AT_PHNUM h; at_entry aux'; at_phdr aux'; at_phent aux'; at_phnum aux'] →
  ∃ r q L' s', exec h (S fuel) stk pf kf junk name argv aux ra s = Ok (tt, s') ∧
    vfs_inv [] L (y_fs s') ∧ view L (y_fs s') = view L (y_fs s) ∧
    entered h img ps vmap r N m0 (space m0 kr) p aux' strs q tss label s k L' i s' ∧
    ∀ n ra', apic_timer n ra' (y_ker s') = Hang.
Proof.
  intros Hi Hr Hpath Hf Hh Him Hx Hen Hpf Hus Hsz Hkf aux' Hw.
  destruct (exec_run h fuel stk pf kf junk name cs d x img elf ps vmap N L LT kr m0 i p A c argv ptrs strs s aux k Ls slab tss label ra s)
    as (r & q & t & m & L' & Hit & Ev & Hsl & Hb & Hsame & E); try done; [by left|].
  pose proof (xr_pages _ _ _ _ _ _ _ _ _ _ _ _ _ _ _ _ _ _ Hx) as HN. pose proof (xr_proc _ _ _ _ _ _ _ _ _ _ _ _ _ _ _ _ _ _ Hx) as Hp.
  destruct (exec_enter_ok h img elf ps vmap r N m0 LT (space m0 kr) p aux' strs q pf kf Ls slab tss label s ra Him HN Hpf Hen
    k t m L' (<[i := set_p_vmap vmap p]> (k_table (y_ker s))) i Hb Hsl Hsame) as (s' & E' & Et & Hent).
  { apply list_lookup_insert_eq. by apply lookup_lt_Some in Hp. }
  exists r, q, L', s'. rewrite Et. split; [by rewrite E|]. do 3 (split; [done|]).
  intros n ra'. unfold apic_timer, acq. rewrite (bind_hang (s ← get; _)); [done|]. rewrite bind_get.
  by rewrite (et_lock _ _ _ _ _ _ _ _ _ _ _ _ _ _ _ _ _ _ _ Hent).
Qed.

Lemma x_enter t : enter_ready 8 512 L0 x0 x_map proc5 [HHDM_OFFSET + 0x1000] (HHDM_OFFSET + 0x1000) (x_map + 16) 0xffffffff80002000 (x_sys t).
Proof.
  constructor; [done|vm_compute; reflexivity| |simpl; lia|vm_compute; reflexivity|vm_compute; reflexivity| |done|vm_compute; reflexivity|simpl; lia
    |simpl; lia|unfold x_map, HHDM_OFFSET; lia| |].
  - assert (mm_slabs x0 = HHDM_OFFSET + 0x1000) as -> by (vm_compute; reflexivity). apply slab_cons; [done|].
    assert (rd64 (mm_mem x0) (slab_next (HHDM_OFFSET + 0x1000)) = NULL) as -> by (vm_compute; reflexivity). apply slab_nil.
  - constructor; [|constructor]. unfold VmmMaps.apart, x_map, HHDM_OFFSET, sizeof_slab. simpl. split; [|lia].
    apply x0_private. unfold HHDM_OFFSET. lia.
  - unfold kernel_ranges. repeat (apply Forall_cons_2 || apply Forall_nil_2); apply x0_private; unfold x_map, HHDM_OFFSET, sizeof_slab, sizeof_stack; simpl; lia.
  - unfold kernel_ranges. repeat (apply FOP_cons || apply FOP_nil || apply Forall_cons_2 || apply Forall_nil_2); unfold disjoint_ranges, VmmMaps.apart, x_map, HHDM_OFFSET, sizeof_slab, sizeof_stack; simpl; lia.
Qed.

Theorem exec_enters_witness :
  ∃ t r q L s', exec elf64 10 stk0 512 8 (λ _, 0) "/exe" 0x5000 (Auxval 0 0 0 0) 0x400 (x_sys t) = Ok (tt, s') ∧
    entered elf64 exe [exe_phdr; exe_text] x_map r 512 x0 (space x0 0) proc5 (Auxval 0x400000 0x400040 56 2) ["ls"%string] q
      (x_map + 16) 0xffffffff80002000 (x_sys t) 244 L 5 s'.
Proof.
  destruct exe_file as (L & t & x & Hi & Hr & Hp & Hd & Hh).
  destruct (exec_enters elf64 9 stk0 512 8 (λ _, 0) "/exe" ["exe"%string] 3 x exe exe_ehdr [exe_phdr; exe_text] x_map 512 L L0 0 x0 5 proc5
    0x5000 0x200 0x5000 [0x5100] ["ls"%string] (x_sys t) (Auxval 0 0 0 0) 244 [HHDM_OFFSET + 0x1000] (HHDM_OFFSET + 0x1000) (x_map + 16)
    0xffffffff80002000 0x400 Hi Hr Hp Hd Hh exe_image (x_ready t) (x_enter t))
    as (r & q & L' & s' & E & _ & _ & Hent & _).
  - lia.
  - exact exe_user.
  - unfold args_size, slen, STACKSIZE. simpl. lia.
  - simpl. lia.
  - repeat constructor; unfold word64; simpl; lia.
  - exists t, r, q, L', s'. split; [exact E|exact Hent].
Defined.

(** ** [exec] and the lock of the process table *)

(** C20: a thread that init_proc started holds the lock of the process table until it
    calls r. If it calls exec before, as thread1 does, with a valid file and everything
    else that exec needs, the exec never returns and starts nothing, since its startproc
    waits for the lock; with the lock free the same call returns. *)
Theorem exec_under_lock h fuel stk pf kf junk name cs d x img elf ps vmap N L LT kr m0 i p A c argv ptrs strs s aux k Ls slab tss label ra i' ra' k0 k1 :
  init_proc i' ra' k0 = Ok (tt, k1) → k_lock (y_ker s) = k_lock k1 →
  vfs_inv [] L (y_fs s) → rooted (y_fs s) d → path_ok name cs → find (view L (y_fs s)) d cs = At d x →
  holds (view L (y_fs s)) x img → image h img elf ps →
  exec_ready h pf kf ps N LT kr vmap m0 i p A c argv ptrs strs s (S k) → enter_ready kf N LT m0 vmap p Ls slab tss label (with_lock 0 s) →
  N ≤ Z.of_nat pf → Forall (user_segment h) ps → args_size strs ≤ STACKSIZE → (length strs < kf)%nat →
  let aux' := Auxval (e_entry elf) (phdr_address h ps (at_phdr aux)) (e_phentsize elf) (e_phnum elf) in
  Forall word64 [AT_ENTRY h; AT_PHDR h; AT_PHENT h; AT_PHNUM h; at_entry aux'; at_phdr aux'; at_phent aux'; at_phnum aux'] →
  exec h (S fuel) stk pf kf junk name argv aux ra s = Hang ∧
  ∃ s', exec h (S fuel) stk pf kf junk name argv aux ra (with_lock 0 s) = Ok (tt, s').
Proof.
  intros Ei Hl Hi Hr Hpath Hf Hh Him Hx Hen Hpf Hus Hsz Hkf aux' Hw. rewrite (init_proc_locks _ _ _ _ Ei) in Hl.
  assert (exec_ready h pf kf ps N LT kr vmap m0 i p A c argv ptrs strs (with_lock 0 s) (S k)) as Hx' by (destruct Hx; constructor; done).
  pose proof (xr_pages _ _ _ _ _ _ _ _ _ _ _ _ _ _ _ _ _ _ Hx) as HN. pose proof (xr_proc _ _ _ _ _ _ _ _ _ _ _ _ _ _ _ _ _ _ Hx) as Hp.
  split.
  - destruct (exec_run h fuel stk pf kf junk name cs d x img elf ps vmap N L LT kr m0 i p A c argv ptrs strs (with_lock 0 s) aux k Ls slab tss label ra s)
      as (r & q & t & m & L' & _ & _ & Hsl & Hb & Hsame & ->); try done; [by right|].
    apply (exec_enter_waits h img elf ps vmap r N m0 LT (space m0 kr) p aux' strs q pf kf Ls slab tss label (with_lock 0 s) ra Him HN Hpf Hen
      k t m L' _ i s Hb Hsl Hsame eq_refl). lia.
  - destruct (exec_run h fuel stk pf kf junk name cs d x img elf ps vmap N L LT kr m0 i p A c argv ptrs strs (with_lock 0 s) aux k Ls slab tss label ra (with_lock 0 s))
      as (r & q & t & m & L' & _ & _ & Hsl & Hb & Hsame & ->); try done; [by left|].
    destruct (exec_enter_ok h img elf ps vmap r N m0 LT (space m0 kr) p aux' strs q pf kf Ls slab tss label (with_lock 0 s) ra Him HN Hpf Hen
      k t m L' (<[i := set_p_vmap vmap p]> (k_table (y_ker s))) i Hb Hsl Hsame) as (s' & E' & _ & _); [|by exists s'].
    apply list_lookup_insert_eq. by apply lookup_lt_Some in Hp.
Qed.

(** Slot 5 can run. *)
Definition runnable5 : ker :=
  Ker vm0 0 (<[5%nat := Proc 0 0x7000 RUNNABLE 2 0]> (replicate NPROC (Proc 0 0 UNUSED 0 0))) 2 2 None (Cpu 0x8000 1 2 3 4 5 6 0x100).

(** "/exe" on the machine [x0], as thread 5 that init_proc started. *)
Theorem exec_under_lock_witness :
  ∃ t, exec elf64 10 stk0 512 8 (λ _, 0) "/exe" 0x5000 (Auxval 0 0 0 0) 0x400 (with_lock 1 (x_sys t)) = Hang ∧
    ∃ s', exec elf64 10 stk0 512 8 (λ _, 0) "/exe" 0x5000 (Auxval 0 0 0 0) 0x400 (x_sys t) = Ok (tt, s').
Proof.
  destruct exe_file as (L & t & x & Hi & Hr & Hp & Hd & Hh).
  assert (∃ k, init_proc 5 0x300 runnable5 = Ok (tt, k) ∧ k_lock k = 1) as (k & E & Hk).
  { destruct (init_proc 5 0x300 runnable5) as [[[] k]| | |] eqn:E; [|vm_compute in E; discriminate..].
    exists k. split; [done|by apply (init_proc_locks 5 0x300 runnable5)]. }
  exists t.
  apply (exec_under_lock elf64 9 stk0 512 8 (λ _, 0) "/exe" ["exe"%string] 3 x exe exe_ehdr [exe_phdr; exe_text] x_map 512 L L0 0 x0 5 proc5
    0x5000 0x200 0x5000 [0x5100] ["ls"%string] (with_lock 1 (x_sys t)) (Auxval 0 0 0 0) 244 [HHDM_OFFSET + 0x1000] (HHDM_OFFSET + 0x1000) (x_map + 16)
    0xffffffff80002000 0x400 5 0x300 runnable5 k E (eq_sym Hk) Hi Hr Hp Hd Hh exe_image).
  - destruct (x_ready t). constructor; done.
  - exact (x_enter t).
  - lia.
  - exact exe_user.
  - unfold args_size, slen, STACKSIZE. simpl. lia.
  - simpl. lia.
  - repeat constructor; unfold word64; simpl; lia.
Defined.
