(* ===== verification/Selftest.v ===== *)
(** * The tests of the boot: [test_slab] of kernel/slab.c, [ramfs_t] of
    fs/ramfs/ramfs.c, [printdir] of fs/vfs.c

    [kmain] runs [test_slab] before the mount of the root and [ramfs_t]
    between the mount and [initramfs]; both stop in [panic] when a call does
    not do what they expect.  [ramfs_t] runs on the file systems and a console. *)

From S2P Require Import Prelude CString Word Pmm Slab FsState Ramfs Vfs Initramfs.

Local Open Scope Z_scope.

Section test_slab.
(** The fuel of the allocators. *)
Context (pf fuel : nat).

Let kalloc := Slab.kalloc pf fuel.
Let kfree := Slab.kfree fuel.

(** [for (int i = 0; i < 1000; ++i) addr[i] = kalloc(8);] and the loop of [kfree]. *)
Fixpoint kalloc_many (k : nat) : M (list ptr) :=
  match k with O => mret [] | S k => a ← kalloc 8; l ← kalloc_many k; mret (a :: l) end.
Fixpoint kfree_many (addr : list ptr) : M unit :=
  match addr with [] => mret tt | a :: addr => kfree a;; kfree_many addr end.

Definition test_slab : M unit :=
  a ← kalloc 10000; kfree a;;
  a ← kalloc 50000; kfree a;;
  kalloc 8;; kalloc 50;;
  sss ← kalloc 16; kalloc 32;; kfree sss;;
  int1 ← kalloc 4; int2 ← kalloc 4;
  store32 int1 10;; store32 int2 100;;
  g ← kalloc 8; kalloc 8;; kfree g;;
  xx ← kalloc 16; kalloc 32;; kalloc 16;; kalloc 32;;
  g ← kalloc 8; kalloc 8;; kalloc 8;; kfree g;;
  g ← kalloc 8; kfree g;;
  in_pmm (palloc pf 1);; in_pmm (palloc pf 1);;
  kfree xx;;
  g ← kalloc 8; kfree g;;
  addr ← kalloc_many 1000;
  kfree_many addr;;
  l ← kalloc 8; kfree l;;
  x ← kalloc 1000; kfree x;;
  s ← get;
  if decide (rdn 4 (mm_mem s) int1 ≠ 10 ∨ rdn 4 (mm_mem s) int2 ≠ 100) then panic "panic:_ slab test" else mret tt.
End test_slab.

(** The file systems, [spinlock] of 69.h, and what was shown, last first. *)
Record sh := Sh { sh_fs : fs; sh_spinlock : Z; sh_shown : list string }.

Definition in_sh {A} (f : F A) : K sh A := λ s,
  match f (sh_fs s) with
  | Ok (a, t) => Ok (a, Sh t (sh_spinlock s) (sh_shown s))
  | Panic msg => Panic msg
  | Hang => Hang
  | Fault e => Fault e
  end.

(** [print] of kernel.c on a string. *)
Definition print (msg : string) : K sh unit :=
  s ← get;
  if decide (sh_spinlock s = 0) then modify (λ s, Sh (sh_fs s) 0 (msg :: sh_shown s)) else hang.

Definition newline : string := String (Ascii.ascii_of_nat 10) EmptyString.
Definition tab : string := String (Ascii.ascii_of_nat 9) EmptyString.

Definition panic_if (P : Prop) `{!Decision P} (msg : string) : K sh unit := if decide P then panic msg else mret tt.

Section selftest.
Context `{vops : vnodeops} `{fops : vfsops}.
(** As in Vfs.v. *)
Context (vf : nat) (stk : nameidata).

Fixpoint print_names (es : list dirent) : K sh unit :=
  match es with
  | [] => mret tt
  | d :: es => print (d_name d);; print tab;; print_names es
  end.

Definition printdir (vdir : ptr) : K sh unit :=
  '(_, es, _) ← in_sh (vfs_readdir vdir 4096 0);
  print newline;;
  print_names es.

(** The variables [v], [vn], [root] and [nd] are not initialised. *)
Definition ramfs_t_first (v vn root : ptr) (nd : nameidata) : K sh (ptr * ptr * ptr) :=
  '(_, v) ← in_sh (vfs_mkdir vf stk "/mnt" v);
  in_sh (vfs_mount vf stk (Some "/mnt") "ramfs");;
  '(r, v) ← in_sh (vfs_mkdir vf stk "/" v); panic_if (r ≠ - EEXIST) "eexits";;
  '(_, v) ← in_sh (vfs_mkdir vf stk "/first" v);
  in_sh (vfs_mount vf stk (Some "/first") "ramfs");;
  '(_, v) ← in_sh (vfs_mkdir vf stk "/first/a" v);
  '(_, v) ← in_sh (vfs_mkdir vf stk "/first/b" v);
  '(_, v) ← in_sh (vfs_mkdir vf stk "/first/c" v);
  '(_, v) ← in_sh (vfs_open vf stk "/first" v VNON 0);
  printdir v;;
  s ← get; x ← in_sh (load (T := vnode) (fs_rootvn (sh_fs s)));
  panic_if (v_refcount x ≠ 1) "refcount";;
  r ← in_sh (vfs_unmount vf stk "/"); panic_if (r ≠ - EINVAL) "einval";;
  r ← in_sh (vfs_unmount vf stk "/mnt"); panic_if (r ≠ 0) "einval";;
  '(r, vn) ← in_sh (vfs_mkdir vf stk EmptyString vn); panic_if (r ≠ - EINVAL) "einval";;
  '(_, v) ← in_sh (vfs_mkdir vf stk "/mine" v);
  r ← in_sh (vfs_rmdir vf stk "/."); panic_if (r ≠ - EINVAL) "eperm";;
  in_sh (vfs_mount vf stk (Some "/mine") "ramfs");;
  '(_, v) ← in_sh (vfs_mkdir vf stk "/mine/con" v);
  x ← in_sh (load (T := vnode) v); let node := v_data x in
  n ← in_sh (load (T := ramnode) node);
  panic_if (rn_linkcount n ≠ 2) "lincount";;
  r ← in_sh (vfs_rmdir vf stk "/mine/con"); panic_if (r ≠ 0) "minecon";;
  '(_, v) ← in_sh (vfs_mkdir vf stk "/hh" v);
  printdir v;;
  r ← in_sh (vfs_rmdir vf stk "/hh"); panic_if (r ≠ 0) "rm,dir";;
  r ← in_sh (vfs_rmdir vf stk "/sex"); panic_if (r ≠ - ENOENT) "enoent";;
  '(_, v) ← in_sh (vfs_open vf stk "/mainn.c" v VREG O_CREATE);
  r ← in_sh (vfs_rmdir vf stk "/mainn.c"); panic_if (r ≠ - ENOTDIR) "enotdri";;
  '(r, v) ← in_sh (vfs_open vf stk "/mainn.c" v VNON 0); panic_if (r ≠ 0) "oepen";;
  '(r, v) ← in_sh (vfs_open vf stk "/pussy" v VREG 0); panic_if (r ≠ - ENOENT) "pussY";;
  in_sh (vfs_unlink vf stk "/.");;
  '(_, vn) ← in_sh (vfs_mkdir vf stk "/../../../../../../lmao" vn);
  '(_, vn) ← in_sh (vfs_mkdir vf stk "/a" vn);
  '(_, vn) ← in_sh (vfs_mkdir vf stk "/a/b" vn);
  in_sh (vfs_symlink vf stk "/a/b/l" "/a");;
  '(_, nd) ← in_sh (namei vf "/a/b/l/b/l/b/l" nd);
  r ← in_sh (vfs_link vf stk "/lmao/lol" "/a"); panic_if (r ≠ - EISDIR) "EISDIR";;
  '(r, nd) ← in_sh (namei vf "/lmao/lol/.." nd); panic_if (r ≠ - ENOENT) "ENOENT";;
  in_sh (vfs_link vf stk "/hahahahah" "/");;
  '(_, root) ← in_sh (vfs_open vf stk "/" root VNON 0);
  in_sh (vfs_close root);;
  in_sh (vfs_symlink vf stk "/777" "/../../../../../../..");;
  '(_, vn) ← in_sh (vfs_mkdir vf stk "/777/lmao" vn);
  '(_, root) ← in_sh (vfs_open vf stk "/" root VNON 0);
  in_sh (vfs_close root);;
  in_sh (vfs_symlink vf stk "/fornite" "/777");;
  '(_, vn) ← in_sh (vfs_mkdir vf stk "/fornite/SEX" vn);
  '(_, vn) ← in_sh (vfs_mkdir vf stk "/fornite/SEX/nice" vn);
  print newline;;
  r ← in_sh (vfs_unlink vf stk "/777");
  printdir root;;
  mret (v, vn, root).

Definition ramfs_t_rest (v vn root : ptr) : K sh unit :=
  '(r, vn) ← in_sh (vfs_mkdir vf stk "/lmao" vn); panic_if (r ≠ - EEXIST) "/lmao";;
  '(_, vn) ← in_sh (vfs_mkdir vf stk "/lmao/nice" vn);
  '(r, vn) ← in_sh (vfs_mkdir vf stk "/lmao/nice" vn); panic_if (r ≠ - EEXIST) "mkdir";;
  '(_, vn) ← in_sh (vfs_mkdir vf stk "/whale" vn);
  '(_, vn) ← in_sh (vfs_mkdir vf stk EmptyString vn);
  '(r, root) ← in_sh (vfs_open vf stk "/" root VNON 0);
  b ← (if decide (r < 0) then mret true else x ← in_sh (load (T := vnode) root); mret (bool_decide (Z.land (v_flags x) VROOT = 0)));
  panic_if (b = true) "error1";;
  in_sh (vfs_close root);;
  r ← in_sh (vfs_mount vf stk (Some "/") "ramfs"); panic_if (r < 0) "error2";;
  r ← in_sh (vfs_mount vf stk (Some "/") "ramfs"); panic_if (r ≠ - EBUSY) "mountpoint busy";;
  '(r, vn) ← in_sh (vfs_mkdir vf stk "/mnt" vn); panic_if (r ≠ - EEXIST) "error4";;
  r ← in_sh (vfs_mount vf stk (Some "/mnt") "ramfs"); panic_if (r < 0) "mtn mount";;
  '(r, v) ← in_sh (vfs_open vf stk "/mnt" v VNON 0);
  '(r, v) ← in_sh (vfs_mkdir vf stk "/mnt/bruno" v);
  x ← in_sh (load (T := vnode) v);
  panic_if (v_refcount x > 1) "refcount";;
  '(r, vn) ← in_sh (vfs_mkdir vf stk "/mnt/bruno/mars" vn);
  x ← in_sh (load (T := vnode) v);
  panic_if (v_refcount x > 1) "refcount";;
  r ← in_sh (vfs_unmount vf stk "/mnt");
  '(r, vn) ← in_sh (vfs_open vf stk "/mnt" vn VNON 0);
  b ← (if decide (vn = v) then mret true else x ← in_sh (load (T := vnode) vn); mret (bool_decide (v_mountedhere x ≠ NULL)));
  panic_if (b = true) "unmount";;
  '(r, _, _) ← in_sh (vfs_readdir root 1000 0); panic_if (r = 0) "error5";;
  '(r, vn) ← in_sh (vfs_open vf stk "/maiin.c" vn VREG O_CREATE);
  in_sh (vput vn);; panic_if (r < 0) "create";;
  '(r, vn) ← in_sh (vfs_create vf stk "/maiin.c/error" vn VREG); panic_if (r ≠ - ENOTDIR) "create dir";;
  '(_, v) ← in_sh (vfs_mkdir vf stk "/pe" v);
  '(_, vn) ← in_sh (vfs_open vf stk "/" vn VNON 0);
  in_sh (vfs_close vn);;
  r ← in_sh (vfs_rmdir vf stk "/mnt/bruno"); panic_if (r ≠ - ENOENT) "enotdir";;
  r ← in_sh (vfs_rmdir vf stk "/mnt"); panic_if (r ≠ 0) "rmdir";;
  r ← in_sh (vfs_rmdir vf stk "/whale"); panic_if (r ≠ 0) "rmdir";;
  r ← in_sh (vfs_rmdir vf stk "/lmao"); panic_if (r ≠ - ENOTEMPTY) "rmdir";;
  r ← in_sh (vfs_unlink vf stk "/main.c"); panic_if (r ≠ - ENOENT) "ENOENTaminc.";;
  r ← in_sh (vfs_unlink vf stk "/maiin.c"); panic_if (r ≠ 0) "maiin.cERRO";;
  '(_, v) ← in_sh (vfs_mkdir vf stk "/lmo" v);
  r ← in_sh (vfs_rmdir vf stk "/SEX"); panic_if (r ≠ - ENOTEMPTY) "ENOTEMPTY";;
  r ← in_sh (vfs_unlink vf stk "/lmao"); panic_if (r ≠ - EISDIR) "ESIDIR";;
  r ← in_sh (vfs_rmdir vf stk "/lmao"); panic_if (r ≠ - ENOTEMPTY) "ENOTMEPT)";;
  r ← in_sh (vfs_unlink vf stk "/."); panic_if (r ≠ - EBUSY) "EPERM";;
  r ← in_sh (vfs_rmdir vf stk "/SEX"); panic_if (r ≠ - ENOTEMPTY) "ENOTEMPTY";;
  r ← in_sh (vfs_unlink vf stk "/lmao"); panic_if (r ≠ - EISDIR) "ESIDIR";;
  r ← in_sh (vfs_rmdir vf stk "/lmao"); panic_if (r ≠ - ENOTEMPTY) "ENOTMEPT)";;
  r ← in_sh (vfs_unlink vf stk "/."); panic_if (r ≠ - EBUSY) "EPERM";;
  print "SDHIT";;
  printdir root;;
  print "LMAO";;
  print newline;;
  in_sh (vfs_unlink vf stk "/mainn.c");;
  printdir vn;;
  '(_, vn) ← in_sh (vfs_mkdir vf stk "/newdir" vn);
  '(_, vn) ← in_sh (vfs_mkdir vf stk "/newdir/nicer" vn);
  '(_, vn) ← in_sh (vfs_mkdir vf stk "/newdir/juicerr" vn);
  '(_, vn) ← in_sh (vfs_open vf stk "/newdir" vn VNON 0);
  printdir vn.

Definition ramfs_t : K sh unit :=
  '(v, vn, root) ← ramfs_t_first UNINIT UNINIT UNINIT stk;
  ramfs_t_rest v vn root.

End selftest.
