(* ===== verification/SelftestTheorems.v ===== *)
(** * The tests of the boot: what they return

    The tests, evaluated: [test_slab] on an empty memory, [ramfs_t] on the
    mounted root. *)

From S2P Require Import Prelude CString Word Pmm PmmSpec Slab SlabSpec Vmm VmmSpec VmmDemo.
From S2P Require Import FsState Ramfs RamfsDir RamfsOps RamfsInv Vfs VfsRefs Demo Initramfs Selftest.

Local Open Scope Z_scope.

(** test_slab returns on an empty memory of 16 GiB: blocks are handed out that keep what
    is written to them. Of its pages it leaves nine taken: those of its slabs and of
    palloc, and one of each of the two large blocks, though these were given back. *)
Theorem test_slab_passes :
  match test_slab boot_pages 100 (vmm_mm boot) with
  | Ok (_, s) => mm_lock s = 0 ∧ filter (λ j, tk s j = true) (seqZ 0 64) = [0; 1; 2; 3; 4; 5; 6; 7; 8; 18]
  | _ => False
  end.
Proof. vm_compute. by split. Qed.

(** The state of [kmain] before [ramfs_t]. *)
Definition booted : sh := Sh (state_of (init_rootvn demo0)) 0 [].

Definition fault_of {A S} (r : outcome (A * S)) : option fault := match r with Fault e => Some e | _ => None end.

(** [ramfs_t] reads freed memory, in the unmount of /mnt. *)
Theorem ramfs_t_reads_freed :
  fault_of (ramfs_t 9 stk0 booted) = Some DanglingPtr ∧
  fault_of ((in_sh (vfs_mkdir 9 stk0 "/mnt" UNINIT);; in_sh (vfs_mount 9 stk0 (Some "/mnt"%string) "ramfs");;
             in_sh (vfs_unmount 9 stk0 "/mnt")) booted) = Some DanglingPtr.
Proof. vm_compute. by split. Qed.

(** ** With an unmount that does not *)

(** The loops of [ramfs_unmount], the next pointer read before the object is freed. *)
Fixpoint unmount_dents_next (fuel : nat) (node de : ptr) : F unit :=
  match fuel with
  | O => hang
  | S fuel =>
      if decide (de = NULL) then mret tt else
      d ← load de;
      (if decide (de_node d ≠ NULL) then update (de_node d) (set_vnode NULL) else mret tt);;
      ramfs_dir_detach node de;;
      ramfs_free_dentry de;;
      unmount_dents_next fuel node (de_next d)
  end.

Fixpoint unmount_nodes_next (fuel : nat) (node : ptr) : F unit :=
  match fuel with
  | O => hang
  | S fuel =>
      if decide (node = NULL) then mret tt else
      update node (set_vnode NULL);;
      n ← load node;
      (if decide (rn_type n = VDIR) then
         '(h, _, _) ← as_dir n; k ← dents_fuel; unmount_dents_next k node h
       else mret tt);;
      n ← load node;
      unmount_nodes_next fuel (rn_next n)
  end.

Fixpoint unmount_free_next (fuel : nat) (ram node : ptr) : F unit :=
  match fuel with
  | O => hang
  | S fuel =>
      if decide (node = NULL) then mret tt else
      n ← load (T := ramnode) node;
      ramfs_free_node ram node;;
      unmount_free_next fuel ram (rn_next n)
  end.

Definition unmount_next (vfs : ptr) : F Z :=
  m ← load (T := FsState.vfs) vfs;
  let ram := m_data m in
  s ← get;
  let fuel := S (size (fs_nodes s)) in
  r ← load ram;
  unmount_nodes_next fuel (rv_nodes r);;
  r ← load ram;
  unmount_free_next fuel ram (rv_nodes r);;
  kfree ramvfs ram;;
  mret 0.

(** [ramfs_inactive], the lock released before the node is freed. *)
Definition inactive_next (vn : ptr) : F unit :=
  v ← load vn;
  let node := v_data v in
  acquire_ram node;;
  update node (set_vnode NULL);;
  n ← load node;
  if decide (rn_linkcount n = 0) then m ← load (v_vfs v); release_ram node;; ramfs_free_node (m_data m) node
  else release_ram node.

Definition repaired_vnode_ops : vnodeops := {|
  vop_open := ramfs_open; vop_read := ramfs_read; vop_write := ramfs_write; vop_remove := ramfs_remove;
  vop_lookup := ramfs_lookup; vop_create := ramfs_create; vop_mkdir := ramfs_mkdir; vop_rmdir := ramfs_rmdir;
  vop_close := ramfs_close; vop_inactive := inactive_next; vop_symlink := ramfs_symlink;
  vop_readlink := ramfs_readlink; vop_readdir := ramfs_readdir; vop_link := ramfs_link |}.

Definition repaired_ops : vfsops := {|
  vfs_name := "ramfs"; vfsop_mount := ramfs_mount; vfsop_unmount := unmount_next; vfsop_root := ramfs_root; vfsop_vget := ramfs_vget |}.

(** The first half of [ramfs_t] passes with these operations; the second half
    gives the vnode of a file back twice, when it creates a name below the file. *)
Theorem ramfs_t_repaired :
  match ramfs_t_first (vops := repaired_vnode_ops) (fops := repaired_ops) 9 stk0 UNINIT UNINIT UNINIT stk0 booted with
  | Ok (v, vn, root, s) => sh_spinlock s = 0 ∧ (0 < length (sh_shown s))%nat ∧
      fault_of (ramfs_t_rest (vops := repaired_vnode_ops) (fops := repaired_ops) 9 stk0 v vn root s) = Some DanglingPtr
  | _ => False
  end.
Proof. vm_compute. split; [done|split; [lia|done]]. Qed.

(** A path that goes on below a file: namei fails with the file as parent and as
    vnode, and vfs_open with O_CREATE gives both back. The vnode of an open file is freed under its holder;
    if the file is not open, it is used after it was freed. *)
Theorem open_below_file_drops_reference :
  (match vfs_open 9 stk0 "/f/x" NULL VREG O_CREATE demo3 with
   | Ok ((r, _), s) => r = - ENOTDIR ∧ is_Some (fs_vnodes demo3 !! 7) ∧ fs_vnodes s !! 7 = None
   | _ => False
   end) ∧
  (match vfs_close 7 demo3 with
   | Ok (_, s) => fault_of (vfs_open 9 stk0 "/f/x" NULL VREG O_CREATE s) = Some DanglingPtr
   | _ => False
   end).
Proof. vm_compute. split; [|done]. split; [done|split; [by eexists|done]]. Qed.
