(* ===== verification/Boot.v ===== *)
(** * kernel/kernel.c [kmain], kernel/interrupt.c [init_interrupt], kernel/cpu.c [init_cpu] and [cpu], fs/vfs.c [init_rootfs]

    The states of all components as one machine.  The components were
    modelled on the state they use; here the same processes, the same
    memory and the same lock of the console go from one to the next. *)

From S2P Require Import Prelude CString Word Pmm Slab Vmm Acpi Kbd Desc Args Proc Trap FsState Ramfs Vfs Initramfs Exec Selftest.

Local Open Scope Z_scope.

(** [m_irq] without its processes and [m_idt] without its memory, which are those
    of [m_sys]; the globals [rsdt] and [NMI_LINT]. *)
Record machine := Machine { m_sys : sys; m_irq : irq; m_idt : idts; m_rsdt : ptr; m_nmi : Z }.

Definition set_m_sys (v : sys) (s : machine) : machine := Machine v (m_irq s) (m_idt s) (m_rsdt s) (m_nmi s).
Definition set_m_irq (v : irq) (s : machine) : machine := Machine (m_sys s) v (m_idt s) (m_rsdt s) (m_nmi s).
Definition set_m_idt (v : idts) (s : machine) : machine := Machine (m_sys s) (m_irq s) v (m_rsdt s) (m_nmi s).
Definition set_m_rsdt (v : ptr) (s : machine) : machine := Machine (m_sys s) (m_irq s) (m_idt s) v (m_nmi s).
Definition set_m_nmi (v : Z) (s : machine) : machine := Machine (m_sys s) (m_irq s) (m_idt s) (m_rsdt s) v.

Definition on {T A} (view : machine → T) (put : T → machine → machine) (f : K T A) : K machine A := λ s,
  match f (view s) with
  | Ok (a, t) => Ok (a, put t s)
  | Panic msg => Panic msg
  | Hang => Hang
  | Fault e => Fault e
  end.

Definition m_memory (s : machine) : mem := mm_mem (y_mm (m_sys s)).

Definition on_sys {A} : K sys A → K machine A := on m_sys set_m_sys.
Definition on_ker {A} (f : K ker A) : K machine A := on_sys (in_yker f).
Definition on_mm {A} (f : M A) : K machine A := on_sys (in_ymm f).
Definition on_vfs {A} (f : F A) : K machine A := on_sys (in_yfs f).
Definition on_irq {A} : K irq A → K machine A :=
  on (λ s, set_t_ker (y_ker (m_sys s)) (m_irq s))
    (λ t s, let y := m_sys s in set_m_irq t (set_m_sys (Sys (y_fs y) (t_ker t) (y_kmap y) (y_gdt y) (y_cr3 y)) s)).
Definition on_kbd {A} (f : K kbd A) : K machine A := on_irq (in_kbd f).
Definition on_idt {A} : K idts A → K machine A :=
  on (λ s, Idts (m_memory s) (id_idtr (m_idt s)) (id_cpu (m_idt s)))
    (λ t s, set_m_idt t (set_m_sys (set_y_mm (set_mm_pmm (set_pm_mem (id_mem t) (mm_pmm (y_mm (m_sys s)))) (y_mm (m_sys s))) (m_sys s)) s)).

(** What a string puts on the console. *)
Definition shown (msg : string) : event := Shown ((λ c, Z.of_nat (Ascii.nat_of_ascii c)) <$> String.list_ascii_of_string msg).

Definition on_sh {A} : K sh A → K machine A :=
  on (λ s, Sh (y_fs (m_sys s)) (k_spinlock (t_kbd (m_irq s))) [])
    (λ t s, let y := m_sys s in let k := t_kbd (m_irq s) in
      set_m_irq (set_t_kbd (Kbd (map shown (sh_shown t) ++ k_log k) (sh_spinlock t) (key_release k) (k_flags k)) (m_irq s))
        (set_m_sys (Sys (sh_fs t) (y_ker y) (y_kmap y) (y_gdt y) (y_cr3 y)) s)).

Definition on_ir {A} : K ir A → K machine A :=
  on (λ s, Ir (y_fs (m_sys s)) (m_memory s))
    (λ t s, set_m_sys (let y := set_y_mm (set_mm_pmm (set_pm_mem (ir_mem t) (mm_pmm (y_mm (m_sys s)))) (y_mm (m_sys s))) (m_sys s) in
      Sys (ir_fs t) (y_ker y) (y_kmap y) (y_gdt y) (y_cr3 y)) s).

(** A function that only reads memory. *)
Definition on_read {A} (f : mem → outcome A) : K machine A := λ s,
  match f (m_memory s) with
  | Ok a => Ok (a, s)
  | Panic msg => Panic msg
  | Hang => Hang
  | Fault e => Fault e
  end.

Definition mprint (msg : string) : K machine unit := on_kbd (Kbd.print 1 (literal msg)).

Definition MADT_C : Z := 0x43495041.

(** What the boot loader, the firmware and the linker provide, and the
    bounds of the other files. *)
Record given := Given {
  memmap : list memmap_entry; rsdp : ptr; modules : option ptr; kaddr : image;
  idt : ptr; isr_table : Z → Z; isr_kbd : Z; isr_apic_timer : Z; isr_timer : Z; spurious : Z; isr_syscall : Z;
  label_ret : Z; thread1_entry : Z; thread2_entry : Z; thread3_entry : Z; tss_local : ptr;
  tar_name_buf : ptr; ustar_literal : ptr;
  port_dev : list event → Z → Z; lapic_dev : list mmio → ptr → Z; ticks : nat → nat;
  pf : nat; fuel : nat; vf : nat; stk : nameidata; return_address : Z }.

Section boot.
Context `{vops : vnodeops} `{fops : vfsops}.
Context (g : given).

Definition init_interrupt : K machine unit :=
  on_idt (init_idt (idt g) (isr_table g));;
  on_kbd (pic_remap (port_dev g) 0x20);;
  on_idt (init_gates (idt g) (isr_kbd g) (isr_apic_timer g) (isr_timer g) (spurious g) (isr_syscall g));;
  on_kbd (unmask_irq (port_dev g) 1);;
  on_kbd (unmask_irq (port_dev g) 0);;
  s ← get; on_kbd (init_kbd (port_dev g) (fuel g) (m_rsdt s) (m_memory s)).

Definition init_rootfs : F unit := modify (set_vfslist_lock 0).

(** [kmain] up to the call of [ramfs_t]. *)
Definition kmain_start : K machine unit :=
  on_mm (in_pmm (initbmap P2V (memmap g)));;
  on_mm (in_pmm (palloc (pf g) 1));;
  mprint "E";;
  on_kbd (modify (set_spinlock 0));;
  rsdt ← on_read (λ m, Ok (init_acpi (rsdp g) m)); modify (set_m_rsdt rsdt);;
  on_ker (allocproc (pf g) (label_ret g) (thread1_entry g));;
  on_ker (allocproc (pf g) (label_ret g) (thread2_entry g));;
  on_ker (allocproc (pf g) (label_ret g) (thread3_entry g));;
  on_ker init_plock;;
  mprint "U";;
  on_mm (test_slab (pf g) (fuel g));;
  mprint "B";;
  on_vfs init_rootfs;;
  on_vfs (vfs_mount (vf g) (stk g) None "ramfs");;
  on_vfs init_rootvn;;
  madt ← on_read (get_acpi_sdt (fuel g) rsdt MADT_C);
  s ← get; nmi ← on_read (walk_madt (fuel g) madt (m_nmi s)); modify (set_m_nmi nmi);;
  on_sys (in_ygdt (init_gdt (pf g) (tss_local g)));;
  init_interrupt;;
  on_kbd (init_pit 1000).

(** The terminal is not written: the call is a comment. *)
Definition printl : K machine unit :=
  on_kbd (s ← get; if decide (k_spinlock s = 0) then modify (set_spinlock 1) else hang);;
  on_kbd (modify (set_spinlock 0)).

(** The rest of [kmain]. *)
Definition kmain_rest : K machine unit :=
  on_sh (ramfs_t (vf g) (stk g));;
  on_ir (initramfs (vf g) (stk g) (tar_name_buf g) (ustar_literal g) (fuel g) (modules g));;
  '(_, v) ← on_vfs (vfs_open (vf g) (stk g) "/main.c" UNINIT VNON 0);
  (if decide (v = UNINIT) then fail Uninitialised else
   if decide (v = NULL) then mret tt else
     on_vfs (vfs_read v 0 100);;
     printl;;
     on_vfs (vfs_close v);; mret tt);;
  on_sys (in_yvmm (init_vm (pf g) (fuel g) (fuel g) (kaddr g)));;
  on_ker (init_proc 0 (return_address g)).

Definition kmain : K machine unit := kmain_start;; kmain_rest.

(** [for (;;) { }] *)
Definition for_ever {A} : K machine A := hang.

(** The threads; [argv] is the second argument register of the call of [exec]
    with one argument, [aux] as in [exec]. *)
Definition thread1 (h : elf_h) (junk : Z → Z) (argv : ptr) (aux : auxval) : K machine unit :=
  on_sys (exec h (vf g) (stk g) (pf g) (fuel g) junk "/exe" argv aux (return_address g));;
  on_ker r;;
  for_ever.
Definition thread2 : K machine unit := on_ker r;; for_ever.
Definition thread3 : K machine unit := on_ker r;; for_ever.

(** [struct limine_smp_response] and [struct limine_smp_info]. *)
Definition smp_cpus (response : ptr) : ptr := response + 24.
Definition info_goto_address (info : ptr) : ptr := info + 16.

(** [smp->cpus[1]->goto_address = cpu] *)
Definition init_cpu (smp cpu : ptr) : M unit :=
  cpus ← load64 (smp_cpus smp);
  info ← load64 (cpus + 8);
  store64 (info_goto_address info) cpu.

(** The pages that [cpu] takes and gives back. *)
Definition cpu_pages (pf : nat) : K pmm unit := l ← palloc pf 100; freepg (P2V l) 100.

(** Another CPU; its tables and registers are its own part of the machine. *)
Definition cpu : K machine unit :=
  on_idt load_idt;;
  on_sys (in_ygdt load_gdt);;
  tr ← on_sys (in_ygdt (init_tss (pf g) (tss_local g)));
  s ← get; madt ← on_read (get_acpi_sdt (fuel g) (m_rsdt s) MADT_C);
  lapic ← on_read (λ m, Ok (u64 (HHDM_OFFSET + rdn 4 m (madt + 36))));
  on_irq (init_apic (lapic_dev g) (fuel g) (λ i, timers (ticks g i)) (m_nmi s) lapic);;
  on_mm (in_pmm (cpu_pages (pf g)));;
  on_ker (init_proc 1 (return_address g)).

End boot.
