(* ===== verification/BootTheorems.v ===== *)
(** * The start of the machine: the properties

    The interrupt set-up against an abstract interrupt controller, the run of
    [kmain] on a machine with one block of memory, and the pages [cpu] takes. *)

From S2P Require Import Prelude CString CStringSpec Word Pmm PmmSpec Slab SlabSpec Vmm VmmSpec VmmDemo Acpi Kbd Desc DescSpec DevTheorems.
From S2P Require Import Args Proc Trap FsState Ramfs RamfsDir RamfsOps RamfsInv RamfsSpec RamfsUnlink RamfsLookup Vfs VfsRefs Demo Initramfs Exec Selftest Boot.

Local Open Scope Z_scope.

(** ** The two interrupt controllers

    The part of the 8259A that the code programs: four initialisation words,
    of which the first clears the mask and the second is the offset of the
    vectors; at other times a byte for the data port is the mask. *)
Record pic := Pic { vector_offset : Z; mask : Z; icw : nat }.

Definition data_step (v : Z) (p : pic) : pic :=
  match icw p with
  | 0%nat => Pic (vector_offset p) v 0
  | 1%nat => Pic (Z.land v 0xF8) (mask p) 2
  | 2%nat => Pic (vector_offset p) (mask p) 3
  | _ => Pic (vector_offset p) (mask p) 0
  end.

Definition pic_step (command : Z) (e : event) (p : pic) : pic :=
  match e with
  | Out port v =>
      if decide (port = command) then (if Z.testbit v 4 then Pic (vector_offset p) 0 1 else p)
      else if decide (port = command + 1) then data_step v p else p
  | _ => p
  end.

Lemma step_command command p : pic_step command (Out command 17) p = Pic (vector_offset p) 0 1.
Proof. cbn [pic_step]. by rewrite decide_True. Qed.

Lemma step_data command v p : pic_step command (Out (command + 1) v) p = data_step v p.
Proof. cbn [pic_step]. rewrite decide_False by lia. by rewrite decide_True. Qed.

Lemma step_other command port v p : port ≠ command → port ≠ command + 1 → pic_step command (Out port v) p = p.
Proof. intros. cbn [pic_step]. by rewrite !decide_False. Qed.

Fixpoint pic_of (command : Z) (p0 : pic) (log : list event) : pic :=
  match log with
  | [] => p0
  | e :: log => pic_step command e (pic_of command p0 log)
  end.

(** The events of the keyboard's controller. *)
Definition kbd_event (e : event) : Prop :=
  match e with In port _ | Out port _ => port = 0x60 ∨ port = 0x64 | Shown _ => False end.

Lemma pic_of_kbd command p0 evs log :
  Forall kbd_event evs → command = 0x20 ∨ command = 0xA0 → pic_of command p0 (evs ++ log) = pic_of command p0 log.
Proof.
  intros He Hc. induction He as [|e evs He _ IH]; [done|]. cbn [app pic_of]. rewrite IH.
  destruct e as [|port v|]; [done| |done]. cbn [pic_step]. destruct He as [-> | ->], Hc as [-> | ->]; done.
Qed.

(** A program that returns and only talks to that controller. *)
Definition talks {A} (f : K kbd A) : Prop :=
  ∀ s, ∃ a evs, f s = Ok (a, Kbd (evs ++ k_log s) (k_spinlock s) (key_release s) (k_flags s)) ∧ Forall kbd_event evs.

Lemma talks_out port v : port = 0x60 ∨ port = 0x64 → talks (out port v).
Proof. intros Hp [log sp rel fl]. exists tt, [Out port (u8 v)]. split; [done|]. by apply Forall_singleton. Qed.

Lemma talks_inb dev port : port = 0x60 ∨ port = 0x64 → talks (inb dev port).
Proof. intros Hp [log sp rel fl]. eexists _, [In port _]. split; [done|]. by apply Forall_singleton. Qed.

Lemma talks_mret {A} (a : A) : talks (mret a).
Proof. intros [log sp rel fl]. by exists a, []. Qed.

Lemma talks_bind {A B} (f : K kbd A) (k : A → K kbd B) : talks f → (∀ a, talks (k a)) → talks (f ≫= k).
Proof.
  intros Hf Hk [log sp rel fl]. destruct (Hf (Kbd log sp rel fl)) as (a & e1 & E1 & H1).
  destruct (Hk a (Kbd (e1 ++ log) sp rel fl)) as (b & e2 & E2 & H2). exists b, (e2 ++ e1).
  cbn [k_log k_spinlock key_release k_flags] in *. rewrite (bind_ok _ _ _ _ _ E1), E2, app_assoc. split; [done|]. by apply Forall_app.
Qed.

Create HintDb talks.
#[export] Hint Resolve talks_out talks_inb talks_mret talks_bind : talks.

Lemma init_kbd_talks dev fuel rsdt m b : check_ps2 fuel rsdt m = Ok b → talks (init_kbd dev fuel rsdt m).
Proof.
  intros Hb. apply talks_bind.
  - intros [log sp rel fl]. exists b, []. by rewrite Hb.
  - intros b'. case_decide; [apply talks_mret|]. unfold disdev, getconfb, setconfb, gettype, getscancode.
    repeat (apply talks_bind; intros); auto with talks.
Qed.

(** ** The interrupt set-up *)

Section set_up.
Context (dev : list event → Z → Z) (p1 p2 : pic).

(** The controllers answer a read of their data port with the mask. *)
Definition pics_answer : Prop :=
  ∀ log, dev log 0x21 = mask (pic_of 0x20 p1 log) ∧ dev log 0xA1 = mask (pic_of 0xA0 p2 log).

(** What a controller was told last. *)
Definition programmed (log : list event) (offset mask1 mask2 : Z) : Prop :=
  pic_of 0x20 p1 log = Pic offset mask1 0 ∧ pic_of 0xA0 p2 log = Pic offset mask2 0.

Definition byte_pic (log : list event) (p : pic) : Prop := 0 ≤ mask p < 2 ^ 8 ∧ icw p = 0%nat.

Lemma pic_remap_run offset log sp rel fl :
  pics_answer → byte_pic log (pic_of 0x20 p1 log) → byte_pic log (pic_of 0xA0 p2 log) → Z.land (u8 offset) 0xF8 = offset →
  ∃ log', pic_remap dev offset (Kbd log sp rel fl) = Ok (tt, Kbd log' sp rel fl) ∧
    programmed log' offset (mask (pic_of 0x20 p1 log)) (mask (pic_of 0xA0 p2 log)).
Proof.
  intros Hd [Hm1 Hi1] [Hm2 Hi2] Ho. unfold pic_remap, PIC1_COMMAND, PIC1_DATA, PIC2_COMMAND, PIC2_DATA, ICW1.
  change (Z.lor 16 1) with 17.
  rewrite (bind_ok _ _ _ _ _ (inb_run dev 0x21 _ _ _ _)). set (log1 := In 0x21 _ :: log).
  rewrite (bind_ok _ _ _ _ _ (inb_run dev 0xA1 _ _ _ _)). set (log2 := In 0xA1 _ :: log1).
  destruct (Hd log) as [-> _]. destruct (Hd log1) as [_ ->].
  assert (pic_of 0xA0 p2 log1 = pic_of 0xA0 p2 log) as -> by done.
  rewrite (u8_small (mask (pic_of 0x20 p1 log))), (u8_small (mask (pic_of 0xA0 p2 log))) by done.
  assert (pic_of 0x20 p1 log2 = pic_of 0x20 p1 log) as E1 by done. assert (pic_of 0xA0 p2 log2 = pic_of 0xA0 p2 log) as E2 by done.
  clearbody log1 log2. rewrite !(bind_ok _ _ _ _ _ (out_run _ _ _ _ _ _)), out_run. eexists. split; [done|].
  change (u8 17) with 17. change (u8 4) with 4. change (u8 2) with 2. change (u8 1) with 1.
  split; cbn [pic_of]; rewrite ?E1, ?E2; repeat first [rewrite step_other by done|rewrite (step_data 0x20)|rewrite (step_data 0xA0)|rewrite step_command];
    cbn [vector_offset mask icw data_step]; by rewrite Ho, u8_small.
Qed.

Lemma unmask_irq_run irq offset m1 m2 log sp rel fl :
  pics_answer → programmed log offset m1 m2 → 0 ≤ m1 < 2 ^ 8 → 0 ≤ irq < 8 →
  ∃ log', unmask_irq dev irq (Kbd log sp rel fl) = Ok (tt, Kbd log' sp rel fl) ∧
    programmed log' offset (Z.lxor m1 (Z.shiftl 1 irq)) m2 ∧ 0 ≤ Z.lxor m1 (Z.shiftl 1 irq) < 2 ^ 8.
Proof.
  intros Hd [H1 H2] Hm Hi. unfold unmask_irq. rewrite (bind_ok _ _ _ _ _ (inb_run dev 0x21 _ _ _ _)), out_run.
  destruct (Hd log) as [-> _]. rewrite H1. cbn [mask]. rewrite (u8_small m1) by done.
  assert (Z.lxor m1 (Z.shiftl 1 irq) = u8 (Z.lxor m1 (Z.shiftl 1 irq))) as E.
  { apply byte_of_bits. intros n Hn. rewrite Z.lxor_spec, (small_testbit _ n) by done.
    rewrite Z.shiftl_1_l, Z.pow2_bits_false by lia. done. }
  rewrite <-E. eexists. split; [done|]. split; [|rewrite E; apply u8_range].
  split; cbn [pic_of].
  - rewrite (step_data 0x20). cbn [pic_step]. by rewrite H1.
  - rewrite step_other by done. cbn [pic_step]. by rewrite H2.
Qed.

End set_up.

(** The vector at which the processor gets a request, if it gets it. *)
Definition delivers (p : pic) (irq : Z) : option Z := if Z.testbit (mask p) irq then None else Some (vector_offset p + irq).

(** What a part of the machine does to the rest. *)
Lemma on_idt_run {A} (f : K idts A) s a t :
  f (Idts (m_memory s) (id_idtr (m_idt s)) (id_cpu (m_idt s))) = Ok (a, t) →
  ∃ s', on_idt f s = Ok (a, s') ∧ m_memory s' = id_mem t ∧ id_cpu (m_idt s') = id_cpu t ∧
    t_kbd (m_irq s') = t_kbd (m_irq s) ∧ m_rsdt s' = m_rsdt s.
Proof. intros E. unfold on_idt, on. rewrite E. by eexists. Qed.

Lemma on_kbd_run {A} (f : K kbd A) s a k :
  f (t_kbd (m_irq s)) = Ok (a, k) →
  ∃ s', on_kbd f s = Ok (a, s') ∧ m_memory s' = m_memory s ∧ id_cpu (m_idt s') = id_cpu (m_idt s) ∧
    t_kbd (m_irq s') = k ∧ m_rsdt s' = m_rsdt s ∧ id_idtr (m_idt s') = id_idtr (m_idt s).
Proof. intros E. unfold on_kbd, on_irq, on, in_kbd, set_t_ker. cbn. rewrite E. by eexists. Qed.

(** C18: on interrupt controllers that do what they are told, init_interrupt
    fills the interrupt table, the 32 exceptions, timer, keyboard, APIC timer and
    spurious vector as kernel gates, the system call as a gate of ring 3, and no
    other gate, and makes both
    controllers send their request [irq] as vector 32 + irq: the timer and the
    keyboard reach their handlers if the boot loader had masked them, and are
    masked if it had not, since [unmask_irq] flips the bit; every other mask is
    as it was, and the requests of the second controller come at the vectors of
    the first. *)
Theorem init_interrupt_delivers g p1 p2 b s :
  let log s := k_log (t_kbd (m_irq s)) in
  pics_answer (port_dev g) p1 p2 → byte_pic (log s) (pic_of 0x20 p1 (log s)) → byte_pic (log s) (pic_of 0xA0 p2 (log s)) →
  (∀ v, 0 ≤ v < 32 → 0 ≤ isr_table g v < 2 ^ 64) →
  Forall (λ a, 0 ≤ a < 2 ^ 64) [isr_kbd g; isr_apic_timer g; isr_timer g; spurious g; isr_syscall g] →
  (∀ m, only_table (idt g) (m_memory s) m → check_ps2 (fuel g) (m_rsdt s) m = Ok b) →
  ∃ s', init_interrupt g s = Ok (tt, s') ∧ id_cpu (m_idt s') = (4095, idt g) ∧ only_table (idt g) (m_memory s) (m_memory s') ∧
    (∀ w, gate_at (m_memory s') (idt g) w =
       match handler_of (isr_table g) (isr_kbd g) (isr_apic_timer g) (isr_timer g) (spurious g) (isr_syscall g) w with
       | Some (isr, flags) => Gate isr 0x28 0 flags 0
       | None => gate_at (m_memory s) (idt g) w
       end) ∧
    (∀ irq, 0 ≤ irq < 8 → delivers (pic_of 0x20 p1 (log s')) irq =
       if xorb (bool_decide (irq < 2)) (Z.testbit (mask (pic_of 0x20 p1 (log s))) irq) then None else Some (32 + irq)) ∧
    (∀ irq, 0 ≤ irq < 8 → delivers (pic_of 0xA0 p2 (log s')) irq =
       if Z.testbit (mask (pic_of 0xA0 p2 (log s))) irq then None else Some (32 + irq)).
Proof.
  intros log Hd B1 B2 Ht Hg Hps. unfold log in *. clear log. unfold init_interrupt.
  destruct (init_idt_ok (idt g) (isr_table g) (Idts (m_memory s) (id_idtr (m_idt s)) (id_cpu (m_idt s))) Ht) as (ma & Ea & Ga & Oa).
  destruct (on_idt_run _ s _ _ Ea) as (sa & Fa & Ma & Ca & Ka & Ra). rewrite (bind_ok _ _ _ _ _ Fa).
  destruct (t_kbd (m_irq s)) as [log sp rel fl] eqn:Es. cbn [k_log] in *.
  destruct (pic_remap_run (port_dev g) p1 p2 0x20 log sp rel fl Hd B1 B2 eq_refl) as (lb & Eb & Pb). rewrite <-Ka in Eb.
  destruct (on_kbd_run _ sa _ _ Eb) as (sb & Fb & Mb & Cb & Kb & Rb & Ib). rewrite (bind_ok _ _ _ _ _ Fb).
  destruct (init_gates_ok (idt g) (isr_kbd g) (isr_apic_timer g) (isr_timer g) (spurious g) (isr_syscall g)
    (Idts (m_memory sb) (id_idtr (m_idt sb)) (id_cpu (m_idt sb))) Hg) as (mc & Ec & Gc & Oc).
  destruct (on_idt_run _ sb _ _ Ec) as (sc & Fc & Mc & Cc & Kc & Rc). rewrite (bind_ok _ _ _ _ _ Fc).
  destruct B1 as [B1 _].
  destruct (unmask_irq_run (port_dev g) p1 p2 1 _ _ _ lb sp rel fl Hd Pb B1 ltac:(lia)) as (ld & Ed & Pd & Bd). rewrite <-Kb, <-Kc in Ed.
  destruct (on_kbd_run _ sc _ _ Ed) as (sd & Fd & Md & Cd & Kd & Rd & Id). rewrite (bind_ok _ _ _ _ _ Fd).
  destruct (unmask_irq_run (port_dev g) p1 p2 0 _ _ _ ld sp rel fl Hd Pd Bd ltac:(lia)) as (le & Ee & Pe & Be). rewrite <-Kd in Ee.
  destruct (on_kbd_run _ sd _ _ Ee) as (se & Fe & Me & Ce & Ke & Re & Ie). rewrite (bind_ok _ _ _ _ _ Fe), (bind_ok get _ _ _ _ eq_refl).
  assert (only_table (idt g) (m_memory s) (m_memory se)) as Oe.
  { intros a Hna. rewrite Me, Md, Mc. cbn [id_mem]. rewrite (Oc a Hna). cbn [id_mem]. rewrite Mb, Ma. by apply Oa. }
  assert (check_ps2 (fuel g) (m_rsdt se) (m_memory se) = Ok b) as Hb by (rewrite Re, Rd, Rc, Rb, Ra; by apply Hps).
  destruct (init_kbd_talks (port_dev g) (fuel g) (m_rsdt se) (m_memory se) b Hb (t_kbd (m_irq se))) as ([] & evs & Ef & Hev).
  destruct (on_kbd_run _ se _ _ Ef) as (sf & Ff & Mf & Cf & Kf & Rf & If). exists sf. split; [exact Ff|].
  split; [by rewrite Cf, Ce, Cd, Cc; cbn [id_cpu]; rewrite Cb, Ca|]. split; [by rewrite Mf|].
  split.
  { intros w. rewrite Mf, Me, Md, Mc. cbn [id_mem]. rewrite Gc. cbn [id_mem]. rewrite Mb, Ma. cbn [id_mem]. rewrite Ga.
    unfold handler_of. destruct (irq_gate _ _ _ _ _ w) as [[isr flags]|]; [done|]. by case_decide. }
  rewrite Kf, Ke. cbn [k_log]. rewrite !pic_of_kbd by auto. destruct Pe as [-> ->].
  split; intros irq Hi; unfold delivers; cbn [mask vector_offset]; [|done]. rewrite Z.lxor_assoc, Z.lxor_spec.
  change (Z.lxor (Z.shiftl 1 1) (Z.shiftl 1 0)) with 3. rewrite xorb_comm.
  assert (Z.testbit 3 irq = bool_decide (irq < 2)) as -> by (assert (irq ∈ seqZ 0 8) as Hs by (by apply elem_of_seqZ); by repeat (apply elem_of_cons in Hs as [->|Hs]; [done|]); by apply elem_of_nil in Hs).
  done.
Qed.

(** ** A machine

    63 MiB of memory from 1 MiB on, and below it the tables of the firmware:
    an RSDT at 0xE0100 with a MADT of one CPU and a FADT with a PS/2 controller. *)
Definition bytes32 (z : Z) : list Z := [z mod 256; z / 2 ^ 8 mod 256; z / 2 ^ 16 mod 256; z / 2 ^ 24 mod 256].

Definition firmware : mem := fold_right (λ p m, Str.write_list (HHDM_OFFSET + fst p) (snd p) m) ∅
  [(0xE0010, bytes32 0xE0100);
   (0xE0100, bytes32 0x54445352 ++ bytes32 44); (0xE0124, bytes32 0xE0200 ++ bytes32 0xE0234);
   (0xE0200, bytes32 0x43495041 ++ bytes32 52); (0xE0224, bytes32 0xfee00000); (0xE022C, [0; 8; 0; 0; 1; 0; 0; 0]);
   (0xE0234, bytes32 0x50434146 ++ bytes32 116); (0xE02A0, [2; 0])].

(** The controllers before the set-up, everything masked. *)
Definition pic1 : pic := Pic 0x08 0xFF 0.
Definition pic2 : pic := Pic 0x70 0xFF 0.

Definition pics (log : list event) (port : Z) : Z :=
  if decide (port = 0x21) then mask (pic_of 0x20 pic1 log) else if decide (port = 0xA1) then mask (pic_of 0xA0 pic2 log) else 0.

Definition g0 : given := {|
  memmap := [Pmm.Entry 0x100000 0x3f00000 0]; rsdp := HHDM_OFFSET + 0xE0000; modules := None; kaddr := boot_image;
  idt := 0xffffffff80100000; isr_table := λ v, 0xffffffff80001000 + 16 * v; isr_kbd := 0xffffffff80002000;
  isr_apic_timer := 0xffffffff80002010; isr_timer := 0xffffffff80002020; spurious := 0xffffffff80002030; isr_syscall := 0xffffffff80002040;
  label_ret := 0xffffffff80003000; thread1_entry := 0xffffffff80004000; thread2_entry := 0xffffffff80004100; thread3_entry := 0xffffffff80004200;
  tss_local := 0xffffffff80200000; tar_name_buf := 0xffffffff80200100; ustar_literal := 0xffffffff80200200;
  port_dev := pics; lapic_dev := λ _ _, 0; ticks := λ _, 1%nat; pf := Z.to_nat 20000; fuel := 200; vf := 9; stk := stk0;
  return_address := 0xffffffff80005000 |}.

Definition unused : proc := Proc 0 0 UNUSED 0 0.
Definition mm0 : mm := Mm (Pmm firmware 0 0 10) NULL 0 0.

Definition m0 : machine := Machine
  (Sys (no_fs (λ _ _, 0) 1 ∅) (Ker mm0 0 (replicate NPROC unused) 0 2 None (Proc.Cpu 0xffffffff80300000 0 0 0 0 0 0 0)) NULL
    (Gdts mm0 0 0 0 (0, 0) (55, 0xffffffff80400000)) 0)
  (Irq (Kbd [] 0 0 0) (Ker mm0 0 [] 0 2 None (Proc.Cpu 0 0 0 0 0 0 0 0)) 0 [] 0 false NULL)
  (Idts ∅ (0, 0) (0, 0)) 0 0.

(** The FADT is found in every memory that keeps the firmware's tables. *)
Lemma firmware_ps2 m : only_table (idt g0) firmware m → check_ps2 (fuel g0) (HHDM_OFFSET + 0xE0100) m = Ok 2.
Proof.
  intros Hm. assert (∀ n a, HHDM_OFFSET + 0xE0000 ≤ a < HHDM_OFFSET + 0xF0000 → (n ≤ 4)%nat → rdn n m a = rdn n firmware a) as Hr.
  { intros n a Ha Hn. apply rdn_ext. intros b Hb. apply Hm. unfold HHDM_OFFSET in *. cbn [idt g0]. lia. }
  unfold check_ps2, get_acpi_sdt.
  assert (∀ k, 0 ≤ k < 2 → Acpi.table m (HHDM_OFFSET + 0xE0100) k = Acpi.table firmware (HHDM_OFFSET + 0xE0100) k) as Ht.
  { intros k Hk. unfold Acpi.table. rewrite Hr; [done| |lia]. unfold RSDT_entry, HHDM_OFFSET. lia. }
  rewrite (get_acpi_sdt_loop_first (fuel g0) (HHDM_OFFSET + 0xE0100) FADT_CODE 0 1 m).
  - rewrite Ht by lia. rewrite Hr; [by vm_compute|by vm_compute|lia].
  - unfold is_table. rewrite Ht by lia. rewrite Hr; [by vm_compute|by vm_compute|lia].
  - intros j Hj. assert (j = 0) as -> by lia. unfold is_table. rewrite Ht by lia. rewrite Hr; [by vm_compute|by vm_compute|lia].
  - cbn. lia.
Qed.

Theorem init_interrupt_delivers_witness :
  let s := set_m_rsdt (HHDM_OFFSET + 0xE0100) m0 in
  only_table (idt g0) firmware firmware ∧
  ∃ s', init_interrupt g0 s = Ok (tt, s') ∧ gate_at (m_memory s') (idt g0) 14 = Gate (isr_table g0 14) 0x28 0 0x8E 0 ∧
    gate_at (m_memory s') (idt g0) 69 = Gate (isr_syscall g0) 0x28 0 0xEE 0 ∧
    let log := k_log (t_kbd (m_irq s')) in
    delivers (pic_of 0x20 pic1 log) 0 = Some 32 ∧ delivers (pic_of 0x20 pic1 log) 1 = Some 33 ∧ delivers (pic_of 0x20 pic1 log) 2 = None.
Proof.
  intros s. split; [done|].
  destruct (init_interrupt_delivers g0 pic1 pic2 2 s) as (s' & E & _ & _ & G & D & _).
  - intros log. done.
  - split; [split; [done|reflexivity]|done].
  - split; [split; [done|reflexivity]|done].
  - intros v Hv. cbn [isr_table g0]. lia.
  - repeat (apply Forall_cons; split; [split; [discriminate|reflexivity]|]). apply Forall_nil. exact I.
  - exact firmware_ps2.
  - exists s'. split; [exact E|]. split; [exact (G 14)|]. split; [exact (G 69)|]. cbv zeta in D |- *. rewrite !D by (split; [discriminate|reflexivity]). split; [reflexivity|split; reflexivity].
Defined.

(** ** The run of [kmain] *)

(** [r] is the result of a run that returned in a state with [P]. *)
Definition returned {S A} (r : outcome (A * S)) (P : S → bool) : bool := match r with Ok (_, s) => P s | _ => false end.

Lemma returned_ok {S} (r : outcome (unit * S)) P : returned r P = true → ∃ s, r = Ok (tt, s) ∧ P s = true.
Proof. destruct r as [[[] s]| | |]; [|done..]. by exists s. Qed.

#[global] Instance fault_eq_dec : EqDecision fault.
Proof. solve_decision. Defined.

Definition faults {S A} (r : outcome (A * S)) (e : fault) : bool := match r with Fault e' => bool_decide (e' = e) | _ => false end.

Lemma faults_ok {S A} (r : outcome (A * S)) e : faults r e = true → r = Fault e.
Proof. destruct r; try done. intros H. by apply bool_decide_eq_true in H as ->. Qed.

#[global] Instance gate_eq_dec : EqDecision gate.
Proof. solve_decision. Defined.

(** One process, the last one allocated, sits in slot 0 and is not runnable;
    it will start at the third thread. *)
Definition one_slot (g : given) (s : machine) : Prop :=
  match k_table (y_ker (m_sys s)) with
  | p :: rest =>
      p_pid p = 3 ∧ p_state p = UNUSED ∧ rdn 8 (m_memory s) (regs_rip (p_regs p)) = thread3_entry g ∧ Forall (λ q, p_pid q = 0) rest
  | [] => False
  end.

#[global] Instance one_slot_dec g s : Decision (one_slot g s).
Proof. unfold one_slot. destruct (k_table _); apply _. Defined.

(** The file system is mounted, its root is a directory; the console has shown
    "E", "U", "B". *)
Definition mounted (s : machine) : Prop :=
  fs_rootvn (y_fs (m_sys s)) ≠ NULL ∧
  (v_type <$> fs_vnodes (y_fs (m_sys s)) !! fs_rootvn (y_fs (m_sys s))) = Some VDIR ∧
  text (k_log (t_kbd (m_irq s))) = [69; 85; 66].

#[global] Instance mounted_dec s : Decision (mounted s).
Proof. unfold mounted. apply _. Defined.

(** What [kmain_start] leaves on the machine above. *)
Definition booted (s : machine) : Prop :=
  one_slot g0 s ∧ mounted s ∧ gate_at (m_memory s) (idt g0) 33 = Gate (isr_kbd g0) 0x28 0 0x8E 0 ∧
  Forall (λ irq, delivers (pic_of 0x20 pic1 (k_log (t_kbd (m_irq s)))) irq = if decide (irq < 2) then Some (32 + irq) else None) (seqZ 0 8).

#[global] Instance booted_dec s : Decision (booted s).
Proof. unfold booted. apply _. Defined.

(** On a machine with one block of memory, tables of the firmware and
    masked interrupt controllers, [kmain] up to [ramfs_t] returns: the
    allocators pass their test, the root file system is mounted, the timer and
    the keyboard are delivered at vectors 32 and 33, and nothing else is; of the
    three processes it allocates only the last is left, in the slot of the
    first two. [kmain] as a whole reads freed memory, in [ramfs_t]. *)
Theorem kmain_start_boots :
  (∃ s, kmain_start g0 m0 = Ok (tt, s) ∧ booted s) ∧ kmain g0 m0 = Fault DanglingPtr.
Proof.
  destruct (returned_ok (kmain_start g0 m0) (λ s, bool_decide (booted s) && faults (kmain_rest g0 s) DanglingPtr)) as (s & E & H); [by vm_compute|].
  destruct (andb_prop _ _ H) as [Hb Hf]. apply bool_decide_eq_true_1 in Hb. split; [exists s; exact (conj E Hb)|].
  unfold kmain. rewrite (bind_ok _ _ _ _ _ E). exact (faults_ok _ _ Hf).
Qed.

(** ** The other CPU *)

(** [cpu] gives [freepg] the virtual address of its pages and not the
    physical one: none of the 100 pages it took, nor any other page of memory,
    is free again. *)
Theorem cpu_leaks_pages fuel s q :
  0 ≤ q → q + 100 < 2 ^ 34 → free_run s q 100 → q < Z.of_nat fuel →
  ∃ p s2, cpu_pages fuel s = Ok (tt, s2) ∧ free_run s p 100 ∧ 0 ≤ p ≤ q ∧
    ∀ j, 0 ≤ j < 2 ^ 34 → taken (pm_bitmap s2) (pm_mem s2) j = in_run p 100 j || taken (pm_bitmap s) (pm_mem s) j.
Proof.
  intros Hq Hb Hrun Hf.
  destruct (palloc_ok fuel s 100 q) as (p & s1 & E & Hp & Hr & _ & Hbm & _ & Ht); [lia|done|unfold PGSIZE; lia|done|done|].
  set (k := 0xffff800000000). assert (P2V (p * PGSIZE) = (k + p) * PGSIZE) as Ea.
  { rewrite P2V_page, Z.mul_add_distr_r by lia. reflexivity. }
  destruct (freepg_ok s1 (k + p) 100) as (s2 & E2 & Hbm2 & _ & Ht2); [lia|lia|unfold PGSIZE; lia|].
  exists p, s2. unfold cpu_pages. rewrite (bind_ok _ _ _ _ _ E), Ea. split_and!; try done; try lia. intros j Hj. rewrite Ht2, Ht by lia.
  assert (in_run (k + p) 100 j = false) as ->; [|done].
  unfold in_run. apply bool_decide_eq_false_2. lia.
Qed.

(** A bitmap of zeros: the first 128 pages are free. *)
Theorem cpu_leaks_pages_witness :
  let s := Pmm ∅ 0x1000 0 128 in
  free_run s 0 100 ∧ ∃ s2, cpu_pages 10 s = Ok (tt, s2) ∧ taken (pm_bitmap s2) (pm_mem s2) 0 = true ∧ taken (pm_bitmap s2) (pm_mem s2) 99 = true.
Proof.
  intros s. assert (free_run s 0 100) as Hr by (intros j Hj; unfold taken; cbn [pm_bitmap pm_mem s]; unfold rd8; rewrite lookup_empty; apply Z.testbit_0_l).
  split; [exact Hr|].
  destruct (cpu_leaks_pages 10 s 0) as (p & s2 & E & _ & Hp & Ht); [lia|lia|exact Hr|lia|].
  assert (p = 0) as -> by lia. exists s2. split; [exact E|]. split; rewrite Ht by lia; reflexivity.
Defined.
